(* ===== verification/_CoqProject ===== *)
-Q . S2P
Prelude.v
Heap.v
Kheap.v
CString.v
Print.v
Keyboard.v
Gdt.v
Paging.v
Pparser.v
Disk.v
Fat16.v
File.v
Contents.v
Elf.v
Task.v
Sched.v
Exec.v
Process.v
Inject.v
Terminate.v
Isr.v
Exit.v
Boot.v
UString.v
Ulib.v
