(* ===== verification/Prelude.v ===== *)
(** * A verification library for the LKA kernel

    LKA is a small 32-bit kernel for the PC: a boot sector loads it from a FAT16 disk, it
    sets up segments, a block heap, interrupts and paging, loads the program SHELL.ELF from
    the disk into an address space of its own and starts it; programs talk to it through
    the system call interrupt 0x80.  This library models the C code of the kernel and of
    its user library and proves what the parts promise and that they keep it together.

    ** The parts

    Every file models the C files named here; a definition has the name of the C function
    it translates, a [_loop] is the loop inside it, an [_out] the code at its exit labels.
    The files are listed so that each one uses those above it only.

    - Prelude (include/kernel/config.h, status.h): machine integers, C arrays, the monad,
      error codes, lemmas and tactics shared by all.
    - Heap (mm/heap.c): the block allocator on a table of bytes.  Kheap (mm/kheap.c): the
      kernel's heap; physical memory; the interface [Allocator]/[AllocatorLaws] all clients
      are proved against, with two instances: the heap alone and the heap with memory
      ([machine], whose blocks come zeroed).
    - CString (lib/string.c), Print (lib/print.c), Keyboard (kernel/keyboard.c,
      driver/keyboard/classic.c), Gdt (arch/x86/kernel/gdt.c).
    - Paging (arch/x86/kernel/paging.c): two-level page tables in memory; [translate] is
      the walk of the processor.
    - Pparser (fs/pparser.c): paths as linked heap objects.
    - Disk (kernel/disk.c, kernel/streamer.c): the ATA read protocol against an abstract
      controller, and byte streams over a block device ([BlockDevice]/[BlockDeviceLaws]).
    - Fat16 (fs/fat/fat16.c): the driver.  File (fs/file.c): descriptors and registered file
      systems; the interface [Filesystem]/[FilesystemSpec]/[FilesystemLaws] and its FAT16
      instance.  Contents: the part of that interface about whole files
      ([FilesystemReads]), again with the FAT16 instance.
    - Elf (fs/elfloader.c, fs/elf.c): the loader, on any file system with the interface.
    - Task (kernel/task.c, arch/x86/kernel/task.asm): threads, their doubly linked list,
      copying out of a thread's memory.  Sched (kernel/sched.c): processes.  The proofs
      about a process follow its life: Exec ([process_load], which combines all of the
      above), Process (the invariant [process_ok] and the memory requests), Inject
      ([process_inject_argument]: the linked list of arguments), Terminate
      ([process_terminate]).
    - Isr (arch/x86/kernel/idt.c, kernel/isr80h.c): interrupts and the ten system calls.
      Exit: the proofs about the end of a thread, by the exit call or an exception.
    - Boot (init/kernel.c): [kernel_main], from power on to the first instruction of the
      shell.
    - UString (programs/stdlib/src/string.c, memory.c, itoa of stdlib.c) and Ulib (stdio.c,
      kernel.c, start.c and the rest of stdlib.c, programs/shell, programs/blank): the user
      library and the programs, on a trace of system calls.

    ** State and effects

    The kernel's state is one record built from the inside out: [machine] (heap and memory),
    [fat] (with the streams and the disk), [vfs] (descriptors), [loader] (ELF objects),
    [system] (threads, processes), [kernel] (console, keyboard, interrupt tables),
    [computer] (descriptor tables, task register, paging bit).  Code runs in the state monad [M],
    and a component's code is lifted to the larger state by [zoom].  An outcome is [Done],
    [Iret t] (the processor leaves for thread [t]; the C function does not return),
    [Panic] (the code's own panic loop), [Fault] (an access outside an object, which the
    theorems exclude or, for a long string in [isr80h_print_spec], state) or [NoFuel].

    Objects the code allocates are maps from addresses to records (threads, processes,
    streams, path parts, ...), so aliasing and freeing are visible: their addresses come
    from the heap, and [owned h0 h L] says that [h] is [h0] with exactly the blocks of [L]
    more.  Page tables, program images, stacks and buffers shared with programs are bytes of the
    memory.  Integers are [Z] with the wrap-around of their C types written out ([u8],
    [u16], [u32], [i32]).

    ** The theorems

    - Booting (Boot): [kernel_main] on a FAT16 disk with a SHELL.ELF of at most a cluster
      reaches the shell's first instruction with the documented machine state.
    - Programs (Exec, Elf, Task, Sched): [process_load] builds the address space the file
      asks for, or gives back what it took; process 0 is dropped when it fails; the thread
      list refines a sequence; [process_malloc]/[process_free]; [elf_load] on every branch.
    - The life of a process (Process, Inject, Terminate, Exit): a loaded program is
      [process_ok]; any sequence of memory requests, valid or not, keeps it so and leaves
      the rest of the heap alone; the words of the argument list arrive; the end of the
      process gives back exactly what it owned and what its argument vector names, which the
      code does not check, and the next thread takes over.
    - System calls and interrupts (Isr): the table [idt_init] builds, the registered
      commands, printing a user string, a key from the interrupt to getkey.
    - Files (Fat16, File, Disk, Pparser): mounting, open/read/close round trips, what the
      driver cannot do (reads past the first cluster, deleted entries), descriptors.
    - Memory (Heap, Kheap, Paging): the allocator refines first fit on runs of blocks;
      safety of every run from [kheap_init]; a bound on fragmentation ([fits]) under which
      a request cannot fail; the page tables against the processor's walk.
    - Devices (Print, Keyboard, Gdt): the ring buffer is a bounded queue, descriptors
      decode to what was encoded, numbers print as their digits.
    - User library (UString, Ulib): strtok yields the words of the text and ends, itoa
      round trips, readline is an editor of a line, one round of the shell runs the command
      typed.

    Theorems are stated for every disk, file system, heap content and input that meets the
    hypotheses they list.  A theorem about a call that allocates lists the free blocks it
    needs where the code does not check all of its allocations (file.c, task.c): below that
    nothing is claimed.  For the others the failure is a case of the theorem; a lemma ending in [_witness] applies each to a concrete case.

    ** Fuel

    A C loop over [i < n] is a [Fixpoint] on [n].  Loops whose length is data take fuel:
    directory scans, cluster chains, path parsing, the C strings of a program, its argument
    list and its key strokes.  The theorems name the fuel that is enough, so [NoFuel] never
    hides a run: more than the number of directory entries and of clusters in the chain
    ([volume_ok], [chain_ends]), or more than the length of the text.  [strtok], [itoa] and
    [kernel_getkeyblock] are proved to end.

    ** Not modelled

    - Assembly: the boot sector, the interrupt stubs, context and table loads, port access.
      What C relies on is a register of the model ([t_cr3], [k_idtr], [c_gdtr], [c_tr],
      [c_paging]), the result of an operation ([task_return]), or a parameter (the class
      [Platform]: stub addresses, stack buffers, bytes from the ports).  The ATA controller
      is a parameter with its documented handshake (Disk).
    - [kernel_test] of init/kernel.c, which nothing calls; the macros of kernel.h that
      print diagnostics ([pr_err] and the like): the model leaves out the output of a
      failure, not the failure.
    - Structures of elf.h that no code reads (section headers, symbols).
    - Access rights: [translate] follows the present bits of the page tables and not the
      read/write and user bits, so no theorem says that a program cannot reach a page.
    - The bytes that [diskstream_read] puts into its temporary sector buffer: the buffer is
      allocated and released, but nothing else reads it.
    - Interrupts between two instructions of the kernel: the kernel runs with interrupts
      off, so an interrupt or system call is one step.
    - The table of the heap is a list and not part of the memory, so code that wrote
      through a wild pointer could not be seen to damage it; no theorem assumes such code. *)
From stdpp Require Export base numbers list list_numbers gmap.
From Stdlib Require Export ZArith Lia.

#[global] Open Scope Z_scope.
#[global] Arguments Z.eqb !_ !_ / : simpl nomatch.
#[global] Arguments Z.ltb !_ !_ / : simpl nomatch.
#[global] Arguments Z.leb !_ !_ / : simpl nomatch.

(** ** Machine integers of the i686 target

    The kernel is compiled for i686: [int], [long] and pointers are 32 bits wide,
    [char] is signed.  An integer is a [Z]; every operation that can leave the
    range of its C type is followed by the corresponding truncation. *)

Definition u8 (z : Z) : Z := z mod 256.
Definition u16 (z : Z) : Z := z mod 65536.
Definition u32 (z : Z) : Z := z mod 4294967296.
Definition i8 (z : Z) : Z := (z + 128) mod 256 - 128.
Definition i32 (z : Z) : Z := (z + 2147483648) mod 4294967296 - 2147483648.

(** Truncating division and remainder of C on signed operands. *)
Definition cdiv (a b : Z) : Z := Z.quot a b.
Definition crem (a b : Z) : Z := Z.rem a b.

(** C's truth values. *)
Definition b2z (b : bool) : Z := if b then 1 else 0.

(** ** include/kernel/status.h *)

Definition KERNEL_ALL_OK : Z := 0.
Definition EIO : Z := 1.
Definition EINVAGS : Z := 2.
Definition ENOMEM : Z := 3.
Definition EBADPATH : Z := 4.
Definition EFSNOTUS : Z := 5.
Definition ERDONLY : Z := 6.
Definition ENOIMPL : Z := 7.
Definition EISTKN : Z := 8.
Definition EINFORMATS : Z := 9.

(** [ERROR(value)] casts to [void *], [ERROR_I(value)] to [int]. *)
Definition ERROR (value : Z) : Z := u32 value.
Definition ERROR_I (value : Z) : Z := i32 value.
Definition IS_ERROR (value : Z) : bool := ERROR_I value <? 0.

(** ** include/kernel/config.h *)

Definition VGA_WIDTH : Z := 80.
Definition VGA_HEIGHT : Z := 20.
Definition KERNEL_CODE_SELECTOR : Z := 8.
Definition KERNEL_TOTAL_INTERRUPTS : Z := 256.
Definition KERNEL_HEAP_SIZE_BYTES : Z := 104857600.
Definition KERNEL_HEAP_BLOCK_SIZE : Z := 4096.
Definition KERNEL_HEAP_ADDRESS : Z := 16777216.
Definition KERNEL_HEAP_TABLE_ADDRESS : Z := 32256.
Definition KERNEL_SECTOR_SIZE : Z := 512.
Definition KERNEL_MAX_PATH : Z := 108.
Definition KERNEL_MAX_FILESYSTEMS : Z := 12.
Definition KERNEL_MAX_FILE_DESCRIPTORS : Z := 512.
Definition KERNEL_PROGRAM_VIRTUAL_ADDRESS : Z := 4194304.
Definition KERNEL_USER_PROGRAM_STACK_SIZE : Z := 1024 * 16.
Definition KERNEL_PROGRAM_VIRTUAL_STACK_ADDRESS_START : Z := 4190208.
Definition KERNEL_PROGRAM_VIRTUAL_STACK_ADDRESS_END : Z :=
  KERNEL_PROGRAM_VIRTUAL_STACK_ADDRESS_START - KERNEL_USER_PROGRAM_STACK_SIZE.
Definition USER_DATA_SEGMENT : Z := 35.
Definition USER_CODE_SEGMENT : Z := 27.
Definition KERNEL_MAX_PROGRAM_ALLOCATIONS : Z := 1024.
Definition KERNEL_MAX_PROCESSES : Z := 12.
Definition KERNEL_MAX_ISR80H_COMMANDS : Z := 1024.
Definition KERNEL_KEYBOARD_BUFFER_SIZE : Z := 1024.

(** ** C arrays

    An array is a list.  Reads and writes take the C index; an index outside the
    array is an access the C code must not make, and reads as [None]. *)

Definition zlen {A} (l : list A) : Z := Z.of_nat (length l).

Definition zget {A} (l : list A) (i : Z) : option A :=
  if 0 <=? i then l !! Z.to_nat i else None.

Definition zset {A} (l : list A) (i : Z) (v : A) : list A :=
  if 0 <=? i then <[Z.to_nat i := v]> l else l.

(** ** Outcomes of kernel code

    A kernel function run in state [s] either returns, leaves the kernel through
    [task_return] (the argument is the [thread_info] whose registers are loaded),
    stops in [panic]'s infinite loop, makes an access the C standard gives no
    meaning to, or has not finished within the fuel of a loop. *)

Inductive outcome (S A : Type) : Type :=
| Done (a : A) (s : S)
| Iret (t : Z) (s : S)
| Panic (s : S)
| Fault
| NoFuel.
Arguments Done {S A} a s.
Arguments Iret {S A} t s.
Arguments Panic {S A} s.
Arguments Fault {S A}.
Arguments NoFuel {S A}.

Definition M (S A : Type) : Type := S -> outcome S A.

#[export] Instance M_ret {S} : MRet (M S) := fun A a s => Done a s.
#[export] Instance M_bind {S} : MBind (M S) := fun A B k m s =>
  match m s with
  | Done a s' => k a s'
  | Iret t s' => Iret t s'
  | Panic s' => Panic s'
  | Fault => Fault
  | NoFuel => NoFuel
  end.

Definition get {S} : M S S := fun s => Done s s.
Definition gets {S A} (f : S -> A) : M S A := fun s => Done (f s) s.
Definition modify {S} (f : S -> S) : M S unit := fun s => Done tt (f s).
Definition panic {S A} : M S A := fun s => Panic s.
Definition fault {S A} : M S A := fun _ => Fault.
Definition nofuel {S A} : M S A := fun _ => NoFuel.
Definition iret {S A} (t : Z) : M S A := fun s => Iret t s.

(** A read that must hit: [None] is an access outside the object. *)
Definition expect {S A} (o : option A) : M S A :=
  match o with Some a => mret a | None => fault end.

(** Run code of a component on its part of a larger state. *)
Definition zoom {S T A} (sel : S -> T) (upd : T -> S -> S) (m : M T A) : M S A :=
  fun s =>
    match m (sel s) with
    | Done a t => Done a (upd t s)
    | Iret x t => Iret x (upd t s)
    | Panic t => Panic (upd t s)
    | Fault => Fault
    | NoFuel => NoFuel
    end.

Definition when {S} (b : bool) (m : M S unit) : M S unit :=
  if b then m else mret tt.

(** ** Automation *)

(** Split on the boolean comparison of integers that blocks the goal, or a hypothesis. *)
Ltac zcase :=
  match goal with
  | |- context [?a =? ?b] => destruct (Z.eqb_spec a b)
  | |- context [?a <? ?b] => destruct (Z.ltb_spec a b)
  | |- context [?a <=? ?b] => destruct (Z.leb_spec a b)
  | H : context [?a =? ?b] |- _ => destruct (Z.eqb_spec a b)
  | H : context [?a <? ?b] |- _ => destruct (Z.ltb_spec a b)
  | H : context [?a <=? ?b] |- _ => destruct (Z.leb_spec a b)
  end.

(** Decide every comparison in sight with [lia]. *)
Ltac zsolve := repeat (zcase; simpl in *; try lia); try done; try lia.

(** Wrap-around arithmetic: open the truncations and let [lia] divide. *)
Ltac wrap :=
  unfold u8, u16, u32, i8, i32, ERROR, ERROR_I, IS_ERROR, cdiv, crem in *;
  Z.to_euclidean_division_equations; lia.

Create HintDb kernel discriminated.
Create Rewrite HintDb zarr.

(** ** Integer lemmas *)

Lemma u32_small z : 0 <= z < 4294967296 -> u32 z = z.
Proof. intros. by apply Z.mod_small. Qed.

Lemma u32_range z : 0 <= u32 z < 4294967296.
Proof. by apply Z.mod_pos_bound. Qed.

Lemma u8_small z : 0 <= z < 256 -> u8 z = z.
Proof. intros. by apply Z.mod_small. Qed.

Lemma u8_range z : 0 <= u8 z < 256.
Proof. by apply Z.mod_pos_bound. Qed.

Lemma u16_range z : 0 <= u16 z < 65536.
Proof. by apply Z.mod_pos_bound. Qed.

Lemma i32_small z : -2147483648 <= z < 2147483648 -> i32 z = z.
Proof. intros. unfold i32. rewrite Z.mod_small; lia. Qed.

Lemma i32_range z : -2147483648 <= i32 z < 2147483648.
Proof. unfold i32. pose proof (Z.mod_pos_bound (z + 2147483648) 4294967296). lia. Qed.

Lemma u32_idemp z : u32 (u32 z) = u32 z.
Proof. apply u32_small, u32_range. Qed.

(** A boolean property of a small range, by evaluation. *)
Lemma zrange_forall (P : Z -> bool) (n : Z) :
  forallb P (seqZ 0 n) = true -> forall z, 0 <= z < n -> P z = true.
Proof.
  intros H z Hz. rewrite forallb_forall in H. apply H.
  apply list_elem_of_In, elem_of_seqZ. lia.
Qed.

(** ** Array lemmas *)

Section arrays.
Context {A : Type}.
Implicit Types (l : list A) (i j : Z) (v : A).

Lemma zlen_nonneg l : 0 <= zlen l.
Proof. unfold zlen. lia. Qed.

Lemma zlen_zset l i v : zlen (zset l i v) = zlen l.
Proof. unfold zlen, zset. zcase; [by rewrite length_insert | done]. Qed.

Lemma zlen_replicate n v : zlen (replicate n v) = Z.of_nat n.
Proof. unfold zlen. by rewrite length_replicate. Qed.

Lemma zlen_app l l' : zlen (l ++ l') = zlen l + zlen l'.
Proof. unfold zlen. rewrite length_app. lia. Qed.

Lemma zlen_cons v l : zlen (v :: l) = 1 + zlen l.
Proof. unfold zlen. simpl. lia. Qed.

Lemma zget_Some_range l i v : zget l i = Some v -> 0 <= i < zlen l.
Proof.
  unfold zget, zlen. zcase; [|done]. intros Hl%lookup_lt_Some. lia.
Qed.

Lemma zget_is_Some l i : 0 <= i < zlen l -> is_Some (zget l i).
Proof.
  unfold zget, zlen. intros. zcase; [|lia]. apply lookup_lt_is_Some. lia.
Qed.

Lemma zget_None l i : i < 0 \/ zlen l <= i -> zget l i = None.
Proof.
  unfold zget, zlen. intros. zcase; [|done]. apply lookup_ge_None. lia.
Qed.

Lemma zget_zset l i j v :
  zget (zset l i v) j =
  if (i =? j) && (0 <=? i) && (i <? zlen l) then Some v else zget l j.
Proof.
  unfold zset. destruct (Z.leb_spec 0 i); [|by rewrite andb_false_r].
  rewrite andb_true_r. unfold zget, zlen.
  destruct (Z.eqb_spec i j) as [->|Hne]; simpl.
  - zcase; rewrite (proj2 (Z.leb_le 0 j)) by lia.
    + apply list_lookup_insert_eq. lia.
    + by rewrite list_insert_ge by lia.
  - destruct (Z.leb_spec 0 j); [|done]. apply list_lookup_insert_ne. lia.
Qed.

Lemma zget_zset_eq l i v : 0 <= i < zlen l -> zget (zset l i v) i = Some v.
Proof. intros. rewrite zget_zset. zsolve. Qed.

Lemma zset_zset_id l i v w : zget l i = Some w -> zset (zset l i v) i w = l.
Proof.
  unfold zget, zset. destruct (0 <=? i); [|done]. intros Hl.
  rewrite list_insert_insert_eq. by apply list_insert_id.
Qed.

Lemma zset_zset l i v w : zset (zset l i v) i w = zset l i w.
Proof. unfold zset. destruct (0 <=? i); [apply list_insert_insert_eq|done]. Qed.

Lemma zget_zset_ne l i j v : i <> j -> zget (zset l i v) j = zget l j.
Proof. intros. rewrite zget_zset. by destruct (Z.eqb_spec i j). Qed.

Lemma zget_replicate n v i :
  zget (replicate n v) i = if (0 <=? i) && (i <? Z.of_nat n) then Some v else None.
Proof.
  unfold zget. destruct (Z.leb_spec 0 i); [|done]. simpl. zcase.
  - apply lookup_replicate. split; [done|lia].
  - apply lookup_ge_None. rewrite length_replicate. lia.
Qed.

Lemma zget_app l l' i :
  zget (l ++ l') i = if i <? zlen l then zget l i else zget l' (i - zlen l).
Proof.
  unfold zget, zlen. zcase.
  - zcase; [|done]. apply lookup_app_l. lia.
  - zcase; [|lia]. zcase; [|lia]. rewrite lookup_app_r by lia. f_equal. lia.
Qed.

Lemma zget_cons v l i :
  zget (v :: l) i = if i =? 0 then Some v else zget l (i - 1).
Proof.
  unfold zget. zcase; [subst; done|]. zcase.
  - zcase; [|lia]. destruct (Z.to_nat i) eqn:E; [lia|]. simpl. f_equal. lia.
  - zcase; [lia|done].
Qed.

Lemma zlist_eq l l' :
  zlen l = zlen l' -> (forall i, 0 <= i < zlen l -> zget l i = zget l' i) -> l = l'.
Proof.
  intros Hlen Hget. apply list_eq. intros n.
  destruct (decide (n < length l)%nat) as [Hn|Hn].
  - specialize (Hget (Z.of_nat n)). unfold zget, zlen in *.
    rewrite Nat2Z.id in Hget. assert (H0 : (0 <=? Z.of_nat n) = true) by lia.
    rewrite H0 in Hget. apply Hget. lia.
  - unfold zlen in Hlen. rewrite !lookup_ge_None_2 by lia. done.
Qed.

End arrays.

Lemma zget_map_seqZ {A} (f : Z -> A) n i : 0 <= i < n -> zget (map f (seqZ 0 n)) i = Some (f i).
Proof.
  intros Hi. unfold zget. rewrite (proj2 (Z.leb_le 0 i)) by lia.
  rewrite list_lookup_fmap, lookup_seqZ_lt by lia. simpl. do 2 f_equal. lia.
Qed.

#[export] Hint Rewrite @zlen_zset @zlen_replicate @zlen_app @zlen_cons : zarr.
#[export] Hint Resolve zlen_nonneg u32_range u8_range u16_range i32_range : kernel.

(** ** Monad lemmas *)

Lemma bind_Done {S A B} (m : M S A) (k : A -> M S B) s a s' :
  m s = Done a s' -> (m ≫= k) s = k a s'.
Proof. intros H. unfold mbind, M_bind. by rewrite H. Qed.

Lemma bind_inv {S A B} (m : M S A) (k : A -> M S B) s b s' :
  (m ≫= k) s = Done b s' -> exists a s1, m s = Done a s1 /\ k a s1 = Done b s'.
Proof. unfold mbind, M_bind. destruct (m s); naive_solver. Qed.

Lemma zoom_Done {S T A} (sel : S -> T) upd (m : M T A) s a t :
  m (sel s) = Done a t -> zoom sel upd m s = Done a (upd t s).
Proof. intros H. unfold zoom. by rewrite H. Qed.

Lemma bind_ret {S A B} (a : A) (k : A -> M S B) s : (mret a ≫= k) s = k a s.
Proof. done. Qed.

Lemma bind_gets {S A B} (f : S -> A) (k : A -> M S B) s : (gets f ≫= k) s = k (f s) s.
Proof. done. Qed.

Lemma bind_modify {S B} (f : S -> S) (k : unit -> M S B) s : (modify f ≫= k) s = k tt (f s).
Proof. done. Qed.

Lemma bind_expect {S A B} (o : option A) (k : A -> M S B) s a :
  o = Some a -> (expect o ≫= k) s = k a s.
Proof. by intros ->. Qed.

Lemma bind_assoc {S A B C} (m : M S A) (k : A -> M S B) (k' : B -> M S C) s :
  ((m ≫= k) ≫= k') s = (m ≫= (fun a => k a ≫= k')) s.
Proof. unfold mbind, M_bind. by destruct (m s). Qed.

Lemma bind_Iret {S A C} (m : M S A) (k : A -> M S C) s x s' : m s = Iret x s' -> (m ≫= k) s = Iret x s'.
Proof. intros E. unfold mbind, M_bind. by rewrite E. Qed.

Lemma zoom_Iret {S T A} (sel : S -> T) upd (m : M T A) s x t : m (sel s) = Iret x t -> zoom sel upd m s = Iret x (upd t s).
Proof. intros E. unfold zoom. by rewrite E. Qed.

Lemma bind_Panic {S A C} (m : M S A) (k : A -> M S C) s s' : m s = Panic s' -> (m ≫= k) s = Panic s'.
Proof. intros E. unfold mbind, M_bind. by rewrite E. Qed.

Lemma zoom_Panic {S T A} (sel : S -> T) upd (m : M T A) s t : m (sel s) = Panic t -> zoom sel upd m s = Panic (upd t s).
Proof. intros E. unfold zoom. by rewrite E. Qed.

(** Run the pure steps at the head of a computation. *)
Ltac run :=
  repeat first
    [ rewrite bind_ret | rewrite bind_gets | rewrite bind_modify
    | rewrite bind_expect with (a := _) by (eassumption || reflexivity) | rewrite bind_assoc ].

Lemma IS_ERROR_small a : 0 <= a < 2147483648 -> IS_ERROR a = false.
Proof. intros. unfold IS_ERROR, ERROR_I, i32. rewrite Z.mod_small by lia. lia. Qed.
