(* ===== verification/Heap.v ===== *)
(** * The kernel heap: mm/heap.c

    A heap is a table with one byte per 4096-byte block.  The table is modelled as
    the list of its bytes, so the scan for a free run, the marking of a run and the
    release of a run are the code's loops over that list. *)
From S2P Require Import Prelude.

(** include/kernel/heap.h *)
Definition HEAP_BLOCK_TABLE_ENTRY_FREE : Z := 0.
Definition HEAP_BLOCK_TABLE_ENTRY_TAKEN : Z := 1.
Definition HEAP_BLOCK_HAS_NEXT : Z := 128.
Definition HEAP_BLOCK_IS_FIRST : Z := 64.

Record heap_table := mk_heap_table { enteies : list Z; total : Z }.
Record heap := mk_heap { table : heap_table; saddr : Z }.

Definition set_enteies (h : heap) (es : list Z) : heap :=
  mk_heap (mk_heap_table es (total (table h))) (saddr h).

(** ** Operations *)

Definition heap_validate_table (ptr end_ : Z) (t : heap_table) : Z :=
  let table_size := u32 (end_ - ptr) in
  let total_blocks := table_size / KERNEL_HEAP_BLOCK_SIZE in
  if negb (total t =? total_blocks) then - EINVAGS else 0.

Definition heap_validate_alignment (ptr : Z) : bool :=
  ptr mod KERNEL_HEAP_BLOCK_SIZE =? 0.

(** [memset(table->enteies, v, n)] on the bytes the table owns. *)
Definition fill_entries (es : list Z) (n v : Z) : list Z :=
  replicate (Z.to_nat n) v ++ drop (Z.to_nat n) es.

(** The result and the heap afterwards; on an error the heap is not touched. *)
Definition heap_create (h : heap) (ptr end_ : Z) (t : heap_table) : Z * heap :=
  if negb (heap_validate_alignment ptr) || negb (heap_validate_alignment end_) then
    (- EINVAGS, h)
  else
    let res := heap_validate_table ptr end_ t in
    if res <? 0 then (res, h)
    else
      let table_size := total t in
      (res, mk_heap (mk_heap_table
                       (fill_entries (enteies t) table_size HEAP_BLOCK_TABLE_ENTRY_FREE)
                       (total t)) ptr).

Definition heap_get_entry_type (entry : Z) : Z := Z.land entry 15.

(** The loop of [heap_get_start_block] over the entries from index [i] on; the
    result is the final [(bc, bs)].  The test is C's [!type == FREE]. *)
Fixpoint heap_start_loop (es : list Z) (i bc bs total_blocks : Z) : Z * Z :=
  match es with
  | [] => (bc, bs)
  | e :: es' =>
      if b2z (heap_get_entry_type e =? 0) =? HEAP_BLOCK_TABLE_ENTRY_FREE then
        heap_start_loop es' (i + 1) 0 (-1) total_blocks
      else
        let bs := if bs =? -1 then i else bs in
        let bc := bc + 1 in
        if bc =? total_blocks then (bc, bs)
        else heap_start_loop es' (i + 1) bc bs total_blocks
  end.

Definition heap_get_start_block (h : heap) (total_blocks : Z) : Z :=
  let t := table h in
  let '(bc, bs) :=
    heap_start_loop (take (Z.to_nat (total t)) (enteies t)) 0 0 (-1) total_blocks in
  if (bs =? -1) || negb (bc =? total_blocks) then - ENOMEM else bs.

Definition heap_block_to_address (h : heap) (total_blocks : Z) : Z :=
  u32 (saddr h + total_blocks * KERNEL_HEAP_BLOCK_SIZE).

(** The byte written for block [i] of the run [start_block .. end_block]. *)
Definition mark_entry (i start_block end_block : Z) : Z :=
  let e := HEAP_BLOCK_TABLE_ENTRY_TAKEN in
  let e := if i =? start_block then Z.lor e HEAP_BLOCK_IS_FIRST else e in
  if i <? end_block then Z.lor e HEAP_BLOCK_HAS_NEXT else e.

Fixpoint mark_taken_loop (n : nat) (i start_block end_block : Z) (es : list Z) : list Z :=
  match n with
  | O => es
  | S n' =>
      if i <=? end_block then
        mark_taken_loop n' (u32 (i + 1)) start_block end_block
          (zset es i (mark_entry i start_block end_block))
      else es
  end.

Definition heap_mark_blocks_taken (h : heap) (start_block total_blocks : Z) : heap :=
  let end_block := u32 (start_block + total_blocks - 1) in
  set_enteies h
    (mark_taken_loop (Z.to_nat total_blocks) start_block start_block end_block
       (enteies (table h))).

Definition heap_malloc_blocks (h : heap) (total_blocks : Z) : Z * heap :=
  if total_blocks =? 0 then (0, h)
  else
    let start_block := heap_get_start_block h total_blocks in
    if start_block <? 0 then (0, h)
    else
      let address := heap_block_to_address h start_block in
      (address, heap_mark_blocks_taken h start_block total_blocks).

Definition heap_align_value_upper (size : Z) : Z :=
  if size mod KERNEL_HEAP_BLOCK_SIZE =? 0 then size
  else
    let size := size - size mod KERNEL_HEAP_BLOCK_SIZE in
    u32 (size + KERNEL_HEAP_BLOCK_SIZE).

Definition heap_malloc (h : heap) (size : Z) : Z * heap :=
  let aligned_size := heap_align_value_upper size in
  let total_blocks := aligned_size / KERNEL_HEAP_BLOCK_SIZE in
  heap_malloc_blocks h total_blocks.

Fixpoint mark_free_loop (n : nat) (i total : Z) (es : list Z) : list Z :=
  match n with
  | O => es
  | S n' =>
      if i <? total then
        let entry := default 0 (zget es i) in
        let es := zset es i HEAP_BLOCK_TABLE_ENTRY_FREE in
        if Z.land entry HEAP_BLOCK_HAS_NEXT =? 0 then es
        else mark_free_loop n' (u32 (i + 1)) total es
      else es
  end.

Definition heap_mark_blocks_free (h : heap) (start_block : Z) : heap :=
  set_enteies h
    (mark_free_loop (Z.to_nat (total (table h))) start_block (total (table h))
       (enteies (table h))).

Definition heap_address_to_block (h : heap) (ptr : Z) : Z :=
  u32 (ptr - saddr h) / KERNEL_HEAP_BLOCK_SIZE.

Definition heap_free (h : heap) (ptr : Z) : heap :=
  if ptr =? 0 then h else heap_mark_blocks_free h (heap_address_to_block h ptr).

(** ** Allocations in a table *)

Section allocations.
Implicit Types (es : list Z) (s n i j : Z).

(** Blocks [s .. s+n-1] are one allocated run. *)
Definition live_at es s n : Prop :=
  0 < n /\ forall i, s <= i < s + n -> zget es i = Some (mark_entry i s (s + n - 1)).

(** Blocks [s .. s+n-1] exist and are free. *)
Definition free_run es s n : Prop :=
  forall i, s <= i < s + n ->
  exists e, zget es i = Some e /\ heap_get_entry_type e = HEAP_BLOCK_TABLE_ENTRY_FREE.

(** Every entry is free or part of one allocated run. *)
Definition table_ok es : Prop :=
  forall i e, zget es i = Some e ->
  e = HEAP_BLOCK_TABLE_ENTRY_FREE \/ exists s n, live_at es s n /\ s <= i < s + n.
End allocations.

Definition heap_ok (h : heap) : Prop :=
  zlen (enteies (table h)) = total (table h) /\
  0 < saddr h /\ saddr h mod KERNEL_HEAP_BLOCK_SIZE = 0 /\
  saddr h + total (table h) * KERNEL_HEAP_BLOCK_SIZE <= 4294967296 /\
  table_ok (enteies (table h)).

(** [n] blocks at address [a] are allocated: what a client of the heap owns. *)
Definition live (h : heap) (a n : Z) : Prop :=
  exists s, live_at (enteies (table h)) s n /\ a = saddr h + s * KERNEL_HEAP_BLOCK_SIZE.

(** ** The bits of an entry *)

Lemma entry_type_mark i s e : heap_get_entry_type (mark_entry i s e) = 1.
Proof. unfold mark_entry. by repeat zcase. Qed.

Lemma mark_entry_nonfree i s e : mark_entry i s e <> 0.
Proof. unfold mark_entry. by repeat zcase. Qed.

Lemma mark_entry_next i s e :
  (Z.land (mark_entry i s e) HEAP_BLOCK_HAS_NEXT =? 0) = negb (i <? e).
Proof. unfold mark_entry. by repeat zcase. Qed.

Lemma mark_entry_first i s e :
  (Z.land (mark_entry i s e) HEAP_BLOCK_IS_FIRST =? 0) = negb (i =? s).
Proof. unfold mark_entry. by repeat zcase. Qed.

(** ** Allocated runs are disjoint *)

(** A first-block flag occurs in a run only at its start ... *)
Lemma live_first es s n s' n' :
  live_at es s n -> live_at es s' n' -> s <= s' < s + n -> s = s'.
Proof.
  intros [Hn H] [Hn' H'] Hr.
  assert (E : mark_entry s' s (s + n - 1) = mark_entry s' s' (s' + n' - 1)).
  { specialize (H' s' ltac:(lia)). rewrite (H s' Hr) in H'. by injection H'. }
  apply (f_equal (fun e => Z.land e HEAP_BLOCK_IS_FIRST =? 0)) in E.
  rewrite !mark_entry_first in E. zsolve.
Qed.

(** ... and a next-block flag everywhere but at its end. *)
Lemma live_len es s n n' : live_at es s n -> live_at es s n' -> n <= n'.
Proof.
  intros [Hn H] [Hn' H']. destruct (Z.le_gt_cases n n') as [|Hlt]; [done|].
  specialize (H (s + n' - 1) ltac:(lia)). specialize (H' (s + n' - 1) ltac:(lia)).
  assert (E : mark_entry (s + n' - 1) s (s + n - 1) =
              mark_entry (s + n' - 1) s (s + n' - 1)) by congruence.
  apply (f_equal (fun e => Z.land e HEAP_BLOCK_HAS_NEXT =? 0)) in E.
  rewrite !mark_entry_next in E. zsolve.
Qed.

Lemma live_overlap es s n s' n' i :
  live_at es s n -> live_at es s' n' -> s <= i < s + n -> s' <= i < s' + n' ->
  s = s' /\ n = n'.
Proof.
  intros H H' Hi Hi'.
  assert (s = s') as <-.
  { destruct (Z.le_gt_cases s s').
    - eapply live_first; eauto. lia.
    - symmetry. eapply live_first; eauto. lia. }
  split; [done|]. apply Z.le_antisymm; eapply live_len; eauto.
Qed.

Lemma live_not_free es s n i :
  live_at es s n -> s <= i < s + n ->
  exists e, zget es i = Some e /\ heap_get_entry_type e = HEAP_BLOCK_TABLE_ENTRY_TAKEN.
Proof. intros [_ H] Hi. rewrite H by done. eexists. split; [done|]. apply entry_type_mark. Qed.

Lemma live_range es s n : live_at es s n -> 0 <= s /\ s + n <= zlen es.
Proof.
  intros [Hn H].
  pose proof (zget_Some_range _ _ _ (H s ltac:(lia))).
  pose proof (zget_Some_range _ _ _ (H (s + n - 1) ltac:(lia))). lia.
Qed.

(** Runs are determined by the entries they cover. *)
Lemma live_at_ext es es' s n :
  (forall i, s <= i < s + n -> zget es i = zget es' i) -> live_at es s n -> live_at es' s n.
Proof. intros E [Hn H]. split; [done|]. intros i Hi. by rewrite <- E, H. Qed.

(** ** The marking loops *)

Lemma mark_taken_loop_get n i s e es j :
  0 <= i -> e < zlen es -> zlen es < 4294967296 -> e - i + 1 = Z.of_nat n ->
  zget (mark_taken_loop n i s e es) j =
  if (i <=? j) && (j <=? e) then Some (mark_entry j s e) else zget es j.
Proof.
  revert i es. induction n as [|n IH]; intros i es Hi He Hlen Hn; simpl.
  - by destruct (Z.leb_spec i j), (Z.leb_spec j e); simpl; try lia.
  - destruct (Z.leb_spec i e); [|lia].
    rewrite u32_small by lia. rewrite IH by (autorewrite with zarr; lia).
    rewrite zget_zset.
    destruct (Z.leb_spec (i + 1) j), (Z.leb_spec j e), (Z.leb_spec i j), (Z.eqb_spec i j);
      simpl; subst; try lia; try done.
    all: rewrite (proj2 (Z.leb_le 0 j)), (proj2 (Z.ltb_lt j (zlen es))) by lia; done.
Qed.

Lemma mark_taken_loop_len n i s e es : zlen (mark_taken_loop n i s e es) = zlen es.
Proof.
  revert i es. induction n as [|n IH]; intros i es; simpl; [done|].
  zcase; [|done]. rewrite IH. apply zlen_zset.
Qed.

Lemma mark_free_loop_len n i t es : zlen (mark_free_loop n i t es) = zlen es.
Proof.
  revert i es. induction n as [|n IH]; intros i es; simpl; [done|].
  repeat zcase; rewrite ?IH, ?zlen_zset; done.
Qed.

(** Releasing from inside a run clears the rest of that run and nothing else. *)
Lemma mark_free_loop_get n i t es e0 s j :
  s <= i -> 0 <= i <= e0 -> e0 < zlen es -> zlen es = t -> t < 4294967296 ->
  t - i <= Z.of_nat n ->
  (forall k, i <= k <= e0 -> zget es k = Some (mark_entry k s e0)) ->
  zget (mark_free_loop n i t es) j =
  if (i <=? j) && (j <=? e0) then Some HEAP_BLOCK_TABLE_ENTRY_FREE else zget es j.
Proof.
  revert i es. induction n as [|n IH]; intros i es Hs Hi He Hlen Ht Hn H; simpl; [lia|].
  destruct (Z.ltb_spec i t); [|lia].
  rewrite (H i) by lia. simpl. rewrite mark_entry_next.
  destruct (Z.ltb_spec i e0); simpl.
  - rewrite u32_small by lia. rewrite IH; autorewrite with zarr; try lia.
    + rewrite zget_zset.
      destruct (Z.leb_spec (i + 1) j), (Z.leb_spec j e0), (Z.leb_spec i j), (Z.eqb_spec i j);
        simpl; subst; try lia; try done.
      all: rewrite (proj2 (Z.leb_le 0 j)), (proj2 (Z.ltb_lt j (zlen es))) by lia; done.
    + intros k Hk. rewrite zget_zset_ne by lia. apply H. lia.
  - rewrite zget_zset.
    destruct (Z.leb_spec i j), (Z.leb_spec j e0), (Z.eqb_spec i j); simpl; subst; try lia; try done.
    rewrite (proj2 (Z.leb_le 0 j)), (proj2 (Z.ltb_lt j (zlen es))) by lia. done.
Qed.

(** ** The first-fit scan *)

Lemma heap_start_loop_spec full es i bc bs k :
  (forall j, 0 <= j -> zget es j = zget full (i + j)) ->
  i + zlen es = zlen full -> 0 <= bc <= i -> bc < k -> bs = (if bc =? 0 then -1 else i - bc) ->
  free_run full (i - bc) bc -> (forall s, 0 <= s < i - bc -> ~ free_run full s k) ->
  let '(bc', bs') := heap_start_loop es i bc bs k in
  (bc' = k /\ 0 <= bs' /\ free_run full bs' k /\ forall s, 0 <= s < bs' -> ~ free_run full s k) \/
  (bc' <> k /\ forall s, 0 <= s -> ~ free_run full s k).
Proof.
  revert i bc bs. induction es as [|e es IH]; intros i bc bs Hes Hlen Hbc Hk Hbs Hrun Hno.
  - simpl. right. split; [lia|]. intros s Hs Hfree.
    destruct (Z.lt_ge_cases s (i - bc)) as [Hlt|Hge]; [by apply (Hno s); [lia|]|].
    destruct (Hfree (s + k - 1) ltac:(lia)) as (x & Hx & _).
    apply zget_Some_range in Hx. unfold zlen in *. simpl in *. lia.
  - assert (Hhd : zget full i = Some e).
    { specialize (Hes 0 ltac:(lia)). rewrite Z.add_0_r in Hes. rewrite <- Hes. reflexivity. }
    assert (Htl : forall j, 0 <= j -> zget es j = zget full (i + 1 + j)).
    { intros j Hj. replace (i + 1 + j) with (i + (1 + j)) by lia.
      rewrite <- Hes by lia. rewrite zget_cons. zcase; [lia|]. f_equal. lia. }
    rewrite zlen_cons in Hlen. simpl.
    destruct (Z.eqb_spec (heap_get_entry_type e) 0) as [Hfree|Htaken]; simpl.
    + assert (Hrun' : free_run full (i - bc) (bc + 1)).
      { intros j Hj. destruct (Z.eq_dec j i) as [->|Hne]; [by exists e|]. apply Hrun. lia. }
      assert (Hbs' : (if bs =? -1 then i else bs) = i - bc).
      { subst bs. zsolve. }
      rewrite Hbs'. destruct (Z.eqb_spec (bc + 1) k) as [Hdone|Hmore].
      * left. split; [done|]. split; [lia|]. subst k. done.
      * apply IH; try done; try lia.
        -- destruct (Z.eqb_spec (bc + 1) 0); lia.
        -- by replace (i + 1 - (bc + 1)) with (i - bc) by lia.
        -- intros s Hs. apply Hno. lia.
    + apply IH; try done; try lia.
      * intros j Hj. lia.
      * intros s Hs Hf. destruct (Z.lt_ge_cases s (i - bc)); [by apply (Hno s); [lia|]|].
        destruct (Hf i ltac:(lia)) as (x & Hx & Hty). rewrite Hhd in Hx. by injection Hx as ->.
Qed.

(** [heap_get_start_block] finds the lowest run of free blocks that is long enough. *)
Lemma heap_get_start_block_spec h k :
  zlen (enteies (table h)) = total (table h) -> 0 < k ->
  let es := enteies (table h) in
  (0 <= heap_get_start_block h k /\ free_run es (heap_get_start_block h k) k /\
   forall s, 0 <= s < heap_get_start_block h k -> ~ free_run es s k) \/
  (heap_get_start_block h k = - ENOMEM /\ forall s, 0 <= s -> ~ free_run es s k).
Proof.
  intros Hlen Hk es. unfold heap_get_start_block.
  rewrite take_ge by (unfold zlen in Hlen; lia). fold es.
  pose proof (heap_start_loop_spec es es 0 0 (-1) k) as H.
  destruct (heap_start_loop es 0 0 (-1) k) as [bc bs].
  destruct H as [(-> & Hbs & Hrun & Hfirst)|(Hne & Hno)]; try done; try lia.
  - intros j Hj. lia.
  - left. rewrite Z.eqb_refl. destruct (Z.eqb_spec bs (-1)); [lia|]. done.
  - right. rewrite (proj2 (Z.eqb_neq bc k)) by done. by rewrite orb_true_r.
Qed.

(** ** Marking a free run allocates it *)

Lemma free_run_range es s n : 0 < n -> free_run es s n -> 0 <= s /\ s + n <= zlen es.
Proof.
  intros Hn H.
  destruct (H s ltac:(lia)) as (e & He%zget_Some_range & _).
  destruct (H (s + n - 1) ltac:(lia)) as (e' & He'%zget_Some_range & _). lia.
Qed.

Lemma live_free_disjoint es s n s' n' i :
  live_at es s n -> free_run es s' n' -> s <= i < s + n -> s' <= i < s' + n' -> False.
Proof.
  intros Hl Hf Hi Hi'. destruct (live_not_free _ _ _ _ Hl Hi) as (e & He & Ht).
  destruct (Hf i Hi') as (e' & He' & Ht'). assert (e = e') as -> by congruence.
  rewrite Ht in Ht'. done.
Qed.

Section update.
Context (es es' : list Z) (s n : Z) (v : Z -> Z).
Hypothesis Hupd : forall j, zget es' j = if (s <=? j) && (j <=? s + n - 1) then Some (v j) else zget es j.

Lemma upd_in j : s <= j < s + n -> zget es' j = Some (v j).
Proof. intros Hj. rewrite Hupd. zsolve. Qed.

Lemma upd_out j : ~ s <= j < s + n -> zget es' j = zget es j.
Proof. intros Hj. rewrite Hupd. zsolve. Qed.

(** Writing a run over free entries adds exactly that run. *)
Lemma mark_live (Hn : 0 < n) (Hv : forall j, v j = mark_entry j s (s + n - 1))
  (Hfree : free_run es s n) s' n' :
  live_at es' s' n' <-> (s' = s /\ n' = n) \/ live_at es s' n'.
Proof.
  assert (Hnew : live_at es' s n).
  { split; [done|]. intros i Hi. by rewrite upd_in, Hv. }
  split.
  - intros Hl. destruct (decide (s' < s + n /\ s < s' + n')) as [[H1 H2]|Hdis].
    + left. assert (Hmid : s <= Z.max s s' < s + n) by (destruct Hl; lia).
      destruct (live_overlap _ _ _ _ _ (Z.max s s') Hnew Hl Hmid); [|lia].
      destruct Hl; lia.
    + right. eapply live_at_ext; [|done]. intros i Hi. apply upd_out. lia.
  - intros [[-> ->]|Hl]; [done|]. eapply live_at_ext; [|done].
    intros i Hi. symmetry. apply upd_out. intros Hi'. eapply live_free_disjoint; eauto.
Qed.

(** Clearing a run removes exactly that run. *)
Lemma clear_live (Hv : forall j, v j = HEAP_BLOCK_TABLE_ENTRY_FREE) (Hlive : live_at es s n) s' n' :
  live_at es' s' n' <-> live_at es s' n' /\ s' <> s.
Proof.
  assert (Hclear : forall i, s <= i < s + n -> zget es' i = Some 0).
  { intros i Hi. by rewrite upd_in, Hv. }
  split.
  - intros Hl. assert (Hdis : forall i, s' <= i < s' + n' -> ~ s <= i < s + n).
    { intros i Hi Hi'. destruct (live_not_free _ _ _ _ Hl Hi) as (e & He & Ht).
      rewrite Hclear in He by done. by injection He as <-. }
    split.
    + eapply live_at_ext; [|done]. intros i Hi. apply upd_out. by apply Hdis.
    + intros ->. apply (Hdis s); destruct Hl, Hlive; lia.
  - intros [Hl Hne]. eapply live_at_ext; [|done]. intros i Hi. symmetry. apply upd_out.
    intros Hi'. destruct (live_overlap _ _ _ _ _ i Hl Hlive); lia.
Qed.
End update.

(** ** Each operation in terms of the live blocks *)

(** Blocks an allocation of [size] bytes takes. *)
Definition blocks_of (size : Z) : Z := heap_align_value_upper size / KERNEL_HEAP_BLOCK_SIZE.

Lemma blocks_of_spec size :
  0 <= size <= 4294963200 ->
  size <= blocks_of size * KERNEL_HEAP_BLOCK_SIZE < size + KERNEL_HEAP_BLOCK_SIZE.
Proof.
  intros Hs. unfold blocks_of, heap_align_value_upper, KERNEL_HEAP_BLOCK_SIZE.
  zcase; wrap.
Qed.

Lemma blocks_of_nonneg size : 0 <= size -> 0 <= blocks_of size.
Proof.
  intros Hs. unfold blocks_of, heap_align_value_upper, KERNEL_HEAP_BLOCK_SIZE.
  zcase; wrap.
Qed.

Lemma live_sa h a n : live h a n -> a <> 0 \/ saddr h <= 0.
Proof.
  intros (s & Hl & ->). apply live_range in Hl. unfold KERNEL_HEAP_BLOCK_SIZE. lia.
Qed.

Lemma free_entry_zero es s n i :
  table_ok es -> free_run es s n -> s <= i < s + n -> zget es i = Some 0.
Proof.
  intros Hok Hf Hi. destruct (Hf i Hi) as (e & He & Ht). rewrite He. f_equal.
  destruct (Hok i e He) as [->|(s' & n' & Hl & Hi')]; [done|].
  exfalso. eapply live_free_disjoint; eauto.
Qed.

Section mark.
Context (h : heap) (s k : Z).
Hypothesis Hok : heap_ok h.
Hypothesis Hk : 0 < k.
Hypothesis Hfree : free_run (enteies (table h)) s k.

Lemma mark_total_bound : total (table h) < 1048577.
Proof.
  destruct Hok as (_ & Hs & _ & Hb & _). unfold KERNEL_HEAP_BLOCK_SIZE in *. lia.
Qed.

Lemma heap_mark_blocks_taken_get j :
  zget (enteies (table (heap_mark_blocks_taken h s k))) j =
  if (s <=? j) && (j <=? s + k - 1) then Some (mark_entry j s (s + k - 1))
  else zget (enteies (table h)) j.
Proof.
  pose proof mark_total_bound. destruct (free_run_range _ _ _ Hk Hfree).
  destruct Hok as (Hlen & _). unfold heap_mark_blocks_taken. simpl.
  rewrite u32_small by lia. apply mark_taken_loop_get; lia.
Qed.

Lemma heap_mark_blocks_taken_ok : heap_ok (heap_mark_blocks_taken h s k).
Proof.
  destruct Hok as (Hlen & Hs & Ha & Hb & Htab). unfold heap_ok. simpl.
  split; [by rewrite mark_taken_loop_len|]. do 3 (split; [done|]).
  intros i e He. pose proof (heap_mark_blocks_taken_get i) as E. simpl in E.
  pose proof (mark_live _ _ _ _ _ heap_mark_blocks_taken_get Hk ltac:(done) Hfree) as Hlive.
  simpl in Hlive. rewrite E in He. destruct ((s <=? i) && (i <=? s + k - 1)) eqn:Hin.
  - right. exists s, k. split; [apply Hlive; by left|]. lia.
  - destruct (Htab i e He) as [->|(s' & n' & Hl & Hi)]; [by left|].
    right. exists s', n'. split; [apply Hlive; by right|done].
Qed.
End mark.

(** First fit: the address returned is that of the lowest free run. *)
Definition first_fit (h : heap) (k a : Z) : Prop :=
  exists s, a = saddr h + s * KERNEL_HEAP_BLOCK_SIZE /\ free_run (enteies (table h)) s k /\
  forall s', 0 <= s' < s -> ~ free_run (enteies (table h)) s' k.

Lemma block_address_small h s k :
  heap_ok h -> 0 < k -> free_run (enteies (table h)) s k ->
  heap_block_to_address h s = saddr h + s * KERNEL_HEAP_BLOCK_SIZE /\
  0 < heap_block_to_address h s.
Proof.
  intros (Hlen & Hs & _ & Hb & _) Hk Hf. destruct (free_run_range _ _ _ Hk Hf).
  unfold heap_block_to_address, KERNEL_HEAP_BLOCK_SIZE in *. rewrite u32_small; lia.
Qed.

Lemma heap_malloc_blocks_cases h k :
  heap_ok h -> 0 <= k ->
  (heap_malloc_blocks h k = (0, h) /\ (k = 0 \/ forall s, 0 <= s -> ~ free_run (enteies (table h)) s k)) \/
  exists s, 0 < k /\ free_run (enteies (table h)) s k /\
    (forall s', 0 <= s' < s -> ~ free_run (enteies (table h)) s' k) /\
    heap_malloc_blocks h k = (heap_block_to_address h s, heap_mark_blocks_taken h s k).
Proof.
  intros Hok Hk. unfold heap_malloc_blocks. destruct (Z.eqb_spec k 0); [auto|].
  destruct Hok as (Hlen & _).
  destruct (heap_get_start_block_spec h k Hlen ltac:(lia)) as [(Hs & Hrun & Hff)|(-> & Hno)].
  - right. exists (heap_get_start_block h k).
    destruct (Z.ltb_spec (heap_get_start_block h k) 0); [lia|]. split; [lia|done].
  - left. split; [done|by right].
Qed.

(** The whole contract of an allocation of [k] blocks. *)
Lemma heap_malloc_blocks_spec h k a h' :
  heap_ok h -> 0 <= k -> heap_malloc_blocks h k = (a, h') ->
  heap_ok h' /\ saddr h' = saddr h /\ total (table h') = total (table h) /\
  ((a = 0 /\ h' = h /\ (k = 0 \/ forall s, 0 <= s -> ~ free_run (enteies (table h)) s k)) \/
   (0 < a /\ 0 < k /\ first_fit h k a /\
    forall b n, live h' b n <-> (b = a /\ n = k) \/ live h b n)).
Proof.
  intros Hok Hk E. destruct (heap_malloc_blocks_cases h k Hok Hk)
    as [[E' Hno]|(s & Hk0 & Hf & Hff & E')]; rewrite E' in E; injection E as <- <-.
  - split_and!; try done. by left.
  - destruct (block_address_small h s k Hok Hk0 Hf) as [Ea Hpos].
    split_and!; try done; [by apply heap_mark_blocks_taken_ok|].
    right. split_and!; try done; [by exists s|]. intros b n.
    pose proof (mark_live _ _ _ _ _ (heap_mark_blocks_taken_get h s k Hok Hk0 Hf) Hk0
                  ltac:(done) Hf) as Hlive.
    unfold live. rewrite Ea. split.
    + intros (s' & Hl%Hlive & ->). destruct Hl as [[-> ->]|Hl]; [by left|]. right. eauto.
    + intros [[-> ->]|(s' & Hl & ->)]; [exists s|exists s'];
        (split; [apply Hlive; eauto|done]).
Qed.

(** Releasing an allocated run. *)
Section release.
Context (h : heap) (s n : Z).
Hypothesis Hok : heap_ok h.
Hypothesis Hlive : live_at (enteies (table h)) s n.

Lemma address_to_block : heap_address_to_block h (saddr h + s * KERNEL_HEAP_BLOCK_SIZE) = s.
Proof.
  destruct (live_range _ _ _ Hlive), Hok as (Hlen & Hs & _ & Hb & _).
  pose proof (proj1 Hlive).
  unfold heap_address_to_block, KERNEL_HEAP_BLOCK_SIZE in *.
  rewrite u32_small by lia. replace (saddr h + s * 4096 - saddr h) with (s * 4096) by lia.
  by apply Z.div_mul.
Qed.

Lemma heap_mark_blocks_free_get j :
  zget (enteies (table (heap_mark_blocks_free h s))) j =
  if (s <=? j) && (j <=? s + n - 1) then Some HEAP_BLOCK_TABLE_ENTRY_FREE
  else zget (enteies (table h)) j.
Proof.
  pose proof (mark_total_bound h Hok).
  destruct (live_range _ _ _ Hlive), Hlive as [Hn Hrun], Hok as (Hlen & _).
  simpl. apply mark_free_loop_get with (s := s); try lia. intros k Hk. apply Hrun. lia.
Qed.

Lemma heap_mark_blocks_free_ok : heap_ok (heap_mark_blocks_free h s).
Proof.
  destruct Hok as (Hlen & Hs & Ha & Hb & Htab). unfold heap_ok. simpl.
  split; [by rewrite mark_free_loop_len|]. do 3 (split; [done|]).
  intros i e He. pose proof (heap_mark_blocks_free_get i) as E. simpl in E. rewrite E in He.
  pose proof (clear_live _ _ _ _ _ heap_mark_blocks_free_get ltac:(done) Hlive) as Hl'.
  simpl in Hl'. destruct ((s <=? i) && (i <=? s + n - 1)) eqn:Hin.
  - left. by injection He.
  - destruct (Htab i e He) as [->|(s' & n' & Hl & Hi)]; [by left|].
    right. exists s', n'. split; [|done]. apply Hl'. split; [done|]. intros ->.
    destruct (live_overlap _ _ _ _ _ i Hl Hl Hi Hi).
    assert (n = n') as <-; [|lia].
    apply Z.le_antisymm; eapply live_len; eauto.
Qed.
End release.

Lemma heap_free_live h a n :
  heap_ok h -> live h a n ->
  heap_ok (heap_free h a) /\ saddr (heap_free h a) = saddr h /\
  total (table (heap_free h a)) = total (table h) /\
  forall b m, live (heap_free h a) b m <-> live h b m /\ b <> a.
Proof.
  intros Hok (s & Hl & ->). unfold heap_free.
  destruct (live_range _ _ _ Hl) as [Hs0 _].
  pose proof Hok as (_ & Hs & _). rewrite (address_to_block h s n Hok Hl).
  unfold KERNEL_HEAP_BLOCK_SIZE. destruct (Z.eqb_spec (saddr h + s * 4096) 0); [lia|].
  split_and!; try done; [by apply (heap_mark_blocks_free_ok h s n)|].
  intros b m. pose proof (clear_live _ _ _ _ _ (heap_mark_blocks_free_get h s n Hok Hl)
                            ltac:(done) Hl) as Hl'.
  unfold live, KERNEL_HEAP_BLOCK_SIZE. split.
  - intros (s' & [H1 H2]%Hl' & ->). split; [by exists s'|]. simpl. lia.
  - intros [(s' & H1 & ->) Hne]. exists s'. split; [|done]. apply Hl'. split; [done|]. lia.
Qed.

(** ** Creation *)

Lemma fill_entries_len es n v : zlen es = n -> zlen (fill_entries es n v) = n.
Proof.
  intros <-. unfold fill_entries, zlen. rewrite length_app, length_replicate, length_drop. lia.
Qed.

Lemma fill_entries_get es n v i e : zlen es = n -> zget (fill_entries es n v) i = Some e -> e = v.
Proof.
  intros <-. unfold fill_entries, zlen. rewrite Nat2Z.id, drop_all, app_nil_r, zget_replicate.
  destruct (_ && _); by intros [= ->].
Qed.

Lemma heap_create_ok h ptr end_ t :
  zlen (enteies t) = total t -> 0 < ptr -> ptr <= end_ <= 4294967296 ->
  ptr mod KERNEL_HEAP_BLOCK_SIZE = 0 -> end_ mod KERNEL_HEAP_BLOCK_SIZE = 0 ->
  total t = (end_ - ptr) / KERNEL_HEAP_BLOCK_SIZE ->
  exists h', heap_create h ptr end_ t = (0, h') /\ heap_ok h' /\ saddr h' = ptr /\
    total (table h') = total t /\ free_run (enteies (table h')) 0 (total t).
Proof.
  intros Hlen Hp He Ha Ha' Ht.
  assert (Hu : u32 (end_ - ptr) = end_ - ptr) by (apply u32_small; lia).
  unfold heap_create, heap_validate_table, heap_validate_alignment.
  rewrite Ha, Ha', Hu, <- Ht, !Z.eqb_refl. simpl.
  eexists. split; [done|]. unfold heap_ok. simpl. split_and!; try done.
  - by apply fill_entries_len.
  - rewrite Ht. unfold KERNEL_HEAP_BLOCK_SIZE in *. Z.to_euclidean_division_equations. lia.
  - intros i e Hi. left. by eapply fill_entries_get.
  - intros i Hi. destruct (zget_is_Some (fill_entries (enteies t) (total t) 0) i) as [e Hi'].
    { rewrite fill_entries_len; lia. }
    exists e. split; [done|]. by rewrite (fill_entries_get _ _ _ _ _ Hlen Hi').
Qed.

(** ** Counting free blocks *)

Definition is_free (e : Z) : Prop := heap_get_entry_type e = HEAP_BLOCK_TABLE_ENTRY_FREE.

#[export] Instance is_free_dec e : Decision (is_free e).
Proof. unfold is_free. apply _. Defined.

Definition free_blocks (h : heap) : Z := zlen (filter is_free (enteies (table h))).

Lemma free_blocks_exists h : 0 < free_blocks h -> exists s, free_run (enteies (table h)) s 1.
Proof.
  unfold free_blocks. destruct (filter is_free (enteies (table h))) as [|e l] eqn:E; [done|].
  intros _. assert (Hin : e ∈ filter is_free (enteies (table h))) by (rewrite E; left).
  apply list_elem_of_filter in Hin as [He [i Hi]%list_elem_of_lookup].
  exists (Z.of_nat i). intros j Hj. exists e. split; [|done].
  unfold zget. zcase; [|lia]. by replace (Z.to_nat j) with i by lia.
Qed.

Lemma filter_all (l : list Z) : (forall e, e ∈ l -> is_free e) -> filter is_free l = l.
Proof.
  induction l as [|e l IH]; intros H; [done|]. rewrite filter_cons, decide_True, IH; [done| |].
  - intros e' He. apply H. by right.
  - apply H. by left.
Qed.

Lemma filter_none (l : list Z) : (forall e, e ∈ l -> ~ is_free e) -> filter is_free l = [].
Proof.
  induction l as [|e l IH]; intros H; [done|]. rewrite filter_cons, decide_False, IH; [done| |].
  - intros e' He. apply H. by right.
  - apply H. by left.
Qed.

Lemma zget_take_drop (l : list Z) s n i e :
  0 <= s -> 0 <= n -> take (Z.to_nat n) (drop (Z.to_nat s) l) !! i = Some e ->
  zget l (s + Z.of_nat i) = Some e /\ Z.of_nat i < n.
Proof.
  intros Hs Hn H. assert (Hi : (i < Z.to_nat n)%nat).
  { apply lookup_lt_Some in H. rewrite length_take in H. lia. }
  rewrite lookup_take_lt, lookup_drop in H by done. split; [|lia].
  unfold zget. rewrite (proj2 (Z.leb_le 0 _)) by lia. by replace (Z.to_nat (s + Z.of_nat i)) with (Z.to_nat s + i)%nat by lia.
Qed.

(** Freeing exactly the entries of a run adds its length to the number of free entries. *)
Lemma free_count (es es' : list Z) s n :
  0 <= s -> 0 <= n -> s + n <= zlen es -> zlen es' = zlen es ->
  (forall i, ~ s <= i < s + n -> zget es' i = zget es i) ->
  (forall i e, s <= i < s + n -> zget es i = Some e -> ~ is_free e) ->
  (forall i e, s <= i < s + n -> zget es' i = Some e -> is_free e) ->
  zlen (filter is_free es') = zlen (filter is_free es) + n.
Proof.
  intros Hs Hn Hsn Hlen Hout Hin Hin'.
  assert (Esplit : forall l : list Z, l = take (Z.to_nat s) l ++
            take (Z.to_nat n) (drop (Z.to_nat s) l) ++ drop (Z.to_nat (s + n)) l).
  { intros l. rewrite <- (take_drop (Z.to_nat s) l) at 1. f_equal.
    rewrite <- (take_drop (Z.to_nat n) (drop (Z.to_nat s) l)) at 1.
    rewrite drop_drop. do 2 f_equal. lia. }
  rewrite (Esplit es), (Esplit es'), !filter_app, !zlen_app.
  assert (E1 : take (Z.to_nat s) es' = take (Z.to_nat s) es).
  { apply list_eq. intros k. destruct (decide (k < Z.to_nat s)%nat).
    - rewrite !lookup_take_lt by done. specialize (Hout (Z.of_nat k) ltac:(lia)).
      unfold zget in Hout. rewrite Nat2Z.id, (proj2 (Z.leb_le 0 _)) in Hout by lia. exact Hout.
    - by rewrite !lookup_take_ge by lia. }
  assert (E3 : drop (Z.to_nat (s + n)) es' = drop (Z.to_nat (s + n)) es).
  { apply list_eq. intros k. rewrite !lookup_drop.
    specialize (Hout (s + n + Z.of_nat k) ltac:(lia)). unfold zget in Hout.
    rewrite (proj2 (Z.leb_le 0 _)) in Hout by lia.
    by replace (Z.to_nat (s + n) + k)%nat with (Z.to_nat (s + n + Z.of_nat k)) by lia. }
  rewrite E1, E3, (filter_none (take (Z.to_nat n) (drop (Z.to_nat s) es))),
    (filter_all (take (Z.to_nat n) (drop (Z.to_nat s) es'))).
  - unfold zlen in *. rewrite length_take, length_drop. simpl. lia.
  - intros e [k Hk]%list_elem_of_lookup. apply zget_take_drop in Hk as [Hk ?]; [|lia..].
    eapply (Hin' (s + Z.of_nat k)); [lia|done].
  - intros e [k Hk]%list_elem_of_lookup. apply zget_take_drop in Hk as [Hk ?]; [|lia..].
    eapply (Hin (s + Z.of_nat k)); [lia|done].
Qed.

Lemma mark_taken_count h s k :
  heap_ok h -> 0 < k -> free_run (enteies (table h)) s k ->
  free_blocks (heap_mark_blocks_taken h s k) = free_blocks h - k.
Proof.
  intros Hok Hk Hf. destruct (free_run_range _ s k Hk Hf) as [Hs0 Hsk].
  pose proof (heap_mark_blocks_taken_get h s k Hok Hk Hf) as Hget. unfold free_blocks.
  assert (Hlen : zlen (enteies (table (heap_mark_blocks_taken h s k))) = zlen (enteies (table h)))
    by (simpl; by rewrite mark_taken_loop_len).
  rewrite (free_count (enteies (table (heap_mark_blocks_taken h s k))) (enteies (table h)) s k);
    try lia.
  - intros i Hi. rewrite Hget. zsolve.
  - intros i e Hi. rewrite Hget. destruct (Z.leb_spec s i), (Z.leb_spec i (s + k - 1)); try lia.
    intros [= <-]. unfold is_free. by rewrite entry_type_mark.
  - intros i e Hi E. destruct (Hf i ltac:(lia)) as (e' & E' & Hty).
    rewrite E in E'. by injection E' as ->.
Qed.

Lemma heap_malloc_count h size a h' :
  heap_ok h -> 0 <= size -> heap_malloc h size = (a, h') -> a <> 0 ->
  free_blocks h' = free_blocks h - blocks_of size.
Proof.
  intros Hok Hsize E Ha.
  destruct (heap_malloc_blocks_cases h (blocks_of size) Hok (blocks_of_nonneg _ Hsize))
    as [[E' _]|(s & Hk & Hf & _ & E')]; unfold heap_malloc in E; fold (blocks_of size) in E;
    rewrite E' in E; injection E as <- <-; [done|]. by apply mark_taken_count.
Qed.

Lemma heap_free_count h a n :
  heap_ok h -> live h a n -> free_blocks (heap_free h a) = free_blocks h + n.
Proof.
  intros Hok (s & Hl & ->). unfold heap_free.
  destruct (live_range _ _ _ Hl) as [Hs0 Hsn]. pose proof Hok as (_ & Hs & _).
  rewrite (address_to_block h s n Hok Hl).
  unfold KERNEL_HEAP_BLOCK_SIZE. destruct (Z.eqb_spec (saddr h + s * 4096) 0); [lia|].
  pose proof (heap_mark_blocks_free_get h s n Hok Hl) as Hget. unfold free_blocks.
  pose proof (proj1 Hl) as Hn. apply (free_count _ _ s n); try lia.
  - simpl. by rewrite mark_free_loop_len.
  - intros i Hi. rewrite Hget. zsolve.
  - intros i e Hi E Hfr. destruct (live_not_free _ _ _ i Hl ltac:(lia)) as (e' & E' & Ht).
    rewrite E in E'. injection E' as <-. unfold is_free in Hfr. rewrite Ht in Hfr. done.
  - intros i e Hi. rewrite Hget. destruct (Z.leb_spec s i), (Z.leb_spec i (s + n - 1)); try lia.
    by intros [= <-].
Qed.

(** ** Fragmentation

    Every maximal run of free blocks but the last is followed by a taken block, so when
    few blocks are taken there is a long run. *)

Fixpoint lead es : Z :=
  match es with e :: es' => if decide (is_free e) then 1 + lead es' else 0 | [] => 0 end.

Lemma lead_run es : 0 <= lead es /\ free_run es 0 (lead es).
Proof.
  induction es as [|e es [IH0 IH]]; simpl; [split; [done|intros i Hi; lia]|].
  case_decide as He; [|split; [done|intros i Hi; lia]]. split; [lia|]. intros i Hi. rewrite zget_cons.
  destruct (Z.eqb_spec i 0); [by exists e|]. apply IH. lia.
Qed.

Lemma free_run_tail e es s k : 0 <= s -> free_run es s k -> free_run (e :: es) (s + 1) k.
Proof.
  intros Hs H i Hi. rewrite zget_cons. rewrite (proj2 (Z.eqb_neq i 0)) by lia. apply H. lia.
Qed.

Lemma free_runs_bound es k :
  0 < k -> (forall s, 0 <= s -> ~ free_run es s k) ->
  zlen (filter is_free es) <= lead es + (k - 1) * (zlen es - zlen (filter is_free es)).
Proof.
  intros Hk. induction es as [|e es IH]; intros Hno; [rewrite filter_nil; change (zlen (@nil Z)) with 0; cbn [lead]; lia|].
  assert (Hno' : forall s, 0 <= s -> ~ free_run es s k).
  { intros s Hs H. apply (Hno (s + 1)); [lia|]. by apply free_run_tail. }
  specialize (IH Hno'). rewrite filter_cons. simpl lead. rewrite zlen_cons. case_decide as He.
  - rewrite zlen_cons. lia.
  - destruct (lead_run es) as [Hl0 Hl]. destruct (Z.lt_ge_cases (lead es) k) as [Hlt|Hge]; [lia|].
    exfalso. apply (Hno' 0); [lia|]. intros i Hi. apply Hl. lia.
Qed.

(** Enough free blocks that one of the runs has [n] of them, on a heap of [total] blocks. *)
Definition fits (total avail n : Z) : Prop := 0 < n /\ (total - avail + 1) * (n - 1) < avail.

Lemma heap_malloc_fits h n :
  heap_ok h -> fits (total (table h)) (free_blocks h) n -> fst (heap_malloc_blocks h n) <> 0.
Proof.
  intros Hok [Hn Hfit]. destruct (heap_malloc_blocks_cases h n Hok ltac:(lia)) as [[_ [?|Hno]]|(s & _ & Hf & _ & ->)]; [lia| |].
  - exfalso. pose proof (free_runs_bound _ n Hn Hno) as Hb. destruct (lead_run (enteies (table h))) as [Hl0 Hl].
    rewrite (proj1 Hok) in Hb. fold (free_blocks h) in Hb.
    destruct (Z.lt_ge_cases (lead (enteies (table h))) n) as [Hlt|Hge]; [lia|].
    apply (Hno 0); [lia|]. intros i Hi. apply Hl. lia.
  - simpl. pose proof (block_address_small h s n Hok Hn Hf). lia.
Qed.

(** While a block is free, a one-block request succeeds and uses up one free block. *)
Lemma heap_malloc_one_block h :
  heap_ok h -> 0 < free_blocks h ->
  exists a h', heap_malloc_blocks h 1 = (a, h') /\ 0 < a /\ free_blocks h' = free_blocks h - 1.
Proof.
  intros Hok Hfree. destruct (heap_malloc_blocks_cases h 1 Hok ltac:(lia))
    as [[_ [?|Hno]]|(s & _ & Hf & _ & E)]; [done| |].
  - destruct (free_blocks_exists h Hfree) as [s Hs]. exfalso. apply (Hno s); [|done].
    by destruct (free_run_range _ s 1 ltac:(lia) Hs).
  - destruct (block_address_small h s 1 Hok ltac:(lia) Hf) as [_ Hpos].
    do 2 eexists. split; [exact E|]. split; [done|]. by apply mark_taken_count.
Qed.

(** ** Properties *)

(** A heap of four blocks with one block taken, for the witnesses. *)
Definition heap4 : heap :=
  mk_heap (mk_heap_table [65; 0; 0; 0] 4) KERNEL_HEAP_ADDRESS.

Lemma heap4_ok : heap_ok heap4.
Proof.
  unfold heap_ok. simpl. split_and!; try done.
  intros i e He. pose proof (zget_Some_range _ _ _ He) as Hr. unfold zlen in Hr. simpl in Hr.
  assert (i = 0 \/ i = 1 \/ i = 2 \/ i = 3) as [->|[->|[->| ->]]] by lia; injection He as <-; auto.
  right. exists 0, 1. split; [|lia]. split; [lia|]. intros j Hj. by assert (j = 0) as -> by lia.
Qed.

Lemma heap4_live : live heap4 KERNEL_HEAP_ADDRESS 1.
Proof.
  exists 0. split; [|done]. split; [lia|]. intros i Hi. by assert (i = 0) as -> by lia.
Qed.

(** C28: [heap_malloc] against the abstract allocator.  On a well-formed heap a request
    of [size] bytes either returns NULL with the heap unchanged, and then it was for no
    block or no run of free blocks is long enough, or it returns the address of the
    lowest run of free blocks that is long enough, and the allocated blocks of the new
    heap are exactly the old ones and this run; the heap stays well formed. *)
Theorem heap_malloc_refines (h : heap) (size a : Z) (h' : heap) :
  heap_ok h -> 0 <= size < 4294967296 -> heap_malloc h size = (a, h') ->
  let k := blocks_of size in
  heap_ok h' /\
  ((a = 0 /\ h' = h /\ (k = 0 \/ forall s, 0 <= s -> ~ free_run (enteies (table h)) s k)) \/
   (0 < a /\ size <= k * KERNEL_HEAP_BLOCK_SIZE /\ first_fit h k a /\
    forall b n, live h' b n <-> (b = a /\ n = k) \/ live h b n)).
Proof.
  intros Hok Hsize E k.
  destruct (heap_malloc_blocks_spec h k a h' Hok) as (Hok' & _ & _ & H);
    [by apply blocks_of_nonneg; lia|done|].
  split; [done|]. destruct H as [?|(Ha & Hk & Hff & Hlive)]; [by left|right].
  split_and!; try done. destruct (Z.le_gt_cases size 4294963200) as [Hle|Hgt].
  - pose proof (blocks_of_spec size ltac:(lia)). subst k. lia.
  - exfalso. subst k. unfold blocks_of, heap_align_value_upper, KERNEL_HEAP_BLOCK_SIZE in Hk.
    revert Hk. zcase; wrap.
Qed.

Lemma heap_malloc_refines_witness :
  heap_malloc heap4 5000 = (KERNEL_HEAP_ADDRESS + 4096, snd (heap_malloc heap4 5000)) /\
  heap_ok (snd (heap_malloc heap4 5000)).
Proof.
  split; [by vm_compute|].
  apply (heap_malloc_refines heap4 5000 (fst (heap_malloc heap4 5000)) _ heap4_ok);
    [lia|by vm_compute].
Defined.

(** C29: [heap_free] of an allocated address releases exactly the run allocated there:
    the other runs stay, the heap stays well formed, the released blocks can be
    allocated again, and releasing the address a second time changes nothing. *)
Theorem heap_free_refines (h : heap) (a n : Z) :
  heap_ok h -> live h a n ->
  heap_ok (heap_free h a) /\
  (forall b m, live (heap_free h a) b m <-> live h b m /\ b <> a) /\
  free_run (enteies (table (heap_free h a))) ((a - saddr h) / KERNEL_HEAP_BLOCK_SIZE) n /\
  heap_free (heap_free h a) a = heap_free h a.
Proof.
  intros Hok Hlive. pose proof (heap_free_live h a n Hok Hlive) as (Hok' & _ & _ & Hl).
  destruct Hlive as (s & Hs & ->). destruct (live_range _ _ _ Hs) as [Hs0 Hsn].
  replace (saddr h + s * KERNEL_HEAP_BLOCK_SIZE - saddr h) with (s * KERNEL_HEAP_BLOCK_SIZE) by lia.
  rewrite Z.div_mul by done.
  assert (E : heap_free h (saddr h + s * KERNEL_HEAP_BLOCK_SIZE) = heap_mark_blocks_free h s).
  { unfold heap_free. rewrite (address_to_block h s n Hok Hs). pose proof Hok as (_ & Hp & _).
    unfold KERNEL_HEAP_BLOCK_SIZE. zcase; [lia|done]. }
  pose proof (heap_mark_blocks_free_get h s n Hok Hs) as G. split_and!; try done.
  - rewrite E. intros i Hi. exists 0. rewrite G. split; [|done]. zsolve.
  - rewrite E in Hok' |- *. unfold heap_free, heap_address_to_block.
    change (saddr (heap_mark_blocks_free h s)) with (saddr h).
    pose proof (address_to_block h s n Hok Hs) as B. unfold heap_address_to_block in B.
    rewrite B. zcase; [done|]. unfold heap_mark_blocks_free at 1, set_enteies. simpl.
    unfold heap_mark_blocks_free, set_enteies in *. simpl in *. do 2 f_equal.
    pose proof Hok as (Hlen & _). pose proof (proj1 Hs).
    destruct (Z.to_nat (total (table h))) as [|m] eqn:Em; [lia|].
    remember (mark_free_loop (S m) s (total (table h)) (enteies (table h))) as es1.
    simpl. destruct (Z.ltb_spec s (total (table h))); [|lia].
    pose proof (G s) as G'. rewrite (proj2 (Z.leb_le s s)), (proj2 (Z.leb_le s (s + n - 1))) in G' by lia.
    rewrite G'. simpl. apply zlist_eq; [by rewrite zlen_zset|].
    intros i Hi. rewrite zget_zset. destruct (Z.eqb_spec s i) as [<-|]; [|done].
    rewrite zlen_zset in Hi. rewrite G'. zsolve.
Qed.

Lemma heap_free_refines_witness :
  ~ live (heap_free heap4 KERNEL_HEAP_ADDRESS) KERNEL_HEAP_ADDRESS 1.
Proof.
  intros H. destruct (heap_free_refines heap4 KERNEL_HEAP_ADDRESS 1 heap4_ok heap4_live)
    as (_ & Hl & _). by apply Hl in H as [_ []].
Defined.

(** an allocation followed by its release restores the heap byte for byte. *)
Theorem heap_malloc_free (h : heap) (size a : Z) (h' : heap) :
  heap_ok h -> 0 <= size < 4294967296 -> heap_malloc h size = (a, h') -> heap_free h' a = h.
Proof.
  intros Hok Hsize E. change (heap_malloc h size) with (heap_malloc_blocks h (blocks_of size)) in E.
  destruct (heap_malloc_blocks_cases h (blocks_of size) Hok) as
    [[E' _]|(s & Hk & Hf & _ & E')]; [by apply blocks_of_nonneg; lia| |].
  - rewrite E' in E. by injection E as <- <-.
  - rewrite E' in E. injection E as <- <-.
    set (k := blocks_of size) in *.
    destruct (block_address_small h s k Hok Hk Hf) as [Ea Hpos].
    pose proof (heap_mark_blocks_taken_get h s k Hok Hk Hf) as G.
    pose proof (heap_mark_blocks_taken_ok h s k Hok Hk Hf) as Hok'.
    assert (Hl : live_at (enteies (table (heap_mark_blocks_taken h s k))) s k).
    { apply (mark_live _ _ _ _ _ G Hk ltac:(done) Hf). by left. }
    pose proof (heap_mark_blocks_free_get _ s k Hok' Hl) as G'.
    unfold heap_free. zcase; [lia|]. rewrite Ea.
    change (saddr h) with (saddr (heap_mark_blocks_taken h s k)).
    rewrite (address_to_block _ s k Hok' Hl).
    destruct h as [[es t] sa]. unfold heap_mark_blocks_free, heap_mark_blocks_taken, set_enteies in *.
    simpl in *. do 2 f_equal. apply zlist_eq; [by rewrite mark_free_loop_len, mark_taken_loop_len|].
    intros i Hi. rewrite G'. destruct ((s <=? i) && (i <=? s + k - 1)) eqn:Hin.
    + symmetry. apply (free_entry_zero _ s k); [apply Hok|done|lia].
    + rewrite G. by rewrite Hin.
Qed.

Lemma heap_malloc_free_witness :
  heap_free (snd (heap_malloc heap4 8192)) (fst (heap_malloc heap4 8192)) = heap4.
Proof.
  apply (heap_malloc_free heap4 8192); [apply heap4_ok|lia|by vm_compute].
Defined.
