(* ===== verification/Kheap.v ===== *)
(** * Physical memory, mm/kheap.c, and what the rest of the kernel relies on

    Physical memory is a total function from addresses to bytes (with paging on, the
    kernel's own directory maps every page to itself, so kernel pointers are physical
    addresses).  [kmalloc], [kzalloc] and [kfree] run the heap of Heap.v on the kernel
    heap; the class [AllocatorLaws] is the contract their clients are verified
    against. *)
From S2P Require Import Prelude Heap.

(** ** Bytes and little-endian words *)

Definition mem : Type := Z -> Z.

Definition ld8 (m : mem) (a : Z) : Z := m (u32 a).
Definition st8 (m : mem) (a v : Z) : mem := fun x => if x =? u32 a then u8 v else m x.

Definition ld32 (m : mem) (a : Z) : Z :=
  ld8 m a + 256 * ld8 m (a + 1) + 65536 * ld8 m (a + 2) + 16777216 * ld8 m (a + 3).

Definition ld16 (m : mem) (a : Z) : Z := ld8 m a + 256 * ld8 m (a + 1).

(** [n] bytes from address [a], and storing a list of bytes there. *)
Definition load_bytes (m : mem) (a n : Z) : list Z := map (fun i => ld8 m (a + i)) (seqZ 0 n).

Fixpoint store_bytes (m : mem) (a : Z) (bs : list Z) : mem :=
  match bs with
  | [] => m
  | b :: bs' => store_bytes (st8 m a b) (a + 1) bs'
  end.

Definition st32 (m : mem) (a v : Z) : mem :=
  st8 (st8 (st8 (st8 m a v) (a + 1) (v / 256)) (a + 2) (v / 65536)) (a + 3) (v / 16777216).

(** The effect of [memset(ptr, c, size)] (lib/string.c) on memory. *)
Definition memset (m : mem) (ptr c size : Z) : mem :=
  fun x => if (ptr <=? x) && (x <? ptr + size) then u8 c else m x.

(** The loop of [memset], byte by byte; [i] counts up to [size]. *)
Fixpoint memset_loop (n : nat) (m : mem) (ptr c i size : Z) : mem :=
  match n with
  | O => m
  | S n' => if i <? size then memset_loop n' (st8 m (ptr + i) c) ptr c (i + 1) size else m
  end.

(** ** The kernel heap *)

Record machine := mk_machine { m_heap : heap; m_mem : mem }.

Definition set_mem (m : mem) (s : machine) : machine := mk_machine (m_heap s) m.

(** [es]: the bytes found at [KERNEL_HEAP_TABLE_ADDRESS]; a failure is only reported. *)
Definition kheap_init (kernel_heap : heap) (es : list Z) : heap :=
  let kernel_heap_table :=
    mk_heap_table es (KERNEL_HEAP_SIZE_BYTES / KERNEL_HEAP_BLOCK_SIZE) in
  let end_ := KERNEL_HEAP_ADDRESS + KERNEL_HEAP_SIZE_BYTES in
  snd (heap_create kernel_heap KERNEL_HEAP_ADDRESS end_ kernel_heap_table).

Definition heap_zalloc (h : heap) (m : mem) (size : Z) : Z * heap * mem :=
  let aligned_size := heap_align_value_upper size in
  let total_blocks := aligned_size / KERNEL_HEAP_BLOCK_SIZE in
  let '(address, h') := heap_malloc_blocks h total_blocks in
  if address =? 0 then (0, h', m)
  else (address, h', memset m address 0 aligned_size).

Definition kmalloc (size : Z) : M machine Z := fun s =>
  let '(a, h) := heap_malloc (m_heap s) size in Done a (mk_machine h (m_mem s)).

Definition kzalloc (size : Z) : M machine Z := fun s =>
  let '(a, h, m) := heap_zalloc (m_heap s) (m_mem s) size in Done a (mk_machine h m).

Definition kfree (ptr : Z) : M machine unit := fun s =>
  Done tt (mk_machine (heap_free (m_heap s) ptr) (m_mem s)).

(** ** The contract of an allocator

    [al_live h a n]: the client owns [n] blocks of 4096 bytes at address [a]. *)

Class Allocator (H : Type) := {
  al_malloc : H -> Z -> Z * H;
  al_free : H -> Z -> H;
  al_ok : H -> Prop;
  al_live : H -> Z -> Z -> Prop;
  al_avail : H -> Z
}.

Definition apart (a n b k : Z) : Prop :=
  a + n * KERNEL_HEAP_BLOCK_SIZE <= b \/ b + k * KERNEL_HEAP_BLOCK_SIZE <= a.

(** Ownership of exactly one block run more. *)
Definition own_more {H} `{Allocator H} (h h' : H) (a k : Z) : Prop :=
  forall b n, al_live h' b n <-> (b = a /\ n = k) \/ al_live h b n.

Definition own_less {H} `{Allocator H} (h h' : H) (a : Z) : Prop :=
  forall b n, al_live h' b n <-> al_live h b n /\ b <> a.

Definition own_same {H} `{Allocator H} (h h' : H) : Prop :=
  forall b n, al_live h' b n <-> al_live h b n.

(** Enough free blocks for a run of [n], however the blocks in use are spread. *)
Definition roomy (avail n : Z) : Prop := fits (KERNEL_HEAP_SIZE_BYTES / KERNEL_HEAP_BLOCK_SIZE) avail n.

Lemma roomy_page avail : roomy avail 1 <-> 0 < avail.
Proof. unfold roomy, fits. lia. Qed.

Lemma roomy_mono a a' n n' : roomy a n -> a <= a' -> 0 < n' <= n -> roomy a' n'.
Proof.
  unfold roomy, fits. change (KERNEL_HEAP_SIZE_BYTES / KERNEL_HEAP_BLOCK_SIZE) with 25600. intros [Hn H] Ha Hn'.
  split; [lia|]. destruct (Z.le_gt_cases a' 25600); nia.
Qed.

Class AllocatorLaws (H : Type) `{Allocator H} := {
  (** An allocation fails with NULL and no effect, or hands out blocks nobody owns. *)
  al_malloc_spec : forall h size a h',
    al_ok h -> 0 <= size < 4294967296 -> al_malloc h size = (a, h') ->
    al_ok h' /\
    ((a = 0 /\ h' = h) \/
     (0 < a /\ size <= blocks_of size * KERNEL_HEAP_BLOCK_SIZE /\
      own_more h h' a (blocks_of size) /\ forall b n, al_live h b n -> apart a (blocks_of size) b n));
  (** Releasing owned blocks gives up exactly them; [kfree(NULL)] does nothing. *)
  al_free_spec : forall h a n,
    al_ok h -> al_live h a n -> al_ok (al_free h a) /\ own_less h (al_free h a) a;
  al_free_null : forall h, al_free h 0 = h;
  (** Free blocks: a request succeeds when so many are free that some run is long enough;
      the count follows every allocation and release. *)
  al_malloc_roomy : forall h size a h',
    al_ok h -> 0 <= size < 4294967296 -> roomy (al_avail h) (blocks_of size) ->
    al_malloc h size = (a, h') -> 0 < a;
  al_malloc_avail : forall h size a h',
    al_ok h -> 0 <= size < 4294967296 -> al_malloc h size = (a, h') -> a <> 0 ->
    al_avail h' = al_avail h - blocks_of size;
  al_free_avail : forall h a n,
    al_ok h -> al_live h a n -> al_avail (al_free h a) = al_avail h + n;
  (** Addresses: block aligned, below 2^31 (so never mistaken for an error code). *)
  al_live_range : forall h a n,
    al_ok h -> al_live h a n ->
    0 < a /\ 0 < n /\ a mod KERNEL_HEAP_BLOCK_SIZE = 0 /\ a + n * KERNEL_HEAP_BLOCK_SIZE <= 2147483648
}.

(** The kernel heap lies in [KERNEL_HEAP_ADDRESS .. + KERNEL_HEAP_SIZE_BYTES). *)
Definition kheap_ok (h : heap) : Prop :=
  heap_ok h /\ saddr h = KERNEL_HEAP_ADDRESS /\
  total (table h) * KERNEL_HEAP_BLOCK_SIZE <= KERNEL_HEAP_SIZE_BYTES.

#[export] Instance heap_allocator : Allocator heap := {
  al_malloc := heap_malloc;
  al_free := heap_free;
  al_ok := kheap_ok;
  al_live := live;
  al_avail := free_blocks
}.

(** ** Word lemmas *)

Lemma st8_same m a v : ld8 (st8 m a v) a = u8 v.
Proof. unfold ld8, st8. by rewrite Z.eqb_refl. Qed.

Lemma st8_other m a b v : u32 b <> u32 a -> ld8 (st8 m a v) b = ld8 m b.
Proof. intros Hne. unfold ld8, st8. by rewrite (proj2 (Z.eqb_neq _ _) Hne). Qed.

Lemma ld32_st32_same m a v :
  0 <= a <= 4294967292 -> 0 <= v < 4294967296 -> ld32 (st32 m a v) a = v.
Proof.
  intros Ha Hv. unfold ld32, st32.
  repeat first [ rewrite st8_same | rewrite st8_other by (rewrite !u32_small by lia; lia) ].
  wrap.
Qed.

Lemma ld32_ext m m' a : (forall i, 0 <= i < 4 -> ld8 m (a + i) = ld8 m' (a + i)) -> ld32 m a = ld32 m' a.
Proof.
  intros E. unfold ld32. rewrite <- (Z.add_0_r a) at 1 5. by rewrite !E by lia.
Qed.

Lemma ld32_st32_other m a b v :
  0 <= a <= 4294967292 -> 0 <= b <= 4294967292 -> a + 4 <= b \/ b + 4 <= a ->
  ld32 (st32 m a v) b = ld32 m b.
Proof.
  intros Ha Hb Hab. apply ld32_ext. intros i Hi. unfold st32.
  by rewrite !st8_other by (rewrite !u32_small by lia; lia).
Qed.

Lemma ld32_memset_in m ptr size a :
  0 <= ptr -> ptr <= a -> a + 4 <= ptr + size -> ptr + size <= 4294967296 ->
  ld32 (memset m ptr 0 size) a = 0.
Proof.
  intros. unfold ld32, ld8, memset. rewrite !u32_small by lia.
  by repeat (zcase; simpl; try lia).
Qed.

Lemma ld32_memset_out m ptr c size a :
  0 <= a <= 4294967292 -> a + 4 <= ptr \/ ptr + size <= a ->
  ld32 (memset m ptr c size) a = ld32 m a.
Proof.
  intros. unfold ld32, ld8, memset. rewrite !u32_small by lia.
  by repeat (zcase; simpl; try lia).
Qed.

Lemma store_bytes_other m a bs x :
  0 <= a -> a + zlen bs <= 4294967296 -> x < a \/ a + zlen bs <= x -> store_bytes m a bs x = m x.
Proof.
  revert m a. induction bs as [|b bs IH]; intros m a Ha Hb Hx; [done|]. simpl. rewrite zlen_cons in *.
  pose proof (zlen_nonneg bs). rewrite IH by lia. unfold st8. rewrite u32_small by lia. by zcase; [lia|].
Qed.

Lemma load_store_bytes m a bs :
  0 <= a -> a + zlen bs <= 4294967296 -> Forall (fun b => 0 <= b < 256) bs ->
  load_bytes (store_bytes m a bs) a (zlen bs) = bs.
Proof.
  revert m a. induction bs as [|b bs IH]; intros m a Ha Hb Hbs; [done|].
  apply Forall_cons in Hbs as [Hb0 Hbs]. rewrite zlen_cons in Hb |- *. pose proof (zlen_nonneg bs).
  unfold load_bytes. rewrite seqZ_app by lia. rewrite map_app. change (seqZ 0 1) with [0]. cbn [map store_bytes].
  rewrite Z.add_0_r, Z.add_0_l. simpl app. f_equal.
  - unfold ld8. rewrite store_bytes_other by (rewrite ?u32_small by lia; lia).
    unfold st8. by rewrite u32_small, Z.eqb_refl, u8_small by lia.
  - rewrite <- (IH (st8 m a b) (a + 1)) at 2 by (done || lia). unfold load_bytes.
    rewrite <- (Z.add_0_r 1), <- (fmap_add_seqZ 1 0). unfold fmap. rewrite map_map. apply map_ext. intros i. f_equal. lia.
Qed.

Lemma memset_loop_fill n m ptr c i size x :
  0 <= i <= size -> size - i <= Z.of_nat n -> 0 <= ptr -> ptr + size <= 4294967296 ->
  memset_loop n m ptr c i size x =
  if (ptr + i <=? x) && (x <? ptr + size) then u8 c else m x.
Proof.
  revert m i. induction n as [|n IH]; intros m i Hi Hn Hp Hs; simpl.
  - by repeat (zcase; simpl; try lia).
  - destruct (Z.ltb_spec i size).
    + rewrite IH by lia. unfold st8. rewrite u32_small by lia. by repeat (zcase; simpl; try lia).
    + by repeat (zcase; simpl; try lia).
Qed.

Lemma st32_outside m a v x :
  0 <= a <= 4294967292 -> ~ a <= x < a + 4 -> st32 m a v x = m x.
Proof.
  intros Ha Hx. unfold st32, st8. rewrite !u32_small by lia. by repeat (zcase; try lia).
Qed.

(** Every cell holds a byte. *)
Definition mem_ok (m : mem) : Prop := forall x, 0 <= m x < 256.

Lemma ld32_range m a : mem_ok m -> 0 <= ld32 m a < 4294967296.
Proof.
  intros Hm. unfold ld32, ld8. pose proof (Hm (u32 a)). pose proof (Hm (u32 (a + 1))).
  pose proof (Hm (u32 (a + 2))). pose proof (Hm (u32 (a + 3))). lia.
Qed.

Lemma st8_mem_ok m a v : mem_ok m -> mem_ok (st8 m a v).
Proof. intros Hm x. unfold st8. zcase; [apply u8_range|apply Hm]. Qed.

Lemma store_bytes_mem_ok bs m a : mem_ok m -> mem_ok (store_bytes m a bs).
Proof. revert m a. induction bs as [|b bs IH]; intros m a Hm; [done|]. simpl. apply IH. by apply st8_mem_ok. Qed.

Lemma st32_mem_ok m a v : mem_ok m -> mem_ok (st32 m a v).
Proof. intros. unfold st32. by repeat apply st8_mem_ok. Qed.

Lemma memset_mem_ok m a c n : mem_ok m -> mem_ok (memset m a c n).
Proof. intros Hm x. unfold memset. destruct (_ && _); [apply u8_range|apply Hm]. Qed.

(** ** The kernel heap keeps the contract *)

Lemma kheap_live_range h a n :
  kheap_ok h -> live h a n ->
  0 < a /\ 0 < n /\ a mod KERNEL_HEAP_BLOCK_SIZE = 0 /\ a + n * KERNEL_HEAP_BLOCK_SIZE <= 2147483648.
Proof.
  intros (Hok & Hs & Ht) (s & Hl & ->).
  destruct (live_range _ _ _ Hl), Hl as [Hn _], Hok as (Hlen & _).
  unfold KERNEL_HEAP_BLOCK_SIZE, KERNEL_HEAP_SIZE_BYTES, KERNEL_HEAP_ADDRESS in *.
  rewrite Hs. split_and!; try lia. change 16777216 with (4096 * 4096).
  rewrite <- Z.mul_add_distr_r. by apply Z.mod_mul.
Qed.

Lemma live_apart h a n b k : heap_ok h -> live h a n -> live h b k -> a <> b -> apart a n b k.
Proof.
  intros Hok (s & Hs & ->) (s' & Hs' & ->) Hne. unfold apart, KERNEL_HEAP_BLOCK_SIZE in *.
  pose proof (proj1 Hs). pose proof (proj1 Hs').
  destruct (decide (s' < s + n /\ s < s' + k)) as [[H1 H2]|Hdis]; [|lia].
  destruct (live_overlap _ _ _ _ _ (Z.max s s') Hs Hs'); lia.
Qed.

(** An address in no allocated run: NULL, a free block, anything outside the heap. *)
Definition vacant (h : heap) (a : Z) : Prop :=
  0 <= a < 4294967296 /\ forall b k, live h b k -> ~ b <= a < b + k * KERNEL_HEAP_BLOCK_SIZE.

(** Releasing it does nothing. *)
Lemma kheap_free_vacant h a : kheap_ok h -> vacant h a -> heap_free h a = h.
Proof.
  intros (Hok & Hs & Ht) [Ha Hno]. pose proof Hok as (Hlen & Hp & _ & Hb & Htab).
  unfold KERNEL_HEAP_ADDRESS, KERNEL_HEAP_SIZE_BYTES, KERNEL_HEAP_BLOCK_SIZE in *.
  unfold heap_free. destruct (a =? 0); [done|]. unfold heap_mark_blocks_free. set (i := heap_address_to_block h a).
  assert (Hi : 0 <= i /\ (i < total (table h) -> i * 4096 <= a - saddr h < i * 4096 + 4096)).
  { unfold i, heap_address_to_block, u32, KERNEL_HEAP_BLOCK_SIZE. rewrite Hs in *. Z.to_euclidean_division_equations; lia. }
  assert (Em : forall m, mark_free_loop m i (total (table h)) (enteies (table h)) = enteies (table h)); [|rewrite Em; by destruct h as [[]]].
  intros [|m]; [done|]. cbn [mark_free_loop]. destruct (Z.ltb_spec i (total (table h))) as [Hit|_]; [|done].
  destruct (zget_is_Some (enteies (table h)) i) as [e He]; [lia|].
  assert (e = HEAP_BLOCK_TABLE_ENTRY_FREE) as ->.
  { destruct (Htab i e He) as [|(s & k & Hk & Hik)]; [done|]. exfalso. apply (Hno (saddr h + s * 4096) k); [by exists s|lia]. }
  rewrite He. cbn [default]. change (Z.land HEAP_BLOCK_TABLE_ENTRY_FREE HEAP_BLOCK_HAS_NEXT =? 0) with true. cbv iota.
  unfold zset, zget in *. rewrite (proj2 (Z.leb_le 0 i)) in * by lia. by apply list_insert_id.
Qed.

(** The start of a run that has been released. *)
Lemma released_vacant h0 h a n :
  kheap_ok h0 -> live h0 a n -> (forall b k, live h b k -> live h0 b k /\ b <> a) -> vacant h a.
Proof.
  intros Hok0 Hl0 Hsub. destruct (kheap_live_range _ _ _ Hok0 Hl0) as (Ha & Hn & _ & Hr). unfold KERNEL_HEAP_BLOCK_SIZE in *.
  split; [lia|]. intros b k Hl. destruct (Hsub _ _ Hl) as [Hl1 Hne].
  pose proof (live_apart _ _ _ _ _ (proj1 Hok0) Hl1 Hl0 Hne) as H. unfold apart, KERNEL_HEAP_BLOCK_SIZE in *. lia.
Qed.

#[export] Instance heap_allocator_laws : AllocatorLaws heap.
Proof.
  constructor; simpl.
  - intros h size a h' (Hok & Hs & Ht) Hsize E.
    destruct (heap_malloc_blocks_spec h (blocks_of size) a h' Hok) as (Hok' & Es & Et & D);
      [apply blocks_of_nonneg; lia|exact E|].
    split; [unfold kheap_ok; by rewrite Es, Et|].
    destruct D as [(-> & -> & _)|(Ha & Hk & Hff & Hlive)]; [by left|]. right.
    assert (Hnew : live h' a (blocks_of size)) by (apply Hlive; by left).
    split_and!; try done.
    + destruct (Z.le_gt_cases size 4294963200).
      * pose proof (blocks_of_spec size ltac:(lia)). lia.
      * exfalso. unfold blocks_of, heap_align_value_upper, KERNEL_HEAP_BLOCK_SIZE in Hk.
        revert Hk. zcase; wrap.
    + intros b n Hb. apply (live_apart h'); try done; [by apply Hlive; right|]. intros <-.
      destruct Hff as (s & -> & Hf & _), Hb as (s' & Hl & Heq).
      assert (s' = s) as -> by (unfold KERNEL_HEAP_BLOCK_SIZE in *; lia).
      pose proof (proj1 Hl). eapply (live_free_disjoint _ s n s (blocks_of size) s); eauto; lia.
  - intros h a n (Hok & Hs & Ht) Hl.
    destruct (heap_free_live h a n Hok Hl) as (Hok' & Es & Et & Hl').
    split; [unfold kheap_ok; by rewrite Es, Et|done].
  - done.
  - intros h size a h' (Hok & Hs & Ht) Hsize Hr E.
    destruct (heap_malloc_blocks_spec h (blocks_of size) a h' Hok) as (_ & _ & _ & D);
      [apply blocks_of_nonneg; lia|exact E|]. destruct D as [(-> & _)|(Ha & _)]; [|exact Ha]. exfalso.
    apply (heap_malloc_fits h (blocks_of size) Hok); [|unfold heap_malloc in E; fold (blocks_of size) in E; by rewrite E].
    unfold roomy, fits in *. destruct Hr as [Hr1 Hr2]. split; [done|].
    unfold KERNEL_HEAP_SIZE_BYTES, KERNEL_HEAP_BLOCK_SIZE in *. change (104857600 / 4096) with 25600 in Hr2. nia.
  - intros h size a h' (Hok & _) Hsize. apply heap_malloc_count; [done|lia].
  - intros h a n (Hok & _). by apply heap_free_count.
  - apply kheap_live_range.
Qed.

(** ** [kzalloc] and [kfree] as seen by their callers *)

(** Memory is as before outside [n] bytes at [a]. *)
Definition same_outside (m m' : mem) (a n : Z) : Prop :=
  forall x, x < a \/ a + n <= x -> m' x = m x.

Lemma kzalloc_spec s size :
  kheap_ok (m_heap s) -> 0 <= size < 4294967296 ->
  exists a s', kzalloc size s = Done a s' /\ kheap_ok (m_heap s') /\
  ((a = 0 /\ s' = s) \/
   (0 < a /\ size <= blocks_of size * KERNEL_HEAP_BLOCK_SIZE /\
    own_more (m_heap s) (m_heap s') a (blocks_of size) /\
    (forall b n, live (m_heap s) b n -> apart a (blocks_of size) b n) /\
    (forall x, a <= x < a + blocks_of size * KERNEL_HEAP_BLOCK_SIZE -> m_mem s' x = 0) /\
    same_outside (m_mem s) (m_mem s') a (blocks_of size * KERNEL_HEAP_BLOCK_SIZE))).
Proof.
  intros Hok Hsize. unfold kzalloc, heap_zalloc.
  change (heap_malloc_blocks (m_heap s) (heap_align_value_upper size / KERNEL_HEAP_BLOCK_SIZE))
    with (heap_malloc (m_heap s) size).
  destruct (heap_malloc (m_heap s) size) as [a h'] eqn:E.
  destruct (@al_malloc_spec heap heap_allocator heap_allocator_laws (m_heap s) size a h' Hok Hsize E)
    as [Hok' D].
  destruct D as [(-> & ->)|(Ha & Hk & Hown & Hapart)].
  - simpl. do 2 eexists. split; [done|]. split; [done|]. left. by destruct s.
  - rewrite (proj2 (Z.eqb_neq a 0)) by lia. do 2 eexists. split; [done|]. split; [done|]. right.
    assert (Ek : heap_align_value_upper size = blocks_of size * KERNEL_HEAP_BLOCK_SIZE).
    { unfold blocks_of, heap_align_value_upper, KERNEL_HEAP_BLOCK_SIZE. zcase; wrap. }
    split_and!; try done; unfold memset; simpl; intros x Hx; rewrite Ek.
    + by repeat (zcase; simpl; try lia).
    + by repeat (zcase; simpl; try lia).
Qed.

(** One block: succeeds while a block is free. *)
Lemma kzalloc_page s size :
  kheap_ok (m_heap s) -> 0 < free_blocks (m_heap s) ->
  0 <= size < 4294967296 -> blocks_of size = 1 ->
  exists a s', kzalloc size s = Done a s' /\ kheap_ok (m_heap s') /\ 0 < a /\
    free_blocks (m_heap s') = free_blocks (m_heap s) - 1 /\
    own_more (m_heap s) (m_heap s') a 1 /\
    (forall b n, live (m_heap s) b n -> apart a 1 b n) /\
    same_outside (m_mem s) (m_mem s') a 4096 /\ (mem_ok (m_mem s) -> mem_ok (m_mem s')).
Proof.
  intros Hok Hfree Hsize H1. destruct (kzalloc_spec s size Hok Hsize) as (a & s' & E & Hok' & D).
  rewrite H1 in D. change (1 * KERNEL_HEAP_BLOCK_SIZE) with 4096 in D.
  destruct (heap_malloc_one_block (m_heap s) (proj1 Hok) Hfree) as (a' & h' & E' & Ha' & Hf').
  assert (a = a' /\ m_heap s' = h' /\ (mem_ok (m_mem s) -> mem_ok (m_mem s'))) as (-> & <- & Hm').
  { revert E. unfold kzalloc, heap_zalloc.
    change (heap_align_value_upper size / KERNEL_HEAP_BLOCK_SIZE) with (blocks_of size).
    rewrite H1, E'. rewrite (proj2 (Z.eqb_neq a' 0)) by lia. intros [= <- <-].
    simpl. auto using memset_mem_ok. }
  destruct D as [(-> & _)|(Ha & _ & Hown & Hap & _ & Hm)]; [lia|].
  exists a', s'. by split_and!.
Qed.

(** Any number of blocks: succeeds when there is room. *)
Lemma kzalloc_roomy s size a s' :
  kheap_ok (m_heap s) -> 0 <= size < 4294967296 -> roomy (free_blocks (m_heap s)) (blocks_of size) ->
  kzalloc size s = Done a s' -> 0 < a.
Proof.
  intros Hok Hs Hr E. destruct (heap_malloc (m_heap s) size) as [b h'] eqn:Em.
  pose proof (@al_malloc_roomy heap heap_allocator heap_allocator_laws _ _ _ _ Hok Hs Hr Em) as Hb.
  revert E. unfold kzalloc, heap_zalloc.
  change (heap_malloc_blocks (m_heap s) (heap_align_value_upper size / KERNEL_HEAP_BLOCK_SIZE))
    with (heap_malloc (m_heap s) size).
  rewrite Em, (proj2 (Z.eqb_neq b 0)) by lia. by intros [= <- _].
Qed.

Lemma kzalloc_mem_ok s size a s' : kzalloc size s = Done a s' -> mem_ok (m_mem s) -> mem_ok (m_mem s').
Proof.
  unfold kzalloc, heap_zalloc. destruct (heap_malloc_blocks _ _) as [b h']. intros E Hm.
  destruct (b =? 0); injection E as _ <-; [exact Hm|by apply memset_mem_ok].
Qed.

Lemma kzalloc_count s size a s' :
  kheap_ok (m_heap s) -> 0 <= size < 4294967296 -> kzalloc size s = Done a s' -> a <> 0 ->
  free_blocks (m_heap s') = free_blocks (m_heap s) - blocks_of size.
Proof.
  intros Hok Hs E Ha. destruct (heap_malloc (m_heap s) size) as [b h'] eqn:Em.
  revert E. unfold kzalloc, heap_zalloc.
  change (heap_malloc_blocks (m_heap s) (heap_align_value_upper size / KERNEL_HEAP_BLOCK_SIZE))
    with (heap_malloc (m_heap s) size).
  rewrite Em. destruct (Z.eqb_spec b 0) as [-> |Hb]; intros [= <- <-]; [done|].
  apply (heap_malloc_count (m_heap s) size b h' (proj1 Hok)); [lia|exact Em|exact Hb].
Qed.

(** Heap and memory together: the allocator whose blocks come zeroed ([kzalloc]). *)
#[export] Instance machine_allocator : Allocator machine | 20 := {
  al_malloc := fun s size => let '(a, h, m) := heap_zalloc (m_heap s) (m_mem s) size in (a, mk_machine h m);
  al_free := fun s ptr => mk_machine (heap_free (m_heap s) ptr) (m_mem s);
  al_ok := fun s => kheap_ok (m_heap s);
  al_live := fun s => live (m_heap s);
  al_avail := fun s => free_blocks (m_heap s)
}.

Lemma heap_zalloc_malloc h m size : fst (heap_zalloc h m size) = heap_malloc h size.
Proof.
  unfold heap_zalloc, heap_malloc. destruct (heap_malloc_blocks _ _) as [a h']. by destruct (a =? 0) eqn:E; simpl;
    [apply Z.eqb_eq in E as ->|].
Qed.

Lemma machine_malloc (s s' : machine) size a :
  al_malloc s size = (a, s') -> heap_malloc (m_heap s) size = (a, m_heap s') /\ (a = 0 -> m_mem s' = m_mem s).
Proof.
  simpl. pose proof (heap_zalloc_malloc (m_heap s) (m_mem s) size) as E. unfold heap_zalloc in E |- *.
  destruct (heap_malloc_blocks _ _) as [b h']. destruct (Z.eqb_spec b 0) as [-> |Hb]; simpl in E; rewrite <- E;
    intros [= <- <-]; by split.
Qed.

#[export] Instance machine_allocator_laws : AllocatorLaws machine.
Proof.
  pose proof heap_allocator_laws as [L1 L2 L3 L4 L5 L6 L7]. constructor.
  - intros s size a s' Hok Hsize E. destruct (machine_malloc _ _ _ _ E) as [E' Em].
    destruct (L1 (m_heap s) size a (m_heap s') Hok Hsize E') as [Hok' D]. split; [done|].
    destruct D as [[-> Eh]|D]; [left|by right]. split; [done|]. specialize (Em eq_refl).
    destruct s, s'. simpl in *. by subst.
  - intros s a n. apply (L2 (m_heap s)).
  - by intros [h m].
  - intros s size a s' Hok Hsize Hr E. apply machine_malloc in E as [E _].
    by apply (L4 (m_heap s) size a (m_heap s')).
  - intros s size a s' Hok Hsize E. apply machine_malloc in E as [E _]. by apply (L5 (m_heap s)).
  - intros s a n. apply (L6 (m_heap s)).
  - intros s a n. apply (L7 (m_heap s)).
Qed.

(** A one-block request succeeds while a block is free. *)
Lemma al_malloc_page {H} `{AllocatorLaws H} (h : H) size a h' :
  al_ok h -> 0 <= size < 4294967296 -> blocks_of size = 1 -> 0 < al_avail h ->
  al_malloc h size = (a, h') -> 0 < a.
Proof. intros Hok Hs Hb Hav. apply al_malloc_roomy; [done|done|]. rewrite Hb. by apply roomy_page. Qed.

(** ** Allocation by a component

    [heap_op]s run on the allocator inside a component's state. *)

Definition al_alloc {H} `{Allocator H} (size : Z) : M H Z := fun h =>
  let '(a, h') := al_malloc h size in Done a h'.

Definition al_release {H} `{Allocator H} (ptr : Z) : M H unit := fun h => Done tt (al_free h ptr).

Fixpoint total_blocks_of (L : list (Z * Z)) : Z :=
  match L with [] => 0 | (_, n) :: L' => n + total_blocks_of L' end.

Lemma total_blocks_app L L' : total_blocks_of (L ++ L') = total_blocks_of L + total_blocks_of L'.
Proof. induction L as [|[a n] L IH]; simpl; lia. Qed.

(** [owned h0 h L]: since [h0] exactly the blocks of [L] have been taken. *)
Record owned {H} `{Allocator H} (h0 h : H) (L : list (Z * Z)) : Prop := {
  ow_ok : al_ok h;
  ow_nodup : NoDup (fst <$> L);
  ow_live : forall b n, al_live h b n <-> (b, n) ∈ L \/ al_live h0 b n;
  ow_fresh : forall b n, b ∈ fst <$> L -> al_live h0 b n -> False;
  ow_avail : al_avail h = al_avail h0 - total_blocks_of L
}.

Section owned.
Context {H : Type} {AH : Allocator H} {LH : @AllocatorLaws H AH}.
Implicit Types (h : H) (L : list (Z * Z)).

Lemma owned_refl h : al_ok h -> owned h h [].
Proof.
  intros Hok. constructor; simpl; [done|apply NoDup_nil_2| | |lia].
  - intros b n. rewrite elem_of_nil. tauto.
  - intros b n Hb. by apply elem_of_nil in Hb.
Qed.

#[export] Instance owned_proper h0 h : Proper ((≡ₚ) ==> iff) (owned h0 h).
Proof.
  assert (Himp : forall L L', L ≡ₚ L' -> owned h0 h L -> owned h0 h L').
  { intros L L' HL [O1 O2 O3 O4 O5]. constructor.
    - done.
    - by rewrite <- HL.
    - intros b n. rewrite <- HL. apply O3.
    - intros b n. rewrite <- HL. apply O4.
    - rewrite O5. f_equal. clear -HL. induction HL as [|[? ?]|[? ?] [? ?]|]; simpl; lia. }
  intros L L' HL. split; apply Himp; [done|by symmetry].
Qed.

Lemma owned_alloc h0 h L size a h' :
  owned h0 h L -> 0 <= size < 4294967296 -> al_malloc h size = (a, h') ->
  (a = 0 /\ h' = h) \/
  (0 < a /\ owned h0 h' ((a, blocks_of size) :: L) /\ forall n, al_live h a n -> False).
Proof.
  intros [O1 O2 O3 O4 O5] Hsize E. destruct (al_malloc_spec h size a h' O1 Hsize E) as [Hok' D].
  destruct D as [D|(Ha & Hsz & Hown & Hap)]; [by left|right].
  assert (Hnl : forall n, al_live h a n -> False).
  { intros n Hl. pose proof (Hap _ _ Hl) as Hx.
    destruct (al_live_range h a n O1 Hl) as (_ & Hn & _ & _).
    assert (Hl' : al_live h' a (blocks_of size)) by (apply Hown; by left).
    destruct (al_live_range h' _ _ Hok' Hl') as (_ & Hn' & _ & _).
    unfold apart, KERNEL_HEAP_BLOCK_SIZE in Hx. lia. }
  split; [done|]. split; [|done]. constructor.
  - done.
  - rewrite fmap_cons. apply NoDup_cons. split; [|done]. simpl.
    intros [[b n] [-> Hin]]%list_elem_of_fmap. apply (Hnl n), O3. by left.
  - intros b n. rewrite (Hown b n), O3, elem_of_cons. split.
    + intros [[-> ->]|[?|?]]; auto.
    + intros [[[= -> ->]|?]|?]; auto.
  - intros b n. rewrite fmap_cons, elem_of_cons. simpl. intros [-> |Hb] Hl; [|by eapply O4].
    apply (Hnl n), O3. by right.
  - simpl. rewrite (al_malloc_avail h size a h'), O5 by (done || lia). lia.
Qed.

Lemma owned_free h0 h L a n : owned h0 h ((a, n) :: L) -> owned h0 (al_free h a) L.
Proof.
  intros [O1 O2 O3 O4 O5]. rewrite fmap_cons in O2. apply NoDup_cons in O2 as [Hnin Hnd].
  assert (Hl : al_live h a n) by (apply O3; left; by left).
  destruct (al_free_spec h a n O1 Hl) as [Hok' Hless]. constructor.
  - done.
  - done.
  - intros b m. rewrite (Hless b m), O3, elem_of_cons. split.
    + intros [[[[= -> ->]|?]|?] ?]; auto; done.
    + intros [Hb|Hb].
      * split; [auto|]. intros ->. apply Hnin. apply list_elem_of_fmap. by exists (a, m).
      * split; [auto|]. intros ->. apply (O4 a m); [by left|done].
  - intros b m Hb. apply O4. by right.
  - rewrite (al_free_avail h a n), O5 by done. simpl. lia.
Qed.

(** Everything given back: the caller's blocks are what they were. *)
Lemma owned_nil h0 h : owned h0 h [] -> own_same h0 h /\ al_avail h = al_avail h0.
Proof.
  intros [O1 O2 O3 O4 O5]. split; [|simpl in O5; lia].
  intros b n. rewrite O3, elem_of_nil. tauto.
Qed.

(** A block taken and given back. *)
Lemma owned_alloc_free h size a h1 :
  al_ok h -> 0 <= size < 4294967296 -> al_malloc h size = (a, h1) -> a <> 0 ->
  forall h0 L, owned h0 h L -> owned h0 (al_free h1 a) L.
Proof.
  intros Hok Hs E Ha h0 L Ho.
  destruct (owned_alloc h0 h L size a h1 Ho Hs E) as [[-> _]|(_ & Ho1 & _)]; [done|].
  by eapply owned_free.
Qed.

Lemma owned_trans h0 h1 h2 L1 L2 : owned h0 h1 L1 -> owned h1 h2 L2 -> owned h0 h2 (L2 ++ L1).
Proof.
  intros [O1 O2 O3 O4 O5] [P1 P2 P3 P4 P5]. constructor.
  - done.
  - rewrite fmap_app. apply NoDup_app. split; [done|]. split; [|done].
    intros b Hb [[b' n] [-> Hin]]%list_elem_of_fmap. apply (P4 b' n Hb), O3. by left.
  - intros b n. rewrite P3, O3, elem_of_app. tauto.
  - intros b n. rewrite fmap_app, elem_of_app. intros [Hb|Hb] Hl; [|by eapply O4].
    apply (P4 b n Hb), O3. by right.
  - rewrite P5, O5, total_blocks_app. lia.
Qed.

Lemma owned_fresh h0 h L a n m :
  owned h0 h ((a, n) :: L) -> (a, m) ∉ L.
Proof.
  intros [_ O2 _ _ _] Hin. rewrite fmap_cons in O2. apply NoDup_cons in O2 as [Hn _].
  apply Hn. apply list_elem_of_fmap. by exists (a, m).
Qed.

Lemma owned_range h0 h L a : owned h0 h L -> a ∈ L.*1 -> 0 < a < 2147483648.
Proof.
  intros [O1 O2 O3 O4 O5] [[a' n] [-> Hin]]%list_elem_of_fmap. simpl.
  assert (Hl : al_live h a' n) by (apply O3; by left).
  destruct (al_live_range h a' n O1 Hl) as (? & ? & _ & ?).
  unfold KERNEL_HEAP_BLOCK_SIZE in *. lia.
Qed.

Lemma al_alloc_page h0 h L size :
  owned h0 h L -> 0 <= size < 4294967296 -> blocks_of size = 1 ->
  exists a h', al_alloc size h = Done a h' /\
  ((a = 0 /\ h' = h /\ al_avail h <= 0) \/ (0 < a /\ owned h0 h' ((a, 1) :: L))).
Proof.
  intros Ho Hsize Hb1. unfold al_alloc. destruct (al_malloc h size) as [a h'] eqn:E.
  exists a, h'. split; [done|]. destruct (owned_alloc _ _ _ _ _ _ Ho Hsize E) as [[-> ->]|(Ha & Ho' & _)].
  - left. split_and!; try done. destruct (Z.le_gt_cases (al_avail h) 0); [done|].
    pose proof (al_malloc_page h size 0 h (ow_ok _ _ _ Ho) Hsize Hb1 ltac:(lia) E). lia.
  - right. rewrite Hb1 in Ho'. done.
Qed.
End owned.

(** Only the heap matters to ownership. *)
Lemma owned_set_mem (s0 s : machine) L m : owned s0 s L -> owned s0 (set_mem m s) L.
Proof. intros [O1 O2 O3 O4 O5]. by constructor. Qed.

(** ** Runs of the kernel heap *)

(** What kernel code may do to its heap: allocate any size, release what is allocated,
    release NULL or any address in no allocated run (one that has been released before, say).
    A release of the middle of a run is not a step. *)
Inductive kheap_step : heap -> heap -> Prop :=
| step_malloc h size : 0 <= size < 4294967296 -> kheap_step h (snd (heap_malloc h size))
| step_free h a n : live h a n -> kheap_step h (heap_free h a)
| step_free_null h : kheap_step h (heap_free h 0)
| step_free_vacant h a : vacant h a -> kheap_step h (heap_free h a).

Inductive kheap_reach (k : heap) (es : list Z) : heap -> Prop :=
| reach_init : kheap_reach k es (kheap_init k es)
| reach_step h h' : kheap_reach k es h -> kheap_step h h' -> kheap_reach k es h'.

Lemma kheap_init_ok k es :
  zlen es = KERNEL_HEAP_SIZE_BYTES / KERNEL_HEAP_BLOCK_SIZE -> kheap_ok (kheap_init k es).
Proof.
  intros Hlen. unfold kheap_init.
  destruct (heap_create_ok k KERNEL_HEAP_ADDRESS (KERNEL_HEAP_ADDRESS + KERNEL_HEAP_SIZE_BYTES)
    (mk_heap_table es (KERNEL_HEAP_SIZE_BYTES / KERNEL_HEAP_BLOCK_SIZE)))
    as (h' & -> & Hok & Hs & Ht & _); try done.
  simpl. split; [done|]. rewrite Hs, Ht. split; [done|]. by vm_compute.
Qed.

(** All blocks are free at first. *)
Lemma kheap_init_free k es :
  zlen es = KERNEL_HEAP_SIZE_BYTES / KERNEL_HEAP_BLOCK_SIZE ->
  free_blocks (kheap_init k es) = KERNEL_HEAP_SIZE_BYTES / KERNEL_HEAP_BLOCK_SIZE.
Proof.
  intros Hlen. unfold kheap_init.
  destruct (heap_create_ok k KERNEL_HEAP_ADDRESS (KERNEL_HEAP_ADDRESS + KERNEL_HEAP_SIZE_BYTES)
    (mk_heap_table es (KERNEL_HEAP_SIZE_BYTES / KERNEL_HEAP_BLOCK_SIZE)))
    as (h' & -> & Hok & _ & Ht & Hfree); try done.
  cbn [snd]. unfold free_blocks. rewrite filter_all; [by rewrite (proj1 Hok), Ht|].
  intros e [i Hi]%list_elem_of_lookup. destruct (Hfree (Z.of_nat i)) as (e' & He & Hf).
  - apply lookup_lt_Some in Hi. pose proof (proj1 Hok) as Hl. rewrite Ht in Hl. unfold zlen in Hl. cbn [total] in *. lia.
  - unfold zget in He. rewrite Nat2Z.id, (proj2 (Z.leb_le 0 _)) in He by lia. rewrite Hi in He. by injection He as ->.
Qed.

(** The kernel heap as [kheap_init] leaves it, for the witnesses of this and other files. *)
Definition boot_heap : heap :=
  kheap_init (mk_heap (mk_heap_table [] 0) 0) (replicate (Z.to_nat 25600) 255).

Lemma boot_heap_ok : kheap_ok boot_heap.
Proof. apply kheap_init_ok. by vm_compute. Qed.

Lemma boot_heap_avail : al_avail boot_heap = 25600.
Proof. by vm_compute. Qed.

Lemma kheap_step_ok h h' : kheap_ok h -> kheap_step h h' -> kheap_ok h'.
Proof.
  intros Hok Hst. destruct Hst as [h size Hsize|h a n Hl|h|h a Hv].
  - destruct (heap_malloc h size) as [a h'] eqn:E.
    by destruct (@al_malloc_spec heap heap_allocator heap_allocator_laws h size a h' Hok Hsize E).
  - by destruct (@al_free_spec heap heap_allocator heap_allocator_laws h a n Hok Hl).
  - done.
  - by rewrite kheap_free_vacant.
Qed.

(** ** Properties *)

(** C32: safety of every run of the kernel heap.  From [kheap_init], whatever the boot
    loader left in the table and however the kernel allocates and releases allocated runs,
    NULL or addresses in no allocated run, the allocated blocks lie in the heap area, are
    block aligned and never overlap.  (A release of the middle of a run is excluded: it would
    leave the rest of the run without an end.) *)
Theorem kheap_reachable_safe (k : heap) (es : list Z) (h : heap) (a n b m : Z) :
  zlen es = KERNEL_HEAP_SIZE_BYTES / KERNEL_HEAP_BLOCK_SIZE -> kheap_reach k es h ->
  live h a n -> live h b m ->
  KERNEL_HEAP_ADDRESS <= a /\
  a + n * KERNEL_HEAP_BLOCK_SIZE <= KERNEL_HEAP_ADDRESS + KERNEL_HEAP_SIZE_BYTES /\
  a mod KERNEL_HEAP_BLOCK_SIZE = 0 /\ (a <> b -> apart a n b m) /\ (a = b -> n = m).
Proof.
  intros Hlen Hr Ha Hb.
  assert (Hok : kheap_ok h).
  { clear Ha Hb. induction Hr; [by apply kheap_init_ok|by eapply kheap_step_ok]. }
  pose proof (kheap_live_range _ _ _ Hok Ha) as (_ & _ & Hal & _).
  destruct Hok as (Hok & Hs & Ht). pose proof Ha as (s & Hl & ->).
  destruct (live_range _ _ _ Hl) as [Hs0 Hsn]. pose proof Hok as (Hlen' & _).
  unfold KERNEL_HEAP_BLOCK_SIZE, KERNEL_HEAP_SIZE_BYTES, KERNEL_HEAP_ADDRESS in *.
  rewrite Hs in *. split_and!; try lia.
  - by apply (live_apart h).
  - destruct Hb as (s' & Hl' & E). unfold KERNEL_HEAP_BLOCK_SIZE in E. rewrite Hs in E.
    intros E'. assert (s' = s) as -> by lia.
    pose proof (proj1 Hl). pose proof (proj1 Hl').
    destruct (live_overlap _ _ _ _ _ s Hl Hl'); lia.
Qed.

Lemma kheap_reachable_safe_witness :
  let es := replicate (Z.to_nat 25600) 255 in
  let h := kheap_init (mk_heap (mk_heap_table [] 0) 0) es in
  let h1 := snd (heap_malloc h 4096) in
  let h2 := snd (heap_malloc h1 8192) in
  apart 16777216 1 (16777216 + 4096) 2.
Proof.
  intros es h h1 h2.
  assert (Hes : zlen es = KERNEL_HEAP_SIZE_BYTES / KERNEL_HEAP_BLOCK_SIZE) by (vm_compute; done).
  assert (Hr : kheap_reach (mk_heap (mk_heap_table [] 0) 0) es h2).
  { apply (reach_step _ _ h1 h2); [|exact (step_malloc h1 8192 ltac:(lia))].
    apply (reach_step _ _ h h1); [|exact (step_malloc h 4096 ltac:(lia))]. exact (reach_init _ es). }
  assert (Ha : live h2 16777216 1).
  { exists 0. split; [|vm_compute; reflexivity]. split; [lia|]. intros i Hi.
    assert (i = 0) as -> by lia. vm_compute. reflexivity. }
  assert (Hb : live h2 (16777216 + 4096) 2).
  { exists 1. split; [|vm_compute; reflexivity]. split; [lia|]. intros i Hi.
    assert (i = 1 \/ i = 2) as [-> | ->] by lia; vm_compute; reflexivity. }
  apply (kheap_reachable_safe _ _ h2 16777216 1 (16777216 + 4096) 2 Hes Hr Ha Hb). lia.
Defined.
