(* ===== verification/CString.v ===== *)
(** * Kernel string functions: lib/string.c

    A C buffer is the list of its bytes (0..255); [i8] reads a byte as the signed
    [char] of i686.  A pointer into a buffer is the suffix of the list.  A function
    returns [None] when the code would read or write outside the buffer it is given. *)
From S2P Require Import Prelude.

(** [dst[i] = v]: [None] past the end of the buffer. *)
Definition put (dst : list Z) (i v : Z) : option (list Z) :=
  if (0 <=? i) && (i <? zlen dst) then Some (zset dst i v) else None.

Definition tolower (c : Z) : Z :=
  let s := i8 c in
  if (65 <=? s) && (s <=? 90) then u8 (s - 65 + 97) else c.

(** [str] is the buffer from index [len] on. *)
Fixpoint strlen_loop (str : list Z) (len : Z) : option Z :=
  match str with
  | [] => None
  | c :: str' => if c =? 0 then Some len else strlen_loop str' (len + 1)
  end.

Definition strlen (str : list Z) : option Z := strlen_loop str 0.

Fixpoint strnlen_loop (str : list Z) (len max_len : Z) : option Z :=
  if len <? max_len then
    match str with
    | [] => None
    | c :: str' => if c =? 0 then Some len else strnlen_loop str' (len + 1) max_len
    end
  else Some len.

Definition strnlen (str : list Z) (max_len : Z) : option Z := strnlen_loop str 0 max_len.

Fixpoint strcpy_loop (dst str : list Z) (i : Z) : option (list Z) :=
  match str with
  | [] => None
  | c :: str' =>
      if c =? 0 then put dst i 0
      else match put dst i c with
           | Some dst' => strcpy_loop dst' str' (i + 1)
           | None => None
           end
  end.

Definition strcpy (dst str : list Z) : option (list Z) := strcpy_loop dst str 0.

(** The copy loop of [strncpy]: the buffer and the final [i]. *)
Fixpoint strncpy_loop (dst str : list Z) (i n : Z) : option (list Z * Z) :=
  if i <? n then
    match str with
    | [] => None
    | c :: str' =>
        if c =? 0 then Some (dst, i)
        else match put dst i c with
             | Some dst' => strncpy_loop dst' str' (i + 1) n
             | None => None
             end
    end
  else Some (dst, i).

Definition strncpy (dst str : list Z) (n : Z) : option (list Z) :=
  match strncpy_loop dst str 0 n with
  | Some (dst', i) => if 0 <? i then put dst' i 0 else Some dst'
  | None => None
  end.

Fixpoint strnlen_terminator_loop (str : list Z) (len max_len terminator : Z) : option Z :=
  if len <? max_len then
    match str with
    | [] => None
    | c :: str' =>
        if (c =? 0) || (c =? terminator) then Some len
        else strnlen_terminator_loop str' (len + 1) max_len terminator
    end
  else Some len.

Definition strnlen_terminator (str : list Z) (max_len terminator : Z) : option Z :=
  strnlen_terminator_loop str 0 max_len terminator.

Fixpoint strncmp_loop (s1 s2 : list Z) (i n : Z) : option Z :=
  if i <? n then
    match s1, s2 with
    | c1 :: s1', c2 :: s2' =>
        if negb (c1 =? c2) then Some (i8 c1 - i8 c2)
        else if c1 =? 0 then Some 0
        else strncmp_loop s1' s2' (i + 1) n
    | _, _ => None
    end
  else Some 0.

Definition strncmp (s1 s2 : list Z) (n : Z) : option Z := strncmp_loop s1 s2 0 n.

Fixpoint istrncmp_loop (s1 s2 : list Z) (i n : Z) : option Z :=
  if i <? n then
    match s1, s2 with
    | b1 :: s1', b2 :: s2' =>
        let c1 := tolower b1 in
        let c2 := tolower b2 in
        if negb (c1 =? c2) then Some (i8 c1 - i8 c2)
        else if c1 =? 0 then Some 0
        else istrncmp_loop s1' s2' (i + 1) n
    | _, _ => None
    end
  else Some 0.

Definition istrncmp (s1 s2 : list Z) (n : Z) : option Z := istrncmp_loop s1 s2 0 n.

Definition isdigit (c : Z) : bool := (48 <=? i8 c) && (i8 c <=? 57).

Definition tonumericdigit (c : Z) : Z := i8 c - 48.

Fixpoint memcmp_loop (s1 s2 : list Z) (i size : Z) : option Z :=
  if i <? size then
    match s1, s2 with
    | c1 :: s1', c2 :: s2' =>
        if negb (c1 =? c2) then Some (if i8 c1 <? i8 c2 then -1 else 1)
        else memcmp_loop s1' s2' (i + 1) size
    | _, _ => None
    end
  else Some 0.

Definition memcmp (p1 p2 : list Z) (size : Z) : option Z := memcmp_loop p1 p2 0 size.

(** [src] is the source from index [i] on. *)
Fixpoint memcpy_loop (dest src : list Z) (i n : Z) : option (list Z) :=
  if i <? n then
    match src with
    | [] => None
    | c :: src' =>
        match put dest i c with
        | Some dest' => memcpy_loop dest' src' (i + 1) n
        | None => None
        end
    end
  else Some dest.

Definition memcpy (dest src : list Z) (n : Z) : option (list Z) := memcpy_loop dest src 0 n.

(** ** C strings *)

Definition is_char (c : Z) : Prop := 0 < c < 256.

(** [buf] holds the C string [s]. *)
Definition holds (buf s : list Z) : Prop :=
  Forall is_char s /\ exists rest, buf = s ++ 0 :: rest.

Lemma holds_nil buf : holds buf [] -> exists rest, buf = 0 :: rest.
Proof. intros [_ [rest ->]]. by exists rest. Qed.

Lemma holds_cons buf c s :
  holds buf (c :: s) -> exists buf', buf = c :: buf' /\ is_char c /\ holds buf' s.
Proof.
  intros [[Hc Hs]%Forall_cons [rest ->]]. exists (s ++ 0 :: rest).
  do 3 (split; [done|]). by exists rest.
Qed.

Lemma holds_intro s rest : Forall is_char s -> holds (s ++ 0 :: rest) s.
Proof. intros. split; [done|by exists rest]. Qed.

Lemma holds_nul s : Forall is_char s -> holds (s ++ [0]) s.
Proof. apply holds_intro. Qed.

Lemma holds_inj buf s s' : holds buf s -> holds buf s' -> s = s'.
Proof.
  revert buf s'. induction s as [|c s IH]; intros buf s' H H'.
  - apply holds_nil in H as [rest ->]. destruct s' as [|c' s']; [done|].
    apply holds_cons in H' as (? & [= <- <-] & Hc & _). unfold is_char in Hc. lia.
  - apply holds_cons in H as (buf' & -> & Hc & H). destruct s' as [|c' s'].
    + apply holds_nil in H' as [? [= -> ->]]. unfold is_char in Hc. lia.
    + apply holds_cons in H' as (? & [= -> ->] & _ & H'). f_equal. by eapply IH.
Qed.

Lemma char_nonzero c : is_char c -> (c =? 0) = false.
Proof. unfold is_char. lia. Qed.

Lemma strlen_loop_spec buf s len : holds buf s -> strlen_loop buf len = Some (len + zlen s).
Proof.
  revert buf len. induction s as [|c s IH]; intros buf len H.
  - apply holds_nil in H as [rest ->]. simpl. f_equal. unfold zlen. simpl. lia.
  - apply holds_cons in H as (buf' & -> & Hc & H). simpl.
    rewrite char_nonzero, IH by done. rewrite zlen_cons. f_equal. lia.
Qed.

Lemma strlen_none buf : Forall (fun c => c <> 0) buf -> strlen buf = None.
Proof.
  intros H. unfold strlen. generalize 0 as n. induction H as [|c buf Hc _ IH]; intros n; [done|]. cbn [strlen_loop].
  by rewrite (proj2 (Z.eqb_neq c 0)).
Qed.

Lemma strlen_spec buf s : holds buf s -> strlen buf = Some (zlen s).
Proof. intros. unfold strlen. by rewrite (strlen_loop_spec _ s). Qed.

Lemma strnlen_loop_spec buf s len m :
  holds buf s -> strnlen_loop buf len m = Some (if len <? m then Z.min (len + zlen s) m else len).
Proof.
  revert buf len. induction s as [|c s IH]; intros buf len H.
  - apply holds_nil in H as [rest ->]. unfold zlen. simpl. zcase; f_equal; lia.
  - apply holds_cons in H as (buf' & -> & Hc & H). simpl.
    destruct (Z.ltb_spec len m); [|done].
    rewrite char_nonzero, IH, zlen_cons by done. pose proof (zlen_nonneg s).
    zcase; f_equal; lia.
Qed.

Lemma strnlen_spec buf s m : holds buf s -> 0 <= m -> strnlen buf m = Some (Z.min (zlen s) m).
Proof.
  intros H Hm. unfold strnlen. rewrite (strnlen_loop_spec _ s) by done.
  pose proof (zlen_nonneg s). zcase; f_equal; lia.
Qed.

(** Writing at the end of a written prefix. *)
Lemma put_app p d rest v : put (p ++ d :: rest) (zlen p) v = Some (p ++ v :: rest).
Proof.
  unfold put. rewrite zlen_app, zlen_cons. pose proof (zlen_nonneg p). pose proof (zlen_nonneg rest).
  rewrite (proj2 (Z.leb_le 0 _)), (proj2 (Z.ltb_lt _ _)) by lia. simpl. f_equal.
  unfold zset, zlen. rewrite (proj2 (Z.leb_le 0 _)) by lia. rewrite Nat2Z.id.
  rewrite insert_app_r_alt by lia. by rewrite Nat.sub_diag.
Qed.

Lemma put_end p v : put p (zlen p) v = None.
Proof. unfold put. by rewrite Z.ltb_irrefl, andb_false_r. Qed.

Lemma put_app' p d rest i v : i = zlen p -> put (p ++ d :: rest) i v = Some (p ++ v :: rest).
Proof. intros ->. apply put_app. Qed.

(** The copy loop: [p] is written, [d] remains of the destination. *)
Lemma strncpy_loop_spec p d buf s i n :
  i = zlen p -> i <= n -> holds buf s ->
  strncpy_loop (p ++ d) buf i n =
  let k := Z.min (zlen s) (n - i) in
  if k <=? zlen d then Some (p ++ take (Z.to_nat k) s ++ drop (Z.to_nat k) d, i + k) else None.
Proof.
  revert p d buf i. induction s as [|c s IH]; intros p d buf i Hi Hin H.
  - apply holds_nil in H as [rest ->]. simpl.
    rewrite (Z.min_l (zlen []) (n - i)) by (unfold zlen; simpl; lia). simpl.
    rewrite (proj2 (Z.leb_le _ _)) by apply zlen_nonneg.
    unfold zlen. simpl. rewrite Z.add_0_r. by zcase.
  - apply holds_cons in H as (buf' & -> & Hc & H). simpl.
    pose proof (zlen_nonneg s) as Hs. rewrite zlen_cons. destruct (Z.ltb_spec i n).
    + rewrite char_nonzero by done. destruct d as [|d0 d].
      * rewrite app_nil_r, Hi, put_end. change (zlen (@nil Z)) with 0. subst i.
        destruct (Z.leb_spec (Z.min (1 + zlen s) (n - zlen p)) 0); [lia|done].
      * rewrite put_app' by done. replace (p ++ c :: d) with ((p ++ [c]) ++ d)
          by (by rewrite <- app_assoc).
        rewrite (IH _ _ buf') by (rewrite ?zlen_app; unfold zlen in *; simpl; done || lia).
        rewrite zlen_cons.
        assert (Ek : Z.min (1 + zlen s) (n - i) = 1 + Z.min (zlen s) (n - (i + 1))) by lia.
        rewrite Ek. assert (Hk : 0 <= Z.min (zlen s) (n - (i + 1))) by lia. revert Hk.
        generalize (Z.min (zlen s) (n - (i + 1))) as k. intros k Hk.
        rewrite Z2Nat.inj_add by lia. simpl. rewrite <- app_assoc. simpl.
        destruct (Z.leb_spec k (zlen d)), (Z.leb_spec (1 + k) (1 + zlen d)); try lia; [|done].
        f_equal. f_equal. lia.
    + assert (Ek : Z.min (1 + zlen s) (n - i) = 0) by lia. rewrite Ek. simpl.
      rewrite (proj2 (Z.leb_le _ _)) by apply zlen_nonneg. by rewrite Z.add_0_r.
Qed.

Lemma tolower_char c : is_char c -> is_char (tolower c).
Proof. unfold is_char, tolower, i8, u8. intros. zsolve. all: Z.to_euclidean_division_equations; lia. Qed.

Lemma strncpy_cases dst buf s n :
  0 <= n -> holds buf s ->
  strncpy dst buf n =
  let k := Z.min (zlen s) n in
  if k =? 0 then Some dst
  else if k <? zlen dst
  then Some (take (Z.to_nat k) s ++ 0 :: drop (Z.to_nat (k + 1)) dst) else None.
Proof.
  intros Hn H. unfold strncpy. pose proof (zlen_nonneg s). pose proof (zlen_nonneg dst).
  pose proof (strncpy_loop_spec [] dst buf s 0 n eq_refl Hn H) as E. simpl in E.
  rewrite E. rewrite Z.sub_0_r, Z.add_0_l. cbv zeta.
  assert (Hk : 0 <= Z.min (zlen s) n <= zlen s) by lia. revert Hk.
  generalize (Z.min (zlen s) n) as k. intros k Hk.
  destruct (Z.leb_spec k (zlen dst)), (Z.eqb_spec k 0), (Z.ltb_spec k (zlen dst));
    try lia; try rewrite (proj2 (Z.ltb_lt 0 k)) by lia.
  - subst k. simpl. by rewrite drop_0.
  - subst k. simpl. by rewrite drop_0.
  - assert (Hlen : length (drop (Z.to_nat k) dst) <> 0%nat)
      by (rewrite length_drop; unfold zlen in *; lia).
    destruct (drop (Z.to_nat k) dst) as [|d r] eqn:Ed; [done|].
    rewrite put_app' by (unfold zlen in *; rewrite length_take; lia).
    do 3 f_equal. rewrite Z2Nat.inj_add by lia. by rewrite <- drop_drop, Ed.
  - rewrite drop_ge, app_nil_r by (unfold zlen in *; lia).
    assert (E' : k = zlen (take (Z.to_nat k) s)) by (unfold zlen in *; rewrite length_take; lia).
    rewrite E' at 2. apply put_end.
  - done.
Qed.

Lemma i8_diff_zero a b : 0 <= a < 256 -> 0 <= b < 256 -> i8 a - i8 b = 0 -> a = b.
Proof. unfold i8. intros. Z.to_euclidean_division_equations. lia. Qed.

Lemma istrncmp_loop_zero b1 b2 s1 s2 i n :
  holds b1 s1 -> holds b2 s2 -> 
  (istrncmp_loop b1 b2 i n = Some 0 <->
   tolower <$> take (Z.to_nat (n - i)) s1 = tolower <$> take (Z.to_nat (n - i)) s2).
Proof.
  revert b1 b2 s2 i. induction s1 as [|c1 s1 IH]; intros b1 b2 s2 i H1 H2.
  - apply holds_nil in H1 as [r1 ->]. simpl. destruct (Z.ltb_spec i n).
    + destruct s2 as [|c2 s2].
      * apply holds_nil in H2 as [r2 ->]. simpl. by rewrite !take_nil.
      * apply holds_cons in H2 as (b2' & -> & Hc & _). pose proof (tolower_char _ Hc).
        destruct (Z.to_nat (n - i)) eqn:E; [lia|]. simpl.
        change (tolower 0) with 0. unfold is_char in *.
        rewrite (proj2 (Z.eqb_neq 0 (tolower c2))) by lia. simpl. split; intros [= E'].
        apply i8_diff_zero in E'; lia.
    + replace (Z.to_nat (n - i)) with 0%nat by lia. done.
  - apply holds_cons in H1 as (b1' & -> & Hc1 & H1). simpl. destruct (Z.ltb_spec i n).
    + destruct (Z.to_nat (n - i)) as [|m] eqn:E; [lia|].
      assert (Em : m = Z.to_nat (n - (i + 1))) by lia.
      pose proof (tolower_char _ Hc1) as Ht1.
      destruct s2 as [|c2 s2].
      * apply holds_nil in H2 as [r2 ->]. simpl. change (tolower 0) with 0.
        unfold is_char in *. rewrite (proj2 (Z.eqb_neq (tolower c1) 0)) by lia. simpl.
        split; intros [= E']. apply i8_diff_zero in E'; lia.
      * apply holds_cons in H2 as (b2' & -> & Hc2 & H2). simpl.
        pose proof (tolower_char _ Hc2) as Ht2.
        destruct (Z.eqb_spec (tolower c1) (tolower c2)) as [Eq|Ne]; simpl.
        -- rewrite char_nonzero by done. rewrite (IH _ _ s2) by done. subst m. rewrite Eq.
           split; [intros Ht; f_equal; exact Ht|by intros [=]].
        -- split; [|intros [=]; congruence]. intros [= E0]. exfalso. apply Ne.
           unfold is_char in *. apply i8_diff_zero; lia.
    + replace (Z.to_nat (n - i)) with 0%nat by lia. done.
Qed.

Lemma istrncmp_loop_total b1 b2 s1 s2 i n :
  holds b1 s1 -> holds b2 s2 -> is_Some (istrncmp_loop b1 b2 i n).
Proof.
  revert b1 b2 s2 i. induction s1 as [|c1 s1 IH]; intros b1 b2 s2 i H1 H2.
  - apply holds_nil in H1 as [r1 ->]. simpl. destruct (i <? n); [|by eexists].
    destruct s2 as [|c2 s2].
    + apply holds_nil in H2 as [r2 ->]. by eexists.
    + apply holds_cons in H2 as (b2' & -> & Hc & _). change (tolower 0) with 0.
      destruct (0 =? tolower c2); by eexists.
  - apply holds_cons in H1 as (b1' & -> & Hc1 & H1). simpl. destruct (i <? n); [|by eexists].
    destruct s2 as [|c2 s2].
    + apply holds_nil in H2 as [r2 ->]. change (tolower 0) with 0. pose proof (tolower_char _ Hc1).
      unfold is_char in *. rewrite (proj2 (Z.eqb_neq (tolower c1) 0)) by lia. by eexists.
    + apply holds_cons in H2 as (b2' & -> & Hc2 & H2).
      destruct (tolower c1 =? tolower c2); simpl; [|by eexists].
      destruct (tolower c1 =? 0); [by eexists|]. by apply (IH _ _ s2).
Qed.

Lemma istrncmp_total b1 b2 s1 s2 n :
  holds b1 s1 -> holds b2 s2 -> is_Some (istrncmp b1 b2 n).
Proof. apply istrncmp_loop_total. Qed.

Lemma strncmp_loop_zero b1 b2 s1 s2 i n :
  holds b1 s1 -> holds b2 s2 ->
  (strncmp_loop b1 b2 i n = Some 0 <-> take (Z.to_nat (n - i)) s1 = take (Z.to_nat (n - i)) s2).
Proof.
  revert b1 b2 s2 i. induction s1 as [|c1 s1 IH]; intros b1 b2 s2 i H1 H2.
  - apply holds_nil in H1 as [r1 ->]. simpl. destruct (Z.ltb_spec i n).
    + destruct s2 as [|c2 s2].
      * apply holds_nil in H2 as [r2 ->]. simpl. by rewrite !take_nil.
      * apply holds_cons in H2 as (b2' & -> & Hc & _).
        destruct (Z.to_nat (n - i)) eqn:E; [lia|]. simpl.
        unfold is_char in *. rewrite (proj2 (Z.eqb_neq 0 c2)) by lia. simpl.
        split; intros [= E']. apply i8_diff_zero in E'; lia.
    + by replace (Z.to_nat (n - i)) with 0%nat by lia.
  - apply holds_cons in H1 as (b1' & -> & Hc1 & H1). simpl. destruct (Z.ltb_spec i n).
    + destruct (Z.to_nat (n - i)) as [|m] eqn:E; [lia|].
      assert (Em : m = Z.to_nat (n - (i + 1))) by lia.
      destruct s2 as [|c2 s2].
      * apply holds_nil in H2 as [r2 ->]. simpl.
        unfold is_char in *. rewrite (proj2 (Z.eqb_neq c1 0)) by lia. simpl.
        split; intros [= E']. apply i8_diff_zero in E'; lia.
      * apply holds_cons in H2 as (b2' & -> & Hc2 & H2). simpl.
        destruct (Z.eqb_spec c1 c2) as [Eq|Ne]; simpl.
        -- rewrite char_nonzero by done. rewrite (IH _ _ s2) by done. subst m. rewrite Eq.
           split; [intros Ht; f_equal; exact Ht|by intros [=]].
        -- split; [|intros [=]; congruence]. intros [= E0]. exfalso. apply Ne.
           unfold is_char in *. apply i8_diff_zero; lia.
    + by replace (Z.to_nat (n - i)) with 0%nat by lia.
Qed.

Lemma memcpy_loop_spec p d src i n :
  i = zlen p -> i <= n -> n - i <= zlen src -> n - i <= zlen d ->
  memcpy_loop (p ++ d) src i n =
  Some (p ++ take (Z.to_nat (n - i)) src ++ drop (Z.to_nat (n - i)) d).
Proof.
  revert p d i. induction src as [|c src IH]; intros p d i Hi Hn Hs Hd.
  - simpl. change (zlen (@nil Z)) with 0 in Hs. rewrite (proj2 (Z.ltb_ge i n)) by lia.
    by replace (Z.to_nat (n - i)) with 0%nat by lia.
  - simpl. rewrite zlen_cons in Hs. destruct (Z.ltb_spec i n).
    + destruct d as [|d0 d]; [change (zlen (@nil Z)) with 0 in Hd; lia|]. rewrite zlen_cons in Hd.
      rewrite put_app' by done. replace (p ++ c :: d) with ((p ++ [c]) ++ d) by (by rewrite <- app_assoc).
      rewrite IH by (rewrite ?zlen_app; unfold zlen in *; simpl; lia).
      replace (Z.to_nat (n - i)) with (S (Z.to_nat (n - (i + 1)))) by lia. by rewrite <- app_assoc.
    + by replace (Z.to_nat (n - i)) with 0%nat by lia.
Qed.

Lemma memcpy_spec dest src n :
  0 <= n <= zlen src -> n <= zlen dest ->
  memcpy dest src n = Some (take (Z.to_nat n) src ++ drop (Z.to_nat n) dest).
Proof.
  intros Hn Hd. unfold memcpy. pose proof (memcpy_loop_spec [] dest src 0 n) as E.
  rewrite Z.sub_0_r in E. apply E; unfold zlen in *; simpl; lia.
Qed.

(** ** Properties *)

(** C36: [strncpy(dst, str, n)] on every branch.  An empty source leaves [dst] as it was,
    not even terminated; otherwise [min (strlen str) n] characters are copied and the
    terminator is stored behind them, so a destination of exactly [n] bytes is written
    out of bounds ([None]) as soon as the source has [n] characters or more. *)
Theorem strncpy_spec (dst buf s : list Z) (n : Z) :
  0 <= n -> holds buf s ->
  let k := Z.min (zlen s) n in
  (k = 0 -> strncpy dst buf n = Some dst) /\
  (0 < k < zlen dst ->
     strncpy dst buf n = Some (take (Z.to_nat k) s ++ 0 :: drop (Z.to_nat (k + 1)) dst)) /\
  (0 < k -> zlen dst <= k -> strncpy dst buf n = None) /\
  (0 < n -> zlen dst = n -> n <= zlen s -> strncpy dst buf n = None).
Proof.
  intros Hn H k. rewrite (strncpy_cases dst buf s n Hn H). fold k. cbv zeta.
  split_and!; intros; zsolve. all: subst k; lia.
Qed.

Lemma strncpy_spec_witness :
  strncpy [9; 9; 9] [97; 98; 99; 100; 0] 3 = None /\
  strncpy [9; 9; 9; 9] [97; 98; 99; 100; 0] 3 = Some [97; 98; 99; 0].
Proof.
  assert (H : holds [97; 98; 99; 100; 0] [97; 98; 99; 100]).
  { apply (holds_nul [97; 98; 99; 100]). by repeat (constructor; [done|]). }
  split.
  - by apply (strncpy_spec [9; 9; 9] _ _ 3 ltac:(lia) H).
  - by apply (strncpy_spec [9; 9; 9; 9] _ _ 3 ltac:(lia) H).
Defined.

(** [istrncmp] and [strncmp] decide equality of the first [n] characters of two C
    strings, the former up to the case of ASCII letters; neither reads past the
    terminators. *)
Theorem strncmp_decides (b1 b2 s1 s2 : list Z) (n : Z) :
  holds b1 s1 -> holds b2 s2 -> 0 <= n ->
  (istrncmp b1 b2 n = Some 0 <->
   tolower <$> take (Z.to_nat n) s1 = tolower <$> take (Z.to_nat n) s2) /\
  (strncmp b1 b2 n = Some 0 <-> take (Z.to_nat n) s1 = take (Z.to_nat n) s2).
Proof.
  intros H1 H2 Hn. pose proof (istrncmp_loop_zero b1 b2 s1 s2 0 n H1 H2) as E.
  pose proof (strncmp_loop_zero b1 b2 s1 s2 0 n H1 H2) as E'.
  rewrite Z.sub_0_r in E, E'. by split.
Qed.

Lemma strncmp_decides_witness :
  istrncmp [65; 98; 0] [97; 66; 0] 108 = Some 0 /\ strncmp [65; 98; 0] [97; 66; 0] 108 <> Some 0.
Proof.
  assert (H1 : holds [65; 98; 0] [65; 98]) by (apply (holds_nul [65; 98]); by repeat constructor).
  assert (H2 : holds [97; 66; 0] [97; 66]) by (apply (holds_nul [97; 66]); by repeat constructor).
  destruct (strncmp_decides _ _ _ _ 108 H1 H2) as [Hi Hs]; [lia|]. split.
  - by apply Hi.
  - by intros [=]%Hs.
Defined.
