(* ===== verification/Print.v ===== *)
(** * The text console and number formatting: lib/print.c

    The console state is the cursor and the video memory, a function from cell index
    to the 16-bit cell.  Buffers are lists of bytes as in CString.v. *)
From S2P Require Import Prelude CString.

Record terminal := mk_terminal {
  vedio_mem : Z -> Z;
  terminal_row : Z;
  terminal_col : Z
}.

Definition terminal_make_char (c color : Z) : Z := u16 (Z.lor (Z.shiftl color 8) (i8 c)).

Definition terminal_put_char (t : terminal) (x y c color : Z) : terminal :=
  mk_terminal
    (fun cell => if cell =? y * VGA_WIDTH + x then terminal_make_char c color
                 else vedio_mem t cell)
    (terminal_row t) (terminal_col t).

Definition set_cursor (t : terminal) (row col : Z) : terminal :=
  mk_terminal (vedio_mem t) (u16 row) (u16 col).

Definition terminal_backspace (t : terminal) : terminal :=
  if (terminal_col t =? 0) && (terminal_row t =? 0) then t
  else
    let t :=
      if terminal_col t =? 0 then set_cursor t (terminal_row t - 1) (VGA_WIDTH - 1)
      else set_cursor t (terminal_row t) (terminal_col t - 1) in
    terminal_put_char t (terminal_col t) (terminal_row t) 32 15.

Definition terminal_write_char (t : terminal) (c color : Z) : terminal :=
  if c =? 10 then set_cursor t (terminal_row t + 1) 0
  else if c =? 8 then terminal_backspace t
  else
    let t := terminal_put_char t (terminal_col t) (terminal_row t) c color in
    let t := set_cursor t (terminal_row t) (terminal_col t + 1) in
    if terminal_col t =? VGA_WIDTH then set_cursor t (terminal_row t + 1) 0 else t.

(** The two nested loops of [terminal_initialize]. *)
Fixpoint initialize_row (n : nat) (t : terminal) (j i : Z) : terminal :=
  match n with
  | O => t
  | S n' =>
      if j <? VGA_WIDTH then initialize_row n' (terminal_put_char t j i 32 0) (j + 1) i else t
  end.

Fixpoint initialize_rows (n : nat) (t : terminal) (i : Z) : terminal :=
  match n with
  | O => t
  | S n' =>
      if i <? VGA_HEIGHT
      then initialize_rows n' (initialize_row (Z.to_nat VGA_WIDTH) t 0 i) (i + 1) else t
  end.

(** [vedio_mem] is set to 0xB8000: the memory of the argument is the one found there. *)
Definition terminal_initialize (t : terminal) : terminal :=
  initialize_rows (Z.to_nat VGA_HEIGHT) t 0.

Definition terminal_print (t : terminal) (str : list Z) : option terminal :=
  match strlen str with
  | Some len =>
      Some (fold_left (fun t c => terminal_write_char t c 15) (take (Z.to_nat len) str) t)
  | None => None
  end.

Definition terminal_print_endl (t : terminal) (str : list Z) : option terminal :=
  match terminal_print t str with
  | Some t' => terminal_print t' [10; 0]
  | None => None
  end.

Definition terminal_print_char (t : terminal) (c : Z) : terminal := terminal_write_char t c 15.

(** ** Numbers *)

Definition DEFAULT_STRING_SIZE : Z := 32 + 1.

(** "0123456789ABCDEF" *)
Definition num_char_set : list Z :=
  [48; 49; 50; 51; 52; 53; 54; 55; 56; 57; 65; 66; 67; 68; 69; 70].

(** The digit loop.  The result is the buffer, [index] and whether the loop left through
    [goto out] because the buffer is full. *)
Fixpoint digit_loop (n : nat) (num : Z) (str : list Z) (index size base : Z)
  : option (list Z * Z * bool) :=
  match n with
  | O => None
  | S n' =>
      if 0 <? num then
        let val := num mod base in
        let num := num / base in
        match put str index (default 0 (zget num_char_set val)) with
        | Some str =>
            let index := u32 (index + 1) in
            if index =? u32 (size - 1) then Some (str, index, true)
            else digit_loop n' num str index size base
        | None => None
        end
      else Some (str, index, false)
  end.

Fixpoint reverse_loop (n : nat) (str : list Z) (i j : Z) : list Z :=
  match n with
  | O => str
  | S n' =>
      if i <? j then
        let tmp := default 0 (zget str i) in
        let str := zset str i (default 0 (zget str j)) in
        let str := zset str j tmp in
        reverse_loop n' str (i + 1) (j - 1)
      else str
  end.

(** [fuel]: a 32-bit number has at most 32 digits in any base from 2 on. *)
Definition __ulong_to_string (num : Z) (str : list Z) (size base : Z) : option (list Z) :=
  let index := 0 in
  if size =? 0 then put str index 0
  else if num =? 0 then
    match put str index 48 with
    | Some str => put str (index + 1) 0
    | None => None
    end
  else
    match digit_loop 33 num str index size base with
    | Some (str, index, true) => put str index 0
    | Some (str, index, false) =>
        put (reverse_loop (length str) str 0 (i32 (index - 1))) index 0
    | None => None
    end.

Definition ulong_to_string (num : Z) (str : list Z) (size : Z) : option (list Z) :=
  __ulong_to_string num str size 10.

Definition ulong_to_hex_string (num : Z) (str : list Z) (size : Z) : option (list Z) :=
  __ulong_to_string num str size 16.

(** [str]: the uninitialised local buffer of [DEFAULT_STRING_SIZE] bytes. *)
Definition terminal_print_num_without_endl (t : terminal) (num : Z) (str : list Z) : option terminal :=
  match ulong_to_string num str DEFAULT_STRING_SIZE with
  | Some str => terminal_print t str
  | None => None
  end.

Definition terminal_print_num (t : terminal) (num : Z) (str : list Z) : option terminal :=
  match terminal_print_num_without_endl t num str with
  | Some t => terminal_print t [10; 0]
  | None => None
  end.

Definition terminal_print_hex (t : terminal) (num : Z) (hex_str : list Z) : option terminal :=
  match ulong_to_hex_string num hex_str DEFAULT_STRING_SIZE with
  | Some hex_str =>
      match terminal_print t [48; 120; 0] with
      | Some t =>
          match terminal_print t hex_str with
          | Some t => terminal_print t [10; 0]
          | None => None
          end
      | None => None
      end
  | None => None
  end.

(** ** Reading numerals back *)

(** The value of a digit character of [num_char_set]. *)
Definition digit_value (c : Z) : Z := if c <? 65 then c - 48 else c - 55.

(** The value of a numeral, most significant digit first. *)
Definition numeral_value (base : Z) (s : list Z) : Z :=
  fold_left (fun v c => v * base + digit_value c) s 0.

(** Its digits least significant first, as the loop produces them. *)
Fixpoint digits_le (n : nat) (num base : Z) : list Z :=
  match n with
  | O => []
  | S n' => if 0 <? num then default 0 (zget num_char_set (num mod base)) :: digits_le n' (num / base) base
            else []
  end.

Lemma digit_char base v :
  0 < base <= 16 -> 0 <= v < base ->
  is_char (default 0 (zget num_char_set v)) /\ digit_value (default 0 (zget num_char_set v)) = v /\
  (v <> 0 -> default 0 (zget num_char_set v) <> 48).
Proof.
  intros Hb Hv.
  assert (v = 0 \/ v = 1 \/ v = 2 \/ v = 3 \/ v = 4 \/ v = 5 \/ v = 6 \/ v = 7 \/ v = 8 \/ v = 9 \/
    v = 10 \/ v = 11 \/ v = 12 \/ v = 13 \/ v = 14 \/ v = 15) as Hcase by lia.
  repeat (destruct Hcase as [->|Hcase]; [by vm_compute|]). subst. by vm_compute.
Qed.

Lemma numeral_value_snoc base s c : numeral_value base (s ++ [c]) = numeral_value base s * base + digit_value c.
Proof. unfold numeral_value. by rewrite fold_left_app. Qed.

Lemma digits_le_spec n num base :
  2 <= base <= 16 -> 0 <= num < base ^ Z.of_nat n ->
  numeral_value base (reverse (digits_le n num base)) = num /\
  Forall is_char (digits_le n num base) /\
  (num <> 0 -> exists c s, reverse (digits_le n num base) = c :: s /\ c <> 48).
Proof.
  revert num. induction n as [|n IH]; intros num Hb Hn; simpl.
  - assert (num = 0) as -> by lia. done.
  - destruct (Z.ltb_spec 0 num); [|assert (num = 0) as -> by lia; done].
    assert (Hq : 0 <= num / base < base ^ Z.of_nat n).
    { rewrite Nat2Z.inj_succ, Z.pow_succ_r in Hn by lia.
      split; [apply Z.div_pos; lia|apply Z.div_lt_upper_bound; lia]. }
    pose proof (Z.mod_pos_bound num base ltac:(lia)) as Hm.
    destruct (IH _ Hb Hq) as (Hv & Hc & Hhd). destruct (digit_char base _ ltac:(lia) Hm) as (Hd & Hdv & H48).
    rewrite reverse_cons, numeral_value_snoc, Hv, Hdv. split_and!.
    + pose proof (Z.div_mod num base ltac:(lia)). lia.
    + by constructor.
    + intros _. destruct (Z.eq_dec (num / base) 0) as [E|E].
      * rewrite E. assert (digits_le n 0 base = []) as -> by (by destruct n). simpl.
        eexists _, []. split; [done|]. apply H48.
        pose proof (Z.div_mod num base ltac:(lia)). rewrite E in *. lia.
      * destruct (Hhd E) as (c & s & -> & Hc'). by eexists c, _.
Qed.

Lemma digits_le_len n num base : zlen (digits_le n num base) <= Z.of_nat n.
Proof.
  revert num. induction n as [|n IH]; intros num; simpl; [done|].
  zcase; [|unfold zlen; simpl; lia]. rewrite zlen_cons. specialize (IH (num / base)). lia.
Qed.

(** The digit loop stores the digits behind what is written; with room for all of them
    it does not stop early. *)
Lemma digit_loop_spec n m num p d size base : (n < m)%nat ->
  2 <= base <= 16 -> 0 <= num < base ^ Z.of_nat n -> zlen p + Z.of_nat n < size - 1 ->
  size < 4294967296 -> size <= zlen p + zlen d ->
  let ds := digits_le n num base in
  digit_loop m num (p ++ d) (zlen p) size base =
  Some (p ++ ds ++ drop (length ds) d, zlen p + zlen ds, false).
Proof.
  revert m num p d. induction n as [|n IH]; intros m num p d Hm Hb Hn Hsz Hs Hd ds; subst ds;
    (destruct m as [|m]; [lia|]).
  - assert (num = 0) as -> by lia. simpl. by rewrite drop_0, Z.add_0_r.
  - simpl.
    destruct (Z.ltb_spec 0 num); [|simpl; by rewrite drop_0, Z.add_0_r].
    pose proof (zlen_nonneg p). destruct d as [|d0 d]; [change (zlen (@nil Z)) with 0 in Hd; lia|].
    rewrite zlen_cons in Hd. rewrite put_app. rewrite !u32_small by lia.
    rewrite (proj2 (Z.eqb_neq _ _)) by lia.
    set (c := default 0 (zget num_char_set (num mod base))).
    replace (p ++ c :: d) with ((p ++ [c]) ++ d) by (by rewrite <- app_assoc).
    assert (Hp : zlen (p ++ [c]) = zlen p + 1) by (rewrite zlen_app; done).
    assert (Hq : 0 <= num / base < base ^ Z.of_nat n).
    { rewrite Nat2Z.inj_succ, Z.pow_succ_r in Hn by lia.
      split; [apply Z.div_pos; lia|apply Z.div_lt_upper_bound; lia]. }
    rewrite <- Hp, IH by (rewrite ?Hp; lia).
    rewrite Hp, <- app_assoc, zlen_cons. simpl. do 3 f_equal. lia.
Qed.

(** Swapping from both ends reverses. *)
Lemma zget_at (p : list Z) c r i : i = zlen p -> zget (p ++ c :: r) i = Some c.
Proof. intros ->. rewrite zget_app, Z.ltb_irrefl, Z.sub_diag. done. Qed.

Lemma zset_at (p : list Z) c r i v : i = zlen p -> zset (p ++ c :: r) i v = p ++ v :: r.
Proof.
  intros ->. pose proof (put_app p c r v) as E. unfold put in E.
  destruct (_ && _) in E; congruence.
Qed.

Lemma reverse_loop_spec n p m r i j :
  i = zlen p -> j = zlen p + zlen m - 1 -> (length m <= n)%nat ->
  reverse_loop n (p ++ m ++ r) i j = p ++ reverse m ++ r.
Proof.
  revert p m r i j. induction n as [|n IH]; intros p m r i j Hi Hj Hn.
  { by destruct m; simpl in Hn; [|lia]. }
  simpl. pose proof (zlen_nonneg p). destruct m as [|a m]; [zcase; [|done]; change (zlen (@nil Z)) with 0 in *; lia|].
  destruct m as [|b m _] using rev_ind.
  { zcase; [|done]. change (zlen [a]) with 1 in *. lia. }
  pose proof (zlen_nonneg m) as Hm. rewrite zlen_cons, zlen_app in Hj. change (zlen [b]) with 1 in Hj.
  destruct (Z.ltb_spec i j); [|lia].
  replace (p ++ (a :: m ++ [b]) ++ r) with ((p ++ a :: m) ++ b :: r)
    by (rewrite <- !app_assoc; simpl; by rewrite <- !app_assoc).
  rewrite (zget_at (p ++ a :: m)) by (rewrite zlen_app, zlen_cons; lia).
  replace ((p ++ a :: m) ++ b :: r) with (p ++ a :: m ++ b :: r) by (by rewrite <- app_assoc).
  rewrite zget_at, zset_at by done. simpl.
  replace (p ++ b :: m ++ b :: r) with ((p ++ b :: m) ++ b :: r) by (by rewrite <- app_assoc).
  rewrite zset_at by (rewrite zlen_app, zlen_cons; lia).
  replace ((p ++ b :: m) ++ a :: r) with ((p ++ [b]) ++ m ++ a :: r)
    by (rewrite <- !app_assoc; done).
  rewrite IH; [|rewrite zlen_app; change (zlen [b]) with 1; lia
               |rewrite zlen_app; change (zlen [b]) with 1; lia
               |simpl in Hn; rewrite length_app in Hn; simpl in Hn; lia].
  rewrite reverse_cons, reverse_app. rewrite <- !app_assoc. done.
Qed.

(** Formatting into the console's buffer: every 32-bit number fits. *)
Lemma ulong_to_string_digits num str base :
  base = 10 \/ base = 16 -> 0 <= num < 4294967296 -> zlen str = DEFAULT_STRING_SIZE ->
  exists s res, __ulong_to_string num str DEFAULT_STRING_SIZE base = Some res /\ holds res s /\
    zlen s <= 10 /\ numeral_value base s = num /\
    (num = 0 -> s = [48]) /\ (num <> 0 -> exists c s', s = c :: s' /\ c <> 48).
Proof.
  intros Hb Hn Hlen. change DEFAULT_STRING_SIZE with 33 in *.
  unfold __ulong_to_string. change (33 =? 0) with false. cbv iota beta zeta.
  destruct (Z.eqb_spec num 0) as [->|Hnz].
  - destruct str as [|d0 [|d1 d]]; [done|done|]. exists [48], (48 :: 0 :: d).
    rewrite (put_app [] d0 (d1 :: d) 48 : put (d0 :: d1 :: d) 0 48 = _).
    change ([] ++ 48 :: d1 :: d) with ([48] ++ d1 :: d). rewrite put_app' by done.
    split; [done|]. split; [by apply (holds_intro [48]); repeat constructor|].
    split; [done|]. split; [by destruct Hb as [-> | ->]|]. done.
  - assert (Hpow : base ^ Z.of_nat 10 >= 4294967296) by (by destruct Hb as [-> | ->]; vm_compute).
    assert (Hb' : 2 <= base <= 16) by lia.
    destruct (digits_le_spec 10 num base Hb' ltac:(lia)) as (Hv & Hc & Hhd).
    pose proof (digits_le_len 10 num base) as Hdl.
    pose proof (digit_loop_spec 10 33 num [] str 33 base ltac:(lia) Hb' ltac:(lia)) as E.
    change (zlen (@nil Z)) with 0 in E. simpl (_ ++ _) in E. cbv zeta in E.
    rewrite E by lia. clear E. rewrite Z.add_0_l.
    set (ds := digits_le 10 num base) in *. pose proof (zlen_nonneg ds).
    rewrite i32_small by lia.
    pose proof (reverse_loop_spec (length (ds ++ drop (length ds) str)) [] ds (drop (length ds) str)
      0 (zlen ds - 1) eq_refl ltac:(change (zlen (@nil Z)) with 0; lia) ltac:(rewrite length_app; lia)) as E.
    simpl in E.
    exists (reverse ds). destruct (drop (length ds) str) as [|d0 d] eqn:Ed.
    { apply (f_equal length) in Ed. rewrite length_drop in Ed. unfold zlen in *. simpl in Ed. lia. }
    exists (reverse ds ++ 0 :: d). split; [|split; [|split_and!]]; try done.
    + simpl in E |- *. rewrite E. apply put_app'. unfold zlen. by rewrite length_reverse.
    + apply holds_intro. by apply Forall_reverse.
    + unfold zlen in *. by rewrite length_reverse.
Qed.

(** ** The cursor *)

(** Index of the cell under the cursor. *)
Definition cursor (t : terminal) : Z := terminal_row t * VGA_WIDTH + terminal_col t.

Definition terminal_ok (t : terminal) : Prop :=
  0 <= terminal_row t < 65536 /\ 0 <= terminal_col t < VGA_WIDTH.

Lemma u16_small z : 0 <= z < 65536 -> u16 z = z.
Proof. intros. by apply Z.mod_small. Qed.

Lemma terminal_backspace_ok t : terminal_ok t -> terminal_ok (terminal_backspace t).
Proof.
  unfold terminal_ok, terminal_backspace, VGA_WIDTH. intros [Hr Hc].
  destruct (Z.eqb_spec (terminal_col t) 0), (Z.eqb_spec (terminal_row t) 0); simpl; try lia.
  all: rewrite ?u16_small by lia; lia.
Qed.

Lemma terminal_write_char_ok t c color : terminal_ok t -> terminal_ok (terminal_write_char t c color).
Proof.
  intros Hok. unfold terminal_write_char. destruct (Z.eqb_spec c 10).
  { unfold terminal_ok, VGA_WIDTH in *. simpl. pose proof (u16_range (terminal_row t + 1)).
    change (u16 0) with 0. lia. }
  destruct (Z.eqb_spec c 8); [by apply terminal_backspace_ok|].
  unfold terminal_ok, VGA_WIDTH in *. simpl. rewrite (u16_small (terminal_col t + 1)) by lia.
  pose proof (u16_range (terminal_row t)). zcase; simpl; [|rewrite (u16_small (terminal_col t + 1)) by lia; lia].
  pose proof (u16_range (u16 (terminal_row t) + 1)). simpl; change (u16 0) with 0. lia.
Qed.

Lemma fold_write_ok s t :
  terminal_ok t -> terminal_ok (fold_left (fun t c => terminal_write_char t c 15) s t).
Proof. revert t. induction s; simpl; auto using terminal_write_char_ok. Qed.

(** ** Properties *)

(** C34: number formatting is right for every 32-bit number in both bases the console
    uses.  The buffer of [DEFAULT_STRING_SIZE] bytes is always large enough, the result
    is a terminated string of at most ten digits that reads back as the number, with no
    leading zero. *)
Theorem ulong_to_string_roundtrip (num : Z) (str : list Z) :
  0 <= num < 4294967296 -> zlen str = DEFAULT_STRING_SIZE ->
  (exists s res, ulong_to_string num str DEFAULT_STRING_SIZE = Some res /\ holds res s /\
     zlen s <= 10 /\ numeral_value 10 s = num /\ (num <> 0 -> exists c s', s = c :: s' /\ c <> 48)) /\
  (exists s res, ulong_to_hex_string num str DEFAULT_STRING_SIZE = Some res /\ holds res s /\
     zlen s <= 10 /\ numeral_value 16 s = num /\ (num <> 0 -> exists c s', s = c :: s' /\ c <> 48)).
Proof.
  intros Hn Hlen. split.
  - destruct (ulong_to_string_digits num str 10) as (s & res & ? & ? & ? & ? & _ & ?); auto.
    exists s, res. auto.
  - destruct (ulong_to_string_digits num str 16) as (s & res & ? & ? & ? & ? & _ & ?); auto.
    exists s, res. auto.
Qed.

Lemma ulong_to_string_roundtrip_witness :
  exists s res, ulong_to_string 4294967295 (replicate 33 7) DEFAULT_STRING_SIZE = Some res /\
    holds res s /\ numeral_value 10 s = 4294967295.
Proof.
  destruct (ulong_to_string_roundtrip 4294967295 (replicate 33 7)) as [(s & res & ? & ? & _ & ? & _) _];
    [lia|done|]. exists s, res. auto.
Defined.

(** the cursor.  Writing an ordinary character changes only the cell under the
    cursor and advances the cursor by one cell, wrapping at the right margin; a
    following backspace blanks that cell and puts the cursor back; a newline moves to
    the start of the next row and draws nothing; and the column never leaves the
    screen. *)
Theorem terminal_write_char_spec (t : terminal) (c color : Z) :
  terminal_ok t -> terminal_row t < 65535 -> c <> 10 -> c <> 8 ->
  let t' := terminal_write_char t c color in
  terminal_ok t' /\ cursor t' = cursor t + 1 /\
  vedio_mem t' (cursor t) = terminal_make_char c color /\
  (forall cell, cell <> cursor t -> vedio_mem t' cell = vedio_mem t cell) /\
  let t'' := terminal_write_char t' 8 color in
  cursor t'' = cursor t /\ vedio_mem t'' (cursor t) = terminal_make_char 32 15 /\
  (forall cell, cell <> cursor t -> vedio_mem t'' cell = vedio_mem t cell).
Proof.
  intros Hok Hrow H10 H8 t'. split; [by apply terminal_write_char_ok|].
  assert (E : exists row col, t' = mk_terminal
      (fun cell => if cell =? cursor t then terminal_make_char c color else vedio_mem t cell) row col /\
      row * VGA_WIDTH + col = cursor t + 1 /\ 0 <= row < 65536 /\ 0 <= col < VGA_WIDTH).
  { subst t'. unfold terminal_write_char, cursor, terminal_ok, VGA_WIDTH in *.
    rewrite (proj2 (Z.eqb_neq c 10)), (proj2 (Z.eqb_neq c 8)) by done. simpl.
    unfold set_cursor. simpl.
    rewrite (u16_small (terminal_row t)), (u16_small (terminal_col t + 1)) by lia.
    destruct (Z.eqb_spec (terminal_col t + 1) 80); do 2 eexists; (split; [done|]).
    - rewrite (u16_small (terminal_row t + 1)) by lia. change (u16 0) with 0. lia.
    - lia. }
  destruct E as (row & col & -> & Hcur & Hr & Hc). simpl.
  split; [exact Hcur|]. split; [by rewrite Z.eqb_refl|].
  split; [intros cell Hne; by rewrite (proj2 (Z.eqb_neq _ _) Hne)|].
  assert (Hpos : 0 <= cursor t) by (unfold cursor, terminal_ok, VGA_WIDTH in *; lia).
  unfold terminal_write_char. simpl. unfold terminal_backspace. simpl.
  destruct (Z.eqb_spec col 0) as [->|Hc0].
  - destruct (Z.eqb_spec row 0); [subst; lia|]. unfold terminal_put_char, set_cursor, cursor at 1. simpl.
    unfold VGA_WIDTH in *. rewrite (u16_small (row - 1)) by lia. change (u16 (80 - 1)) with 79.
    replace ((row - 1) * 80 + 79) with (cursor t) by lia. split; [done|]. split; [by rewrite Z.eqb_refl|].
    intros cell Hne. by rewrite !(proj2 (Z.eqb_neq _ _) Hne).
  - unfold terminal_put_char, set_cursor, cursor at 1. simpl. unfold VGA_WIDTH in *.
    rewrite (u16_small row), (u16_small (col - 1)) by lia.
    replace (row * 80 + (col - 1)) with (cursor t) by lia. split; [done|]. split; [by rewrite Z.eqb_refl|].
    intros cell Hne. by rewrite !(proj2 (Z.eqb_neq _ _) Hne).
Qed.

Lemma terminal_write_char_spec_witness :
  cursor (terminal_write_char (mk_terminal (fun _ => 0) 3 79) 65 15) = 320.
Proof.
  destruct (terminal_write_char_spec (mk_terminal (fun _ => 0) 3 79) 65 15) as (_ & E & _);
    try (unfold terminal_ok, VGA_WIDTH; simpl; lia).
  exact E.
Defined.
