(* ===== verification/Keyboard.v ===== *)
(** * The keyboard: kernel/keyboard.c and driver/keyboard/classic.c

    Each process owns a ring buffer of keys.  The functions that act on the current
    process take its buffer, [None] when there is no current process. *)
From S2P Require Import Prelude.

(** [struct keyboard_buffer] of include/kernel/sched.h *)
Record keyboard_buffer := mk_keyboard_buffer {
  buffer : list Z;
  head : Z;
  tail : Z;
  size : Z
}.

Definition keyboard_get_next_index (index : Z) : Z :=
  crem (index + 1) KERNEL_KEYBOARD_BUFFER_SIZE.

Definition keyboard_get_last_index (index : Z) : Z :=
  crem (index + KERNEL_KEYBOARD_BUFFER_SIZE - 1) KERNEL_KEYBOARD_BUFFER_SIZE.

Definition keyboard_push (process : option keyboard_buffer) (c : Z) : option keyboard_buffer :=
  match process with
  | None => None
  | Some k =>
      if c =? 0 then Some k
      else if size k =? KERNEL_KEYBOARD_BUFFER_SIZE then Some k
      else
        let index := keyboard_get_next_index (tail k) in
        Some (mk_keyboard_buffer (zset (buffer k) index c) (head k) index (size k + 1))
  end.

Definition keyboard_pop (process : option keyboard_buffer) : Z * option keyboard_buffer :=
  match process with
  | None => (0, None)
  | Some k =>
      if size k =? 0 then (0, Some k)
      else
        let index := keyboard_get_next_index (head k) in
        let c := default 0 (zget (buffer k) index) in
        (c, Some (mk_keyboard_buffer (zset (buffer k) index 0) index (tail k) (size k - 1)))
  end.

Definition keyboard_backspace (process : option keyboard_buffer) : option keyboard_buffer :=
  match process with
  | None => None
  | Some k =>
      if size k =? 0 then Some k
      else
        let b := zset (buffer k) (tail k) 0 in
        let index := keyboard_get_last_index (tail k) in
        Some (mk_keyboard_buffer b (head k) index (size k - 1))
  end.

(** ** The list of keyboards *)

Definition KEYBOARD_CAPS_LOCK_ON : Z := 1.
Definition KEYBOARD_CAPS_LOCK_OFF : Z := 0.

(** [has_init]: the [init] pointer is not NULL. *)
Record keyboard := mk_keyboard { has_init : bool; next : Z; state : Z }.

Record keyboards := mk_keyboards {
  kbds : gmap Z keyboard;
  keyboard_list_head : Z;
  keyboard_list_tail : Z
}.

Definition set_next (n : Z) (k : keyboard) : keyboard := mk_keyboard (has_init k) n (state k).

Definition keyboard_set_capslock (k : keyboard) (s : Z) : keyboard :=
  mk_keyboard (has_init k) (next k) s.

Definition keyboard_get_capslock (k : keyboard) : Z := state k.

(** The keyboard joins the list; then its driver's [init] runs, on the state of the whole
    kernel, of which [sel] and [upd] give the keyboards. *)
Definition keyboard_insert {S} (sel : S -> keyboards) (upd : keyboards -> S -> S) (init : M S Z) (k : Z) : M S Z :=
  ks ← gets sel;
  match (if k =? 0 then None else kbds ks !! k) with
  | None => mret (- EINVAGS)
  | Some kb =>
      if negb (has_init kb) then mret (- EINVAGS)
      else
        modify (upd (
          if keyboard_list_head ks =? 0 then mk_keyboards (kbds ks) k k
          else mk_keyboards (alter (set_next k) (keyboard_list_tail ks) (kbds ks)) (keyboard_list_head ks) k));;
        init
  end.

(** ** The classic PS/2 driver *)

Definition CLASSIC_KEYBOARD_CAPSLOCK : Z := 58.
Definition PS2_PORT : Z := 100.
Definition PS2_COMMAND_ENABLE_FIRST_PORT : Z := 174.
Definition CLASSIC_KEYBOARD_KEY_RELEASED : Z := 128.
Definition ISR_KEYBOARD_INTERRUPT : Z := 33.

Definition keyboard_scan_set_one : list Z :=
  [0; 27; 49; 50; 51; 52; 53; 54; 55; 56; 57; 48; 45; 61;
   8; 9; 113; 119; 101; 114; 116; 121; 117; 105; 111; 112; 91; 93;
   13; 0; 97; 115; 100; 102; 103; 104; 106; 107; 108; 59; 39; 96;
   0; 92; 122; 120; 99; 118; 98; 110; 109; 44; 46; 47; 0; 42;
   0; 32; 0; 0; 0; 0; 0; 0; 0; 0; 0; 0; 0; 55;
   56; 57; 45; 52; 53; 54; 43; 49; 50; 51; 48; 46].

(** [None]: the table is read past its end. *)
Definition classic_keyboard_scancode_to_char (classic_keyboard : keyboard) (scancode : Z) : option Z :=
  let size_of_keyboard_set_one := zlen keyboard_scan_set_one in
  if size_of_keyboard_set_one <? scancode then Some 0
  else
    match zget keyboard_scan_set_one scancode with
    | None => None
    | Some c =>
        if state classic_keyboard =? KEYBOARD_CAPS_LOCK_ON then
          if (97 <=? c) && (c <=? 122) then Some (c - 32) else Some c
        else Some c
    end.

(** The interrupt handler: [scancode] is the byte read first from the input port (the
    second one is dropped).  The result is the driver's keyboard and the current
    process's buffer afterwards. *)
Definition classic_keyboard_handle_interrupt (classic_keyboard : keyboard)
    (process : option keyboard_buffer) (scancode : Z)
    : option (keyboard * option keyboard_buffer) :=
  if negb (Z.land scancode CLASSIC_KEYBOARD_KEY_RELEASED =? 0) then
    Some (classic_keyboard, process)
  else
    let kb :=
      if scancode =? CLASSIC_KEYBOARD_CAPSLOCK then
        let old_state := keyboard_get_capslock classic_keyboard in
        keyboard_set_capslock classic_keyboard
          (if old_state =? KEYBOARD_CAPS_LOCK_ON then KEYBOARD_CAPS_LOCK_OFF
           else KEYBOARD_CAPS_LOCK_ON)
      else classic_keyboard in
    match classic_keyboard_scancode_to_char kb scancode with
    | None => None
    | Some c => Some (kb, if negb (c =? 0) then keyboard_push process c else process)
    end.

(** ** The abstract queue *)

(** The keys waiting in the buffer, oldest first. *)
Definition contents (k : keyboard_buffer) : list Z :=
  (fun i => default 0 (zget (buffer k) ((head k + 1 + Z.of_nat i) mod KERNEL_KEYBOARD_BUFFER_SIZE)))
    <$> seq 0 (Z.to_nat (size k)).

Definition buffer_ok (k : keyboard_buffer) : Prop :=
  zlen (buffer k) = KERNEL_KEYBOARD_BUFFER_SIZE /\
  0 <= head k < KERNEL_KEYBOARD_BUFFER_SIZE /\ 0 <= size k <= KERNEL_KEYBOARD_BUFFER_SIZE /\
  tail k = (head k + size k) mod KERNEL_KEYBOARD_BUFFER_SIZE.

(** What the buffer promises its users: a queue of at most 1024 keys that drops a key
    pushed when it is full, pops the oldest key, and can take back the newest one. *)
Definition spec_push (q : list Z) (c : Z) : list Z :=
  if c =? 0 then q else if zlen q =? KERNEL_KEYBOARD_BUFFER_SIZE then q else q ++ [c].

Definition spec_pop (q : list Z) : Z * list Z :=
  match q with [] => (0, []) | c :: q' => (c, q') end.

Definition spec_backspace (q : list Z) : list Z := take (length q - 1) q.

(** Keyboard events of a process. *)
Inductive key_event := Push (c : Z) | Pop | Backspace.

Definition run_event (k : keyboard_buffer) (e : key_event) : Z * option keyboard_buffer :=
  match e with
  | Push c => (0, keyboard_push (Some k) c)
  | Pop => keyboard_pop (Some k)
  | Backspace => (0, keyboard_backspace (Some k))
  end.

Definition spec_event (q : list Z) (e : key_event) : Z * list Z :=
  match e with
  | Push c => (0, spec_push q c)
  | Pop => spec_pop q
  | Backspace => (0, spec_backspace q)
  end.

(** A run of events: the keys popped and the final state. *)
Fixpoint run_events (k : keyboard_buffer) (es : list key_event) : list Z * keyboard_buffer :=
  match es with
  | [] => ([], k)
  | e :: es' =>
      match run_event k e with
      | (c, Some k') => let '(cs, k'') := run_events k' es' in (c :: cs, k'')
      | (c, None) => ([], k)
      end
  end.

Fixpoint spec_events (q : list Z) (es : list key_event) : list Z * list Z :=
  match es with
  | [] => ([], q)
  | e :: es' =>
      let '(c, q') := spec_event q e in
      let '(cs, q'') := spec_events q' es' in (c :: cs, q'')
  end.

(** [process_init] zeroes the task structure. *)
Definition empty_buffer : keyboard_buffer :=
  mk_keyboard_buffer (replicate (Z.to_nat KERNEL_KEYBOARD_BUFFER_SIZE) 0) 0 0 0.

Lemma zget_contents k i :
  0 <= size k ->
  zget (contents k) i =
  if (0 <=? i) && (i <? size k)
  then Some (default 0 (zget (buffer k) ((head k + 1 + i) mod KERNEL_KEYBOARD_BUFFER_SIZE)))
  else None.
Proof.
  intros Hs. unfold contents, zget at 1. destruct (Z.leb_spec 0 i); simpl; [|done].
  rewrite list_lookup_fmap. zcase.
  - rewrite (lookup_seq_lt _ _ (Z.to_nat i)) by lia. simpl. by rewrite Z2Nat.id by lia.
  - by rewrite lookup_seq_ge by lia.
Qed.

Lemma zlen_contents k : 0 <= size k -> zlen (contents k) = size k.
Proof. intros. unfold contents, zlen. rewrite length_fmap, length_seq. lia. Qed.

Lemma crem_mod a b : 0 <= a -> 0 < b -> crem a b = a mod b.
Proof. intros. unfold crem. by apply Z.rem_mod_nonneg. Qed.

Lemma keyboard_push_refines k c :
  buffer_ok k ->
  exists k', keyboard_push (Some k) c = Some k' /\ buffer_ok k' /\
    contents k' = spec_push (contents k) c.
Proof.
  intros Hok. pose proof Hok as (Hlen & Hh & Hs & Ht). unfold keyboard_push, spec_push.
  rewrite zlen_contents by lia.
  destruct (Z.eqb_spec c 0); [by exists k|].
  destruct (Z.eqb_spec (size k) KERNEL_KEYBOARD_BUFFER_SIZE); [by exists k|].
  unfold keyboard_get_next_index, KERNEL_KEYBOARD_BUFFER_SIZE in *.
  assert (Et : crem (tail k + 1) 1024 = (head k + (size k + 1)) mod 1024).
  { rewrite crem_mod, Ht by (try rewrite Ht; Z.to_euclidean_division_equations; lia).
    Z.to_euclidean_division_equations. lia. }
  rewrite Et. eexists. split; [done|]. split.
  { unfold buffer_ok, KERNEL_KEYBOARD_BUFFER_SIZE. simpl. rewrite zlen_zset. lia. }
  apply zlist_eq.
  - rewrite zlen_app, !zlen_contents by (simpl; lia). simpl. unfold zlen. simpl. lia.
  - intros i Hi. rewrite zlen_contents in Hi by (simpl; lia). simpl in Hi.
    rewrite zget_app, zlen_contents, !zget_contents by (simpl; lia). simpl.
    unfold KERNEL_KEYBOARD_BUFFER_SIZE. rewrite zget_zset, Hlen.
    destruct (Z.ltb_spec i (size k)).
    + rewrite (proj2 (Z.eqb_neq _ _)) by (Z.to_euclidean_division_equations; lia).
      simpl. zsolve.
    + assert (i = size k) as -> by lia. rewrite Z.sub_diag.
      replace (head k + 1 + size k) with (head k + (size k + 1)) by lia.
      rewrite Z.eqb_refl. pose proof (Z.mod_pos_bound (head k + (size k + 1)) 1024). zsolve.
Qed.

Lemma keyboard_pop_refines k :
  buffer_ok k ->
  exists k', keyboard_pop (Some k) = (fst (spec_pop (contents k)), Some k') /\ buffer_ok k' /\
    contents k' = snd (spec_pop (contents k)).
Proof.
  intros Hok. pose proof Hok as (Hlen & Hh & Hs & Ht). unfold keyboard_pop.
  destruct (Z.eqb_spec (size k) 0) as [E|Hne].
  { exists k. assert (contents k = []) as ->; [|done].
    unfold contents. by rewrite E. }
  unfold keyboard_get_next_index, KERNEL_KEYBOARD_BUFFER_SIZE in *.
  rewrite crem_mod by lia.
  pose proof (zget_contents k 0 ltac:(lia)) as H0. unfold KERNEL_KEYBOARD_BUFFER_SIZE in H0.
  destruct (contents k) as [|c q] eqn:Ec.
  { exfalso. apply (f_equal zlen) in Ec. rewrite zlen_contents in Ec by lia.
    change (zlen (@nil Z)) with 0 in Ec. lia. }
  rewrite (proj2 (Z.ltb_lt 0 (size k))), Z.add_0_r in H0 by lia. simpl in H0.
  injection H0 as ->. eexists. split; [done|]. split.
  { unfold buffer_ok, KERNEL_KEYBOARD_BUFFER_SIZE. simpl. rewrite zlen_zset.
    Z.to_euclidean_division_equations. lia. }
  assert (Hq : forall i, 0 <= i -> zget q i = zget (contents k) (i + 1)).
  { intros i Hi. rewrite Ec, zget_cons. zcase; [lia|]. f_equal. lia. }
  assert (Hlq : zlen q = size k - 1).
  { apply (f_equal zlen) in Ec. rewrite zlen_contents, zlen_cons in Ec; lia. }
  simpl. apply zlist_eq; [rewrite zlen_contents by (simpl; lia); simpl; lia|].
  intros i Hi. rewrite zlen_contents in Hi by (simpl; lia). simpl in Hi.
  rewrite Hq, !zget_contents by (simpl; lia). simpl. unfold KERNEL_KEYBOARD_BUFFER_SIZE.
  rewrite zget_zset, (proj2 (Z.eqb_neq _ _)) by (Z.to_euclidean_division_equations; lia).
  replace (((head k + 1) mod 1024 + 1 + i) mod 1024) with ((head k + 1 + (i + 1)) mod 1024)
    by (Z.to_euclidean_division_equations; lia).
  simpl. zsolve.
Qed.

Lemma keyboard_backspace_refines k :
  buffer_ok k ->
  exists k', keyboard_backspace (Some k) = Some k' /\ buffer_ok k' /\
    contents k' = spec_backspace (contents k).
Proof.
  intros Hok. pose proof Hok as (Hlen & Hh & Hs & Ht). unfold keyboard_backspace, spec_backspace.
  destruct (Z.eqb_spec (size k) 0) as [E|Hne].
  { exists k. assert (contents k = []) as ->; [|done].
    unfold contents. by rewrite E. }
  unfold keyboard_get_last_index, KERNEL_KEYBOARD_BUFFER_SIZE in *.
  assert (0 <= tail k < 1024) by (rewrite Ht; apply Z.mod_pos_bound; lia).
  rewrite crem_mod by lia. eexists. split; [done|]. split.
  { unfold buffer_ok, KERNEL_KEYBOARD_BUFFER_SIZE. simpl. rewrite zlen_zset.
    Z.to_euclidean_division_equations. lia. }
  pose proof (zlen_contents k ltac:(lia)) as Hlc.
  apply zlist_eq.
  - rewrite zlen_contents by (simpl; lia). unfold zlen in *. rewrite length_take. simpl. lia.
  - intros i Hi. rewrite zlen_contents in Hi by (simpl; lia). simpl in Hi.
    assert (Htake : zget (take (length (contents k) - 1) (contents k)) i = zget (contents k) i).
    { unfold zget. zcase; [|done]. rewrite lookup_take_lt by (unfold zlen in Hlc; lia). done. }
    rewrite Htake, !zget_contents by (simpl; lia). simpl. unfold KERNEL_KEYBOARD_BUFFER_SIZE.
    rewrite zget_zset, (proj2 (Z.eqb_neq _ _)) by (Z.to_euclidean_division_equations; lia).
    simpl. zsolve.
Qed.

Lemma empty_buffer_ok : buffer_ok empty_buffer /\ contents empty_buffer = [].
Proof. by vm_compute. Qed.

Lemma run_event_refines k e :
  buffer_ok k ->
  exists k', run_event k e = (fst (spec_event (contents k) e), Some k') /\ buffer_ok k' /\
    contents k' = snd (spec_event (contents k) e).
Proof.
  intros Hok. destruct e as [c| |]; cbn [run_event spec_event fst snd].
  - destruct (keyboard_push_refines k c Hok) as (k' & E & ? & ?). exists k'. by rewrite E.
  - apply keyboard_pop_refines, Hok.
  - destruct (keyboard_backspace_refines k Hok) as (k' & E & ? & ?). exists k'. by rewrite E.
Qed.

Lemma land_released scancode :
  0 <= scancode < 256 ->
  (Z.land scancode CLASSIC_KEYBOARD_KEY_RELEASED =? 0) = (scancode <? 128).
Proof.
  intros Hs. apply Bool.eqb_prop. revert scancode Hs. by apply zrange_forall.
Qed.

(** ** Properties *)

(** C33: the ring buffer refines the bounded queue.  Whatever sequence of pushes, pops
    and backspaces a process's buffer goes through, the keys popped and the keys left
    are those of the queue, and the ring invariant holds. *)
Theorem keyboard_refines_queue (k : keyboard_buffer) (es : list key_event) :
  buffer_ok k ->
  let '(cs, k') := run_events k es in
  buffer_ok k' /\ spec_events (contents k) es = (cs, contents k').
Proof.
  revert k. induction es as [|e es IH]; intros k Hok; simpl; [done|].
  destruct (run_event_refines k e Hok) as (k' & -> & Hok' & Hc).
  specialize (IH k' Hok'). destruct (run_events k' es) as [cs k''] eqn:E.
  destruct IH as [Hok'' IH]. destruct (spec_event (contents k) e) as [c q']. simpl in *.
  subst q'. by rewrite IH.
Qed.

Lemma keyboard_refines_queue_witness :
  let '(cs, k') := run_events empty_buffer [Push 97; Push 98; Push 99; Backspace; Pop; Pop; Pop] in
  buffer_ok k' /\ spec_events [] [Push 97; Push 98; Push 99; Backspace; Pop; Pop; Pop] = (cs, contents k').
Proof.
  apply (keyboard_refines_queue empty_buffer
           [Push 97; Push 98; Push 99; Backspace; Pop; Pop; Pop]).
  apply empty_buffer_ok.
Defined.

(** the keyboard interrupt on every scan code.  A key release changes nothing; the
    caps-lock key only toggles the lock; a key of the table pushes its character, a
    letter in upper case exactly when the lock is on; codes above 82 push nothing.
    The code 82 itself, one past the last, passes the range test and reads one past the 82 entries. *)
Theorem classic_keyboard_interrupt_spec (kb : keyboard) (p : option keyboard_buffer) (scancode : Z) :
  0 <= scancode < 256 ->
  (128 <= scancode -> classic_keyboard_handle_interrupt kb p scancode = Some (kb, p)) /\
  (scancode = CLASSIC_KEYBOARD_CAPSLOCK ->
     exists kb', classic_keyboard_handle_interrupt kb p scancode = Some (kb', p) /\
       (state kb' =? KEYBOARD_CAPS_LOCK_ON) = negb (state kb =? KEYBOARD_CAPS_LOCK_ON)) /\
  (scancode < 82 -> scancode <> CLASSIC_KEYBOARD_CAPSLOCK ->
     exists c, zget keyboard_scan_set_one scancode = Some c /\
       let c' := if (state kb =? KEYBOARD_CAPS_LOCK_ON) && (97 <=? c) && (c <=? 122)
                 then c - 32 else c in
       classic_keyboard_handle_interrupt kb p scancode =
         Some (kb, if c' =? 0 then p else keyboard_push p c')) /\
  (82 < scancode < 128 -> classic_keyboard_handle_interrupt kb p scancode = Some (kb, p)) /\
  (classic_keyboard_handle_interrupt kb p scancode = None <-> scancode = 82).
Proof.
  intros Hs. unfold classic_keyboard_handle_interrupt.
  rewrite land_released by done. unfold classic_keyboard_scancode_to_char.
  change (zlen keyboard_scan_set_one) with 82.
  destruct (Z.ltb_spec scancode 128); simpl;
    [|unfold CLASSIC_KEYBOARD_CAPSLOCK; split_and!; intros; try lia; try done; split; [done|lia]].
  assert (Hget : 82 <= scancode -> zget keyboard_scan_set_one scancode = None).
  { intros. apply zget_None. right. done. }
  split_and!.
  - intros; lia.
  - intros ->. change (58 =? CLASSIC_KEYBOARD_CAPSLOCK) with true. simpl.
    unfold keyboard_get_capslock.
    destruct (state kb =? KEYBOARD_CAPS_LOCK_ON); eexists; split; reflexivity.
  - intros Hlt Hcaps. rewrite (proj2 (Z.eqb_neq _ _) Hcaps).
    destruct (zget_is_Some keyboard_scan_set_one scancode) as [c Hc];
      [change (zlen keyboard_scan_set_one) with 82; lia|].
    exists c. split; [done|]. rewrite Hc, (proj2 (Z.ltb_ge 82 scancode)) by lia.
    destruct (state kb =? KEYBOARD_CAPS_LOCK_ON); simpl; [|by destruct (c =? 0)].
    destruct ((97 <=? c) && (c <=? 122)) eqn:El; simpl; [|by destruct (c =? 0)].
    by destruct (c - 32 =? 0).
  - intros Hgt. rewrite (proj2 (Z.ltb_lt 82 scancode)) by lia. simpl.
    unfold CLASSIC_KEYBOARD_CAPSLOCK. by rewrite (proj2 (Z.eqb_neq scancode 58)) by lia.
  - split.
    + intros E. destruct (Z.ltb_spec 82 scancode); [done|].
      destruct (Z.eq_dec scancode 82); [done|exfalso].
      destruct (zget_is_Some keyboard_scan_set_one scancode) as [c Hc];
        [change (zlen keyboard_scan_set_one) with 82; lia|].
      rewrite Hc in E. by repeat case_match.
    + intros ->. done.
Qed.

Lemma classic_keyboard_interrupt_spec_witness :
  classic_keyboard_handle_interrupt (mk_keyboard true 0 1) None 82 = None /\
  exists c, zget keyboard_scan_set_one 16 = Some c.
Proof.
  split.
  - by apply (classic_keyboard_interrupt_spec (mk_keyboard true 0 1) None 82).
  - destruct (classic_keyboard_interrupt_spec (mk_keyboard true 0 1) None 16 ltac:(lia))
      as (_ & _ & H & _). destruct H as (c & Hc & _); [lia|done|]. by exists c.
Defined.
