(* ===== verification/Gdt.v ===== *)
(** * Segment descriptors: arch/x86/kernel/gdt.c

    A descriptor is the list of its eight bytes.  [decode_descriptor] is how the
    processor reads one (Intel SDM vol. 3, 3.4.5), the specification the encoder is
    verified against. *)
From S2P Require Import Prelude.

(** [struct gdt_structured] of include/asm-x86/gdt.h *)
Record gdt_structured := mk_gdt_structured { base : Z; limit : Z; type_ : Z }.

(** [None]: the code stops in [panic]. *)
Definition encode_gdt_entry (target : list Z) (source : gdt_structured) : option (list Z) :=
  if (65536 <? limit source) && negb (Z.land (limit source) 4095 =? 4095) then None
  else
    let target := zset target 6 64 in
    let '(lim, target) :=
      if 65536 <? limit source then (Z.shiftr (limit source) 12, zset target 6 192)
      else (limit source, target) in
    let target := zset target 0 (u8 (Z.land lim 255)) in
    let target := zset target 1 (u8 (Z.land (Z.shiftr lim 8) 255)) in
    let target :=
      zset target 6 (u8 (Z.lor (default 0 (zget target 6)) (Z.land (Z.shiftr lim 16) 15))) in
    let target := zset target 2 (u8 (Z.land (base source) 255)) in
    let target := zset target 3 (u8 (Z.land (Z.shiftr (base source) 8) 255)) in
    let target := zset target 4 (u8 (Z.land (Z.shiftr (base source) 16) 255)) in
    let target := zset target 7 (u8 (Z.land (Z.shiftr (base source) 24) 255)) in
    Some (zset target 5 (type_ source)).

(** The loop of [gdt_structured_to_gdt]; [n] bounds the remaining entries. *)
Fixpoint gdt_loop (n : nat) (gdt : list (list Z)) (structured_gdt : list gdt_structured)
    (i total_entires : Z) : option (list (list Z)) :=
  match n with
  | O => Some gdt
  | S n' =>
      if i <? total_entires then
        match zget gdt i, zget structured_gdt i with
        | Some target, Some source =>
            match encode_gdt_entry target source with
            | Some target' => gdt_loop n' (zset gdt i target') structured_gdt (i + 1) total_entires
            | None => None
            end
        | _, _ => None
        end
      else Some gdt
  end.

Definition gdt_structured_to_gdt (gdt : list (list Z)) (structured_gdt : list gdt_structured)
    (total_entires : Z) : option (list (list Z)) :=
  gdt_loop (Z.to_nat total_entires) gdt structured_gdt 0 total_entires.

(** The kernel's segments (init/kernel.c); [tss]: the address of the task state segment. *)
Definition KERNEL_TOTAL_GDT_SEGMENTS : Z := 6.
Definition kernel_gdt_structured (tss : Z) : list gdt_structured :=
  [ mk_gdt_structured 0 0 0;
    mk_gdt_structured 0 4294967295 154;
    mk_gdt_structured 0 4294967295 146;
    mk_gdt_structured 0 4294967295 248;
    mk_gdt_structured 0 4294967295 242;
    mk_gdt_structured tss 108 233 ].

(** ** What the processor reads *)

Definition byte_at (d : list Z) (i : Z) : Z := default 0 (zget d i).

Definition decode_descriptor (d : list Z) : gdt_structured :=
  let raw := byte_at d 0 + 256 * byte_at d 1 + 65536 * (byte_at d 6 mod 16) in
  mk_gdt_structured
    (byte_at d 2 + 256 * byte_at d 3 + 65536 * byte_at d 4 + 16777216 * byte_at d 7)
    (if 128 <=? byte_at d 6 then raw * 4096 + 4095 else raw)
    (byte_at d 5).

(** 32-bit code and data: the D bit is set, the L bit is clear. *)
Definition is_32bit (d : list Z) : Prop := byte_at d 6 mod 128 / 16 = 4.

(** A segment the format can express. *)
Definition encodable (s : gdt_structured) : Prop :=
  0 <= base s < 4294967296 /\ 0 <= limit s < 4294967296 /\ 0 <= type_ s < 256 /\
  (65536 < limit s -> limit s mod 4096 = 4095).

(** ** Proofs *)

Lemma land_255 z : Z.land z 255 = z mod 256.
Proof. change 255 with (Z.ones 8). by rewrite Z.land_ones. Qed.

Lemma land_15 z : Z.land z 15 = z mod 16.
Proof. change 15 with (Z.ones 4). by rewrite Z.land_ones. Qed.

Lemma land_4095 z : Z.land z 4095 = z mod 4096.
Proof. change 4095 with (Z.ones 12). by rewrite Z.land_ones. Qed.

Lemma lor_flags f z : f = 64 \/ f = 192 -> 0 <= z < 16 -> Z.lor f z = f + z.
Proof.
  intros Hf Hz. apply Z.eqb_eq. revert z Hz. destruct Hf as [-> | ->]; by apply zrange_forall.
Qed.

Lemma encode_cases target s :
  length target = 8%nat -> encodable s ->
  exists lim f,
    encode_gdt_entry target s =
    Some [lim mod 256; lim / 256 mod 256; base s mod 256; base s / 256 mod 256;
          base s / 65536 mod 256; type_ s; f + lim / 65536 mod 16; base s / 16777216 mod 256] /\
    (f = 192 /\ 65536 < limit s /\ lim = limit s / 4096 \/ f = 64 /\ limit s <= 65536 /\ lim = limit s).
Proof.
  intros Hlen (Hb & Hl & Ht & Hg). destruct s as [b l ty]. simpl in *.
  do 9 (destruct target as [|? target]; try done). clear Hlen.
  unfold encode_gdt_entry. simpl. rewrite land_4095.
  assert (Hu : forall z, u8 (Z.land z 255) = z mod 256).
  { intros ?. rewrite land_255. apply u8_small, Z.mod_pos_bound. lia. }
  destruct (Z.ltb_spec 65536 l) as [Hbig|Hsmall].
  - rewrite Hg by done. simpl. exists (l / 4096), 192. split; [|auto].
    rewrite !Hu, land_15, !Z.shiftr_div_pow2 by lia. cbn [zset Z.leb Z.compare Z.to_nat Pos.to_nat].
    rewrite lor_flags by (auto || apply Z.mod_pos_bound; lia). unfold zset. simpl.
    rewrite u8_small; [done|]. change (2 ^ 12) with 4096. change (2 ^ 16) with 65536.
    pose proof (Z.mod_pos_bound (l / 4096 / 65536) 16). lia.
  - exists l, 64. split; [|auto]. simpl.
    rewrite !Hu, land_15, !Z.shiftr_div_pow2 by lia.
    rewrite lor_flags by (auto || apply Z.mod_pos_bound; lia). unfold zset. simpl.
    rewrite u8_small; [done|]. change (2 ^ 16) with 65536.
    pose proof (Z.mod_pos_bound (l / 65536) 16). lia.
Qed.

Lemma encode_decode target s :
  length target = 8%nat -> encodable s ->
  exists d, encode_gdt_entry target s = Some d /\ length d = 8%nat /\
    decode_descriptor d = s /\ is_32bit d.
Proof.
  intros Hlen Hs. destruct (encode_cases target s Hlen Hs) as (lim & f & -> & Hf).
  eexists. split; [done|]. split; [done|].
  destruct Hs as (Hb & Hl & Ht & Hg). destruct s as [b l ty]. simpl in *.
  unfold decode_descriptor, is_32bit, byte_at. simpl. unfold zget. simpl.
  pose proof (Z.mod_pos_bound (lim / 65536) 16 ltac:(lia)).
  split.
  - f_equal.
    + Z.to_euclidean_division_equations. lia.
    + destruct Hf as [(-> & Hbig & ->)|(-> & Hsmall & ->)]; zcase; try lia.
      * specialize (Hg Hbig). Z.to_euclidean_division_equations. lia.
      * Z.to_euclidean_division_equations. lia.
  - destruct Hf as [(-> & _)|(-> & _)]; Z.to_euclidean_division_equations; lia.
Qed.

Lemma gdt_loop_spec n gdt ss i total :
  0 <= i -> zlen gdt = total -> zlen ss = total -> total - i <= Z.of_nat n ->
  Forall (fun d => length d = 8%nat) gdt -> Forall encodable ss ->
  (forall j, 0 <= j < i -> exists d s, zget gdt j = Some d /\ zget ss j = Some s /\
     decode_descriptor d = s /\ is_32bit d) ->
  exists gdt', gdt_loop n gdt ss i total = Some gdt' /\ zlen gdt' = total /\
    forall j, 0 <= j < total -> exists d s, zget gdt' j = Some d /\ zget ss j = Some s /\
     decode_descriptor d = s /\ is_32bit d.
Proof.
  revert gdt i. induction n as [|n IH]; intros gdt i Hi Hg Hs Hn Hlen Henc Hdone; simpl.
  - exists gdt. split; [done|]. split; [done|]. intros j Hj. apply Hdone. lia.
  - destruct (Z.ltb_spec i total).
    + destruct (zget_is_Some gdt i) as [t Et]; [lia|].
      destruct (zget_is_Some ss i) as [s Es]; [lia|]. rewrite Et, Es.
      assert (Ht : length t = 8%nat).
      { rewrite Forall_lookup in Hlen. apply (Hlen (Z.to_nat i)). revert Et. unfold zget. by zcase. }
      assert (Hse : encodable s).
      { rewrite Forall_lookup in Henc. apply (Henc (Z.to_nat i)). revert Es. unfold zget. by zcase. }
      destruct (encode_decode t s Ht Hse) as (d & -> & Hd & Hdec & H32).
      apply IH; try lia; try done.
      * by rewrite zlen_zset.
      * unfold zset. zcase; [|done]. by apply Forall_insert.
      * intros j Hj. destruct (Z.eq_dec j i) as [->|Hne].
        -- exists d, s. rewrite zget_zset_eq by lia. done.
        -- rewrite zget_zset_ne by lia. apply Hdone. lia.
    + exists gdt. split; [done|]. split; [done|]. intros j Hj. apply Hdone. lia.
Qed.

(** ** Properties *)

(** C35: the descriptor table says what the structured table says.  For every table of
    expressible segments of the table's length the loop finishes without a panic, and
    the processor reads each descriptor back as the segment it was made from: base,
    limit (with the 4 KiB granularity chosen for large limits), access byte, 32-bit
    mode.  A segment above 64 KiB whose limit is not of granularity form panics. *)
Theorem gdt_structured_to_gdt_roundtrip (gdt : list (list Z)) (ss : list gdt_structured) :
  Forall (fun d => length d = 8%nat) gdt -> zlen ss = zlen gdt -> Forall encodable ss ->
  (exists gdt', gdt_structured_to_gdt gdt ss (zlen gdt) = Some gdt' /\ zlen gdt' = zlen gdt /\
    forall j, 0 <= j < zlen gdt -> exists d s, zget gdt' j = Some d /\ zget ss j = Some s /\
     decode_descriptor d = s /\ is_32bit d) /\
  (forall t s, 65536 < limit s -> limit s mod 4096 <> 4095 -> encode_gdt_entry t s = None).
Proof.
  intros Hlen Hs Henc. split.
  - apply gdt_loop_spec; try done; try lia.
  - intros t s Hb Hm. unfold encode_gdt_entry. rewrite land_4095.
    by rewrite (proj2 (Z.ltb_lt _ _) Hb), (proj2 (Z.eqb_neq _ _) Hm).
Qed.

Lemma gdt_structured_to_gdt_roundtrip_witness :
  exists gdt', gdt_structured_to_gdt (replicate 6 (replicate 8 0)) (kernel_gdt_structured 1052672)
    KERNEL_TOTAL_GDT_SEGMENTS = Some gdt' /\ zlen gdt' = 6.
Proof.
  destruct (gdt_structured_to_gdt_roundtrip (replicate 6 (replicate 8 0)) (kernel_gdt_structured 1052672))
    as [(g & E & Hg & _) _].
  - by repeat constructor.
  - done.
  - unfold kernel_gdt_structured, encodable.
    rewrite !Forall_cons. simpl. split_and!; first [lia|done|constructor].
  - by exists g.
Defined.
