(* ===== verification/Paging.v ===== *)
(** * Two-level page tables: arch/x86/kernel/paging.c

    Directories and tables are 32-bit words of physical memory.  A [paging_4gb_chunk] is
    the address of a word holding the directory's address.  [translate] is the
    processor's own walk of the tables (Intel SDM vol. 3, 4.3), the specification the
    mapping functions are verified against. *)
From S2P Require Import Prelude Heap Kheap.

Definition PAGING_CACHE_DISABLED : Z := 16.
Definition PAGING_WRITE_THROUGH : Z := 8.
Definition PAGING_ACCESS_FROM_ALL : Z := 4.
Definition PAGING_IS_WRITEABLE : Z := 2.
Definition PAGING_IS_PRESENT : Z := 1.
Definition PAGING_TOTAL_ENTRIES_PER_TABLE : Z := 1024.
Definition PAGING_PAGE_SIZE : Z := 4096.

(** The mask 0xFFFFF000. *)
Definition FRAME_MASK : Z := 4294963200.

Definition paging_is_aligned (addr : Z) : bool := addr mod PAGING_PAGE_SIZE =? 0.

(** The result code and the two indices (both initialised to 0 by the callers). *)
Definition paging_get_indexes (virtual : Z) : Z * Z * Z :=
  if (virtual =? 0) || negb (paging_is_aligned virtual) then (- EINVAGS, 0, 0)
  else
    (KERNEL_ALL_OK,
     virtual / (PAGING_PAGE_SIZE * PAGING_TOTAL_ENTRIES_PER_TABLE),
     virtual mod (PAGING_PAGE_SIZE * PAGING_TOTAL_ENTRIES_PER_TABLE) / PAGING_PAGE_SIZE).

(** The inner loop of [paging_new_4gb_chunk] fills the table at [entry]. *)
Fixpoint new_table_loop (n : nat) (m : mem) (entry offset flag j : Z) : mem :=
  match n with
  | O => m
  | S n' =>
      if j <? PAGING_TOTAL_ENTRIES_PER_TABLE then
        new_table_loop n'
          (st32 m (entry + 4 * j) (Z.lor (u32 (offset + j * PAGING_PAGE_SIZE)) flag))
          entry offset flag (j + 1)
      else m
  end.

Fixpoint new_directory_loop (n : nat) (i offset directory flag : Z) : M machine unit :=
  match n with
  | O => mret tt
  | S n' =>
      if i <? PAGING_TOTAL_ENTRIES_PER_TABLE then
        entry ← kzalloc (4 * PAGING_TOTAL_ENTRIES_PER_TABLE);
        modify (fun s => set_mem
          (new_table_loop (Z.to_nat PAGING_TOTAL_ENTRIES_PER_TABLE) (m_mem s) entry offset flag 0) s);;
        modify (fun s => set_mem
          (st32 (m_mem s) (directory + 4 * i) (Z.lor (Z.lor entry flag) PAGING_IS_WRITEABLE)) s);;
        new_directory_loop n' (i + 1)
          (u32 (offset + PAGING_TOTAL_ENTRIES_PER_TABLE * PAGING_PAGE_SIZE)) directory flag
      else mret tt
  end.

Definition paging_new_4gb_chunk (flag : Z) : M machine Z :=
  directory ← kzalloc (4 * PAGING_TOTAL_ENTRIES_PER_TABLE);
  new_directory_loop (Z.to_nat PAGING_TOTAL_ENTRIES_PER_TABLE) 0 0 directory flag;;
  chunk ← kzalloc 4;
  modify (fun s => set_mem (st32 (m_mem s) chunk directory) s);;
  mret chunk.

(** [chunk->directory_entry] *)
Definition directory_entry (m : mem) (chunk : Z) : Z := ld32 m chunk.

Definition paging_4gb_chunk_get_directory (m : mem) (chunk : Z) : Z := directory_entry m chunk.

(** The value loaded into CR3 and kept in [current_directory]. *)
Definition paging_switch (m : mem) (directory : Z) : Z := directory_entry m directory.

Definition paging_set (m : mem) (directory virtual val : Z) : Z * mem :=
  if (directory =? 0) || negb (paging_is_aligned virtual) then (- EINVAGS, m)
  else
    let '(res, directory_index, table_index) := paging_get_indexes virtual in
    if negb (res =? KERNEL_ALL_OK) then (res, m)
    else
      let directory_entry := ld32 m (directory + 4 * directory_index) in
      let table := Z.land directory_entry FRAME_MASK in
      (KERNEL_ALL_OK, st32 m (table + 4 * table_index) val).

Fixpoint free_tables_loop (n : nat) (i chunk : Z) : M machine unit :=
  match n with
  | O => mret tt
  | S n' =>
      if i <? PAGING_TOTAL_ENTRIES_PER_TABLE then
        m ← gets m_mem;
        let entry := ld32 m (directory_entry m chunk + 4 * i) in
        kfree (Z.land entry FRAME_MASK);;
        free_tables_loop n' (i + 1) chunk
      else mret tt
  end.

Definition paging_free_4gb (chunk : Z) : M machine unit :=
  free_tables_loop (Z.to_nat PAGING_TOTAL_ENTRIES_PER_TABLE) 0 chunk;;
  m ← gets m_mem;
  kfree (directory_entry m chunk);;
  kfree chunk.

Definition paging_map (m : mem) (directory virt phys flags : Z) : Z * mem :=
  if negb (virt mod PAGING_PAGE_SIZE =? 0) || negb (phys mod PAGING_PAGE_SIZE =? 0) then
    (- EINVAGS, m)
  else paging_set m (directory_entry m directory) virt (Z.lor phys flags).

(** [res]: the value returned when the loop ends at [i = count]. *)
Fixpoint paging_map_range_loop (n : nat) (m : mem) (directory virt phys i count flags res : Z)
  : Z * mem :=
  match n with
  | O => (res, m)
  | S n' =>
      if i <? count then
        let '(res, m) := paging_map m directory virt phys flags in
        if res <? 0 then (res, m)
        else
          paging_map_range_loop n' m directory (u32 (virt + PAGING_PAGE_SIZE))
            (u32 (phys + PAGING_PAGE_SIZE)) (i + 1) count flags res
      else (res, m)
  end.

Definition paging_map_range (m : mem) (directory virt phys count flags : Z) : Z * mem :=
  paging_map_range_loop (Z.to_nat count) m directory virt phys 0 count flags 0.

Definition paging_map_to (m : mem) (directory virt phys phys_end flags : Z) : Z * mem :=
  if negb (virt mod PAGING_PAGE_SIZE =? 0) then (- EINVAGS, m)
  else if negb (phys mod PAGING_PAGE_SIZE =? 0) then (- EINVAGS, m)
  else if negb (phys_end mod PAGING_PAGE_SIZE =? 0) then (- EINVAGS, m)
  else if phys_end <? phys then (- EINVAGS, m)
  else
    let total_bytes := u32 (phys_end - phys) in
    let total_pages := total_bytes / PAGING_PAGE_SIZE in
    paging_map_range m directory virt phys total_pages flags.

Definition paging_align_lower_address (ptr : Z) : Z := ptr - ptr mod PAGING_PAGE_SIZE.

Definition paging_align_address (ptr : Z) : Z :=
  if negb (ptr mod PAGING_PAGE_SIZE =? 0)
  then u32 (ptr + PAGING_PAGE_SIZE - ptr mod PAGING_PAGE_SIZE)
  else ptr.

Definition paging_get (m : mem) (directory virt : Z) : Z :=
  let '(_, directory_index, table_index) := paging_get_indexes virt in
  let entry := ld32 m (directory_entry m directory + 4 * directory_index) in
  let table := Z.land entry FRAME_MASK in
  ld32 m (table + 4 * table_index).

Definition paging_get_physical_address (m : mem) (directory virt : Z) : Z :=
  let virt_addr_new := paging_align_lower_address virt in
  let offset := u32 (virt - virt_addr_new) in
  u32 (Z.land (paging_get m directory virt_addr_new) FRAME_MASK + offset).

(** ** The processor's view *)

(** Index of the directory entry and of the table entry of an address. *)
Definition dir_index (va : Z) : Z := va / 4194304.
Definition tab_index (va : Z) : Z := va mod 4194304 / 4096.

(** The table behind directory entry [i]. *)
Definition table_at (m : mem) (dir i : Z) : Z := ld32 m (dir + 4 * i) / 4096 * 4096.

(** The page table entry of the page of [va]. *)
Definition pte (m : mem) (dir va : Z) : Z := ld32 m (table_at m dir (dir_index va) + 4 * tab_index va).

(** Address translation with the directory at [dir]; [None] is a page fault. *)
Definition translate (m : mem) (dir va : Z) : option Z :=
  if Z.testbit (ld32 m (dir + 4 * dir_index va)) 0 && Z.testbit (pte m dir va) 0
  then Some (pte m dir va / 4096 * 4096 + va mod 4096)
  else None.

(** A directory whose 1024 tables are page-sized, present, apart from each other, from
    the directory and from the chunk word. *)
Record space_ok (m : mem) (chunk : Z) : Prop := {
  so_chunk : 0 < chunk <= 4294967292;
  so_dir : 0 < directory_entry m chunk /\ directory_entry m chunk mod 4096 = 0 /\
           directory_entry m chunk <= 4294963200;
  so_chunk_dir : chunk + 4 <= directory_entry m chunk \/ directory_entry m chunk + 4096 <= chunk;
  so_word : forall i, 0 <= i < 1024 -> 0 <= ld32 m (directory_entry m chunk + 4 * i) < 4294967296;
  so_present : forall i, 0 <= i < 1024 ->
    Z.testbit (ld32 m (directory_entry m chunk + 4 * i)) 0 = true;
  so_tab_dir : forall i, 0 <= i < 1024 ->
    table_at m (directory_entry m chunk) i <> directory_entry m chunk;
  so_tab_chunk : forall i, 0 <= i < 1024 ->
    chunk + 4 <= table_at m (directory_entry m chunk) i \/
    table_at m (directory_entry m chunk) i + 4096 <= chunk;
  so_tabs : forall i j, 0 <= i < 1024 -> 0 <= j < 1024 -> i <> j ->
    table_at m (directory_entry m chunk) i <> table_at m (directory_entry m chunk) j
}.

(** ** Bits *)

Lemma land_frame z : 0 <= z < 4294967296 -> Z.land z FRAME_MASK = z / 4096 * 4096.
Proof.
  intros Hz. change FRAME_MASK with (Z.ldiff (Z.ones 32) (Z.ones 12)).
  assert (E : Z.land z (Z.ldiff (Z.ones 32) (Z.ones 12)) = Z.ldiff z (Z.ones 12)).
  { apply Z.bits_inj'. intros n Hn. rewrite Z.land_spec, !Z.ldiff_spec.
    destruct (Z.lt_ge_cases n 32).
    - rewrite (Z.ones_spec_low 32) by lia. by rewrite andb_true_l.
    - assert (Z.testbit z n = false) as ->; [|done].
      rewrite <- (Z.mod_small z (2 ^ 32)) by done. apply Z.mod_pow2_bits_high. lia. }
  rewrite E, Z.ldiff_ones_r by lia. rewrite Z.shiftl_mul_pow2, Z.shiftr_div_pow2 by lia. done.
Qed.

Lemma lor_aligned a f : a mod 4096 = 0 -> 0 <= f < 4096 -> Z.lor a f = a + f.
Proof.
  intros Ha Hf. symmetry. apply Z.add_nocarry_lor. apply Z.bits_inj'. intros n Hn.
  rewrite Z.land_spec, Z.bits_0. destruct (Z.lt_ge_cases n 12).
  - assert (Z.testbit a n = false) as ->; [|done].
    rewrite (Z.div_mod a 4096), Ha, Z.add_0_r by lia. change 4096 with (2 ^ 12).
    rewrite Z.mul_comm. rewrite Z.mul_pow2_bits_low; [done|lia].
  - rewrite andb_comm. assert (Z.testbit f n = false) as ->; [|done].
    rewrite <- (Z.mod_small f (2 ^ 12)) by done. apply Z.mod_pow2_bits_high. lia.
Qed.

Lemma testbit_low a f : a mod 4096 = 0 -> Z.testbit (a + f) 0 = Z.testbit f 0.
Proof.
  intros Ha. rewrite !Z.bit0_odd, Z.odd_add.
  assert (Z.odd a = false) as ->; [|by destruct (Z.odd f)].
  rewrite (Z.div_mod a 4096), Ha, Z.add_0_r by lia. by rewrite Z.odd_mul.
Qed.

(** ** Indices *)

Lemma indexes_ok va :
  0 <= va < 4294967296 -> va mod 4096 = 0 ->
  0 <= dir_index va < 1024 /\ 0 <= tab_index va < 1024 /\
  va = 4096 * (1024 * dir_index va + tab_index va).
Proof. unfold dir_index, tab_index. intros. Z.to_euclidean_division_equations. lia. Qed.

Lemma indexes_inj va va' :
  0 <= va < 4294967296 -> 0 <= va' < 4294967296 -> va mod 4096 = 0 -> va' mod 4096 = 0 ->
  dir_index va = dir_index va' -> tab_index va = tab_index va' -> va = va'.
Proof.
  intros H H' Ha Ha' E E'. destruct (indexes_ok va H Ha) as (_ & _ & ->).
  destruct (indexes_ok va' H' Ha') as (_ & _ & ->). by rewrite E, E'.
Qed.

Lemma get_indexes_eq va :
  0 < va < 4294967296 -> va mod 4096 = 0 ->
  paging_get_indexes va = (KERNEL_ALL_OK, dir_index va, tab_index va).
Proof.
  intros Hva Ha. unfold paging_get_indexes, paging_is_aligned, PAGING_PAGE_SIZE.
  rewrite Ha. rewrite (proj2 (Z.eqb_neq va 0)) by lia. done.
Qed.

Lemma table_at_range m dir i :
  0 <= ld32 m (dir + 4 * i) < 4294967296 ->
  0 <= table_at m dir i <= 4294963200 /\ table_at m dir i mod 4096 = 0.
Proof. unfold table_at. intros. Z.to_euclidean_division_equations. lia. Qed.

(** ** One page *)

Section space.
Context (m : mem) (chunk : Z).
Hypothesis Hok : space_ok m chunk.
Abbreviation dir := (directory_entry m chunk).

(** Storing a table entry: it is found again, and no other entry, no directory entry
    and no chunk word is touched. *)
Section store.
Context (va val : Z).
Hypothesis Hva : 0 <= va < 4294967296.
Hypothesis Hal : va mod 4096 = 0.
Hypothesis Hval : 0 <= val < 4294967296.
Definition store_pte : mem := st32 m (table_at m dir (dir_index va) + 4 * tab_index va) val.

Lemma store_dir_word i : 0 <= i < 1024 -> ld32 store_pte (dir + 4 * i) = ld32 m (dir + 4 * i).
Proof.
  intros Hi. destruct (indexes_ok va Hva Hal) as (Hd & Ht & _).
  destruct (table_at_range _ _ _ (so_word _ _ Hok _ Hd)) as [Hr Ha].
  pose proof (so_tab_dir _ _ Hok _ Hd) as Hne. destruct (so_dir _ _ Hok) as (H0 & Hda & Hmax).
  unfold store_pte. apply ld32_st32_other; try lia.
  revert Ha Hda Hne Hr. generalize (table_at m dir (dir_index va)) as t. intros.
  Z.to_euclidean_division_equations. lia.
Qed.

Lemma store_chunk : directory_entry store_pte chunk = dir.
Proof.
  destruct (indexes_ok va Hva Hal) as (Hd & Ht & _).
  destruct (table_at_range _ _ _ (so_word _ _ Hok _ Hd)) as [Hr Ha].
  pose proof (so_tab_chunk _ _ Hok _ Hd). pose proof (so_chunk _ _ Hok).
  unfold store_pte, directory_entry at 1. apply ld32_st32_other; lia.
Qed.

Lemma store_table_at i : 0 <= i < 1024 -> table_at store_pte dir i = table_at m dir i.
Proof. intros Hi. unfold table_at. by rewrite store_dir_word. Qed.

Lemma store_pte_get va' :
  0 <= va' < 4294967296 -> va' mod 4096 = 0 ->
  pte store_pte dir va' = if va' =? va then val else pte m dir va'.
Proof.
  intros Hva' Hal'. destruct (indexes_ok va Hva Hal) as (Hd & Ht & Ev).
  destruct (indexes_ok va' Hva' Hal') as (Hd' & Ht' & Ev').
  unfold pte. rewrite store_table_at by done.
  destruct (table_at_range _ _ _ (so_word _ _ Hok _ Hd)) as [Hr Ha].
  destruct (table_at_range _ _ _ (so_word _ _ Hok _ Hd')) as [Hr' Ha'].
  destruct (Z.eqb_spec va' va) as [->|Hne].
  - unfold store_pte. apply ld32_st32_same; lia.
  - unfold store_pte. apply ld32_st32_other; try lia.
    destruct (Z.eq_dec (dir_index va) (dir_index va')) as [Ed|Nd].
    + rewrite <- Ed. lia.
    + pose proof (so_tabs _ _ Hok _ _ Hd Hd' Nd) as Nt.
      revert Ha Ha' Nt Hr Hr'. generalize (table_at m dir (dir_index va)) as t.
      generalize (table_at m dir (dir_index va')) as t'. intros.
      Z.to_euclidean_division_equations. lia.
Qed.

Lemma store_ok : space_ok store_pte chunk.
Proof.
  pose proof Hok as [H1 H2 H3 H4 H5 H6 H7 H8].
  constructor; rewrite ?store_chunk; try done; intros i Hi.
  - rewrite store_dir_word by done. by apply H4.
  - rewrite store_dir_word by done. by apply H5.
  - rewrite store_table_at by done. by apply H6.
  - rewrite store_table_at by done. by apply H7.
  - intros Hj Hk Hne. rewrite !store_table_at by done. by apply H8.
Qed.
End store.

Lemma paging_set_eq va val :
  0 < va < 4294967296 -> va mod 4096 = 0 ->
  paging_set m dir va val = (KERNEL_ALL_OK, store_pte va val).
Proof.
  intros Hva Hal. destruct (indexes_ok va ltac:(lia) Hal) as (Hd & Ht & _).
  unfold paging_set. destruct (so_dir _ _ Hok) as (H0 & _).
  rewrite (proj2 (Z.eqb_neq dir 0)) by lia. unfold paging_is_aligned, PAGING_PAGE_SIZE.
  rewrite Hal, get_indexes_eq by done. simpl.
  rewrite land_frame by (by apply (so_word _ _ Hok)). done.
Qed.

Lemma paging_get_eq va :
  0 <= va < 4294967296 -> va mod 4096 = 0 -> paging_get m chunk va = pte m dir va.
Proof.
  intros Hva Hal. destruct (indexes_ok va Hva Hal) as (Hd & Ht & _). unfold paging_get.
  destruct (Z.eq_dec va 0) as [->|Hne].
  - simpl. rewrite land_frame by (apply (so_word _ _ Hok); lia). done.
  - rewrite get_indexes_eq by (done || lia). rewrite land_frame by (by apply (so_word _ _ Hok)). done.
Qed.
End space.

(** ** Address translation *)

Lemma pte_align m dir va : pte m dir va = pte m dir (va - va mod 4096).
Proof.
  unfold pte, dir_index, tab_index.
  assert (E1 : (va - va mod 4096) / 4194304 = va / 4194304)
    by (Z.to_euclidean_division_equations; lia).
  assert (E2 : (va - va mod 4096) mod 4194304 / 4096 = va mod 4194304 / 4096)
    by (Z.to_euclidean_division_equations; lia).
  by rewrite E1, E2.
Qed.

Lemma page_base va :
  0 <= va < 4294967296 -> 0 <= va - va mod 4096 < 4294967296 /\ (va - va mod 4096) mod 4096 = 0.
Proof. intros. Z.to_euclidean_division_equations. lia. Qed.

(** The walk in a well-formed space depends on the page table entry only. *)
Lemma translate_pte m chunk va :
  space_ok m chunk -> 0 <= va < 4294967296 ->
  translate m (directory_entry m chunk) va =
  if Z.testbit (pte m (directory_entry m chunk) (va - va mod 4096)) 0
  then Some (pte m (directory_entry m chunk) (va - va mod 4096) / 4096 * 4096 + va mod 4096)
  else None.
Proof.
  intros Hok Hva. unfold translate. rewrite <- pte_align.
  rewrite (so_present _ _ Hok); [done|]. unfold dir_index. Z.to_euclidean_division_equations. lia.
Qed.

(** [paging_get_physical_address] is the processor's translation. *)
Lemma physical_address_eq m chunk va pa :
  space_ok m chunk -> mem_ok m -> 0 <= va < 4294967296 ->
  translate m (directory_entry m chunk) va = Some pa -> paging_get_physical_address m chunk va = pa.
Proof.
  intros Hok Hm Hva Htr. rewrite translate_pte in Htr by done.
  destruct (page_base va Hva) as [Hb Ha].
  unfold paging_get_physical_address, paging_align_lower_address, PAGING_PAGE_SIZE.
  rewrite paging_get_eq by done. pose proof (ld32_range m
    (table_at m (directory_entry m chunk) (dir_index (va - va mod 4096)) + 4 * tab_index (va - va mod 4096)) Hm) as Hr.
  fold (pte m (directory_entry m chunk) (va - va mod 4096)) in Hr.
  rewrite land_frame by done. destruct (Z.testbit _ 0); [|done]. injection Htr as <-.
  replace (va - (va - va mod 4096)) with (va mod 4096) by lia. revert Hr.
  generalize (pte m (directory_entry m chunk) (va - va mod 4096)) as p. intros p Hr.
  pose proof (Z.mod_pos_bound va 4096 ltac:(lia)).
  rewrite (u32_small (va mod 4096)) by lia. apply u32_small.
  Z.to_euclidean_division_equations. lia.
Qed.

(** ** Ranges of pages *)

Definition range_ok (virt phys k : Z) : Prop :=
  k = 0 \/ (0 < virt /\ virt mod 4096 = 0 /\ 0 <= phys /\ phys mod 4096 = 0 /\
            virt + 4096 * k <= 4294967296 /\ phys + 4096 * k <= 4294967296).

(** Only the tables of the space are written. *)
Definition tables_only (m m' : mem) (dir : Z) : Prop :=
  forall x, (forall i, 0 <= i < 1024 -> ~ table_at m dir i <= x < table_at m dir i + 4096) -> m' x = m x.

(** Result of mapping [k] pages. *)
Record mapped (m m' : mem) (chunk virt phys k flags : Z) : Prop := {
  mp_ok : space_ok m' chunk;
  mp_dir : directory_entry m' chunk = directory_entry m chunk;
  mp_tab : forall i, 0 <= i < 1024 ->
    table_at m' (directory_entry m chunk) i = table_at m (directory_entry m chunk) i;
  mp_pte : forall va, 0 <= va < 4294967296 -> va mod 4096 = 0 ->
    pte m' (directory_entry m chunk) va =
    if (virt <=? va) && (va <? virt + 4096 * k) then phys + (va - virt) + flags
    else pte m (directory_entry m chunk) va;
  mp_frame : tables_only m m' (directory_entry m chunk)
}.

Lemma mapped_nil m chunk virt phys flags : space_ok m chunk -> mapped m m chunk virt phys 0 flags.
Proof.
  intros Hok. constructor; try done. intros va _ _. by repeat (zcase; simpl; try lia).
Qed.

Lemma paging_map_eq m chunk virt phys flags :
  space_ok m chunk -> 0 < virt < 4294967296 -> virt mod 4096 = 0 -> phys mod 4096 = 0 ->
  0 <= flags < 4096 ->
  paging_map m chunk virt phys flags = (KERNEL_ALL_OK, store_pte m chunk virt (phys + flags)).
Proof.
  intros Hok Hv Hva Hpa Hf. unfold paging_map, PAGING_PAGE_SIZE. rewrite Hva, Hpa. simpl.
  rewrite lor_aligned by done. by apply paging_set_eq.
Qed.

Lemma store_frame m chunk va val :
  space_ok m chunk -> 0 <= va < 4294967296 -> va mod 4096 = 0 ->
  tables_only m (store_pte m chunk va val) (directory_entry m chunk).
Proof.
  intros Hok Hva Hal x Hx. destruct (indexes_ok va Hva Hal) as (Hd & Ht & _).
  destruct (table_at_range _ _ _ (so_word _ _ Hok _ Hd)).
  unfold store_pte. apply st32_outside; [lia|]. specialize (Hx _ Hd). lia.
Qed.

Lemma paging_map_range_loop_spec n m chunk virt phys i count flags :
  space_ok m chunk -> 0 <= flags < 4096 -> 0 <= count - i <= Z.of_nat n ->
  range_ok virt phys (count - i) ->
  exists m', paging_map_range_loop n m chunk virt phys i count flags 0 = (0, m') /\
    mapped m m' chunk virt phys (count - i) flags.
Proof.
  revert m virt phys i. induction n as [|n IH]; intros m virt phys i Hok Hf Hn Hr; simpl.
  { exists m. replace (count - i) with 0 by lia. split; [done|by apply mapped_nil]. }
  destruct (Z.ltb_spec i count).
  2: { exists m. replace (count - i) with 0 by lia. split; [done|by apply mapped_nil]. }
  destruct Hr as [|(Hv & Hva & Hp & Hpa & Hvb & Hpb)]; [lia|].
  rewrite paging_map_eq by (done || lia). simpl.
  set (m1 := store_pte m chunk virt (phys + flags)).
  assert (Hok1 : space_ok m1 chunk) by (apply store_ok; done || lia).
  assert (Hd1 : directory_entry m1 chunk = directory_entry m chunk) by (apply store_chunk; done || lia).
  assert (Ht1 : forall j, 0 <= j < 1024 ->
    table_at m1 (directory_entry m chunk) j = table_at m (directory_entry m chunk) j).
  { intros j Hj. apply store_table_at; done || lia. }
  destruct (IH m1 (u32 (virt + 4096)) (u32 (phys + 4096)) (i + 1) Hok1 Hf ltac:(lia)) as (m' & E & Hm').
  { destruct (Z.eq_dec (count - (i + 1)) 0); [by left|right].
    rewrite !u32_small by lia. split_and!; try lia; Z.to_euclidean_division_equations; lia. }
  exists m'. split; [exact E|]. destruct Hm' as [M1 M2 M3 M4 M5]. rewrite Hd1 in *.
  constructor; [done|done| | |].
  - intros j Hj. by rewrite M3, Ht1.
  - intros va Hva1 Hva2. rewrite M4 by done. unfold m1. rewrite store_pte_get by (done || lia).
    destruct (Z.eq_dec (count - i) 1) as [E1|N1].
    + replace (count - (i + 1)) with 0 by lia. rewrite E1, Z.mul_0_r, Z.add_0_r, Z.mul_1_r.
      assert ((u32 (virt + 4096) <=? va) && (va <? u32 (virt + 4096)) = false) as -> by lia.
      destruct (Z.eqb_spec va virt) as [->|Hne].
      * rewrite (proj2 (Z.leb_le virt virt)), (proj2 (Z.ltb_lt virt (virt + 4096))) by lia. simpl. lia.
      * assert ((virt <=? va) && (va <? virt + 4096) = false) as ->; [|done].
        apply andb_false_iff. destruct (Z.leb_spec virt va); [right|by left].
        apply Z.ltb_ge. Z.to_euclidean_division_equations. lia.
    + rewrite !u32_small by lia. destruct (Z.eqb_spec va virt) as [->|Hne].
      * repeat (zcase; simpl; try lia).
      * assert (va < virt \/ virt + 4096 <= va) by (Z.to_euclidean_division_equations; lia).
        repeat (zcase; simpl; try lia).
  - intros x Hx. rewrite M5.
    + unfold m1. apply store_frame; done || lia.
    + intros j Hj. rewrite Ht1 by done. by apply Hx.
Qed.

Lemma paging_map_to_mapped m chunk virt phys phys_end flags :
  space_ok m chunk -> 0 <= flags < 4096 -> 0 <= virt < 4294967296 ->
  0 <= phys <= phys_end -> phys_end < 4294967296 ->
  virt mod 4096 = 0 -> phys mod 4096 = 0 -> phys_end mod 4096 = 0 ->
  phys = phys_end \/ 0 < virt -> virt + (phys_end - phys) <= 4294967296 ->
  exists m', paging_map_to m chunk virt phys phys_end flags = (0, m') /\
    mapped m m' chunk virt phys ((phys_end - phys) / 4096) flags.
Proof.
  intros Hok Hf Hv Hp Hpe Hva Hpa Hpea Hz Hb. unfold paging_map_to, PAGING_PAGE_SIZE.
  rewrite Hva, Hpa, Hpea, (proj2 (Z.ltb_ge phys_end phys)), u32_small by lia. simpl.
  unfold paging_map_range.
  assert (Hk : 0 <= (phys_end - phys) / 4096 /\ 4096 * ((phys_end - phys) / 4096) = phys_end - phys).
  { Z.to_euclidean_division_equations. lia. }
  destruct (paging_map_range_loop_spec (Z.to_nat ((phys_end - phys) / 4096)) m chunk virt phys 0
    ((phys_end - phys) / 4096) flags Hok Hf) as (m' & E & Hm'); try lia.
  { rewrite Z.sub_0_r. destruct (Z.eq_dec phys phys_end) as [->|]; [left; by rewrite Z.sub_diag|].
    right. split_and!; try done; lia. }
  rewrite Z.sub_0_r in Hm'. by exists m'.
Qed.

(** Virtual address 0 cannot be mapped. *)
Lemma paging_map_null m chunk phys flags : space_ok m chunk -> paging_map m chunk 0 phys flags = (- EINVAGS, m).
Proof.
  intros Hok. unfold paging_map, paging_set. destruct (so_dir _ _ Hok) as (H0 & _).
  rewrite (proj2 (Z.eqb_neq (directory_entry m chunk) 0)) by lia. by destruct (negb _ || negb _).
Qed.

(** A range that goes beyond 4 GiB, of which [k] pages fit: those pages are mapped, then the
    virtual address is 0. *)
Lemma paging_map_range_loop_wrap n m chunk virt phys i count flags k :
  space_ok m chunk -> 0 <= flags < 4096 -> 0 < k < count - i -> count - i <= Z.of_nat n ->
  range_ok virt phys k -> virt + 4096 * k = 4294967296 ->
  exists m', paging_map_range_loop n m chunk virt phys i count flags 0 = (- EINVAGS, m') /\
    paging_map_range_loop n m chunk virt phys i (i + k) flags 0 = (0, m').
Proof.
  revert m virt phys i k. induction n as [|n IH]; intros m virt phys i k Hok Hf Hk Hn Hr He; [lia|]. cbn [paging_map_range_loop].
  destruct Hr as [|(Hv & Hva & Hp & Hpa & Hvb & Hpb)]; [lia|].
  rewrite !(proj2 (Z.ltb_lt i _)), paging_map_eq by (done || lia). change (KERNEL_ALL_OK <? 0) with false. cbv iota.
  set (m1 := store_pte m chunk virt (phys + flags)).
  assert (Hok1 : space_ok m1 chunk) by (apply store_ok; done || lia).
  unfold PAGING_PAGE_SIZE. change KERNEL_ALL_OK with 0. destruct (Z.eq_dec k 1) as [-> |Hk1].
  - exists m1. replace (u32 (virt + 4096)) with 0 by (replace (virt + 4096) with 4294967296 by lia; reflexivity).
    destruct n as [|n]; [lia|]. cbn [paging_map_range_loop]. rewrite (proj2 (Z.ltb_lt (i + 1) count)), Z.ltb_irrefl by lia.
    by rewrite paging_map_null.
  - replace (i + k) with (i + 1 + (k - 1)) by lia. apply (IH m1 _ _ (i + 1) (k - 1)); [exact Hok1|exact Hf|lia|lia| |rewrite u32_small by lia; lia].
    right. rewrite !u32_small by lia. split_and!; try lia; Z.to_euclidean_division_equations; lia.
Qed.

Lemma paging_map_to_wraps m chunk virt phys phys_end flags :
  space_ok m chunk -> 0 <= flags < 4096 -> 0 < virt < 4294967296 ->
  0 <= phys <= phys_end -> phys_end < 4294967296 ->
  virt mod 4096 = 0 -> phys mod 4096 = 0 -> phys_end mod 4096 = 0 -> 4294967296 < virt + (phys_end - phys) ->
  exists m', paging_map_to m chunk virt phys phys_end flags = (- EINVAGS, m') /\
    mapped m m' chunk virt phys ((4294967296 - virt) / 4096) flags.
Proof.
  intros Hok Hf Hv Hp Hpe Hva Hpa Hpea Hb. unfold paging_map_to, PAGING_PAGE_SIZE.
  rewrite Hva, Hpa, Hpea, (proj2 (Z.ltb_ge phys_end phys)), u32_small by lia. simpl. unfold paging_map_range.
  set (k := (4294967296 - virt) / 4096). set (count := (phys_end - phys) / 4096).
  assert (Hk : 0 < k < count /\ virt + 4096 * k = 4294967296 /\ 4096 * count = phys_end - phys)
    by (unfold k, count; Z.to_euclidean_division_equations; lia). destruct Hk as (Hk & He & Hc).
  assert (Hr : range_ok virt phys k) by (right; split_and!; lia).
  destruct (paging_map_range_loop_wrap (Z.to_nat count) m chunk virt phys 0 count flags k Hok Hf) as (m' & E & E'); try lia; [exact Hr|].
  destruct (paging_map_range_loop_spec (Z.to_nat count) m chunk virt phys 0 (0 + k) flags Hok Hf) as (m2 & E2 & Hm); [lia| |].
  - by replace (0 + k - 0) with k by lia.
  - rewrite E' in E2. injection E2 as <-. replace (0 + k - 0) with k in Hm by lia. by exists m'.
Qed.

Lemma paging_map_to_zero m chunk phys phys_end flags :
  space_ok m chunk -> 0 <= phys < phys_end -> phys_end < 4294967296 ->
  phys mod 4096 = 0 -> phys_end mod 4096 = 0 ->
  paging_map_to m chunk 0 phys phys_end flags = (- EINVAGS, m).
Proof.
  intros Hok Hp Hpe Hpa Hpea. unfold paging_map_to, PAGING_PAGE_SIZE.
  rewrite Hpa, Hpea, (proj2 (Z.ltb_ge phys_end phys)), u32_small by lia.
  unfold paging_map_range.
  destruct (Z.to_nat ((phys_end - phys) / 4096)) as [|n] eqn:En.
  { exfalso. revert En. Z.to_euclidean_division_equations. lia. }
  simpl. rewrite (proj2 (Z.ltb_lt 0 ((phys_end - phys) / 4096)))
    by (Z.to_euclidean_division_equations; lia).
  unfold paging_map, PAGING_PAGE_SIZE. rewrite Hpa. simpl. unfold paging_set.
  destruct (so_dir _ _ Hok) as (H0 & _).
  rewrite (proj2 (Z.eqb_neq (directory_entry m chunk) 0)) by lia. reflexivity.
Qed.

(** The address space after a mapping, as the processor sees it. *)
Lemma mapped_translate m m' chunk virt phys k flags va :
  space_ok m chunk -> mapped m m' chunk virt phys k flags -> 0 <= flags < 4096 ->
  0 <= va < 4294967296 -> virt mod 4096 = 0 -> phys mod 4096 = 0 ->
  translate m' (directory_entry m chunk) va =
  if (virt <=? va) && (va <? virt + 4096 * k)
  then (if Z.testbit flags 0 then Some (phys + (va - virt)) else None)
  else translate m (directory_entry m chunk) va.
Proof.
  intros Hok [M1 M2 M3 M4 M5] Hf Hva Hv Hp. destruct (page_base va Hva) as [Hb Ha].
  rewrite <- M2 at 1. rewrite !translate_pte by done. rewrite M2, M4 by done.
  assert (Erange : (virt <=? va - va mod 4096) && (va - va mod 4096 <? virt + 4096 * k) =
                   (virt <=? va) && (va <? virt + 4096 * k)).
  { assert (Hm : 0 <= va mod 4096 < 4096) by (apply Z.mod_pos_bound; lia).
    assert (E : va = 4096 * (va / 4096) + va mod 4096) by (apply Z.div_mod; lia).
    assert (Ev : virt = 4096 * (virt / 4096)) by (rewrite (Z.div_mod virt 4096) at 1; lia).
    revert Hm E Ev. generalize (va mod 4096) (va / 4096) (virt / 4096). intros r q w Hm -> ->.
    repeat (zcase; simpl; try lia). }
  rewrite Erange. destruct ((virt <=? va) && (va <? virt + 4096 * k)); [|done].
  assert (Hal : (phys + (va - va mod 4096 - virt)) mod 4096 = 0)
    by (Z.to_euclidean_division_equations; lia).
  rewrite testbit_low by done. destruct (Z.testbit flags 0); [|done]. f_equal.
  Z.to_euclidean_division_equations. lia.
Qed.

(** ** A new address space *)

Lemma new_table_loop_spec n m entry offset flag j :
  0 <= entry -> entry + 4096 <= 4294967296 -> 0 <= j <= 1024 -> 1024 - j <= Z.of_nat n ->
  0 <= flag < 256 -> 0 <= offset -> offset mod 4096 = 0 -> offset + 4194304 <= 4294967296 ->
  (forall k, 0 <= k < 1024 ->
     ld32 (new_table_loop n m entry offset flag j) (entry + 4 * k) =
     if j <=? k then offset + k * 4096 + flag else ld32 m (entry + 4 * k)) /\
  same_outside m (new_table_loop n m entry offset flag j) entry 4096 /\
  (mem_ok m -> mem_ok (new_table_loop n m entry offset flag j)).
Proof.
  revert m j. induction n as [|n IH]; intros m j He Heb Hj Hn Hf Ho Hoa Hob; simpl.
  { split; [|done]. intros k Hk. zcase; [lia|done]. }
  unfold PAGING_TOTAL_ENTRIES_PER_TABLE, PAGING_PAGE_SIZE. destruct (Z.ltb_spec j 1024).
  2: { split; [|done]. intros k Hk. zcase; [lia|done]. }
  rewrite u32_small by lia.
  rewrite lor_aligned by (try lia; Z.to_euclidean_division_equations; lia).
  destruct (IH (st32 m (entry + 4 * j) (offset + j * 4096 + flag)) (j + 1)) as (Hg & Hfr & Hm);
    try lia; try done.
  unfold PAGING_TOTAL_ENTRIES_PER_TABLE, PAGING_PAGE_SIZE in *. split_and!.
  - intros k Hk. rewrite Hg by done. destruct (Z.eq_dec k j) as [->|Hne].
    + rewrite (proj2 (Z.leb_gt (j + 1) j)), (proj2 (Z.leb_le j j)) by lia.
      apply ld32_st32_same; lia.
    + destruct (Z.leb_spec (j + 1) k), (Z.leb_spec j k); try lia; try done.
      apply ld32_st32_other; lia.
  - intros x Hx. rewrite Hfr by lia. apply st32_outside; lia.
  - intros Hmo. apply Hm. by apply st32_mem_ok.
Qed.

(** The directory after [i] iterations: [ts] are the tables made so far. *)
Record building (s0 s : machine) (dir flag i : Z) (ts : list Z) : Prop := {
  bu_ok : kheap_ok (m_heap s);
  bu_len : zlen ts = i;
  bu_nodup : NoDup (dir :: ts);
  bu_live : forall b n, live (m_heap s) b n <->
    (n = 1 /\ b ∈ dir :: ts) \/ live (m_heap s0) b n;
  bu_fresh : forall b n, b ∈ dir :: ts -> live (m_heap s0) b n -> False;
  bu_dir : forall j t, zget ts j = Some t -> ld32 (m_mem s) (dir + 4 * j) = t + Z.lor flag 2;
  bu_tab : forall j t k, zget ts j = Some t -> 0 <= k < 1024 ->
    ld32 (m_mem s) (t + 4 * k) = (j * 1024 + k) * 4096 + flag;
  bu_frame : forall x, (forall b, b ∈ dir :: ts -> ~ b <= x < b + 4096) -> m_mem s x = m_mem s0 x;
  bu_free : free_blocks (m_heap s) = free_blocks (m_heap s0) - 1 - i;
  bu_mem : mem_ok (m_mem s0) -> mem_ok (m_mem s)
}.

Lemma ld32_same_outside m m' a n b :
  same_outside m m' a n -> 0 <= b <= 4294967292 -> b + 4 <= a \/ a + n <= b -> ld32 m' b = ld32 m b.
Proof.
  intros Hs Hb Hab. apply ld32_ext. intros i Hi. unfold ld8. rewrite !u32_small by lia.
  apply Hs. lia.
Qed.

Lemma zget_elem {A} (l : list A) i v : zget l i = Some v -> v ∈ l.
Proof. unfold zget. zcase; [|done]. apply list_elem_of_lookup_2. Qed.

Lemma zget_snoc {A} (l : list A) i v w :
  zget (l ++ [v]) i = Some w -> zget l i = Some w \/ (i = zlen l /\ w = v).
Proof.
  rewrite zget_app. zcase; [by left|]. intros Hw. pose proof (zget_Some_range _ _ _ Hw) as Hr.
  change (zlen [v]) with 1 in Hr. assert (i - zlen l = 0) as E by lia. rewrite E in Hw.
  injection Hw as <-. right. split; [lia|done].
Qed.

Lemma lor_flag_2 flag :
  0 <= flag < 256 -> 0 <= Z.lor flag 2 < 256 /\ Z.testbit (Z.lor flag 2) 0 = Z.testbit flag 0.
Proof.
  intros Hf. pose proof (zrange_forall
    (fun f => (0 <=? Z.lor f 2) && (Z.lor f 2 <? 256)) 256 ltac:(vm_compute; reflexivity) flag Hf) as H.
  simpl in H. rewrite Z.lor_spec, orb_false_r. split; [lia|done].
Qed.

Lemma building_range s0 s dir flag i ts b :
  building s0 s dir flag i ts -> b ∈ dir :: ts ->
  0 < b /\ b mod 4096 = 0 /\ b + 4096 <= 2147483648.
Proof.
  intros [B1 B2 B3 B4 B5 B6 B7 B8 B9 B10] Hb.
  destruct (kheap_live_range (m_heap s) b 1 B1) as (H1 & H2 & H3 & H4).
  { apply B4. by left. }
  unfold KERNEL_HEAP_BLOCK_SIZE in *. lia.
Qed.

Lemma aligned_apart t dir k i :
  t mod 4096 = 0 -> dir mod 4096 = 0 -> t <> dir -> 0 <= k < 1024 -> 0 <= i < 1024 ->
  t + 4 * k + 4 <= dir + 4 * i \/ dir + 4 * i + 4 <= t + 4 * k.
Proof. intros. Z.to_euclidean_division_equations. lia. Qed.

(** One iteration of the outer loop. *)
Lemma building_step s0 s dir flag i ts :
  building s0 s dir flag i ts -> 0 <= flag < 256 -> 0 <= i < 1024 -> 0 < free_blocks (m_heap s) ->
  exists a s1, kzalloc 4096 s = Done a s1 /\
    building s0
      (set_mem (st32 (new_table_loop 1024 (m_mem s1) a (i * 4194304) flag 0) (dir + 4 * i)
                 (Z.lor (Z.lor a flag) 2)) s1) dir flag (i + 1) (ts ++ [a]).
Proof.
  intros B Hf Hi Hfree. pose proof (fun b => building_range _ _ _ _ _ _ b B) as Hrange.
  destruct B as [B1 B2 B3 B4 B5 B6 B7 B8 B9 B10].
  destruct (kzalloc_page s 4096 B1 Hfree ltac:(lia) ltac:(reflexivity))
    as (a & s1 & E & Hok & Ha & Hfr & Hown & Hap & Hso & Hmo).
  exists a, s1. split; [exact E|].
  assert (Hla : live (m_heap s1) a 1) by (apply Hown; by left).
  destruct (kheap_live_range _ _ _ Hok Hla) as (_ & _ & Haa & Hab).
  unfold KERNEL_HEAP_BLOCK_SIZE in Haa, Hab.
  assert (Hbap : forall b, b ∈ dir :: ts -> a + 4096 <= b \/ b + 4096 <= a).
  { intros b Hb. pose proof (Hap b 1 (proj2 (B4 b 1) (or_introl (conj eq_refl Hb)))) as Hx.
    unfold apart, KERNEL_HEAP_BLOCK_SIZE in Hx. lia. }
  assert (Hdin : dir ∈ dir :: ts) by left.
  pose proof (Hrange _ Hdin) as (Hd0 & Hda & Hdm). pose proof (Hbap _ Hdin) as Hdap.
  destruct (lor_flag_2 flag Hf) as [Hlf _].
  destruct (new_table_loop_spec 1024 (m_mem s1) a (i * 4194304) flag 0) as (Hg & Hfrm & Hmem);
    try lia; [by rewrite (Z.mul_comm i 4194304), <- (Z.mul_assoc 4096 1024), Z.mul_comm, Z.mod_mul|].
  set (m2 := new_table_loop 1024 (m_mem s1) a (i * 4194304) flag 0) in *.
  rewrite <- Z.lor_assoc, lor_aligned by lia.
  assert (Hpres : forall x, 0 <= x <= 4294967292 -> x + 4 <= a \/ a + 4096 <= x ->
                    x + 4 <= dir + 4 * i \/ dir + 4 * i + 4 <= x ->
                    ld32 (st32 m2 (dir + 4 * i) (a + Z.lor flag 2)) x = ld32 (m_mem s) x).
  { intros x Hx Hx1 Hx2. rewrite ld32_st32_other by lia.
    rewrite (ld32_same_outside _ _ a 4096 x Hfrm) by lia. by apply (ld32_same_outside _ _ a 4096). }
  constructor; simpl; try done.
  - rewrite zlen_app. change (zlen [a]) with 1. lia.
  - rewrite app_comm_cons. apply NoDup_app. split; [done|]. split; [|apply NoDup_singleton].
    intros x Hx ->%list_elem_of_singleton. pose proof (Hbap _ Hx). lia.
  - intros b n. rewrite (Hown b n), (B4 b n). rewrite app_comm_cons, elem_of_app, list_elem_of_singleton.
    clear. tauto.
  - intros b n. rewrite app_comm_cons, elem_of_app, list_elem_of_singleton. intros [Hb| ->] Hl; [by eapply B5|].
    assert (Hl' : live (m_heap s) a n) by (apply B4; by right).
    pose proof (Hap _ _ Hl') as Hx. destruct (kheap_live_range _ _ _ B1 Hl').
    unfold apart, KERNEL_HEAP_BLOCK_SIZE in Hx. lia.
  - intros j t [Hj|[-> ->]]%zget_snoc.
    + pose proof (zget_Some_range _ _ _ Hj). rewrite Hpres by lia. by apply B6.
    + rewrite B2. apply ld32_st32_same; lia.
  - intros j t k [Hj|[-> ->]]%zget_snoc Hk.
    + assert (Ht : t ∈ dir :: ts) by (right; by eapply zget_elem).
      pose proof (Hrange _ Ht). pose proof (Hbap _ Ht).
      assert (t <> dir). { intros ->. inversion B3; subst. by apply zget_elem in Hj. }
      rewrite Hpres; [by apply B7|lia|lia|]. by apply (aligned_apart t dir); try lia.
    + rewrite ld32_st32_other by lia. rewrite Hg by done. zcase; [|lia]. lia.
  - intros x Hx. pose proof (Hx dir ltac:(left)) as Hx1.
    pose proof (Hx a ltac:(right; apply elem_of_app; right; by left)) as Hx2.
    rewrite st32_outside by lia. rewrite Hfrm by lia. rewrite Hso by lia. apply B8.
    intros b Hb. apply Hx. rewrite app_comm_cons. apply elem_of_app. by left.
  - rewrite Hfr, B9. lia.
  - intros H0. apply st32_mem_ok, Hmem, Hmo, B10, H0.
Qed.

Lemma new_directory_loop_spec n s0 s dir flag i ts :
  building s0 s dir flag i ts -> 0 <= flag < 256 -> 0 <= i -> i + Z.of_nat n = 1024 ->
  Z.of_nat n <= free_blocks (m_heap s) ->
  exists s' ts', new_directory_loop n i (u32 (i * 4194304)) dir flag s = Done tt s' /\
    building s0 s' dir flag 1024 ts'.
Proof.
  revert s i ts. induction n as [|n IH]; intros s i ts B Hf Hi Hn Hfree.
  { exists s, ts. split; [done|]. by assert (i = 1024) as <- by lia. }
  cbn [new_directory_loop]. rewrite (proj2 (Z.ltb_lt i PAGING_TOTAL_ENTRIES_PER_TABLE))
    by (unfold PAGING_TOTAL_ENTRIES_PER_TABLE; lia).
  change (4 * PAGING_TOTAL_ENTRIES_PER_TABLE) with 4096.
  destruct (building_step _ _ _ _ _ _ B Hf ltac:(lia) ltac:(lia)) as (a & s1 & E & B').
  rewrite (bind_Done _ _ _ _ _ E). unfold modify at 1. unfold mbind at 1, M_bind at 1.
  unfold modify at 1. unfold mbind at 1, M_bind at 1.
  unfold PAGING_IS_WRITEABLE. change (Z.to_nat PAGING_TOTAL_ENTRIES_PER_TABLE) with 1024%nat.
  rewrite (u32_small (i * 4194304)) by lia.
  change (PAGING_TOTAL_ENTRIES_PER_TABLE * PAGING_PAGE_SIZE) with 4194304.
  replace (i * 4194304 + 4194304) with ((i + 1) * 4194304) by lia.
  apply (IH _ _ _ B' Hf); try lia.
  pose proof (bu_free _ _ _ _ _ _ B). pose proof (bu_free _ _ _ _ _ _ B') as Hb.
  unfold set_mem in *. cbn [m_heap] in *. lia.
Qed.

(** The blocks of a space: its chunk word, its directory and its 1024 tables. *)
Definition space_blocks (m : mem) (chunk : Z) : list Z :=
  chunk :: directory_entry m chunk ::
  map (table_at m (directory_entry m chunk)) (seqZ 0 1024).

Lemma building_start s s1 dir flag :
  kzalloc 4096 s = Done dir s1 -> kheap_ok (m_heap s) -> 0 < free_blocks (m_heap s) ->
  building s s1 dir flag 0 [].
Proof.
  intros E Hok Hfree.
  destruct (kzalloc_page s 4096 Hok Hfree ltac:(lia) ltac:(reflexivity))
    as (a & s1' & E' & Hok1 & Ha & Hfr & Hown & Hap & Hso & Hmo).
  rewrite E in E'. injection E' as <- <-.
  assert (Hl : live (m_heap s1) dir 1) by (apply Hown; by left).
  constructor; try done.
  - apply NoDup_singleton.
  - intros b n. rewrite (Hown b n), list_elem_of_singleton. clear. tauto.
  - intros b n ->%list_elem_of_singleton Hb. pose proof (Hap _ _ Hb) as Hx.
    destruct (kheap_live_range _ _ _ Hok Hb). unfold apart, KERNEL_HEAP_BLOCK_SIZE in Hx. lia.
  - intros j t Hj. by apply zget_elem, elem_of_nil in Hj.
  - intros j t k Hj. by apply zget_elem, elem_of_nil in Hj.
  - intros x Hx. apply Hso. pose proof (Hx dir (list_elem_of_here _ _)). lia.
  - rewrite Hfr. lia.
Qed.

(** A finished directory, once the chunk word points to it. *)
Lemma building_space s0 s dir flag ts m chunk :
  building s0 s dir flag 1024 ts -> 0 <= flag < 256 -> Z.testbit flag 0 = true ->
  0 < chunk <= 4294967292 -> directory_entry m chunk = dir ->
  (forall b, b ∈ dir :: ts -> chunk + 4096 <= b \/ b + 4096 <= chunk) ->
  (forall b k, b ∈ dir :: ts -> 0 <= k < 1024 -> ld32 m (b + 4 * k) = ld32 (m_mem s) (b + 4 * k)) ->
  space_ok m chunk /\ space_blocks m chunk = chunk :: dir :: ts /\
  forall i j, 0 <= i < 1024 -> 0 <= j < 1024 ->
    ld32 m (table_at m dir i + 4 * j) = (i * 1024 + j) * 4096 + flag.
Proof.
  intros B Hf Hp Hc Hd Hapart Hsame. destruct (lor_flag_2 flag Hf) as [Hlf Hbit].
  pose proof (fun b => building_range _ _ _ _ _ _ b B) as Hrange.
  assert (Hdin : dir ∈ dir :: ts) by left.
  assert (Hts : forall i, 0 <= i < 1024 -> exists t, zget ts i = Some t /\ t ∈ dir :: ts /\
            ld32 m (dir + 4 * i) = t + Z.lor flag 2 /\ table_at m dir i = t).
  { intros i Hi. destruct (zget_is_Some ts i) as [t Ht]; [by rewrite (bu_len _ _ _ _ _ _ B)|].
    assert (Hin : t ∈ dir :: ts) by (right; by eapply zget_elem).
    assert (El : ld32 m (dir + 4 * i) = t + Z.lor flag 2).
    { rewrite Hsame by done. by apply (bu_dir _ _ _ _ _ _ B). }
    exists t. split_and!; try done. unfold table_at. rewrite El.
    pose proof (Hrange _ Hin). Z.to_euclidean_division_equations. lia. }
  assert (Hinj : forall i j, 0 <= i < 1024 -> 0 <= j < 1024 -> i <> j ->
            table_at m dir i <> table_at m dir j).
  { intros i j Hi Hj Hne. destruct (Hts i Hi) as (t & Ht & _ & _ & ->).
    destruct (Hts j Hj) as (t' & Ht' & _ & _ & ->). intros <-. apply Hne.
    pose proof (bu_nodup _ _ _ _ _ _ B) as Hnd. apply NoDup_cons in Hnd as [_ Hnd].
    unfold zget in Ht, Ht'. destruct (Z.leb_spec 0 i), (Z.leb_spec 0 j); try lia.
    pose proof (NoDup_lookup ts _ _ t Hnd Ht Ht'). lia. }
  split_and!.
  - constructor; rewrite ?Hd; try done.
    + pose proof (Hrange _ Hdin). lia.
    + pose proof (Hapart _ Hdin). lia.
    + intros i Hi. destruct (Hts i Hi) as (t & _ & Hin & -> & _). pose proof (Hrange _ Hin). lia.
    + intros i Hi. destruct (Hts i Hi) as (t & _ & Hin & -> & _).
      rewrite testbit_low by (pose proof (Hrange _ Hin); lia). by rewrite Hbit.
    + intros i Hi. destruct (Hts i Hi) as (t & Ht & _ & _ & ->). intros ->.
      pose proof (bu_nodup _ _ _ _ _ _ B) as Hnd. apply NoDup_cons in Hnd as [Hnd _].
      by apply zget_elem in Ht.
    + intros i Hi. destruct (Hts i Hi) as (t & _ & Hin & _ & ->). pose proof (Hapart _ Hin). lia.
  - unfold space_blocks. rewrite Hd. do 2 f_equal. apply zlist_eq.
    + rewrite (bu_len _ _ _ _ _ _ B). unfold zlen. by rewrite length_map, length_seqZ.
    + intros i Hi. unfold zlen in Hi. rewrite length_map, length_seqZ in Hi.
      rewrite zget_map_seqZ by lia. by destruct (Hts i ltac:(lia)) as (t & -> & _ & _ & ->).
  - intros i j Hi Hj. destruct (Hts i Hi) as (t & Ht & Hin & _ & ->).
    rewrite Hsame by done. by apply (bu_tab _ _ _ _ _ _ B).
Qed.

(** Everything about a new address space. *)
Lemma new_chunk_spec s flag :
  kheap_ok (m_heap s) -> 1026 <= free_blocks (m_heap s) -> 0 <= flag < 256 -> Z.testbit flag 0 = true ->
  exists chunk s', paging_new_4gb_chunk flag s = Done chunk s' /\
    kheap_ok (m_heap s') /\ (mem_ok (m_mem s) -> mem_ok (m_mem s')) /\ space_ok (m_mem s') chunk /\
    (forall i j, 0 <= i < 1024 -> 0 <= j < 1024 ->
      ld32 (m_mem s') (table_at (m_mem s') (directory_entry (m_mem s') chunk) i + 4 * j) =
      (i * 1024 + j) * 4096 + flag) /\
    (forall b n, live (m_heap s') b n <->
      (n = 1 /\ b ∈ space_blocks (m_mem s') chunk) \/ live (m_heap s) b n) /\
    (forall b n, b ∈ space_blocks (m_mem s') chunk -> live (m_heap s) b n -> False) /\
    (forall x, (forall b, b ∈ space_blocks (m_mem s') chunk -> ~ b <= x < b + 4096) ->
      m_mem s' x = m_mem s x) /\
    free_blocks (m_heap s') = free_blocks (m_heap s) - 1026.
Proof.
  intros Hok Hfree Hf Hp. unfold paging_new_4gb_chunk.
  change (4 * PAGING_TOTAL_ENTRIES_PER_TABLE) with 4096.
  change (Z.to_nat PAGING_TOTAL_ENTRIES_PER_TABLE) with 1024%nat.
  destruct (kzalloc_page s 4096 Hok ltac:(lia) ltac:(lia) ltac:(reflexivity))
    as (dir & s1 & E & _ & _ & Hfr1 & _). rewrite (bind_Done _ _ _ _ _ E).
  pose proof (building_start _ _ _ flag E Hok ltac:(lia)) as B0.
  destruct (new_directory_loop_spec 1024 s s1 dir flag 0 [] B0 Hf ltac:(lia) ltac:(lia)) as (s2 & ts & E2 & B);
    [lia|]. change (u32 (0 * 4194304)) with 0 in E2. rewrite (bind_Done _ _ _ _ _ E2).
  pose proof (bu_free _ _ _ _ _ _ B) as Hfr2.
  destruct (kzalloc_page s2 4 (bu_ok _ _ _ _ _ _ B) ltac:(lia) ltac:(lia) ltac:(reflexivity))
    as (chunk & s3 & E3 & Hok3 & Hc0 & Hfr3 & Hown & Hap & Hso & Hmo).
  rewrite (bind_Done _ _ _ _ _ E3).
  assert (Hlc : live (m_heap s3) chunk 1) by (apply Hown; by left).
  destruct (kheap_live_range _ _ _ Hok3 Hlc) as (_ & _ & _ & Hcm). unfold KERNEL_HEAP_BLOCK_SIZE in Hcm.
  pose proof (fun b => building_range _ _ _ _ _ _ b B) as Hrange.
  assert (Hbap : forall b, b ∈ dir :: ts -> chunk + 4096 <= b \/ b + 4096 <= chunk).
  { intros b Hb. assert (Hlb : live (m_heap s2) b 1) by (apply (bu_live _ _ _ _ _ _ B); by left).
    pose proof (Hap _ _ Hlb) as Hx. unfold apart, KERNEL_HEAP_BLOCK_SIZE in Hx. lia. }
  pose proof (Hrange dir ltac:(left)) as Hdr.
  destruct (building_space s s2 dir flag ts (st32 (m_mem s3) chunk dir) chunk B Hf Hp) as (Hsp & Hbl & Htab);
    [lia|unfold directory_entry; apply ld32_st32_same; lia|exact Hbap| |].
  { intros b k Hb Hk. pose proof (Hrange _ Hb). pose proof (Hbap _ Hb).
    rewrite ld32_st32_other by lia. apply (ld32_same_outside _ _ chunk 4096); [done|lia..]. }
  exists chunk, (set_mem (st32 (m_mem s3) chunk dir) s3). split; [done|].
  unfold set_mem. cbn [m_heap m_mem]. rewrite Hbl.
  assert (Hde : directory_entry (st32 (m_mem s3) chunk dir) chunk = dir)
    by (unfold directory_entry; apply ld32_st32_same; lia).
  split_and!; try done.
  - intros Hm. apply st32_mem_ok, Hmo. by apply (bu_mem _ _ _ _ _ _ B).
  - by rewrite Hde.
  - intros b n. rewrite (Hown b n), (bu_live _ _ _ _ _ _ B b n), (elem_of_cons (dir :: ts)).
    clear. tauto.
  - intros b n [-> |Hb]%elem_of_cons Hl; [|by eapply (bu_fresh _ _ _ _ _ _ B)].
    assert (Hl2 : live (m_heap s2) chunk n) by (apply (bu_live _ _ _ _ _ _ B); by right).
    pose proof (Hap _ _ Hl2) as Hx. destruct (kheap_live_range _ _ _ (bu_ok _ _ _ _ _ _ B) Hl2).
    unfold apart, KERNEL_HEAP_BLOCK_SIZE in Hx. lia.
  - intros x Hx. pose proof (Hx chunk ltac:(left)). rewrite st32_outside by lia.
    rewrite Hso by lia. apply (bu_frame _ _ _ _ _ _ B). intros b Hb. apply Hx. by right.
  - rewrite Hfr3, Hfr2. lia.
Qed.

(** A space whose entries are [page + flag] maps every address to itself. *)
Lemma identity_translate m chunk flag va :
  space_ok m chunk -> 0 <= flag < 256 -> Z.testbit flag 0 = true -> 0 <= va < 4294967296 ->
  (forall i j, 0 <= i < 1024 -> 0 <= j < 1024 ->
    ld32 m (table_at m (directory_entry m chunk) i + 4 * j) = (i * 1024 + j) * 4096 + flag) ->
  translate m (directory_entry m chunk) va = Some va.
Proof.
  intros Hok Hf Hp Hva Htab. rewrite translate_pte by done. destruct (page_base va Hva) as [Hb Ha].
  destruct (indexes_ok _ Hb Ha) as (Hd & Ht & E). unfold pte. rewrite Htab by done.
  replace ((dir_index (va - va mod 4096) * 1024 + tab_index (va - va mod 4096)) * 4096)
    with (va - va mod 4096) by lia.
  rewrite testbit_low, Hp by done. f_equal. revert Ha. generalize (va mod 4096). intros.
  Z.to_euclidean_division_equations. lia.
Qed.

(** ** Releasing an address space *)

Lemma free_tables_loop_spec n i s chunk :
  kheap_ok (m_heap s) -> space_ok (m_mem s) chunk -> 0 <= i -> i + Z.of_nat n = 1024 ->
  (forall b, b ∈ space_blocks (m_mem s) chunk -> live (m_heap s) b 1 \/
     exists j, 0 <= j < i /\ b = table_at (m_mem s) (directory_entry (m_mem s) chunk) j) ->
  exists s', free_tables_loop n i chunk s = Done tt s' /\ m_mem s' = m_mem s /\ kheap_ok (m_heap s') /\
    forall b k, live (m_heap s') b k <-> live (m_heap s) b k /\
      ~ (exists j, i <= j < 1024 /\ b = table_at (m_mem s) (directory_entry (m_mem s) chunk) j).
Proof.
  revert i s. induction n as [|n IH]; intros i s Hok Hsp Hi Hn Hl.
  { exists s. split_and!; try done. intros b k. split; [|tauto]. intros ?. split; [done|].
    intros (j & ? & _). lia. }
  cbn [free_tables_loop]. rewrite (proj2 (Z.ltb_lt i PAGING_TOTAL_ENTRIES_PER_TABLE))
    by (unfold PAGING_TOTAL_ENTRIES_PER_TABLE; lia).
  unfold gets at 1. unfold mbind at 1, M_bind at 1.
  rewrite land_frame by (apply (so_word _ _ Hsp); lia).
  change (ld32 (m_mem s) (directory_entry (m_mem s) chunk + 4 * i) / 4096 * 4096)
    with (table_at (m_mem s) (directory_entry (m_mem s) chunk) i).
  set (t := table_at (m_mem s) (directory_entry (m_mem s) chunk)) in *.
  assert (Ht : live (m_heap s) (t i) 1).
  { destruct (Hl (t i)) as [|(j & Hj & Ej)]; [|done|].
    - do 2 right. apply list_elem_of_fmap. exists i. split; [done|]. apply elem_of_seqZ. lia.
    - exfalso. apply (so_tabs _ _ Hsp i j); try lia; done. }
  destruct (@al_free_spec heap heap_allocator heap_allocator_laws (m_heap s) (t i) 1 Hok Ht) as [Hok1 Hless].
  unfold kfree at 1. unfold mbind at 1, M_bind at 1.
  destruct (IH (i + 1) (mk_machine (heap_free (m_heap s) (t i)) (m_mem s)) Hok1 Hsp ltac:(lia) ltac:(lia))
    as (s' & E & Em & Hok' & Hlive).
  { cbn [m_mem m_heap]. intros b Hb. destruct (decide (b = t i)) as [-> |Hne].
    - right. exists i. split; [lia|done].
    - destruct (Hl b Hb) as [|(j & Hj & ->)]; [left; by apply Hless|]. right. exists j. split; [lia|done]. }
  exists s'. split_and!; try done. cbn [m_mem m_heap] in *. fold t in Hlive.
  intros b k. rewrite Hlive. rewrite (Hless b k). split.
  - intros [[H1 H2] H3]. split; [exact H1|]. intros (j & Hj & ->).
    destruct (decide (j = i)) as [-> |]; [done|]. apply H3. exists j. split; [lia|done].
  - intros [H1 H2]. split_and!; [exact H1| |].
    + intros ->. apply H2. exists i. split; [lia|done].
    + intros (j & Hj & ->). apply H2. exists j. split; [lia|done].
Qed.

Lemma space_blocks_tables m chunk b :
  b ∈ space_blocks m chunk <-> b = chunk \/ b = directory_entry m chunk \/
  exists j, 0 <= j < 1024 /\ b = table_at m (directory_entry m chunk) j.
Proof.
  unfold space_blocks. rewrite !elem_of_cons, list_elem_of_fmap. do 2 apply or_iff_compat_l.
  split; intros (j & H1 & H2); exists j.
  - apply elem_of_seqZ in H2. split; [lia|done].
  - split; [done|]. apply elem_of_seqZ. lia.
Qed.

Lemma paging_free_4gb_spec s chunk :
  kheap_ok (m_heap s) -> space_ok (m_mem s) chunk ->
  (forall b, b ∈ space_blocks (m_mem s) chunk -> live (m_heap s) b 1) ->
  exists s', paging_free_4gb chunk s = Done tt s' /\ m_mem s' = m_mem s /\ kheap_ok (m_heap s') /\
    forall b k, live (m_heap s') b k <-> live (m_heap s) b k /\ b ∉ space_blocks (m_mem s) chunk.
Proof.
  intros Hok Hsp Hl. unfold paging_free_4gb.
  destruct (free_tables_loop_spec 1024 0 s chunk Hok Hsp ltac:(lia) ltac:(lia)) as (s1 & E1 & Em1 & Hok1 & Hl1).
  { intros b Hb. left. by apply Hl. }
  change (Z.to_nat PAGING_TOTAL_ENTRIES_PER_TABLE) with 1024%nat. rewrite (bind_Done _ _ _ _ _ E1).
  unfold gets at 1. unfold mbind at 1, M_bind at 1. rewrite Em1.
  assert (Hd : live (m_heap s1) (directory_entry (m_mem s) chunk) 1).
  { apply Hl1. split; [apply Hl, space_blocks_tables; auto|]. intros (j & Hj & Ej).
    symmetry in Ej. by apply (so_tab_dir _ _ Hsp j Hj). }
  destruct (@al_free_spec heap heap_allocator heap_allocator_laws _ _ 1 Hok1 Hd) as [Hok2 Hless2].
  unfold kfree at 1. unfold mbind at 1, M_bind at 1.
  assert (Hc : live (heap_free (m_heap s1) (directory_entry (m_mem s) chunk)) chunk 1).
  { apply Hless2. split.
    - apply Hl1. split; [apply Hl, space_blocks_tables; auto|]. intros (j & Hj & Ej).
      pose proof (so_tab_chunk _ _ Hsp j Hj). lia.
    - pose proof (so_chunk_dir _ _ Hsp). lia. }
  destruct (@al_free_spec heap heap_allocator heap_allocator_laws _ _ 1 Hok2 Hc) as [Hok3 Hless3].
  unfold kfree. eexists. split; [reflexivity|]. cbn [m_heap m_mem].
  split; [exact Em1|]. split; [exact Hok3|].
  intros b k. pose proof (Hless3 b k) as H3. pose proof (Hless2 b k) as H2. pose proof (Hl1 b k) as H1.
  pose proof (space_blocks_tables (m_mem s) chunk b) as Hb. cbn [al_live al_free heap_allocator] in H2, H3.
  clear -H1 H2 H3 Hb. tauto.
Qed.

(** ** Framing *)

(** Only the bytes of its own blocks matter to an address space. *)
Lemma space_agree m m' chunk :
  space_ok m chunk -> (forall b x, b ∈ space_blocks m chunk -> b <= x < b + 4096 -> m' x = m x) ->
  space_ok m' chunk /\ directory_entry m' chunk = directory_entry m chunk /\
  space_blocks m' chunk = space_blocks m chunk /\
  (forall va, 0 <= va < 4294967296 -> pte m' (directory_entry m chunk) va = pte m (directory_entry m chunk) va) /\
  (forall va, 0 <= va < 4294967296 ->
     translate m' (directory_entry m chunk) va = translate m (directory_entry m chunk) va).
Proof.
  intros Hok Hag. pose proof (so_chunk _ _ Hok) as Hc. destruct (so_dir _ _ Hok) as (Hd & _ & Hdm).
  assert (Hword : forall b a, b ∈ space_blocks m chunk -> b <= a -> a + 4 <= b + 4096 -> 0 <= a <= 4294967292 -> ld32 m' a = ld32 m a).
  { intros b a Hb H1 H2 H3. apply ld32_ext. intros i Hi. unfold ld8. rewrite u32_small by lia. apply (Hag b); [done|lia]. }
  assert (Hde : directory_entry m' chunk = directory_entry m chunk).
  { unfold directory_entry. apply (Hword chunk); try lia. apply space_blocks_tables. by left. }
  assert (Hdw : forall i, 0 <= i < 1024 -> ld32 m' (directory_entry m chunk + 4 * i) = ld32 m (directory_entry m chunk + 4 * i)).
  { intros i Hi. apply (Hword (directory_entry m chunk)); try lia. apply space_blocks_tables. auto. }
  assert (Hta : forall i, 0 <= i < 1024 -> table_at m' (directory_entry m chunk) i = table_at m (directory_entry m chunk) i).
  { intros i Hi. unfold table_at. by rewrite Hdw. }
  assert (Hpte : forall va, 0 <= va < 4294967296 -> pte m' (directory_entry m chunk) va = pte m (directory_entry m chunk) va).
  { intros va Hva. rewrite !(pte_align _ _ va). destruct (page_base va Hva) as [Hb Ha].
    destruct (indexes_ok _ Hb Ha) as (Hi & Hj & _). unfold pte. rewrite Hta by done.
    destruct (table_at_range _ _ _ (so_word _ _ Hok _ Hi)) as [Hr _].
    apply (Hword (table_at m (directory_entry m chunk) (dir_index (va - va mod 4096)))); try lia.
    apply space_blocks_tables. eauto. }
  split; [|split; [done|split; [|split; [done|]]]].
  - destruct Hok as [H1 H2 H3 H4 H5 H6 H7 H8]. constructor; rewrite ?Hde; try done; intros i Hi.
    + rewrite Hdw by done. by apply H4.
    + rewrite Hdw by done. by apply H5.
    + rewrite Hta by done. by apply H6.
    + rewrite Hta by done. by apply H7.
    + intros Hj Hk Hne. rewrite !Hta by done. by apply H8.
  - unfold space_blocks. rewrite Hde. do 2 f_equal. apply map_ext_in. intros i Hi. apply Hta.
    apply list_elem_of_In, elem_of_seqZ in Hi. lia.
  - intros va Hva. unfold translate. rewrite Hpte by done.
    assert (Hi : 0 <= dir_index va < 1024) by (unfold dir_index; Z.to_euclidean_division_equations; lia).
    by rewrite Hdw.
Qed.

(** Mapping writes words only. *)
Lemma paging_set_mem_ok m directory virt val : mem_ok m -> mem_ok (snd (paging_set m directory virt val)).
Proof.
  intros Hm. unfold paging_set. destruct (_ || _); [done|]. destruct (paging_get_indexes virt) as [[res di] ti].
  destruct (negb _); [done|]. by apply st32_mem_ok.
Qed.

Lemma map_range_loop_mem_ok n m directory virt phys i count flags res :
  mem_ok m -> mem_ok (snd (paging_map_range_loop n m directory virt phys i count flags res)).
Proof.
  revert m virt phys i res. induction n as [|n IH]; intros m virt phys i res Hm; [done|]. cbn [paging_map_range_loop].
  destruct (i <? count); [|done]. unfold paging_map. destruct (_ || _); [by change (- EINVAGS <? 0) with true|].
  pose proof (paging_set_mem_ok m (directory_entry m directory) virt (Z.lor phys flags) Hm) as Hm'.
  destruct (paging_set _ _ _ _) as [r m']. destruct (r <? 0); [exact Hm'|by apply IH].
Qed.

Lemma paging_map_to_mem_ok m directory virt phys phys_end flags :
  mem_ok m -> mem_ok (snd (paging_map_to m directory virt phys phys_end flags)).
Proof.
  intros Hm. unfold paging_map_to. do 4 (destruct (_ : bool); [done|]). by apply map_range_loop_mem_ok.
Qed.

(** The space of [m], seen unchanged in [m']. *)
Record same_space (m m' : mem) (chunk : Z) : Prop := {
  ss_ok : space_ok m' chunk;
  ss_dir : directory_entry m' chunk = directory_entry m chunk;
  ss_blocks : space_blocks m' chunk = space_blocks m chunk;
  ss_translate : forall va, 0 <= va < 4294967296 ->
    translate m' (directory_entry m chunk) va = translate m (directory_entry m chunk) va
}.

(** A new zeroed block run [a] of the heap, next to an address space that it leaves alone. *)
Record new_run (h h' : machine) (chunk a size : Z) : Prop := {
  nr_ok : kheap_ok (m_heap h');
  nr_range : 0 < a /\ 0 < blocks_of size /\ a mod 4096 = 0 /\ a + blocks_of size * 4096 <= 2147483648;
  nr_size : size <= blocks_of size * 4096;
  nr_own : own_more (m_heap h) (m_heap h') a (blocks_of size);
  nr_fresh : forall n, live (m_heap h) a n -> False;
  nr_zero : forall x, a <= x < a + blocks_of size * 4096 -> m_mem h' x = 0;
  nr_frame : same_outside (m_mem h) (m_mem h') a (blocks_of size * 4096);
  nr_space : same_space (m_mem h) (m_mem h') chunk;
  nr_apart : forall b x, b ∈ space_blocks (m_mem h) chunk -> b <= x < b + 4096 -> x < a \/ a + blocks_of size * 4096 <= x;
  nr_mem : mem_ok (m_mem h) -> mem_ok (m_mem h');
  nr_free : free_blocks (m_heap h') = free_blocks (m_heap h) - blocks_of size
}.

Lemma kzalloc_beside h size chunk :
  kheap_ok (m_heap h) -> 0 <= size < 4294967296 -> space_ok (m_mem h) chunk ->
  (forall b, b ∈ space_blocks (m_mem h) chunk -> live (m_heap h) b 1) ->
  exists a h', kzalloc size h = Done a h' /\
    ((a = 0 /\ h' = h /\ ~ roomy (free_blocks (m_heap h)) (blocks_of size)) \/ new_run h h' chunk a size).
Proof.
  intros Hok Hs Hsp Hl. destruct (kzalloc_spec h size Hok Hs) as (a & h' & E & Hok' & D).
  exists a, h'. split; [exact E|]. destruct D as [[-> ->]|(Ha & Hsz & Hown & Hap & Hz & Hout)].
  - left. split; [done|]. split; [done|]. intros Hr. pose proof (kzalloc_roomy h size _ _ Hok Hs Hr E). lia.
  - right. assert (Hla : live (m_heap h') a (blocks_of size)) by (apply Hown; by left).
    destruct (kheap_live_range _ _ _ Hok' Hla) as (_ & Hbp & Hal & Hr). unfold KERNEL_HEAP_BLOCK_SIZE in *.
    assert (Hdis : forall b x, b ∈ space_blocks (m_mem h) chunk -> b <= x < b + 4096 -> x < a \/ a + blocks_of size * 4096 <= x).
    { intros b x Hb Hx. pose proof (Hap _ _ (Hl b Hb)) as Hx2. unfold apart, KERNEL_HEAP_BLOCK_SIZE in Hx2. lia. }
    destruct (space_agree (m_mem h) (m_mem h') chunk Hsp) as (H1 & H2 & H3 & _ & H5).
    { intros b x Hb Hx. apply Hout. by apply (Hdis b). }
    constructor; try done.
    + intros n Hn. pose proof (Hap _ _ Hn) as Hx. destruct (kheap_live_range _ _ _ Hok Hn) as (_ & ? & _).
      unfold apart, KERNEL_HEAP_BLOCK_SIZE in Hx. lia.
    + by apply (kzalloc_mem_ok _ _ _ _ E).
    + apply (kzalloc_count h size a h' Hok); [lia|exact E|lia].
Qed.

(** Mapping a range, as its callers see it. *)
Lemma map_range m chunk virt phys phys_end flags :
  space_ok m chunk -> 0 <= flags < 4096 -> 0 < virt < 4294967296 ->
  0 <= phys <= phys_end -> phys_end < 4294967296 ->
  virt mod 4096 = 0 -> phys mod 4096 = 0 -> phys_end mod 4096 = 0 -> virt + (phys_end - phys) <= 4294967296 ->
  exists m', paging_map_to m chunk virt phys phys_end flags = (0, m') /\
    space_ok m' chunk /\ directory_entry m' chunk = directory_entry m chunk /\
    space_blocks m' chunk = space_blocks m chunk /\
    (forall x, (forall b, b ∈ space_blocks m chunk -> ~ b <= x < b + 4096) -> m' x = m x) /\
    forall va, 0 <= va < 4294967296 ->
      translate m' (directory_entry m chunk) va =
      if (virt <=? va) && (va <? virt + (phys_end - phys))
      then (if Z.testbit flags 0 then Some (phys + (va - virt)) else None)
      else translate m (directory_entry m chunk) va.
Proof.
  intros Hok Hf Hv Hp Hpe Hva Hpa Hpea Hb.
  destruct (paging_map_to_mapped m chunk virt phys phys_end flags) as (m' & E & Hm); try done; try lia.
  assert (Hlen : 4096 * ((phys_end - phys) / 4096) = phys_end - phys) by (Z.to_euclidean_division_equations; lia).
  exists m'. split; [exact E|]. pose proof Hm as [M1 M2 M3 M4 M5]. split; [exact M1|]. split; [exact M2|].
  split; [|split].
  - unfold space_blocks. rewrite M2. do 2 f_equal. apply map_ext_in. intros i Hi. apply M3.
    apply list_elem_of_In, elem_of_seqZ in Hi. lia.
  - intros x Hx. apply M5. intros i Hi. apply Hx, space_blocks_tables. eauto.
  - intros va Hva'. rewrite (mapped_translate m m' chunk virt phys _ flags va Hok Hm Hf Hva' Hva Hpa). by rewrite Hlen.
Qed.

(** ** The kernel heap and an address space at boot *)

(** The kernel heap as [kheap_init] leaves it, whatever was in memory. *)
Definition boot_machine : machine :=
  mk_machine boot_heap (fun _ => 0).

Lemma boot_ok : kheap_ok (m_heap boot_machine).
Proof. apply boot_heap_ok. Qed.

Lemma boot_free : 1026 <= free_blocks (m_heap boot_machine).
Proof. pose proof boot_heap_avail as E. simpl in E. unfold boot_machine. cbn [m_heap]. by rewrite E. Qed.

Lemma boot_space :
  exists m chunk, space_ok m chunk /\ mem_ok m /\
    forall va, 0 <= va < 4294967296 -> translate m (directory_entry m chunk) va = Some va.
Proof.
  destruct (new_chunk_spec boot_machine 7 boot_ok boot_free ltac:(lia) ltac:(reflexivity))
    as (c & s & _ & _ & Hm & Hsp & Htab & _).
  exists (m_mem s), c. split; [done|]. split; [apply Hm; by intros x|].
  intros va Hva. by apply (identity_translate _ _ 7).
Qed.

(** ** Properties *)

(** The arguments [paging_map_to] rejects. *)
Definition map_to_rejects (virt phys phys_end : Z) : bool :=
  negb (virt mod PAGING_PAGE_SIZE =? 0) || negb (phys mod PAGING_PAGE_SIZE =? 0) ||
  negb (phys_end mod PAGING_PAGE_SIZE =? 0) || (phys_end <? phys) ||
  ((virt =? 0) && (phys <? phys_end)).

(** C30: [paging_map_to], on every branch, for flags below 4096.  Misaligned or reversed
    arguments, and a mapping at virtual address 0, are refused with [-EINVAGS] and no page
    table changed.  Otherwise the processor then translates exactly the requested range to
    the requested frames (or faults there when the flags do not say present), every other
    address translates as before, and only page tables were written; the call succeeds
    unless the range goes beyond 4 GiB: then the pages up to 4 GiB have been mapped when it
    returns [-EINVAGS]. *)
Theorem paging_map_to_spec (m : mem) (chunk virt phys phys_end flags : Z) :
  space_ok m chunk -> 0 <= flags < 4096 -> 0 <= virt < 4294967296 -> 0 <= phys < 4294967296 ->
  0 <= phys_end < 4294967296 ->
  if map_to_rejects virt phys phys_end
  then paging_map_to m chunk virt phys phys_end flags = (- EINVAGS, m)
  else exists m', paging_map_to m chunk virt phys phys_end flags =
      (if virt + (phys_end - phys) <=? 4294967296 then KERNEL_ALL_OK else - EINVAGS, m') /\
    space_ok m' chunk /\ directory_entry m' chunk = directory_entry m chunk /\
    tables_only m m' (directory_entry m chunk) /\
    forall va, 0 <= va < 4294967296 ->
      translate m' (directory_entry m' chunk) va =
      if (virt <=? va) && (va <? virt + (phys_end - phys))
      then (if Z.testbit flags 0 then Some (phys + (va - virt)) else None)
      else translate m (directory_entry m chunk) va.
Proof.
  intros Hok Hf Hv Hp Hpe. unfold map_to_rejects, PAGING_PAGE_SIZE.
  destruct (Z.eqb_spec (virt mod 4096) 0) as [Hva|Hva]; cbn [negb orb].
  2: { unfold paging_map_to, PAGING_PAGE_SIZE. by rewrite (proj2 (Z.eqb_neq _ _) Hva). }
  destruct (Z.eqb_spec (phys mod 4096) 0) as [Hpa|Hpa]; cbn [negb orb].
  2: { unfold paging_map_to, PAGING_PAGE_SIZE. by rewrite Hva, (proj2 (Z.eqb_neq _ _) Hpa). }
  destruct (Z.eqb_spec (phys_end mod 4096) 0) as [Hpea|Hpea]; cbn [negb orb].
  2: { unfold paging_map_to, PAGING_PAGE_SIZE. by rewrite Hva, Hpa, (proj2 (Z.eqb_neq _ _) Hpea). }
  destruct (Z.ltb_spec phys_end phys) as [Hr|Hr]; cbn [negb orb].
  { unfold paging_map_to, PAGING_PAGE_SIZE. by rewrite Hva, Hpa, Hpea, (proj2 (Z.ltb_lt _ _) Hr). }
  destruct ((virt =? 0) && (phys <? phys_end)) eqn:E0.
  - apply andb_true_iff in E0 as [->%Z.eqb_eq H0%Z.ltb_lt]. apply paging_map_to_zero; done || lia.
  - destruct (Z.leb_spec (virt + (phys_end - phys)) 4294967296) as [Hb|Hb].
    2: { destruct (paging_map_to_wraps m chunk virt phys phys_end flags) as (m' & E & Hm); try done; try lia.
         exists m'. split; [exact E|]. split; [exact (mp_ok _ _ _ _ _ _ _ Hm)|]. split; [exact (mp_dir _ _ _ _ _ _ _ Hm)|].
         split; [exact (mp_frame _ _ _ _ _ _ _ Hm)|]. intros va Hva'. rewrite (mp_dir _ _ _ _ _ _ _ Hm).
         rewrite (mapped_translate m m' chunk virt phys _ flags va Hok Hm Hf Hva' Hva Hpa).
         replace (virt + 4096 * ((4294967296 - virt) / 4096)) with 4294967296 by (Z.to_euclidean_division_equations; lia).
         by rewrite !(proj2 (Z.ltb_lt va _)) by lia. }
    destruct (paging_map_to_mapped m chunk virt phys phys_end flags) as (m' & E & Hm); try done; try lia.
    assert (Hlen : 4096 * ((phys_end - phys) / 4096) = phys_end - phys)
      by (Z.to_euclidean_division_equations; lia).
    exists m'. split; [exact E|]. split; [exact (mp_ok _ _ _ _ _ _ _ Hm)|]. split; [exact (mp_dir _ _ _ _ _ _ _ Hm)|].
    split; [exact (mp_frame _ _ _ _ _ _ _ Hm)|]. intros va Hva'. rewrite (mp_dir _ _ _ _ _ _ _ Hm).
    rewrite (mapped_translate m m' chunk virt phys _ flags va Hok Hm Hf Hva' Hva Hpa). by rewrite Hlen.
Qed.

Lemma paging_map_to_spec_witness :
  exists m chunk m',
    paging_map_to m chunk 4194304 8192 16384 7 = (KERNEL_ALL_OK, m') /\
    translate m' (directory_entry m' chunk) 4198401 = Some 12289.
Proof.
  destruct boot_space as (m & chunk & Hok & _ & _).
  pose proof (paging_map_to_spec m chunk 4194304 8192 16384 7 Hok ltac:(lia) ltac:(lia) ltac:(lia)
    ltac:(lia)) as H.
  change (map_to_rejects 4194304 8192 16384) with false in H. change (4194304 + (16384 - 8192) <=? 4294967296) with true in H.
  destruct H as (m' & E & _ & _ & _ & Htr). exists m, chunk, m'. split; [exact E|].
  rewrite Htr by lia. reflexivity.
Defined.

(** C31: [paging_new_4gb_chunk] builds a complete address space.  With 1026 free blocks it
    returns a well-formed chunk that translates every one of the 2^32 addresses to
    itself; it takes exactly the chunk word, the directory and the 1024 tables from the
    heap, all of them fresh, and writes no other memory. *)
Theorem paging_new_4gb_chunk_identity (s : machine) (flag : Z) :
  kheap_ok (m_heap s) -> 1026 <= free_blocks (m_heap s) -> 0 <= flag < 256 ->
  Z.testbit flag 0 = true ->
  exists chunk s', paging_new_4gb_chunk flag s = Done chunk s' /\
    kheap_ok (m_heap s') /\ space_ok (m_mem s') chunk /\
    (forall va, 0 <= va < 4294967296 ->
      translate (m_mem s') (directory_entry (m_mem s') chunk) va = Some va) /\
    (forall b n, live (m_heap s') b n <->
      (n = 1 /\ b ∈ space_blocks (m_mem s') chunk) \/ live (m_heap s) b n) /\
    (forall b n, b ∈ space_blocks (m_mem s') chunk -> live (m_heap s) b n -> False) /\
    (forall x, (forall b, b ∈ space_blocks (m_mem s') chunk -> ~ b <= x < b + 4096) ->
      m_mem s' x = m_mem s x).
Proof.
  intros Hok Hfree Hf Hp.
  destruct (new_chunk_spec s flag Hok Hfree Hf Hp) as (c & s' & E & Hok' & _ & Hsp & Htab & Hl & Hfr & Hm & _).
  exists c, s'. split; [exact E|]. split; [exact Hok'|]. split; [exact Hsp|]. split; [|by split].
  intros va Hva. by apply (identity_translate _ _ flag).
Qed.

Lemma paging_new_4gb_chunk_identity_witness :
  exists chunk s', paging_new_4gb_chunk 7 boot_machine = Done chunk s' /\
    translate (m_mem s') (directory_entry (m_mem s') chunk) 4294967295 = Some 4294967295.
Proof.
  destruct (paging_new_4gb_chunk_identity boot_machine 7 boot_ok boot_free ltac:(lia) eq_refl)
    as (c & s' & E & _ & _ & Htr & _).
  exists c, s'. split; [exact E|]. apply Htr. lia.
Defined.
