(* ===== verification/Pparser.v ===== *)
(** * Path parsing: fs/pparser.c

    A path is the buffer of a C string; [const char **path] is the rest of that buffer.
    [struct path_root], [struct path_part] and the strings of the parts are heap objects:
    the state maps the address of each to its contents, and the heap is any allocator
    that keeps the contract of Kheap.v. *)
From S2P Require Import Prelude Heap Kheap CString.

Record path_root := mk_path_root { drive_no : Z; first : Z }.
Record path_part := mk_path_part { part : Z; next : Z }.

Record paths (H : Type) := mk_paths {
  p_heap : H;
  p_roots : gmap Z path_root;
  p_parts : gmap Z path_part;
  p_strs : gmap Z (list Z)
}.
Arguments mk_paths {H}.
Arguments p_heap {H}.
Arguments p_roots {H}.
Arguments p_parts {H}.
Arguments p_strs {H}.

Section pparser.
Context {H : Type} `{Allocator H}.
Implicit Types (s : paths H).

Definition set_p_heap (h : H) s : paths H := mk_paths h (p_roots s) (p_parts s) (p_strs s).
Definition put_root (a : Z) (r : path_root) s : paths H :=
  mk_paths (p_heap s) (<[a := r]> (p_roots s)) (p_parts s) (p_strs s).
Definition put_part (a : Z) (p : path_part) s : paths H :=
  mk_paths (p_heap s) (p_roots s) (<[a := p]> (p_parts s)) (p_strs s).
Definition put_str (a : Z) (b : list Z) s : paths H :=
  mk_paths (p_heap s) (p_roots s) (p_parts s) (<[a := b]> (p_strs s)).

Definition p_zalloc (size : Z) : M (paths H) Z := zoom p_heap set_p_heap (al_alloc size).
Definition p_free (ptr : Z) : M (paths H) unit := zoom p_heap set_p_heap (al_release ptr).

(** The characters [":/"] the format check compares with. *)
Definition pathpraser_path_vaild_format (path : list Z) : option bool :=
  match strnlen path KERNEL_MAX_PATH with
  | Some len =>
      if len <? 3 then Some false
      else match path with
           | c :: rest =>
               if isdigit c then
                 match memcmp rest [58; 47; 0] 2 with
                 | Some r => Some (r =? 0)
                 | None => None
                 end
               else Some false
           | [] => None
           end
  | None => None
  end.

(** The drive number, or [-EBADPATH], and the rest of the path. *)
Definition pathparser_get_drive_by_path (path : list Z) : option (Z * list Z) :=
  match pathpraser_path_vaild_format path with
  | Some true => Some (tonumericdigit (hd 0 path), drop 3 path)
  | Some false => Some (- EBADPATH, path)
  | None => None
  end.

Definition pathparser_create_root (drive : Z) : M (paths H) Z :=
  path_root ← p_zalloc 8;
  if path_root =? 0 then mret (ERROR (- ENOMEM))
  else modify (put_root path_root (mk_path_root drive 0));; mret path_root.

(** The copy loop of [pathparser_get_path_part]. *)
Fixpoint path_part_loop (path buf : list Z) (i : Z) : option (list Z * list Z * Z) :=
  match path with
  | [] => None
  | c :: path' =>
      if negb (c =? 47) && negb (c =? 0) then
        match put buf i c with
        | Some buf' => path_part_loop path' buf' (i + 1)
        | None => None
        end
      else Some (path, buf, i)
  end.

(** Skip the separator. *)
Definition skip_slash (path : list Z) : list Z :=
  match path with c :: path' => if c =? 47 then path' else path | [] => [] end.

Definition pathparser_get_path_part (path : list Z) : M (paths H) (Z * list Z) :=
  path_part_str ← p_zalloc KERNEL_MAX_PATH;
  if path_part_str =? 0 then mret (ERROR (- ENOMEM), path)
  else
    r ← expect (path_part_loop path (replicate (Z.to_nat KERNEL_MAX_PATH) 0) 0);
    let '(path, buf, i) := r in
    let path := skip_slash path in
    buf ← expect (put buf i 0);
    modify (put_str path_part_str buf);;
    if i =? 0 then p_free path_part_str;; mret (0, path)
    else mret (path_part_str, path).

Definition pathparser_parse_path_part (last_part : Z) (path : list Z) : M (paths H) (Z * list Z) :=
  r ← pathparser_get_path_part path;
  let '(path_part_str, path) := r in
  if path_part_str =? 0 then mret (0, path)
  else if IS_ERROR path_part_str then mret (ERROR path_part_str, path)
  else
    path_part ← p_zalloc 8;
    if path_part =? 0 then p_free path_part_str;; mret (ERROR (- ENOMEM), path)
    else
      modify (put_part path_part (mk_path_part path_part_str 0));;
      (if negb (last_part =? 0) then
         last ← gets (fun s => p_parts s !! last_part);
         last ← expect last;
         modify (put_part last_part (mk_path_part (part last) path_part))
       else mret tt);;
      mret (path_part, path).

(** The [do ... while] loop of [pathparser_parse]; the result is [ret]. *)
Fixpoint parse_loop (n : nat) (path_part : Z) (path : list Z) : M (paths H) Z :=
  match n with
  | O => nofuel
  | S n' =>
      r ← pathparser_parse_path_part path_part path;
      let '(path_part, path) := r in
      if IS_ERROR path_part then mret (ERROR_I path_part)
      else if path_part =? 0 then mret 0
      else parse_loop n' path_part path
  end.

Fixpoint free_loop (n : nat) (path_part : Z) : M (paths H) unit :=
  match n with
  | O => nofuel
  | S n' =>
      if path_part =? 0 then mret tt
      else
        p ← gets (fun s => p_parts s !! path_part);
        p ← expect p;
        p_free (part p);;
        p_free path_part;;
        free_loop n' (next p)
  end.

(** [fuel] bounds the length of the list of parts. *)
Definition pathparser_free (fuel : nat) (path_root : Z) : M (paths H) unit :=
  if path_root =? 0 then mret tt
  else
    r ← gets (fun s => p_roots s !! path_root);
    r ← expect r;
    free_loop fuel (first r);;
    p_free path_root.

(** [out:] of [pathparser_parse]. *)
Definition parse_out (fuel : nat) (ret path_root : Z) : M (paths H) Z :=
  if ret <? 0 then
    (if negb (path_root =? 0) && negb (IS_ERROR path_root)
     then pathparser_free fuel path_root else mret tt);;
    mret (ERROR ret)
  else mret path_root.

Definition pathparser_parse (path : list Z) : M (paths H) Z :=
  let fuel := S (length path) in
  len ← expect (strlen path);
  if KERNEL_MAX_PATH <? len then parse_out fuel (- EINVAGS) 0
  else
    d ← expect (pathparser_get_drive_by_path path);
    let '(drive, tmp_path) := d in
    if drive <? 0 then parse_out fuel (- EINVAGS) 0
    else
      path_root ← pathparser_create_root drive;
      if IS_ERROR path_root then parse_out fuel (ERROR_I path_root) path_root
      else
        r ← pathparser_parse_path_part 0 tmp_path;
        let '(path_part, tmp_path) := r in
        if IS_ERROR path_part || (path_part =? 0) then
          parse_out fuel (if IS_ERROR path_part then ERROR_I path_part else - EINVAGS) path_root
        else
          root ← gets (fun s => p_roots s !! path_root);
          root ← expect root;
          modify (put_root path_root (mk_path_root (drive_no root) path_part));;
          ret ← parse_loop fuel path_part tmp_path;
          parse_out fuel ret path_root.

End pparser.

(** ** What a path means *)

(** The text before the first separator, and the text after it. *)
Fixpoint break_slash (s : list Z) : list Z * list Z :=
  match s with
  | [] => ([], [])
  | c :: s' => if c =? 47 then ([], s') else let '(a, b) := break_slash s' in (c :: a, b)
  end.

(** The components up to the first empty one; [cur] is the component being read. *)
Fixpoint parts_acc (cur s : list Z) : list (list Z) :=
  match s with
  | [] => match cur with [] => [] | _ => [cur] end
  | c :: s' =>
      if c =? 47 then match cur with [] => [] | _ => cur :: parts_acc [] s' end
      else parts_acc (cur ++ [c]) s'
  end.

Definition parts_of (s : list Z) : list (list Z) := parts_acc [] s.

(** ["d:/part/part/..."], at most [KERNEL_MAX_PATH] characters and at least one part. *)
Definition spec_parse (s : list Z) : option (Z * list (list Z)) :=
  if KERNEL_MAX_PATH <? zlen s then None
  else match s with
       | d :: c :: sl :: rest =>
           if isdigit d && (c =? 58) && (sl =? 47) then
             match parts_of rest with [] => None | ps => Some (d - 48, ps) end
           else None
       | _ => None
       end.

Definition join_parts (ps : list (list Z)) : list Z := concat (map (fun p => p ++ [47]) ps).

(** The text of a path. *)
Definition render (d : Z) (ps : list (list Z)) : list Z := [48 + d; 58; 47] ++ join_parts ps.

Lemma parts_acc_break cur s :
  parts_acc cur s =
  let '(a, b) := break_slash s in
  match cur ++ a with [] => [] | x => x :: parts_acc [] b end.
Proof.
  revert cur. induction s as [|c s IH]; intros cur; simpl.
  - by rewrite app_nil_r; destruct cur.
  - destruct (c =? 47); [rewrite app_nil_r; by destruct cur|]. rewrite IH.
    destruct (break_slash s) as [a b]. rewrite <- app_assoc. simpl. done.
Qed.

Lemma parts_of_break s :
  parts_of s = match break_slash s with ([], _) => [] | (a, b) => a :: parts_of b end.
Proof. unfold parts_of. rewrite parts_acc_break. by destruct (break_slash s) as [[|c a] b]. Qed.

Lemma break_slash_len s a b : break_slash s = (a, b) -> zlen a + zlen b <= zlen s.
Proof.
  revert a b. induction s as [|c s IH]; intros a b; simpl.
  - intros [= <- <-]. unfold zlen. simpl. lia.
  - rewrite zlen_cons. destruct (c =? 47); [intros [= <- <-]; change (zlen (@nil Z)) with 0; lia|].
    destruct (break_slash s) as [a' b'] eqn:E. intros [= <- <-]. rewrite zlen_cons.
    specialize (IH _ _ eq_refl). lia.
Qed.

Lemma break_slash_char s a b :
  Forall is_char s -> break_slash s = (a, b) -> Forall is_char a /\ Forall is_char b.
Proof.
  revert a b. induction s as [|c s IH]; intros a b Hs; simpl.
  - by intros [= <- <-].
  - apply Forall_cons in Hs as [Hc Hs]. destruct (c =? 47); [by intros [= <- <-]|].
    destruct (break_slash s) as [a' b'] eqn:E. intros [= <- <-].
    destruct (IH _ _ Hs eq_refl). split; [by constructor|done].
Qed.

Lemma parts_acc_len cur s : zlen (parts_acc cur s) <= zlen cur + zlen s.
Proof.
  revert cur. induction s as [|c s IH]; intros cur; simpl.
  - destruct cur as [|x cur]; [done|]. pose proof (zlen_nonneg cur).
    rewrite !zlen_cons. unfold zlen. simpl. lia.
  - rewrite (zlen_cons c). specialize (IH (cur ++ [c])) as H1. rewrite zlen_app in H1.
    change (zlen [c]) with 1 in H1. specialize (IH []) as H2. change (zlen (@nil Z)) with 0 in H2.
    destruct (c =? 47); [|lia]. destruct cur as [|x cur].
    + change (zlen (@nil (list Z))) with 0. pose proof (zlen_nonneg s).
      change (zlen (@nil Z)) with 0. lia.
    + rewrite (zlen_cons (x :: cur) (parts_acc [] s)), (zlen_cons x cur). pose proof (zlen_nonneg cur). lia.
Qed.

Lemma parts_of_len s : zlen (parts_of s) <= zlen s.
Proof. unfold parts_of. pose proof (parts_acc_len [] s). change (zlen (@nil Z)) with 0 in *. lia. Qed.

Lemma spec_parse_len s d ps : spec_parse s = Some (d, ps) -> zlen ps <= zlen s.
Proof.
  unfold spec_parse. destruct (_ <? _); [done|]. destruct s as [|? [|? [|? rest]]]; try done.
  destruct (_ && _); [|done]. destruct (parts_of rest) as [|p l] eqn:E; [done|]. intros [= _ <-].
  pose proof (parts_of_len rest) as Hl. rewrite E in Hl. rewrite !zlen_cons in *. lia.
Qed.

Definition name_ok (p : list Z) : Prop := p <> [] /\ Forall (fun c => is_char c /\ c <> 47) p.

Lemma break_slash_join p r : Forall (fun c => is_char c /\ c <> 47) p -> break_slash (p ++ 47 :: r) = (p, r).
Proof.
  induction p as [|c p IH]; intros Hp; simpl; [done|].
  apply Forall_cons in Hp as [[_ Hc] Hp]. rewrite (proj2 (Z.eqb_neq c 47)) by done.
  by rewrite IH.
Qed.

Lemma parts_of_join ps : Forall name_ok ps -> parts_of (join_parts ps) = ps.
Proof.
  induction ps as [|p ps IH]; intros Hps; [done|]. apply Forall_cons in Hps as [[Hne Hp] Hps].
  unfold join_parts. simpl. fold (join_parts ps). rewrite <- app_assoc. simpl.
  rewrite parts_of_break, break_slash_join, IH by done. by destruct p.
Qed.

Lemma spec_parse_render d ps :
  0 <= d <= 9 -> ps <> [] -> Forall name_ok ps -> zlen (render d ps) <= KERNEL_MAX_PATH ->
  spec_parse (render d ps) = Some (d, ps).
Proof.
  intros Hd Hne Hps Hlen. unfold spec_parse. rewrite (proj2 (Z.ltb_ge _ _)) by done.
  unfold render. simpl. assert (isdigit (48 + d) = true) as ->.
  { unfold isdigit, i8. Z.to_euclidean_division_equations. lia. }
  simpl. rewrite parts_of_join by done. destruct ps; [done|]. do 2 f_equal. lia.
Qed.

Lemma name_chars ps : Forall name_ok ps -> Forall is_char (join_parts ps).
Proof.
  induction ps as [|p ps IH]; intros Hps; [constructor|]. apply Forall_cons in Hps as [[_ Hp] Hps].
  unfold join_parts. simpl. apply Forall_app. split; [|by apply IH].
  apply Forall_app. split; [|by repeat constructor]. eapply Forall_impl; [exact Hp|]. by intros c [].
Qed.

(** ** The operations *)

(** The copy loop writes the component after [p] and stops at its end. *)
Lemma path_part_loop_spec path s a b p d :
  holds path s -> break_slash s = (a, b) -> zlen a <= zlen d ->
  exists path', path_part_loop path (p ++ d) (zlen p) =
    Some (path', p ++ a ++ drop (length a) d, zlen p + zlen a) /\ holds (skip_slash path') b.
Proof.
  revert path a b p d. induction s as [|c s IH]; intros path a b p d Hh E Hlen; simpl in E.
  - injection E as <- <-. apply holds_nil in Hh as [rest ->]. simpl. eexists.
    rewrite drop_0. change (zlen (@nil Z)) with 0. rewrite Z.add_0_r. split; [done|].
    by exact (holds_intro [] rest ltac:(constructor)).
  - apply holds_cons in Hh as (path1 & -> & Hc & Hh). simpl. rewrite (char_nonzero c Hc), andb_true_r.
    destruct (Z.eqb_spec c 47) as [->|Hne]; simpl.
    + injection E as <- <-. eexists. rewrite drop_0. change (zlen (@nil Z)) with 0.
      rewrite Z.add_0_r. split; [done|]. done.
    + destruct (break_slash s) as [a' b'] eqn:E'. injection E as <- <-.
      destruct d as [|d0 d]; [rewrite zlen_cons in Hlen; change (zlen (@nil Z)) with 0 in Hlen;
        pose proof (zlen_nonneg a'); lia|].
      rewrite put_app. rewrite !zlen_cons in Hlen.
      destruct (IH path1 a' b' (p ++ [c]) d Hh eq_refl ltac:(lia)) as (path' & E2 & Hp').
      rewrite <- app_assoc, zlen_app in E2. change (zlen [c]) with 1 in E2. simpl in E2.
      exists path'. rewrite E2. split; [|done]. rewrite <- app_assoc. simpl. do 2 f_equal.
      rewrite zlen_cons. lia.
Qed.

Section proofs.
Context {H : Type} {AH : Allocator H} {LH : @AllocatorLaws H AH}.
Implicit Types (s : paths H) (h : H) (L : list (Z * Z)).

(** The objects at the addresses of [K] are the same. *)
Definition keeps (K : list Z) s s' : Prop :=
  forall x, x ∈ K ->
    p_roots s' !! x = p_roots s !! x /\ p_parts s' !! x = p_parts s !! x /\
    p_strs s' !! x = p_strs s !! x.

Lemma keeps_refl K s : keeps K s s.
Proof. done. Qed.

Lemma keeps_trans K s s1 s2 : keeps K s s1 -> keeps K s1 s2 -> keeps K s s2.
Proof.
  intros H1 H2 x Hx. destruct (H1 x Hx) as (E1 & E2 & E3), (H2 x Hx) as (F1 & F2 & F3).
  by rewrite F1, F2, F3.
Qed.

Lemma keeps_sub K K' s s' : (forall x, x ∈ K -> x ∈ K') -> keeps K' s s' -> keeps K s s'.
Proof. intros HK Hk x Hx. by apply Hk, HK. Qed.

Lemma p_zalloc_spec h0 L s size :
  owned h0 (p_heap s) L -> 0 <= size < 4294967296 -> blocks_of size = 1 ->
  exists a h', p_zalloc size s = Done a (set_p_heap h' s) /\
  ((a = 0 /\ set_p_heap h' s = s /\ al_avail (p_heap s) <= 0) \/
   (0 < a < 2147483648 /\ owned h0 h' ((a, 1) :: L) /\ (a ∉ L.*1))).
Proof.
  intros Ho Hs Hb. destruct (al_alloc_page h0 _ L size Ho Hs Hb) as (a & h' & E & D).
  exists a, h'. unfold p_zalloc, zoom. rewrite E. split; [done|].
  destruct D as [(-> & -> & Hav)|(Ha & Ho')]; [left; by destruct s|right].
  split; [eapply owned_range; [done|rewrite fmap_cons; by left]|]. split; [done|].
  pose proof (ow_nodup _ _ _ Ho') as Hnd. by apply NoDup_cons in Hnd as [? _].
Qed.

Lemma p_free_spec h0 L s a n :
  owned h0 (p_heap s) ((a, n) :: L) ->
  exists h', p_free a s = Done tt (set_p_heap h' s) /\ owned h0 h' L.
Proof.
  intros Ho. exists (al_free (p_heap s) a). split; [done|]. by eapply owned_free.
Qed.

Lemma heap_avail h0 h L : owned h0 h L -> al_avail h = al_avail h0 - total_blocks_of L.
Proof. apply ow_avail. Qed.

(** [pathparser_get_path_part]: out of memory; no component; or a fresh string. *)
Lemma get_path_part_spec h0 L s path str a b :
  owned h0 (p_heap s) L -> holds path str -> zlen str < KERNEL_MAX_PATH ->
  break_slash str = (a, b) ->
  exists r path' s', pathparser_get_path_part path s = Done (r, path') s' /\ keeps (L.*1) s s' /\
  p_parts s' = p_parts s /\ p_roots s' = p_roots s /\
  ((r = ERROR (- ENOMEM) /\ owned h0 (p_heap s') L /\ al_avail (p_heap s) <= 0) \/
   (a = [] /\ r = 0 /\ owned h0 (p_heap s') L) \/
   (a <> [] /\ holds path' b /\ 0 < r < 2147483648 /\ (r ∉ L.*1) /\ owned h0 (p_heap s') ((r, 1) :: L) /\
    exists buf, p_strs s' = <[r := buf]> (p_strs s) /\ holds buf a)).
Proof.
  intros Ho Hh Hlen E. unfold pathparser_get_path_part.
  destruct (p_zalloc_spec h0 L s KERNEL_MAX_PATH Ho ltac:(done) ltac:(reflexivity))
    as (p & h' & Ep & D). rewrite (bind_Done _ _ _ _ _ Ep).
  destruct D as [(-> & Es & Hav)|(Hp & Ho' & Hpn)].
  { rewrite Es. simpl. do 3 eexists. split; [done|]. split; [apply keeps_refl|].
    do 2 (split; [done|]). by left. }
  rewrite (proj2 (Z.eqb_neq p 0)) by lia.
  pose proof (break_slash_len _ _ _ E) as Hla. pose proof (zlen_nonneg a). pose proof (zlen_nonneg b).
  destruct (path_part_loop_spec path str a b [] (replicate (Z.to_nat KERNEL_MAX_PATH) 0) Hh E)
    as (path' & El & Hp'); [rewrite zlen_replicate; lia|].
  cbn [app] in El. change (zlen (@nil Z)) with 0 in El. rewrite Z.add_0_l in El.
  rewrite (bind_expect _ _ _ _ El). cbv beta iota zeta. rewrite drop_replicate.
  destruct (Z.to_nat KERNEL_MAX_PATH - length a)%nat as [|m] eqn:Em;
    [unfold zlen, KERNEL_MAX_PATH in *; lia|]. simpl replicate.
  rewrite (bind_expect _ _ _ _ (put_app a 0 (replicate m 0) 0)). rewrite bind_modify.
  assert (Hk : keeps (L.*1) s (put_str p (a ++ 0 :: replicate m 0) (set_p_heap h' s))).
  { intros x Hx. simpl. do 2 (split; [done|]). rewrite lookup_insert_ne; [done|]. by intros ->. }
  destruct (Z.eqb_spec (zlen a) 0) as [Ea|Ea].
  - destruct (p_free_spec h0 L (put_str p (a ++ 0 :: replicate m 0) (set_p_heap h' s)) p 1 Ho')
      as (h'' & Ef & Ho''). rewrite (bind_Done _ _ _ _ _ Ef).
    do 3 eexists. split; [done|]. split; [done|]. do 2 (split; [done|]). right. left.
    split; [|done]. destruct a; [done|]. rewrite zlen_cons in Ea. pose proof (zlen_nonneg a). lia.
  - do 3 eexists. split; [done|]. split; [done|]. do 2 (split; [done|]). do 2 right.
    split; [by intros ->|]. do 4 (split; [done|]). eexists. split; [done|].
    apply holds_intro. destruct Hh as [Hc _]. by apply (break_slash_char _ _ _ Hc E).
Qed.

(** [pathparser_parse_path_part]: a new part, its string, and the link from [last]. *)
Lemma parse_path_part_spec h0 L s last path str a b pl :
  owned h0 (p_heap s) L -> holds path str -> zlen str < KERNEL_MAX_PATH ->
  break_slash str = (a, b) ->
  last = 0 \/ (last ∈ L.*1 /\ p_parts s !! last = Some pl) ->
  exists r path' s', pathparser_parse_path_part last path s = Done (r, path') s' /\
  p_roots s' = p_roots s /\
  ((r = ERROR (- ENOMEM) /\ owned h0 (p_heap s') L /\ keeps (L.*1) s s' /\ al_avail (p_heap s) < 2) \/
   (a = [] /\ r = 0 /\ owned h0 (p_heap s') L /\ keeps (L.*1) s s') \/
   (a <> [] /\ holds path' b /\ 0 < r < 2147483648 /\ exists sp buf,
    owned h0 (p_heap s') ((r, 1) :: (sp, 1) :: L) /\
    p_strs s' = <[sp := buf]> (p_strs s) /\ holds buf a /\
    p_parts s' = (if last =? 0 then <[r := mk_path_part sp 0]> (p_parts s)
                  else <[last := mk_path_part (part pl) r]> (<[r := mk_path_part sp 0]> (p_parts s))))).
Proof.
  intros Ho Hh Hlen E Hlast. unfold pathparser_parse_path_part.
  destruct (get_path_part_spec h0 L s path str a b Ho Hh Hlen E)
    as (sp & path' & s1 & E1 & Hk & Hp1 & Hr1 & D). rewrite (bind_Done _ _ _ _ _ E1).
  destruct D as [(-> & Ho1 & Hav)|[(-> & -> & Ho1)|(Ha & Hp' & Hsp & Hspn & Ho1 & buf & Hst & Hbuf)]].
  - do 3 eexists. split; [done|]. split; [done|]. left. split_and!; try done. lia.
  - do 3 eexists. split; [done|]. split; [done|]. right. left. done.
  - rewrite (proj2 (Z.eqb_neq sp 0)), IS_ERROR_small by lia.
    destruct (p_zalloc_spec h0 _ s1 8 Ho1 ltac:(done) ltac:(reflexivity)) as (p & h' & Ep & D).
    rewrite (bind_Done _ _ _ _ _ Ep). destruct D as [(-> & Es & Hav)|(Hp & Ho' & Hpn)].
    + rewrite Es. simpl (0 =? 0). cbv iota.
      destruct (p_free_spec h0 L s1 sp 1 Ho1) as (h'' & Ef & Ho''). rewrite (bind_Done _ _ _ _ _ Ef).
      do 3 eexists. split; [done|]. split; [done|]. left. split; [done|]. split; [done|].
      split; [exact Hk|]. rewrite (heap_avail _ _ _ Ho1) in Hav. simpl in Hav.
      rewrite (heap_avail _ _ _ Ho). lia.
    + rewrite (proj2 (Z.eqb_neq p 0)) by lia. rewrite bind_modify. cbv beta.
      destruct Hlast as [-> |[Hin Hpl]].
      * change (negb (0 =? 0)) with false. cbv iota. rewrite bind_ret. do 3 eexists. split; [done|]. split; [done|]. do 2 right.
        do 3 (split; [done|]). exists sp, buf. do 3 (split; [done|]). simpl. by rewrite Hp1.
      * pose proof (owned_range h0 _ L last Ho Hin) as Hl0.
        rewrite (proj2 (Z.eqb_neq last 0)) by lia. cbn [negb]. rewrite bind_assoc, bind_gets.
        assert (Epl : p_parts (put_part p (mk_path_part sp 0) (set_p_heap h' s1)) !! last = Some pl).
        { simpl. rewrite lookup_insert_ne, Hp1; [done|]. intros ->. apply Hpn.
          rewrite fmap_cons. by right. }
        rewrite bind_assoc, (bind_expect _ _ _ _ Epl), bind_modify.
        do 3 eexists. split; [done|]. split; [done|]. do 2 right.
        do 3 (split; [done|]). exists sp, buf. do 3 (split; [done|]). simpl. by rewrite Hp1.
Qed.

(** The list of parts from [p]: the components and the blocks they occupy. *)
Fixpoint chain s (p : Z) (ps : list (list Z)) (L : list (Z * Z)) : Prop :=
  match ps with
  | [] => p = 0 /\ L = []
  | x :: ps' => exists q sp buf L',
      p_parts s !! p = Some (mk_path_part sp q) /\ p_strs s !! sp = Some buf /\ holds buf x /\
      0 < p < 2147483648 /\ L = (p, 1) :: (sp, 1) :: L' /\ chain s q ps' L'
  end.

Lemma parse_loop_spec n h0 L s last path str pl :
  owned h0 (p_heap s) L -> holds path str -> zlen str < KERNEL_MAX_PATH -> zlen str < Z.of_nat n ->
  last ∈ L.*1 -> p_parts s !! last = Some pl -> next pl = 0 ->
  exists ret s' q ps L', parse_loop n last path s = Done ret s' /\
    owned h0 (p_heap s') (L' ++ L) /\ chain s' q ps L' /\
    p_parts s' !! last = Some (mk_path_part (part pl) q) /\ p_roots s' = p_roots s /\
    (forall x, x ∈ L.*1 -> p_strs s' !! x = p_strs s !! x /\
       (x <> last -> p_parts s' !! x = p_parts s !! x)) /\
    (length ps <= length (parts_of str))%nat /\
    ((ret = 0 /\ ps = parts_of str) \/
     (ret = - ENOMEM /\ al_avail (p_heap s) < 2 * zlen (parts_of str) + 2)).
Proof.
  revert L s last path str pl. induction n as [|n IH]; intros L s last path str pl Ho Hh Hl Hn Hin Hpl Hnx.
  { pose proof (zlen_nonneg str). lia. }
  simpl. destruct (break_slash str) as [a b] eqn:E.
  destruct (parse_path_part_spec h0 L s last path str a b pl Ho Hh Hl E) as (r & path' & s1 & E1 & Hr1 & D);
    [by right|]. rewrite (bind_Done _ _ _ _ _ E1). rewrite parts_of_break, E.
  pose proof (zlen_nonneg (parts_of b)) as Hnb.
  destruct D as [(-> & Ho1 & Hk & Hav)|[(-> & -> & Ho1 & Hk)|(Ha & Hp' & Hr & sp & buf & Ho1 & Hst & Hbuf & Hpa)]].
  - exists (- ENOMEM), s1, 0, [], []. split; [done|]. split; [done|]. split; [done|].
    destruct (Hk last Hin) as (_ & -> & _). rewrite Hpl. split; [destruct pl; simpl in Hnx; by subst|].
    split; [done|]. split; [intros x Hx; by destruct (Hk x Hx) as (_ & -> & ->)|].
    split; [simpl; lia|]. right. split; [done|].
    destruct a; [change (zlen (@nil (list Z))) with 0; lia|rewrite zlen_cons; lia].
  - exists 0, s1, 0, [], []. split; [done|]. split; [done|]. split; [done|].
    destruct (Hk last Hin) as (_ & -> & _). rewrite Hpl. split; [destruct pl; simpl in Hnx; by subst|].
    split; [done|]. split; [intros x Hx; by destruct (Hk x Hx) as (_ & -> & ->)|]. by split; [simpl|left].
  - rewrite IS_ERROR_small, (proj2 (Z.eqb_neq r 0)) by lia. pose proof (break_slash_len _ _ _ E).
    assert (Hla : 0 < zlen a) by (destruct a; [done|rewrite zlen_cons; pose proof (zlen_nonneg a); lia]).
    pose proof (owned_range h0 _ L last Ho Hin) as Hl0.
    rewrite (proj2 (Z.eqb_neq last 0)) in Hpa by lia.
    pose proof (ow_nodup _ _ _ Ho1) as Hnd. rewrite !fmap_cons in Hnd. simpl in Hnd.
    apply NoDup_cons in Hnd as [Hrn [Hsn _]%NoDup_cons].
    assert (Hrl : r <> last) by (intros ->; apply Hrn; by right).
    destruct (IH ((r, 1) :: (sp, 1) :: L) s1 r path' b (mk_path_part sp 0)) as
      (ret & s2 & q & ps & L' & E2 & Ho2 & Hc & Hp2 & Hr2 & Hfr & Hlen & D); try done; try lia.
    { rewrite fmap_cons. by left. }
    { rewrite Hpa, lookup_insert_ne, lookup_insert_eq by done. done. }
    exists ret, s2, r, (a :: ps), ((r, 1) :: (sp, 1) :: L'). split; [exact E2|]. split_and!.
    + rewrite <- Permutation_middle in Ho2. simpl. rewrite <- Permutation_middle in Ho2. done.
    + exists q, sp, buf, L'. rewrite Hp2. split; [done|].
      destruct (Hfr sp) as [-> _]; [rewrite !fmap_cons; right; by left|].
      rewrite Hst, lookup_insert_eq. done.
    + destruct (Hfr last) as [_ Hf]; [rewrite !fmap_cons; do 2 right; done|]. rewrite Hf by congruence.
      by rewrite Hpa, lookup_insert_eq.
    + by rewrite Hr2.
    + intros x Hx. assert (Hxr : x <> r) by (intros ->; apply Hrn; by right).
      assert (Hxs : x <> sp) by (intros ->; done).
      destruct (Hfr x) as [-> Hfx]; [rewrite !fmap_cons; do 2 right; done|].
      rewrite Hst, lookup_insert_ne by done. split; [done|]. intros Hxl.
      rewrite Hfx by done. rewrite Hpa, !lookup_insert_ne by done. done.
    + destruct a; [done|]. simpl. lia.
    + destruct a as [|c a]; [done|]. destruct D as [[-> ->]|[-> Hav]]; [by left|right].
      split; [done|]. rewrite (heap_avail _ _ _ Ho1) in Hav. simpl in Hav.
      rewrite (heap_avail _ _ _ Ho), zlen_cons. lia.
Qed.

Lemma chain_keeps s s' p ps L :
  p_parts s' = p_parts s -> p_strs s' = p_strs s -> chain s p ps L -> chain s' p ps L.
Proof.
  intros Hp Hs. revert p L. induction ps as [|x ps IH]; intros p L; simpl; [done|].
  intros (q & sp & buf & L' & H1 & H2 & H3 & H4 & H5 & H6). exists q, sp, buf, L'.
  rewrite Hp, Hs. split_and!; try done; try lia. by apply IH.
Qed.

Lemma free_loop_spec n h0 s p ps L K :
  chain s p ps L -> owned h0 (p_heap s) (L ++ K) -> (length ps < n)%nat ->
  exists s', free_loop n p s = Done tt s' /\ owned h0 (p_heap s') K /\
    p_roots s' = p_roots s /\ p_parts s' = p_parts s /\ p_strs s' = p_strs s.
Proof.
  revert s p ps L. induction n as [|n IH]; intros s p ps L Hc Ho Hn; [lia|]. simpl.
  destruct ps as [|x ps]; simpl in Hc.
  - destruct Hc as [-> ->]. simpl. by exists s.
  - destruct Hc as (q & sp & buf & L' & H1 & H2 & H3 & H4 & -> & H6).
    rewrite (proj2 (Z.eqb_neq p 0)) by lia. rewrite bind_gets, (bind_expect _ _ _ _ H1). cbv beta.
    simpl in Ho. rewrite (perm_swap (sp, 1) (p, 1)) in Ho.
    destruct (p_free_spec h0 _ s sp 1 Ho) as (h1 & E1 & Ho1). simpl part. rewrite (bind_Done _ _ _ _ _ E1).
    destruct (p_free_spec h0 _ (set_p_heap h1 s) p 1 Ho1) as (h2 & E2 & Ho2).
    rewrite (bind_Done _ _ _ _ _ E2).
    destruct (IH (set_p_heap h2 (set_p_heap h1 s)) q ps L') as (s' & E' & Ho' & Hr' & Hp' & Hs').
    + by apply (chain_keeps s).
    + done.
    + simpl in Hn. lia.
    + by exists s'.
Qed.

Lemma pathparser_free_spec n h0 s r d f ps L K :
  0 < r -> p_roots s !! r = Some (mk_path_root d f) -> chain s f ps L ->
  owned h0 (p_heap s) ((r, 1) :: L ++ K) -> (length ps < n)%nat ->
  exists s', pathparser_free n r s = Done tt s' /\ owned h0 (p_heap s') K.
Proof.
  intros Hr Hroot Hc Ho Hn. unfold pathparser_free. rewrite (proj2 (Z.eqb_neq r 0)) by lia.
  rewrite bind_gets, (bind_expect _ _ _ _ Hroot). simpl first. rewrite Permutation_middle in Ho.
  destruct (free_loop_spec n h0 s f ps L ((r, 1) :: K) Hc Ho Hn) as (s1 & E1 & Ho1 & _).
  rewrite (bind_Done _ _ _ _ _ E1). destruct (p_free_spec h0 _ s1 r 1 Ho1) as (h2 & E2 & Ho2).
  exists (set_p_heap h2 s1). by split.
Qed.

Lemma vaild_format_spec path str :
  holds path str ->
  pathpraser_path_vaild_format path =
  Some match str with d :: c :: sl :: _ => isdigit d && (c =? 58) && (sl =? 47) | _ => false end.
Proof.
  intros Hh. unfold pathpraser_path_vaild_format. rewrite (strnlen_spec path str) by done.
  destruct str as [|d [|c [|sl str]]]; [done..|].
  rewrite !zlen_cons. pose proof (zlen_nonneg str). unfold KERNEL_MAX_PATH.
  rewrite (proj2 (Z.ltb_ge _ _)) by lia.
  apply holds_cons in Hh as (p1 & -> & Hd & Hh). apply holds_cons in Hh as (p2 & -> & Hc & Hh).
  apply holds_cons in Hh as (p3 & -> & Hs & Hh). destruct (isdigit d); [|done]. unfold memcmp. simpl.
  destruct (c =? 58); cbn [negb andb]; [|by destruct (i8 c <? i8 58)].
  destruct (sl =? 47); cbn [negb]; [by destruct p3|by destruct (i8 sl <? i8 47)].
Qed.

Lemma drop_holds path str d c sl : holds path (d :: c :: sl :: str) -> holds (drop 3 path) str /\ hd 0 path = d.
Proof.
  intros Hh. apply holds_cons in Hh as (p1 & -> & Hd & Hh). apply holds_cons in Hh as (p2 & -> & Hc & Hh).
  apply holds_cons in Hh as (p3 & -> & Hs & Hh). done.
Qed.

Lemma tonumericdigit_range d : is_char d -> isdigit d = true -> tonumericdigit d = d - 48 /\ 0 <= d - 48 <= 9.
Proof. unfold is_char, isdigit, tonumericdigit, i8. intros. Z.to_euclidean_division_equations. lia. Qed.

(** The parsed path: root, parts, and the blocks they occupy. *)
Definition parsed s r d ps L : Prop :=
  0 < r < 2147483648 /\ exists f, p_roots s !! r = Some (mk_path_root d f) /\ chain s f ps L.

(** [pathparser_parse] after the format check. *)
Lemma parse_parts_spec s d rest :
  forall path n, al_ok (p_heap s) -> holds path rest -> zlen rest < KERNEL_MAX_PATH -> zlen rest < Z.of_nat n ->
  exists r s',
    (path_root ← pathparser_create_root d;
     if IS_ERROR path_root then parse_out n (ERROR_I path_root) path_root
     else
       r ← pathparser_parse_path_part 0 path;
       let '(path_part, tmp_path) := r in
       if IS_ERROR path_part || (path_part =? 0) then
         parse_out n (if IS_ERROR path_part then ERROR_I path_part else - EINVAGS) path_root
       else
         root ← gets (fun s => p_roots s !! path_root);
         root ← expect root;
         modify (put_root path_root (mk_path_root (drive_no root) path_part));;
         ret ← parse_loop n path_part tmp_path;
         parse_out n ret path_root) s = Done r s' /\
  ((r = ERROR (- ENOMEM) /\ owned (p_heap s) (p_heap s') [] /\
    al_avail (p_heap s) < 2 * zlen (parts_of rest) + 3) \/
   (parts_of rest = [] /\ r = ERROR (- EINVAGS) /\ owned (p_heap s) (p_heap s') []) \/
   (parts_of rest <> [] /\ exists L, parsed s' r d (parts_of rest) L /\
    owned (p_heap s) (p_heap s') ((r, 1) :: L))).
Proof.
  intros path n Hok Hh Hl Hn. pose proof (zlen_nonneg (parts_of rest)) as Hnp.
  pose proof (zlen_nonneg rest) as Hnr.
  unfold pathparser_create_root.
  destruct (p_zalloc_spec (p_heap s) [] s 8 (owned_refl _ Hok) ltac:(done) ltac:(reflexivity)) as (r & h1 & E1 & D).
  rewrite bind_assoc, (bind_Done _ _ _ _ _ E1).
  destruct D as [(-> & Es & Hav)|(Hr & Ho1 & _)].
  { rewrite Es. do 2 eexists. split; [reflexivity|]. left. split; [done|].
    split; [by apply owned_refl|lia]. }
  rewrite (proj2 (Z.eqb_neq r 0)) by lia. rewrite bind_assoc, bind_modify, bind_ret.
  rewrite IS_ERROR_small by lia. destruct (break_slash rest) as [a b] eqn:E.
  set (s1 := put_root r (mk_path_root d 0) (set_p_heap h1 s)).
  destruct (parse_path_part_spec (p_heap s) [(r, 1)] s1 0 path rest a b (mk_path_part 0 0) Ho1 Hh Hl E)
    as (p & path' & s2 & E2 & Hr2 & D); [by left|].
  rewrite (bind_Done _ _ _ _ _ E2). cbv beta iota.
  assert (Hfree : forall s3 f ps L K e, p_roots s3 !! r = Some (mk_path_root d f) -> chain s3 f ps L ->
            owned (p_heap s) (p_heap s3) ((r, 1) :: L ++ K) -> (length ps < n)%nat -> e < 0 ->
            exists s', parse_out n e r s3 = Done (ERROR e) s' /\ owned (p_heap s) (p_heap s') K).
  { intros s3 f ps L K e Hroot Hc Ho3 Hlen He. unfold parse_out. rewrite (proj2 (Z.ltb_lt e 0)) by done.
    rewrite (proj2 (Z.eqb_neq r 0)), IS_ERROR_small by lia. cbn [negb andb].
    destruct (pathparser_free_spec n _ s3 r d f ps L K ltac:(lia) Hroot Hc Ho3 Hlen) as (s' & E' & Ho').
    exists s'. rewrite (bind_Done _ _ _ _ _ E'). by split. }
  assert (Hroot2 : p_roots s2 !! r = Some (mk_path_root d 0))
    by (rewrite Hr2; unfold s1; simpl; apply lookup_insert_eq).
  rewrite parts_of_break, E. pose proof (zlen_nonneg (parts_of b)) as Hnb.
  destruct D as [(-> & Ho2 & Hk & Hav)|[(-> & -> & Ho2 & Hk)|(Ha & Hp' & Hp & sp & buf & Ho2 & Hst & Hbuf & Hpa)]].
  - change (IS_ERROR (ERROR (- ENOMEM))) with true. cbn [orb]. change (ERROR_I (ERROR (- ENOMEM))) with (- ENOMEM).
    destruct (Hfree s2 0 [] [] [] (- ENOMEM)) as (s' & E' & Ho'); try done; [simpl; lia|].
    do 2 eexists. split; [exact E'|]. left. split; [done|]. split; [done|].
    unfold s1 in Hav. simpl in Hav. rewrite (heap_avail _ _ _ Ho1) in Hav. simpl in Hav.
    destruct a; [change (zlen (@nil (list Z))) with 0; lia|rewrite zlen_cons; lia].
  - change (IS_ERROR 0 || (0 =? 0)) with true. change (IS_ERROR 0) with false. cbv iota.
    destruct (Hfree s2 0 [] [] [] (- EINVAGS)) as (s' & E' & Ho'); try done; [simpl; lia|].
    do 2 eexists. split; [exact E'|]. right. left. done.
  - rewrite (IS_ERROR_small p), (proj2 (Z.eqb_neq p 0)) by lia. cbn [orb].
    rewrite bind_gets, (bind_expect _ _ _ _ Hroot2), bind_modify. cbv beta. cbn [drive_no].
    set (s3 := put_root r (mk_path_root d p) s2). pose proof (break_slash_len _ _ _ E).
    pose proof (zlen_nonneg a) as Hza. simpl in Hpa.
    destruct (parse_loop_spec n (p_heap s) ((p, 1) :: (sp, 1) :: [(r, 1)]) s3 p path' b (mk_path_part sp 0))
      as (ret & s4 & q & ps & L' & E4 & Ho4 & Hc & Hp4 & Hr4 & Hfr & Hlen & D); try done; try lia.
    { by left. }
    { unfold s3. simpl. by rewrite Hpa, lookup_insert_eq. }
    rewrite (bind_Done _ _ _ _ _ E4).
    assert (Hchain : chain s4 p (a :: ps) ((p, 1) :: (sp, 1) :: L')).
    { exists q, sp, buf, L'. rewrite Hp4. split; [done|].
      destruct (Hfr sp) as [-> _]; [simpl; right; by left|].
      unfold s3. simpl. by rewrite Hst, lookup_insert_eq. }
    assert (Hroot4 : p_roots s4 !! r = Some (mk_path_root d p)).
    { rewrite Hr4. unfold s3. simpl. apply lookup_insert_eq. }
    assert (Ho4' : owned (p_heap s) (p_heap s4) ((r, 1) :: ((p, 1) :: (sp, 1) :: L') ++ [])).
    { rewrite app_nil_r. rewrite <- (Permutation_app_comm [_; _; _] L') in Ho4. simpl in Ho4.
      rewrite (perm_swap (r, 1) (sp, 1)) in Ho4. by rewrite (perm_swap (r, 1) (p, 1)) in Ho4. }
    destruct a as [|c a]; [done|]. destruct D as [[-> ->]|[-> Hav]].
    + exists r, s4. split; [done|]. do 2 right. split; [done|]. exists ((p, 1) :: (sp, 1) :: L').
      split; [by split; [|exists p]|]. by rewrite app_nil_r in Ho4'.
    + destruct (Hfree s4 p _ _ [] (- ENOMEM) Hroot4 Hchain Ho4') as (s' & E' & Ho'); [|done|].
      * simpl. assert (Hpl : Z.of_nat (length (parts_of b)) <= zlen b) by apply parts_of_len.
        rewrite zlen_cons in *. pose proof (zlen_nonneg a). lia.
      * do 2 eexists. split; [exact E'|]. left. split; [done|]. split; [done|].
        unfold s3 in Hav. simpl in Hav. rewrite (heap_avail _ _ _ Ho2) in Hav. simpl in Hav.
        rewrite zlen_cons. lia.
Qed.
End proofs.

(** The postcondition of [pathparser_parse]. *)
Definition parse_post {H : Type} {AH : Allocator H} (s : paths H) (str : list Z) (r : Z) (s' : paths H) : Prop :=
  match spec_parse str with
  | None =>
      own_same (p_heap s) (p_heap s') /\
      (r = ERROR (- EINVAGS) \/ (r = ERROR (- ENOMEM) /\ al_avail (p_heap s) < 3))
  | Some (d, ps) =>
      (r = ERROR (- ENOMEM) /\ own_same (p_heap s) (p_heap s') /\
       al_avail (p_heap s) < 2 * zlen ps + 3) \/
      (exists L, parsed s' r d ps L /\ owned (p_heap s) (p_heap s') ((r, 1) :: L))
  end.

Lemma parse_total {H : Type} {AH : Allocator H} {LH : @AllocatorLaws H AH}
    (s : paths H) (path str : list Z) :
  al_ok (p_heap s) -> holds path str ->
  exists r s', pathparser_parse path s = Done r s' /\ parse_post s str r s'.
Proof.
  intros Hok Hh. unfold pathparser_parse. rewrite (bind_expect _ _ _ _ (strlen_spec path str Hh)).
  unfold parse_post, spec_parse. destruct (Z.ltb_spec KERNEL_MAX_PATH (zlen str)) as [Hl|Hl].
  { do 2 eexists. split; [reflexivity|]. split; [apply (owned_nil _ _ (owned_refl _ Hok))|by left]. }
  unfold pathparser_get_drive_by_path. rewrite (vaild_format_spec path str Hh).
  assert (Hbad : forall b, b = false -> exists r s',
    (d ← expect (if b : bool then Some (tonumericdigit (hd 0 path), drop 3 path) else Some (- EBADPATH, path));
     let '(drive, tmp_path) := d in
     if drive <? 0 then parse_out (S (length path)) (- EINVAGS) 0 else nofuel) s = Done r s' /\
    own_same (p_heap s) (p_heap s') /\
    (r = ERROR (- EINVAGS) \/ (r = ERROR (- ENOMEM) /\ al_avail (p_heap s) < 3))).
  { intros b ->. do 2 eexists. split; [reflexivity|].
    split; [apply (owned_nil _ _ (owned_refl _ Hok))|by left]. }
  destruct str as [|d [|c [|sl rest]]]; try by apply (Hbad false).
  destruct (isdigit d && (c =? 58) && (sl =? 47)) eqn:Ef; [|by apply (Hbad false)]. clear Hbad.
  destruct (drop_holds _ _ _ _ _ Hh) as [Hh' Hd]. rewrite Hd.
  apply andb_true_iff in Ef as [[Hdig _]%andb_true_iff _].
  assert (Hdc : is_char d) by (destruct Hh as [Hc _]; by apply Forall_cons in Hc as [? _]).
  destruct (tonumericdigit_range d Hdc Hdig) as [-> Hd9]. rewrite (bind_expect _ _ _ (d - 48, drop 3 path)) by done.
  rewrite (proj2 (Z.ltb_ge (d - 48) 0)) by lia. rewrite !zlen_cons in Hl.
  assert (Hlen : zlen rest < Z.of_nat (S (length path))).
  { destruct Hh as [_ [tl ->]]. unfold zlen. rewrite length_app. simpl. lia. }
  destruct (parse_parts_spec s (d - 48) rest (drop 3 path) (S (length path)) Hok Hh' ltac:(lia) Hlen)
    as (r & s' & E & D). exists r, s'. split; [exact E|].
  destruct (parts_of rest) as [|p ps] eqn:Ep.
  - change (zlen (@nil (list Z))) with 0 in D.
    destruct D as [(-> & Ho & Hav)|[(_ & -> & Ho)|[? _]]]; [| |done]; (split; [by apply owned_nil|]);
      [right; split; [done|lia]|by left].
  - destruct D as [(-> & Ho & Hav)|[[? _]|(_ & L & Hp & Ho)]]; [|done|].
    + left. split; [done|]. split; [by apply owned_nil|done].
    + right. by exists L.
Qed.

(** ** Properties *)

(** C39: [pathparser_parse] returns what the path means.  A path that is too long, not of
    the form ["d:/..."] or without a component gives [-EINVAGS]; otherwise the result is
    the root of a list holding the drive number and the components up to the first empty
    one.  It fails with [-ENOMEM] only when the heap is nearly full, and every failure
    gives back all the blocks it took. *)
Theorem pathparser_parse_spec {H : Type} {AH : Allocator H} {LH : @AllocatorLaws H AH}
    (s : paths H) (path str : list Z) :
  al_ok (p_heap s) -> holds path str ->
  exists r s', pathparser_parse path s = Done r s' /\
  match spec_parse str with
  | None =>
      own_same (p_heap s) (p_heap s') /\
      (r = ERROR (- EINVAGS) \/ (r = ERROR (- ENOMEM) /\ al_avail (p_heap s) < 3))
  | Some (d, ps) =>
      (r = ERROR (- ENOMEM) /\ own_same (p_heap s) (p_heap s') /\
       al_avail (p_heap s) < 2 * zlen ps + 3) \/
      (exists L, parsed s' r d ps L /\ owned (p_heap s) (p_heap s') ((r, 1) :: L))
  end.
Proof. intros Hok Hh. exact (parse_total s path str Hok Hh). Qed.

(** ["0:/a/b"] *)
Definition example_path : list Z := [48; 58; 47; 97; 47; 98].

Lemma pathparser_parse_spec_witness :
  let s := mk_paths boot_heap ∅ ∅ ∅ in
  exists r s' L, pathparser_parse (example_path ++ [0]) s = Done r s' /\ parsed s' r 0 [[97]; [98]] L.
Proof.
  intros s.
  destruct (pathparser_parse_spec s (example_path ++ [0]) example_path) as (r & s' & E & D).
  - exact boot_heap_ok.
  - apply holds_nul. unfold example_path, is_char. repeat constructor; lia.
  - assert (Es : spec_parse example_path = Some (0, [[97]; [98]])) by (vm_compute; reflexivity).
    rewrite Es in D. exists r, s'. destruct D as [(_ & _ & Hav)|(L & Hp & _)]; [exfalso|exists L; split; [exact E|exact Hp]].
    pose proof boot_heap_avail as Ea. unfold s in Hav. cbn [p_heap] in Hav. rewrite Ea in Hav.
    vm_compute in Hav. discriminate Hav.
Defined.

(** round trip.  For every digit and every list of non-empty names without ['/'], the
    text ["d:/name/.../name/"] of at most 108 characters parses to exactly that drive and
    those names, and [pathparser_free] then gives back every block. *)
Theorem pathparser_roundtrip {H : Type} {AH : Allocator H} {LH : @AllocatorLaws H AH}
    (s : paths H) (d : Z) (ps : list (list Z)) :
  al_ok (p_heap s) -> 0 <= d <= 9 -> ps <> [] -> Forall name_ok ps ->
  zlen (render d ps) <= KERNEL_MAX_PATH -> 2 * zlen ps + 3 <= al_avail (p_heap s) ->
  exists r s1 s2 L, pathparser_parse (render d ps ++ [0]) s = Done r s1 /\
    parsed s1 r d ps L /\
    pathparser_free (S (length ps)) r s1 = Done tt s2 /\
    own_same (p_heap s) (p_heap s2) /\ al_avail (p_heap s2) = al_avail (p_heap s).
Proof.
  intros Hok Hd Hne Hps Hlen Hav.
  assert (Hh : holds (render d ps ++ [0]) (render d ps)).
  { apply holds_nul. unfold render. apply Forall_app. split; [|by apply name_chars].
    unfold is_char. repeat constructor; lia. }
  destruct (parse_total s (render d ps ++ [0]) (render d ps) Hok Hh) as (r & s1 & E & D).
  unfold parse_post in D. rewrite (spec_parse_render d ps Hd Hne Hps Hlen) in D.
  destruct D as [(_ & _ & Hlow)|(L & Hp & Ho)]; [lia|].
  pose proof Hp as (Hr & f & Hroot & Hc).
  assert (Ho' : owned (p_heap s) (p_heap s1) ((r, 1) :: L ++ [])) by (by rewrite app_nil_r).
  destruct (pathparser_free_spec (S (length ps)) _ s1 r d f ps L [] ltac:(lia) Hroot Hc Ho' ltac:(lia))
    as (s2 & E2 & Ho2).
  exists r, s1, s2, L. split; [exact E|]. split; [exact Hp|]. split; [exact E2|]. by apply owned_nil.
Qed.

Lemma pathparser_roundtrip_witness :
  let s := mk_paths boot_heap ∅ ∅ ∅ in
  exists r s1 s2, pathparser_parse (render 0 [[97]; [98]] ++ [0]) s = Done r s1 /\
    pathparser_free 3 r s1 = Done tt s2 /\ al_avail (p_heap s2) = 25600.
Proof.
  intros s.
  destruct (pathparser_roundtrip s 0 [[97]; [98]]) as (r & s1 & s2 & L & E1 & _ & E2 & _ & E3).
  - exact boot_heap_ok.
  - lia.
  - discriminate.
  - unfold name_ok, is_char. repeat constructor; discriminate || lia.
  - vm_compute. discriminate.
  - unfold s. cbn [p_heap]. rewrite boot_heap_avail. vm_compute. discriminate.
  - exists r, s1, s2. split; [exact E1|]. split; [exact E2|]. rewrite E3. exact boot_heap_avail.
Defined.
