(* ===== verification/Disk.v ===== *)
(** * The ATA disk and byte streams over it: kernel/disk.c, kernel/streamer.c

    The disk controller is not kernel code: [AtaDevice] is its port interface and
    [AtaLaws] what the ATA-6 standard says of a PIO READ SECTORS command.  The class
    [BlockDevice] is what the file system relies on; [ata_block_device_laws] shows that
    [disk_read_sector] provides it. *)
From S2P Require Import Prelude Heap Kheap.

Class AtaDevice (D : Type) := {
  outb : D -> Z -> Z -> D;
  insb : D -> Z -> Z * D;
  insw : D -> Z -> Z * D;
  (** The device's own state: the 256 words of each sector, the command block registers,
      the words still to be transferred, the status reads left before DRQ is set. *)
  ata_sector : D -> Z -> list Z;
  ata_reg : D -> Z -> Z;
  ata_queue : D -> list Z;
  ata_delay : D -> nat
}.

(** The address in the registers of the command block (LBA mode, 28 bits). *)
Definition ata_lba {D} `{AtaDevice D} (d : D) : Z :=
  ata_reg d 499 + 256 * ata_reg d 500 + 65536 * ata_reg d 501 + 16777216 * (ata_reg d 502 mod 16).

Class AtaLaws (D : Type) `{AtaDevice D} := {
  ata_sector_len : forall d l, length (ata_sector d l) = 256%nat;
  ata_sector_words : forall d l w, w ∈ ata_sector d l -> 0 <= w < 65536;
  (** Writing a register of the command block. *)
  outb_reg : forall d p v, 498 <= p <= 502 ->
    (forall q, ata_reg (outb d p v) q = if q =? p then v else ata_reg d q) /\
    ata_sector (outb d p v) = ata_sector d;
  (** READ SECTORS. *)
  outb_read : forall d, Z.testbit (ata_reg d 502) 6 = true -> 0 < ata_reg d 498 ->
    ata_queue (outb d 503 32) =
      concat (map (fun i => ata_sector d (ata_lba d + i)) (seqZ 0 (ata_reg d 498))) /\
    ata_sector (outb d 503 32) = ata_sector d;
  (** Polling the status register: DRQ (bit 3) is set once the delay is over. *)
  insb_status : forall d, ata_queue d <> [] ->
    Z.testbit (fst (insb d 503)) 3 = bool_decide (ata_delay d = 0%nat) /\
    0 <= fst (insb d 503) < 256 /\
    ata_delay (snd (insb d 503)) = pred (ata_delay d) /\
    ata_queue (snd (insb d 503)) = ata_queue d /\ ata_sector (snd (insb d 503)) = ata_sector d;
  (** Reading the data register while DRQ is set; DRQ stays set within a sector. *)
  insw_data : forall d w q, ata_queue d = w :: q -> ata_delay d = 0%nat ->
    fst (insw d 496) = w /\ ata_queue (snd (insw d 496)) = q /\
    ata_sector (snd (insw d 496)) = ata_sector d /\
    (Z.of_nat (length q) mod 256 <> 0 -> ata_delay (snd (insw d 496)) = 0%nat)
}.

(** ** kernel/disk.c *)

(** Addresses the linker gives to the kernel's global objects. *)
Class Layout := {
  addr_disk : Z;
  addr_fat16_fs : Z;
  addr_disk_pos : 0 < addr_disk;
  addr_fat16_fs_range : 0 < addr_fat16_fs < 2147483648
}.

Record disk := mk_disk {
  disk_type : Z;
  disk_id : Z;
  sector_size : Z;
  filesystem_ptr : Z;
  fs_private : Z
}.

Definition KERNEL_DISK_TYPE_REAL : Z := 0.

Section disk.
Context {D : Type} {A : AtaDevice D}.
(** [fuel] bounds the polls of the status register. *)
Context (fuel : nat).

(** [outb] truncates its argument to a byte. *)
Definition out_port (port val : Z) : M D unit := modify (fun d => outb d port (u8 val)).
Definition in_byte (port : Z) : M D Z := fun d => let '(v, d') := insb d port in Done v d'.
Definition in_word (port : Z) : M D Z := fun d => let '(v, d') := insw d port in Done v d'.

(** [while(!(c & 0x08)) c = insb(0x1F7);] *)
Fixpoint wait_ready (n : nat) (c : Z) : M D unit :=
  match n with
  | O => nofuel
  | S n' =>
      if Z.land c 8 =? 0 then c ← in_byte 503; wait_ready n' c
      else mret tt
  end.

(** The 256-word transfer; a word is stored low byte first. *)
Fixpoint read_words (n : nat) : M D (list Z) :=
  match n with
  | O => mret []
  | S n' =>
      w ← in_word 496;
      rest ← read_words n';
      mret (w mod 256 :: w / 256 :: rest)
  end.

Fixpoint read_blocks (n : nat) : M D (list Z) :=
  match n with
  | O => mret []
  | S n' =>
      c ← in_byte 503;
      wait_ready fuel c;;
      block ← read_words 256;
      rest ← read_blocks n';
      mret (block ++ rest)
  end.

(** The result and the bytes stored at [buf]. *)
Definition disk_read_sector (lba total : Z) : M D (Z * list Z) :=
  out_port 502 (Z.lor (Z.shiftr lba 24) 224);;
  out_port 498 total;;
  out_port 499 (Z.land lba 255);;
  out_port 500 (Z.shiftr lba 8);;
  out_port 501 (Z.shiftr lba 16);;
  out_port 503 32;;
  bytes ← read_blocks (Z.to_nat total);
  mret (0, bytes).
End disk.

Definition disk_get `{Layout} (index : Z) : Z := if negb (index =? 0) then 0 else addr_disk.

(** ** What the file system needs of a disk *)

Class BlockDevice (B : Type) := {
  bd_read : Z -> Z -> M B (Z * list Z);
  bd_image : B -> Z -> list Z
}.

Class BlockDeviceLaws (B : Type) `{BlockDevice B} := {
  bd_read_spec : forall b lba, 0 <= lba < 268435456 ->
    exists b', bd_read lba 1 b = Done (0, bd_image b lba) b' /\ bd_image b' = bd_image b;
  bd_image_len : forall b lba, zlen (bd_image b lba) = KERNEL_SECTOR_SIZE;
  bd_image_bytes : forall b lba c, c ∈ bd_image b lba -> 0 <= c < 256
}.

Definition disk_read_block `{Layout} {B} `{BlockDevice B} (idisk lba total : Z) : M B (Z * list Z) :=
  if negb (idisk =? addr_disk) then mret (- EIO, [])
  else bd_read (i32 (u32 lba)) total.

(** ** kernel/streamer.c *)

Record disk_stream := mk_disk_stream { pos : Z; stream_disk : Z }.

Record streams (H B : Type) := mk_streams {
  st_heap : H;
  st_dev : B;
  st_streams : gmap Z disk_stream
}.
Arguments mk_streams {H B}.
Arguments st_heap {H B}.
Arguments st_dev {H B}.
Arguments st_streams {H B}.

Section streamer.
Context {H B : Type} `{Layout} `{Allocator H} `{BlockDevice B}.
Implicit Types (s : streams H B).

Definition set_st_heap (h : H) s : streams H B := mk_streams h (st_dev s) (st_streams s).
Definition set_st_dev (d : B) s : streams H B := mk_streams (st_heap s) d (st_streams s).
Definition put_stream (a : Z) (t : disk_stream) s : streams H B :=
  mk_streams (st_heap s) (st_dev s) (<[a := t]> (st_streams s)).

Definition st_alloc (size : Z) : M (streams H B) Z := zoom st_heap set_st_heap (al_alloc size).
Definition st_free (ptr : Z) : M (streams H B) unit := zoom st_heap set_st_heap (al_release ptr).

Definition diskstream_new (id : Z) : M (streams H B) Z :=
  let disk := disk_get id in
  if disk =? 0 then mret 0
  else
    stream ← st_alloc 8;
    if stream =? 0 then mret 0
    else modify (put_stream stream (mk_disk_stream 0 disk));; mret stream.

Definition get_stream (stream : Z) : M (streams H B) disk_stream :=
  t ← gets (fun s => st_streams s !! stream); expect t.

Definition diskstream_seek (stream p : Z) : M (streams H B) Z :=
  if stream =? 0 then mret (- EINVAGS)
  else
    t ← get_stream stream;
    modify (put_stream stream (mk_disk_stream p (stream_disk t)));; mret 0.

(** [n] bytes from index [o] of a buffer. *)
Definition bytes_from (buf : list Z) (o n : Z) : option (list Z) :=
  if (0 <=? o) && (o + n <=? zlen buf) then Some (take (Z.to_nat n) (drop (Z.to_nat o) buf)) else None.

(** The loop of [diskstream_read]: the result and the bytes stored at [out_buf]. *)
Fixpoint read_loop (n : nat) (stream remain : Z) : M (streams H B) (Z * list Z) :=
  match n with
  | O => nofuel
  | S n' =>
      if 0 <? remain then
        t ← get_stream stream;
        let lba := cdiv (pos t) KERNEL_SECTOR_SIZE in
        let offset := crem (pos t) KERNEL_SECTOR_SIZE in
        let read_size := Z.min (KERNEL_SECTOR_SIZE - offset) remain in
        r ← zoom st_dev set_st_dev (disk_read_block (stream_disk t) lba 1);
        let '(ret, buf) := r in
        if negb (ret =? KERNEL_ALL_OK) then mret (ret, [])
        else
          part ← expect (bytes_from buf offset read_size);
          t ← get_stream stream;
          modify (put_stream stream (mk_disk_stream (i32 (pos t + read_size)) (stream_disk t)));;
          r ← read_loop n' stream (remain - read_size);
          let '(ret, rest) := r in
          mret (ret, part ++ rest)
      else mret (KERNEL_ALL_OK, [])
  end.

(** The result and the bytes stored at [out]. *)
Definition diskstream_read (stream out total : Z) : M (streams H B) (Z * list Z) :=
  if (stream =? 0) || (out =? 0) || (total <? 0) then mret (- EINVAGS, [])
  else
    buf ← st_alloc KERNEL_SECTOR_SIZE;
    if buf =? 0 then mret (- ENOMEM, [])
    else
      r ← read_loop (S (Z.to_nat total)) stream total;
      st_free buf;;
      mret r.

Definition diskstream_close (stream : Z) : M (streams H B) unit :=
  if stream =? 0 then mret tt else st_free stream.
End streamer.

(** ** [disk_read_sector] *)

(** The bytes of a word of the data register, as stored in memory. *)
Fixpoint words_bytes (ws : list Z) : list Z :=
  match ws with [] => [] | w :: ws' => w mod 256 :: w / 256 :: words_bytes ws' end.

Lemma words_bytes_len ws : zlen (words_bytes ws) = 2 * zlen ws.
Proof. induction ws as [|w ws IH]; [done|]. simpl. rewrite !zlen_cons, IH. lia. Qed.

Lemma words_bytes_range ws c :
  (forall w, w ∈ ws -> 0 <= w < 65536) -> c ∈ words_bytes ws -> 0 <= c < 256.
Proof.
  induction ws as [|w ws IH]; intros Hw Hc; simpl in Hc; [by apply elem_of_nil in Hc|].
  assert (0 <= w < 65536) by (apply Hw; left).
  apply elem_of_cons in Hc as [-> |[-> |Hc]%elem_of_cons].
  - apply Z.mod_pos_bound. lia.
  - Z.to_euclidean_division_equations. lia.
  - apply IH; [|done]. intros w' Hw'. apply Hw. by right.
Qed.

Section ata.
Context {D : Type} {A : AtaDevice D} {L : AtaLaws D}.
Context (fuel : nat).
Hypothesis Hfuel : forall d : D, (ata_delay d < fuel)%nat.
Implicit Types (d : D).

Lemma bit3 c : 0 <= c < 256 -> (Z.land c 8 =? 0) = negb (Z.testbit c 3).
Proof.
  intros Hc. apply Bool.eqb_prop.
  exact (zrange_forall (fun c => Bool.eqb (Z.land c 8 =? 0) (negb (Z.testbit c 3))) 256
           ltac:(vm_compute; reflexivity) c Hc).
Qed.

Lemma wait_ready_spec n d c :
  ata_queue d <> [] -> 0 <= c < 256 -> (Z.testbit c 3 = true -> ata_delay d = 0%nat) ->
  (ata_delay d < n)%nat -> (Z.testbit c 3 = false -> (ata_delay d + 1 < n)%nat) ->
  exists d', wait_ready n c d = Done tt d' /\ ata_queue d' = ata_queue d /\
    ata_sector d' = ata_sector d /\ ata_delay d' = 0%nat.
Proof.
  revert d c. induction n as [|n IH]; intros d c Hq Hc Hb Hn Hn'; [lia|]. simpl.
  rewrite bit3 by done. destruct (Z.testbit c 3) eqn:E; simpl.
  - exists d. split_and!; try done. by apply Hb.
  - destruct (insb_status d Hq) as (Hst & Hr & Hdl & Hq' & Hs'). unfold in_byte at 1.
    unfold mbind at 1, M_bind at 1. destruct (insb d 503) as [v d1]. simpl in *.
    destruct (IH d1 v) as (d' & E' & Eq & Es & Ed); try done.
    + by rewrite Hq'.
    + rewrite Hst. intros Hz%bool_decide_eq_true. rewrite Hdl, Hz. done.
    + specialize (Hn' eq_refl). lia.
    + rewrite Hst. intros Hz%bool_decide_eq_false. specialize (Hn' eq_refl). lia.
    + exists d'. split; [done|]. by rewrite Eq, Es, Hq', Hs'.
Qed.

(** Transferring [ws], the first words of the queue, within a sector. *)
Lemma read_words_spec ws q d :
  ata_queue d = ws ++ q -> ata_delay d = 0%nat -> Z.of_nat (length q) mod 256 = 0 ->
  (length ws <= 256)%nat ->
  exists d', read_words (length ws) d = Done (words_bytes ws) d' /\ ata_queue d' = q /\
    ata_sector d' = ata_sector d.
Proof.
  revert d. induction ws as [|w ws IH]; intros d Hq Hd Hm Hl; simpl; [by exists d|].
  destruct (insw_data d w (ws ++ q) Hq Hd) as (Hw & Hq' & Hs & Hd').
  unfold in_word at 1. unfold mbind at 1, M_bind at 1. destruct (insw d 496) as [v d1]. simpl in *. subst v.
  destruct ws as [|w' ws].
  - exists d1. simpl. done.
  - destruct (IH d1 Hq') as (d' & E & Eq & Es); [|done|simpl in *; lia|].
    + apply Hd'. rewrite length_app. simpl in *. revert Hm Hl. clear. intros Hm Hl Hx.
      Z.to_euclidean_division_equations. lia.
    + exists d'. rewrite (bind_Done _ _ _ _ _ E). by rewrite Es.
Qed.

(** The four address registers hold the sector number. *)
Lemma lba_bytes lba :
  0 <= lba < 268435456 ->
  u8 (Z.land lba 255) + 256 * u8 (Z.shiftr lba 8) + 65536 * u8 (Z.shiftr lba 16) +
    16777216 * (u8 (Z.lor (Z.shiftr lba 24) 224) mod 16) = lba /\
  Z.testbit (u8 (Z.lor (Z.shiftr lba 24) 224)) 6 = true.
Proof.
  intros Hl. rewrite !Z.shiftr_div_pow2 by lia. change 255 with (Z.ones 8). rewrite Z.land_ones by lia.
  assert (Hh : 0 <= lba / 2 ^ 24 < 16) by (Z.to_euclidean_division_equations; lia).
  pose proof (zrange_forall (fun h => (u8 (Z.lor h 224) mod 16 =? h) && Z.testbit (u8 (Z.lor h 224)) 6)
    16 ltac:(vm_compute; reflexivity) _ Hh) as Hr. cbv beta in Hr.
  apply andb_true_iff in Hr as [->%Z.eqb_eq ->]. split; [|done].
  change (2 ^ 8) with 256. change (2 ^ 16) with 65536. change (2 ^ 24) with 16777216.
  unfold u8. Z.to_euclidean_division_equations. lia.
Qed.

Lemma disk_read_sector_eq lba d :
  0 <= lba < 268435456 ->
  exists d', disk_read_sector fuel lba 1 d = Done (0, words_bytes (ata_sector d lba)) d' /\
    ata_sector d' = ata_sector d.
Proof.
  intros Hl. unfold disk_read_sector, out_port. rewrite !bind_modify. cbv beta.
  destruct (lba_bytes lba Hl) as [Hlba H6].
  change (u8 1) with 1. change (u8 32) with 32.
  set (v6 := u8 (Z.lor (Z.shiftr lba 24) 224)) in *. set (v3 := u8 (Z.land lba 255)) in *.
  set (v4 := u8 (Z.shiftr lba 8)) in *. set (v5 := u8 (Z.shiftr lba 16)) in *.
  set (d5 := outb (outb (outb (outb (outb d 502 v6) 498 1) 499 v3) 500 v4) 501 v5).
  destruct (outb_reg d 502 v6 ltac:(lia)) as [R1 S1].
  destruct (outb_reg (outb d 502 v6) 498 1 ltac:(lia)) as [R2 S2].
  destruct (outb_reg (outb (outb d 502 v6) 498 1) 499 v3 ltac:(lia)) as [R3 S3].
  destruct (outb_reg (outb (outb (outb d 502 v6) 498 1) 499 v3) 500 v4 ltac:(lia)) as [R4 S4].
  destruct (outb_reg (outb (outb (outb (outb d 502 v6) 498 1) 499 v3) 500 v4) 501 v5 ltac:(lia)) as [R5 S5].
  assert (Hs5 : ata_sector d5 = ata_sector d) by (unfold d5; by rewrite S5, S4, S3, S2, S1).
  assert (E2 : ata_reg d5 502 = v6) by (unfold d5; by rewrite R5, R4, R3, R2, R1).
  assert (E8 : ata_reg d5 498 = 1) by (unfold d5; by rewrite R5, R4, R3, R2).
  assert (Elba : ata_lba d5 = lba).
  { unfold ata_lba. rewrite E2. unfold d5. rewrite !R5. simpl. rewrite !R4. simpl. rewrite !R3. simpl. done. }
  destruct (outb_read d5) as [Hq Hs]; [by rewrite E2|by rewrite E8|].
  rewrite E8, Elba, Hs5 in Hq. change (seqZ 0 1) with [0] in Hq. simpl in Hq.
  rewrite app_nil_r, Z.add_0_r in Hq. set (d6 := outb d5 503 32) in *.
  pose proof (ata_sector_len d lba) as Hlen.
  assert (Hne : ata_queue d6 <> []) by (rewrite Hq; intros E; by rewrite E in Hlen).
  change (Z.to_nat 1) with 1%nat. simpl read_blocks.
  destruct (insb_status d6 Hne) as (Hst & Hr & Hdl & Hq7 & Hs7).
  unfold in_byte at 1. unfold mbind at 1, M_bind at 1. unfold mbind at 1, M_bind at 1.
  pose proof (Hfuel d6) as Hf6. destruct (insb d6 503) as [c d7]. cbn [fst snd] in Hst, Hr, Hdl, Hq7, Hs7.
  destruct (wait_ready_spec fuel d7 c) as (d8 & E8' & Hq8 & Hs8 & Hd8).
  { by rewrite Hq7. }
  { done. }
  { rewrite Hst. intros Hz%bool_decide_eq_true. by rewrite Hdl, Hz. }
  { lia. }
  { rewrite Hst. intros Hz%bool_decide_eq_false. lia. }
  rewrite (bind_Done _ _ _ _ _ E8').
  destruct (read_words_spec (ata_sector d lba) [] d8) as (d9 & E9 & Hq9 & Hs9).
  { by rewrite Hq8, Hq7, app_nil_r. }
  { done. }
  { done. }
  { lia. }
  rewrite Hlen in E9. rewrite (bind_Done _ _ _ _ _ E9). rewrite bind_ret.
  exists d9. unfold mret, M_ret. rewrite app_nil_r. split; [done|].
  by rewrite Hs9, Hs8, Hs7, Hs, Hs5.
Qed.

#[local] Instance ata_block_device : BlockDevice D := {
  bd_read := disk_read_sector fuel;
  bd_image := fun d l => words_bytes (ata_sector d l)
}.

Lemma ata_block_device_laws : BlockDeviceLaws D.
Proof.
  constructor.
  - intros d lba Hl. destruct (disk_read_sector_eq lba d Hl) as (d' & E & Es).
    exists d'. split; [exact E|]. simpl. by rewrite Es.
  - intros d lba. simpl. rewrite words_bytes_len. unfold zlen. by rewrite ata_sector_len.
  - intros d lba c Hc. simpl in Hc. apply words_bytes_range in Hc; [done|]. apply ata_sector_words.
Qed.
End ata.

(** ** The bytes of a disk *)

Section image.
Context {B : Type} {BD : BlockDevice B} {LB : BlockDeviceLaws B}.

Definition disk_byte (b : B) (i : Z) : Z :=
  default 0 (zget (bd_image b (i / KERNEL_SECTOR_SIZE)) (i mod KERNEL_SECTOR_SIZE)).

(** [n] bytes of the disk from byte [p] on. *)
Definition disk_slice (b : B) (p n : Z) : list Z := map (disk_byte b) (seqZ p n).

Lemma disk_slice_len b p n : 0 <= n -> zlen (disk_slice b p n) = n.
Proof. intros. unfold disk_slice, zlen. rewrite length_map, length_seqZ. lia. Qed.

Lemma disk_slice_get b p n i : 0 <= i < n -> zget (disk_slice b p n) i = Some (disk_byte b (p + i)).
Proof.
  intros Hi. unfold zget. rewrite (proj2 (Z.leb_le 0 i)) by lia. unfold disk_slice.
  rewrite list_lookup_fmap, lookup_seqZ_lt by lia. simpl. do 2 f_equal. lia.
Qed.

Lemma disk_slice_app b p n m :
  0 <= n -> 0 <= m -> disk_slice b p (n + m) = disk_slice b p n ++ disk_slice b (p + n) m.
Proof.
  intros Hn Hm. unfold disk_slice. rewrite <- map_app. f_equal. by apply seqZ_app.
Qed.

Lemma disk_slice_nil b p : disk_slice b p 0 = [].
Proof. done. Qed.

Lemma disk_slice_ext b b' p n : bd_image b' = bd_image b -> disk_slice b' p n = disk_slice b p n.
Proof. intros E. unfold disk_slice, disk_byte. by rewrite E. Qed.

Lemma disk_byte_range b i : 0 <= disk_byte b i < 256.
Proof.
  unfold disk_byte. destruct (zget _ _) as [c|] eqn:E; simpl; [|lia].
  apply (bd_image_bytes b (i / KERNEL_SECTOR_SIZE)). unfold zget in E.
  destruct (Z.leb_spec 0 (i mod KERNEL_SECTOR_SIZE)); [|done]. by eapply list_elem_of_lookup_2.
Qed.

(** Part of a sector is a part of the disk. *)
Lemma sector_part b lba o n :
  0 <= lba -> 0 <= o -> 0 <= n -> o + n <= KERNEL_SECTOR_SIZE ->
  bytes_from (bd_image b lba) o n = Some (disk_slice b (KERNEL_SECTOR_SIZE * lba + o) n).
Proof.
  intros Hl Ho Hn Hs. unfold bytes_from. rewrite bd_image_len.
  rewrite (proj2 (Z.leb_le 0 o)), (proj2 (Z.leb_le _ _)) by lia. simpl. f_equal.
  pose proof (bd_image_len b lba) as Hlen.
  assert (Htl : zlen (take (Z.to_nat n) (drop (Z.to_nat o) (bd_image b lba))) = n).
  { unfold zlen in *. rewrite length_take, length_drop. lia. }
  apply zlist_eq; [by rewrite disk_slice_len|]. rewrite Htl. intros i Hi.
  rewrite disk_slice_get by done. unfold zget at 1. rewrite (proj2 (Z.leb_le 0 i)) by lia.
  rewrite lookup_take_lt, lookup_drop by lia. unfold disk_byte.
  assert (E1 : (KERNEL_SECTOR_SIZE * lba + o + i) / KERNEL_SECTOR_SIZE = lba)
    by (unfold KERNEL_SECTOR_SIZE in *; Z.to_euclidean_division_equations; lia).
  assert (E2 : (KERNEL_SECTOR_SIZE * lba + o + i) mod KERNEL_SECTOR_SIZE = o + i)
    by (unfold KERNEL_SECTOR_SIZE in *; Z.to_euclidean_division_equations; lia).
  rewrite E1, E2. destruct (zget_is_Some (bd_image b lba) (o + i)) as [c Hc]; [lia|].
  rewrite Hc. simpl. unfold zget in Hc. rewrite (proj2 (Z.leb_le 0 (o + i))) in Hc by lia.
  by replace (Z.to_nat o + Z.to_nat i)%nat with (Z.to_nat (o + i)) by lia.
Qed.
End image.

(** ** Streams *)

Section streams.
Context {H B : Type} `{Layout} {AH : Allocator H} {LH : @AllocatorLaws H AH}
  {BD : BlockDevice B} {LB : BlockDeviceLaws B}.
Implicit Types (s : streams H B).

Lemma st_alloc_spec h0 L s size :
  owned h0 (st_heap s) L -> 0 <= size < 4294967296 -> blocks_of size = 1 ->
  exists a h', st_alloc size s = Done a (set_st_heap h' s) /\
  ((a = 0 /\ set_st_heap h' s = s /\ al_avail (st_heap s) <= 0) \/
   (0 < a < 2147483648 /\ owned h0 h' ((a, 1) :: L))).
Proof.
  intros Ho Hs Hb. destruct (al_alloc_page h0 _ L size Ho Hs Hb) as (a & h' & E & D).
  exists a, h'. unfold st_alloc, zoom. rewrite E. split; [done|].
  destruct D as [(-> & -> & Hav)|(Ha & Ho')]; [left; by destruct s|right].
  split; [eapply owned_range; [done|rewrite fmap_cons; by left]|done].
Qed.

Lemma st_free_spec h0 L s a n :
  owned h0 (st_heap s) ((a, n) :: L) ->
  exists h', st_free a s = Done tt (set_st_heap h' s) /\ owned h0 h' L.
Proof. intros Ho. exists (al_free (st_heap s) a). split; [done|]. by eapply owned_free. Qed.

Lemma bind_get_stream {T} stream (k : disk_stream -> M (streams H B) T) s t :
  st_streams s !! stream = Some t -> (get_stream stream ≫= k) s = k t s.
Proof. intros E. unfold get_stream. by rewrite bind_assoc, bind_gets, (bind_expect _ _ _ _ E). Qed.

Lemma disk_block_spec (b : B) lba :
  0 <= lba < 268435456 ->
  exists b', disk_read_block addr_disk lba 1 b = Done (0, bd_image b lba) b' /\ bd_image b' = bd_image b.
Proof.
  intros Hl. unfold disk_read_block. rewrite Z.eqb_refl. simpl.
  rewrite u32_small, i32_small by lia. by apply bd_read_spec.
Qed.

Lemma read_loop_spec n s stream p remain :
  st_streams s !! stream = Some (mk_disk_stream p addr_disk) ->
  0 <= p -> 0 <= remain -> p + remain < 2147483648 -> remain < Z.of_nat n ->
  exists b', read_loop n stream remain s =
    Done (0, disk_slice (st_dev s) p remain)
      (mk_streams (st_heap s) b' (<[stream := mk_disk_stream (p + remain) addr_disk]> (st_streams s))) /\
    bd_image b' = bd_image (st_dev s).
Proof.
  revert s p remain. induction n as [|n IH]; intros s p remain Hs Hp Hr Hb Hn; [lia|]. simpl.
  destruct (Z.ltb_spec 0 remain) as [Hr0|Hr0].
  2: { assert (remain = 0) as -> by lia. exists (st_dev s). rewrite Z.add_0_r.
       rewrite insert_id by done. by destruct s. }
  rewrite (bind_get_stream _ _ _ _ Hs). cbn [pos stream_disk].
  unfold cdiv, crem. rewrite Z.quot_div_nonneg, Z.rem_mod_nonneg by (unfold KERNEL_SECTOR_SIZE; lia).
  set (lba := p / KERNEL_SECTOR_SIZE). set (o := p mod KERNEL_SECTOR_SIZE).
  assert (Hlo : p = KERNEL_SECTOR_SIZE * lba + o /\ 0 <= o < KERNEL_SECTOR_SIZE /\ 0 <= lba < 268435456).
  { unfold lba, o, KERNEL_SECTOR_SIZE in *. Z.to_euclidean_division_equations. lia. }
  destruct Hlo as (Ep & Ho & Hlba).
  destruct (disk_block_spec (st_dev s) lba Hlba) as (b1 & E1 & Hi1).
  rewrite (bind_Done _ _ _ _ _ (zoom_Done st_dev set_st_dev _ s _ _ E1)).
  change (negb (0 =? KERNEL_ALL_OK)) with false. cbv iota beta.
  set (k := Z.min (KERNEL_SECTOR_SIZE - o) remain).
  rewrite (bind_expect _ _ _ _ (sector_part (st_dev s) lba o k ltac:(lia) ltac:(lia) ltac:(lia) ltac:(lia))).
  rewrite (bind_get_stream stream _ (set_st_dev b1 s) _ Hs).
  rewrite bind_modify. cbn [pos stream_disk]. rewrite <- Ep. rewrite i32_small by lia.
  destruct (IH (put_stream stream (mk_disk_stream (p + k) addr_disk) (set_st_dev b1 s)) (p + k) (remain - k))
    as (b2 & E2 & Hi2); try lia.
  { simpl. apply lookup_insert_eq. }
  rewrite (bind_Done _ _ _ _ _ E2). unfold mret, M_ret. simpl. exists b2.
  rewrite insert_insert_eq. replace (p + k + (remain - k)) with (p + remain) by lia.
  rewrite (disk_slice_ext (st_dev s) b1) by done. rewrite <- disk_slice_app by lia.
  replace (k + (remain - k)) with remain by lia. simpl in Hi2. by rewrite Hi2.
Qed.

(** Everything about [diskstream_read] on a stream of the disk. *)
Lemma diskstream_read_total s stream out p total :
  al_ok (st_heap s) -> st_streams s !! stream = Some (mk_disk_stream p addr_disk) ->
  0 < stream -> out <> 0 -> 0 <= p -> 0 <= total -> p + total < 2147483648 ->
  exists r s', diskstream_read stream out total s = Done r s' /\
  ((r = (- ENOMEM, []) /\ s' = s /\ al_avail (st_heap s) <= 0) \/
   (r = (0, disk_slice (st_dev s) p total) /\
    st_streams s' = <[stream := mk_disk_stream (p + total) addr_disk]> (st_streams s) /\
    (forall h0 L, owned h0 (st_heap s) L -> owned h0 (st_heap s') L) /\
    bd_image (st_dev s') = bd_image (st_dev s))).
Proof.
  intros Hok Hs Hst Hout Hp Ht Hb. unfold diskstream_read.
  rewrite (proj2 (Z.eqb_neq stream 0)), (proj2 (Z.eqb_neq out 0)), (proj2 (Z.ltb_ge total 0)) by lia. cbn [orb].
  destruct (al_malloc (st_heap s) KERNEL_SECTOR_SIZE) as [a h1] eqn:E.
  assert (E1 : st_alloc KERNEL_SECTOR_SIZE s = Done a (set_st_heap h1 s)).
  { unfold st_alloc, zoom, al_alloc. by rewrite E. }
  rewrite (bind_Done _ _ _ _ _ E1).
  destruct (st_alloc_spec (st_heap s) [] s KERNEL_SECTOR_SIZE (owned_refl _ Hok) ltac:(done) ltac:(reflexivity))
    as (a' & h1' & E1' & D). rewrite E1 in E1'. injection E1' as <- <-.
  destruct D as [(-> & Es & Hav)|(Ha & Ho1)].
  { rewrite Es. do 2 eexists. split; [reflexivity|]. by left. }
  rewrite (proj2 (Z.eqb_neq a 0)) by lia.
  destruct (read_loop_spec (S (Z.to_nat total)) (set_st_heap h1 s) stream p total Hs Hp Ht Hb ltac:(lia))
    as (b' & E2 & Hi). rewrite (bind_Done _ _ _ _ _ E2).
  do 2 eexists. split; [reflexivity|]. right. simpl. do 2 (split; [done|]). split; [|done].
  intros h0 L. eapply owned_alloc_free; [done| |done|]; [done|lia].
Qed.
End streams.

(** ** A concrete controller, for the witnesses

    It keeps the 256 words of each sector, sets DRQ at the second poll, and loses DRQ
    between sectors. *)

Record sim_disk := mk_sim_disk {
  sim_word : Z -> Z -> Z;
  sim_reg : Z -> Z;
  sim_queue : list Z;
  sim_busy : bool
}.

Definition sim_sector (d : sim_disk) (l : Z) : list Z :=
  map (fun i => u16 (sim_word d l i)) (seqZ 0 256).

Definition sim_lba (r : Z -> Z) : Z :=
  r 499 + 256 * r 500 + 65536 * r 501 + 16777216 * (r 502 mod 16).

Definition sim_outb (d : sim_disk) (p v : Z) : sim_disk :=
  if p =? 503 then
    mk_sim_disk (sim_word d) (sim_reg d)
      (concat (map (fun i => sim_sector d (sim_lba (sim_reg d) + i)) (seqZ 0 (sim_reg d 498)))) true
  else mk_sim_disk (sim_word d) (fun q => if q =? p then v else sim_reg d q) (sim_queue d) (sim_busy d).

Definition sim_insb (d : sim_disk) (p : Z) : Z * sim_disk :=
  if sim_busy d then (128, mk_sim_disk (sim_word d) (sim_reg d) (sim_queue d) false) else (88, d).

Definition sim_insw (d : sim_disk) (p : Z) : Z * sim_disk :=
  match sim_queue d with
  | w :: q => (w, mk_sim_disk (sim_word d) (sim_reg d) q (Z.of_nat (length q) mod 256 =? 0))
  | [] => (0, d)
  end.

#[local] Instance sim_ata : AtaDevice sim_disk := {
  outb := sim_outb;
  insb := sim_insb;
  insw := sim_insw;
  ata_sector := sim_sector;
  ata_reg := sim_reg;
  ata_queue := sim_queue;
  ata_delay := fun d => if sim_busy d then 1%nat else 0%nat
}.

#[local] Instance sim_ata_laws : AtaLaws sim_disk.
Proof.
  constructor; cbn [ata_sector ata_reg ata_queue ata_delay outb insb insw sim_ata].
  - intros d l. unfold sim_sector. by rewrite length_map, length_seqZ.
  - intros d l w (i & -> & _)%list_elem_of_fmap. apply u16_range.
  - intros d p v Hp. unfold sim_outb. rewrite (proj2 (Z.eqb_neq p 503)) by lia. done.
  - done.
  - intros d Hq. unfold sim_insb. by destruct (sim_busy d) eqn:E; simpl; rewrite ?E.
  - intros d w q Hq Hb. unfold sim_insw. rewrite Hq. simpl. do 3 (split; [done|]).
    intros Hne. by rewrite (proj2 (Z.eqb_neq _ _) Hne).
Qed.

Lemma sim_delay (d : sim_disk) : (ata_delay d < 2)%nat.
Proof. simpl. destruct (sim_busy d); lia. Qed.

(** Sector [l] holds the words [l], [l + 1], ... *)
Definition sample_disk : sim_disk := mk_sim_disk (fun l i => l + i) (fun _ => 0) [] false.

Definition sample_layout : Layout := {|
  addr_disk := 1048576;
  addr_fat16_fs := 1048640;
  addr_disk_pos := eq_refl;
  addr_fat16_fs_range := conj eq_refl eq_refl
|}.

(** ** Properties *)

(** C40: [disk_read_sector] reads the sector it is asked for.  On any controller that
    follows the ATA protocol and becomes ready within [fuel] polls, the six register
    writes select sector [lba] and the 256 words transferred are its 512 bytes, low byte
    first; the disk is unchanged. *)
Theorem disk_read_sector_spec {D : Type} {A : AtaDevice D} {L : AtaLaws D} (fuel : nat) (d : D) (lba : Z) :
  (forall d : D, (ata_delay d < fuel)%nat) -> 0 <= lba < 268435456 ->
  exists d', disk_read_sector fuel lba 1 d = Done (0, words_bytes (ata_sector d lba)) d' /\
    ata_sector d' = ata_sector d /\ zlen (words_bytes (ata_sector d lba)) = KERNEL_SECTOR_SIZE.
Proof.
  intros Hf Hl. destruct (disk_read_sector_eq fuel Hf lba d Hl) as (d' & E & Es).
  exists d'. do 2 (split; [done|]). rewrite words_bytes_len. unfold zlen. by rewrite ata_sector_len.
Qed.

Lemma disk_read_sector_spec_witness :
  exists d', disk_read_sector 2 65537 1 sample_disk =
    Done (0, words_bytes (sim_sector sample_disk 65537)) d' /\
    take 4 (words_bytes (sim_sector sample_disk 65537)) = [1; 0; 2; 0].
Proof.
  destruct (disk_read_sector_spec 2 sample_disk 65537 sim_delay ltac:(lia)) as (d' & E & _).
  exists d'. split; [exact E|]. vm_compute. reflexivity.
Defined.

(** [diskstream_read] is a byte-exact read of the disk at the stream's position, across
    sector boundaries: it returns the bytes [pos .. pos + total), advances the position by
    [total] and gives its sector buffer back; it fails only with [-ENOMEM], when no block
    is free, and then changes nothing. *)
Theorem diskstream_read_spec {H B : Type} {LY : Layout} {AH : Allocator H} {LH : @AllocatorLaws H AH}
    {BD : BlockDevice B} {LB : BlockDeviceLaws B} (s : streams H B) (stream out p total : Z) :
  al_ok (st_heap s) -> st_streams s !! stream = Some (mk_disk_stream p addr_disk) ->
  0 < stream -> out <> 0 -> 0 <= p -> 0 <= total -> p + total < 2147483648 ->
  exists r s', diskstream_read stream out total s = Done r s' /\
  ((r = (- ENOMEM, []) /\ s' = s /\ al_avail (st_heap s) <= 0) \/
   (r = (0, disk_slice (st_dev s) p total) /\
    st_streams s' = <[stream := mk_disk_stream (p + total) addr_disk]> (st_streams s) /\
    own_same (st_heap s) (st_heap s') /\ bd_image (st_dev s') = bd_image (st_dev s))).
Proof.
  intros Hok Hs Hst Hout Hp Ht Hb.
  destruct (diskstream_read_total s stream out p total Hok Hs Hst Hout Hp Ht Hb) as (r & s' & E & D).
  exists r, s'. split; [exact E|]. destruct D as [D|(-> & Hss & Ho & Hi)]; [by left|right].
  do 2 (split; [done|]). split; [apply owned_nil, Ho, owned_refl, Hok|done].
Qed.

Lemma diskstream_read_spec_witness :
  let s := mk_streams boot_heap sample_disk {[ 4096 := mk_disk_stream 510 1048576 ]} in
  exists s', @diskstream_read heap sim_disk sample_layout heap_allocator (ata_block_device 2) 4096 8192 4 s =
    Done (0, [255; 0; 1; 0]) s'.
Proof.
  intros s.
  destruct (@diskstream_read_spec heap sim_disk sample_layout heap_allocator heap_allocator_laws
    (ata_block_device 2) (ata_block_device_laws 2 sim_delay) s 4096 8192 510 4) as (r & s' & E & D).
  - exact boot_heap_ok.
  - unfold s. cbn [st_streams]. apply lookup_singleton_eq.
  - lia.
  - lia.
  - lia.
  - lia.
  - lia.
  - destruct D as [(_ & _ & Hav)|(Hr & _)].
    + exfalso. unfold s in Hav. cbn [st_heap] in Hav. rewrite boot_heap_avail in Hav. exact (Hav eq_refl).
    + exists s'. rewrite E. f_equal. exact Hr.
Defined.
