(* ===== verification/Fat16.v ===== *)
(** * The FAT16 file system: fs/fat/fat16.c

    The structures of the driver are heap objects; the state maps the address of each to
    its contents.  A [struct fat_directory_item *] is the address of an array of items.
    [fuel] bounds the loops the code does not bound itself: directory scans and walks
    along a cluster chain. *)
From S2P Require Import Prelude Heap Kheap CString Disk.

Definition KERNEL_FAT16_SIGNATURE : Z := 41.
Definition KERNEL_FAT16_FAT_ENTRY_SIZE : Z := 2.
Definition KERNEL_FAT16_BAD_SECTOR : Z := 4087.
Definition FAT_ITEM_TYPE_DIRECTORY : Z := 0.
Definition FAT_ITEM_TYPE_FILE : Z := 1.
Definition FAT_FILE_READ_ONLY : Z := 1.
Definition FAT_FILE_SUBDIRECTORY : Z := 16.

(** ** On-disk structures (packed, little endian) *)

Definition byte_of (b : list Z) (i : Z) : Z := default 0 (zget b i).
Definition le16 (b : list Z) (i : Z) : Z := byte_of b i + 256 * byte_of b (i + 1).
Definition le32 (b : list Z) (i : Z) : Z := le16 b i + 65536 * le16 b (i + 2).
Definition field (b : list Z) (i n : Z) : list Z := take (Z.to_nat n) (drop (Z.to_nat i) b).

Record fat_header_extended := mk_fat_header_extended {
  drive_number : Z; win_nt_bit : Z; signature : Z; volume_id : Z;
  volume_id_string : list Z; system_id_string : list Z
}.

Record fat_header := mk_fat_header {
  short_jmp_ins : list Z; oem_identifier : list Z; bytes_per_sector : Z;
  sectors_per_cluster : Z; reserved_sectors : Z; fat_copies : Z; root_dir_entries : Z;
  number_of_sectors : Z; media_type : Z; sectors_per_fat : Z; sectors_per_track : Z;
  number_of_heads : Z; hidden_sectors : Z; sectors_big : Z
}.

Record fat_h := mk_fat_h { primary_header : fat_header; extended_header : fat_header_extended }.

Definition sizeof_fat_h : Z := 62.

Definition decode_header (b : list Z) : fat_h :=
  mk_fat_h
    (mk_fat_header (field b 0 3) (field b 3 8) (le16 b 11) (byte_of b 13) (le16 b 14)
       (byte_of b 16) (le16 b 17) (le16 b 19) (byte_of b 21) (le16 b 22) (le16 b 24)
       (le16 b 26) (le32 b 28) (le32 b 32))
    (mk_fat_header_extended (byte_of b 36) (byte_of b 37) (byte_of b 38) (le32 b 39)
       (field b 43 11) (field b 54 8)).

Record fat_directory_item := mk_item {
  filename : list Z; ext : list Z; attribute : Z; reserved : Z;
  creation_time_tenths_of_a_sec : Z; creation_time : Z; creation_date : Z; last_access : Z;
  high_16_bits_first_cluster : Z; last_mod_time : Z; last_mod_date : Z;
  low_16_bits_first_cluster : Z; filesize : Z
}.

Definition sizeof_item : Z := 32.

Definition decode_item (b : list Z) : fat_directory_item :=
  mk_item (field b 0 8) (field b 8 3) (byte_of b 11) (byte_of b 12) (byte_of b 13)
    (le16 b 14) (le16 b 16) (le16 b 18) (le16 b 20) (le16 b 22) (le16 b 24) (le16 b 26)
    (le32 b 28).

(** [filename[0]] *)
Definition first_byte (it : fat_directory_item) : Z := byte_of (filename it) 0.

(** An array of items laid over the bytes read into it. *)
Fixpoint decode_items (n : nat) (b : list Z) : list fat_directory_item :=
  match n with
  | O => []
  | S n' => decode_item (take 32 b) :: decode_items n' (drop 32 b)
  end.

(** ** Structures of the driver *)

Record fat_directory := mk_fat_directory {
  dir_item : Z; dir_total : Z; sector_pos : Z; ending_sector_pos : Z
}.

(** [item_ptr]: the union of [item] and [directory]. *)
Record fat_item := mk_fat_item { item_ptr : Z; item_type : Z }.

Record fat_item_descriptor := mk_fat_item_descriptor { desc_item : Z; desc_pos : Z }.

Record fat_private := mk_fat_private {
  header : fat_h;
  root_directory : fat_directory;
  cluster_read_stream : Z;
  fat_read_stream : Z;
  directory_stream : Z
}.

Record fat (H B : Type) := mk_fat {
  f_st : streams H B;
  f_disk : disk;
  f_privates : gmap Z fat_private;
  f_dirs : gmap Z fat_directory;
  f_tables : gmap Z (list fat_directory_item);
  f_items : gmap Z fat_item;
  f_descs : gmap Z fat_item_descriptor
}.
Arguments mk_fat {H B}.
Arguments f_st {H B}.
Arguments f_disk {H B}.
Arguments f_privates {H B}.
Arguments f_dirs {H B}.
Arguments f_tables {H B}.
Arguments f_items {H B}.
Arguments f_descs {H B}.

Definition zero_directory : fat_directory := mk_fat_directory 0 0 0 0.

(** A zeroed header, as [kzalloc] leaves it. *)
Definition zero_header : fat_h := decode_header (replicate 62 0).

(** The address of a local variable: [diskstream_read] only compares it with NULL. *)
Definition local_buffer : Z := 1.

(** [struct file_stat] of kernel/file.h *)
Record file_stat := mk_file_stat { stat_flags : Z; stat_filesize : Z }.
Definition FILE_STAT_READ_ONLY : Z := 1.
Definition SEEK_SET : Z := 0.
Definition SEEK_CUR : Z := 1.
Definition SEEK_END : Z := 2.
Definition FILE_MODE_READ : Z := 0.
Definition FILE_MODE_WRITE : Z := 1.
Definition FILE_MODE_APPEND : Z := 2.
Definition FILE_MODE_INVALID : Z := 3.

(** ** Names *)

(** [fat16_to_proper_string]: [out] is the buffer, [j] the index [*out] points to. *)
Fixpoint proper_loop (inp out : list Z) (j i size : Z) : option (list Z * Z) :=
  match inp with
  | [] => None
  | c :: inp' =>
      if negb (c =? 0) && negb (c =? 32) then
        match put out j c with
        | Some out' =>
            if size - 1 <=? i then Some (out', j + 1)
            else proper_loop inp' out' (j + 1) (i + 1) size
        | None => None
        end
      else Some (out, j)
  end.

Definition fat16_to_proper_string (out : list Z) (j : Z) (inp : list Z) (size : Z) : option (list Z * Z) :=
  match proper_loop inp out j 0 size with
  | Some (out', j') => match put out' j' 0 with Some out'' => Some (out'', j') | None => None end
  | None => None
  end.

(** The buffer [out] of [max_len] bytes. *)
Definition fat16_get_full_relative_filename (it : fat_directory_item) (max_len : Z) : option (list Z) :=
  let out := replicate (Z.to_nat max_len) 0 in
  match fat16_to_proper_string out 0 (filename it) 8 with
  | Some (out, j) =>
      if negb (byte_of (ext it) 0 =? 0) && negb (byte_of (ext it) 0 =? 32) then
        match put out j 46 with
        | Some out =>
            match fat16_to_proper_string out (j + 1) (ext it) 3 with
            | Some (out, _) => Some out
            | None => None
            end
        | None => None
        end
      else Some out
  | None => None
  end.

Definition fat16_get_first_cluster (it : fat_directory_item) : Z :=
  i32 (Z.lor (Z.shiftl (high_16_bits_first_cluster it) 16) (low_16_bits_first_cluster it)).

Definition fat16_check_cluster_entry (entry : Z) : Z :=
  if (entry =? 65528) || (entry =? 65535) then - EIO
  else if entry =? KERNEL_FAT16_BAD_SECTOR then - EIO
  else if (entry =? 4080) || (entry =? 4086) then - EIO
  else if entry =? 0 then - EIO
  else 0.

Section fat16.
Context {H B : Type} `{Layout} `{Allocator H} `{BlockDevice B}.
Context (fuel : nat).
Implicit Types (s : fat H B).

Definition set_f_st (t : streams H B) s : fat H B :=
  mk_fat t (f_disk s) (f_privates s) (f_dirs s) (f_tables s) (f_items s) (f_descs s).
Definition set_f_disk (d : disk) s : fat H B :=
  mk_fat (f_st s) d (f_privates s) (f_dirs s) (f_tables s) (f_items s) (f_descs s).
Definition put_private (a : Z) (p : fat_private) s : fat H B :=
  mk_fat (f_st s) (f_disk s) (<[a := p]> (f_privates s)) (f_dirs s) (f_tables s) (f_items s) (f_descs s).
Definition put_dir (a : Z) (p : fat_directory) s : fat H B :=
  mk_fat (f_st s) (f_disk s) (f_privates s) (<[a := p]> (f_dirs s)) (f_tables s) (f_items s) (f_descs s).
Definition put_table (a : Z) (p : list fat_directory_item) s : fat H B :=
  mk_fat (f_st s) (f_disk s) (f_privates s) (f_dirs s) (<[a := p]> (f_tables s)) (f_items s) (f_descs s).
Definition put_item (a : Z) (p : fat_item) s : fat H B :=
  mk_fat (f_st s) (f_disk s) (f_privates s) (f_dirs s) (f_tables s) (<[a := p]> (f_items s)) (f_descs s).
Definition put_desc (a : Z) (p : fat_item_descriptor) s : fat H B :=
  mk_fat (f_st s) (f_disk s) (f_privates s) (f_dirs s) (f_tables s) (f_items s) (<[a := p]> (f_descs s)).

(** Run an operation on the disk streams. *)
Definition on_st {A} (m : M (streams H B) A) : M (fat H B) A := zoom f_st set_f_st m.
Definition f_alloc (size : Z) : M (fat H B) Z := on_st (st_alloc size).
Definition f_free (ptr : Z) : M (fat H B) unit := on_st (st_free ptr).

(** Reading a structure through its address. *)
Definition deref {A} (sel : fat H B -> gmap Z A) (a : Z) : M (fat H B) A :=
  o ← gets (fun s => sel s !! a); expect o.

(** [disk->fs_private] *)
Definition the_private : M (fat H B) fat_private :=
  p ← gets (fun s => fs_private (f_disk s)); deref f_privates p.

Definition disk_sector_size : M (fat H B) Z := gets (fun s => sector_size (f_disk s)).

Definition fat16_sector_to_absolute (size sector : Z) : Z := i32 (size * sector).

Fixpoint total_items_loop (n : nat) (stream cnt : Z) : M (fat H B) Z :=
  match n with
  | O => nofuel
  | S n' =>
      r ← on_st (diskstream_read stream local_buffer sizeof_item);
      let '(res, bytes) := r in
      if negb (res =? KERNEL_ALL_OK) then mret (- EIO)
      else
        let it := decode_item bytes in
        if first_byte it =? 0 then mret cnt
        else if first_byte it =? 229 then total_items_loop n' stream cnt
        else total_items_loop n' stream (cnt + 1)
  end.

Definition fat16_get_total_items_for_directory (directory_start_sector : Z) : M (fat H B) Z :=
  priv ← the_private;
  size ← disk_sector_size;
  res ← on_st (diskstream_seek (directory_stream priv) (fat16_sector_to_absolute size directory_start_sector));
  if negb (res =? KERNEL_ALL_OK) then mret (- EIO)
  else total_items_loop fuel (directory_stream priv) 0.

Definition fat16_cluster_to_sector (priv : fat_private) (cluster : Z) : Z :=
  i32 (ending_sector_pos (root_directory priv) +
       (cluster - 2) * sectors_per_cluster (primary_header (header priv))).

Definition fat16_get_first_fat_sector (priv : fat_private) : Z :=
  reserved_sectors (primary_header (header priv)).

Definition fat16_get_fat_entry (cluster : Z) : M (fat H B) Z :=
  priv ← the_private;
  let stream := fat_read_stream priv in
  if stream =? 0 then mret (-1)
  else
    size ← disk_sector_size;
    let fat_table_position := u32 (fat16_get_first_fat_sector priv * size) in
    res ← on_st (diskstream_seek stream
            (i32 (fat_table_position + cluster * KERNEL_FAT16_FAT_ENTRY_SIZE)));
    if res <? 0 then mret res
    else
      r ← on_st (diskstream_read stream local_buffer 2);
      let '(res, bytes) := r in
      if res <? 0 then mret res else mret (le16 bytes 0).

Fixpoint cluster_loop (n : nat) (i cluster_ahead cluster_to_use : Z) : M (fat H B) Z :=
  match n with
  | O => mret cluster_to_use
  | S n' =>
      if i <? cluster_ahead then
        entry ← fat16_get_fat_entry cluster_to_use;
        if fat16_check_cluster_entry entry <? 0 then mret (- EIO)
        else cluster_loop n' (i + 1) cluster_ahead entry
      else mret cluster_to_use
  end.

Definition cluster_bytes (priv : fat_private) (size : Z) : Z :=
  i32 (sectors_per_cluster (primary_header (header priv)) * size).

Definition fat16_get_cluster_for_offset (starting_cluster offset : Z) : M (fat H B) Z :=
  priv ← the_private;
  size ← disk_sector_size;
  let size_of_cluster_bytes := cluster_bytes priv size in
  if size_of_cluster_bytes =? 0 then fault
  else
    let cluster_ahead := cdiv offset size_of_cluster_bytes in
    cluster_loop (Z.to_nat cluster_ahead) 0 cluster_ahead starting_cluster.

Definition fat16_get_next_cluster (cluster : Z) : M (fat H B) Z :=
  entry ← fat16_get_fat_entry cluster;
  if fat16_check_cluster_entry entry <? 0 then mret (- EIO) else mret entry.

(** The loop of [fat16_read_internal_from_stream]: the result and the bytes stored at [out]. *)
Fixpoint read_internal_loop (n : nat) (priv : fat_private) (size stream cluster_to_use offset total out : Z)
  : M (fat H B) (Z * list Z) :=
  match n with
  | O => nofuel
  | S n' =>
      if 0 <? total then
        let per_cluster_size := cluster_bytes priv size in
        let starting_sector := fat16_cluster_to_sector priv cluster_to_use in
        let offset_from_cluster := crem offset per_cluster_size in
        let starting_pos := i32 (starting_sector * size + offset_from_cluster) in
        let total_to_read := Z.min total (per_cluster_size - offset) in
        res ← on_st (diskstream_seek stream starting_pos);
        if negb (res =? KERNEL_ALL_OK) then mret (res, [])
        else
          r ← on_st (diskstream_read stream out total_to_read);
          let '(res, bytes) := r in
          if negb (res =? KERNEL_ALL_OK) then mret (res, bytes)
          else
            let total := total - total_to_read in
            let offset := offset + total_to_read in
            let out := u32 (out + total_to_read) in
            if 0 <? total then
              cluster_to_use ← fat16_get_next_cluster cluster_to_use;
              if cluster_to_use <? 0 then mret (cluster_to_use, bytes)
              else
                r ← read_internal_loop n' priv size stream cluster_to_use offset total out;
                let '(res, rest) := r in mret (res, bytes ++ rest)
            else mret (res, bytes)
      else mret (0, [])
  end.

Definition fat16_read_internal_from_stream (stream starting_cluster offset total out : Z)
  : M (fat H B) (Z * list Z) :=
  priv ← the_private;
  size ← disk_sector_size;
  cluster_to_use ← fat16_get_cluster_for_offset starting_cluster offset;
  if cluster_to_use <? 0 then mret (cluster_to_use, [])
  else read_internal_loop fuel priv size stream cluster_to_use offset total out.

Definition fat16_read_internal (starting_cluster offset total out : Z) : M (fat H B) (Z * list Z) :=
  priv ← the_private;
  fat16_read_internal_from_stream (cluster_read_stream priv) starting_cluster offset total out.

(** ** Directories *)

Definition fat16_free_directory (directory : Z) : M (fat H B) unit :=
  if directory =? 0 then mret tt
  else
    d ← deref f_dirs directory;
    f_free (dir_item d);;
    f_free directory.

Definition fat16_load_fat_directory (it : fat_directory_item) : M (fat H B) Z :=
  priv ← the_private;
  if Z.land (attribute it) FAT_FILE_SUBDIRECTORY =? 0 then mret 0
  else
    directory ← f_alloc 16;
    if directory =? 0 then mret 0
    else
      let cluster := fat16_get_first_cluster it in
      let cluster_sector := fat16_cluster_to_sector priv cluster in
      total_items ← fat16_get_total_items_for_directory cluster_sector;
      let directory_size := i32 (total_items * sizeof_item) in
      items ← f_alloc (u32 directory_size);
      modify (put_dir directory (mk_fat_directory items total_items 0 0));;
      if items =? 0 then fat16_free_directory directory;; mret 0
      else
        r ← fat16_read_internal cluster 0 directory_size items;
        let '(res, bytes) := r in
        modify (put_table items (decode_items (Z.to_nat total_items) bytes));;
        if negb (res =? KERNEL_ALL_OK) then fat16_free_directory directory;; mret 0
        else mret directory.

Definition fat16_clone_directory_item (it : fat_directory_item) (size : Z) : M (fat H B) Z :=
  if size <? sizeof_item then mret 0
  else
    item_copy ← f_alloc size;
    if item_copy =? 0 then mret 0
    else modify (put_table item_copy [it]);; mret item_copy.

Definition fat16_new_fat_item_for_directory_item (it : fat_directory_item) : M (fat H B) Z :=
  f_item ← f_alloc 8;
  if f_item =? 0 then mret 0
  else if negb (Z.land (attribute it) FAT_FILE_SUBDIRECTORY =? 0) then
    directory ← fat16_load_fat_directory it;
    modify (put_item f_item (mk_fat_item directory FAT_ITEM_TYPE_DIRECTORY));; mret f_item
  else
    copy ← fat16_clone_directory_item it sizeof_item;
    modify (put_item f_item (mk_fat_item copy FAT_ITEM_TYPE_FILE));; mret f_item.

(** [name] is the buffer of a C string. *)
Fixpoint find_loop (n : nat) (directory : fat_directory) (name : list Z) (i f_item : Z) : M (fat H B) Z :=
  match n with
  | O => mret f_item
  | S n' =>
      if i <? dir_total directory then
        items ← deref f_tables (dir_item directory);
        it ← expect (zget items i);
        tmp_filename ← expect (fat16_get_full_relative_filename it KERNEL_MAX_PATH);
        cmp ← expect (istrncmp tmp_filename name KERNEL_MAX_PATH);
        if cmp =? 0 then
          f_item ← fat16_new_fat_item_for_directory_item it;
          find_loop n' directory name (i + 1) f_item
        else find_loop n' directory name (i + 1) f_item
      else mret f_item
  end.

Definition fat16_find_item_in_directory (directory : fat_directory) (name : list Z) : M (fat H B) Z :=
  find_loop (Z.to_nat (dir_total directory)) directory name 0 0.

Definition fat16_fat_item_free (item : Z) : M (fat H B) unit :=
  it ← deref f_items item;
  f_free (item_ptr it);;
  f_free item.

(** [next_parts]: the strings of the rest of the path. *)
Fixpoint entry_loop (next_parts : list (list Z)) (current_item : Z) : M (fat H B) Z :=
  match next_parts with
  | [] => mret current_item
  | name :: next_parts' =>
      it ← deref f_items current_item;
      if negb (item_type it =? FAT_ITEM_TYPE_DIRECTORY) then mret 0
      else
        directory ← deref f_dirs (item_ptr it);
        tmp_item ← fat16_find_item_in_directory directory name;
        if tmp_item =? 0 then mret 0
        else fat16_fat_item_free current_item;; entry_loop next_parts' tmp_item
  end.

(** [path]: the strings of the path's parts. *)
Definition fat16_get_directory_entry (path : list (list Z)) : M (fat H B) Z :=
  priv ← the_private;
  match path with
  | [] => fault
  | name :: next_parts =>
      root_item ← fat16_find_item_in_directory (root_directory priv) name;
      if root_item =? 0 then mret 0 else entry_loop next_parts root_item
  end.

Definition fat16_open (path : list (list Z)) (mode : Z) : M (fat H B) Z :=
  if negb (mode =? FILE_MODE_READ) then f_free 0;; mret (ERROR (- ERDONLY))
  else
    descriptor ← f_alloc 8;
    if descriptor =? 0 then f_free 0;; mret (ERROR (- ENOMEM))
    else
      item ← fat16_get_directory_entry path;
      modify (put_desc descriptor (mk_fat_item_descriptor item 0));;
      if item =? 0 then f_free descriptor;; mret (ERROR (- EIO))
      else mret descriptor.

(** ** Mounting *)

Definition fat16_init_private (priv : Z) : M (fat H B) unit :=
  if priv =? 0 then fault
  else
    modify (put_private priv (mk_fat_private zero_header zero_directory 0 0 0));;
    id ← gets (fun s => disk_id (f_disk s));
    fs ← on_st (diskstream_new id);
    cs ← on_st (diskstream_new id);
    ds ← on_st (diskstream_new id);
    modify (put_private priv (mk_fat_private zero_header zero_directory cs fs ds)).

Definition fat16_get_root_directory (priv_ptr : Z) : M (fat H B) Z :=
  priv ← deref f_privates priv_ptr;
  size ← disk_sector_size;
  let primary := primary_header (header priv) in
  let root_dir_sector_pos := fat_copies primary * sectors_per_fat primary + reserved_sectors primary in
  let root_dir_size := root_dir_entries primary * sizeof_item in
  if size =? 0 then fault
  else
    let total_sectors := cdiv root_dir_size size + (if crem root_dir_size size =? 0 then 0 else 1) in
    total_items ← fat16_get_total_items_for_directory root_dir_sector_pos;
    dir ← f_alloc root_dir_size;
    if dir =? 0 then f_free 0;; mret (- ENOMEM)
    else
      res ← on_st (diskstream_seek (directory_stream priv) (fat16_sector_to_absolute size root_dir_sector_pos));
      if negb (res =? KERNEL_ALL_OK) then f_free dir;; mret (- EIO)
      else
        r ← on_st (diskstream_read (directory_stream priv) dir root_dir_size);
        let '(res, bytes) := r in
        modify (put_table dir (decode_items (Z.to_nat (root_dir_entries primary)) bytes));;
        if negb (res =? KERNEL_ALL_OK) then f_free dir;; mret (- EIO)
        else
          modify (put_private priv_ptr (mk_fat_private (header priv)
            (mk_fat_directory dir total_items root_dir_sector_pos (root_dir_sector_pos + total_sectors))
            (cluster_read_stream priv) (fat_read_stream priv) (directory_stream priv)));;
          mret 0.

Definition fat16_free_private (priv_ptr : Z) : M (fat H B) unit :=
  if priv_ptr =? 0 then mret tt
  else
    priv ← deref f_privates priv_ptr;
    on_st (diskstream_close (cluster_read_stream priv));;
    on_st (diskstream_close (fat_read_stream priv));;
    on_st (diskstream_close (directory_stream priv));;
    f_free (dir_item (root_directory priv));;
    f_free priv_ptr.

Definition set_fs_private (p : Z) (d : disk) : disk :=
  mk_disk (disk_type d) (disk_id d) (sector_size d) (filesystem_ptr d) p.

(** [out:] of [fat16_resolve]. *)
Definition resolve_out (res priv_ptr stream : Z) : M (fat H B) Z :=
  (if negb (stream =? 0) then on_st (diskstream_close stream) else mret tt);;
  (if res <? 0 then
     fat16_free_private priv_ptr;;
     modify (fun s => set_f_disk (set_fs_private 0 (f_disk s)) s)
   else mret tt);;
  mret res.

(** [sizeof(struct fat_private)] *)
Definition sizeof_fat_private : Z := 92.

Definition fat16_resolve : M (fat H B) Z :=
  priv_ptr ← f_alloc sizeof_fat_private;
  fat16_init_private priv_ptr;;
  modify (fun s => set_f_disk
    (mk_disk (disk_type (f_disk s)) (disk_id (f_disk s)) (sector_size (f_disk s)) addr_fat16_fs priv_ptr) s);;
  id ← gets (fun s => disk_id (f_disk s));
  stream ← on_st (diskstream_new id);
  if stream =? 0 then resolve_out (- ENOMEM) priv_ptr stream
  else
    r ← on_st (diskstream_read stream priv_ptr sizeof_fat_h);
    let '(res, bytes) := r in
    priv ← deref f_privates priv_ptr;
    modify (put_private priv_ptr (mk_fat_private (decode_header bytes) (root_directory priv)
      (cluster_read_stream priv) (fat_read_stream priv) (directory_stream priv)));;
    if negb (res =? KERNEL_ALL_OK) then resolve_out (- EIO) priv_ptr stream
    else if negb (signature (extended_header (decode_header bytes)) =? 41) then
      resolve_out (- EFSNOTUS) priv_ptr stream
    else
      res ← fat16_get_root_directory priv_ptr;
      if negb (res =? KERNEL_ALL_OK) then resolve_out (- EIO) priv_ptr stream
      else resolve_out 0 priv_ptr stream.

(** ** Files *)

Fixpoint fat16_read_loop (n : nat) (cluster offset size out : Z) : M (fat H B) (Z * list Z * Z) :=
  match n with
  | O => mret (0, [], offset)
  | S n' =>
      r ← fat16_read_internal cluster offset (i32 size) out;
      let '(res, bytes) := r in
      if res <? 0 then mret (res, bytes, offset)
      else
        r ← fat16_read_loop n' cluster (i32 (offset + size)) size (u32 (out + size));
        let '(res, rest, offset) := r in mret (res, bytes ++ rest, offset)
  end.

(** The result and the bytes stored at [out_ptr]. *)
Definition fat16_read (descriptor size nmemb out_ptr : Z) : M (fat H B) (Z * list Z) :=
  fat_desc ← deref f_descs descriptor;
  d_item ← deref f_items (desc_item fat_desc);
  if negb (item_type d_item =? FAT_ITEM_TYPE_FILE) then mret (- EINVAGS, [])
  else
    items ← deref f_tables (item_ptr d_item);
    it ← expect (zget items 0);
    r ← fat16_read_loop (Z.to_nat nmemb) (fat16_get_first_cluster it) (i32 (desc_pos fat_desc)) size out_ptr;
    let '(res, bytes, offset) := r in
    if res <? 0 then mret (res, bytes)
    else
      modify (put_desc descriptor (mk_fat_item_descriptor (desc_item fat_desc) (u32 offset)));;
      mret (i32 nmemb, bytes).

Definition fat16_seek (descriptor offset mode : Z) : M (fat H B) Z :=
  fat_desc ← deref f_descs descriptor;
  d_item ← deref f_items (desc_item fat_desc);
  if negb (item_type d_item =? FAT_ITEM_TYPE_FILE) then mret (- EINVAGS)
  else
    items ← deref f_tables (item_ptr d_item);
    it ← expect (zget items 0);
    if mode =? SEEK_SET then
      if filesize it <=? u32 offset then mret (- EINVAGS)
      else
        modify (put_desc descriptor (mk_fat_item_descriptor (desc_item fat_desc) (u32 offset)));; mret 0
    else if mode =? SEEK_END then mret (- ENOIMPL)
    else if mode =? SEEK_CUR then
      if filesize it <=? u32 (desc_pos fat_desc + offset) then mret (- EINVAGS)
      else
        modify (put_desc descriptor
          (mk_fat_item_descriptor (desc_item fat_desc) (u32 (desc_pos fat_desc + offset))));; mret 0
    else mret (- EINVAGS).

(** The result and, on success, the contents of [*stat]. *)
Definition fat16_stat (descriptor : Z) : M (fat H B) (Z * option file_stat) :=
  fat_desc ← deref f_descs descriptor;
  d_item ← deref f_items (desc_item fat_desc);
  if negb (item_type d_item =? FAT_ITEM_TYPE_FILE) then mret (- EINVAGS, None)
  else
    items ← deref f_tables (item_ptr d_item);
    ritem ← expect (zget items 0);
    let flags := if Z.land (attribute ritem) FAT_FILE_READ_ONLY =? 0 then 0
                 else Z.lor 0 FILE_STAT_READ_ONLY in
    mret (0, Some (mk_file_stat flags (filesize ritem))).

Definition fat16_free_descriptor (desc : Z) : M (fat H B) unit :=
  (if negb (desc =? 0) then d ← deref f_descs desc; fat16_fat_item_free (desc_item d) else mret tt);;
  f_free desc.

Definition fat16_close (descriptor : Z) : M (fat H B) Z :=
  fat16_free_descriptor descriptor;; mret 0.

End fat16.

(** ** What the structures on disk mean *)

Section spec.
Context {B : Type} {BD : BlockDevice B}.

(** The [i]-th raw entry of the directory at byte [p] of the disk. *)
Definition dir_entry (b : B) (p i : Z) : fat_directory_item :=
  decode_item (disk_slice b (p + 32 * i) 32).

Definition raw_entries (b : B) (p n : Z) : list fat_directory_item :=
  map (dir_entry b p) (seqZ 0 n).

(** The directory at [p] ends at entry [k]. *)
Definition ends_at (b : B) (p k : Z) : Prop :=
  0 <= k /\ first_byte (dir_entry b p k) = 0 /\
  forall i, 0 <= i < k -> first_byte (dir_entry b p i) <> 0.

Definition in_use (it : fat_directory_item) : Prop := first_byte it <> 229.

#[export] Instance in_use_dec it : Decision (in_use it).
Proof. unfold in_use. apply _. Defined.

(** The FAT entry of a cluster, with the table at byte [p]. *)
Definition fat_entry (b : B) (p c : Z) : Z := le16 (disk_slice b (p + 2 * c) 2) 0.
End spec.

(** The text of an 8.3 name field: up to the first NUL or space. *)
Fixpoint name_field (l : list Z) : list Z :=
  match l with
  | [] => []
  | c :: l' => if (c =? 0) || (c =? 32) then [] else c :: name_field l'
  end.

(** ["NAME"] or ["NAME.EXT"] *)
Definition entry_name (it : fat_directory_item) : list Z :=
  name_field (filename it) ++
  (if (byte_of (ext it) 0 =? 0) || (byte_of (ext it) 0 =? 32) then [] else 46 :: name_field (ext it)).

(** Names are compared without case. *)
Definition same_name (a b : list Z) : Prop := tolower <$> a = tolower <$> b.

#[export] Instance same_name_dec a b : Decision (same_name a b).
Proof. unfold same_name. apply _. Defined.

Definition item_ok (it : fat_directory_item) : Prop :=
  length (filename it) = 8%nat /\ length (ext it) = 3%nat /\
  Forall (fun c => 0 <= c < 256) (filename it) /\ Forall (fun c => 0 <= c < 256) (ext it).

Lemma field_len b i n : 0 <= i -> 0 <= n -> i + n <= zlen b -> length (field b i n) = Z.to_nat n.
Proof. intros. unfold field, zlen in *. rewrite length_take, length_drop. lia. Qed.

Lemma field_forall P b i n : Forall P b -> Forall P (field b i n).
Proof. intros. unfold field. by apply Forall_take, Forall_drop. Qed.

Lemma decode_item_ok b : zlen b = 32 -> Forall (fun c => 0 <= c < 256) b -> item_ok (decode_item b).
Proof.
  intros Hl Hb. unfold item_ok. simpl.
  split_and!; try (rewrite field_len by lia; done); by apply field_forall.
Qed.

Lemma disk_slice_bytes {B} {BD : BlockDevice B} {LB : BlockDeviceLaws B} (b : B) p n :
  Forall (fun c => 0 <= c < 256) (disk_slice b p n).
Proof.
  apply Forall_forall. intros c (i & -> & _)%list_elem_of_fmap. apply disk_byte_range.
Qed.

Lemma dir_entry_ok {B} {BD : BlockDevice B} {LB : BlockDeviceLaws B} (b : B) p i : item_ok (dir_entry b p i).
Proof. apply decode_item_ok; [by apply disk_slice_len|apply disk_slice_bytes]. Qed.

Lemma name_field_chars l : Forall (fun c => 0 <= c < 256) l -> Forall is_char (name_field l).
Proof.
  induction l as [|c l IH]; intros Hl; simpl; [constructor|]. apply Forall_cons in Hl as [Hc Hl].
  destruct (Z.eqb_spec c 0), (Z.eqb_spec c 32); simpl; try constructor.
  - unfold is_char. lia.
  - by apply IH.
Qed.

Lemma name_field_len l : (length (name_field l) <= length l)%nat.
Proof. induction l as [|c l IH]; simpl; [lia|]. destruct (_ || _); simpl; lia. Qed.

(** The copy loop: [p] is the text before the field. *)
Lemma proper_loop_spec inp p d i size :
  size - i = zlen inp -> 0 < zlen inp -> zlen inp <= zlen d ->
  proper_loop inp (p ++ d) (zlen p) i size =
  Some (p ++ name_field inp ++ drop (length (name_field inp)) d, zlen p + zlen (name_field inp)).
Proof.
  revert p d i. induction inp as [|c inp IH]; intros p d i Hi H0 Hd; [done|].
  simpl. rewrite zlen_cons in Hi, Hd. pose proof (zlen_nonneg inp).
  rewrite <- negb_orb. destruct ((c =? 0) || (c =? 32)); simpl.
  { change (zlen (@nil Z)) with 0. by rewrite drop_0, Z.add_0_r. }
  destruct d as [|d0 d]; [change (zlen (@nil Z)) with 0 in Hd; lia|]. rewrite zlen_cons in Hd.
  rewrite put_app. destruct (Z.leb_spec (size - 1) i).
  - destruct inp; [|rewrite zlen_cons in *; pose proof (zlen_nonneg inp); lia]. simpl.
    change (zlen [c]) with 1. done.
  - replace (p ++ c :: d) with ((p ++ [c]) ++ d) by (by rewrite <- app_assoc).
    replace (zlen p + 1) with (zlen (p ++ [c])) by (by rewrite zlen_app).
    rewrite IH by lia. rewrite zlen_app, (zlen_cons c (name_field inp)).
    change (zlen [c]) with 1. rewrite <- app_assoc. simpl. do 2 f_equal. lia.
Qed.

Lemma to_proper_string_spec inp p d :
  0 < zlen inp -> zlen inp < zlen d ->
  exists r, fat16_to_proper_string (p ++ d) (zlen p) inp (zlen inp) =
    Some (p ++ name_field inp ++ 0 :: r, zlen p + zlen (name_field inp)) /\
    zlen d = zlen (name_field inp) + 1 + zlen r.
Proof.
  intros H0 Hd. unfold fat16_to_proper_string. rewrite proper_loop_spec by lia.
  pose proof (name_field_len inp) as Hn.
  destruct (drop (length (name_field inp)) d) as [|d0 r] eqn:E.
  { exfalso. assert (El : length (drop (length (name_field inp)) d) = 0%nat) by (by rewrite E).
    rewrite length_drop in El. unfold zlen in *. lia. }
  rewrite app_assoc. replace (zlen p + zlen (name_field inp)) with (zlen (p ++ name_field inp)) by apply zlen_app.
  rewrite put_app. exists r. rewrite zlen_app, <- app_assoc. split; [done|].
  assert (El : length (drop (length (name_field inp)) d) = S (length r)) by (by rewrite E).
  rewrite length_drop in El. unfold zlen in *. lia.
Qed.

(** The buffer holds the name of the item. *)
Lemma full_name_spec it :
  item_ok it ->
  exists buf, fat16_get_full_relative_filename it KERNEL_MAX_PATH = Some buf /\ holds buf (entry_name it).
Proof.
  intros (Hf & He & Hfb & Heb). unfold fat16_get_full_relative_filename, entry_name.
  assert (Zf : zlen (filename it) = 8) by (unfold zlen; by rewrite Hf).
  assert (Ze : zlen (ext it) = 3) by (unfold zlen; by rewrite He).
  destruct (to_proper_string_spec (filename it) [] (replicate (Z.to_nat KERNEL_MAX_PATH) 0))
    as (r & E & Hr); [lia|by rewrite zlen_replicate, Zf|].
  rewrite Zf in E. cbn [app] in E. change (zlen (@nil Z)) with 0 in E. rewrite Z.add_0_l in E. rewrite E.
  rewrite zlen_replicate in Hr. change (Z.of_nat (Z.to_nat KERNEL_MAX_PATH)) with 108 in Hr.
  pose proof (name_field_len (filename it)) as Hn. rewrite Hf in Hn. pose proof (name_field_chars _ Hfb).
  rewrite <- negb_orb. destruct ((byte_of (ext it) 0 =? 0) || (byte_of (ext it) 0 =? 32)); simpl.
  { eexists. split; [done|]. rewrite app_nil_r. by apply holds_intro. }
  rewrite put_app.
  replace (name_field (filename it) ++ 46 :: r) with ((name_field (filename it) ++ [46]) ++ r)
    by (by rewrite <- app_assoc).
  replace (zlen (name_field (filename it)) + 1) with (zlen (name_field (filename it) ++ [46]))
    by (by rewrite zlen_app).
  destruct (to_proper_string_spec (ext it) (name_field (filename it) ++ [46]) r) as (r' & E' & _);
    [lia|unfold zlen in *; lia|].
  rewrite Ze in E'. rewrite E'. eexists. split; [done|].
  rewrite app_assoc, <- app_assoc, <- app_assoc. simpl.
  replace (name_field (filename it) ++ 46 :: name_field (ext it) ++ 0 :: r')
    with ((name_field (filename it) ++ 46 :: name_field (ext it)) ++ 0 :: r') by (by rewrite <- app_assoc).
  apply holds_intro, Forall_app. split; [done|]. constructor; [unfold is_char; lia|].
  by apply name_field_chars.
Qed.

Lemma entry_name_len it : item_ok it -> (length (entry_name it) <= 12)%nat.
Proof.
  intros (Hf & He & _). unfold entry_name. rewrite length_app.
  pose proof (name_field_len (filename it)). pose proof (name_field_len (ext it)).
  destruct (_ || _); simpl; lia.
Qed.

(** Comparing a directory entry with a path component. *)
Lemma name_compare it nbuf name :
  item_ok it -> holds nbuf name -> zlen name < KERNEL_MAX_PATH ->
  exists buf cmp, fat16_get_full_relative_filename it KERNEL_MAX_PATH = Some buf /\
    istrncmp buf nbuf KERNEL_MAX_PATH = Some cmp /\ (cmp = 0 <-> same_name (entry_name it) name).
Proof.
  intros Hit Hn Hl. destruct (full_name_spec it Hit) as (buf & E & Hb). exists buf.
  destruct (istrncmp_total buf nbuf (entry_name it) name KERNEL_MAX_PATH Hb Hn) as [cmp Ec].
  exists cmp. split; [done|]. split; [done|].
  pose proof (istrncmp_loop_zero buf nbuf (entry_name it) name 0 KERNEL_MAX_PATH Hb Hn) as Hz.
  unfold istrncmp in Ec. rewrite Ec, Z.sub_0_r in Hz. pose proof (entry_name_len it Hit).
  unfold zlen, KERNEL_MAX_PATH in *.
  rewrite !take_ge in Hz by lia. unfold same_name. rewrite <- Hz. split; [by intros ->|by intros [= ->]].
Qed.

(** ** Operations that only read the disk *)

Section proofs.
Context {H B : Type} {LY : Layout} {AH : Allocator H} {LH : @AllocatorLaws H AH}
  {BD : BlockDevice B} {LB : BlockDeviceLaws B}.
Context (fuel : nat).
Implicit Types (s : fat H B) (L : list (Z * Z)).

Abbreviation heap_of s := (st_heap (f_st s)).
Abbreviation dev_of s := (st_dev (f_st s)).

(** [x] is a stream over the disk. *)
Definition is_stream s (x : Z) : Prop :=
  0 < x /\ exists p, st_streams (f_st s) !! x = Some (mk_disk_stream p addr_disk).

(** A step that reads the disk: no block changes hands, the disk and the driver's
    structures are the same, streams stay streams. *)
Record io_step s s' : Prop := {
  io_own : forall h0 L, owned h0 (heap_of s) L -> owned h0 (heap_of s') L;
  io_img : bd_image (dev_of s') = bd_image (dev_of s);
  io_rest : exists t, s' = set_f_st t s;
  io_streams : forall x, is_stream s x -> is_stream s' x
}.

Lemma io_refl s : io_step s s.
Proof. constructor; try done. exists (f_st s). by destruct s. Qed.

Lemma io_trans s1 s2 s3 : io_step s1 s2 -> io_step s2 s3 -> io_step s1 s3.
Proof.
  intros [A1 A2 [t1 ->] A4] [C1 C2 [t2 ->] C4]. constructor; try by auto.
  - by rewrite C2.
  - by exists t2.
Qed.

(** A mounted file system: the private structure at [fs_private] and its streams. *)
Record mounted s (priv : fat_private) : Prop := {
  mt_ok : al_ok (heap_of s);
  mt_size : sector_size (f_disk s) = KERNEL_SECTOR_SIZE;
  mt_priv : f_privates s !! fs_private (f_disk s) = Some priv;
  mt_cs : is_stream s (cluster_read_stream priv);
  mt_fs : is_stream s (fat_read_stream priv);
  mt_ds : is_stream s (directory_stream priv)
}.

Lemma io_ok s s' : io_step s s' -> al_ok (heap_of s) -> al_ok (heap_of s') /\
  al_avail (heap_of s') = al_avail (heap_of s).
Proof.
  intros Hio Hok. pose proof (io_own _ _ Hio _ _ (owned_refl _ Hok)) as Ho.
  split; [apply (ow_ok _ _ _ Ho)|by apply owned_nil].
Qed.

Lemma io_mounted s s' priv : io_step s s' -> mounted s priv -> mounted s' priv.
Proof.
  intros Hio [M1 M2 M3 M4 M5 M6]. pose proof (io_ok _ _ Hio M1) as [Hok _].
  destruct (io_rest _ _ Hio) as [t ->]. constructor; try done; by apply (io_streams _ _ Hio).
Qed.

Lemma bind_the_private {A} (k : fat_private -> M (fat H B) A) s priv :
  mounted s priv -> (the_private ≫= k) s = k priv s.
Proof.
  intros Hm. unfold the_private, deref. rewrite !bind_assoc, bind_gets, bind_assoc, bind_gets.
  by rewrite (bind_expect _ _ _ _ (mt_priv _ _ Hm)).
Qed.

Lemma bind_sector_size {A} (k : Z -> M (fat H B) A) s priv :
  mounted s priv -> (disk_sector_size ≫= k) s = k KERNEL_SECTOR_SIZE s.
Proof. intros Hm. unfold disk_sector_size. by rewrite bind_gets, (mt_size _ _ Hm). Qed.

Lemma bind_deref {T A} (sel : fat H B -> gmap Z T) (k : T -> M (fat H B) A) s a x :
  sel s !! a = Some x -> (deref sel a ≫= k) s = k x s.
Proof. intros E. unfold deref. by rewrite bind_assoc, bind_gets, (bind_expect _ _ _ _ E). Qed.

Lemma seek_spec s x p :
  is_stream s x ->
  exists s', on_st (diskstream_seek x p) s = Done 0 s' /\ io_step s s' /\
    st_streams (f_st s') !! x = Some (mk_disk_stream p addr_disk).
Proof.
  intros [Hx [q Hq]]. unfold on_st, zoom, diskstream_seek. rewrite (proj2 (Z.eqb_neq x 0)) by lia.
  rewrite (bind_get_stream _ _ _ _ Hq), bind_modify. eexists. split; [reflexivity|].
  split; [|simpl; apply lookup_insert_eq]. constructor; simpl; try done; [by eexists|].
  intros y [Hy [r Hr]]. split; [done|]. simpl. destruct (decide (x = y)) as [->|Hne].
  - rewrite lookup_insert_eq. by eexists.
  - rewrite lookup_insert_ne by done. by exists r.
Qed.

Lemma stream_read_spec s x out p n :
  al_ok (heap_of s) -> 0 < al_avail (heap_of s) ->
  0 < x -> st_streams (f_st s) !! x = Some (mk_disk_stream p addr_disk) ->
  out <> 0 -> 0 <= p -> 0 <= n -> p + n < 2147483648 ->
  exists s', on_st (diskstream_read x out n) s = Done (0, disk_slice (dev_of s) p n) s' /\
    io_step s s' /\ st_streams (f_st s') !! x = Some (mk_disk_stream (p + n) addr_disk).
Proof.
  intros Hok Hav Hx Hs Hout Hp Hn Hb.
  destruct (diskstream_read_total (f_st s) x out p n Hok Hs Hx Hout Hp Hn Hb) as (r & t & E & D).
  destruct D as [(_ & _ & ?)|(-> & Hst & Ho & Hi)]; [lia|].
  unfold on_st, zoom. rewrite E. eexists. split; [reflexivity|].
  split; [|simpl; rewrite Hst; apply lookup_insert_eq]. constructor; simpl; try done; [by eexists|].
  intros y [Hy [r Hr]]. split; [done|]. simpl. rewrite Hst. destruct (decide (x = y)) as [->|Hne].
  - rewrite lookup_insert_eq. by eexists.
  - rewrite lookup_insert_ne by done. by exists r.
Qed.

(** Seek, then read. *)
Lemma seek_read s x out p n {A} (k : Z -> M (fat H B) A) :
  al_ok (heap_of s) -> 0 < al_avail (heap_of s) -> is_stream s x ->
  out <> 0 -> 0 <= p -> 0 <= n -> p + n < 2147483648 ->
  exists s1 s2, on_st (diskstream_seek x p) s = Done 0 s1 /\
    on_st (diskstream_read x out n) s1 = Done (0, disk_slice (dev_of s) p n) s2 /\
    io_step s s1 /\ io_step s s2.
Proof.
  intros Hok Hav Hx Hout Hp Hn Hb. destruct (seek_spec s x p Hx) as (s1 & E1 & Hio1 & Hs1).
  destruct (io_ok _ _ Hio1 Hok) as [Hok1 Hav1].
  destruct (stream_read_spec s1 x out p n Hok1 ltac:(lia) (proj1 Hx) Hs1 Hout Hp Hn Hb) as (s2 & E2 & Hio2 & _).
  exists s1, s2. split; [exact E1|]. rewrite (disk_slice_ext (dev_of s)) in E2 by apply (io_img _ _ Hio1).
  split; [exact E2|]. split; [done|]. by eapply io_trans.
Qed.

(** ** The file allocation table *)

Definition fat_start (priv : fat_private) : Z :=
  reserved_sectors (primary_header (header priv)) * KERNEL_SECTOR_SIZE.

Lemma fat_entry_spec s priv c :
  mounted s priv -> 0 < al_avail (heap_of s) ->
  0 <= reserved_sectors (primary_header (header priv)) < 65536 -> 0 <= c < 65536 ->
  exists s', fat16_get_fat_entry c s = Done (fat_entry (dev_of s) (fat_start priv) c) s' /\ io_step s s'.
Proof.
  intros Hm Hav Hres Hc. unfold fat16_get_fat_entry. rewrite (bind_the_private _ _ _ Hm).
  pose proof (mt_fs _ _ Hm) as Hfs. rewrite (proj2 (Z.eqb_neq _ 0)) by (destruct Hfs; lia).
  rewrite (bind_sector_size _ _ _ Hm). unfold fat16_get_first_fat_sector, KERNEL_FAT16_FAT_ENTRY_SIZE.
  rewrite u32_small by (unfold KERNEL_SECTOR_SIZE; lia). fold (fat_start priv).
  assert (Hst : 0 <= fat_start priv <= 33553920) by (unfold fat_start, KERNEL_SECTOR_SIZE; lia).
  rewrite i32_small by lia. rewrite (Z.mul_comm c 2).
  destruct (seek_read s (fat_read_stream priv) local_buffer (fat_start priv + 2 * c) 2
    (fun _ => mret 0) (mt_ok _ _ Hm) Hav Hfs) as (s1 & s2 & E1 & E2 & Hio1 & Hio2); try lia; [done|].
  rewrite (bind_Done _ _ _ _ _ E1). change (0 <? 0) with false. cbv iota.
  rewrite (bind_Done _ _ _ _ _ E2). exists s2. by split.
Qed.

(** ** Scanning a directory *)

Lemma raw_entries_cons (b : B) p i k :
  i < k -> map (dir_entry b p) (seqZ i (k - i)) =
  dir_entry b p i :: map (dir_entry b p) (seqZ (i + 1) (k - (i + 1))).
Proof. intros Hi. rewrite seqZ_cons by lia. simpl. do 3 f_equal; lia. Qed.

Lemma total_items_loop_spec n s x p i k cnt :
  al_ok (heap_of s) -> 0 < al_avail (heap_of s) -> 0 < x ->
  st_streams (f_st s) !! x = Some (mk_disk_stream (p + 32 * i) addr_disk) ->
  ends_at (dev_of s) p k -> 0 <= p -> 0 <= i <= k -> k - i < Z.of_nat n ->
  p + 32 * k + 32 < 2147483648 ->
  exists s', total_items_loop n x cnt s =
    Done (cnt + zlen (filter in_use (map (dir_entry (dev_of s) p) (seqZ i (k - i))))) s' /\ io_step s s'.
Proof.
  revert s i cnt. induction n as [|n IH]; intros s i cnt Hok Hav Hx Hs He Hp Hi Hn Hb; [lia|].
  cbn [total_items_loop].
  destruct (stream_read_spec s x local_buffer (p + 32 * i) sizeof_item Hok Hav Hx Hs)
    as (s1 & E1 & Hio1 & Hs1); try (unfold sizeof_item; lia); [done|].
  rewrite (bind_Done _ _ _ _ _ E1). cbv beta iota. change (negb (0 =? KERNEL_ALL_OK)) with false. cbv iota.
  unfold sizeof_item. fold (dir_entry (dev_of s) p i). destruct He as (Hk & Hkz & Hkn).
  destruct (Z.eqb_spec (first_byte (dir_entry (dev_of s) p i)) 0) as [E0|N0].
  - assert (i = k) as -> by (destruct (Z.eq_dec i k); [done|]; by destruct (Hkn i ltac:(lia))).
    rewrite Z.sub_diag. change (map (dir_entry (dev_of s) p) (seqZ k 0)) with (@nil fat_directory_item).
    rewrite filter_nil. change (zlen (@nil fat_directory_item)) with 0. rewrite Z.add_0_r.
    by exists s1.
  - assert (Hik : i < k) by (destruct (Z.eq_dec i k) as [->|]; [done|lia]).
    destruct (io_ok _ _ Hio1 Hok) as [Hok1 Hav1].
    rewrite (raw_entries_cons _ _ _ _ Hik), filter_cons.
    assert (Hdev : forall j, dir_entry (dev_of s1) p j = dir_entry (dev_of s) p j).
    { intros j. unfold dir_entry. f_equal. apply disk_slice_ext, (io_img _ _ Hio1). }
    destruct (IH s1 (i + 1) (if first_byte (dir_entry (dev_of s) p i) =? 229 then cnt else cnt + 1))
      as (s2 & E2 & Hio2); try done; try lia.
    { rewrite Hs1. f_equal. f_equal. unfold sizeof_item. lia. }
    { split; [done|]. split; [by rewrite Hdev|]. intros j Hj. rewrite Hdev. by apply Hkn. }
    exists s2. split; [|by eapply io_trans].
    rewrite (map_ext _ _ Hdev) in E2.
    unfold in_use at 1. destruct (Z.eqb_spec (first_byte (dir_entry (dev_of s) p i)) 229) as [E229|N229].
    + rewrite decide_False by (intros Hx'; by apply Hx'). exact E2.
    + rewrite decide_True by done. rewrite zlen_cons. rewrite E2. f_equal. lia.
Qed.

Lemma total_items_spec s priv sector k :
  mounted s priv -> 0 < al_avail (heap_of s) -> 0 <= sector ->
  ends_at (dev_of s) (KERNEL_SECTOR_SIZE * sector) k -> k < Z.of_nat fuel ->
  KERNEL_SECTOR_SIZE * sector + 32 * k + 32 < 2147483648 ->
  exists s', fat16_get_total_items_for_directory fuel sector s =
    Done (zlen (filter in_use (raw_entries (dev_of s) (KERNEL_SECTOR_SIZE * sector) k))) s' /\ io_step s s'.
Proof.
  intros Hm Hav Hsec He Hk Hb. pose proof He as (Hk0 & _).
  unfold fat16_get_total_items_for_directory.
  rewrite (bind_the_private _ _ _ Hm), (bind_sector_size _ _ _ Hm). unfold fat16_sector_to_absolute.
  rewrite i32_small by (unfold KERNEL_SECTOR_SIZE in *; lia).
  destruct (seek_spec s (directory_stream priv) (KERNEL_SECTOR_SIZE * sector) (mt_ds _ _ Hm)) as (s1 & E1 & Hio1 & Hs1).
  rewrite (bind_Done _ _ _ _ _ E1). change (negb (0 =? KERNEL_ALL_OK)) with false. cbv iota.
  destruct (io_ok _ _ Hio1 (mt_ok _ _ Hm)) as [Hok1 Hav1].
  assert (Hdev : forall j, dir_entry (dev_of s1) (KERNEL_SECTOR_SIZE * sector) j =
                           dir_entry (dev_of s) (KERNEL_SECTOR_SIZE * sector) j).
  { intros j. unfold dir_entry. f_equal. apply disk_slice_ext, (io_img _ _ Hio1). }
  destruct (total_items_loop_spec fuel s1 (directory_stream priv) (KERNEL_SECTOR_SIZE * sector) 0 k 0)
    as (s2 & E2 & Hio2); try done; try (unfold KERNEL_SECTOR_SIZE in *; lia).
  - apply (mt_ds _ _ Hm).
  - by rewrite Z.mul_0_r, Z.add_0_r.
  - destruct He as (? & He0 & Hen). split; [done|]. split; [by rewrite Hdev|].
    intros j Hj. rewrite Hdev. by apply Hen.
  - exists s2. split; [|by eapply io_trans].
    rewrite E2, Z.sub_0_r, (map_ext _ _ Hdev). done.
Qed.

(** ** Reading the data of a file *)

Definition cluster_size (priv : fat_private) : Z :=
  sectors_per_cluster (primary_header (header priv)) * KERNEL_SECTOR_SIZE.

(** First byte of a cluster on the disk. *)
Definition cluster_pos (priv : fat_private) (c : Z) : Z :=
  (ending_sector_pos (root_directory priv) +
   (c - 2) * sectors_per_cluster (primary_header (header priv))) * KERNEL_SECTOR_SIZE.

(** The volume is within reach of the driver's [int] positions. *)
Record geometry_ok (priv : fat_private) : Prop := {
  ge_spc : 0 < sectors_per_cluster (primary_header (header priv)) < 256;
  ge_res : 0 <= reserved_sectors (primary_header (header priv)) < 65536;
  ge_end : 0 <= ending_sector_pos (root_directory priv);
  ge_fit : cluster_pos priv 65536 < 2147483648
}.

Lemma cluster_bytes_eq priv : geometry_ok priv -> cluster_bytes priv KERNEL_SECTOR_SIZE = cluster_size priv.
Proof.
  intros [G1 G2 G3 G4]. unfold cluster_bytes, cluster_size, KERNEL_SECTOR_SIZE in *. apply i32_small. lia.
Qed.

Lemma cluster_size_pos priv : geometry_ok priv -> 0 < cluster_size priv <= 130560.
Proof. intros [G1 _ _ _]. unfold cluster_size, KERNEL_SECTOR_SIZE. lia. Qed.

Lemma cluster_range priv c :
  geometry_ok priv -> 2 <= c < 65536 -> 0 <= cluster_pos priv c /\
  cluster_pos priv c + cluster_size priv < 2147483648.
Proof. intros [G1 G2 G3 G4]. unfold cluster_pos, cluster_size, KERNEL_SECTOR_SIZE in *. nia. Qed.

Lemma start_pos_eq priv c o :
  geometry_ok priv -> 2 <= c < 65536 -> 0 <= o < cluster_size priv ->
  i32 (fat16_cluster_to_sector priv c * KERNEL_SECTOR_SIZE + o) = cluster_pos priv c + o.
Proof.
  intros G Hc Ho. destruct (cluster_range priv c G Hc) as [H1 H2].
  unfold fat16_cluster_to_sector, cluster_pos in *.
  rewrite (i32_small (ending_sector_pos (root_directory priv) + _))
    by (unfold KERNEL_SECTOR_SIZE in *; lia). apply i32_small. lia.
Qed.

(** Reading nothing succeeds at any position. *)
Lemma stream_read_zero s x out :
  al_ok (heap_of s) -> 0 < al_avail (heap_of s) -> is_stream s x -> out <> 0 ->
  exists s', on_st (diskstream_read x out 0) s = Done (0, []) s' /\ io_step s s'.
Proof.
  intros Hok Hav [Hx [p Hp]] Hout. unfold on_st, zoom, diskstream_read.
  rewrite (proj2 (Z.eqb_neq x 0)), (proj2 (Z.eqb_neq out 0)) by lia. cbn [orb].
  change (0 <? 0) with false. cbv iota.
  destruct (al_malloc (heap_of s) KERNEL_SECTOR_SIZE) as [a h1] eqn:E.
  assert (E1 : st_alloc KERNEL_SECTOR_SIZE (f_st s) = Done a (set_st_heap h1 (f_st s))).
  { unfold st_alloc, zoom, al_alloc. by rewrite E. }
  rewrite (bind_Done _ _ _ _ _ E1).
  pose proof (al_malloc_page (heap_of s) KERNEL_SECTOR_SIZE a h1 Hok ltac:(done) ltac:(reflexivity) Hav E) as Ha.
  rewrite (proj2 (Z.eqb_neq a 0)) by lia. cbn [read_loop]. change (0 <? 0) with false. cbv iota.
  rewrite bind_ret. eexists. split; [reflexivity|]. constructor; simpl; try done; [|by eexists].
  intros h0 L. eapply owned_alloc_free; [done| |done|]; [done|lia].
Qed.

Section read.
Context (s0 : fat H B) (priv : fat_private).
Hypothesis Hm : mounted s0 priv.
Hypothesis Hav : 0 < al_avail (heap_of s0).
Hypothesis Hg : geometry_ok priv.

Lemma io_dev s c : io_step s0 s -> fat_entry (dev_of s) (fat_start priv) c = fat_entry (dev_of s0) (fat_start priv) c.
Proof. intros Hio. unfold fat_entry. f_equal. apply disk_slice_ext, (io_img _ _ Hio). Qed.

Lemma io_here s : io_step s0 s -> mounted s priv /\ 0 < al_avail (heap_of s).
Proof.
  intros Hio. split; [by apply (io_mounted s0)|]. destruct (io_ok _ _ Hio (mt_ok _ _ Hm)). lia.
Qed.

(** Bytes within the first cluster of a file. *)
Lemma read_internal_in_cluster s c offset total out :
  io_step s0 s -> 2 <= c < 65536 -> 0 <= offset -> 0 <= total -> offset + total <= cluster_size priv ->
  offset < cluster_size priv -> out <> 0 -> (2 <= fuel)%nat ->
  exists s', fat16_read_internal fuel c offset total out s =
    Done (0, disk_slice (dev_of s0) (cluster_pos priv c + offset) total) s' /\ io_step s0 s'.
Proof.
  intros Hio Hc Ho Ht Hot Hol Hout Hf. destruct (io_here s Hio) as [Hms Havs].
  pose proof (cluster_size_pos priv Hg) as Hcs.
  unfold fat16_read_internal, fat16_read_internal_from_stream, fat16_get_cluster_for_offset.
  rewrite !(bind_the_private _ _ _ Hms), (bind_sector_size _ _ _ Hms), bind_assoc,
    (bind_the_private _ _ _ Hms), bind_assoc, (bind_sector_size _ _ _ Hms).
  rewrite (cluster_bytes_eq priv Hg), (proj2 (Z.eqb_neq _ 0)) by lia.
  unfold cdiv. rewrite Z.quot_small by lia. change (Z.to_nat 0) with 0%nat. cbn [cluster_loop].
  rewrite bind_ret, (proj2 (Z.ltb_ge c 0)) by lia.
  destruct fuel as [|n]; [lia|]. cbn [read_internal_loop]. destruct (Z.ltb_spec 0 total).
  2: { assert (total = 0) as -> by lia. by exists s. }
  rewrite (cluster_bytes_eq priv Hg). unfold crem. rewrite Z.rem_small by lia.
  rewrite start_pos_eq by (done || lia). rewrite Z.min_l by lia.
  destruct (cluster_range priv c Hg Hc).
  destruct (seek_read s (cluster_read_stream priv) out (cluster_pos priv c + offset) total (fun _ => mret 0)
    (mt_ok _ _ Hms) Havs (mt_cs _ _ Hms)) as (s1 & s2 & E1 & E2 & _ & Hio2); try lia; try done.
  rewrite (bind_Done _ _ _ _ _ E1). change (negb (0 =? KERNEL_ALL_OK)) with false. cbv iota.
  rewrite (bind_Done _ _ _ _ _ E2). cbv beta iota. change (negb (0 =? KERNEL_ALL_OK)) with false. cbv iota.
  rewrite Z.sub_diag. change (0 <? 0) with false. cbv iota.
  rewrite (disk_slice_ext (dev_of s0)) by apply (io_img _ _ Hio).
  exists s2. split; [done|]. by eapply io_trans.
Qed.

(** The chain from cluster [c] ends after [m] more clusters. *)
Fixpoint chain_ends (b : B) (c : Z) (m : nat) : Prop :=
  match m with
  | O => fat16_check_cluster_entry (fat_entry b (fat_start priv) c) < 0
  | S m' => 0 <= fat16_check_cluster_entry (fat_entry b (fat_start priv) c) /\
            chain_ends b (fat_entry b (fat_start priv) c) m'
  end.

Lemma fat_entry_range b c : 0 <= fat_entry b (fat_start priv) c < 65536.
Proof.
  unfold fat_entry, le16, byte_of. rewrite !disk_slice_get by lia. simpl.
  pose proof (disk_byte_range b (fat_start priv + 2 * c + 0)).
  pose proof (disk_byte_range b (fat_start priv + 2 * c + (0 + 1))). lia.
Qed.

(** Once [offset] has reached the cluster size the loop only walks the chain. *)
Lemma read_internal_loop_stuck m n s c total out :
  io_step s0 s -> 0 <= c < 65536 -> chain_ends (dev_of s0) c m -> (m < n)%nat -> 0 < total -> out <> 0 ->
  0 <= out < 4294967296 ->
  exists s', read_internal_loop n priv KERNEL_SECTOR_SIZE (cluster_read_stream priv) c (cluster_size priv) total out s =
    Done (- EIO, []) s' /\ io_step s0 s'.
Proof.
  revert n s c. induction m as [|m IH]; intros n s c Hio Hc Hch Hn Ht Hout Hor;
    (destruct n as [|n]; [lia|]); cbn [read_internal_loop];
    rewrite (proj2 (Z.ltb_lt 0 total)) by done; rewrite (cluster_bytes_eq priv Hg), Z.sub_diag, Z.min_r by lia;
    destruct (io_here s Hio) as [Hms Havs];
    destruct (seek_spec s (cluster_read_stream priv)
      (i32 (fat16_cluster_to_sector priv c * KERNEL_SECTOR_SIZE + crem (cluster_size priv) (cluster_size priv)))
      (mt_cs _ _ Hms)) as (s1 & E1 & Hio1 & _);
    rewrite (bind_Done _ _ _ _ _ E1); change (negb (0 =? KERNEL_ALL_OK)) with false; cbv iota;
    pose proof (io_trans _ _ _ Hio Hio1) as Hio01; destruct (io_here s1 Hio01) as [Hms1 Havs1];
    destruct (stream_read_zero s1 (cluster_read_stream priv) out (mt_ok _ _ Hms1) Havs1 (mt_cs _ _ Hms1) Hout)
      as (s2 & E2 & Hio2);
    rewrite (bind_Done _ _ _ _ _ E2); cbv beta iota; change (negb (0 =? KERNEL_ALL_OK)) with false; cbv iota;
    rewrite !Z.sub_0_r, !Z.add_0_r, (u32_small out) by done; rewrite (proj2 (Z.ltb_lt 0 total)) by done;
    pose proof (io_trans _ _ _ Hio01 Hio2) as Hio02; destruct (io_here s2 Hio02) as [Hms2 Havs2];
    destruct (fat_entry_spec s2 priv c Hms2 Havs2 (ge_res _ Hg) Hc) as (s3 & E3 & Hio3);
    unfold fat16_get_next_cluster; rewrite bind_assoc, (bind_Done _ _ _ _ _ E3), (io_dev s2 c Hio02);
    pose proof (io_trans _ _ _ Hio02 Hio3) as Hio03; simpl in Hch.
  - rewrite (proj2 (Z.ltb_lt _ 0)) by done. by exists s3.
  - destruct Hch as [Hok Hch]. rewrite (proj2 (Z.ltb_ge _ 0)) by done.
    rewrite bind_ret. pose proof (fat_entry_range (dev_of s0) c) as He.
    rewrite (proj2 (Z.ltb_ge _ 0)) by lia.
    destruct (IH n s3 _ Hio03 He Hch ltac:(lia) Ht Hout Hor) as (s4 & E4 & Hio4).
    rewrite (bind_Done _ _ _ _ _ E4). by exists s4.
Qed.

(** A read that needs a second cluster delivers the first one and fails. *)
Lemma read_internal_across s c offset total out m :
  io_step s0 s -> 2 <= c < 65536 -> 0 <= offset < cluster_size priv ->
  cluster_size priv < offset + total -> 0 < out -> out + (cluster_size priv - offset) < 4294967296 ->
  chain_ends (dev_of s0) c m -> (m + 2 < fuel)%nat ->
  exists s', fat16_read_internal fuel c offset total out s =
    Done (- EIO, disk_slice (dev_of s0) (cluster_pos priv c + offset) (cluster_size priv - offset)) s' /\
    io_step s0 s'.
Proof.
  intros Hio Hc Ho Hot Hout Hout2 Hch Hf. destruct (io_here s Hio) as [Hms Havs].
  pose proof (cluster_size_pos priv Hg) as Hcs.
  unfold fat16_read_internal, fat16_read_internal_from_stream, fat16_get_cluster_for_offset.
  rewrite !(bind_the_private _ _ _ Hms), (bind_sector_size _ _ _ Hms), bind_assoc,
    (bind_the_private _ _ _ Hms), bind_assoc, (bind_sector_size _ _ _ Hms).
  rewrite (cluster_bytes_eq priv Hg), (proj2 (Z.eqb_neq _ 0)) by lia.
  unfold cdiv. rewrite Z.quot_small by lia. change (Z.to_nat 0) with 0%nat. cbn [cluster_loop].
  rewrite bind_ret, (proj2 (Z.ltb_ge c 0)) by lia.
  destruct fuel as [|n]; [lia|]. cbn [read_internal_loop]. rewrite (proj2 (Z.ltb_lt 0 total)) by lia.
  rewrite (cluster_bytes_eq priv Hg). unfold crem at 1. rewrite Z.rem_small by lia.
  rewrite start_pos_eq by (done || lia). rewrite Z.min_r by lia.
  destruct (cluster_range priv c Hg Hc).
  destruct (seek_read s (cluster_read_stream priv) out (cluster_pos priv c + offset) (cluster_size priv - offset)
    (fun _ => mret 0) (mt_ok _ _ Hms) Havs (mt_cs _ _ Hms)) as (s1 & s2 & E1 & E2 & _ & Hio2); try lia.
  rewrite (bind_Done _ _ _ _ _ E1). change (negb (0 =? KERNEL_ALL_OK)) with false. cbv iota.
  rewrite (bind_Done _ _ _ _ _ E2). cbv beta iota. change (negb (0 =? KERNEL_ALL_OK)) with false. cbv iota.
  rewrite (proj2 (Z.ltb_lt 0 (total - _))) by lia.
  replace (offset + (cluster_size priv - offset)) with (cluster_size priv) by lia.
  rewrite (u32_small (out + _)) by lia.
  rewrite (disk_slice_ext (dev_of s0)) by apply (io_img _ _ Hio).
  pose proof (io_trans _ _ _ Hio Hio2) as Hio02. destruct (io_here s2 Hio02) as [Hms2 Havs2].
  destruct (fat_entry_spec s2 priv c Hms2 Havs2 (ge_res _ Hg) ltac:(lia)) as (s3 & E3 & Hio3).
  unfold fat16_get_next_cluster. rewrite bind_assoc, (bind_Done _ _ _ _ _ E3), (io_dev s2 c Hio02).
  pose proof (io_trans _ _ _ Hio02 Hio3) as Hio03. pose proof (fat_entry_range (dev_of s0) c) as He.
  destruct m as [|m]; simpl in Hch.
  - rewrite (proj2 (Z.ltb_lt _ 0)) by done. by exists s3.
  - destruct Hch as [Hok Hch]. rewrite (proj2 (Z.ltb_ge _ 0)) by done.
    rewrite bind_ret, (proj2 (Z.ltb_ge _ 0)) by lia.
    destruct (read_internal_loop_stuck m n s3 _ (total - (cluster_size priv - offset))
      (out + (cluster_size priv - offset)) Hio03 He Hch ltac:(lia) ltac:(lia) ltac:(lia) ltac:(lia)) as (s4 & E4 & Hio4).
    rewrite (bind_Done _ _ _ _ _ E4), app_nil_r. by exists s4.
Qed.

(** Following the chain over [n] clusters, when it ends after [m] more. *)
Lemma cluster_loop_walk n : forall i s c m,
  io_step s0 s -> 0 <= c < 65536 -> chain_ends (dev_of s0) c m ->
  exists s', io_step s0 s' /\
    if (m <? n)%nat then cluster_loop n i (i + Z.of_nat n) c s = Done (- EIO) s'
    else exists c', cluster_loop n i (i + Z.of_nat n) c s = Done c' s' /\ 0 <= c' < 65536 /\ chain_ends (dev_of s0) c' (m - n).
Proof.
  induction n as [|n IH]; intros i s c m Hio Hc Hch.
  - exists s. split; [exact Hio|]. change (m <? 0)%nat with false. cbv iota. exists c. by rewrite Nat.sub_0_r.
  - cbn [cluster_loop]. rewrite (proj2 (Z.ltb_lt _ _)) by lia. destruct (io_here s Hio) as [Hms Havs].
    destruct (fat_entry_spec s priv c Hms Havs (ge_res _ Hg) Hc) as (s1 & E & Hio1). rewrite (bind_Done _ _ _ _ _ E), (io_dev s c Hio).
    pose proof (io_trans _ _ _ Hio Hio1) as Hio01. destruct m as [|m]; simpl in Hch.
    + rewrite (proj2 (Z.ltb_lt _ 0)) by exact Hch. exists s1. by split.
    + destruct Hch as [Hok Hch]. rewrite (proj2 (Z.ltb_ge _ 0)) by exact Hok.
      destruct (IH (i + 1) s1 _ m Hio01 (fat_entry_range _ _) Hch) as (s2 & Hio2 & D). exists s2. split; [exact Hio2|].
      replace (i + Z.of_nat (S n)) with (i + 1 + Z.of_nat n) by lia. exact D.
Qed.

(** What a read at or behind the end of the first cluster returns, if the chain of the file
    has [m] clusters after the first. *)
Definition beyond_error (offset : Z) (m : nat) : Z :=
  if (offset <=? cluster_size priv) || (Z.of_nat m <? offset / cluster_size priv) then - EIO else - EINVAGS.

Lemma beyond_error_neg offset m : beyond_error offset m < 0.
Proof. unfold beyond_error. by destruct (_ || _). Qed.

(** It reads nothing and fails. *)
Lemma read_internal_beyond s c offset total out m :
  io_step s0 s -> 2 <= c < 65536 -> cluster_size priv <= offset -> 0 < total -> 0 < out < 4294967296 ->
  chain_ends (dev_of s0) c m -> (m + 2 < fuel)%nat ->
  exists s', fat16_read_internal fuel c offset total out s = Done (beyond_error offset m, []) s' /\ io_step s0 s'.
Proof.
  intros Hio Hc Ho Ht Hout Hch Hf. destruct (io_here s Hio) as [Hms Havs]. pose proof (cluster_size_pos priv Hg) as Hcs.
  unfold fat16_read_internal, fat16_read_internal_from_stream, fat16_get_cluster_for_offset.
  rewrite !(bind_the_private _ _ _ Hms), (bind_sector_size _ _ _ Hms), bind_assoc,
    (bind_the_private _ _ _ Hms), bind_assoc, (bind_sector_size _ _ _ Hms).
  rewrite (cluster_bytes_eq priv Hg), (proj2 (Z.eqb_neq _ 0)) by lia. unfold cdiv. rewrite Z.quot_div_nonneg by lia.
  set (ahead := offset / cluster_size priv). assert (Ha : 0 < ahead) by (apply Z.div_str_pos; lia).
  assert (Ha1 : offset <= cluster_size priv -> ahead = 1) by (intros Hle; unfold ahead; replace offset with (cluster_size priv) by lia; apply Z.div_same; lia).
  destruct (cluster_loop_walk (Z.to_nat ahead) 0 s c m Hio ltac:(lia) Hch) as (s1 & Hio1 & D). rewrite Z.add_0_l, Z2Nat.id in D by lia.
  unfold beyond_error. fold ahead. destruct (Nat.ltb_spec m (Z.to_nat ahead)) as [Hm1|Hm1].
  - rewrite (bind_Done _ _ _ _ _ D). change (- EIO <? 0) with true. cbv iota. rewrite (proj2 (Z.ltb_lt (Z.of_nat m) ahead)), orb_true_r by lia.
    exists s1. split; [reflexivity|exact Hio1].
  - destruct D as (c' & E & Hc' & Hch'). rewrite (bind_Done _ _ _ _ _ E), (proj2 (Z.ltb_ge c' 0)) by lia.
    rewrite (proj2 (Z.ltb_ge (Z.of_nat m) ahead)), orb_false_r by lia. destruct (Z.leb_spec offset (cluster_size priv)) as [Heq|Hgt].
    + replace offset with (cluster_size priv) by lia.
      apply (read_internal_loop_stuck (m - Z.to_nat ahead) fuel s1 c' total out); try done; lia.
    + destruct fuel as [|n]; [lia|]. cbn [read_internal_loop]. rewrite (proj2 (Z.ltb_lt 0 total)) by done.
      rewrite (cluster_bytes_eq priv Hg). rewrite Z.min_r by lia. destruct (io_here s1 Hio1) as [Hms1 _].
      edestruct (seek_spec s1 (cluster_read_stream priv)) as (s2 & E2 & Hio2 & _); [exact (mt_cs _ _ Hms1)|].
      rewrite (bind_Done _ _ _ _ _ E2). change (negb (0 =? KERNEL_ALL_OK)) with false. cbv iota.
      assert (E3 : on_st (diskstream_read (cluster_read_stream priv) out (cluster_size priv - offset)) s2 = Done (- EINVAGS, []) s2).
      { unfold diskstream_read. rewrite (proj2 (Z.ltb_lt _ 0)), !orb_true_r by lia. unfold on_st, zoom. cbn. by destruct s2. }
      rewrite (bind_Done _ _ _ _ _ E3). cbv beta iota. exists s2. split; [reflexivity|]. by eapply io_trans.
Qed.

(** The rounds of [fat16_read], when they do not stay within the first cluster. *)
Lemma read_loop_across c size m n : forall s offset out,
  io_step s0 s -> 2 <= c < 65536 -> 0 < size < 2147483648 -> 0 <= offset -> (0 < n)%nat ->
  cluster_size priv < offset + Z.of_nat n * size -> offset + Z.of_nat n * size < 2147483648 ->
  0 < out < 4294967296 -> out + (cluster_size priv - offset) < 4294967296 ->
  chain_ends (dev_of s0) c m -> (m + 2 < fuel)%nat ->
  exists s' o, fat16_read_loop fuel n c offset size out s =
    Done (beyond_error offset m, disk_slice (dev_of s0) (cluster_pos priv c + offset) (cluster_size priv - offset), o) s' /\ io_step s0 s'.
Proof.
  induction n as [|n IH]; intros s offset out Hio Hc Hsz Ho Hn Hend Hmax Hout Hbuf Hch Hf; [lia|].
  cbn [fat16_read_loop]. rewrite (i32_small size) by lia. assert (Hneg : forall o k, (beyond_error o k <? 0) = true) by (intros; apply Z.ltb_lt, beyond_error_neg).
  destruct (Z.le_gt_cases (cluster_size priv) offset) as [Hb|Hb].
  { destruct (read_internal_beyond s c offset size out m Hio Hc Hb ltac:(lia) Hout Hch Hf) as (s1 & E & Hio1).
    rewrite (bind_Done _ _ _ _ _ E). cbv beta iota. rewrite Hneg. exists s1, offset. split; [|exact Hio1].
    unfold disk_slice. rewrite seqZ_nil by lia. reflexivity. }
  assert (Eb : beyond_error offset m = - EIO) by (unfold beyond_error; by rewrite (proj2 (Z.leb_le _ _)) by lia). rewrite Eb.
  destruct (Z.lt_ge_cases (cluster_size priv) (offset + size)) as [Hx|Hx].
  { destruct (read_internal_across s c offset size out m Hio Hc ltac:(lia) Hx ltac:(lia) Hbuf Hch Hf) as (s1 & E & Hio1).
    rewrite (bind_Done _ _ _ _ _ E). cbv beta iota. change (- EIO <? 0) with true. cbv iota. by exists s1, offset. }
  destruct (read_internal_in_cluster s c offset size out Hio Hc Ho ltac:(lia) Hx Hb ltac:(lia) ltac:(lia)) as (s1 & E & Hio1).
  rewrite (bind_Done _ _ _ _ _ E). cbv beta iota. change (0 <? 0) with false. cbv iota.
  rewrite (i32_small (offset + size)), (u32_small (out + size)) by lia.
  destruct (IH s1 (offset + size) (out + size) Hio1 Hc Hsz) as (s2 & o & E2 & Hio2); [lia|lia|lia|lia|lia|lia|exact Hch|exact Hf|].
  exists s2, o. rewrite (bind_Done _ _ _ _ _ E2). cbv beta iota. split; [|exact Hio2].
  assert (Eb2 : beyond_error (offset + size) m = - EIO) by (unfold beyond_error; by rewrite (proj2 (Z.leb_le _ _)) by lia). rewrite Eb2.
  rewrite Z.add_assoc, <- disk_slice_app by lia. by replace (size + (cluster_size priv - (offset + size))) with (cluster_size priv - offset) by lia.
Qed.
End read.

(** ** New items *)

Definition set_heap (h : H) s : fat H B := set_f_st (set_st_heap h (f_st s)) s.

(** A one-block allocation: fresh with respect to every live block. *)
Lemma f_alloc_spec h0 L s size :
  owned h0 (heap_of s) L -> 0 <= size < 4294967296 -> blocks_of size = 1 -> 0 < al_avail (heap_of s) ->
  exists a h', f_alloc size s = Done a (set_heap h' s) /\ 0 < a < 2147483648 /\
    owned h0 h' ((a, 1) :: L) /\ (forall n, al_live (heap_of s) a n -> False) /\
    al_avail h' = al_avail (heap_of s) - 1 /\
    (forall b n, al_live (heap_of s) b n -> al_live h' b n).
Proof.
  intros Ho Hs Hb Hav. destruct (al_malloc (heap_of s) size) as [a h'] eqn:E.
  pose proof (al_malloc_page _ _ _ _ (ow_ok _ _ _ Ho) Hs Hb Hav E) as Ha.
  destruct (owned_alloc _ _ _ _ _ _ Ho Hs E) as [[-> _]|(_ & Ho' & Hfr)]; [lia|]. rewrite Hb in Ho'.
  exists a, h'. unfold f_alloc, on_st, st_alloc, zoom, al_alloc. rewrite E. split; [done|].
  split; [eapply owned_range; [done|rewrite fmap_cons; by left]|]. split; [done|]. split; [done|].
  split; [rewrite (al_malloc_avail (heap_of s) size a h'), Hb by (done || lia || apply (ow_ok _ _ _ Ho)); done|].
  intros b n Hl. apply (ow_live _ _ _ Ho'). destruct (proj1 (ow_live _ _ _ Ho b n) Hl); [left; by right|by right].
Qed.

Lemma f_free_spec h0 L s a n :
  owned h0 (heap_of s) ((a, n) :: L) ->
  exists h', f_free a s = Done tt (set_heap h' s) /\ owned h0 h' L.
Proof. intros Ho. exists (al_free (heap_of s) a). split; [done|]. by eapply owned_free. Qed.

(** A new file item: the copy [c] of the directory entry and the item [f]. *)
Definition file_item s s' (f c : Z) (it : fat_directory_item) : Prop :=
  exists h', s' = put_item f (mk_fat_item c FAT_ITEM_TYPE_FILE) (put_table c [it] (set_heap h' s)).

Lemma new_file_item_spec h0 L s it :
  owned h0 (heap_of s) L -> 2 <= al_avail (heap_of s) ->
  Z.land (attribute it) FAT_FILE_SUBDIRECTORY = 0 ->
  exists f c s', fat16_new_fat_item_for_directory_item fuel it s = Done f s' /\
    file_item s s' f c it /\ 0 < f /\ 0 < c /\ owned h0 (heap_of s') ((c, 1) :: (f, 1) :: L) /\
    (forall n, al_live (heap_of s) c n -> False).
Proof.
  intros Ho Hav Hat. unfold fat16_new_fat_item_for_directory_item.
  destruct (f_alloc_spec h0 L s 8 Ho ltac:(done) ltac:(reflexivity) ltac:(lia))
    as (f & h1 & E1 & Hf & Ho1 & _ & Hav1 & Hl1). rewrite (bind_Done _ _ _ _ _ E1).
  rewrite (proj2 (Z.eqb_neq f 0)), Hat by lia. change (negb (0 =? 0)) with false. cbv iota.
  unfold fat16_clone_directory_item. change (sizeof_item <? sizeof_item) with false. cbv iota.
  destruct (f_alloc_spec h0 _ (set_heap h1 s) sizeof_item Ho1 ltac:(done) ltac:(reflexivity))
    as (c & h2 & E2 & Hc & Ho2 & Hfr2 & _); [unfold set_heap; simpl; lia|].
  rewrite bind_assoc, (bind_Done _ _ _ _ _ E2). rewrite (proj2 (Z.eqb_neq c 0)) by lia.
  rewrite bind_assoc, bind_modify, bind_ret, bind_modify. do 3 eexists. split; [reflexivity|].
  split; [exists h2; done|]. split; [lia|]. split; [lia|]. split; [exact Ho2|].
  intros n Hl. by apply (Hfr2 n), Hl1.
Qed.

(** ** Searching a directory *)

(** [d] is a directory whose item array is [l]. *)
Definition has_table s (d : fat_directory) (l : list fat_directory_item) : Prop :=
  f_tables s !! dir_item d = Some l /\ (exists n, al_live (heap_of s) (dir_item d) n) /\
  0 <= dir_total d <= zlen l /\ Forall item_ok l.

Lemma find_loop_none n s d l nbuf name i f :
  has_table s d l -> holds nbuf name -> zlen name < KERNEL_MAX_PATH -> 0 <= i ->
  (forall j it, i <= j < dir_total d -> zget l j = Some it -> ~ same_name (entry_name it) name) ->
  find_loop fuel n d nbuf i f s = Done f s.
Proof.
  intros (Ht & _ & Htot & Hok) Hn Hl. revert i. induction n as [|n IH]; intros i Hi Hno; [done|].
  cbn [find_loop]. destruct (Z.ltb_spec i (dir_total d)); [|done].
  rewrite (bind_deref _ _ _ _ _ Ht). destruct (zget_is_Some l i ltac:(lia)) as [it Hit].
  rewrite (bind_expect _ _ _ _ Hit).
  assert (Hio : item_ok it) by (rewrite Forall_forall in Hok; apply Hok; unfold zget in Hit;
    destruct (0 <=? i); [by eapply list_elem_of_lookup_2|done]).
  destruct (name_compare it nbuf name Hio Hn Hl) as (buf & cmp & Eb & Ec & Hcmp).
  rewrite (bind_expect _ _ _ _ Eb), (bind_expect _ _ _ _ Ec).
  destruct (Z.eqb_spec cmp 0) as [E0|_].
  - exfalso. eapply (Hno i); [lia|exact Hit|by apply Hcmp].
  - apply IH; [lia|]. intros j it' Hj. apply Hno. lia.
Qed.

Lemma find_loop_found n h0 L s d l nbuf name i j it f :
  has_table s d l -> holds nbuf name -> zlen name < KERNEL_MAX_PATH ->
  0 <= i <= j -> j < dir_total d -> zget l j = Some it -> same_name (entry_name it) name ->
  (forall j' it', i <= j' < dir_total d -> j' <> j -> zget l j' = Some it' -> ~ same_name (entry_name it') name) ->
  Z.land (attribute it) FAT_FILE_SUBDIRECTORY = 0 -> j - i < Z.of_nat n ->
  owned h0 (heap_of s) L -> 2 <= al_avail (heap_of s) ->
  exists f' c s', find_loop fuel n d nbuf i f s = Done f' s' /\ file_item s s' f' c it /\
    0 < f' /\ 0 < c /\ owned h0 (heap_of s') ((c, 1) :: (f', 1) :: L).
Proof.
  intros Htab Hn Hl. revert i. induction n as [|n IH]; intros i Hij Hj Hit Hsame Huniq Hat Hni Ho Hav; [lia|].
  pose proof Htab as (Ht & [k Hk] & Htot & Hok). cbn [find_loop]. rewrite (proj2 (Z.ltb_lt i _)) by lia.
  rewrite (bind_deref _ _ _ _ _ Ht). destruct (zget_is_Some l i ltac:(lia)) as [it' Hit'].
  rewrite (bind_expect _ _ _ _ Hit').
  assert (Hio : item_ok it') by (rewrite Forall_forall in Hok; apply Hok; unfold zget in Hit';
    destruct (0 <=? i); [by eapply list_elem_of_lookup_2|done]).
  destruct (name_compare it' nbuf name Hio Hn Hl) as (buf & cmp & Eb & Ec & Hcmp).
  rewrite (bind_expect _ _ _ _ Eb), (bind_expect _ _ _ _ Ec).
  destruct (Z.eq_dec i j) as [-> |Hne].
  - rewrite Hit in Hit'. injection Hit' as <-. rewrite (proj2 (Z.eqb_eq cmp 0)) by by apply Hcmp.
    destruct (new_file_item_spec h0 L s it Ho Hav Hat) as (f' & c & s' & E & Hfi & Hf' & Hc & Ho' & Hfr).
    rewrite (bind_Done _ _ _ _ _ E). exists f', c, s'. split; [|done].
    apply (find_loop_none n s' d l nbuf name (j + 1) f'); try done; try lia.
    + destruct Hfi as [h' ->]. split; [|split; [|done]].
      * simpl. rewrite lookup_insert_ne; [done|]. intros ->. by apply (Hfr k).
      * exists k. apply (ow_live _ _ _ Ho'). destruct (proj1 (ow_live _ _ _ Ho _ _) Hk); [left; by do 2 right|by right].
    + intros j' it' Hj' Hg. apply (Huniq j'); [lia|lia|done].
  - assert (Hcmp0 : cmp <> 0).
    { intros ->. apply (Huniq i it' ltac:(lia) Hne Hit'). by apply Hcmp. }
    rewrite (proj2 (Z.eqb_neq cmp 0)) by done.
    apply IH; try done; try lia. intros j' it'' Hj'. apply Huniq. lia.
Qed.

(** The directory names exactly one entry [it], a file, [name]. *)
Definition names_file (d : fat_directory) (l : list fat_directory_item) (name : list Z)
    (it : fat_directory_item) : Prop :=
  exists j, 0 <= j < dir_total d /\ zget l j = Some it /\ same_name (entry_name it) name /\
    Z.land (attribute it) FAT_FILE_SUBDIRECTORY = 0 /\
    forall j' it', 0 <= j' < dir_total d -> j' <> j -> zget l j' = Some it' ->
      ~ same_name (entry_name it') name.

Lemma find_item_found h0 L s d l nbuf name it :
  has_table s d l -> holds nbuf name -> zlen name < KERNEL_MAX_PATH -> names_file d l name it ->
  owned h0 (heap_of s) L -> 2 <= al_avail (heap_of s) ->
  exists f c s', fat16_find_item_in_directory fuel d nbuf s = Done f s' /\ file_item s s' f c it /\
    0 < f /\ 0 < c /\ owned h0 (heap_of s') ((c, 1) :: (f, 1) :: L).
Proof.
  intros Htab Hn Hl (j & Hj & Hit & Hs & Hat & Hu) Ho Hav.
  apply (find_loop_found _ h0 L s d l nbuf name 0 j it 0); try done; lia.
Qed.

(** ** Opening, reading and closing a file of the root directory *)

(** An open file: descriptor, item, copy of the entry. *)
Definition open_file s (fd : Z) (it : fat_directory_item) (p f c : Z) : Prop :=
  f_descs s !! fd = Some (mk_fat_item_descriptor f p) /\
  f_items s !! f = Some (mk_fat_item c FAT_ITEM_TYPE_FILE) /\ f_tables s !! c = Some [it].

Lemma open_found h0 L s priv l nbuf name it :
  mounted s priv -> has_table s (root_directory priv) l -> holds nbuf name ->
  zlen name < KERNEL_MAX_PATH -> names_file (root_directory priv) l name it ->
  owned h0 (heap_of s) L -> 3 <= al_avail (heap_of s) ->
  exists fd f c s', fat16_open fuel [nbuf] FILE_MODE_READ s = Done fd s' /\
    0 < fd < 2147483648 /\ 0 < f /\ 0 < c /\ open_file s' fd it 0 f c /\ mounted s' priv /\
    owned h0 (heap_of s') ((fd, 1) :: (c, 1) :: (f, 1) :: L) /\ dev_of s' = dev_of s /\
    f_disk s' = f_disk s.
Proof.
  intros Hm Htab Hn Hl Hnf Ho Hav. unfold fat16_open. change (negb (FILE_MODE_READ =? FILE_MODE_READ)) with false.
  cbv iota. destruct (f_alloc_spec h0 L s 8 Ho ltac:(done) ltac:(reflexivity) ltac:(lia))
    as (fd & h1 & E1 & Hfd & Ho1 & _ & Hav1 & Hl1). rewrite (bind_Done _ _ _ _ _ E1).
  rewrite (proj2 (Z.eqb_neq fd 0)) by lia.
  assert (Hm1 : mounted (set_heap h1 s) priv).
  { destruct Hm as [M1 M2 M3 M4 M5 M6]. constructor; try done. apply (ow_ok _ _ _ Ho1). }
  unfold fat16_get_directory_entry. rewrite bind_assoc, (bind_the_private _ _ _ Hm1).
  assert (Htab1 : has_table (set_heap h1 s) (root_directory priv) l).
  { destruct Htab as (Ht & [k Hk] & Hr). split; [done|]. split; [exists k; by apply Hl1|done]. }
  destruct (find_item_found h0 _ (set_heap h1 s) (root_directory priv) l nbuf name it Htab1 Hn Hl Hnf Ho1)
    as (f & c & s2 & E2 & [h2 ->] & Hf & Hc & Ho2); [unfold set_heap; simpl; lia|].
  rewrite bind_assoc, (bind_Done _ _ _ _ _ E2). rewrite (proj2 (Z.eqb_neq f 0)) by lia. cbn [entry_loop].
  rewrite bind_ret, bind_modify, (proj2 (Z.eqb_neq f 0)) by lia.
  exists fd, f, c. eexists. split; [reflexivity|]. split; [done|]. split; [done|]. split; [done|].
  split; [|split; [|split; [|done]]].
  - unfold open_file. simpl. rewrite !lookup_insert_eq. done.
  - destruct Hm1 as [M1 M2 M3 M4 M5 M6]. constructor; try done. apply (ow_ok _ _ _ Ho2).
  - simpl in Ho2 |- *. rewrite (Permutation_middle [(c, 1); (f, 1)] L (fd, 1)). exact Ho2.
Qed.

Lemma open_missing h0 L s priv l nbuf name :
  mounted s priv -> has_table s (root_directory priv) l -> holds nbuf name ->
  zlen name < KERNEL_MAX_PATH ->
  (forall j it, 0 <= j < dir_total (root_directory priv) -> zget l j = Some it ->
     ~ same_name (entry_name it) name) ->
  owned h0 (heap_of s) L -> 0 < al_avail (heap_of s) ->
  exists s', fat16_open fuel [nbuf] FILE_MODE_READ s = Done (ERROR (- EIO)) s' /\ owned h0 (heap_of s') L /\
    mounted s' priv /\ f_disk s' = f_disk s.
Proof.
  intros Hm Htab Hn Hl Hno Ho Hav. unfold fat16_open. change (negb (FILE_MODE_READ =? FILE_MODE_READ)) with false.
  cbv iota. destruct (f_alloc_spec h0 L s 8 Ho ltac:(done) ltac:(reflexivity) ltac:(lia))
    as (fd & h1 & E1 & Hfd & Ho1 & _ & Hav1 & Hl1). rewrite (bind_Done _ _ _ _ _ E1).
  rewrite (proj2 (Z.eqb_neq fd 0)) by lia.
  assert (Hm1 : mounted (set_heap h1 s) priv).
  { destruct Hm as [M1 M2 M3 M4 M5 M6]. constructor; try done. apply (ow_ok _ _ _ Ho1). }
  unfold fat16_get_directory_entry. rewrite bind_assoc, (bind_the_private _ _ _ Hm1).
  assert (Htab1 : has_table (set_heap h1 s) (root_directory priv) l).
  { destruct Htab as (Ht & [k Hk] & Hr). split; [done|]. split; [exists k; by apply Hl1|done]. }
  rewrite bind_assoc. unfold fat16_find_item_in_directory.
  rewrite (bind_Done _ _ _ _ _ (find_loop_none _ _ _ l nbuf name 0 0 Htab1 Hn Hl ltac:(lia) Hno)).
  change (0 =? 0) with true. cbv iota. rewrite bind_ret, bind_modify. change (0 =? 0) with true. cbv iota.
  destruct (f_free_spec h0 L (put_desc fd (mk_fat_item_descriptor 0 0) (set_heap h1 s)) fd 1 Ho1) as (h2 & E2 & Ho2).
  rewrite (bind_Done _ _ _ _ _ E2). eexists. split; [reflexivity|]. split; [exact Ho2|].
  split; [|done]. destruct Hm1 as [M1 M2 M3 M4 M5 M6]. constructor; try done. apply (ow_ok _ _ _ Ho2).
Qed.

Lemma read_loop_in_cluster n s0 priv s c offset size out :
  mounted s0 priv -> 0 < al_avail (heap_of s0) -> geometry_ok priv -> io_step s0 s ->
  2 <= c < 65536 -> 0 <= offset -> 0 < size -> offset + Z.of_nat n * size <= cluster_size priv ->
  0 < out -> out + Z.of_nat n * size < 4294967296 -> (2 <= fuel)%nat ->
  exists s', fat16_read_loop fuel n c offset size out s =
    Done (0, disk_slice (dev_of s0) (cluster_pos priv c + offset) (Z.of_nat n * size),
          offset + Z.of_nat n * size) s' /\ io_step s0 s'.
Proof.
  intros Hm Hav Hg. revert s offset out. induction n as [|n IH]; intros s offset out Hio Hc Ho Hs Hb Hout Hob Hf.
  { exists s. rewrite Z.mul_0_l, Z.add_0_r. done. }
  cbn [fat16_read_loop]. pose proof (cluster_size_pos priv Hg).
  rewrite (i32_small size) by nia.
  destruct (read_internal_in_cluster s0 priv Hm Hav Hg s c offset size out Hio Hc Ho) as (s1 & E1 & Hio1);
    try lia; try nia.
  rewrite (bind_Done _ _ _ _ _ E1). cbv beta iota. change (0 <? 0) with false. cbv iota.
  rewrite (i32_small (offset + size)), (u32_small (out + size)) by nia.
  destruct (IH s1 (offset + size) (out + size)) as (s2 & E2 & Hio2); try done; try nia.
  rewrite (bind_Done _ _ _ _ _ E2). cbv beta iota. exists s2. split; [|done].
  replace (Z.of_nat (S n) * size) with (size + Z.of_nat n * size) by lia.
  rewrite disk_slice_app by nia. rewrite Z.add_assoc. unfold mret, M_ret. do 2 f_equal.
  lia.
Qed.

Lemma io_open s s' fd it p f c : io_step s s' -> open_file s fd it p f c -> open_file s' fd it p f c.
Proof. intros Hio Hop. by destruct (io_rest _ _ Hio) as [t ->]. Qed.

Lemma read_spec s priv fd it p f c size nmemb out :
  mounted s priv -> geometry_ok priv -> 0 < al_avail (heap_of s) -> open_file s fd it p f c ->
  2 <= fat16_get_first_cluster it < 65536 -> 0 <= p -> 0 < size -> 0 <= nmemb ->
  p + nmemb * size <= cluster_size priv -> 0 < out -> out + nmemb * size < 4294967296 -> (2 <= fuel)%nat ->
  exists s', fat16_read fuel fd size nmemb out s =
    Done (nmemb, disk_slice (dev_of s) (cluster_pos priv (fat16_get_first_cluster it) + p) (nmemb * size)) s' /\
    open_file s' fd it (p + nmemb * size) f c /\ mounted s' priv /\
    (forall h0 L, owned h0 (heap_of s) L -> owned h0 (heap_of s') L) /\
    bd_image (dev_of s') = bd_image (dev_of s) /\ f_disk s' = f_disk s.
Proof.
  intros Hm Hg Hav Hop Hc Hp Hs Hn Hb Hout Hob Hf. pose proof Hop as (Hd & Hi & Ht).
  unfold fat16_read. rewrite (bind_deref _ _ _ _ _ Hd). cbn [desc_item desc_pos].
  rewrite (bind_deref _ _ _ _ _ Hi). change (negb (item_type (mk_fat_item c FAT_ITEM_TYPE_FILE) =? FAT_ITEM_TYPE_FILE)) with false.
  cbv iota. cbn [item_ptr]. rewrite (bind_deref _ _ _ _ _ Ht). rewrite (bind_expect _ _ _ it) by done.
  pose proof (cluster_size_pos priv Hg). rewrite (i32_small p) by nia.
  destruct (read_loop_in_cluster (Z.to_nat nmemb) s priv s (fat16_get_first_cluster it) p size out Hm Hav Hg
    (io_refl s) Hc Hp Hs) as (s1 & E1 & Hio1); try lia; try nia.
  rewrite (bind_Done _ _ _ _ _ E1). cbv beta iota. change (0 <? 0) with false. cbv iota.
  rewrite bind_modify. rewrite Z2Nat.id by lia. rewrite u32_small, i32_small by nia.
  eexists. split; [reflexivity|]. pose proof (io_mounted _ _ _ Hio1 Hm) as Hm1.
  destruct (io_open _ _ _ _ _ _ _ Hio1 Hop) as (Hd1 & Hi1 & Ht1).
  split; [|split; [|split; [|split]]].
  - split; [simpl; apply lookup_insert_eq|]. by split.
  - destruct Hm1 as [M1 M2 M3 M4 M5 M6]. by constructor.
  - apply (io_own _ _ Hio1).
  - apply (io_img _ _ Hio1).
  - destruct (io_rest _ _ Hio1) as [t Et]. clear E1 Hio1 Hm1 Hd1 Hi1 Ht1. by subst s1.
Qed.

Lemma close_spec h0 L s fd it p f c :
  open_file s fd it p f c -> 0 < fd -> owned h0 (heap_of s) ((fd, 1) :: (c, 1) :: (f, 1) :: L) ->
  exists h', fat16_close fd s = Done 0 (set_heap h' s) /\ owned h0 h' L.
Proof.
  intros (Hd & Hi & Ht) Hfd Ho. unfold fat16_close, fat16_free_descriptor, fat16_fat_item_free.
  rewrite (proj2 (Z.eqb_neq fd 0)) by lia. change (negb false) with true. cbv iota.
  rewrite !bind_assoc. rewrite (bind_deref _ _ _ _ _ Hd). cbn [desc_item].
  rewrite bind_assoc, (bind_deref _ _ _ _ _ Hi). cbn [item_ptr].
  assert (Ho0 : owned h0 (heap_of s) ((c, 1) :: (f, 1) :: (fd, 1) :: L)).
  { rewrite (perm_swap (c, 1) (fd, 1)) in Ho. by rewrite (perm_swap (f, 1) (fd, 1)) in Ho. }
  destruct (f_free_spec h0 _ s c 1 Ho0) as (h1 & E1 & Ho1). rewrite bind_assoc, (bind_Done _ _ _ _ _ E1).
  destruct (f_free_spec h0 _ (set_heap h1 s) f 1 Ho1) as (h2 & E2 & Ho2). rewrite (bind_Done _ _ _ _ _ E2).
  destruct (f_free_spec h0 _ (set_heap h2 (set_heap h1 s)) fd 1 Ho2) as (h3 & E3 & Ho3).
  rewrite (bind_Done _ _ _ _ _ E3). exists h3. by split.
Qed.

(** ** Mounting *)

Lemma new_stream_spec h0 L s :
  owned h0 (heap_of s) L -> 0 < al_avail (heap_of s) ->
  exists x h', on_st (diskstream_new 0) s =
      Done x (set_f_st (put_stream x (mk_disk_stream 0 addr_disk) (set_st_heap h' (f_st s))) s) /\
    0 < x /\ owned h0 h' ((x, 1) :: L) /\ al_avail h' = al_avail (heap_of s) - 1.
Proof.
  intros Ho Hav. destruct (f_alloc_spec h0 L s 8 Ho ltac:(done) ltac:(reflexivity) Hav)
    as (x & h' & E & Hx & Ho' & _ & Hav' & _). exists x, h'.
  assert (E1 : st_alloc 8 (f_st s) = Done x (set_st_heap h' (f_st s))).
  { unfold f_alloc, on_st, zoom in E. destruct (st_alloc 8 (f_st s)) as [a t| | | |] eqn:Es; try done.
    assert (Et : t = set_st_heap (st_heap t) (f_st s)).
    { unfold st_alloc, zoom, al_alloc in Es. destruct (al_malloc _ _). by injection Es as _ <-. }
    injection E as -> Eh. rewrite Et. unfold set_heap in Eh. rewrite Et in Eh. f_equal.
    unfold set_st_heap, set_f_st in *. simpl in Eh. by injection Eh as ->. }
  split; [|split; [lia|done]]. unfold on_st, zoom, diskstream_new, disk_get.
  change (negb (0 =? 0)) with false. cbv iota. pose proof addr_disk_pos.
  rewrite (proj2 (Z.eqb_neq addr_disk 0)) by lia. rewrite (bind_Done _ _ _ _ _ E1).
  rewrite (proj2 (Z.eqb_neq x 0)) by lia. done.
Qed.

Lemma is_stream_new s x h' : 0 < x ->
  is_stream (set_f_st (put_stream x (mk_disk_stream 0 addr_disk) (set_st_heap h' (f_st s))) s) x /\
  forall y, is_stream s y ->
    is_stream (set_f_st (put_stream x (mk_disk_stream 0 addr_disk) (set_st_heap h' (f_st s))) s) y.
Proof.
  intros Hx. split.
  - split; [done|]. exists 0. simpl. apply lookup_insert_eq.
  - intros y [Hy [p Hp]]. split; [done|]. simpl. destruct (decide (x = y)) as [->|Hne].
    + rewrite lookup_insert_eq. by eexists.
    + rewrite lookup_insert_ne by done. by exists p.
Qed.

Lemma close_stream_spec h0 L s x :
  0 < x -> owned h0 (heap_of s) ((x, 1) :: L) ->
  exists h', on_st (diskstream_close x) s = Done tt (set_heap h' s) /\ owned h0 h' L.
Proof.
  intros Hx Ho. destruct (f_free_spec h0 L s x 1 Ho) as (h' & E & Ho'). exists h'. split; [|done].
  unfold diskstream_close. by rewrite (proj2 (Z.eqb_neq x 0)) by lia.
Qed.

(** The failure exit of [fat16_resolve] gives everything back. *)
Lemma resolve_fail h0 L s e P priv st :
  e < 0 -> 0 < P -> 0 < st -> f_privates s !! P = Some priv -> root_directory priv = zero_directory ->
  0 < cluster_read_stream priv -> 0 < fat_read_stream priv -> 0 < directory_stream priv ->
  owned h0 (heap_of s) ((st, 1) :: (cluster_read_stream priv, 1) :: (fat_read_stream priv, 1) ::
    (directory_stream priv, 1) :: (P, 1) :: L) ->
  exists s', resolve_out e P st s = Done e s' /\ owned h0 (heap_of s') L /\ fs_private (f_disk s') = 0.
Proof.
  intros He HP Hst Hp Hr H1 H2 H3 Ho. unfold resolve_out, fat16_free_private.
  rewrite (proj2 (Z.eqb_neq st 0)), (proj2 (Z.ltb_lt e 0)), (proj2 (Z.eqb_neq P 0)) by lia.
  change (negb false) with true. cbv iota.
  destruct (close_stream_spec h0 _ s st Hst Ho) as (h1 & E1 & Ho1). rewrite (bind_Done _ _ _ _ _ E1).
  rewrite !bind_assoc, (bind_deref _ _ (set_heap h1 s) _ _ Hp).
  destruct (close_stream_spec h0 _ (set_heap h1 s) _ H1 Ho1) as (h2 & E2 & Ho2).
  rewrite bind_assoc, (bind_Done _ _ _ _ _ E2).
  destruct (close_stream_spec h0 _ (set_heap h2 (set_heap h1 s)) _ H2 Ho2) as (h3 & E3 & Ho3).
  rewrite bind_assoc, (bind_Done _ _ _ _ _ E3).
  destruct (close_stream_spec h0 _ (set_heap h3 (set_heap h2 (set_heap h1 s))) _ H3 Ho3) as (h4 & E4 & Ho4).
  rewrite bind_assoc, (bind_Done _ _ _ _ _ E4). rewrite Hr. cbn [dir_item zero_directory].
  assert (E5 : f_free 0 (set_heap h4 (set_heap h3 (set_heap h2 (set_heap h1 s)))) =
    Done tt (set_heap h4 (set_heap h3 (set_heap h2 (set_heap h1 s))))).
  { unfold f_free, on_st, st_free, zoom, al_release. simpl. by rewrite al_free_null. }
  rewrite bind_assoc, (bind_Done _ _ _ _ _ E5).
  destruct (f_free_spec h0 L (set_heap h4 (set_heap h3 (set_heap h2 (set_heap h1 s)))) P 1 Ho4) as (h6 & E6 & Ho6). rewrite (bind_Done _ _ _ _ _ E6).
  rewrite bind_modify. eexists. split; [reflexivity|]. split; [exact Ho6|done].
Qed.

(** Where the header puts the root directory. *)
Definition root_sector (h : fat_h) : Z :=
  fat_copies (primary_header h) * sectors_per_fat (primary_header h) + reserved_sectors (primary_header h).
Definition root_size (h : fat_h) : Z := root_dir_entries (primary_header h) * 32.

Definition the_header (b : B) : fat_h := decode_header (disk_slice b 0 sizeof_fat_h).

(** The driver's structures after the header has been read. *)
Record prepared s0 s (P st : Z) (priv : fat_private) : Prop := {
  pr_P : 0 < P; pr_st : 0 < st;
  pr_mounted : mounted s priv;
  pr_fs : fs_private (f_disk s) = P;
  pr_root : root_directory priv = zero_directory;
  pr_header : header priv = the_header (dev_of s0);
  pr_own : owned (heap_of s0) (heap_of s) ((st, 1) :: (cluster_read_stream priv, 1) ::
    (fat_read_stream priv, 1) :: (directory_stream priv, 1) :: [(P, 1)]);
  pr_img : bd_image (dev_of s) = bd_image (dev_of s0)
}.

(** [fat16_resolve] up to the signature check. *)
Lemma resolve_prepare s0 :
  al_ok (heap_of s0) -> 6 <= al_avail (heap_of s0) ->
  disk_id (f_disk s0) = 0 -> sector_size (f_disk s0) = KERNEL_SECTOR_SIZE ->
  exists P st priv s, prepared s0 s P st priv /\
    fat16_resolve fuel s0 =
      (if negb (signature (extended_header (the_header (dev_of s0))) =? 41) then resolve_out (- EFSNOTUS) P st
       else
         res ← fat16_get_root_directory fuel P;
         if negb (res =? KERNEL_ALL_OK) then resolve_out (- EIO) P st else resolve_out 0 P st) s.
Proof.
  intros Hok Hav Hid Hsz. unfold fat16_resolve.
  destruct (f_alloc_spec _ [] s0 sizeof_fat_private (owned_refl _ Hok) ltac:(done) ltac:(reflexivity) ltac:(lia))
    as (P & h1 & E1 & HP & Ho1 & _ & Hav1 & _). rewrite (bind_Done _ _ _ _ _ E1).
  unfold fat16_init_private. rewrite (proj2 (Z.eqb_neq P 0)) by lia.
  rewrite !bind_assoc, bind_modify, bind_assoc, bind_gets. cbn [f_disk put_private set_heap set_f_st].
  rewrite Hid. set (s1 := put_private P _ (set_heap h1 s0)).
  destruct (new_stream_spec _ _ s1 Ho1) as (fs & h2 & E2 & Hfs & Ho2 & Hav2); [unfold s1; simpl; lia|].
  rewrite bind_assoc, (bind_Done _ _ _ _ _ E2). set (s2 := set_f_st _ s1).
  destruct (new_stream_spec _ _ s2 Ho2) as (cs & h3 & E3 & Hcs & Ho3 & Hav3);
    [unfold s2, s1 in *; simpl in *; lia|].
  rewrite bind_assoc, (bind_Done _ _ _ _ _ E3). set (s3 := set_f_st _ s2).
  destruct (new_stream_spec _ _ s3 Ho3) as (ds & h4 & E4 & Hds & Ho4 & Hav4);
    [unfold s3, s2, s1 in *; simpl in *; lia|].
  rewrite bind_assoc, (bind_Done _ _ _ _ _ E4). set (s4 := set_f_st _ s3).
  rewrite bind_modify, bind_modify, bind_gets. cbn [f_disk set_f_disk put_private set_f_st disk_id].
  set (s5 := set_f_disk _ (put_private P _ s4)).
  replace (disk_id (f_disk s4)) with 0 by (unfold s4, s3, s2, s1; simpl; by rewrite Hid).
  destruct (new_stream_spec _ _ s5 Ho4) as (st & h6 & E6 & Hst & Ho6 & Hav6);
    [unfold s5, s4, s3, s2, s1 in *; simpl in *; lia|].
  rewrite (bind_Done _ _ _ _ _ E6). set (s6 := set_f_st _ s5). rewrite (proj2 (Z.eqb_neq st 0)) by lia.
  destruct (is_stream_new s1 fs h2 Hfs) as [S2 K2]. destruct (is_stream_new s2 cs h3 Hcs) as [S3 K3].
  destruct (is_stream_new s3 ds h4 Hds) as [S4 K4].
  assert (S5 : forall x, is_stream s4 x -> is_stream s5 x) by (intros x Hx; exact Hx).
  destruct (is_stream_new s5 st h6 Hst) as [S6 K6].
  assert (Hok6 : al_ok (heap_of s6)) by apply (ow_ok _ _ _ Ho6).
  destruct (stream_read_spec s6 st P 0 sizeof_fat_h Hok6) as (s7 & E7 & Hio7 & _); try done.
  { unfold s6, s5, s4, s3, s2, s1 in *; simpl in *; lia. }
  { unfold s6. simpl. apply lookup_insert_eq. }
  { lia. }
  rewrite (bind_Done _ _ _ _ _ E7). cbv beta iota.
  destruct (io_rest _ _ Hio7) as [t7 Et7].
  assert (Hp7 : f_privates s7 !! P = Some (mk_fat_private zero_header zero_directory cs fs ds)).
  { rewrite Et7. simpl. apply lookup_insert_eq. }
  rewrite (bind_deref _ _ _ _ _ Hp7), bind_modify.
  cbn [root_directory cluster_read_stream fat_read_stream directory_stream].
  change (negb (0 =? KERNEL_ALL_OK)) with false. cbv iota.
  assert (Edev : dev_of s6 = dev_of s0) by done. rewrite Edev. fold (the_header (dev_of s0)).
  exists P, st, (mk_fat_private (the_header (dev_of s0)) zero_directory cs fs ds).
  eexists. split; [|reflexivity]. pose proof (io_own _ _ Hio7 _ _ Ho6) as Ho7.
  constructor; try done; try lia.
  - constructor; simpl; try done.
    + apply (ow_ok _ _ _ Ho7).
    + by rewrite Et7.
    + rewrite Et7. simpl. apply lookup_insert_eq.
    + by apply (io_streams _ _ Hio7), K6, S5, K4.
    + by apply (io_streams _ _ Hio7), K6, S5, K4, K3.
    + by apply (io_streams _ _ Hio7), K6, S5.
  - by rewrite Et7.
  - simpl in Ho7 |- *. rewrite (perm_swap (cs, 1) (ds, 1)) in Ho7. by rewrite (perm_swap (fs, 1) (ds, 1)) in Ho7.
  - simpl. rewrite (io_img _ _ Hio7). by rewrite Edev.
Qed.

Lemma decode_items_slice (b : B) n p :
  0 <= p -> decode_items n (disk_slice b p (32 * Z.of_nat n)) = raw_entries b p (Z.of_nat n).
Proof.
  intros Hp. assert (Hgen : forall i, decode_items n (disk_slice b (p + 32 * i) (32 * Z.of_nat n)) =
                         map (dir_entry b p) (seqZ i (Z.of_nat n))).
  { induction n as [|n IH]; intros i; [done|]. cbn [decode_items].
    replace (32 * Z.of_nat (S n)) with (32 + 32 * Z.of_nat n) by lia.
    rewrite disk_slice_app by lia. rewrite (seqZ_cons i) by lia. cbn [map].
    assert (Hl : length (disk_slice b (p + 32 * i) 32) = 32%nat)
      by (unfold disk_slice; by rewrite length_map, length_seqZ).
    rewrite take_app_length' by done. rewrite drop_app_length' by done. f_equal.
    replace (p + 32 * i + 32) with (p + 32 * (i + 1)) by lia. rewrite IH.
    do 2 f_equal; lia. }
  specialize (Hgen 0). by rewrite Z.mul_0_r, Z.add_0_r in Hgen.
Qed.

Lemma root_entries_range (b : B) : 0 <= root_dir_entries (primary_header (the_header b)) < 65536.
Proof.
  unfold the_header, sizeof_fat_h. cbn [root_dir_entries primary_header decode_header].
  unfold le16, byte_of. rewrite !disk_slice_get by lia. cbn [default].
  pose proof (disk_byte_range b (0 + 17)). pose proof (disk_byte_range b (0 + (17 + 1))).
  unfold id. lia.
Qed.

(** An allocation of any size: nothing, or [blocks_of size] fresh blocks. *)
Lemma f_alloc_any h0 L s size :
  owned h0 (heap_of s) L -> 0 <= size < 4294967296 ->
  exists a h', f_alloc size s = Done a (set_heap h' s) /\
    ((a = 0 /\ owned h0 h' L /\ ~ roomy (al_avail (heap_of s)) (blocks_of size)) \/
     (0 < a < 2147483648 /\ owned h0 h' ((a, blocks_of size) :: L) /\
      al_avail h' = al_avail (heap_of s) - blocks_of size)).
Proof.
  intros Ho Hs. destruct (al_malloc (heap_of s) size) as [a h'] eqn:E.
  exists a, h'. unfold f_alloc, on_st, st_alloc, zoom, al_alloc. rewrite E. split; [done|].
  destruct (owned_alloc _ _ _ _ _ _ Ho Hs E) as [[-> ->]|(Ha & Ho' & Hfr)].
  { left. do 2 (split; [done|]). intros Hr. pose proof (al_malloc_roomy _ _ _ _ (ow_ok _ _ _ Ho) Hs Hr E). lia. }
  right. split; [eapply owned_range; [done|rewrite fmap_cons; by left]|]. split; [done|].
  apply (al_malloc_avail (heap_of s) size a h'); [apply (ow_ok _ _ _ Ho)|lia|done|lia].
Qed.

Lemma al_free_0 s : f_free 0 s = Done tt s.
Proof. unfold f_free, on_st, st_free, zoom, al_release. rewrite al_free_null. by destruct s as [[] ? ? ? ? ? ?]. Qed.

Lemma same_heap_prepared s0 s s' P st priv :
  prepared s0 s P st priv -> io_step s s' -> prepared s0 s' P st priv.
Proof.
  intros [R1 R2 R3 R4 R5 R6 R7 R8] Hio. pose proof (io_mounted _ _ _ Hio R3) as Hm.
  constructor; try done.
  - by destruct (io_rest _ _ Hio) as [t ->].
  - by apply (io_own _ _ Hio).
  - by rewrite (io_img _ _ Hio).
Qed.

(** The root directory as [fat16_resolve] leaves it. *)
Record root_loaded s0 s (priv : fat_private) (k : Z) : Prop := {
  rl_mounted : mounted s priv;
  rl_header : header priv = the_header (dev_of s0);
  rl_table : f_tables s !! dir_item (root_directory priv) =
    Some (raw_entries (dev_of s0) (root_sector (the_header (dev_of s0)) * KERNEL_SECTOR_SIZE)
            (root_dir_entries (primary_header (the_header (dev_of s0)))));
  rl_total : dir_total (root_directory priv) =
    zlen (filter in_use (raw_entries (dev_of s0) (root_sector (the_header (dev_of s0)) * KERNEL_SECTOR_SIZE) k));
  rl_end : ending_sector_pos (root_directory priv) =
    root_sector (the_header (dev_of s0)) + (root_size (the_header (dev_of s0)) + 511) / 512;
  rl_own : owned (heap_of s0) (heap_of s) ((cluster_read_stream priv, 1) ::
    (fat_read_stream priv, 1) :: (directory_stream priv, 1) :: (fs_private (f_disk s), 1) ::
    [(dir_item (root_directory priv), blocks_of (root_size (the_header (dev_of s0))))]);
  rl_img : bd_image (dev_of s) = bd_image (dev_of s0)
}.

Lemma get_root_spec s0 s P st priv k :
  prepared s0 s P st priv -> 0 <= root_sector (the_header (dev_of s0)) ->
  ends_at (dev_of s0) (root_sector (the_header (dev_of s0)) * KERNEL_SECTOR_SIZE) k -> k < Z.of_nat fuel ->
  root_sector (the_header (dev_of s0)) * KERNEL_SECTOR_SIZE + 32 * (k + 1) < 2147483648 ->
  root_sector (the_header (dev_of s0)) * KERNEL_SECTOR_SIZE + root_size (the_header (dev_of s0)) < 2147483648 ->
  0 < al_avail (heap_of s) - blocks_of (root_size (the_header (dev_of s0))) ->
  exists res s', fat16_get_root_directory fuel P s = Done res s' /\
    ((res < 0 /\ ~ roomy (al_avail (heap_of s)) (blocks_of (root_size (the_header (dev_of s0)))) /\ prepared s0 s' P st priv) \/
     (res = 0 /\ exists priv', root_loaded s0 (set_heap (al_free (heap_of s') st) s') priv' k /\
        owned (heap_of s0) (heap_of s') ((st, 1) :: (cluster_read_stream priv', 1) ::
          (fat_read_stream priv', 1) :: (directory_stream priv', 1) :: (P, 1) ::
          [(dir_item (root_directory priv'), blocks_of (root_size (the_header (dev_of s0))))]) /\
        fs_private (f_disk s') = P)).
Proof.
  intros Hpr Hr0 Hend Hk Hb1 Hb2 Hav. pose proof Hpr as [R1 R2 R3 R4 R5 R6 R7 R8].
  set (h := the_header (dev_of s0)) in *. pose proof (root_entries_range (dev_of s0)) as Hre. fold h in Hre.
  assert (Hblk : 0 <= blocks_of (root_size h)) by (apply blocks_of_nonneg; unfold root_size; lia).
  assert (HP : f_privates s !! P = Some priv) by (pose proof (mt_priv _ _ R3) as Hp; by rewrite R4 in Hp).
  unfold fat16_get_root_directory. rewrite (bind_deref _ _ _ _ _ HP), (bind_sector_size _ _ _ R3), R6.
  fold (root_sector h). unfold sizeof_item. fold (root_size h).
  change (KERNEL_SECTOR_SIZE =? 0) with false. cbv iota.
  assert (Hdev : forall j, dir_entry (dev_of s) (KERNEL_SECTOR_SIZE * root_sector h) j =
                           dir_entry (dev_of s0) (root_sector h * KERNEL_SECTOR_SIZE) j).
  { intros j. rewrite Z.mul_comm. unfold dir_entry. f_equal. by apply disk_slice_ext. }
  assert (Hrs : root_sector h < 4194304) by (unfold KERNEL_SECTOR_SIZE, root_size in *; pose proof (proj1 Hend); lia).
  destruct (total_items_spec s priv (root_sector h) k R3) as (s1 & E1 & Hio1); try done; try lia.
  { destruct Hend as (? & He0 & Hen). split; [done|]. split; [by rewrite Hdev|]. intros i Hi. rewrite Hdev. by apply Hen. }
  rewrite (bind_Done _ _ _ _ _ E1). pose proof (same_heap_prepared _ _ _ _ _ _ Hpr Hio1) as Hpr1.
  pose proof Hpr1 as [Q1 Q2 Q3 Q4 Q5 Q6 Q7 Q8].
  destruct (f_alloc_any _ _ s1 (root_size h) Q7) as (dir & h2 & E2 & D); [unfold root_size; lia|].
  rewrite (bind_Done _ _ _ _ _ E2). destruct D as [(-> & Ho2 & Hav2)|(Hdir & Ho2 & Hav2)].
  { change (0 =? 0) with true. cbv iota. rewrite (bind_Done _ _ _ _ _ (al_free_0 _)).
    do 2 eexists. split; [reflexivity|]. left. split; [done|].
    destruct (io_ok _ _ Hio1 (mt_ok _ _ R3)) as [_ Hav1].
    split; [by rewrite <- Hav1|]. constructor; try done.
    destruct Q3 as [M1 M2 M3 M4 M5 M6]. constructor; try done. apply (ow_ok _ _ _ Ho2). }
  rewrite (proj2 (Z.eqb_neq dir 0)) by lia.
  destruct (io_ok _ _ Hio1 (mt_ok _ _ R3)) as [_ Hav1].
  unfold fat16_sector_to_absolute. rewrite i32_small by (unfold KERNEL_SECTOR_SIZE in *; lia).
  destruct (seek_read (set_heap h2 s1) (directory_stream priv) dir (KERNEL_SECTOR_SIZE * root_sector h) (root_size h)
    (fun _ => mret 0)) as (s3 & s4 & E3 & E4 & _ & Hio4); try (unfold root_size; lia).
  { apply (ow_ok _ _ _ Ho2). }
  { simpl. lia. }
  { apply (mt_ds _ _ Q3). }
  { unfold KERNEL_SECTOR_SIZE in *. lia. }
  { unfold KERNEL_SECTOR_SIZE in *. lia. }
  rewrite (bind_Done _ _ _ _ _ E3). change (negb (0 =? KERNEL_ALL_OK)) with false. cbv iota.
  rewrite (bind_Done _ _ _ _ _ E4). cbv beta iota. rewrite !bind_modify.
  change (negb (0 =? KERNEL_ALL_OK)) with false. cbv iota. rewrite bind_modify.
  match goal with |- context [put_private P ?p _] => set (priv' := p) end.
  do 2 eexists. split; [reflexivity|]. right. split; [done|]. exists priv'.
  pose proof (io_own _ _ Hio4 _ _ Ho2) as Ho4. destruct (io_rest _ _ Hio4) as [t4 Et4].
  assert (Ho4' : owned (heap_of s0) (heap_of s4) ((st, 1) :: (cluster_read_stream priv, 1) ::
          (fat_read_stream priv, 1) :: (directory_stream priv, 1) :: (P, 1) :: [(dir, blocks_of (root_size h))])).
  { rewrite (Permutation_app_comm [(dir, blocks_of (root_size h))] [_; _; _; _; _] : (_ :: _) ≡ₚ _) in Ho4. exact Ho4. }
  split; [|split; [exact Ho4'|by rewrite Et4]].
  pose proof (owned_free _ _ _ _ _ Ho4') as Ho5.
  assert (Edev : forall p n, disk_slice (dev_of (set_heap h2 s1)) p n = disk_slice (dev_of s0) p n)
    by (intros; by apply disk_slice_ext).
  constructor.
  - destruct Q3 as [M1 M2 M3 M4 M5 M6]. constructor; simpl; try done.
    + apply (ow_ok _ _ _ Ho5).
    + by rewrite Et4.
    + rewrite Et4. simpl. rewrite Q4. apply lookup_insert_eq.
    + by apply (io_streams _ _ Hio4).
    + by apply (io_streams _ _ Hio4).
    + by apply (io_streams _ _ Hio4).
  - done.
  - simpl. rewrite lookup_insert_eq. f_equal. rewrite Edev, (Z.mul_comm KERNEL_SECTOR_SIZE).
    assert (Ers : root_size h = 32 * Z.of_nat (Z.to_nat (root_dir_entries (primary_header h))))
      by (unfold root_size; lia).
    rewrite Ers, decode_items_slice by (unfold KERNEL_SECTOR_SIZE; lia). by rewrite Z2Nat.id by lia.
  - simpl. unfold raw_entries. by rewrite (map_ext _ _ Hdev).
  - simpl. f_equal. unfold cdiv, crem, KERNEL_SECTOR_SIZE.
    assert (Hrz : 0 <= root_size h) by (unfold root_size; lia). revert Hrz. unfold h. generalize (root_size (the_header (dev_of s0))). clear.
    intros z Hz. rewrite Z.quot_div_nonneg, Z.rem_mod_nonneg by lia.
    zcase; Z.to_euclidean_division_equations; lia.
  - assert (Efs : fs_private (f_disk s4) = P) by (by rewrite Et4). simpl. rewrite Efs. exact Ho5.
  - simpl. rewrite (io_img _ _ Hio4). exact Q8.
Qed.

(** What a volume must satisfy for [fat16_resolve] to reach its root directory. *)
Record volume_ok (b : B) (k : Z) : Prop := {
  vo_sector : 0 <= root_sector (the_header b);
  vo_ends : ends_at b (root_sector (the_header b) * KERNEL_SECTOR_SIZE) k;
  vo_fuel : k < Z.of_nat fuel;
  vo_reach : root_sector (the_header b) * KERNEL_SECTOR_SIZE + 32 * (k + 1) < 2147483648;
  vo_reach' : root_sector (the_header b) * KERNEL_SECTOR_SIZE + root_size (the_header b) < 2147483648
}.

Lemma resolve_spec s0 k :
  al_ok (heap_of s0) -> disk_id (f_disk s0) = 0 -> sector_size (f_disk s0) = KERNEL_SECTOR_SIZE ->
  volume_ok (dev_of s0) k ->
  6 + blocks_of (root_size (the_header (dev_of s0))) <= al_avail (heap_of s0) ->
  exists res s', fat16_resolve fuel s0 = Done res s' /\
    if negb (signature (extended_header (the_header (dev_of s0))) =? 41)
    then res = - EFSNOTUS /\ owned (heap_of s0) (heap_of s') [] /\ fs_private (f_disk s') = 0
    else (res = - EIO /\ ~ roomy (al_avail (heap_of s0) - 6) (blocks_of (root_size (the_header (dev_of s0)))) /\
          owned (heap_of s0) (heap_of s') [] /\ fs_private (f_disk s') = 0) \/
         (res = 0 /\ exists priv, root_loaded s0 s' priv k).
Proof.
  intros Hok Hid Hsz [V1 V2 V3 V4 V5] Hav.
  assert (Hblk : 0 <= blocks_of (root_size (the_header (dev_of s0)))).
  { apply blocks_of_nonneg. unfold root_size. pose proof (root_entries_range (dev_of s0)). lia. }
  destruct (resolve_prepare s0 Hok ltac:(lia) Hid Hsz) as (P & st & priv & s & Hpr & E). rewrite E. clear E.
  assert (Hfail : forall e s', e < 0 -> prepared s0 s' P st priv -> exists s'',
    resolve_out e P st s' = Done e s'' /\ owned (heap_of s0) (heap_of s'') [] /\ fs_private (f_disk s'') = 0).
  { intros e s' He [R1 R2 R3 R4 R5 R6 R7 R8].
    apply (resolve_fail (heap_of s0) [] s' e P priv st); try done.
    - rewrite <- R4. apply (mt_priv _ _ R3).
    - apply (mt_cs _ _ R3).
    - apply (mt_fs _ _ R3).
    - apply (mt_ds _ _ R3). }
  destruct (signature (extended_header (the_header (dev_of s0))) =? 41); cbn [negb].
  2: { destruct (Hfail (- EFSNOTUS) s ltac:(done) Hpr) as (s' & E & D). by exists (- EFSNOTUS), s'. }
  destruct (get_root_spec s0 s P st priv k Hpr V1 V2 V3 V4 V5) as (res & s1 & E1 & D).
  { pose proof (ow_avail _ _ _ (pr_own _ _ _ _ _ Hpr)) as Ea. simpl in Ea. lia. }
  rewrite (bind_Done _ _ _ _ _ E1). destruct D as [(Hres & Hb1 & Hpr1)|(-> & priv' & Hrl & Ho & Hfs)].
  - assert (negb (res =? KERNEL_ALL_OK) = true) as -> by (unfold KERNEL_ALL_OK; lia).
    destruct (Hfail (- EIO) s1 ltac:(done) Hpr1) as (s' & E & D). exists (- EIO), s'. split; [done|]. left.
    split; [done|]. split; [|exact D]. intros Hr. apply Hb1. apply (roomy_mono _ _ _ _ Hr).
    + pose proof (ow_avail _ _ _ (pr_own _ _ _ _ _ Hpr)) as Ea. simpl in Ea. lia.
    + split; [apply Hr|lia].
  - change (negb (0 =? KERNEL_ALL_OK)) with false. cbv iota. unfold resolve_out.
    pose proof (pr_st _ _ _ _ _ Hpr) as Hst. rewrite (proj2 (Z.eqb_neq st 0)) by lia.
    change (negb false) with true. change (0 <? 0) with false. cbv iota.
    assert (E2 : on_st (diskstream_close st) s1 = Done tt (set_heap (al_free (heap_of s1) st) s1)).
    { unfold diskstream_close. by rewrite (proj2 (Z.eqb_neq st 0)) by lia. }
    rewrite (bind_Done _ _ _ _ _ E2), bind_ret. exists 0. eexists. split; [reflexivity|].
    right. split; [done|]. by exists priv'.
Qed.

Lemma root_loaded_table s0 s priv k :
  root_loaded s0 s priv k ->
  0 <= k <= root_dir_entries (primary_header (the_header (dev_of s0))) ->
  has_table s (root_directory priv) (raw_entries (dev_of s0)
    (root_sector (the_header (dev_of s0)) * KERNEL_SECTOR_SIZE)
    (root_dir_entries (primary_header (the_header (dev_of s0))))).
Proof.
  intros [R1 R2 R3 R4 R5 R6 R7] Hk. split; [done|]. split; [|split].
  - eexists. apply (ow_live _ _ _ R6). left. do 4 right. by left.
  - rewrite R4. split; [apply zlen_nonneg|]. unfold zlen.
    etrans; [apply inj_le, length_filter|]. unfold raw_entries. rewrite !length_map, !length_seqZ. lia.
  - apply Forall_forall. intros it (i & -> & _)%list_elem_of_fmap. apply dir_entry_ok.
Qed.

Lemma read_fails_spec s priv fd it p f c size nmemb out m :
  mounted s priv -> geometry_ok priv -> 0 < al_avail (heap_of s) -> open_file s fd it p f c ->
  2 <= fat16_get_first_cluster it < 65536 -> 0 <= p -> 0 < size -> 0 <= nmemb ->
  cluster_size priv < p + nmemb * size -> p + nmemb * size < 2147483648 -> 0 < nmemb ->
  0 < out -> out + cluster_size priv < 4294967296 ->
  chain_ends priv (dev_of s) (fat16_get_first_cluster it) m -> (m + 2 < fuel)%nat ->
  exists s', fat16_read fuel fd size nmemb out s =
    Done (beyond_error priv p m, disk_slice (dev_of s) (cluster_pos priv (fat16_get_first_cluster it) + p) (cluster_size priv - p)) s' /\
    open_file s' fd it p f c /\ mounted s' priv /\
    (forall h0 L, owned h0 (heap_of s) L -> owned h0 (heap_of s') L) /\
    bd_image (dev_of s') = bd_image (dev_of s) /\ f_disk s' = f_disk s.
Proof.
  intros Hm Hg Hav Hop Hc Hp Hsz Hn0 Hend Hmax Hn Hout Hob Hch Hf. pose proof Hop as (Hd & Hi & Ht).
  unfold fat16_read. rewrite (bind_deref _ _ _ _ _ Hd). cbn [desc_item desc_pos].
  rewrite (bind_deref _ _ _ _ _ Hi). change (negb (item_type (mk_fat_item c FAT_ITEM_TYPE_FILE) =? FAT_ITEM_TYPE_FILE)) with false.
  cbv iota. cbn [item_ptr]. rewrite (bind_deref _ _ _ _ _ Ht). rewrite (bind_expect _ _ _ it) by done.
  pose proof (cluster_size_pos priv Hg). rewrite (i32_small p) by nia.
  destruct (read_loop_across s priv Hm Hav Hg (fat16_get_first_cluster it) size m (Z.to_nat nmemb) s p out (io_refl s) Hc)
    as (s1 & o & E1 & Hio1); try (exact Hch || exact Hf || rewrite ?Z2Nat.id by lia; nia).
  rewrite (bind_Done _ _ _ _ _ E1). cbv beta iota. rewrite (proj2 (Z.ltb_lt _ 0)) by apply beyond_error_neg.
  exists s1. split; [done|]. split; [by apply (io_open s)|]. split; [by apply (io_mounted s)|].
  split; [apply (io_own _ _ Hio1)|]. split; [apply (io_img _ _ Hio1)|].
  destruct (io_rest _ _ Hio1) as [t Et]. clear E1 Hio1. by subst s1.
Qed.
End proofs.

(** ** A disk in memory, for the witnesses *)

Record ram_disk := mk_ram_disk { ram_byte : Z -> Z }.

Definition ram_sector (d : ram_disk) (lba : Z) : list Z :=
  map (fun i => u8 (ram_byte d (KERNEL_SECTOR_SIZE * lba + i))) (seqZ 0 KERNEL_SECTOR_SIZE).

Definition ram_block_device : BlockDevice ram_disk := {|
  bd_read := fun lba total d =>
    Done (0, concat (map (fun i => ram_sector d (lba + i)) (seqZ 0 total))) d;
  bd_image := ram_sector
|}.

Lemma ram_block_device_laws : @BlockDeviceLaws ram_disk ram_block_device.
Proof.
  constructor; cbn [bd_read bd_image ram_block_device].
  - intros b lba Hl. exists b. split; [|done].
    change (seqZ 0 1) with [0]. cbn [map concat]. by rewrite app_nil_r, Z.add_0_r.
  - intros b lba. unfold ram_sector, zlen. rewrite length_map, length_seqZ. done.
  - intros b lba c (i & -> & _)%list_elem_of_fmap. apply u8_range.
Qed.

(** One sector per cluster, one reserved sector, one FAT of one sector, a root directory
    of 16 entries in sector 2, so that cluster 2 is sector 3. *)
Definition sample_header : list Z :=
  replicate 11 0 ++ [0; 2; 1; 1; 0; 1; 16; 0; 0; 0; 248; 1; 0] ++ replicate 14 0 ++ [41].
Definition sample_fat_sector : list Z := [248; 255; 255; 255; 255; 255].
Definition sample_entry (name : list Z) (cluster size : Z) : list Z :=
  name ++ replicate 15 0 ++ [cluster; 0; size; 0; 0; 0].
Definition hello_txt : list Z := [72; 69; 76; 76; 79; 32; 32; 32; 84; 88; 84].
Definition deleted_txt : list Z := [229; 69; 76; 76; 79; 32; 32; 32; 84; 88; 84].

Definition sample_volume (dir : list Z) : ram_disk := mk_ram_disk (fun i =>
  if i <? 512 then nth (Z.to_nat i) sample_header 0
  else if i <? 1024 then nth (Z.to_nat (i - 512)) sample_fat_sector 0
  else if i <? 1536 then nth (Z.to_nat (i - 1024)) dir 0
  else nth (Z.to_nat (i - 1536)) [104; 101; 108; 108; 111] 0).

Definition sample_start (dir : list Z) : fat heap ram_disk :=
  mk_fat (mk_streams boot_heap (sample_volume dir) ∅) (mk_disk 0 0 512 0 0) ∅ ∅ ∅ ∅ ∅.

#[local] Instance sample_ly : Layout := sample_layout.
#[local] Instance sample_bd : BlockDevice ram_disk := ram_block_device.
#[local] Instance sample_bdl : BlockDeviceLaws ram_disk := ram_block_device_laws.

(** Mounting a volume whose root directory takes one block. *)
Lemma mount_one_block fuel (s0 : fat heap ram_disk) (b : ram_disk) (k r : Z) :
  st_dev (f_st s0) = b -> al_ok (st_heap (f_st s0)) -> al_avail (st_heap (f_st s0)) = 25600 ->
  disk_id (f_disk s0) = 0 -> sector_size (f_disk s0) = KERNEL_SECTOR_SIZE ->
  root_sector (the_header b) = r -> root_size (the_header b) = 512 ->
  signature (extended_header (the_header b)) = 41 -> 0 <= r < 1000 -> 0 <= k < 1000 -> k < Z.of_nat fuel ->
  (forall i, 0 <= i < k -> first_byte (dir_entry b (r * KERNEL_SECTOR_SIZE) i) <> 0) ->
  first_byte (dir_entry b (r * KERNEL_SECTOR_SIZE) k) = 0 ->
  exists s' priv, fat16_resolve fuel s0 = Done 0 s' /\ root_loaded s0 s' priv k.
Proof.
  intros <- Hok Hav Hid Hsz Hr Hs Hsig Hr0 Hk Hf Hne He.
  destruct (resolve_spec fuel s0 k Hok Hid Hsz) as (res & s' & E & D).
  - constructor; rewrite ?Hr, ?Hs; try (unfold KERNEL_SECTOR_SIZE; lia); [].
    split; [lia|]. by split.
  - rewrite Hs, Hav. change (blocks_of 512) with 1. lia.
  - rewrite Hsig, Hs in D. change (negb (41 =? 41)) with false in D. cbv iota in D.
    destruct D as [(_ & Hb & _)|(-> & priv & Hrl)]; [destruct Hb; apply roomy_page; lia|]. by exists s', priv.
Qed.

(** The volume with one file, HELLO.TXT, of 5 bytes. *)
Definition hello_volume : ram_disk := sample_volume (sample_entry hello_txt 2 5).

Lemma hello_mount :
  exists s' priv, fat16_resolve 16 (sample_start (sample_entry hello_txt 2 5)) = Done 0 s' /\
    root_loaded (sample_start (sample_entry hello_txt 2 5)) s' priv 1.
Proof.
  apply (mount_one_block 16 _ hello_volume 1 2).
  - reflexivity.
  - exact boot_heap_ok.
  - exact boot_heap_avail.
  - reflexivity.
  - reflexivity.
  - vm_compute. reflexivity.
  - vm_compute. reflexivity.
  - vm_compute. reflexivity.
  - lia.
  - lia.
  - lia.
  - intros i Hi. assert (i = 0) as -> by lia. vm_compute. discriminate.
  - vm_compute. reflexivity.
Qed.

(** The root directory of the mounted volume, at a concrete size. *)
Lemma hello_facts s' priv :
  root_loaded (sample_start (sample_entry hello_txt 2 5)) s' priv 1 ->
  exists it, mounted s' priv /\ geometry_ok priv /\ cluster_size priv = 512 /\ cluster_pos priv 2 = 1536 /\
    has_table s' (root_directory priv) (raw_entries hello_volume 1024 16) /\
    names_file (root_directory priv) (raw_entries hello_volume 1024 16)
      [104; 101; 108; 108; 111; 46; 116; 120; 116] it /\
    fat16_get_first_cluster it = 2 /\ 100 <= al_avail (st_heap (f_st s')) /\
    bd_image (st_dev (f_st s')) = bd_image hello_volume /\ fat_start priv = 512.
Proof.
  intros Hrl. exists (dir_entry hello_volume 1024 0). pose proof Hrl as [R1 R2 R3 R4 R5 R6 R7].
  assert (Hdev : st_dev (f_st (sample_start (sample_entry hello_txt 2 5))) = hello_volume) by reflexivity.
  rewrite Hdev in R2, R3, R4, R5, R6, R7.
  assert (Eh : the_header hello_volume = decode_header (replicate 11 0 ++ [0; 2; 1; 1; 0; 1; 16; 0; 0; 0; 248; 1; 0] ++ replicate 14 0 ++ [41] ++ replicate 23 0))
    by (vm_compute; reflexivity).
  rewrite Eh in *.
  match type of R5 with _ = ?e => assert (Ee : e = 3) by (vm_compute; reflexivity) end. rewrite Ee in R5.
  match type of R4 with _ = ?e => assert (Et : e = 1) by (vm_compute; reflexivity) end. rewrite Et in R4.
  assert (Espc : sectors_per_cluster (primary_header (header priv)) = 1) by (rewrite R2; vm_compute; reflexivity).
  assert (Eres : reserved_sectors (primary_header (header priv)) = 1) by (rewrite R2; vm_compute; reflexivity).
  split; [exact R1|]. split; [|split; [|split; [|split; [|split; [|split; [|split; [|split]]]]]]].
  - constructor; rewrite ?Espc, ?Eres, ?R5; try lia. unfold cluster_pos. rewrite Espc, R5.
    unfold KERNEL_SECTOR_SIZE. lia.
  - unfold cluster_size. rewrite Espc. reflexivity.
  - unfold cluster_pos. rewrite Espc, R5. reflexivity.
  - pose proof (root_loaded_table _ _ _ _ Hrl) as Ht. rewrite Hdev, Eh in Ht. apply Ht.
    vm_compute. split; discriminate.
  - exists 0. rewrite R4. split; [lia|]. split; [reflexivity|]. split; [vm_compute; reflexivity|].
    split; [vm_compute; reflexivity|]. intros j' it' Hj' Hne. lia.
  - vm_compute. reflexivity.
  - pose proof (ow_avail _ _ _ R6) as Ea. rewrite Ea.
    change (st_heap (f_st (sample_start (sample_entry hello_txt 2 5)))) with boot_heap.
    rewrite boot_heap_avail. match goal with |- _ <= _ - ?e => assert (Ex : e = 5) by (vm_compute; reflexivity) end.
    rewrite Ex. lia.
  - exact R7.
  - unfold fat_start. rewrite Eres. reflexivity.
Qed.

(** ** Properties *)

(** C27: mounting, with six blocks of the heap free and as many as the root directory takes.
    On a disk whose boot sector carries the FAT signature, [fat16_resolve] builds the private
    structure, its three streams and a copy of the root directory: [total] is the number of entries in use before the first empty one, and
    [ending_sector_pos] is the first sector after the root directory.  Without the
    signature it fails with [-EFSNOTUS].  Every failure gives back all memory and clears
    [fs_private], and failure on a FAT volume needs a root directory for which
    the heap may have no run of free blocks long enough. *)
Theorem fat16_resolve_spec {H B : Type} {LY : Layout} {AH : Allocator H} {LH : @AllocatorLaws H AH}
    {BD : BlockDevice B} {LB : BlockDeviceLaws B} (fuel : nat) (s : fat H B) (k : Z) :
  al_ok (st_heap (f_st s)) -> disk_id (f_disk s) = 0 -> sector_size (f_disk s) = KERNEL_SECTOR_SIZE ->
  volume_ok fuel (st_dev (f_st s)) k ->
  6 + blocks_of (root_size (the_header (st_dev (f_st s)))) <= al_avail (st_heap (f_st s)) ->
  exists res s', fat16_resolve fuel s = Done res s' /\
    if negb (signature (extended_header (the_header (st_dev (f_st s)))) =? KERNEL_FAT16_SIGNATURE)
    then res = - EFSNOTUS /\ own_same (st_heap (f_st s)) (st_heap (f_st s')) /\ fs_private (f_disk s') = 0
    else (res = - EIO /\ ~ roomy (al_avail (st_heap (f_st s)) - 6) (blocks_of (root_size (the_header (st_dev (f_st s))))) /\
          own_same (st_heap (f_st s)) (st_heap (f_st s')) /\ fs_private (f_disk s') = 0) \/
         (res = 0 /\ exists priv, root_loaded s s' priv k).
Proof.
  intros Hok Hid Hsz Hv Hav. destruct (resolve_spec fuel s k Hok Hid Hsz Hv Hav) as (res & s' & E & D).
  exists res, s'. split; [exact E|]. change KERNEL_FAT16_SIGNATURE with 41.
  destruct (negb _).
  - destruct D as (-> & Ho & Hp). split; [done|]. split; [by apply owned_nil|done].
  - destruct D as [(-> & Hb & Ho & Hp)|D]; [left|by right].
    split; [done|]. split; [done|]. split; [by apply owned_nil|done].
Qed.

Lemma fat16_resolve_spec_witness :
  exists s', fat16_resolve 16 (sample_start (sample_entry hello_txt 2 5)) = Done 0 s'.
Proof.
  pose proof (fat16_resolve_spec 16 (sample_start (sample_entry hello_txt 2 5)) 1) as Hspec.
  assert (Hdev : st_dev (f_st (sample_start (sample_entry hello_txt 2 5))) = hello_volume) by reflexivity.
  rewrite Hdev in Hspec.
  assert (Er : root_sector (the_header hello_volume) = 2) by (vm_compute; reflexivity).
  assert (Es : root_size (the_header hello_volume) = 512) by (vm_compute; reflexivity).
  assert (Eg : signature (extended_header (the_header hello_volume)) = 41) by (vm_compute; reflexivity).
  rewrite Es, Eg in Hspec. destruct Hspec as (res & s' & E & D).
  - exact boot_heap_ok.
  - reflexivity.
  - reflexivity.
  - constructor; rewrite ?Er, ?Es; try (unfold KERNEL_SECTOR_SIZE; lia); [].
    split; [lia|]. split; [vm_compute; reflexivity|]. intros i Hi. assert (i = 0) as -> by lia.
    vm_compute. discriminate.
  - cbn [f_st sample_start st_heap]. rewrite boot_heap_avail. vm_compute. discriminate.
  - change (negb (41 =? KERNEL_FAT16_SIGNATURE)) with false in D. cbv iota in D.
    destruct D as [(_ & Hb & _)|(-> & _)]; [|exists s'; exact E]. destruct Hb.
    cbn [f_st sample_start st_heap]. rewrite boot_heap_avail. apply roomy_page. reflexivity.
Defined.

(** Reading a file.  Opening a name that exactly one entry of the root directory
    carries (ignoring case) gives a descriptor; reading [nmemb] items of [size] bytes
    that lie in the first cluster delivers exactly the bytes of that cluster and returns
    [nmemb]; closing gives back every block. *)
Theorem fat16_file_roundtrip {H B : Type} {LY : Layout} {AH : Allocator H} {LH : @AllocatorLaws H AH}
    {BD : BlockDevice B} {LB : BlockDeviceLaws B} (fuel : nat) (s : fat H B) (priv : fat_private)
    (l : list fat_directory_item) (nbuf name : list Z) (it : fat_directory_item) (size nmemb out : Z) :
  mounted s priv -> geometry_ok priv -> has_table s (root_directory priv) l ->
  holds nbuf name -> zlen name < KERNEL_MAX_PATH -> names_file (root_directory priv) l name it ->
  2 <= fat16_get_first_cluster it < 65536 -> 4 <= al_avail (st_heap (f_st s)) ->
  0 < size -> 0 <= nmemb -> nmemb * size <= cluster_size priv ->
  0 < out -> out + nmemb * size < 4294967296 -> (2 <= fuel)%nat ->
  exists fd s1 s2 s3, fat16_open fuel [nbuf] FILE_MODE_READ s = Done fd s1 /\ IS_ERROR fd = false /\
    fat16_read fuel fd size nmemb out s1 =
      Done (nmemb, disk_slice (st_dev (f_st s)) (cluster_pos priv (fat16_get_first_cluster it)) (nmemb * size)) s2 /\
    fat16_close fd s2 = Done 0 s3 /\ own_same (st_heap (f_st s)) (st_heap (f_st s3)).
Proof.
  intros Hm Hg Htab Hn Hl Hnf Hc Hav Hs Hnm Hfit Hout Hob Hf.
  pose proof (owned_refl _ (mt_ok _ _ Hm)) as Ho0.
  destruct (open_found fuel _ [] s priv l nbuf name it Hm Htab Hn Hl Hnf Ho0 ltac:(lia))
    as (fd & f & c & s1 & E1 & Hfd & _ & _ & Hop1 & Hm1 & Ho1 & Hd1 & _).
  assert (Hav1 : 0 < al_avail (st_heap (f_st s1))) by (pose proof (ow_avail _ _ _ Ho1) as Ea; simpl in Ea; lia).
  destruct (read_spec fuel s1 priv fd it 0 f c size nmemb out Hm1 Hg Hav1 Hop1 Hc ltac:(lia) Hs Hnm Hfit Hout Hob Hf)
    as (s2 & E2 & Hop2 & _ & Ho12 & _).
  destruct (close_spec _ [] s2 fd it _ f c Hop2 (proj1 Hfd) (Ho12 _ _ Ho1)) as (h3 & E3 & Ho3).
  exists fd, s1, s2, (set_heap h3 s2). split; [exact E1|]. split; [apply IS_ERROR_small; lia|].
  rewrite Z.add_0_r, Hd1 in E2. split; [exact E2|]. split; [exact E3|]. by apply owned_nil.
Qed.

Lemma fat16_file_roundtrip_witness :
  exists s fd s1 s2 s3, fat16_open 16 [[104; 101; 108; 108; 111; 46; 116; 120; 116; 0]] FILE_MODE_READ s = Done fd s1 /\
    fat16_read 16 fd 5 1 8192 s1 = Done (1, [104; 101; 108; 108; 111]) s2 /\ fat16_close fd s2 = Done 0 s3.
Proof.
  destruct hello_mount as (s & priv & _ & Hrl).
  destruct (hello_facts s priv Hrl) as (it & Hm & Hg & Hcs & Hcp & Ht & Hnf & Hc & Hav & Him & _).
  destruct (fat16_file_roundtrip 16 s priv (raw_entries hello_volume 1024 16)
    [104; 101; 108; 108; 111; 46; 116; 120; 116; 0] [104; 101; 108; 108; 111; 46; 116; 120; 116] it 5 1 8192 Hm Hg Ht)
    as (fd & s1 & s2 & s3 & E1 & _ & E2 & E3 & _).
  - apply (holds_nul [104; 101; 108; 108; 111; 46; 116; 120; 116]). unfold is_char. repeat constructor; lia.
  - reflexivity.
  - exact Hnf.
  - rewrite Hc. lia.
  - lia.
  - lia.
  - lia.
  - rewrite Hcs. lia.
  - lia.
  - lia.
  - lia.
  - exists s, fd, s1, s2, s3. split; [exact E1|]. split; [|exact E3].
    rewrite E2, Hc, Hcp. f_equal. f_equal. rewrite (disk_slice_ext hello_volume) by exact Him.
    vm_compute. reflexivity.
Defined.

(** C37: a read that leaves the first cluster cannot succeed.  For a file whose chain ends,
    at any position and for any number of items that would take the read beyond the first
    cluster, [fat16_read] fails and leaves the position as it was.  [total_to_read] subtracts
    the offset in the file, not the offset in the cluster: from within the first cluster the
    rest of it is delivered, then every further round reads nothing and the loop follows the
    chain to its end, [-EIO]; at the end of the first cluster nothing is delivered, [-EIO];
    behind it the length is negative and the stream refuses, [-EINVAGS], or the chain is too
    short for the position, [-EIO] ([beyond_error]). *)
Theorem fat16_read_across_clusters {H B : Type} {LY : Layout} {AH : Allocator H} {LH : @AllocatorLaws H AH}
    {BD : BlockDevice B} {LB : BlockDeviceLaws B} (fuel : nat) (s : fat H B) (priv : fat_private)
    (fd : Z) (it : fat_directory_item) (p f c size nmemb out : Z) (m : nat) :
  mounted s priv -> geometry_ok priv -> 0 < al_avail (st_heap (f_st s)) -> open_file s fd it p f c ->
  2 <= fat16_get_first_cluster it < 65536 -> 0 <= p -> 0 < size -> 0 < nmemb ->
  cluster_size priv < p + nmemb * size -> p + nmemb * size < 2147483648 -> 0 < out -> out + cluster_size priv < 4294967296 ->
  chain_ends priv (st_dev (f_st s)) (fat16_get_first_cluster it) m -> (m + 2 < fuel)%nat ->
  exists s', fat16_read fuel fd size nmemb out s =
    Done (beyond_error priv p m, disk_slice (st_dev (f_st s)) (cluster_pos priv (fat16_get_first_cluster it) + p)
                   (cluster_size priv - p)) s' /\
    open_file s' fd it p f c.
Proof.
  intros. destruct (read_fails_spec fuel s priv fd it p f c size nmemb out m) as (s' & E & Hop & _); try done; [lia|].
  by exists s'.
Qed.

(** HELLO.TXT open, in the sample volume. *)
Lemma hello_open :
  exists s priv fd it f c, mounted s priv /\ geometry_ok priv /\ cluster_size priv = 512 /\ cluster_pos priv 2 = 1536 /\
    open_file s fd it 0 f c /\ fat16_get_first_cluster it = 2 /\ 1 <= al_avail (st_heap (f_st s)) /\
    bd_image (st_dev (f_st s)) = bd_image hello_volume /\ fat_start priv = 512.
Proof.
  destruct hello_mount as (s & priv & _ & Hrl).
  destruct (hello_facts s priv Hrl) as (it & Hm & Hg & Hcs & Hcp & Ht & Hnf & Hc & Hav & Him & Hfs).
  destruct (open_found 16 (st_heap (f_st s)) [] s priv (raw_entries hello_volume 1024 16)
    [104; 101; 108; 108; 111; 46; 116; 120; 116; 0] [104; 101; 108; 108; 111; 46; 116; 120; 116] it Hm Ht)
    as (fd & f & c & s1 & _ & _ & _ & _ & Hop & Hm1 & Ho1 & Hd1 & _).
  - apply (holds_nul [104; 101; 108; 108; 111; 46; 116; 120; 116]). unfold is_char. repeat constructor; lia.
  - reflexivity.
  - exact Hnf.
  - apply owned_refl, (mt_ok _ _ Hm).
  - lia.
  - exists s1, priv, fd, it, f, c. split; [exact Hm1|]. split; [exact Hg|]. split; [exact Hcs|].
    split; [exact Hcp|]. split; [exact Hop|]. split; [exact Hc|].
    split; [pose proof (ow_avail _ _ _ Ho1) as Ea; cbn [total_blocks_of] in Ea; lia|].
    split; [rewrite Hd1; exact Him|exact Hfs].
Qed.

Lemma fat16_read_across_clusters_witness :
  exists s fd data s', fat16_read 16 fd 300 2 8192 s = Done (- EIO, data) s' /\ length data = 512%nat.
Proof.
  destruct hello_open as (s & priv & fd & it & f & c & Hm & Hg & Hcs & Hcp & Hop & Hc & Hav & Him & Hfs).
  destruct (fat16_read_across_clusters 16 s priv fd it 0 f c 300 2 8192 0 Hm Hg ltac:(lia) Hop) as (s' & E & _).
  - rewrite Hc. lia.
  - lia.
  - lia.
  - lia.
  - rewrite Hcs. lia.
  - lia.
  - lia.
  - rewrite Hcs. lia.
  - rewrite Hc. cbn [chain_ends]. rewrite Hfs. unfold fat_entry.
    rewrite (disk_slice_ext hello_volume) by exact Him. vm_compute. reflexivity.
  - lia.
  - unfold beyond_error in E. rewrite Hcs in E. change ((0 <=? 512) || (Z.of_nat 0 <? 0 / 512)) with true in E.
    eexists s, fd, _, s'. split; [exact E|].
    unfold disk_slice. by rewrite length_map, length_seqZ.
Defined.

(** C38: lookups look at the first [total] entries, where [total] counts only the entries in
    use.  A deleted entry still occupies a slot, so a file behind it can lie at index
    [total] or later: opening it fails with [-EIO] although it is on the disk, and gives
    back all memory. *)
Theorem fat16_deleted_entry_hides {H B : Type} {LY : Layout} {AH : Allocator H} {LH : @AllocatorLaws H AH}
    {BD : BlockDevice B} {LB : BlockDeviceLaws B} (fuel : nat) (s0 s : fat H B) (priv : fat_private)
    (k : Z) (nbuf name : list Z) :
  root_loaded s0 s priv k ->
  0 <= k <= root_dir_entries (primary_header (the_header (st_dev (f_st s0)))) ->
  holds nbuf name -> zlen name < KERNEL_MAX_PATH -> 0 < al_avail (st_heap (f_st s)) ->
  let entries := raw_entries (st_dev (f_st s0)) (root_sector (the_header (st_dev (f_st s0))) * KERNEL_SECTOR_SIZE) in
  (forall j it, zget (entries k) j = Some it -> same_name (entry_name it) name ->
     zlen (filter in_use (entries k)) <= j) ->
  exists s', fat16_open fuel [nbuf] FILE_MODE_READ s = Done (ERROR (- EIO)) s' /\
    own_same (st_heap (f_st s)) (st_heap (f_st s')).
Proof.
  intros Hrl Hk Hn Hl Hav entries Hhid.
  pose proof (root_loaded_table _ _ _ _ Hrl Hk) as Htab.
  destruct (open_missing fuel (st_heap (f_st s)) [] s priv _ nbuf name (rl_mounted _ _ _ _ Hrl) Htab Hn Hl)
    as (s' & E & Ho & _); [|apply owned_refl, (mt_ok _ _ (rl_mounted _ _ _ _ Hrl))|done|].
  - intros j it Hj Hit Hs. rewrite (rl_total _ _ _ _ Hrl) in Hj. fold entries in Hj, Hit.
    assert (Hjk : zget (entries k) j = Some it).
    { pose proof (length_filter in_use (entries k)) as Hf. unfold zlen in Hj.
      assert (Hlk : length (entries k) = Z.to_nat k) by (unfold entries, raw_entries; by rewrite length_map, length_seqZ).
      unfold entries, raw_entries in Hit |- *. rewrite zget_map_seqZ in Hit by lia.
      rewrite zget_map_seqZ by lia. exact Hit. }
    specialize (Hhid j it Hjk Hs). lia.
  - exists s'. split; [exact E|]. by apply owned_nil.
Qed.

(** A deleted entry in front of HELLO.TXT. *)
Definition deleted_volume : ram_disk :=
  sample_volume (sample_entry deleted_txt 3 5 ++ sample_entry hello_txt 2 5).

Lemma deleted_mount :
  exists s' priv, fat16_resolve 16 (sample_start (sample_entry deleted_txt 3 5 ++ sample_entry hello_txt 2 5)) = Done 0 s' /\
    root_loaded (sample_start (sample_entry deleted_txt 3 5 ++ sample_entry hello_txt 2 5)) s' priv 2.
Proof.
  apply (mount_one_block 16 _ deleted_volume 2 2).
  - reflexivity.
  - exact boot_heap_ok.
  - exact boot_heap_avail.
  - reflexivity.
  - reflexivity.
  - vm_compute. reflexivity.
  - vm_compute. reflexivity.
  - vm_compute. reflexivity.
  - lia.
  - lia.
  - lia.
  - intros i Hi. assert (i = 0 \/ i = 1) as [-> | ->] by lia; vm_compute; discriminate.
  - vm_compute. reflexivity.
Qed.

Lemma fat16_deleted_entry_hides_witness :
  exists s s', entry_name (dir_entry deleted_volume 1024 1) = [72; 69; 76; 76; 79; 46; 84; 88; 84] /\
    fat16_open 16 [[72; 69; 76; 76; 79; 46; 84; 88; 84; 0]] FILE_MODE_READ s = Done (ERROR (- EIO)) s'.
Proof.
  destruct deleted_mount as (s & priv & _ & Hrl).
  destruct (fat16_deleted_entry_hides 16 _ s priv 2 [72; 69; 76; 76; 79; 46; 84; 88; 84; 0]
    [72; 69; 76; 76; 79; 46; 84; 88; 84] Hrl) as (s' & E & _).
  - vm_compute. split; discriminate.
  - apply (holds_nul [72; 69; 76; 76; 79; 46; 84; 88; 84]). unfold is_char. repeat constructor; lia.
  - reflexivity.
  - pose proof (ow_avail _ _ _ (rl_own _ _ _ _ Hrl)) as Ea. rewrite Ea.
    match goal with |- _ < al_avail ?h - ?e => change h with boot_heap; assert (Ex : e = 5) by (vm_compute; reflexivity) end.
    rewrite Ex, boot_heap_avail. lia.
  - intros j it Hit Hs. pose proof (zget_Some_range _ _ _ Hit) as Hj.
    match type of Hj with _ <= _ < ?e => assert (Ex : e = 2) by (vm_compute; reflexivity) end. rewrite Ex in Hj.
    match goal with |- ?e <= _ => assert (Ey : e = 1) by (vm_compute; reflexivity) end. rewrite Ey.
    destruct (Z.eq_dec j 0) as [-> |]; [|lia]. exfalso. revert Hit Hs.
    match goal with |- ?a = Some it -> _ => assert (Ez : a = Some (dir_entry deleted_volume 1024 0)) by (vm_compute; reflexivity) end.
    rewrite Ez. intros [= <-]. unfold same_name. vm_compute. discriminate.
  - exists s, s'. split; [vm_compute; reflexivity|exact E].
Defined.

(** [fat16_seek], on every branch.  [SEEK_SET] and [SEEK_CUR] move the position when
    the (unsigned) result lies inside the file and are refused with [-EINVAGS] otherwise,
    [SEEK_END] is not implemented, other modes are refused; a refused call changes nothing. *)
Theorem fat16_seek_spec {H B : Type} (s : fat H B) (fd : Z) (it : fat_directory_item) (p f c offset mode : Z) :
  open_file s fd it p f c ->
  let target := if mode =? SEEK_SET then Some (u32 offset)
                else if mode =? SEEK_CUR then Some (u32 (p + offset)) else None in
  fat16_seek fd offset mode s =
    match target with
    | Some t =>
        if t <? filesize it
        then Done 0 (put_desc fd (mk_fat_item_descriptor f t) s)
        else Done (- EINVAGS) s
    | None => Done (if mode =? SEEK_END then - ENOIMPL else - EINVAGS) s
    end /\
  match target with
  | Some t => (t <? filesize it) = true -> open_file (put_desc fd (mk_fat_item_descriptor f t) s) fd it t f c
  | None => True
  end.
Proof.
  intros (Hd & Hi & Ht) target. unfold fat16_seek. rewrite (bind_deref _ _ _ _ _ Hd). cbn [desc_item desc_pos].
  rewrite (bind_deref _ _ _ _ _ Hi).
  change (negb (item_type (mk_fat_item c FAT_ITEM_TYPE_FILE) =? FAT_ITEM_TYPE_FILE)) with false.
  cbv iota. cbn [item_ptr]. rewrite (bind_deref _ _ _ _ _ Ht), (bind_expect _ _ _ it) by done.
  assert (Hop : forall t, open_file (put_desc fd (mk_fat_item_descriptor f t) s) fd it t f c).
  { intros t. split; [simpl; apply lookup_insert_eq|by split]. }
  unfold target, SEEK_SET, SEEK_CUR, SEEK_END. destruct (Z.eqb_spec mode 0) as [-> |H0].
  - rewrite Z.leb_antisym. destruct (u32 offset <? filesize it); cbn [negb]; by split.
  - destruct (Z.eqb_spec mode 1) as [-> |H1].
    + change (1 =? 2) with false. cbv iota. rewrite Z.leb_antisym.
      destruct (u32 (p + offset) <? filesize it); cbn [negb]; by split.
    + destruct (mode =? 2); by split.
Qed.

Lemma fat16_seek_spec_witness :
  exists (s : fat heap ram_disk) fd s', fat16_seek fd 3 SEEK_SET s = Done (- EINVAGS) s' /\ s' = s.
Proof.
  pose (it := decode_item (replicate 32 0)).
  pose (s := mk_fat (mk_streams boot_heap hello_volume ∅) (mk_disk 0 0 512 0 0) ∅ ∅ {[ 8192 := [it] ]}
    {[ 4096 := mk_fat_item 8192 FAT_ITEM_TYPE_FILE ]} {[ 12288 := mk_fat_item_descriptor 4096 0 ]}).
  destruct (fat16_seek_spec s 12288 it 0 4096 8192 3 SEEK_SET) as [E _].
  - split; [apply lookup_singleton_eq|]. split; apply lookup_singleton_eq.
  - exists s, 12288, s. split; [exact E|reflexivity].
Defined.
