(* ===== verification/File.v ===== *)
(** * The file layer: fs/file.c, and disk_search_and_init of kernel/disk.c

    The class [Filesystem] is [struct filesystem]'s table of operations as the file layer
    uses it; [FilesystemLaws] is the contract the file layer's theorems are proved
    against, and [fat16_filesystem_laws] shows that the FAT16 driver keeps it for files of
    the root directory.  File descriptors are heap objects named by a table of 512
    pointers. *)
From S2P Require Import Prelude Heap Kheap CString Pparser Disk Fat16.

(** ** The operations of a file system *)

Class Filesystem (H F : Type) := {
  fs_heap : F -> H;
  fs_set_heap : H -> F -> F;
  fs_disk : F -> disk;
  fs_set_disk : disk -> F -> F;
  fs_resolve_op : M F Z;
  fs_open : list (list Z) -> Z -> M F Z;
  fs_read : Z -> Z -> Z -> Z -> M F (Z * list Z);
  fs_seek : Z -> Z -> Z -> M F Z;
  fs_stat : Z -> M F (Z * option file_stat);
  fs_close : Z -> M F Z
}.

Record file_descriptor := mk_file_descriptor {
  index : Z; desc_filesystem : Z; private : Z; desc_disk : Z
}.

Record vfs (F : Type) := mk_vfs {
  v_fs : F;
  v_roots : gmap Z path_root;
  v_parts : gmap Z path_part;
  v_strs : gmap Z (list Z);
  filesystems : list Z;
  file_descriptors : list Z;
  v_descs : gmap Z file_descriptor
}.
Arguments mk_vfs {F}.
Arguments v_fs {F}.
Arguments v_roots {F}.
Arguments v_parts {F}.
Arguments v_strs {F}.
Arguments filesystems {F}.
Arguments file_descriptors {F}.
Arguments v_descs {F}.

Section file.
Context {H F : Type} {LY : Layout} {AH : Allocator H} {FS : Filesystem H F}.
Implicit Types (v : vfs F).

Definition set_v_fs (f : F) v : vfs F :=
  mk_vfs f (v_roots v) (v_parts v) (v_strs v) (filesystems v) (file_descriptors v) (v_descs v).
Definition set_filesystems (l : list Z) v : vfs F :=
  mk_vfs (v_fs v) (v_roots v) (v_parts v) (v_strs v) l (file_descriptors v) (v_descs v).
Definition set_descriptors (l : list Z) v : vfs F :=
  mk_vfs (v_fs v) (v_roots v) (v_parts v) (v_strs v) (filesystems v) l (v_descs v).
Definition put_descriptor (a : Z) (d : file_descriptor) v : vfs F :=
  mk_vfs (v_fs v) (v_roots v) (v_parts v) (v_strs v) (filesystems v) (file_descriptors v) (<[a := d]> (v_descs v)).

Definition on_fs {A} (m : M F A) : M (vfs F) A := zoom v_fs set_v_fs m.

(** The path parser's view of the state: its objects, and the kernel heap. *)
Definition sel_paths v : paths H := mk_paths (fs_heap (v_fs v)) (v_roots v) (v_parts v) (v_strs v).
Definition upd_paths (p : paths H) v : vfs F :=
  mk_vfs (fs_set_heap (p_heap p) (v_fs v)) (p_roots p) (p_parts p) (p_strs p)
    (filesystems v) (file_descriptors v) (v_descs v).
Definition on_paths {A} (m : M (paths H) A) : M (vfs F) A := zoom sel_paths upd_paths m.

Definition sel_heap v : H := fs_heap (v_fs v).
Definition upd_heap (h : H) v : vfs F := set_v_fs (fs_set_heap h (v_fs v)) v.
Definition v_alloc (size : Z) : M (vfs F) Z := zoom sel_heap upd_heap (al_alloc size).
Definition v_free (ptr : Z) : M (vfs F) unit := zoom sel_heap upd_heap (al_release ptr).

(** A call through a [struct filesystem *]: only the FAT16 driver's table exists. *)
Definition call {A} (filesystem : Z) (m : M F A) : M (vfs F) A :=
  if filesystem =? addr_fat16_fs then on_fs m else fault.

(** ** Registered file systems *)

(** The index of the first free slot, or of the end of the table. *)
Fixpoint free_slot_loop (l : list Z) (i : Z) : Z :=
  match l with
  | [] => i
  | p :: l' => if p =? 0 then i else free_slot_loop l' (i + 1)
  end.

Definition fs_get_free_filesystem v : option Z :=
  let i := free_slot_loop (filesystems v) 0 in
  if i <? KERNEL_MAX_FILESYSTEMS then Some i else None.

Definition fs_insert_filesystem (filesystem : Z) : M (vfs F) unit :=
  fs ← gets fs_get_free_filesystem;
  match fs with
  | None => panic
  | Some i => modify (fun v => set_filesystems (zset (filesystems v) i filesystem) v)
  end.

Definition fat16_init : Z := addr_fat16_fs.

Definition fs_static_load : M (vfs F) unit := fs_insert_filesystem fat16_init.

Definition fs_init : M (vfs F) unit :=
  modify (set_filesystems (replicate (Z.to_nat KERNEL_MAX_FILESYSTEMS) 0));;
  fs_static_load.

Fixpoint fs_resolve_loop (l : list Z) : M (vfs F) Z :=
  match l with
  | [] => mret 0
  | p :: l' =>
      if negb (p =? 0) then
        res ← call p fs_resolve_op;
        if res =? 0 then mret p else fs_resolve_loop l'
      else fs_resolve_loop l'
  end.

Definition fs_resolve : M (vfs F) Z := l ← gets filesystems; fs_resolve_loop l.

Definition set_fs_disk (d : disk) v : vfs F := set_v_fs (fs_set_disk d (v_fs v)) v.

Definition disk_search_and_init : M (vfs F) unit :=
  modify (set_fs_disk (mk_disk KERNEL_DISK_TYPE_REAL 0 KERNEL_SECTOR_SIZE 0 0));;
  fs ← fs_resolve;
  modify (fun v => let d := fs_disk (v_fs v) in
    set_fs_disk (mk_disk (disk_type d) (disk_id d) (sector_size d) fs (fs_private d)) v).

(** ** File descriptors *)

(** The result and [*desc_out]. *)
Definition file_new_descriptor : M (vfs F) (Z * Z) :=
  fds ← gets file_descriptors;
  let i := free_slot_loop fds 0 in
  if i <? KERNEL_MAX_FILE_DESCRIPTORS then
    desc ← v_alloc 16;
    modify (fun v => set_descriptors (zset (file_descriptors v) i desc) v);;
    if desc =? 0 then fault
    else modify (put_descriptor desc (mk_file_descriptor (i + 1) 0 0 0));; mret (0, desc)
  else mret (- ENOMEM, 0).

Definition file_free_descriptor (fd : Z) : M (vfs F) unit :=
  desc ← gets (fun v => zget (file_descriptors v) (fd - 1));
  desc ← expect desc;
  modify (fun v => set_descriptors (zset (file_descriptors v) (fd - 1) 0) v);;
  v_free desc.

Definition file_get_descriptor (fd : Z) : M (vfs F) Z :=
  if (fd <=? 0) || (KERNEL_MAX_FILE_DESCRIPTORS <? fd) then mret 0
  else
    desc ← gets (fun v => zget (file_descriptors v) (fd - 1));
    expect desc.

Definition the_descriptor (desc : Z) : M (vfs F) file_descriptor :=
  d ← gets (fun v => v_descs v !! desc); expect d.

Definition file_get_mode_by_string (str : list Z) : option Z :=
  match strncmp str [114; 0] 1, strncmp str [119; 0] 1, strncmp str [97; 0] 1 with
  | Some r, Some w, Some a =>
      Some (if r =? 0 then FILE_MODE_READ
            else if w =? 0 then FILE_MODE_WRITE
            else if a =? 0 then FILE_MODE_APPEND else FILE_MODE_INVALID)
  | _, _, _ => None
  end.

(** The strings of the parts from [first], as the file system reads them. *)
Fixpoint part_names (n : nat) v (p : Z) : option (list (list Z)) :=
  match n with
  | O => None
  | S n' =>
      if p =? 0 then Some []
      else match v_parts v !! p with
           | Some pp =>
               match v_strs v !! part pp, part_names n' v (next pp) with
               | Some buf, Some rest => Some (buf :: rest)
               | _, _ => None
               end
           | None => None
           end
  end.

(** [out:] of [fopen]: [n] bounds the length of the path. *)
Definition fopen_out (n : nat) (res root_path disk private desc : Z) : M (vfs F) Z :=
  if res <? 0 then
    (if negb (root_path =? 0) && negb (IS_ERROR root_path)
     then on_paths (pathparser_free n root_path) else mret tt);;
    (if negb (disk =? 0) && negb (private =? 0) && negb (IS_ERROR private) then
       d ← gets (fun v => fs_disk (v_fs v));
       call (filesystem_ptr d) (fs_close private);; mret tt
     else mret tt);;
    (if negb (desc =? 0) then
       d ← the_descriptor desc; file_free_descriptor (index d)
     else mret tt);;
    mret 0
  else mret res.

Definition fopen (filename mode_str : list Z) : M (vfs F) Z :=
  let n := S (S (length filename)) in
  root_path ← on_paths (pathparser_parse filename);
  if IS_ERROR root_path || (root_path =? 0) then
    fopen_out n (if IS_ERROR root_path then ERROR_I root_path else - EINVAGS) root_path 0 0 0
  else
    root ← gets (fun v => v_roots v !! root_path);
    root ← expect root;
    if first root =? 0 then fopen_out n (- EINVAGS) root_path 0 0 0
    else
      let disk := disk_get (drive_no root) in
      d ← gets (fun v => fs_disk (v_fs v));
      if (disk =? 0) || (filesystem_ptr d =? 0) then fopen_out n (- EIO) root_path disk 0 0
      else
        mode ← expect (file_get_mode_by_string mode_str);
        if mode =? FILE_MODE_INVALID then fopen_out n (- EINVAGS) root_path disk 0 0
        else
          names ← gets (fun v => part_names n v (first root));
          names ← expect names;
          private ← call (filesystem_ptr d) (fs_open names mode);
          if IS_ERROR private then fopen_out n (ERROR_I private) root_path disk private 0
          else
            r ← file_new_descriptor;
            let '(res, desc) := r in
            if res <? 0 then fopen_out n res root_path disk private desc
            else
              fd ← the_descriptor desc;
              d ← gets (fun v => fs_disk (v_fs v));
              modify (put_descriptor desc (mk_file_descriptor (index fd) (filesystem_ptr d) private disk));;
              fopen_out n (index fd) root_path disk private desc.

(** The result and the bytes stored at [ptr]. *)
Definition fread (ptr size nmemb fd : Z) : M (vfs F) (Z * list Z) :=
  if (size =? 0) || (nmemb =? 0) || (fd <? 1) then mret (- EINVAGS, [])
  else
    desc ← file_get_descriptor fd;
    if desc =? 0 then mret (- EINVAGS, [])
    else
      d ← the_descriptor desc;
      call (desc_filesystem d) (fs_read (private d) size nmemb ptr).

Definition fseek (fd offset whence : Z) : M (vfs F) Z :=
  desc ← file_get_descriptor fd;
  if desc =? 0 then mret (- EINVAGS)
  else
    d ← the_descriptor desc;
    call (desc_filesystem d) (fs_seek (private d) offset whence).

Definition fstat (fd stat : Z) : M (vfs F) (Z * option file_stat) :=
  if stat =? 0 then mret (- EINVAGS, None)
  else
    desc ← file_get_descriptor fd;
    if desc =? 0 then mret (- EINVAGS, None)
    else
      d ← the_descriptor desc;
      call (desc_filesystem d) (fs_stat (private d)).

Definition fclose (fd : Z) : M (vfs F) Z :=
  desc ← file_get_descriptor fd;
  if desc =? 0 then mret (- EINVAGS)
  else
    d ← the_descriptor desc;
    res ← call (desc_filesystem d) (fs_close (private d));
    if negb (res =? 0) then mret res
    else file_free_descriptor fd;; mret res.
End file.

(** ** The contract of a file system *)

(** [fs_file f r K x]: [r] is the open file [x], and its objects occupy the blocks [K];
    [fs_can_open f path mode o]: the path is one the contract speaks about, and names the
    file [o], or no file; [fs_need]: blocks an open wants. *)
Class FilesystemSpec (H F : Type) := {
  fs_id : Type;
  fs_ok : F -> Prop;
  fs_file : F -> Z -> list (Z * Z) -> fs_id -> Prop;
  fs_can_open : F -> list (list Z) -> Z -> option fs_id -> Prop;
  fs_need : Z
}.

Class FilesystemLaws (H F : Type) `{Allocator H} `{Filesystem H F} `{FilesystemSpec H F} := {
  fs_heap_set : forall h f, fs_heap (fs_set_heap h f) = h;
  fs_set_set : forall h h' f, fs_set_heap h (fs_set_heap h' f) = fs_set_heap h f;
  fs_heap_id : forall f, fs_set_heap (fs_heap f) f = f;
  fs_disk_set : forall h f, fs_disk (fs_set_heap h f) = fs_disk f;
  fs_ok_heap : forall f, fs_ok f -> al_ok (fs_heap f);
  (** The rest of the kernel may use the heap. *)
  fs_ok_set : forall f h, fs_ok f -> al_ok h -> fs_ok (fs_set_heap h f);
  fs_file_set : forall f h r K x, fs_file f r K x -> al_ok h -> fs_file (fs_set_heap h f) r K x;
  fs_can_set : forall f h path mode o, fs_can_open f path mode o ->
    (forall b n, al_live (fs_heap f) b n -> al_live h b n) -> fs_can_open (fs_set_heap h f) path mode o;
  fs_open_spec : forall f h0 L path mode o,
    fs_ok f -> fs_can_open f path mode o -> fs_need <= al_avail (fs_heap f) -> owned h0 (fs_heap f) L ->
    exists r f', fs_open path mode f = Done r f' /\ fs_ok f' /\ fs_disk f' = fs_disk f /\
    match o with
    | None => IS_ERROR r = true /\ owned h0 (fs_heap f') L
    | Some x => 0 < r < 2147483648 /\ exists K, fs_file f' r K x /\ owned h0 (fs_heap f') (K ++ L) /\
        total_blocks_of K <= fs_need
    end;
  fs_close_spec : forall f h0 L r K x,
    fs_ok f -> fs_file f r K x -> owned h0 (fs_heap f) (K ++ L) ->
    exists f', fs_close r f = Done 0 f' /\ fs_ok f' /\ fs_disk f' = fs_disk f /\ owned h0 (fs_heap f') L;
  fs_need_nonneg : 0 <= fs_need
}.

(** ** Descriptor tables *)

Lemma free_slot_loop_spec l i :
  let j := free_slot_loop l i in
  i <= j <= i + zlen l /\ (forall x, i <= x < j -> exists p, zget l (x - i) = Some p /\ p <> 0) /\
  (j < i + zlen l -> zget l (j - i) = Some 0).
Proof.
  revert i. induction l as [|p l IH]; intros i; simpl.
  - change (zlen (@nil Z)) with 0. split; [lia|]. split; [lia|lia].
  - rewrite zlen_cons. pose proof (zlen_nonneg l). destruct (Z.eqb_spec p 0) as [-> |Hp].
    + split; [lia|]. split; [lia|]. intros _. by rewrite Z.sub_diag.
    + destruct (IH (i + 1)) as (H1 & H2 & H3). split; [lia|]. split.
      * intros x Hx. rewrite zget_cons. destruct (Z.eqb_spec (x - i) 0); [by exists p|].
        destruct (H2 x) as (q & Hq & Hne); [lia|]. exists q. split; [|done].
        by replace (x - i - 1) with (x - (i + 1)) by lia.
      * intros Hj. rewrite zget_cons. rewrite (proj2 (Z.eqb_neq _ 0)) by lia.
        replace (free_slot_loop l (i + 1) - i - 1) with (free_slot_loop l (i + 1) - (i + 1)) by lia.
        apply H3. lia.
Qed.

Section proofs.
Context {H F : Type} {LY : Layout} {AH : Allocator H} {LH : @AllocatorLaws H AH}
  {FS : Filesystem H F} {SP : FilesystemSpec H F} {LF : @FilesystemLaws H F AH FS SP}.
Implicit Types (v : vfs F) (L K : list (Z * Z)).

(** The file layer's invariant. *)
Record vfs_ok v : Prop := {
  vo_fs : fs_ok (v_fs v);
  vo_fds : zlen (file_descriptors v) = KERNEL_MAX_FILE_DESCRIPTORS;
  vo_mounted : filesystem_ptr (fs_disk (v_fs v)) = addr_fat16_fs;
  vo_open : forall i p, zget (file_descriptors v) i = Some p -> p <> 0 ->
    al_live (fs_heap (v_fs v)) p 1 /\
    exists r, v_descs v !! p = Some (mk_file_descriptor (i + 1) addr_fat16_fs r addr_disk)
}.

(** Descriptor [fd] names the open file [r] through the descriptor object [p]. *)
Definition open_at v (fd p r : Z) K (x : fs_id) : Prop :=
  0 < fd /\ zget (file_descriptors v) (fd - 1) = Some p /\ 0 < p /\
  v_descs v !! p = Some (mk_file_descriptor fd addr_fat16_fs r addr_disk) /\
  fs_file (v_fs v) r K x.

Lemma bind_paths {A T} (m : M (paths H) A) (k : A -> M (vfs F) T) v a p :
  m (sel_paths v) = Done a p -> (on_paths m ≫= k) v = k a (upd_paths p v).
Proof. intros E. apply bind_Done. by apply zoom_Done. Qed.

Lemma bind_fs {A T} (m : M F A) (k : A -> M (vfs F) T) v a f :
  m (v_fs v) = Done a f -> (on_fs m ≫= k) v = k a (set_v_fs f v).
Proof. intros E. apply bind_Done. by apply zoom_Done. Qed.

Lemma call_fat16 {A} (m : M F A) : call addr_fat16_fs m = on_fs m.
Proof. unfold call. by rewrite Z.eqb_refl. Qed.

Lemma v_free_spec h0 L v a n :
  owned h0 (fs_heap (v_fs v)) ((a, n) :: L) ->
  exists h', v_free a v = Done tt (upd_heap h' v) /\ owned h0 h' L.
Proof. intros Ho. exists (al_free (sel_heap v) a). split; [done|]. by eapply owned_free. Qed.

Lemma v_alloc_spec h0 L v size :
  owned h0 (fs_heap (v_fs v)) L -> 0 <= size < 4294967296 -> blocks_of size = 1 ->
  0 < al_avail (fs_heap (v_fs v)) ->
  exists a h', v_alloc size v = Done a (upd_heap h' v) /\ 0 < a < 2147483648 /\
    owned h0 h' ((a, 1) :: L) /\ (forall n, al_live (fs_heap (v_fs v)) a n -> False) /\
    (forall b n, al_live (fs_heap (v_fs v)) b n -> al_live h' b n).
Proof.
  intros Ho Hs Hb Hav. destruct (al_malloc (fs_heap (v_fs v)) size) as [a h'] eqn:E.
  pose proof (al_malloc_page _ _ _ _ (ow_ok _ _ _ Ho) Hs Hb Hav E) as Ha.
  destruct (owned_alloc _ _ _ _ _ _ Ho Hs E) as [[-> _]|(_ & Ho' & Hfr)]; [lia|]. rewrite Hb in Ho'.
  exists a, h'. unfold v_alloc, zoom, al_alloc, sel_heap. rewrite E. split; [done|].
  split; [eapply owned_range; [done|rewrite fmap_cons; by left]|]. do 2 (split; [done|]).
  intros b n Hl. apply (ow_live _ _ _ Ho').
  destruct (proj1 (ow_live _ _ _ Ho b n) Hl); [left; by right|by right].
Qed.

(** The names the file system sees are the components of the path. *)
Lemma part_names_spec n v p ps L :
  chain (sel_paths v) p ps L -> (length ps < n)%nat ->
  exists bufs, part_names n v p = Some bufs /\ Forall2 holds bufs ps.
Proof.
  revert p ps L. induction n as [|n IH]; intros p ps L Hc Hn; [lia|]. simpl.
  destruct ps as [|x ps]; simpl in Hc.
  - destruct Hc as [-> _]. by exists [].
  - destruct Hc as (q & sp & buf & L' & H1 & H2 & H3 & H4 & _ & H6).
    rewrite (proj2 (Z.eqb_neq p 0)) by lia. rewrite H1. simpl. rewrite H2.
    destruct (IH q ps L' H6) as (bufs & -> & Hall); [simpl in Hn; lia|].
    exists (buf :: bufs). split; [done|by constructor].
Qed.

(** The mode string ["r"]. *)
Lemma mode_read str m : holds str (114 :: m) -> file_get_mode_by_string str = Some FILE_MODE_READ.
Proof. intros Hh. apply holds_cons in Hh as (b & -> & _ & _). by destruct b. Qed.

(** The first free slot of the descriptor table. *)
Definition first_free v : Z := free_slot_loop (file_descriptors v) 0.

Lemma first_free_spec v :
  vfs_ok v -> 0 <= first_free v <= KERNEL_MAX_FILE_DESCRIPTORS /\
  (forall i, 0 <= i < first_free v -> exists p, zget (file_descriptors v) i = Some p /\ p <> 0) /\
  (first_free v < KERNEL_MAX_FILE_DESCRIPTORS -> zget (file_descriptors v) (first_free v) = Some 0).
Proof.
  intros Hv. destruct (free_slot_loop_spec (file_descriptors v) 0) as (H1 & H2 & H3).
  fold (first_free v) in *. rewrite (vo_fds _ Hv) in *. split; [lia|]. split.
  - intros i Hi. destruct (H2 i Hi) as (p & Hp & Hne). exists p. by rewrite Z.sub_0_r in Hp.
  - intros Hlt. specialize (H3 ltac:(lia)). by rewrite Z.sub_0_r in H3.
Qed.

Lemma new_descriptor_spec h0 L v :
  vfs_ok v -> owned h0 (fs_heap (v_fs v)) L -> 0 < al_avail (fs_heap (v_fs v)) ->
  if first_free v <? KERNEL_MAX_FILE_DESCRIPTORS
  then exists p h', file_new_descriptor v =
      Done (0, p) (put_descriptor p (mk_file_descriptor (first_free v + 1) 0 0 0)
        (set_descriptors (zset (file_descriptors v) (first_free v) p) (upd_heap h' v))) /\
    0 < p < 2147483648 /\ owned h0 h' ((p, 1) :: L) /\
    (forall n, al_live (fs_heap (v_fs v)) p n -> False) /\
    (forall b n, al_live (fs_heap (v_fs v)) b n -> al_live h' b n)
  else file_new_descriptor v = Done (- ENOMEM, 0) v.
Proof.
  intros Hv Ho Hav. unfold file_new_descriptor. rewrite bind_gets. fold (first_free v).
  destruct (first_free v <? KERNEL_MAX_FILE_DESCRIPTORS); [|done].
  destruct (v_alloc_spec h0 L v 16 Ho ltac:(done) ltac:(reflexivity) Hav) as (p & h' & E & Hp & Ho' & Hfr & Hl).
  rewrite (bind_Done _ _ _ _ _ E), bind_modify, (proj2 (Z.eqb_neq p 0)), bind_modify by lia.
  exists p, h'. done.
Qed.

Lemma chain_blocks (s : paths H) p ps L : chain s p ps L -> total_blocks_of L = 2 * zlen ps.
Proof.
  revert p L. induction ps as [|x ps IH]; intros p L; simpl.
  - by intros [_ ->].
  - intros (q & sp & buf & L' & _ & _ & _ & _ & -> & Hc). simpl. rewrite (IH _ _ Hc), zlen_cons. lia.
Qed.

Lemma spec_parse_nonempty s d ps : spec_parse s = Some (d, ps) -> ps <> [].
Proof.
  unfold spec_parse. destruct (_ <? _); [done|]. destruct s as [|? [|? [|? rest]]]; try done.
  destruct (_ && _); [|done]. destruct (parts_of rest); [done|]. intros [= _ <-]. done.
Qed.

(** The failure exit: the path and the private object are given back. *)
Lemma fopen_fail h0 L K v n res r d f ps private :
  res < 0 -> 0 < r < 2147483648 -> v_roots v !! r = Some (mk_path_root d f) ->
  chain (sel_paths v) f ps L -> (length ps < n)%nat -> vfs_ok v ->
  (IS_ERROR private = true /\ K = []) \/ (private = 0 /\ K = []) \/
    (0 < private < 2147483648 /\ exists x, fs_file (v_fs v) private K x) ->
  owned h0 (fs_heap (v_fs v)) ((r, 1) :: L ++ K) ->
  exists v', fopen_out n res r addr_disk private 0 v = Done 0 v' /\ owned h0 (fs_heap (v_fs v')) [] /\
    file_descriptors v' = file_descriptors v /\ v_descs v' = v_descs v /\
    fs_ok (v_fs v') /\ fs_disk (v_fs v') = fs_disk (v_fs v).
Proof.
  intros Hres Hr Hroot Hc Hn Hv Hpriv Ho. unfold fopen_out.
  rewrite (proj2 (Z.ltb_lt res 0)), (proj2 (Z.eqb_neq r 0)), (IS_ERROR_small r) by lia.
  change (negb false && negb false) with true. cbv iota.
  destruct (pathparser_free_spec n h0 (sel_paths v) r d f ps L K (proj1 Hr) Hroot Hc Ho Hn) as (p1 & E1 & Ho1).
  rewrite (bind_paths _ _ v _ _ E1).
  set (v1 := upd_paths p1 v). pose proof addr_disk_pos as Hd. rewrite (proj2 (Z.eqb_neq addr_disk 0)) by lia.
  assert (Hh1 : fs_heap (v_fs v1) = p_heap p1) by (unfold v1; simpl; apply fs_heap_set).
  assert (Hok1 : fs_ok (v_fs v1)) by (unfold v1; simpl; apply fs_ok_set; [apply (vo_fs _ Hv)|apply (ow_ok _ _ _ Ho1)]).
  assert (Hd1 : fs_disk (v_fs v1) = fs_disk (v_fs v)) by (unfold v1; simpl; apply fs_disk_set).
  destruct Hpriv as [[He ->]|[[-> ->]|[Hp [x Hf]]]].
  - rewrite He, andb_false_r. rewrite !bind_ret. change (negb (0 =? 0)) with false. cbv iota. rewrite bind_ret.
    exists v1. split; [done|]. rewrite Hh1. by split_and!.
  - change (negb (0 =? 0)) with false. rewrite andb_false_r. cbn [andb]. rewrite !bind_ret.
    exists v1. split; [done|]. rewrite Hh1. by split_and!.
  - rewrite (proj2 (Z.eqb_neq private 0)), (IS_ERROR_small private) by lia. change (negb false && negb false && negb false) with true.
    cbv iota. rewrite bind_assoc, bind_gets, Hd1, (vo_mounted _ Hv), call_fat16.
    destruct (fs_close_spec (v_fs v1) h0 [] private K x Hok1) as (f2 & E2 & Hok2 & Hd2 & Ho2).
    + unfold v1. simpl. apply fs_file_set; [done|]. apply (ow_ok _ _ _ Ho1).
    + rewrite Hh1, app_nil_r. exact Ho1.
    + rewrite bind_assoc, (bind_fs _ _ v1 _ _ E2), bind_ret.
      change (negb (0 =? 0)) with false. cbv iota. rewrite bind_ret.
      exists (set_v_fs f2 v1). split; [done|]. simpl. split_and!; try done. by rewrite Hd2.
Qed.

(** [fopen] of a well-formed path on the disk, in mode ["r"]. *)
Lemma fopen_total v filename str mode_str m ps o :
  vfs_ok v -> holds filename str -> holds mode_str (114 :: m) -> spec_parse str = Some (0, ps) ->
  (forall bufs, Forall2 holds bufs ps -> fs_can_open (v_fs v) bufs FILE_MODE_READ o) ->
  2 * zlen ps + 4 + fs_need <= al_avail (fs_heap (v_fs v)) ->
  exists fd v', fopen filename mode_str v = Done fd v' /\ vfs_ok v' /\
    ((fd = 0 /\ (o = None \/ first_free v = KERNEL_MAX_FILE_DESCRIPTORS) /\
      file_descriptors v' = file_descriptors v /\ owned (fs_heap (v_fs v)) (fs_heap (v_fs v')) []) \/
     (first_free v < KERNEL_MAX_FILE_DESCRIPTORS /\ fd = first_free v + 1 /\
      exists p r K Lp x, o = Some x /\ open_at v' fd p r K x /\ file_descriptors v' = zset (file_descriptors v) (first_free v) p /\
        owned (fs_heap (v_fs v)) (fs_heap (v_fs v')) ((p, 1) :: K ++ Lp) /\
        total_blocks_of Lp = 2 * zlen ps + 1 /\ total_blocks_of K <= fs_need)).
Proof.
  intros Hv Hfn Hms Hsp Hcan Hav. pose proof (spec_parse_nonempty _ _ _ Hsp) as Hne.
  pose proof (fs_ok_heap _ (vo_fs _ Hv)) as Hok. pose proof fs_need_nonneg as Hnd.
  unfold fopen. destruct (parse_total (sel_paths v) filename str Hok Hfn) as (r & p1 & E1 & D).
  rewrite (bind_paths _ _ v _ _ E1).
  unfold parse_post in D. rewrite Hsp in D. destruct D as [(_ & _ & Hlow)|(L & (Hr & f & Hroot & Hc) & Ho1)].
  { simpl in Hlow. lia. }
  rewrite (IS_ERROR_small r), (proj2 (Z.eqb_neq r 0)) by lia. cbn [orb].
  set (v1 := upd_paths p1 v). rewrite bind_gets. change (v_roots v1) with (p_roots p1).
  rewrite (bind_expect _ _ _ _ Hroot). cbn [first drive_no].
  assert (Hf0 : 0 < f) by (destruct ps; [done|]; destruct Hc as (? & ? & ? & ? & _ & _ & _ & ? & _); lia).
  rewrite (proj2 (Z.eqb_neq f 0)) by lia. rewrite bind_gets.
  assert (Hd1 : fs_disk (v_fs v1) = fs_disk (v_fs v)) by (unfold v1; simpl; apply fs_disk_set).
  assert (Hh1 : fs_heap (v_fs v1) = p_heap p1) by (unfold v1; simpl; apply fs_heap_set).
  rewrite Hd1, (vo_mounted _ Hv). unfold disk_get. change (negb (0 =? 0)) with false. cbv iota.
  pose proof addr_disk_pos as Hdp. pose proof addr_fat16_fs_range as Hfp.
  rewrite (proj2 (Z.eqb_neq addr_disk 0)), (proj2 (Z.eqb_neq addr_fat16_fs 0)) by lia. cbn [orb].
  rewrite (bind_expect _ _ _ _ (mode_read _ _ Hms)). change (FILE_MODE_READ =? FILE_MODE_INVALID) with false.
  cbv iota. rewrite bind_gets. rewrite <- Hh1 in Ho1.
  assert (Hsel : sel_paths v1 = p1).
  { unfold sel_paths, v1. simpl. rewrite fs_heap_set. by destruct p1. }
  assert (Hlen : (length ps < S (S (length filename)))%nat).
  { pose proof (spec_parse_len _ _ _ Hsp). destruct Hfn as [_ [tl ->]]. rewrite length_app. simpl. unfold zlen in *. lia. }
  assert (Hc1 : chain (sel_paths v1) f ps L) by (by rewrite Hsel).
  destruct (part_names_spec (S (S (length filename))) v1 f ps L Hc1 Hlen) as (bufs & En & Hbufs).
  rewrite (bind_expect _ _ _ _ En), call_fat16.
  assert (Hlive1 : forall b n, al_live (fs_heap (v_fs v)) b n -> al_live (fs_heap (v_fs v1)) b n).
  { intros b n Hl. apply (ow_live _ _ _ Ho1). by right. }
  assert (Hok1 : fs_ok (v_fs v1)).
  { unfold v1. simpl. apply fs_ok_set; [apply (vo_fs _ Hv)|]. rewrite <- Hh1. apply (ow_ok _ _ _ Ho1). }
  pose proof (chain_blocks _ _ _ _ Hc) as HL.
  assert (Hav1 : al_avail (fs_heap (v_fs v1)) = al_avail (fs_heap (v_fs v)) - (2 * zlen ps + 1)).
  { rewrite (ow_avail _ _ _ Ho1). simpl. lia. }
  destruct (fs_open_spec (v_fs v1) (fs_heap (v_fs v)) ((r, 1) :: L) bufs FILE_MODE_READ o Hok1)
    as (private & f2 & E2 & Hok2 & Hd2 & D); try done; try lia.
  { unfold v1. simpl. apply fs_can_set; [by apply Hcan|]. rewrite <- Hh1. exact Hlive1. }
  rewrite (bind_fs _ _ v1 _ _ E2).
  set (v2 := set_v_fs f2 v1).
  assert (Hc2 : chain (sel_paths v2) f ps L) by (by apply (chain_keeps (sel_paths v1))).
  assert (Hmk : forall K, owned (fs_heap (v_fs v)) (fs_heap f2) (K ++ (r, 1) :: L) -> vfs_ok v2).
  { intros K Ho2. constructor; try done.
    - apply (vo_fds _ Hv).
    - simpl. rewrite Hd2, Hd1. apply (vo_mounted _ Hv).
    - intros i p Hi Hp. destruct (vo_open _ Hv i p Hi Hp) as [Hl Hdesc]. split; [|exact Hdesc].
      simpl. apply (ow_live _ _ _ Ho2). by right. }
  destruct o as [x|]; [destruct D as (Hp & K & Hfile & Ho2 & HK)|destruct D as (He & Ho2)].
  2: { rewrite He. pose proof (Hmk [] Ho2) as Hv2.
    destruct (fopen_fail (fs_heap (v_fs v)) L [] v2 (S (S (length filename))) (ERROR_I private) r 0 f ps private)
      as (v' & E' & Ho' & Hfd' & Hds' & Hok' & Hdk'); try done; try lia.
    { unfold IS_ERROR in He. lia. }
    { by left. }
    { by rewrite app_nil_r. }
    exists 0, v'. split; [exact E'|]. split; [|left; split; [done|]; split; [by left|by rewrite Hfd']].
    constructor; [done|by rewrite Hfd'; apply (vo_fds _ Hv2)|by rewrite Hdk'; apply (vo_mounted _ Hv2)|].
    rewrite Hfd', Hds'. intros i p Hi Hp. destruct (vo_open _ Hv i p Hi Hp) as [Hl Hdesc].
    split; [|exact Hdesc]. apply (ow_live _ _ _ Ho'). by right. }
  - rewrite IS_ERROR_small by lia. pose proof (Hmk K Ho2) as Hv2.
    assert (Hav2 : 0 < al_avail (fs_heap (v_fs v2))).
    { simpl. rewrite (ow_avail _ _ _ Ho2), total_blocks_app. simpl. lia. }
    pose proof (new_descriptor_spec (fs_heap (v_fs v)) _ v2 Hv2 Ho2 Hav2) as Hnew.
    change (first_free v2) with (first_free v) in Hnew.
    destruct (Z.ltb_spec (first_free v) KERNEL_MAX_FILE_DESCRIPTORS) as [Hfree|Hfull].
    + destruct Hnew as (p & h3 & E3 & Hpp & Ho3 & Hfr3 & Hl3). rewrite (bind_Done _ _ _ _ _ E3).
      cbv beta iota. change (0 <? 0) with false. cbv iota.
      pose proof (first_free_spec v Hv) as (Hff & _ & Hff0). specialize (Hff0 Hfree).
      unfold the_descriptor. rewrite bind_assoc, bind_gets. cbn [v_descs put_descriptor].
      rewrite (bind_expect _ _ _ _ (lookup_insert_eq _ _ _)). rewrite bind_gets.
      cbn [v_fs put_descriptor set_descriptors upd_heap set_v_fs]. rewrite fs_disk_set. simpl fs_disk.
      rewrite Hd2, Hd1, (vo_mounted _ Hv), bind_modify. cbn [index]. unfold fopen_out.
      rewrite (proj2 (Z.ltb_ge (first_free v + 1) 0)) by lia.
      do 2 eexists. split; [reflexivity|].
      assert (Hheap : fs_heap (fs_set_heap h3 f2) = h3) by apply fs_heap_set.
      assert (Hne' : forall i q, zget (file_descriptors v) i = Some q -> q <> 0 -> q <> p).
      { intros i q Hi Hq ->. destruct (vo_open _ Hv2 i p Hi Hq) as [Hl _]. by apply (Hfr3 1). }
      split.
      * constructor; simpl.
        -- apply fs_ok_set; [done|]. apply (ow_ok _ _ _ Ho3).
        -- rewrite zlen_zset. apply (vo_fds _ Hv).
        -- rewrite fs_disk_set, Hd2, Hd1. apply (vo_mounted _ Hv).
        -- intros i q Hi Hq. rewrite Hheap. rewrite zget_zset in Hi.
           destruct ((first_free v =? i) && (0 <=? first_free v) && (first_free v <? zlen (file_descriptors v))) eqn:Eb.
           ++ injection Hi as <-. assert (i = first_free v) as -> by lia.
              split; [apply (ow_live _ _ _ Ho3); left; by left|]. rewrite lookup_insert_eq. by eexists.
           ++ destruct (vo_open _ Hv2 i q Hi Hq) as [Hl Hdesc]. split; [by apply Hl3|].
              rewrite insert_insert_eq, lookup_insert_ne by (by apply not_eq_sym, (Hne' i)). exact Hdesc.
      * right. split; [done|]. split; [done|]. exists p, private, K, ((r, 1) :: L), x. split; [done|].
        split; [|split; [|split; [|split; [|exact HK]]]].
        -- split; [lia|]. simpl. replace (first_free v + 1 - 1) with (first_free v) by lia.
           rewrite zget_zset_eq by (rewrite (vo_fds _ Hv); lia). split; [done|]. split; [lia|].
           rewrite lookup_insert_eq. split; [done|]. apply fs_file_set; [done|]. apply (ow_ok _ _ _ Ho3).
        -- done.
        -- simpl. rewrite Hheap. exact Ho3.
        -- simpl. lia.
    + rewrite (bind_Done _ _ _ _ _ Hnew). cbv beta iota. change (- ENOMEM <? 0) with true. cbv iota.
      destruct (fopen_fail (fs_heap (v_fs v)) L K v2 (S (S (length filename))) (- ENOMEM) r 0 f ps private)
        as (v' & E' & Ho' & Hfd' & Hds' & Hok' & Hdk'); try done; try lia.
      { right. right. split; [done|]. by exists x. }
      { rewrite app_comm_cons. by rewrite (Permutation_app_comm K) in Ho2. }
      exists 0, v'. split; [exact E'|].
      split; [|left; split; [done|]; split; [right; pose proof (first_free_spec v Hv); lia|by rewrite Hfd']].
      constructor; [done|by rewrite Hfd'; apply (vo_fds _ Hv2)|by rewrite Hdk'; apply (vo_mounted _ Hv2)|].
      rewrite Hfd', Hds'. intros i q Hi Hq. destruct (vo_open _ Hv i q Hi Hq) as [Hl Hdesc].
      split; [|exact Hdesc]. apply (ow_live _ _ _ Ho'). by right.
Qed.

Lemma vfs_ok_set v f' :
  vfs_ok v -> fs_ok f' -> fs_disk f' = fs_disk (v_fs v) ->
  (forall b n, al_live (fs_heap (v_fs v)) b n -> al_live (fs_heap f') b n) -> vfs_ok (set_v_fs f' v).
Proof.
  intros Hv Hf Hd Hl. constructor; simpl; [done|apply (vo_fds _ Hv)|rewrite Hd; apply (vo_mounted _ Hv)|].
  intros i p Hi Hp. destruct (vo_open _ Hv i p Hi Hp) as [Hlive Hdesc]. split; [by apply Hl|exact Hdesc].
Qed.

Lemma vfs_ok_heap v h :
  vfs_ok v -> al_ok h -> (forall b n, al_live (fs_heap (v_fs v)) b n -> al_live h b n) -> vfs_ok (upd_heap h v).
Proof.
  intros Hv Hok Hl. apply vfs_ok_set; [done| |apply fs_disk_set|by rewrite fs_heap_set].
  apply fs_ok_set; [apply (vo_fs _ Hv)|done].
Qed.

Lemma open_at_heap v h fd p r K x : open_at v fd p r K x -> al_ok h -> open_at (upd_heap h v) fd p r K x.
Proof. intros (H1 & H2 & H3 & H4 & H5) Hok. split_and!; try done. simpl. by apply fs_file_set. Qed.

Lemma upd_upd v h h' : upd_heap h (upd_heap h' v) = upd_heap h v.
Proof. unfold upd_heap, set_v_fs. cbn. by rewrite fs_set_set. Qed.

Lemma upd_same v : upd_heap (fs_heap (v_fs v)) v = v.
Proof. unfold upd_heap, set_v_fs. rewrite fs_heap_id. by destruct v. Qed.

Lemma heap_upd v h : fs_heap (v_fs (upd_heap h v)) = h.
Proof. apply fs_heap_set. Qed.

Lemma fstat_at v fd p r K x stat res :
  open_at v fd p r K x -> fd <= KERNEL_MAX_FILE_DESCRIPTORS -> stat <> 0 ->
  fs_stat r (v_fs v) = Done res (v_fs v) -> fstat fd stat v = Done res v.
Proof.
  intros (Hfd & Hg & Hp & Hd & _) Hmax Hs E. unfold fstat, file_get_descriptor.
  rewrite (proj2 (Z.eqb_neq stat 0)) by lia.
  rewrite (proj2 (Z.leb_gt fd 0)), (proj2 (Z.ltb_ge _ fd)) by lia. cbn [orb].
  rewrite bind_assoc, bind_gets, (bind_expect _ _ _ _ Hg), (proj2 (Z.eqb_neq p 0)) by lia.
  unfold the_descriptor. rewrite bind_assoc, bind_gets, (bind_expect _ _ _ _ Hd). cbn [desc_filesystem private].
  rewrite call_fat16. unfold on_fs. rewrite (zoom_Done _ _ _ _ _ _ E). by destruct v.
Qed.

Lemma fread_at v fd p r K x ptr size nmemb res f' :
  open_at v fd p r K x -> fd <= KERNEL_MAX_FILE_DESCRIPTORS -> size <> 0 -> nmemb <> 0 ->
  fs_read r size nmemb ptr (v_fs v) = Done res f' ->
  fread ptr size nmemb fd v = Done res (set_v_fs f' v).
Proof.
  intros (Hfd & Hg & Hp & Hd & _) Hmax Hs Hn E. unfold fread, file_get_descriptor.
  rewrite (proj2 (Z.eqb_neq size 0)), (proj2 (Z.eqb_neq nmemb 0)), (proj2 (Z.ltb_ge fd 1)) by lia.
  rewrite (proj2 (Z.leb_gt fd 0)), (proj2 (Z.ltb_ge _ fd)) by lia. cbn [orb].
  rewrite bind_assoc, bind_gets, (bind_expect _ _ _ _ Hg), (proj2 (Z.eqb_neq p 0)) by lia.
  unfold the_descriptor. rewrite bind_assoc, bind_gets, (bind_expect _ _ _ _ Hd). cbn [desc_filesystem private].
  rewrite call_fat16. unfold on_fs. by apply zoom_Done.
Qed.

Lemma fclose_total h0 L v fd p r K x :
  vfs_ok v -> open_at v fd p r K x -> fd <= KERNEL_MAX_FILE_DESCRIPTORS ->
  owned h0 (fs_heap (v_fs v)) ((p, 1) :: K ++ L) ->
  (forall i q, zget (file_descriptors v) i = Some q -> q <> 0 -> i <> fd - 1 ->
     (q, 1) ∈ L \/ al_live h0 q 1) ->
  exists v', fclose fd v = Done 0 v' /\ vfs_ok v' /\
    file_descriptors v' = zset (file_descriptors v) (fd - 1) 0 /\ owned h0 (fs_heap (v_fs v')) L.
Proof.
  intros Hv (Hfd & Hg & Hp & Hd & Hf) Hmax Ho Hsep. unfold fclose, file_get_descriptor.
  rewrite (proj2 (Z.leb_gt fd 0)), (proj2 (Z.ltb_ge _ fd)) by lia. cbn [orb].
  rewrite bind_assoc, bind_gets, (bind_expect _ _ _ _ Hg), (proj2 (Z.eqb_neq p 0)) by lia.
  unfold the_descriptor. rewrite bind_assoc, bind_gets, (bind_expect _ _ _ _ Hd). cbn [desc_filesystem private].
  rewrite call_fat16. rewrite Permutation_middle in Ho.
  destruct (fs_close_spec (v_fs v) h0 ((p, 1) :: L) r K x (vo_fs _ Hv) Hf Ho) as (f2 & E2 & Hok2 & Hd2 & Ho2).
  rewrite (bind_fs _ _ v _ _ E2). change (negb (0 =? 0)) with false. cbv iota.
  unfold file_free_descriptor. rewrite bind_assoc, bind_gets. cbn [file_descriptors set_v_fs].
  rewrite bind_assoc, (bind_expect _ _ _ _ Hg), bind_assoc, bind_modify.
  set (v2 := set_descriptors (zset (file_descriptors (set_v_fs f2 v)) (fd - 1) 0) (set_v_fs f2 v)).
  destruct (v_free_spec h0 L v2 p 1 Ho2) as (h3 & E3 & Ho3). rewrite (bind_Done _ _ _ _ _ E3).
  assert (Hheap : fs_heap (fs_set_heap h3 f2) = h3) by apply fs_heap_set.
  exists (upd_heap h3 v2). split; [done|]. split; [|split; [done|simpl; by rewrite Hheap]].
  constructor; simpl.
  - apply fs_ok_set; [done|]. apply (ow_ok _ _ _ Ho3).
  - rewrite zlen_zset. apply (vo_fds _ Hv).
  - rewrite fs_disk_set, Hd2. apply (vo_mounted _ Hv).
  - intros i q Hi Hq. rewrite Hheap. rewrite zget_zset in Hi.
    destruct ((fd - 1 =? i) && (0 <=? fd - 1) && (fd - 1 <? zlen (file_descriptors v))) eqn:Eb.
    + by injection Hi as <-.
    + destruct (vo_open _ Hv i q Hi Hq) as [_ Hdesc]. split; [|exact Hdesc]. apply (ow_live _ _ _ Ho3).
      apply (Hsep i q Hi Hq). intros ->. pose proof (zget_Some_range _ _ _ Hi). lia.
Qed.

(** A descriptor number that is out of range or not open. *)
Definition not_open v (fd : Z) : Prop :=
  fd <= 0 \/ KERNEL_MAX_FILE_DESCRIPTORS < fd \/ zget (file_descriptors v) (fd - 1) = Some 0.

Lemma get_descriptor_none v fd : not_open v fd -> file_get_descriptor fd v = Done 0 v.
Proof.
  intros Hno. unfold file_get_descriptor. destruct (Z.leb_spec fd 0); [done|].
  destruct (Z.ltb_spec KERNEL_MAX_FILE_DESCRIPTORS fd); [done|].
  destruct Hno as [?|[?|E]]; [lia|lia|]. simpl. by rewrite bind_gets, E.
Qed.
End proofs.

(** ** The FAT16 driver behind the interface *)

Section fat16_instance.
Context {H B : Type} {LY : Layout} {AH : Allocator H} {LH : @AllocatorLaws H AH}
  {BD : BlockDevice B} {LB : BlockDeviceLaws B}.
Context (fuel : nat).

Definition fat16_filesystem : Filesystem H (fat H B) := {|
  fs_heap := fun f => st_heap (f_st f);
  fs_set_heap := set_heap;
  fs_disk := f_disk;
  fs_set_disk := set_f_disk;
  fs_resolve_op := fat16_resolve fuel;
  fs_open := fat16_open fuel;
  fs_read := fat16_read fuel;
  fs_seek := fat16_seek;
  fs_stat := fat16_stat;
  fs_close := fat16_close
|}.

(** An open file of the mounted volume: its entry, the position, and the volume. *)
Record fat_open := mk_fat_open {
  fo_item : fat_directory_item; fo_pos : Z; fo_private : fat_private; fo_image : Z -> list Z
}.

(** Files of the root directory: named by exactly one entry, or missing. *)
Definition fat16_can_open (f : fat H B) (path : list (list Z)) (mode : Z) (o : option fat_open) : Prop :=
  mode = FILE_MODE_READ /\ exists priv l nbuf name,
    f_privates f !! fs_private (f_disk f) = Some priv /\ has_table f (root_directory priv) l /\
    path = [nbuf] /\ holds nbuf name /\ zlen name < KERNEL_MAX_PATH /\
    match o with
    | Some x => names_file (root_directory priv) l name (fo_item x) /\ fo_pos x = 0 /\
        fo_private x = priv /\ fo_image x = bd_image (st_dev (f_st f))
    | None => forall j it, 0 <= j < dir_total (root_directory priv) -> zget l j = Some it ->
        ~ same_name (entry_name it) name
    end.

Definition fat16_file (f : fat H B) (r : Z) (K : list (Z * Z)) (x : fat_open) : Prop :=
  0 < r /\ mounted f (fo_private x) /\ bd_image (st_dev (f_st f)) = fo_image x /\
  exists fi c, open_file f r (fo_item x) (fo_pos x) fi c /\ K = [(r, 1); (c, 1); (fi, 1)].

Definition fat16_spec : FilesystemSpec H (fat H B) := {|
  fs_id := fat_open;
  fs_ok := fun f => exists priv, mounted f priv;
  fs_file := fat16_file;
  fs_can_open := fat16_can_open;
  fs_need := 3
|}.

#[local] Existing Instance fat16_filesystem.
#[local] Existing Instance fat16_spec.

Lemma mounted_set_heap (f : fat H B) h priv : mounted f priv -> al_ok h -> mounted (set_heap h f) priv.
Proof. intros [M1 M2 M3 M4 M5 M6] Hok. by constructor. Qed.

Lemma fat16_filesystem_laws : FilesystemLaws H (fat H B).
Proof.
  constructor.
  - done.
  - done.
  - intros f. by destruct f as [[] ? ? ? ? ? ?].
  - done.
  - intros f [priv Hm]. apply (mt_ok _ _ Hm).
  - intros f h [priv Hm] Hok. exists priv. by apply mounted_set_heap.
  - intros f h r K x (Hr & Hm & Hi & Hop) Hok. split; [done|]. split; [by apply mounted_set_heap|]. by split.
  - intros f h path mode o (-> & priv & l & nbuf & name & Hp & (Ht & [k Hk] & Hr) & Hrest) Hl.
    split; [done|]. exists priv, l, nbuf, name. split; [done|]. split; [|done].
    split; [done|]. split; [exists k; by apply Hl|done].
  - intros f h0 L path mode o [priv Hm] (-> & priv' & l & nbuf & name & Hp & Ht & -> & Hn & Hlen & D) Hav Ho.
    assert (priv' = priv) as -> by (rewrite (mt_priv _ _ Hm) in Hp; by injection Hp).
    simpl in Hav, Ho |- *. destruct o as [x|].
    + destruct D as (Hit & Hpos & Hpriv & Him).
      destruct (open_found fuel h0 L f priv l nbuf name _ Hm Ht Hn Hlen Hit Ho Hav)
        as (fd & fi & c & s' & E & Hfd & _ & _ & Hop & Hm' & Ho' & Hdev & Hd').
      exists fd, s'. split; [done|]. split; [by exists priv|]. split; [done|]. split; [done|].
      exists [(fd, 1); (c, 1); (fi, 1)]. split; [|by split].
      split; [lia|]. rewrite Hpriv, Hdev, Him, Hpos. split; [done|]. split; [done|]. by exists fi, c.
    + destruct (open_missing fuel h0 L f priv l nbuf name Hm Ht Hn Hlen D Ho ltac:(lia)) as (s' & E & Ho' & Hm' & Hd').
      exists (ERROR (- EIO)), s'. split; [done|]. split; [by exists priv|]. split; [done|]. by split.
  - intros f h0 L r K x [priv Hm] (Hr & _ & _ & fi & c & Hop & ->) Ho.
    destruct (close_spec h0 L f r _ _ fi c Hop Hr Ho) as (h' & E & Ho').
    exists (set_heap h' f). split; [done|]. split; [|done]. exists priv.
    apply mounted_set_heap; [done|]. apply (ow_ok _ _ _ Ho').
  - simpl. lia.
Qed.

(** The disk's [filesystem] field does not matter to the driver. *)
Lemma mounted_set_disk (f : fat H B) d priv :
  mounted f priv -> fs_private d = fs_private (f_disk f) -> sector_size d = sector_size (f_disk f) ->
  mounted (set_f_disk d f) priv.
Proof.
  intros [M1 M2 M3 M4 M5 M6] Hp Hs. constructor; try done; simpl; [by rewrite Hs|by rewrite Hp].
Qed.

(** What [disk_search_and_init] makes of the driver's answer [res]. *)
Definition booted (res : Z) (f : fat H B) (v : vfs (fat H B)) : vfs (fat H B) :=
  mk_vfs (set_f_disk (mk_disk (disk_type (f_disk f)) (disk_id (f_disk f)) (sector_size (f_disk f))
            (if res =? 0 then addr_fat16_fs else 0) (fs_private (f_disk f))) f)
    (v_roots v) (v_parts v) (v_strs v) (addr_fat16_fs :: replicate 11 0) (file_descriptors v) (v_descs v).

Definition fresh_disk : disk := mk_disk KERNEL_DISK_TYPE_REAL 0 KERNEL_SECTOR_SIZE 0 0.

Lemma boot_run (v : vfs (fat H B)) res f' :
  fat16_resolve fuel (set_f_disk fresh_disk (v_fs v)) = Done res f' ->
  (fs_init;; disk_search_and_init) v = Done tt (booted res f' v).
Proof.
  intros E. unfold fs_init. rewrite bind_assoc, bind_modify. unfold fs_static_load, fs_insert_filesystem.
  rewrite bind_assoc, bind_gets. change (fs_get_free_filesystem _) with (Some 0).
  cbv beta iota. rewrite bind_modify. unfold disk_search_and_init. rewrite bind_modify.
  unfold fs_resolve. rewrite bind_assoc, bind_gets.
  match goal with |- context [fs_resolve_loop ?l] => change l with (addr_fat16_fs :: replicate 11 0) end.
  cbn [fs_resolve_loop]. pose proof addr_fat16_fs_range as Hr.
  rewrite (proj2 (Z.eqb_neq addr_fat16_fs 0)) by lia. change (negb false) with true. cbv iota.
  rewrite call_fat16, bind_assoc.
  rewrite (bind_fs fs_resolve_op _ _ res f') by exact E. unfold booted.
  destruct (res =? 0); [by rewrite bind_ret|reflexivity].
Qed.

Lemma booted_ok f priv v :
  mounted f priv -> file_descriptors v = replicate 512 0 -> vfs_ok (booted 0 f v).
Proof.
  intros Hm Hfds. constructor.
  - exists priv. by apply mounted_set_disk.
  - cbn [booted file_descriptors]. by rewrite Hfds.
  - done.
  - cbn [booted file_descriptors]. rewrite Hfds. intros i p Hi Hp. exfalso. apply Hp. unfold zget in Hi.
    destruct (0 <=? i); [|discriminate Hi]. apply lookup_replicate in Hi. apply Hi.
Qed.
End fat16_instance.

(** The sample volume, booted: the state the witnesses start from. *)
#[local] Existing Instances sample_ly sample_bd sample_bdl.
#[local] Instance sample_fs : Filesystem heap (fat heap ram_disk) := fat16_filesystem 16.
#[local] Instance sample_spec : FilesystemSpec heap (fat heap ram_disk) := fat16_spec.
#[local] Instance sample_laws : FilesystemLaws heap (fat heap ram_disk) := fat16_filesystem_laws 16.

Definition sample_vfs (f : fat heap ram_disk) : vfs (fat heap ram_disk) :=
  mk_vfs f ∅ ∅ ∅ [] (replicate 512 0) ∅.

Definition hello_name : list Z := [104; 101; 108; 108; 111; 46; 116; 120; 116].
Definition hello_path : list Z := [48; 58; 47] ++ hello_name.

Lemma hello_vfs :
  exists v x l, vfs_ok v /\ first_free v = 0 /\ 95 <= al_avail (st_heap (f_st (v_fs v))) /\
    mounted (v_fs v) (fo_private x) /\ geometry_ok (fo_private x) /\ cluster_size (fo_private x) = 512 /\
    has_table (v_fs v) (root_directory (fo_private x)) l /\
    names_file (root_directory (fo_private x)) l hello_name (fo_item x) /\
    fat16_get_first_cluster (fo_item x) = 2 /\ cluster_pos (fo_private x) 2 = 1536 /\
    bd_image (st_dev (f_st (v_fs v))) = bd_image hello_volume /\
    forall bufs, Forall2 holds bufs [hello_name] -> fat16_can_open (v_fs v) bufs FILE_MODE_READ (Some x).
Proof.
  destruct hello_mount as (f & priv & E & Hrl).
  destruct (hello_facts f priv Hrl) as (it & Hm & Hg & Hcs & Hcp & Ht & Hnf & Hc & Hav & Him & _).
  exists (booted 0 f (sample_vfs f)), (mk_fat_open it 0 priv (bd_image (st_dev (f_st f)))), (raw_entries hello_volume 1024 16).
  cbn [fo_private fo_item booted v_fs set_f_disk f_st].
  split; [apply (booted_ok 16 f priv); [exact Hm|reflexivity]|]. split; [vm_compute; reflexivity|]. split; [lia|].
  split; [by apply mounted_set_disk|]. split; [exact Hg|]. split; [exact Hcs|]. split; [exact Ht|].
  split; [exact Hnf|]. split; [exact Hc|]. split; [exact Hcp|]. split; [exact Him|].
  intros bufs Hb. apply Forall2_cons_inv_r in Hb as (nbuf & [|? ?] & Hn & Hnil & ->); [|by inversion Hnil].
  split; [reflexivity|]. exists priv, (raw_entries hello_volume 1024 16), nbuf, hello_name.
  split; [apply (mt_priv _ _ Hm)|]. split; [exact Ht|]. split; [reflexivity|]. split; [exact Hn|].
  split; [reflexivity|]. split; [exact Hnf|]. split; [reflexivity|]. split; reflexivity.
Qed.

(** ** Properties *)

(** C3: [fopen], when the heap has room for an open.  For a well-formed path on drive 0 and
    mode ["r"], on any file system that keeps the contract, with at least the free blocks that
    an open takes (two for each part of the path, four, and [fs_need] of the file system): it
    succeeds exactly when the path names a file and the descriptor table has a free slot; the
    result is then the lowest free descriptor, which names the open file, and nothing else of
    the table changes.  Otherwise the result is 0, the table is as before and every block
    taken on the way is given back.  The invariant of the file layer is preserved.  (With
    less memory nothing is claimed: [file_new_descriptor] does not check its allocation.) *)
Theorem fopen_spec {H F : Type} {LY : Layout} {AH : Allocator H} {LH : @AllocatorLaws H AH}
    {FS : Filesystem H F} {SP : FilesystemSpec H F} {LF : @FilesystemLaws H F AH FS SP}
    (v : vfs F) (filename str mode_str m : list Z) (ps : list (list Z)) (o : option fs_id) :
  vfs_ok v -> holds filename str -> holds mode_str (114 :: m) -> spec_parse str = Some (0, ps) ->
  (forall bufs, Forall2 holds bufs ps -> fs_can_open (v_fs v) bufs FILE_MODE_READ o) ->
  2 * zlen ps + 4 + fs_need <= al_avail (fs_heap (v_fs v)) ->
  exists fd v', fopen filename mode_str v = Done fd v' /\ vfs_ok v' /\
    match o, first_free v <? KERNEL_MAX_FILE_DESCRIPTORS with
    | Some x, true => fd = first_free v + 1 /\ exists p r K, open_at v' fd p r K x /\
        file_descriptors v' = zset (file_descriptors v) (first_free v) p
    | _, _ => fd = 0 /\ file_descriptors v' = file_descriptors v /\
        own_same (fs_heap (v_fs v)) (fs_heap (v_fs v'))
    end.
Proof.
  intros Hv Hfn Hms Hsp Hcan Hav.
  destruct (fopen_total v filename str mode_str m ps o Hv Hfn Hms Hsp Hcan Hav) as (fd & v' & E & Hv' & D).
  exists fd, v'. split; [done|]. split; [done|].
  destruct D as [(-> & Ho & Ht & Hh)|(Hlt & -> & p & r & K & Lp & x & -> & Hop & Ht & _)].
  - apply owned_nil in Hh as [Hh _]. destruct o as [x|]; [|exact (conj eq_refl (conj Ht Hh))].
    destruct Ho as [Ho|Ho]; [discriminate Ho|].
    by rewrite Ho, Z.ltb_irrefl.
  - rewrite (proj2 (Z.ltb_lt _ _) Hlt). split; [done|]. by exists p, r, K.
Qed.

Lemma fopen_spec_witness :
  exists v v', fopen (hello_path ++ [0]) [114; 0] v = Done 1 v' /\ vfs_ok v'.
Proof.
  destruct hello_vfs as (v & x & l & Hv & Hff & Hav & _ & _ & _ & _ & _ & _ & _ & _ & Hcan).
  destruct (fopen_spec (SP := sample_spec) v (hello_path ++ [0]) hello_path [114; 0] [] [hello_name] (Some x) Hv)
    as (fd & v' & E & Hv' & D).
  - apply (holds_nul hello_path). unfold is_char. repeat constructor; lia.
  - apply (holds_nul [114]). unfold is_char. repeat constructor; lia.
  - vm_compute. reflexivity.
  - exact Hcan.
  - change (fs_heap (v_fs v)) with (st_heap (f_st (v_fs v))).
    change (zlen [hello_name]) with 1. change fs_need with 3. lia.
  - rewrite Hff in D. change (0 <? KERNEL_MAX_FILE_DESCRIPTORS) with true in D. cbv iota in D.
    destruct D as [-> _]. exists v, v'. split; [exact E|exact Hv'].
Defined.

(** closing undoes opening, except for the path: [fclose] of the descriptor that
    [fopen] returned succeeds and restores the descriptor table, and every block is given
    back but the [2 * n + 1] blocks of the parsed path with [n] parts, which [fopen] frees
    only when it fails. *)
Theorem fopen_fclose {H F : Type} {LY : Layout} {AH : Allocator H} {LH : @AllocatorLaws H AH}
    {FS : Filesystem H F} {SP : FilesystemSpec H F} {LF : @FilesystemLaws H F AH FS SP}
    (v : vfs F) (filename str mode_str m : list Z) (ps : list (list Z)) (x : fs_id) :
  vfs_ok v -> holds filename str -> holds mode_str (114 :: m) -> spec_parse str = Some (0, ps) ->
  (forall bufs, Forall2 holds bufs ps -> fs_can_open (v_fs v) bufs FILE_MODE_READ (Some x)) ->
  2 * zlen ps + 4 + fs_need <= al_avail (fs_heap (v_fs v)) ->
  first_free v < KERNEL_MAX_FILE_DESCRIPTORS ->
  exists fd v1 v2, fopen filename mode_str v = Done fd v1 /\ 0 < fd /\ fclose fd v1 = Done 0 v2 /\
    vfs_ok v2 /\ file_descriptors v2 = file_descriptors v /\
    al_avail (fs_heap (v_fs v2)) = al_avail (fs_heap (v_fs v)) - (2 * zlen ps + 1).
Proof.
  intros Hv Hfn Hms Hsp Hcan Hav Hlt.
  destruct (fopen_total v filename str mode_str m ps (Some x) Hv Hfn Hms Hsp Hcan Hav) as (fd & v1 & E & Hv1 & D).
  destruct D as [(_ & [Hx|?] & _)|(_ & -> & p & r & K & Lp & y & _ & Hop & Ht & Ho & Hb & _)]; [discriminate Hx|lia|].
  pose proof (first_free_spec v Hv) as (Hff & _ & Hg). specialize (Hg Hlt).
  destruct (fclose_total _ Lp v1 (first_free v + 1) p r K y Hv1 Hop ltac:(lia) Ho) as (v2 & E2 & Hv2 & Ht2 & Ho2).
  { intros i q Hi Hq Hne. right. rewrite Ht, zget_zset_ne in Hi by lia. by apply (vo_open _ Hv i q Hi Hq). }
  exists (first_free v + 1), v1, v2. split; [done|]. split; [lia|]. split; [done|]. split; [done|].
  split; [|rewrite (ow_avail _ _ _ Ho2); lia].
  rewrite Ht2, Ht. replace (first_free v + 1 - 1) with (first_free v) by lia. by apply zset_zset_id.
Qed.

Lemma fopen_fclose_witness :
  exists v fd v1 v2, fopen (hello_path ++ [0]) [114; 0] v = Done fd v1 /\ fclose fd v1 = Done 0 v2 /\
    al_avail (st_heap (f_st (v_fs v2))) = al_avail (st_heap (f_st (v_fs v))) - 3.
Proof.
  destruct hello_vfs as (v & x & l & Hv & Hff & Hav & _ & _ & _ & _ & _ & _ & _ & _ & Hcan).
  destruct (fopen_fclose (SP := sample_spec) v (hello_path ++ [0]) hello_path [114; 0] [] [hello_name] x Hv)
    as (fd & v1 & v2 & E1 & _ & E2 & _ & _ & E3).
  - apply (holds_nul hello_path). unfold is_char. repeat constructor; lia.
  - apply (holds_nul [114]). unfold is_char. repeat constructor; lia.
  - vm_compute. reflexivity.
  - exact Hcan.
  - change (fs_heap (v_fs v)) with (st_heap (f_st (v_fs v))).
    change (zlen [hello_name]) with 1. change fs_need with 3. lia.
  - rewrite Hff. reflexivity.
  - exists v, fd, v1, v2. split; [exact E1|]. split; [exact E2|exact E3].
Defined.

(** a descriptor number that is out of range or not open is refused by every
    operation on descriptors, which then changes nothing. *)
Theorem bad_descriptor_refused {H F : Type} {LY : Layout} {AH : Allocator H} {FS : Filesystem H F}
    (v : vfs F) (fd ptr size nmemb offset whence stat : Z) :
  not_open v fd ->
  fread ptr size nmemb fd v = Done (- EINVAGS, []) v /\ fseek fd offset whence v = Done (- EINVAGS) v /\
  fstat fd stat v = Done (- EINVAGS, None) v /\ fclose fd v = Done (- EINVAGS) v.
Proof.
  intros Hno. pose proof (get_descriptor_none v fd Hno) as E. unfold fread, fseek, fstat, fclose.
  split_and!.
  - destruct (_ || _); [done|]. by rewrite (bind_Done _ _ _ _ _ E).
  - by rewrite (bind_Done _ _ _ _ _ E).
  - destruct (_ =? _); [done|]. by rewrite (bind_Done _ _ _ _ _ E).
  - by rewrite (bind_Done _ _ _ _ _ E).
Qed.

Lemma bad_descriptor_refused_witness :
  exists v : vfs (fat heap ram_disk), fread 8192 1 1 3 v = Done (- EINVAGS, []) v /\ fclose 3 v = Done (- EINVAGS) v.
Proof.
  destruct hello_vfs as (v & x & _).
  exists (sample_vfs (v_fs v)).
  destruct (bad_descriptor_refused (sample_vfs (v_fs v)) 3 8192 1 1 0 0 0) as (E1 & _ & _ & E2).
  - right. right. reflexivity.
  - split; [exact E1|exact E2].
Defined.

(** C2: reading a file through the file layer.  On a mounted FAT16 volume with a free
    descriptor slot and ten free blocks of the heap, opening "0:/name" for a name that exactly one entry of the root directory
    carries, reading [nmemb] items of [size] bytes that lie in its first cluster and closing
    succeed in turn, and [fread] delivers exactly the first bytes of that cluster on disk. *)
Theorem vfs_reads_file {H B : Type} {LY : Layout} {AH : Allocator H} {LH : @AllocatorLaws H AH}
    {BD : BlockDevice B} {LB : BlockDeviceLaws B} (fuel : nat) (v : vfs (fat H B)) (priv : fat_private)
    (l : list fat_directory_item) (filename str mode_str m name : list Z) (it : fat_directory_item)
    (size nmemb out : Z) :
  vfs_ok (FS := fat16_filesystem fuel) (SP := fat16_spec) v ->
  mounted (v_fs v) priv -> geometry_ok priv -> has_table (v_fs v) (root_directory priv) l ->
  zlen name < KERNEL_MAX_PATH -> names_file (root_directory priv) l name it ->
  2 <= fat16_get_first_cluster it < 65536 ->
  holds filename str -> holds mode_str (114 :: m) -> spec_parse str = Some (0, [name]) ->
  10 <= al_avail (st_heap (f_st (v_fs v))) -> first_free v < KERNEL_MAX_FILE_DESCRIPTORS ->
  0 < size -> 0 < nmemb -> nmemb * size <= cluster_size priv ->
  0 < out -> out + nmemb * size < 4294967296 -> (2 <= fuel)%nat ->
  exists fd v1 v2 v3, fopen (FS := fat16_filesystem fuel) filename mode_str v = Done fd v1 /\ 0 < fd /\
    fread (FS := fat16_filesystem fuel) out size nmemb fd v1 = Done (nmemb, disk_slice (st_dev (f_st (v_fs v)))
      (cluster_pos priv (fat16_get_first_cluster it)) (nmemb * size)) v2 /\
    fclose (FS := fat16_filesystem fuel) fd v2 = Done 0 v3 /\ file_descriptors v3 = file_descriptors v.
Proof.
  intros Hv Hm Hg Htab Hlen Hnf Hcl Hfn Hms Hsp Hav Hlt Hsz Hnm Hfit Hout Hob Hfuel.
  pose (x := mk_fat_open it 0 priv (bd_image (st_dev (f_st (v_fs v))))).
  pose proof (fat16_filesystem_laws fuel) as LF.
  destruct (fopen_total (FS := fat16_filesystem fuel) (SP := fat16_spec) (LF := LF)
    v filename str mode_str m [name] (Some x) Hv Hfn Hms Hsp)
    as (fd & v1 & E1 & Hv1 & D).
  { intros bufs Hb. apply Forall2_cons_inv_r in Hb as (nbuf & [|? ?] & Hn & Hnil & ->); [|by inversion Hnil].
    split; [done|]. exists priv, l, nbuf, name. split; [apply (mt_priv _ _ Hm)|]. by split_and!. }
  { simpl fs_need. change (zlen [name]) with 1. simpl fs_heap. lia. }
  destruct D as [(_ & [Hx|?] & _)|(_ & -> & p & r & K & Lp & y & [= <-] & Hop & Ht & Ho & Hb & _)]; [discriminate Hx|lia|].
  pose proof (first_free_spec v Hv) as (Hff & _ & Hfree). specialize (Hfree Hlt).
  pose proof Hop as (Hfd & Hgd & Hp & Hdesc & (Hr & Hm1 & Him & fi & c & Hof & HK)).
  cbn [fo_item fo_pos fo_private fo_image x] in Hm1, Him, Hof.
  assert (Hav1 : 0 < al_avail (st_heap (f_st (v_fs v1)))).
  { pose proof (ow_avail _ _ _ Ho) as Ea. simpl fs_heap in Ea. rewrite Ea. cbn [total_blocks_of].
    rewrite total_blocks_app, Hb, HK. change (zlen [name]) with 1. cbn [total_blocks_of]. lia. }
  destruct (read_spec fuel (v_fs v1) priv r it 0 fi c size nmemb out Hm1 Hg Hav1 Hof Hcl)
    as (s2 & E2 & Hof2 & Hm2 & Ho2 & Him2 & Hd2); try done; try lia.
  set (v2 := set_v_fs s2 v1).
  assert (Hfr : fread (FS := fat16_filesystem fuel) out size nmemb (first_free v + 1) v1 =
    Done (nmemb, disk_slice (st_dev (f_st (v_fs v))) (cluster_pos priv (fat16_get_first_cluster it)) (nmemb * size)) v2).
  { rewrite Z.add_0_r, (disk_slice_ext (st_dev (f_st (v_fs v)))) in E2 by exact Him.
    eapply fread_at; [exact Hop|lia..|exact E2]. }
  assert (Hv2 : vfs_ok (FS := fat16_filesystem fuel) (SP := fat16_spec) v2).
  { apply vfs_ok_set; [exact Hv1|by exists priv|exact Hd2|].
    intros b n Hl. apply (ow_live _ _ _ (Ho2 _ _ (owned_refl _ (mt_ok _ _ Hm1)))). by right. }
  assert (Hop2 : open_at (SP := fat16_spec) v2 (first_free v + 1) p r K
    (mk_fat_open it (0 + nmemb * size) priv (bd_image (st_dev (f_st (v_fs v)))))).
  { split; [done|]. split; [done|]. split; [done|]. split; [done|]. split; [done|].
    split; [exact Hm2|]. split; [by rewrite <- Him|]. by exists fi, c. }
  destruct (fclose_total (LF := LF) _ Lp v2 (first_free v + 1) p r K _ Hv2 Hop2 ltac:(lia) (Ho2 _ _ Ho))
    as (v3 & E3 & _ & Ht3 & _).
  { intros i q Hi Hq Hne. right. change (file_descriptors v2) with (file_descriptors v1) in Hi.
    rewrite Ht, zget_zset_ne in Hi by lia. by apply (vo_open _ Hv i q Hi Hq). }
  exists (first_free v + 1), v1, v2, v3. split; [exact E1|]. split; [lia|]. split; [exact Hfr|].
  split; [exact E3|]. rewrite Ht3. change (file_descriptors v2) with (file_descriptors v1).
  rewrite Ht. replace (first_free v + 1 - 1) with (first_free v) by lia. by apply zset_zset_id.
Qed.

Lemma vfs_reads_file_witness :
  let FS := fat16_filesystem 16 in
  exists v fd v1 v2 v3, fopen (hello_path ++ [0]) [114; 0] v = Done fd v1 /\
    fread 8192 5 1 fd v1 = Done (1, [104; 101; 108; 108; 111]) v2 /\ fclose fd v2 = Done 0 v3.
Proof.
  intros FS.
  destruct hello_vfs as (v & x & l & Hv & Hff & Hav & Hm & Hg & Hcs & Ht & Hnf & Hc & Hcp & Him & _).
  destruct (vfs_reads_file 16 v (fo_private x) l (hello_path ++ [0]) hello_path [114; 0] [] hello_name (fo_item x)
    5 1 8192 Hv Hm Hg Ht) as (fd & v1 & v2 & v3 & E1 & _ & E2 & E3 & _).
  - reflexivity.
  - exact Hnf.
  - rewrite Hc. lia.
  - apply (holds_nul hello_path). unfold is_char. repeat constructor; lia.
  - apply (holds_nul [114]). unfold is_char. repeat constructor; lia.
  - vm_compute. reflexivity.
  - lia.
  - rewrite Hff. reflexivity.
  - lia.
  - lia.
  - rewrite Hcs. lia.
  - lia.
  - lia.
  - lia.
  - exists v, fd, v1, v2, v3. split; [exact E1|]. split; [|exact E3].
    etransitivity; [exact E2|]. rewrite Hc, Hcp. f_equal. f_equal. rewrite (disk_slice_ext hello_volume) by exact Him.
    vm_compute. reflexivity.
Defined.

(** Booting the file systems.  [fs_init] and [disk_search_and_init] register the FAT16
    driver and ask it for the disk; on a readable boot sector they always come back.  If the
    signature is wrong, or the heap may have no run of free blocks for the root directory,
    the disk is left without a file system; otherwise the file layer's invariant holds, the
    volume is mounted, and its root directory is the one on disk. *)
Theorem boot_spec {H B : Type} {LY : Layout} {AH : Allocator H} {LH : @AllocatorLaws H AH}
    {BD : BlockDevice B} {LB : BlockDeviceLaws B} (fuel : nat) (v : vfs (fat H B)) (k : Z) :
  let b := st_dev (f_st (v_fs v)) in
  al_ok (st_heap (f_st (v_fs v))) -> volume_ok fuel b k -> file_descriptors v = replicate 512 0 ->
  6 + blocks_of (root_size (the_header b)) <= al_avail (st_heap (f_st (v_fs v))) ->
  0 <= k <= root_dir_entries (primary_header (the_header b)) ->
  exists v', (fs_init;; disk_search_and_init (FS := fat16_filesystem fuel)) v = Done tt v' /\
    filesystems v' = addr_fat16_fs :: replicate 11 0 /\
    ((filesystem_ptr (f_disk (v_fs v')) = 0 /\
      (signature (extended_header (the_header b)) <> KERNEL_FAT16_SIGNATURE \/
       ~ roomy (al_avail (st_heap (f_st (v_fs v))) - 6) (blocks_of (root_size (the_header b))))) \/
     (signature (extended_header (the_header b)) = KERNEL_FAT16_SIGNATURE /\
      vfs_ok (FS := fat16_filesystem fuel) (SP := fat16_spec) v' /\
      exists priv, mounted (v_fs v') priv /\ has_table (v_fs v') (root_directory priv)
        (raw_entries b (root_sector (the_header b) * KERNEL_SECTOR_SIZE)
          (root_dir_entries (primary_header (the_header b)))))).
Proof.
  intros b Hok Hvol Hfds Hav Hk.
  destruct (resolve_spec fuel (set_f_disk fresh_disk (v_fs v)) k Hok eq_refl eq_refl Hvol Hav) as (res & f' & E & D).
  exists (booted res f' v). split; [by apply boot_run|]. split; [done|].
  change (st_dev (f_st (set_f_disk fresh_disk (v_fs v)))) with b in D. change KERNEL_FAT16_SIGNATURE with 41.
  destruct (Z.eqb_spec (signature (extended_header (the_header b))) 41) as [Hs|Hs]; cbn [negb] in D.
  - destruct D as [(-> & Hb & _)|(-> & priv & Hrl)]; [left; split; [done|by right]|right].
    split; [done|]. pose proof (rl_mounted _ _ _ _ Hrl) as Hm.
    split; [by apply (booted_ok fuel f' priv)|]. exists priv. split; [by apply mounted_set_disk|].
    apply (root_loaded_table _ _ _ _ Hrl Hk).
  - destruct D as (-> & _). left. split; [done|by left].
Qed.

Lemma boot_spec_witness :
  let FS := fat16_filesystem 16 in
  exists v', (fs_init;; disk_search_and_init) (sample_vfs (sample_start (sample_entry hello_txt 2 5))) = Done tt v' /\
    filesystems v' = addr_fat16_fs :: replicate 11 0.
Proof.
  intros FS. pose proof (boot_spec 16 (sample_vfs (sample_start (sample_entry hello_txt 2 5))) 1) as Hspec.
  cbv zeta in Hspec. cbn [v_fs sample_vfs] in Hspec.
  assert (Hdev : st_dev (f_st (sample_start (sample_entry hello_txt 2 5))) = hello_volume) by reflexivity.
  rewrite Hdev in Hspec.
  assert (Er : root_sector (the_header hello_volume) = 2) by (vm_compute; reflexivity).
  assert (Es : root_size (the_header hello_volume) = 512) by (vm_compute; reflexivity).
  rewrite Es in Hspec. destruct Hspec as (v' & E & Hfs & _).
  - exact boot_heap_ok.
  - constructor; rewrite ?Er, ?Es; try (unfold KERNEL_SECTOR_SIZE; lia); [].
    split; [lia|]. split; [vm_compute; reflexivity|]. intros i Hi. assert (i = 0) as -> by lia.
    vm_compute. discriminate.
  - reflexivity.
  - cbn [f_st sample_start st_heap]. rewrite boot_heap_avail. vm_compute. discriminate.
  - vm_compute. split; discriminate.
  - exists v'. split; [exact E|exact Hfs].
Defined.
