(* ===== verification/Contents.v ===== *)
(** * Whole files: what a loader relies on

    [FilesystemReads] adds to the contract of File.v what [fstat] and a read of a whole
    freshly opened file deliver; [fat16_filesystem_reads] shows what the FAT16 driver makes
    of it: files of at most one cluster are delivered, larger ones always fail. *)
From S2P Require Import Prelude Heap Kheap CString Pparser Disk Fat16 File.

(** [fs_contents x]: the bytes a read of the whole file delivers, if it succeeds at all;
    [fs_loadable x]: a freshly opened file the contract speaks about. *)
Class FilesystemFiles (H F : Type) {SP : FilesystemSpec H F} := {
  fs_size : fs_id -> Z;
  fs_contents : fs_id -> option (list Z);
  fs_loadable : fs_id -> Prop
}.

Class FilesystemReads (H F : Type) {AH : Allocator H} {FS : Filesystem H F} {SP : FilesystemSpec H F}
    {FF : FilesystemFiles H F} := {
  fs_size_range : forall x, fs_loadable x -> 0 < fs_size x < 2147483648;
  fs_contents_len : forall x c, fs_loadable x -> fs_contents x = Some c ->
    zlen c = fs_size x /\ Forall (fun b => 0 <= b < 256) c;
  fs_stat_spec : forall f r K x, fs_file f r K x ->
    exists st, fs_stat r f = Done (0, Some st) f /\ stat_filesize st = fs_size x;
  fs_read_spec : forall f r K x ptr,
    fs_ok f -> fs_file f r K x -> fs_loadable x -> 0 < al_avail (fs_heap f) ->
    0 < ptr -> ptr + fs_size x < 4294967296 ->
    exists res data f' x', fs_read r (fs_size x) 1 ptr f = Done (res, data) f' /\ fs_ok f' /\
      fs_disk f' = fs_disk f /\ fs_file f' r K x' /\
      (forall h0 L, owned h0 (fs_heap f) L -> owned h0 (fs_heap f') L) /\
      match fs_contents x with
      | Some c => res = 1 /\ data = c
      | None => res < 0
      end
}.

(** ** FAT16 *)

Section fat16.
Context {H B : Type} {LY : Layout} {AH : Allocator H} {LH : @AllocatorLaws H AH}
  {BD : BlockDevice B} {LB : BlockDeviceLaws B}.
Context (fuel : nat).

(** The byte at position [i] of an image, and [n] bytes of it. *)
Definition image_byte (img : Z -> list Z) (i : Z) : Z :=
  default 0 (zget (img (i / KERNEL_SECTOR_SIZE)) (i mod KERNEL_SECTOR_SIZE)).
Definition image_slice (img : Z -> list Z) (p n : Z) : list Z := map (image_byte img) (seqZ p n).

Lemma image_slice_disk (b : B) p n : disk_slice b p n = image_slice (bd_image b) p n.
Proof. done. Qed.

Definition fat16_contents (x : fat_open) : option (list Z) :=
  if filesize (fo_item x) <=? cluster_size (fo_private x)
  then Some (image_slice (fo_image x) (cluster_pos (fo_private x) (fat16_get_first_cluster (fo_item x)))
               (filesize (fo_item x)))
  else None.

(** The file has clusters, and a chain that ends within the fuel if one cluster is not enough. *)
Definition fat16_loadable (x : fat_open) : Prop :=
  fo_pos x = 0 /\ geometry_ok (fo_private x) /\ 2 <= fat16_get_first_cluster (fo_item x) < 65536 /\
  0 < filesize (fo_item x) < 2147483648 /\ (exists b : B, bd_image b = fo_image x) /\
  (forall b : B, bd_image b = fo_image x -> cluster_size (fo_private x) < filesize (fo_item x) ->
     exists m, chain_ends (fo_private x) b (fat16_get_first_cluster (fo_item x)) m /\ (m + 2 < fuel)%nat) /\
  (2 <= fuel)%nat.

Definition fat16_files : @FilesystemFiles H (fat H B) fat16_spec :=
  @Build_FilesystemFiles H (fat H B) fat16_spec (fun x => filesize (fo_item x)) fat16_contents fat16_loadable.

Lemma fat16_filesystem_reads :
  @FilesystemReads H (fat H B) AH (fat16_filesystem fuel) fat16_spec fat16_files.
Proof.
  constructor; cbn [fs_size fs_contents fs_loadable fat16_files fs_file fat16_spec fs_stat fat16_filesystem fs_read fs_heap fs_ok fs_disk].
  - intros x Hl. apply Hl.
  - intros x c (_ & _ & _ & Hs & [b Hb] & _) E. unfold fat16_contents in E.
    destruct (_ <=? _); [|discriminate E]. injection E as <-. rewrite <- Hb, <- image_slice_disk.
    split; [apply disk_slice_len; lia|]. apply Forall_forall. intros v (i & -> & _)%list_elem_of_fmap.
    apply disk_byte_range.
  - intros f r K x (Hr & Hm & Him & fi & c & (Hd & Hi & Ht) & HK). unfold fat16_stat.
    rewrite (bind_deref _ _ _ _ _ Hd). cbn [desc_item]. rewrite (bind_deref _ _ _ _ _ Hi).
    change (negb (item_type (mk_fat_item c FAT_ITEM_TYPE_FILE) =? FAT_ITEM_TYPE_FILE)) with false. cbv iota.
    cbn [item_ptr]. rewrite (bind_deref _ _ _ _ _ Ht), (bind_expect _ _ _ (fo_item x)) by done.
    eexists. split; reflexivity.
  - intros f r K x ptr [priv0 Hok] (Hr & Hm & Him & fi & c & Hop & HK) (Hp & Hg & Hc & Hs & _ & Hch & Hf) Hav Hptr Hbd.
    rewrite Hp in Hop. unfold fat16_contents.
    destruct (Z.leb_spec (filesize (fo_item x)) (cluster_size (fo_private x))) as [Hle|Hgt].
    + destruct (read_spec fuel f (fo_private x) r (fo_item x) 0 fi c (filesize (fo_item x)) 1 ptr Hm Hg Hav Hop Hc)
        as (f' & E & Hop' & Hm' & Ho & Him' & Hd); try lia.
      rewrite Z.mul_1_l, Z.add_0_r in E.
      exists 1, (image_slice (fo_image x) (cluster_pos (fo_private x) (fat16_get_first_cluster (fo_item x))) (filesize (fo_item x))), f'.
      exists (mk_fat_open (fo_item x) (0 + 1 * filesize (fo_item x)) (fo_private x) (fo_image x)).
      split; [by rewrite E, image_slice_disk, Him|]. split; [by exists (fo_private x)|]. split; [done|].
      split; [|by split]. split; [done|]. split; [done|]. split; [by rewrite Him'|]. by exists fi, c.
    + destruct (Hch (st_dev (f_st f)) Him ltac:(lia)) as (m & Hm2 & Hf2).
      pose proof (cluster_size_pos (fo_private x) Hg).
      destruct (read_fails_spec fuel f (fo_private x) r (fo_item x) 0 fi c (filesize (fo_item x)) 1 ptr m Hm Hg Hav Hop Hc)
        as (f' & E & Hop' & Hm' & Ho & Him' & Hd); try lia; try done.
      replace (beyond_error (fo_private x) 0 m) with (- EIO) in E by (unfold beyond_error; by rewrite (proj2 (Z.leb_le _ _)) by lia).
      exists (- EIO). eexists. exists f', (mk_fat_open (fo_item x) 0 (fo_private x) (fo_image x)).
      split; [exact E|]. split; [by exists (fo_private x)|]. split; [done|].
      split; [|by split]. split; [done|]. split; [done|]. split; [by rewrite Him'|]. by exists fi, c.
Qed.
End fat16.
