(* ===== verification/Elf.v ===== *)
(** * ELF programs: fs/elf.c, fs/elfloader.c

    An ELF file is loaded whole into one kzalloc'ed region of physical memory; its headers
    are read there, so every field access is a load at an address computed from the
    file's own fields, as in the code. *)
From S2P Require Import Prelude Heap Kheap CString Pparser Disk Fat16 File Contents.

Definition PF_X : Z := 1.
Definition PF_W : Z := 2.
Definition PF_R : Z := 4.
Definition PT_LOAD : Z := 1.
Definition ET_EXEC : Z := 2.
Definition EI_CLASS : Z := 4.
Definition EI_DATA : Z := 5.
Definition ELFCLASSNONE : Z := 0.
Definition ELFCLASS32 : Z := 1.
Definition ELFDATANONE : Z := 0.
Definition ELFDATA2LSB : Z := 1.

(** ** Headers in memory

    [header], [phdr]: addresses; each field is the load the packed structure implies. *)
Section fields.
Context (m : mem).

Definition e_ident (header i : Z) : Z := ld8 m (header + i).
Definition e_type (header : Z) : Z := ld16 m (header + 16).
Definition e_entry (header : Z) : Z := ld32 m (header + 24).
Definition e_phoff (header : Z) : Z := ld32 m (header + 28).
Definition e_shoff (header : Z) : Z := ld32 m (header + 32).
Definition e_phnum (header : Z) : Z := ld16 m (header + 44).
Definition e_shstrndx (header : Z) : Z := ld16 m (header + 50).

Definition p_type (phdr : Z) : Z := ld32 m phdr.
Definition p_offset (phdr : Z) : Z := ld32 m (phdr + 4).
Definition p_vaddr (phdr : Z) : Z := ld32 m (phdr + 8).
Definition p_filesz (phdr : Z) : Z := ld32 m (phdr + 16).
Definition p_memsz (phdr : Z) : Z := ld32 m (phdr + 20).
Definition p_flags (phdr : Z) : Z := ld32 m (phdr + 24).
Definition sizeof_phdr : Z := 32.

Definition sh_offset (shdr : Z) : Z := ld32 m (shdr + 16).
Definition sizeof_shdr : Z := 40.

Definition elf_get_entry_ptr (header : Z) : Z := e_entry header.
Definition elf_get_entry (header : Z) : Z := e_entry header.

Definition elf_signature : list Z := [127; 69; 76; 70].

Definition elf_valid_signature (buffer : Z) : bool :=
  match memcmp (load_bytes m buffer 4) elf_signature 4 with Some r => r =? 0 | None => false end.

Definition elf_valid_class (header : Z) : bool :=
  (e_ident header EI_CLASS =? ELFCLASSNONE) || (e_ident header EI_CLASS =? ELFCLASS32).

Definition elf_valid_encoding (header : Z) : bool :=
  (e_ident header EI_DATA =? ELFDATANONE) || (e_ident header EI_DATA =? ELFDATA2LSB).

Definition elf_is_executable (header : Z) : bool :=
  (e_type header =? ET_EXEC) && (KERNEL_PROGRAM_VIRTUAL_ADDRESS <=? e_entry header).

Definition elf_has_program_header (header : Z) : bool := negb (e_phoff header =? 0).

Definition elf_sheader (header : Z) : Z := u32 (header + e_shoff header).

Definition elf_pheader (header : Z) : Z :=
  if e_phoff header =? 0 then 0 else u32 (header + e_phoff header).

Definition elf_program_header (header index : Z) : Z := u32 (elf_pheader header + sizeof_phdr * index).

Definition elf_section (header index : Z) : Z := u32 (elf_sheader header + sizeof_shdr * index).

Definition elf_str_table (header : Z) : Z := u32 (header + sh_offset (elf_section header (e_shstrndx header))).

Definition elf_validate_loaded (header : Z) : Z :=
  if elf_valid_signature header && elf_valid_class header && elf_valid_encoding header &&
     elf_has_program_header header && elf_is_executable header
  then KERNEL_ALL_OK else - EINFORMATS.
End fields.

(** ** The loaded file *)

Record elf_file := mk_elf_file {
  elf_filename : list Z;
  in_memory_size : Z;
  elf_memory : Z;
  virtual_base_address : Z;
  virtual_end_address : Z;
  physical_base_address : Z;
  physical_end_address : Z
}.

Definition sizeof_elf_file : Z := 132.

Definition zero_elf_file : elf_file := mk_elf_file (replicate (Z.to_nat KERNEL_MAX_PATH) 0) 0 0 0 0 0 0.

Definition elf_header (file : elf_file) : Z := elf_memory file.
Definition elf_virtual_base (file : elf_file) : Z := virtual_base_address file.
Definition elf_virtual_end (file : elf_file) : Z := virtual_end_address file.
Definition elf_phys_base (file : elf_file) : Z := physical_base_address file.
Definition elf_phys_end (file : elf_file) : Z := physical_end_address file.

Definition elf_phdr_phys_address (m : mem) (file : elf_file) (phdr : Z) : Z :=
  u32 (elf_memory file + p_offset m phdr).

Definition elf_process_phdr_pt_load (m : mem) (f : elf_file) (phdr : Z) : Z * elf_file :=
  let f :=
    if (p_vaddr m phdr <=? virtual_base_address f) || (virtual_base_address f =? 0)
    then mk_elf_file (elf_filename f) (in_memory_size f) (elf_memory f) (p_vaddr m phdr)
           (virtual_end_address f) (u32 (elf_memory f + p_offset m phdr)) (physical_end_address f)
    else f in
  let end_virtual_address := u32 (p_vaddr m phdr + p_filesz m phdr) in
  let f :=
    if (virtual_end_address f <=? end_virtual_address) || (virtual_end_address f =? 0)
    then mk_elf_file (elf_filename f) (in_memory_size f) (elf_memory f) (virtual_base_address f)
           end_virtual_address (physical_base_address f)
           (u32 (elf_memory f + p_offset m phdr + p_filesz m phdr))
    else f in
  (0, f).

Definition elf_process_pheader (m : mem) (f : elf_file) (phdr : Z) : Z * elf_file :=
  if p_type m phdr =? PT_LOAD then elf_process_phdr_pt_load m f phdr else (- EINVAGS, f).

(** [n] bounds the headers left; [res]: the result when the loop ends. *)
Fixpoint pheaders_loop (n : nat) (m : mem) (f : elf_file) (header i res : Z) : Z * elf_file :=
  match n with
  | O => (res, f)
  | S n' =>
      if i <? e_phnum m header then
        let '(res, f) := elf_process_pheader m f (elf_program_header m header i) in
        if res <? 0 then (res, f) else pheaders_loop n' m f header (i + 1) res
      else (res, f)
  end.

Definition elf_process_pheaders (m : mem) (f : elf_file) : Z * elf_file :=
  let header := elf_header f in
  pheaders_loop (Z.to_nat (e_phnum m header)) m f header 0 0.

Definition elf_process_load (m : mem) (f : elf_file) : Z * elf_file :=
  let res := elf_validate_loaded m (elf_header f) in
  if res <? 0 then (res, f) else elf_process_pheaders m f.

(** ** Loading *)

Record loader (F : Type) := mk_loader { l_vfs : vfs F; l_elfs : gmap Z elf_file }.
Arguments mk_loader {F}.
Arguments l_vfs {F}.
Arguments l_elfs {F}.

Section loader.
Context {F : Type} {LY : Layout} {FS : Filesystem machine F}.
Implicit Types (s : loader F).

Definition set_l_vfs (v : vfs F) s : loader F := mk_loader v (l_elfs s).
Definition put_elf (a : Z) (f : elf_file) s : loader F := mk_loader (l_vfs s) (<[a := f]> (l_elfs s)).
Definition on_vfs {A} (m : M (vfs F) A) : M (loader F) A := zoom l_vfs set_l_vfs m.

Definition v_mach (v : vfs F) : machine := fs_heap (v_fs v).
Definition l_mem s : mem := m_mem (v_mach (l_vfs s)).
Definition store_mem (a : Z) (bs : list Z) (v : vfs F) : vfs F :=
  upd_heap (set_mem (store_bytes (m_mem (v_mach v)) a bs) (v_mach v)) v.

Definition l_alloc (size : Z) : M (loader F) Z := on_vfs (v_alloc size).
Definition l_free (ptr : Z) : M (loader F) unit := on_vfs (v_free ptr).

(** [fread] to physical memory. *)
Definition l_fread (ptr size nmemb fd : Z) : M (loader F) Z :=
  r ← on_vfs (fread ptr size nmemb fd);
  let '(res, data) := r in
  on_vfs (modify (store_mem ptr data));; mret res.

Definition elf_file_new : M (loader F) Z :=
  f ← l_alloc sizeof_elf_file;
  (if f =? 0 then mret tt else modify (put_elf f zero_elf_file));; mret f.

Definition the_elf (f : Z) : M (loader F) elf_file := e ← gets (fun s => l_elfs s !! f); expect e.

Definition elf_file_free (f : Z) : M (loader F) unit :=
  (if negb (f =? 0) then e ← the_elf f; l_free (elf_memory e) else mret tt);;
  l_free f.

Definition close_out (res fd elf_file : Z) : M (loader F) (Z * Z) :=
  on_vfs (fclose fd);; elf_file_free elf_file;; mret (res, 0).

(** [elf_load] from [fstat] on: [fd] is open. *)
Definition elf_load_opened (elf_file fd : Z) (filename : list Z) : M (loader F) (Z * Z) :=
  r ← on_vfs (fstat fd local_buffer);
  let '(res, stat) := r in
  if res <? 0 then close_out res fd elf_file
  else
    file_stat ← expect stat;
    memory ← l_alloc (stat_filesize file_stat);
    if memory =? 0 then close_out (- ENOMEM) fd elf_file
    else
      res ← l_fread memory (stat_filesize file_stat) 1 fd;
      if res <? 0 then close_out res fd elf_file
      else
        e ← the_elf elf_file;
        let e := mk_elf_file (elf_filename e) (i32 (stat_filesize file_stat)) memory
          (virtual_base_address e) (virtual_end_address e) (physical_base_address e) (physical_end_address e) in
        m ← gets l_mem;
        let '(res, e) := elf_process_load m e in
        modify (put_elf elf_file e);;
        if res <? 0 then close_out res fd elf_file
        else
          name ← expect (memcpy (elf_filename e) filename KERNEL_MAX_PATH);
          modify (put_elf elf_file (mk_elf_file name (in_memory_size e) (elf_memory e)
            (virtual_base_address e) (virtual_end_address e) (physical_base_address e) (physical_end_address e)));;
          mret (res, elf_file).

(** The result and [*file_out] (0: not written). *)
Definition elf_load (filename : list Z) : M (loader F) (Z * Z) :=
  elf_file ← elf_file_new;
  if elf_file =? 0 then mret (- ENOMEM, 0)
  else
    fd ← on_vfs (fopen filename [114; 0]);
    if fd <=? 0 then elf_file_free elf_file;; mret (- EIO, 0)
    else elf_load_opened elf_file fd filename.

Definition elf_close (file : Z) : M (loader F) unit :=
  if file =? 0 then mret tt
  else e ← the_elf file; l_free (elf_memory e);; l_free file.
End loader.

(** ** The segments of a program *)

Section segments.
Context (m : mem) (header : Z).

Definition ph (j : Z) : Z := elf_program_header m header j.

(** Program header [j] is a loadable segment that does not wrap around. *)
Definition segment_ok (j : Z) : Prop :=
  p_type m (ph j) = PT_LOAD /\ 0 < p_vaddr m (ph j) /\ 0 <= p_filesz m (ph j) /\
  p_vaddr m (ph j) + p_filesz m (ph j) < 4294967296.

(** The addresses recorded in [f] after the first [k] segments: the lowest start and the
    highest end, with the physical addresses of the segments that reach them. *)
Definition spans (f : elf_file) (k : Z) : Prop :=
  (exists j, 0 <= j < k /\ virtual_base_address f = p_vaddr m (ph j) /\
     physical_base_address f = u32 (elf_memory f + p_offset m (ph j))) /\
  (forall j, 0 <= j < k -> virtual_base_address f <= p_vaddr m (ph j)) /\
  (exists j, 0 <= j < k /\ virtual_end_address f = p_vaddr m (ph j) + p_filesz m (ph j) /\
     physical_end_address f = u32 (elf_memory f + p_offset m (ph j) + p_filesz m (ph j))) /\
  (forall j, 0 <= j < k -> p_vaddr m (ph j) + p_filesz m (ph j) <= virtual_end_address f).

Definition same_elf (f f' : elf_file) : Prop :=
  elf_filename f' = elf_filename f /\ in_memory_size f' = in_memory_size f /\ elf_memory f' = elf_memory f.

Lemma split_last k (P : Z -> Prop) : 0 <= k -> (forall j, 0 <= j < k -> P j) -> P k -> forall j, 0 <= j < k + 1 -> P j.
Proof. intros Hk Hlt Hlast j Hj. destruct (Z.eq_dec j k) as [-> |]; [done|]. apply Hlt. lia. Qed.

Lemma pt_load_spec f k :
  0 <= k -> (forall j, 0 <= j <= k -> segment_ok j) ->
  (if k =? 0 then virtual_base_address f = 0 /\ virtual_end_address f = 0 else spans f k) ->
  exists f', elf_process_phdr_pt_load m f (ph k) = (0, f') /\ same_elf f f' /\ spans f' (k + 1).
Proof.
  intros Hk Hall Hf. destruct (Hall k ltac:(lia)) as (Ht & Hv & Hs & Hw).
  unfold elf_process_phdr_pt_load. rewrite (u32_small (_ + p_filesz _ _)) by lia.
  eexists. split; [reflexivity|].
  destruct (Z.eqb_spec k 0) as [-> |Hk0].
  - destruct Hf as [E1 E2]. rewrite E1, orb_true_r. cbn [virtual_end_address].
    rewrite E2, orb_true_r. split; [by split|].
    split; [|split; [|split]]; [by exists 0|apply split_last; cbn; lia|by exists 0|apply split_last; cbn; lia].
  - destruct Hf as ((j1 & Hj1 & Eb & Epb) & Hmin & (j2 & Hj2 & Ee & Epe) & Hmax).
    destruct (Hall j1 ltac:(lia)) as (_ & Hv1 & _). destruct (Hall j2 ltac:(lia)) as (_ & Hv2 & Hs2 & _).
    rewrite (proj2 (Z.eqb_neq (virtual_base_address f) 0)) by lia. rewrite orb_false_r.
    destruct (Z.leb_spec (p_vaddr m (ph k)) (virtual_base_address f)) as [Hle|Hgt]; cbn [virtual_end_address];
      rewrite (proj2 (Z.eqb_neq (virtual_end_address f) 0)) by lia; rewrite orb_false_r;
      destruct (Z.leb_spec (virtual_end_address f) (p_vaddr m (ph k) + p_filesz m (ph k))) as [Hle'|Hgt'];
      (split; [by split|]); unfold spans; cbn;
      (split; [|split; [apply split_last; [lia|intros j Hj; specialize (Hmin j Hj); lia|lia]
        |split; [|apply split_last; [lia|intros j Hj; specialize (Hmax j Hj); lia|lia]]]]);
      first [exists k; split; [lia|by split] | exists j1; split; [lia|by split] | exists j2; split; [lia|by split]].
Qed.

Lemma same_elf_trans f1 f2 f3 : same_elf f1 f2 -> same_elf f2 f3 -> same_elf f1 f3.
Proof. intros (E1 & E2 & E3) (E4 & E5 & E6). unfold same_elf. by rewrite E4, E5, E6. Qed.

Lemma pheaders_loop_spec n k f :
  0 <= k -> k + Z.of_nat n = e_phnum m header -> (0 < n)%nat -> elf_header f = header ->
  (forall j, 0 <= j < k + Z.of_nat n -> segment_ok j) ->
  (if k =? 0 then virtual_base_address f = 0 /\ virtual_end_address f = 0 else spans f k) ->
  exists f', pheaders_loop n m f header k 0 = (0, f') /\ same_elf f f' /\ spans f' (e_phnum m header).
Proof.
  revert k f. induction n as [|n IH]; intros k f Hk Hn Hpos Hh Hall Hf; [lia|]. cbn [pheaders_loop].
  rewrite (proj2 (Z.ltb_lt k _)) by lia. unfold elf_process_pheader. fold (ph k).
  rewrite (proj1 (Hall k ltac:(lia))), Z.eqb_refl.
  destruct (pt_load_spec f k Hk ltac:(intros j Hj; apply Hall; lia) Hf) as (f1 & E & Hs & Hsp). rewrite E.
  change (0 <? 0) with false. cbv iota. destruct n as [|n].
  - exists f1. simpl. split; [done|]. split; [done|]. by replace (e_phnum m header) with (k + 1) by lia.
  - destruct (IH (k + 1) f1) as (f2 & E2 & Hs2 & Hsp2); try lia.
    + destruct Hs as (_ & _ & Em). unfold elf_header in *. by rewrite Em.
    + intros j Hj. apply Hall. lia.
    + by rewrite (proj2 (Z.eqb_neq (k + 1) 0)) by lia.
    + exists f2. split; [done|]. split; [by eapply same_elf_trans|done].
Qed.

(** A header that is not [PT_LOAD] stops the walk. *)
Lemma pheaders_loop_other n k f j :
  k <= j < k + Z.of_nat n -> k + Z.of_nat n = e_phnum m header -> p_type m (ph j) <> PT_LOAD ->
  exists f', pheaders_loop n m f header k 0 = (- EINVAGS, f').
Proof.
  revert k f. induction n as [|n IH]; intros k f Hj Hn Hne; [lia|]. cbn [pheaders_loop].
  rewrite (proj2 (Z.ltb_lt k _)) by lia. unfold elf_process_pheader. fold (ph k).
  destruct (Z.eqb_spec (p_type m (ph k)) PT_LOAD) as [Ht|Ht]; [|by exists f].
  unfold elf_process_phdr_pt_load. change (0 <? 0) with false. cbv iota.
  apply IH; [|lia|done]. destruct (Z.eq_dec j k) as [-> |]; [done|lia].
Qed.
End segments.

(** ** Valid headers *)

Record valid_header (m : mem) (h : Z) : Prop := {
  vh_magic : load_bytes m h 4 = elf_signature;
  vh_class : e_ident m h EI_CLASS = 0 \/ e_ident m h EI_CLASS = 1;
  vh_data : e_ident m h EI_DATA = 0 \/ e_ident m h EI_DATA = 1;
  vh_phoff : e_phoff m h <> 0;
  vh_type : e_type m h = ET_EXEC;
  vh_entry : KERNEL_PROGRAM_VIRTUAL_ADDRESS <= e_entry m h
}.

Lemma memcmp_loop_eq s1 s2 i n :
  0 <= i -> i + zlen s1 = n -> i + zlen s2 = n -> Forall (fun c => 0 <= c < 256) s1 -> Forall (fun c => 0 <= c < 256) s2 ->
  exists r, memcmp_loop s1 s2 i n = Some r /\ (r = 0 <-> s1 = s2).
Proof.
  revert s2 i. induction s1 as [|c1 s1 IH]; intros s2 i Hi H1 H2 F1 F2.
  - destruct s2 as [|c2 s2]; [|rewrite zlen_cons in H2; pose proof (zlen_nonneg s2); change (zlen (@nil Z)) with 0 in H1; lia].
    exists 0. simpl. rewrite (proj2 (Z.ltb_ge i n)); [done|change (zlen (@nil Z)) with 0 in H1; lia].
  - destruct s2 as [|c2 s2]; [rewrite zlen_cons in H1; pose proof (zlen_nonneg s1); change (zlen (@nil Z)) with 0 in H2; lia|].
    rewrite !zlen_cons in *. pose proof (zlen_nonneg s1). simpl. rewrite (proj2 (Z.ltb_lt i n)) by lia.
    apply Forall_cons in F1 as [Hc1 F1], F2 as [Hc2 F2].
    destruct (Z.eqb_spec c1 c2) as [<-|Hne]; simpl.
    + destruct (IH s2 (i + 1)) as (r & -> & Hr); try done; try lia. exists r. split; [done|].
      rewrite Hr. split; [by intros -> |by intros [= ->]].
    + eexists. split; [reflexivity|]. split; [destruct (_ <? _); done|]. by intros [= ->].
Qed.

Lemma load_bytes_len m a n : 0 <= n -> zlen (load_bytes m a n) = n.
Proof. intros. unfold load_bytes, zlen. rewrite length_map, length_seqZ. lia. Qed.

Lemma load_bytes_range m a n : mem_ok m -> Forall (fun c => 0 <= c < 256) (load_bytes m a n).
Proof. intros Hm. apply Forall_forall. intros v (i & -> & _)%list_elem_of_fmap. apply Hm. Qed.

Lemma validate_spec m h : mem_ok m -> elf_validate_loaded m h = KERNEL_ALL_OK <-> valid_header m h.
Proof.
  intros Hm. unfold elf_validate_loaded, elf_valid_signature, elf_valid_class, elf_valid_encoding,
    elf_has_program_header, elf_is_executable, memcmp.
  destruct (memcmp_loop_eq (load_bytes m h 4) elf_signature 0 4) as (r & -> & Hr); try done.
  { by apply load_bytes_range. }
  { unfold elf_signature. repeat constructor; lia. }
  assert (Hmag : (r =? 0) = true <-> load_bytes m h 4 = elf_signature) by (rewrite Z.eqb_eq; exact Hr).
  split.
  - destruct (_ && _) eqn:E; [intros _|done].
    rewrite !andb_true_iff, !orb_true_iff, negb_true_iff, !Z.eqb_eq, Z.eqb_neq, Z.leb_le in E.
    destruct E as [[[[E1 E2] E3] E4] [E5 E6]]. constructor; try done. by apply Hr.
  - intros [H1 H2 H3 H4 H5 H6]. destruct (_ && _) eqn:E; [done|]. exfalso. apply Bool.not_true_iff_false in E. apply E.
    rewrite !andb_true_iff, !orb_true_iff, negb_true_iff, !Z.eqb_eq, Z.eqb_neq, Z.leb_le.
    split; [split; [split; [split|]|]|]; try done. by apply Hr.
Qed.

Lemma validate_valid m h : valid_header m h -> elf_validate_loaded m h = KERNEL_ALL_OK.
Proof.
  intros [H1 H2 H3 H4 H5 H6]. unfold elf_validate_loaded, elf_valid_signature, elf_valid_class, elf_valid_encoding,
    elf_has_program_header, elf_is_executable. rewrite H1, H5, (proj2 (Z.eqb_neq _ 0) H4), (proj2 (Z.leb_le _ _) H6).
  change (memcmp elf_signature elf_signature 4) with (Some 0).
  by destruct H2 as [-> | ->], H3 as [-> | ->].
Qed.

Lemma validate_cases m h : elf_validate_loaded m h = KERNEL_ALL_OK \/ elf_validate_loaded m h = - EINFORMATS.
Proof. unfold elf_validate_loaded. destruct (_ && _); auto. Qed.

(** [elf_process_load] on every file. *)
Lemma elf_process_load_total m f :
  mem_ok m -> let h := elf_header f in let n := e_phnum m h in
  exists res f', elf_process_load m f = (res, f') /\
    (~ valid_header m h -> res = - EINFORMATS /\ f' = f) /\
    (valid_header m h -> (exists j, 0 <= j < n /\ p_type m (ph m h j) <> PT_LOAD) -> res = - EINVAGS) /\
    (valid_header m h -> n = 0 -> res = 0 /\ f' = f) /\
    (valid_header m h -> 0 < n -> (forall j, 0 <= j < n -> segment_ok m h j) ->
       virtual_base_address f = 0 -> virtual_end_address f = 0 ->
       res = 0 /\ same_elf f f' /\ spans m h f' n).
Proof.
  intros Hm h n. assert (Hn : 0 <= n).
  { unfold n, e_phnum, ld16, ld8. pose proof (Hm (u32 (h + 44))). pose proof (Hm (u32 (h + 44 + 1))). lia. }
  unfold elf_process_load. destruct (elf_process_pheaders m f) as [res f'] eqn:Ep.
  destruct (validate_cases m h) as [E|E]; fold h; rewrite E.
  - change (KERNEL_ALL_OK <? 0) with false. cbv iota. apply validate_spec in E; [|done].
    exists res, f'. split; [done|]. split; [done|].
    unfold elf_process_pheaders in Ep. fold h in Ep. fold n in Ep. split; [|split].
    + intros _ (j & Hj & Hne). destruct (pheaders_loop_other m h (Z.to_nat n) 0 f j ltac:(lia) ltac:(fold n; lia) Hne)
        as (f2 & E2). rewrite E2 in Ep. by injection Ep as <- _.
    + intros _ Hn0. rewrite Hn0 in Ep. by injection Ep as <- <-.
    + intros _ Hpos Hall E1 E2. destruct (pheaders_loop_spec m h (Z.to_nat n) 0 f) as (f2 & E3 & Hs & Hsp);
        try done; try (fold n; lia).
      { intros j Hj. apply Hall. lia. }
      rewrite E3 in Ep. by injection Ep as <- <-.
  - exists (- EINFORMATS), f. change (- EINFORMATS <? 0) with true.
    assert (Hnv : ~ valid_header m h) by (intros Hv; apply validate_spec in Hv; [rewrite E in Hv; discriminate Hv|done]).
    by split_and!.
Qed.

(** ** Loading a file *)

Section load_proofs.
Context {F : Type} {LY : Layout} {FS : Filesystem machine F} {SP : FilesystemSpec machine F}
  {LF : FilesystemLaws machine F} {FF : FilesystemFiles machine F} {FR : FilesystemReads machine F}.
Implicit Types (s : loader F) (v : vfs F) (L K : list (Z * Z)).

Lemma bind_vfs {A T} (mm : M (vfs F) A) (k : A -> M (loader F) T) s a v :
  mm (l_vfs s) = Done a v -> (on_vfs mm ≫= k) s = k a (set_l_vfs v s).
Proof. intros E. apply bind_Done. by apply zoom_Done. Qed.

Lemma l_free_spec h0 L s a n :
  owned h0 (v_mach (l_vfs s)) ((a, n) :: L) ->
  exists h', l_free a s = Done tt (set_l_vfs (upd_heap h' (l_vfs s)) s) /\ owned h0 h' L /\
    m_mem h' = m_mem (v_mach (l_vfs s)).
Proof.
  intros Ho. exists (al_free (v_mach (l_vfs s)) a). split; [done|]. split; [by eapply owned_free|done].
Qed.

Lemma l_free_null s : l_free 0 s = Done tt s.
Proof.
  unfold l_free, on_vfs, v_free, zoom, al_release. rewrite al_free_null. unfold sel_heap. rewrite upd_same.
  by destruct s.
Qed.

Lemma l_alloc_spec h0 L s size :
  owned h0 (v_mach (l_vfs s)) L -> 0 <= size < 4294967296 ->
  exists a h', l_alloc size s = Done a (set_l_vfs (upd_heap h' (l_vfs s)) s) /\
    ((a = 0 /\ h' = v_mach (l_vfs s) /\ ~ roomy (al_avail (v_mach (l_vfs s))) (blocks_of size)) \/
     (0 < a /\ a + size <= 2147483648 /\ owned h0 h' ((a, blocks_of size) :: L))).
Proof.
  intros Ho Hs. destruct (al_malloc (v_mach (l_vfs s)) size) as [a h'] eqn:E. exists a, h'.
  split; [unfold v_mach in E; unfold l_alloc, on_vfs, v_alloc, zoom, al_alloc, sel_heap; by rewrite E|].
  pose proof (al_malloc_spec _ _ _ _ (ow_ok _ _ _ Ho) Hs E) as [Hok' D].
  destruct (owned_alloc _ _ _ _ _ _ Ho Hs E) as [[-> ->]|(Ha & Ho' & _)].
  - left. split; [done|]. split; [done|]. intros Hr.
    pose proof (al_malloc_roomy _ _ _ _ (ow_ok _ _ _ Ho) Hs Hr E). lia.
  - right. split; [done|]. split; [|done]. destruct D as [[-> _]|(_ & Hsz & Hown & _)]; [lia|].
    destruct (al_live_range h' a (blocks_of size) Hok') as (_ & _ & _ & Hr); [apply Hown; by left|].
    unfold KERNEL_HEAP_BLOCK_SIZE in *. lia.
Qed.

(** [elf_file_free]: the object and, if it has one, its memory. *)
Lemma elf_file_free_spec h0 L s a e Lm :
  0 < a -> l_elfs s !! a = Some e -> (elf_memory e = 0 /\ Lm = []) \/ (exists n, Lm = [(elf_memory e, n)]) ->
  owned h0 (v_mach (l_vfs s)) (Lm ++ (a, 1) :: L) ->
  exists h', elf_file_free a s = Done tt (set_l_vfs (upd_heap h' (l_vfs s)) s) /\ owned h0 h' L.
Proof.
  intros Ha He Hm Ho. unfold elf_file_free. rewrite (proj2 (Z.eqb_neq a 0)) by lia. change (negb false) with true.
  cbv iota. rewrite bind_assoc. unfold the_elf. rewrite bind_assoc, bind_gets, (bind_expect _ _ _ _ He).
  destruct Hm as [[-> ->]|[n ->]].
  - rewrite (bind_Done _ _ _ _ _ (l_free_null s)).
    destruct (l_free_spec h0 L s a 1 Ho) as (h' & E & Ho' & _). by exists h'.
  - destruct (l_free_spec h0 ((a, 1) :: L) s (elf_memory e) n Ho) as (h1 & E1 & Ho1 & _).
    rewrite (bind_Done _ _ _ _ _ E1).
    destruct (l_free_spec h0 L (set_l_vfs (upd_heap h1 (l_vfs s)) s) a 1) as (h2 & E2 & Ho2 & _).
    { unfold v_mach. cbn [l_vfs set_l_vfs]. by rewrite heap_upd. }
    exists h2. split; [|done]. rewrite E2. cbn [l_vfs set_l_vfs]. by rewrite upd_upd.
Qed.
(** Descriptors other than [fd] belong to blocks that were live in [h0]. *)
Definition others_live (h0 : machine) v (fd : Z) : Prop :=
  forall i q, zget (file_descriptors v) i = Some q -> q <> 0 -> i <> fd - 1 -> al_live h0 q 1.

Lemma vfs_ok_owned h0 L v h' :
  vfs_ok v -> owned h0 h' L ->
  (forall i q, zget (file_descriptors v) i = Some q -> q <> 0 -> al_live h0 q 1) ->
  vfs_ok (upd_heap h' v).
Proof.
  intros Hv Ho Hl. pose proof (ow_ok _ _ _ Ho) as Hok. constructor; simpl.
  - apply fs_ok_set; [apply (vo_fs _ Hv)|done].
  - apply (vo_fds _ Hv).
  - rewrite fs_disk_set. apply (vo_mounted _ Hv).
  - intros i q Hi Hq. rewrite fs_heap_set. destruct (vo_open _ Hv i q Hi Hq) as [_ Hd]. split; [|exact Hd].
    apply (ow_live _ _ _ Ho). right. by apply (Hl i).
Qed.

Lemma close_out_spec h0 Lp s fd p r K x a e Lm res :
  vfs_ok (l_vfs s) -> open_at (l_vfs s) fd p r K x -> fd <= KERNEL_MAX_FILE_DESCRIPTORS ->
  0 < a -> l_elfs s !! a = Some e -> (elf_memory e = 0 /\ Lm = []) \/ (exists n, Lm = [(elf_memory e, n)]) ->
  owned h0 (v_mach (l_vfs s)) ((p, 1) :: K ++ Lm ++ (a, 1) :: Lp) -> others_live h0 (l_vfs s) fd ->
  exists s', close_out res fd a s = Done (res, 0) s' /\ vfs_ok (l_vfs s') /\
    file_descriptors (l_vfs s') = zset (file_descriptors (l_vfs s)) (fd - 1) 0 /\
    owned h0 (v_mach (l_vfs s')) Lp.
Proof.
  intros Hv Hop Hmax Ha He Hm Ho Hoth. unfold close_out.
  destruct (fclose_total h0 _ (l_vfs s) fd p r K x Hv Hop Hmax Ho) as (v1 & E1 & Hv1 & Hf1 & Ho1).
  { intros i q Hi Hq Hne. right. by apply (Hoth i). }
  rewrite (bind_vfs _ _ _ _ _ E1).
  destruct (elf_file_free_spec h0 Lp (set_l_vfs v1 s) a e Lm Ha He Hm Ho1) as (h2 & E2 & Ho2).
  rewrite (bind_Done _ _ _ _ _ E2). eexists. split; [reflexivity|]. cbn [l_vfs set_l_vfs]. split; [|split].
  - apply (vfs_ok_owned h0 Lp); [done|done|]. intros i q Hi Hq. rewrite Hf1, zget_zset in Hi.
    destruct ((fd - 1 =? i) && (0 <=? fd - 1) && (fd - 1 <? zlen (file_descriptors (l_vfs s)))) eqn:Eb.
    + by injection Hi as <-.
    + apply (Hoth i q Hi Hq). intros ->. pose proof (zget_Some_range _ _ _ Hi). lia.
  - by cbn.
  - unfold v_mach. by rewrite heap_upd.
Qed.

(** The descriptor table as before, and [n] blocks taken for good. *)
Definition closed v v' (n : Z) : Prop :=
  file_descriptors v' = file_descriptors v /\ exists L, owned (v_mach v) (v_mach v') L /\ total_blocks_of L = n.

(** The object [elf_load] works on once the file has been read. *)
Definition fresh_elf (size memory : Z) : elf_file :=
  mk_elf_file (replicate (Z.to_nat KERNEL_MAX_PATH) 0) size memory 0 0 0 0.

(** What [elf_load_opened] leaves: [gone n] when the descriptor has been closed and
    only [Lp] and [n] blocks are kept, [kept memory] when the program has been loaded. *)
Definition load_result (gone : Z -> Prop) (kept : Z -> Prop) s' (res a a' : Z) (filename : list Z) (x : fs_id) : Prop :=
  match fs_contents x with
  | None => res < 0 /\ a' = 0 /\ gone (blocks_of (fs_size x))
  | Some c => exists m memory e, (0 < memory /\ memory + zlen c <= 2147483648) /\ load_bytes m memory (zlen c) = c /\
      elf_process_load m (fresh_elf (zlen c) memory) = (res, e) /\
      (if res <? 0 then a' = 0 /\ gone 0
       else a' = a /\ m = l_mem s' /\ kept memory /\
         l_elfs s' !! a = Some (mk_elf_file (take (Z.to_nat KERNEL_MAX_PATH) filename)
              (in_memory_size e) (elf_memory e) (virtual_base_address e) (virtual_end_address e)
              (physical_base_address e) (physical_end_address e)))
  end.

(** A loaded program keeps a descriptor open, and owns the object [f] and its memory; at
    most [n] other blocks are not given back. *)
Definition loaded_keeps v v' (n f blocks memory : Z) : Prop :=
  (exists p, p <> 0 /\ file_descriptors v' = zset (file_descriptors v) (first_free v) p) /\
  exists L, owned (v_mach v) (v_mach v') ((memory, blocks) :: (f, 1) :: L) /\ total_blocks_of L <= n.

Lemma process_load_keeps m f res f' :
  elf_process_load m f = (res, f') -> same_elf f f'.
Proof.
  unfold elf_process_load. destruct (_ <? 0); [by intros [= <- <-]|]. unfold elf_process_pheaders.
  generalize (elf_header f) at 2 as h. intros h.
  assert (Hl : forall n g i r, same_elf f g -> pheaders_loop n m g h i r = (res, f') -> same_elf f f').
  { induction n as [|n IH]; intros g i r Hg; simpl; [by intros [= <- <-]|].
    destruct (i <? _); [|by intros [= <- <-]]. unfold elf_process_pheader.
    destruct (_ =? PT_LOAD); [|by intros [= <- <-]]. unfold elf_process_phdr_pt_load. change (0 <? 0) with false.
    cbv iota. apply IH. destruct Hg as (G1 & G2 & G3).
    destruct (_ || _); destruct (_ || _); by split_and!. }
  apply Hl. by split.
Qed.

(** [elf_load_opened] after a read that delivered [c]. *)
Lemma elf_finish_spec h0 Lp s fd p r K x a filename c memory n :
  vfs_ok (l_vfs s) -> open_at (l_vfs s) fd p r K x -> fd <= KERNEL_MAX_FILE_DESCRIPTORS ->
  0 < a -> l_elfs s !! a = Some zero_elf_file -> 0 < memory -> zlen c < 2147483648 ->
  owned h0 (v_mach (l_vfs s)) ((p, 1) :: K ++ [(memory, n)] ++ (a, 1) :: Lp) -> others_live h0 (l_vfs s) fd ->
  KERNEL_MAX_PATH <= zlen filename -> load_bytes (l_mem s) memory (zlen c) = c ->
  exists res a' s',
    (let '(res, e) := elf_process_load (l_mem s) (fresh_elf (i32 (zlen c)) memory) in
     modify (put_elf a e);;
     if res <? 0 then close_out res fd a
     else
       name ← expect (memcpy (elf_filename e) filename KERNEL_MAX_PATH);
       modify (put_elf a (mk_elf_file name (in_memory_size e) (elf_memory e)
         (virtual_base_address e) (virtual_end_address e) (physical_base_address e) (physical_end_address e)));;
       mret (res, a)) s = Done (res, a') s' /\ vfs_ok (l_vfs s') /\
    exists e, elf_process_load (l_mem s) (fresh_elf (zlen c) memory) = (res, e) /\
    (if res <? 0 then a' = 0 /\ file_descriptors (l_vfs s') = zset (file_descriptors (l_vfs s)) (fd - 1) 0 /\
       owned h0 (v_mach (l_vfs s')) Lp
     else a' = a /\ l_vfs s' = l_vfs s /\
       l_elfs s' !! a = Some (mk_elf_file (take (Z.to_nat KERNEL_MAX_PATH) filename)
              (in_memory_size e) (elf_memory e) (virtual_base_address e) (virtual_end_address e)
              (physical_base_address e) (physical_end_address e))).
Proof.
  intros Hv Hop Hmax Ha He Hmem Hc Ho Hoth Hfn Hload. pose proof (zlen_nonneg c).
  rewrite i32_small by lia.
  destruct (elf_process_load (l_mem s) (fresh_elf (zlen c) memory)) as [res e] eqn:Ep.
  destruct (process_load_keeps _ _ _ _ Ep) as (E1 & E2 & E3). cbn in E1, E3. rewrite bind_modify.
  destruct (res <? 0) eqn:Er.
  - destruct (close_out_spec h0 Lp (put_elf a e s) fd p r K x a e [(memory, n)] res) as (s' & E & Hv' & Hf & Ho'); try done.
    { apply lookup_insert_eq. }
    { right. exists n. by rewrite E3. }
    exists res, 0, s'. split; [done|]. split; [done|]. exists e. split; [done|]. by rewrite Er.
  - rewrite E1, memcpy_spec by (unfold zlen, KERNEL_MAX_PATH in *; rewrite ?length_replicate; lia).
    rewrite (bind_expect _ _ _ _ eq_refl), bind_modify.
    exists res, a. eexists. split; [reflexivity|]. split; [done|]. exists e. split; [done|]. rewrite Er.
    split; [done|]. split; [done|]. cbn [l_elfs put_elf]. rewrite lookup_insert_eq.
    change (drop (Z.to_nat KERNEL_MAX_PATH) (replicate (Z.to_nat KERNEL_MAX_PATH) 0)) with (@nil Z).
    by rewrite app_nil_r.
Qed.

Lemma elf_load_opened_spec h0 Lp s fd p r K x a filename :
  vfs_ok (l_vfs s) -> open_at (l_vfs s) fd p r K x -> fd <= KERNEL_MAX_FILE_DESCRIPTORS ->
  0 < a -> l_elfs s !! a = Some zero_elf_file -> fs_loadable x ->
  owned h0 (v_mach (l_vfs s)) ((p, 1) :: K ++ (a, 1) :: Lp) -> others_live h0 (l_vfs s) fd ->
  KERNEL_MAX_PATH <= zlen filename -> blocks_of (fs_size x) < al_avail (v_mach (l_vfs s)) ->
  exists res a' s', elf_load_opened a fd filename s = Done (res, a') s' /\ vfs_ok (l_vfs s') /\
    let gone n := file_descriptors (l_vfs s') = zset (file_descriptors (l_vfs s)) (fd - 1) 0 /\
      exists L, owned h0 (v_mach (l_vfs s')) (L ++ Lp) /\ total_blocks_of L = n in
    (res = - ENOMEM /\ ~ roomy (al_avail (v_mach (l_vfs s))) (blocks_of (fs_size x)) /\ a' = 0 /\ gone 0) \/
    load_result gone (fun memory => file_descriptors (l_vfs s') = file_descriptors (l_vfs s) /\
      owned h0 (v_mach (l_vfs s')) ((memory, blocks_of (fs_size x)) :: (p, 1) :: K ++ (a, 1) :: Lp))
      s' res a a' filename x.
Proof.
  intros Hv Hop Hmax Ha He Hld Ho Hoth Hfn Hav. pose proof Hop as (_ & _ & _ & _ & Hfile).
  pose proof (fs_size_range x Hld) as Hsz. unfold elf_load_opened.
  destruct (fs_stat_spec (v_fs (l_vfs s)) r K x Hfile) as (st & Est & Hst).
  assert (Ef : fstat fd local_buffer (l_vfs s) = Done (0, Some st) (l_vfs s)) by (by eapply fstat_at).
  rewrite (bind_vfs _ _ _ _ _ Ef). replace (set_l_vfs (l_vfs s) s) with s by (by destruct s).
  cbv beta iota. change (0 <? 0) with false. cbv iota. rewrite (bind_expect _ _ _ _ eq_refl), Hst.
  assert (Hrange : 0 <= fs_size x < 4294967296) by lia.
  destruct (l_alloc_spec h0 _ s (fs_size x) Ho Hrange) as (mp & h1 & E1 & D). rewrite (bind_Done _ _ _ _ _ E1).
  destruct D as [(-> & -> & Hfull)|(Hmp & Hmb & Ho1)].
  - change (0 =? 0) with true. cbv iota. unfold v_mach at 1. rewrite upd_same.
    replace (set_l_vfs (l_vfs s) s) with s by (by destruct s).
    destruct (close_out_spec h0 Lp s fd p r K x a _ [] (- ENOMEM) Hv Hop Hmax Ha He) as (s' & E & Hv' & Hf & Ho');
      [by left|exact Ho|exact Hoth|].
    exists (- ENOMEM), 0, s'. split; [done|]. split; [done|]. left. split; [done|].
    split; [exact Hfull|]. split; [done|]. split; [done|]. by exists [].
  - rewrite (proj2 (Z.eqb_neq mp 0)) by lia.
    set (s1 := set_l_vfs (upd_heap h1 (l_vfs s)) s).
    assert (Hlive : forall b n, al_live (v_mach (l_vfs s)) b n -> al_live h1 b n).
    { intros b n Hb. apply (ow_live _ _ _ Ho) in Hb as [Hb|Hb]; apply (ow_live _ _ _ Ho1); [left; by right|by right]. }
    assert (Hv1 : vfs_ok (l_vfs s1)) by (apply vfs_ok_heap; [done|apply (ow_ok _ _ _ Ho1)|exact Hlive]).
    assert (Hop1 : open_at (l_vfs s1) fd p r K x) by (apply open_at_heap; [done|apply (ow_ok _ _ _ Ho1)]).
    assert (Hh1 : fs_heap (v_fs (l_vfs s1)) = h1) by (unfold s1; apply heap_upd).
    assert (Hav1 : 0 < al_avail (fs_heap (v_fs (l_vfs s1)))).
    { rewrite Hh1, (ow_avail _ _ _ Ho1). rewrite (ow_avail _ _ _ Ho) in Hav. cbn [total_blocks_of] in Hav |- *. lia. }
    destruct (fs_read_spec (v_fs (l_vfs s1)) r K x mp (vo_fs _ Hv1)) as (res & data & f2 & x2 & E2 & Hok2 & Hd2 & Hf2 & Ho2 & D2);
      [apply Hop1|done|done|lia|lia|].
    assert (E3 : fread mp (fs_size x) 1 fd (l_vfs s1) = Done (res, data) (set_v_fs f2 (l_vfs s1)))
      by (eapply fread_at; [exact Hop1|lia..|exact E2]).
    unfold l_fread. rewrite bind_assoc, (bind_vfs _ _ _ _ _ E3). cbv beta iota. rewrite bind_assoc.
    rewrite (bind_vfs (modify (store_mem mp data)) _ _ tt _ eq_refl), bind_ret.
    set (s2 := set_l_vfs (store_mem mp data (l_vfs (set_l_vfs (set_v_fs f2 (l_vfs s1)) s1))) (set_l_vfs (set_v_fs f2 (l_vfs s1)) s1)).
    assert (Hm2 : v_mach (l_vfs s2) = set_mem (store_bytes (m_mem (fs_heap f2)) mp data) (fs_heap f2))
      by (unfold s2, v_mach; cbn [l_vfs set_l_vfs]; apply heap_upd).
    assert (Ho3 : owned h0 (v_mach (l_vfs s2)) ((mp, blocks_of (fs_size x)) :: (p, 1) :: K ++ (a, 1) :: Lp)).
    { rewrite Hm2. apply owned_set_mem, Ho2. by rewrite Hh1. }
    assert (Hlive2 : forall b n, al_live (fs_heap (v_fs (l_vfs s1))) b n -> al_live (v_mach (l_vfs s2)) b n).
    { rewrite Hm2. intros b n Hb. apply (ow_live _ _ _ (owned_set_mem _ _ _ _ (Ho2 _ _ (owned_refl _ (fs_ok_heap _ (vo_fs _ Hv1)))))). by right. }
    assert (Hv2 : vfs_ok (l_vfs s2)).
    { unfold s2. cbn [l_vfs set_l_vfs]. unfold store_mem. apply vfs_ok_heap; [|apply (ow_ok _ _ _ (Ho2 _ _ (owned_refl _ (fs_ok_heap _ (vo_fs _ Hv1)))))|done].
      apply vfs_ok_set; [done..|]. intros b n Hb.
      apply (ow_live _ _ _ (Ho2 _ _ (owned_refl _ (fs_ok_heap _ (vo_fs _ Hv1))))). by right. }
    assert (Hop2 : open_at (l_vfs s2) fd p r K x2).
    { unfold s2. cbn [l_vfs set_l_vfs]. unfold store_mem.
      apply open_at_heap; [|apply (ow_ok _ _ _ (Ho2 _ _ (owned_refl _ (fs_ok_heap _ (vo_fs _ Hv1)))))].
      destruct Hop1 as (P1 & P2 & P3 & P4 & _). by split_and!. }
    change (file_descriptors (l_vfs s)) with (file_descriptors (l_vfs s2)).
    unfold load_result. destruct (fs_contents x) as [c|] eqn:Ec.
    + destruct D2 as [-> ->]. change (1 <? 0) with false. cbv iota.
      destruct (fs_contents_len x c Hld Ec) as [Hlc Hbc]. rewrite <- Hlc in *.
      unfold the_elf. rewrite bind_assoc, bind_gets, (bind_expect _ _ _ zero_elf_file) by exact He.
      cbn [elf_filename zero_elf_file virtual_base_address virtual_end_address physical_base_address physical_end_address].
      rewrite bind_gets. fold (fresh_elf (i32 (zlen c)) mp).
      destruct (elf_finish_spec h0 Lp s2 fd p r K x2 a filename c mp (blocks_of (zlen c)) Hv2 Hop2 Hmax Ha He Hmp)
        as (res & a' & s' & E4 & Hv' & e & Ep & D); try done; try lia.
      { refine (proj2 (owned_proper _ _ _ _ _) Ho3). symmetry. apply (Permutation_middle ((p, 1) :: K)). }
      { unfold l_mem. rewrite Hm2. apply load_store_bytes; [lia|lia|done]. }
      exists res, a', s'. split; [exact E4|]. split; [done|]. right. exists (l_mem s2), mp, e.
      split; [by split|]. split; [unfold l_mem; rewrite Hm2; apply load_store_bytes; [lia|lia|done]|]. split; [done|].
      destruct (res <? 0).
      * destruct D as (-> & Hf & Ho'). split; [done|]. split; [done|]. by exists [].
      * destruct D as (-> & Evf & He'). split; [reflexivity|]. unfold l_mem. rewrite Evf.
        split; [reflexivity|]. split; [split; [reflexivity|exact Ho3]|exact He'].
    + rewrite (proj2 (Z.ltb_lt res 0)) by done.
      destruct (close_out_spec h0 ((mp, blocks_of (fs_size x)) :: Lp) s2 fd p r K x2 a zero_elf_file [] res)
        as (s' & E & Hv' & Hf & Ho'); try done; [by left| |].
      { refine (proj2 (owned_proper _ _ _ _ _) Ho3). cbn [app]. rewrite (perm_swap (mp, _) (a, 1)).
        symmetry. apply (Permutation_middle ((p, 1) :: K)). }
      exists res, 0, s'. split; [done|]. split; [done|]. right. split; [done|]. split; [done|]. split; [done|].
      exists [(mp, blocks_of (fs_size x))]. split; [done|]. simpl. lia.
Qed.

(** [elf_load], up to the call of [fopen]. *)
Lemma elf_load_start v s filename :
  l_vfs s = v -> vfs_ok v -> 0 < al_avail (v_mach v) ->
  exists a h1 s1, s1 = put_elf a zero_elf_file (set_l_vfs (upd_heap h1 v) s) /\ 0 < a /\
    owned (v_mach v) h1 [(a, 1)] /\ vfs_ok (l_vfs s1) /\
    elf_load filename s =
      (fd ← on_vfs (fopen filename [114; 0]);
       if fd <=? 0 then elf_file_free a;; mret (- EIO, 0) else elf_load_opened a fd filename) s1.
Proof.
  intros <- Hv Hav. pose proof (owned_refl _ (fs_ok_heap _ (vo_fs _ Hv))) as Ho0.
  unfold elf_load, elf_file_new. assert (Hr : 0 <= sizeof_elf_file < 4294967296) by done.
  destruct (l_alloc_spec (v_mach (l_vfs s)) [] s sizeof_elf_file Ho0 Hr) as (a & h1 & E & D).
  destruct D as [(_ & _ & Hfull)|(Ha & _ & Ho)]; [by destruct Hfull; apply roomy_page|].
  change (blocks_of sizeof_elf_file) with 1 in Ho.
  exists a, h1. eexists. split; [reflexivity|]. split; [done|]. split; [done|]. split.
  - cbn [l_vfs put_elf set_l_vfs]. apply vfs_ok_heap; [done|apply (ow_ok _ _ _ Ho)|].
    intros b n Hb. apply (ow_live _ _ _ Ho). by right.
  - rewrite bind_assoc, (bind_Done _ _ _ _ _ E). rewrite (proj2 (Z.eqb_neq a 0)) by lia.
    rewrite bind_assoc, bind_modify, bind_ret. by rewrite (proj2 (Z.eqb_neq a 0)) by lia.
Qed.

Lemma elf_load_total s filename str ps o :
  let v := l_vfs s in
  vfs_ok v -> holds filename str -> KERNEL_MAX_PATH <= zlen filename -> spec_parse str = Some (0, ps) ->
  (forall bufs, Forall2 holds bufs ps -> fs_can_open (v_fs v) bufs FILE_MODE_READ o) ->
  (forall x, o = Some x -> fs_loadable x) ->
  2 * zlen ps + 6 + fs_need + match o with Some x => blocks_of (fs_size x) | None => 0 end <= al_avail (v_mach v) ->
  exists res a s', elf_load filename s = Done (res, a) s' /\ vfs_ok (l_vfs s') /\
    match o, first_free v <? KERNEL_MAX_FILE_DESCRIPTORS with
    | Some x, true =>
        (res = - ENOMEM /\ ~ roomy (al_avail (v_mach v) - (2 * zlen ps + 6 + fs_need)) (blocks_of (fs_size x)) /\ a = 0 /\ closed v (l_vfs s') (2 * zlen ps + 1)) \/
        exists f, load_result (fun n => closed v (l_vfs s') (2 * zlen ps + 1 + n))
          (loaded_keeps v (l_vfs s') (2 * zlen ps + 2 + fs_need) f (blocks_of (fs_size x)))
          s' res f a filename x
    | _, _ => res = - EIO /\ a = 0 /\ file_descriptors (l_vfs s') = file_descriptors v /\
        owned (v_mach v) (v_mach (l_vfs s')) []
    end.
Proof.
  intros v Hv Hfn Hlen Hsp Hcan Hld Hav. pose proof fs_need_nonneg as Hnd. pose proof (zlen_nonneg ps).
  assert (Hsz : 0 <= match o with Some x => blocks_of (fs_size x) | None => 0 end).
  { destruct o as [x|]; [|done]. apply blocks_of_nonneg. pose proof (fs_size_range x (Hld x eq_refl)). lia. }
  destruct (elf_load_start v s filename eq_refl Hv ltac:(lia)) as (a & h1 & s1 & Es1 & Ha & Ho1 & Hv1 & E). rewrite E.
  assert (Ev1 : l_vfs s1 = upd_heap h1 v) by (by rewrite Es1).
  assert (Hh1 : fs_heap (v_fs (l_vfs s1)) = h1) by (rewrite Ev1; apply heap_upd).
  assert (Hms : holds [114; 0] (114 :: [])) by (apply (holds_nul [114]); unfold is_char; repeat constructor; lia).
  destruct (fopen_total (l_vfs s1) filename str [114; 0] [] ps o Hv1 Hfn Hms Hsp) as (fd & v2 & E2 & Hv2 & D).
  { intros bufs Hb. rewrite Ev1. apply fs_can_set; [by apply Hcan|]. intros b n Hl. apply (ow_live _ _ _ Ho1). by right. }
  { rewrite Hh1, (ow_avail _ _ _ Ho1). cbn [total_blocks_of]. lia. }
  rewrite (bind_vfs _ _ _ _ _ E2). set (s2 := set_l_vfs v2 s1).
  assert (He2 : l_elfs s2 !! a = Some zero_elf_file) by (unfold s2; rewrite Es1; apply lookup_insert_eq).
  replace (first_free (l_vfs s1)) with (first_free v) in D by (by rewrite Ev1).
  replace (file_descriptors (l_vfs s1)) with (file_descriptors v) in D by (by rewrite Ev1).
  rewrite Hh1 in D.
  destruct D as [(-> & Ho & Ht & Ho2)|(Hlt & -> & p & r & K & Lp & x & -> & Hop & Ht & Ho2 & HLp & HK)].
  - change (0 <=? 0) with true. cbv iota. pose proof (owned_trans _ _ _ _ _ Ho1 Ho2) as Ho12.
    destruct (elf_file_free_spec (v_mach v) [] s2 a zero_elf_file [] Ha He2 (or_introl (conj eq_refl eq_refl)) Ho12)
      as (h3 & E3 & Ho3). rewrite (bind_Done _ _ _ _ _ E3).
    exists (- EIO), 0. eexists. split; [reflexivity|]. cbn [l_vfs set_l_vfs]. split.
    + apply (vfs_ok_owned (v_mach v) []); [exact Hv2|done|]. change (l_vfs s2) with v2. rewrite Ht.
      intros i q Hi Hq. apply (vo_open _ Hv i q Hi Hq).
    + assert (Hend : - EIO = - EIO /\ 0 = 0 /\ file_descriptors (upd_heap h3 (l_vfs s2)) = file_descriptors v /\
        owned (v_mach v) (v_mach (upd_heap h3 (l_vfs s2))) []).
      { split; [done|]. split; [done|]. split; [exact Ht|]. unfold v_mach at 2. rewrite heap_upd. exact Ho3. }
      destruct o as [x|]; [|exact Hend]. destruct Ho as [Ho|Ho]; [discriminate Ho|]. by rewrite Ho, Z.ltb_irrefl.
  - pose proof (first_free_spec v Hv) as (Hff & _ & Hf0). specialize (Hf0 Hlt).
    rewrite (proj2 (Z.leb_gt (first_free v + 1) 0)), (proj2 (Z.ltb_lt _ _) Hlt) by lia.
    assert (Ho12 : owned (v_mach v) (v_mach (l_vfs s2)) ((p, 1) :: K ++ (a, 1) :: Lp)).
    { pose proof (owned_trans _ _ _ _ _ Ho1 Ho2) as Ho12. refine (proj2 (owned_proper _ _ _ _ _) Ho12).
      cbn [app]. apply perm_skip. rewrite <- app_assoc. apply Permutation_app_head. apply Permutation_cons_append. }
    assert (Hp0 : p <> 0) by (destruct Hop as (_ & _ & ? & _); lia).
    destruct (elf_load_opened_spec (v_mach v) Lp s2 (first_free v + 1) p r K x a filename Hv2 Hop)
      as (res & a' & s' & E3 & Hv' & D3); try done; try lia.
    { by apply Hld. }
    { intros i q Hi Hq Hne. change (l_vfs s2) with v2 in Hi. rewrite Ht, zget_zset_ne in Hi by lia.
      apply (vo_open _ Hv i q Hi Hq). }
    { rewrite (ow_avail _ _ _ Ho12). cbn [total_blocks_of]. rewrite total_blocks_app. cbn [total_blocks_of]. lia. }
    exists res, a', s'. split; [done|]. split; [done|]. change (l_vfs s2) with v2 in D3.
    rewrite Ht in D3. replace (first_free v + 1 - 1) with (first_free v) in D3 by lia.
    rewrite (zset_zset_id _ _ _ _ Hf0) in D3.
    assert (Hgone : forall n, (file_descriptors (l_vfs s') = file_descriptors v /\
      exists L, owned (v_mach v) (v_mach (l_vfs s')) (L ++ Lp) /\ total_blocks_of L = n) ->
      closed v (l_vfs s') (2 * zlen ps + 1 + n)).
    { intros n (Hf & L & HoL & HL). split; [done|]. exists (L ++ Lp). split; [done|]. rewrite total_blocks_app. lia. }
    destruct D3 as [(-> & Hb & -> & Hg)|D3]; [left|right].
    + split; [reflexivity|]. split; [|split; [reflexivity|apply Hgone in Hg; by rewrite Z.add_0_r in Hg]].
      intros Hr. apply Hb. apply (roomy_mono _ _ _ _ Hr); [|split; [apply Hr|lia]].
      pose proof (ow_avail _ _ _ Ho12) as Ea. change (l_vfs s2) with v2 in Ea. rewrite Ea. cbn [total_blocks_of].
      rewrite total_blocks_app. cbn [total_blocks_of]. lia.
    + exists a. unfold load_result in D3 |- *. destruct (fs_contents x) as [c|].
      * destruct D3 as (m & memory & e & M1 & M2 & M3 & D3). exists m, memory, e. do 3 (split; [done|]).
        destruct (res <? 0); [destruct D3 as [-> Hg]; by auto|].
        destruct D3 as (-> & -> & [Hopen Hown] & He). do 2 (split; [done|]). split; [|done].
        split; [by exists p|]. exists ((p, 1) :: K ++ Lp). split.
        -- refine (proj2 (owned_proper _ _ _ _ _) Hown). apply perm_skip. rewrite perm_swap. apply perm_skip.
           apply Permutation_middle.
        -- cbn [total_blocks_of]. rewrite total_blocks_app. lia.
      * destruct D3 as (Hn & -> & Hg). by auto.
Qed.
End load_proofs.

(** ** A file system with at most one file, for the witnesses

    [of_contents]: the file, or nothing. *)

Record one_file := mk_one_file { of_machine : machine; of_disk : disk; of_contents : list Z }.

#[local] Instance one_file_fs : Filesystem machine one_file := {|
  fs_heap := of_machine;
  fs_set_heap := fun h f => mk_one_file h (of_disk f) (of_contents f);
  fs_disk := of_disk;
  fs_set_disk := fun d f => mk_one_file (of_machine f) d (of_contents f);
  fs_resolve_op := mret 0;
  fs_open := fun _ _ => c ← gets of_contents; mret (if zlen c =? 0 then ERROR (- EIO) else 4096);
  fs_read := fun _ size nmemb _ => c ← gets of_contents; mret (nmemb, take (Z.to_nat (size * nmemb)) c);
  fs_seek := fun _ _ _ => mret 0;
  fs_stat := fun _ => c ← gets of_contents; mret (0, Some (mk_file_stat 0 (zlen c)));
  fs_close := fun _ => mret 0
|}.

#[local] Instance one_file_spec : FilesystemSpec machine one_file := {|
  fs_id := list Z;
  fs_ok := fun f => al_ok (of_machine f);
  fs_file := fun f r K x => r = 4096 /\ K = [] /\ of_contents f = x;
  fs_can_open := fun f _ _ o => o = if zlen (of_contents f) =? 0 then None else Some (of_contents f);
  fs_need := 0
|}.

#[local] Instance one_file_laws : FilesystemLaws machine one_file.
Proof.
  constructor; simpl; try done.
  - by intros [].
  - intros f h0 L path mode o Hok -> _ Ho.
    exists (if zlen (of_contents f) =? 0 then ERROR (- EIO) else 4096), f. split; [done|]. split; [done|]. split; [done|].
    destruct (zlen (of_contents f) =? 0); [done|]. split; [done|]. exists []. by split_and!.
  - intros f h0 L r K x Hok (-> & -> & _) Ho. by exists f.
Qed.

#[local] Instance one_file_files : FilesystemFiles machine one_file := {|
  fs_size := @zlen Z; fs_contents := Some;
  fs_loadable := fun x => 0 < zlen x < 2147483648 /\ Forall (fun b => 0 <= b < 256) x |}.

#[local] Instance one_file_reads : FilesystemReads machine one_file.
Proof.
  constructor; simpl.
  - by intros x [Hx _].
  - intros x c [_ Hx] [= <-]. by split.
  - intros f r K x (-> & -> & <-). by eexists.
  - intros f r K x ptr Hok (-> & -> & <-) _ _ _ _. exists 1, (of_contents f), f, (of_contents f). split.
    + assert (E : take (Z.to_nat (zlen (of_contents f) * 1)) (of_contents f) = of_contents f)
        by (unfold zlen; rewrite Z.mul_1_r, Nat2Z.id; apply firstn_all).
      change (Done (1, take (Z.to_nat (zlen (of_contents f) * 1)) (of_contents f)) f = Done (1, of_contents f) f). by rewrite E.
    + by split_and!.
Qed.

#[local] Existing Instance sample_ly.
Definition one_file_name : list Z := [48; 58; 47; 97].
Definition one_file_vfs (c : list Z) : vfs one_file :=
  mk_vfs (mk_one_file (mk_machine boot_heap (fun _ => 0)) (mk_disk 0 0 512 addr_fat16_fs 0) c) ∅ ∅ ∅ [] (replicate 512 0) ∅.

(** A program with one segment, at address 4096. *)
Definition tiny_elf : list Z :=
  [127; 69; 76; 70; 1; 1] ++ replicate 10 0 ++ [2; 0; 3; 0; 1; 0; 0; 0; 0; 0; 64; 0; 52; 0; 0; 0] ++ replicate 12 0 ++
  [1; 0] ++ replicate 6 0 ++
  [1; 0; 0; 0; 84; 0; 0; 0; 0; 0; 64; 0; 0; 0; 64; 0; 16; 0; 0; 0; 32; 0; 0; 0; 5; 0; 0; 0; 0; 16; 0; 0].
Definition tiny_mem : mem := store_bytes (fun _ => 0) 4096 tiny_elf.

(** ** Properties *)

(** C26: the meaning of [elf_process_load] on a file in memory.  The header is accepted
    exactly when it has the ELF magic, class and encoding none or 32-bit little endian, a
    program header table, type ET_EXEC and an entry point in the program area; anything
    else is [-EINFORMATS] and changes nothing.  One header that is not [PT_LOAD] makes the
    whole load fail with [-EINVAGS].  Otherwise the recorded addresses are the lowest start
    and the highest end (by file size) of the segments, with the physical addresses of the
    segments that reach them. *)
Theorem elf_process_load_spec (m : mem) (f : elf_file) :
  mem_ok m -> let h := elf_header f in let n := e_phnum m h in
  exists res f', elf_process_load m f = (res, f') /\
    (~ valid_header m h -> res = - EINFORMATS /\ f' = f) /\
    (valid_header m h -> (exists j, 0 <= j < n /\ p_type m (ph m h j) <> PT_LOAD) -> res = - EINVAGS) /\
    (valid_header m h -> n = 0 -> res = 0 /\ f' = f) /\
    (valid_header m h -> 0 < n -> (forall j, 0 <= j < n -> segment_ok m h j) ->
       virtual_base_address f = 0 -> virtual_end_address f = 0 ->
       res = 0 /\ same_elf f f' /\ spans m h f' n).
Proof. apply elf_process_load_total. Qed.

Lemma elf_process_load_spec_witness :
  exists f', elf_process_load tiny_mem (fresh_elf 116 4096) = (0, f') /\ virtual_base_address f' = 4194304 /\
    virtual_end_address f' = 4194320 /\ physical_base_address f' = 4180.
Proof.
  assert (Hm : mem_ok tiny_mem).
  { apply store_bytes_mem_ok. intros x. simpl. lia. }
  destruct (elf_process_load_spec tiny_mem (fresh_elf 116 4096) Hm) as (res & f' & E & _ & _ & _ & H).
  assert (Ev : elf_validate_loaded tiny_mem 4096 = KERNEL_ALL_OK) by (vm_compute; reflexivity).
  apply validate_spec in Ev; [|exact Hm].
  assert (En : e_phnum tiny_mem (elf_header (fresh_elf 116 4096)) = 1) by (vm_compute; reflexivity).
  destruct H as (-> & _ & _).
  - exact Ev.
  - rewrite En. lia.
  - rewrite En. intros j Hj. assert (j = 0) as -> by lia. unfold segment_ok.
    split; [vm_compute; reflexivity|]. split; [vm_compute; reflexivity|]. split; [vm_compute; discriminate|vm_compute; reflexivity].
  - reflexivity.
  - reflexivity.
  - exists f'. split; [exact E|]. vm_compute in E. injection E as <-. vm_compute. by split_and!.
Defined.

(** C25: [elf_load], end to end, on any file system that keeps the contract.  Without the
    file, or without a free descriptor, it fails with [-EIO] and changes nothing.  It fails with
    [-ENOMEM] only if the heap may have no run of free blocks for the file.  If the file
    cannot be read in one go (on FAT16: if it is larger than a cluster) it fails and the
    memory allocated for the contents is leaked.  Otherwise the contents lie at
    [elf_memory] and the result is [elf_process_load]'s on them: an error closes the
    descriptor and gives the memory back; success returns the object with the recorded
    addresses and leaves the descriptor open. *)
Theorem elf_load_spec {F : Type} {LY : Layout} {FS : Filesystem machine F} {SP : FilesystemSpec machine F}
    {LF : FilesystemLaws machine F} {FF : FilesystemFiles machine F} {FR : FilesystemReads machine F}
    (s : loader F) (filename str : list Z) (ps : list (list Z)) (o : option fs_id) :
  let v := l_vfs s in
  vfs_ok v -> holds filename str -> KERNEL_MAX_PATH <= zlen filename -> spec_parse str = Some (0, ps) ->
  (forall bufs, Forall2 holds bufs ps -> fs_can_open (v_fs v) bufs FILE_MODE_READ o) ->
  (forall x, o = Some x -> fs_loadable x) ->
  2 * zlen ps + 6 + fs_need + match o with Some x => blocks_of (fs_size x) | None => 0 end <= al_avail (v_mach v) ->
  exists res a s', elf_load filename s = Done (res, a) s' /\ vfs_ok (l_vfs s') /\
    match o, first_free v <? KERNEL_MAX_FILE_DESCRIPTORS with
    | Some x, true =>
        (res = - ENOMEM /\ ~ roomy (al_avail (v_mach v) - (2 * zlen ps + 6 + fs_need)) (blocks_of (fs_size x)) /\ a = 0 /\ closed v (l_vfs s') (2 * zlen ps + 1)) \/
        exists f, load_result (fun n => closed v (l_vfs s') (2 * zlen ps + 1 + n))
          (loaded_keeps v (l_vfs s') (2 * zlen ps + 2 + fs_need) f (blocks_of (fs_size x)))
          s' res f a filename x
    | _, _ => res = - EIO /\ a = 0 /\ file_descriptors (l_vfs s') = file_descriptors v /\
        owned (v_mach v) (v_mach (l_vfs s')) []
    end.
Proof. apply elf_load_total. Qed.

Lemma one_file_vfs_ok c : vfs_ok (one_file_vfs c).
Proof.
  constructor.
  - exact boot_heap_ok.
  - reflexivity.
  - reflexivity.
  - intros i p Hi Hp. exfalso. apply Hp. cbn [one_file_vfs l_vfs file_descriptors] in Hi. unfold zget in Hi.
    destruct (0 <=? i); [|discriminate Hi]. apply lookup_replicate in Hi. apply Hi.
Qed.

Lemma one_file_name_holds : holds (one_file_name ++ replicate 104 0) one_file_name.
Proof. split; [|exists (replicate 103 0); reflexivity]. unfold is_char, one_file_name. repeat constructor; lia. Qed.

Lemma bytes_range (l : list Z) : forallb (fun b => (0 <=? b) && (b <? 256)) l = true -> Forall (fun b => 0 <= b < 256) l.
Proof. rewrite forallb_forall. intros H. apply Forall_forall. intros b Hb%list_elem_of_In%H. lia. Qed.

Lemma elf_load_spec_witness :
  exists res a s', elf_load (one_file_name ++ replicate 104 0) (mk_loader (one_file_vfs tiny_elf) ∅) = Done (res, a) s' /\
    vfs_ok (l_vfs s').
Proof.
  destruct (elf_load_spec (SP := one_file_spec) (mk_loader (one_file_vfs tiny_elf) ∅) (one_file_name ++ replicate 104 0)
    one_file_name [[97]] (Some tiny_elf)) as (res & a & s' & E & Hv & _).
  - apply one_file_vfs_ok.
  - apply one_file_name_holds.
  - vm_compute. discriminate.
  - vm_compute. reflexivity.
  - intros bufs _. reflexivity.
  - intros x [= <-]. split; [split; reflexivity|]. apply bytes_range. vm_compute. reflexivity.
  - vm_compute. discriminate.
  - exists res, a, s'. split; [exact E|exact Hv].
Defined.
