(* ===== verification/Task.v ===== *)
(** * Threads: kernel/task.c (and task_return of arch/x86/kernel/task.asm)

    A thread owns an address space and a saved register set and sits in a doubly linked
    list.  Kernel pointers are physical addresses; while a task's page directory is loaded
    the copy routines reach memory through [translate] (Paging.v). *)
From S2P Require Import Prelude Heap Kheap Paging.

(** ** Data *)

Record registers := mk_registers {
  r_edi : Z; r_esi : Z; r_ebp : Z; r_ebx : Z; r_edx : Z; r_ecx : Z; r_eax : Z;
  r_ip : Z; r_cs : Z; r_flags : Z; r_esp : Z; r_ss : Z
}.

Record thread_info := mk_thread_info {
  page_directory : Z; regs : registers; t_process : Z; t_next : Z; t_prev : Z
}.

Record interrupt_frame := mk_frame {
  f_edi : Z; f_esi : Z; f_ebp : Z; f_reserved : Z; f_ebx : Z; f_edx : Z; f_ecx : Z; f_eax : Z;
  f_ip : Z; f_cs : Z; f_flags : Z; f_esp : Z; f_ss : Z
}.

Definition zero_registers : registers := mk_registers 0 0 0 0 0 0 0 0 0 0 0 0.
Definition zero_thread : thread_info := mk_thread_info 0 zero_registers 0 0 0.
Definition sizeof_thread_info : Z := 64.

Definition set_next (a : Z) (t : thread_info) : thread_info :=
  mk_thread_info (page_directory t) (regs t) (t_process t) a (t_prev t).
Definition set_prev (a : Z) (t : thread_info) : thread_info :=
  mk_thread_info (page_directory t) (regs t) (t_process t) (t_next t) a.
Definition set_regs (r : registers) (t : thread_info) : thread_info :=
  mk_thread_info (page_directory t) r (t_process t) (t_next t) (t_prev t).

(** [t_cr3]: the directory the processor uses; [t_kernel_chunk]: [kernel_chunk]. *)
Record tasks := mk_tasks {
  t_machine : machine;
  t_threads : gmap Z thread_info;
  current_task : Z;
  task_head : Z;
  task_tail : Z;
  t_cr3 : Z;
  t_kernel_chunk : Z
}.
Implicit Types s : tasks.

Definition set_t_machine (m : machine) s : tasks :=
  mk_tasks m (t_threads s) (current_task s) (task_head s) (task_tail s) (t_cr3 s) (t_kernel_chunk s).
Definition set_threads (g : gmap Z thread_info) s : tasks :=
  mk_tasks (t_machine s) g (current_task s) (task_head s) (task_tail s) (t_cr3 s) (t_kernel_chunk s).
Definition put_thread (a : Z) (t : thread_info) s : tasks := set_threads (<[a := t]> (t_threads s)) s.
Definition set_current (a : Z) s : tasks :=
  mk_tasks (t_machine s) (t_threads s) a (task_head s) (task_tail s) (t_cr3 s) (t_kernel_chunk s).
Definition set_head (a : Z) s : tasks :=
  mk_tasks (t_machine s) (t_threads s) (current_task s) a (task_tail s) (t_cr3 s) (t_kernel_chunk s).
Definition set_tail (a : Z) s : tasks :=
  mk_tasks (t_machine s) (t_threads s) (current_task s) (task_head s) a (t_cr3 s) (t_kernel_chunk s).
Definition set_cr3 (a : Z) s : tasks :=
  mk_tasks (t_machine s) (t_threads s) (current_task s) (task_head s) (task_tail s) a (t_kernel_chunk s).

Definition t_mem s : mem := m_mem (t_machine s).
Definition set_t_mem (m : mem) s : tasks := set_t_machine (set_mem m (t_machine s)) s.
Definition on_machine {A} (m : M machine A) : M tasks A := zoom t_machine set_t_machine m.

Definition the_thread (a : Z) : M tasks thread_info := t ← gets (fun s => t_threads s !! a); expect t.

(** ** The list *)

Definition task_insert (task : Z) : M tasks unit :=
  head ← gets task_head;
  if head =? 0 then
    modify (set_head task);; modify (set_tail task);; modify (set_current task)
  else
    tail ← gets task_tail;
    t ← the_thread tail;
    modify (put_thread tail (set_next task t));;
    n ← the_thread task;
    modify (put_thread task (set_next 0 (set_prev tail n)));;
    modify (set_tail task).

Definition task_current : M tasks Z := gets current_task.

Definition task_get_next : M tasks Z :=
  cur ← gets current_task;
  if cur =? 0 then gets task_head
  else
    c ← the_thread cur;
    if t_next c =? 0 then gets task_head else mret (t_next c).

Definition task_list_remove (task : Z) : M tasks unit :=
  t ← the_thread task;
  head ← gets task_head;
  (if head =? task then modify (set_head (t_next t)) else mret tt);;
  tail ← gets task_tail;
  (if tail =? task then modify (set_tail (t_prev t)) else mret tt);;
  cur ← gets current_task;
  (if cur =? task then n ← task_get_next; modify (set_current n) else mret tt);;
  (if negb (t_prev t =? 0) then
     p ← the_thread (t_prev t); modify (put_thread (t_prev t) (set_next (t_next t) p))
   else mret tt);;
  t ← the_thread task;
  if negb (t_next t =? 0) then
    n ← the_thread (t_next t); modify (put_thread (t_next t) (set_prev (t_prev t) n))
  else mret tt.

(** ** Creating and destroying threads *)

(** [sched.h]: [PROCESS_FILETYPE]. *)
Definition PROCESS_FILETYPE_ELF : Z := 0.
Definition PROCESS_FILETYPE_BINARY : Z := 1.

(** [elf_header(process->elf_file)->e_entry], where [ptr] is the union of [ptr] and
    [elf_file]: the pointer at offset 112 of [struct elf_file], then the field at 24. *)
Definition entry_through (m : mem) (ptr : Z) : Z := ld32 m (ld32 m (ptr + 112) + 24).

(** [filetype] and [ptr] are the fields of [*process]. *)
Definition task_init (task process filetype ptr : Z) : M tasks Z :=
  dir ← on_machine (paging_new_4gb_chunk (Z.lor PAGING_IS_PRESENT PAGING_ACCESS_FROM_ALL));
  t ← the_thread task;
  modify (put_thread task (mk_thread_info dir (regs t) (t_process t) (t_next t) (t_prev t)));;
  if dir =? 0 then mret (- EIO)
  else
    m ← gets t_mem;
    let ip := if negb (filetype =? PROCESS_FILETYPE_ELF) then entry_through m ptr
              else KERNEL_PROGRAM_VIRTUAL_ADDRESS in
    let r := regs t in
    modify (put_thread task (mk_thread_info dir
      (mk_registers (r_edi r) (r_esi r) (r_ebp r) (r_ebx r) (r_edx r) (r_ecx r) (r_eax r)
         ip USER_CODE_SEGMENT (r_flags r) KERNEL_PROGRAM_VIRTUAL_STACK_ADDRESS_START USER_DATA_SEGMENT)
      process (t_next t) (t_prev t)));;
    mret 0.

Definition task_free (task : Z) : M tasks Z :=
  if task =? 0 then mret 0
  else
    t ← the_thread task;
    on_machine (paging_free_4gb (page_directory t));;
    task_list_remove task;;
    on_machine (kfree task);;
    modify (fun s => set_threads (delete task (t_threads s)) s);;
    mret 0.

Definition task_new (process filetype ptr : Z) : M tasks Z :=
  task ← on_machine (kzalloc sizeof_thread_info);
  if task =? 0 then
    task_free task;; mret (ERROR task)
  else
    modify (put_thread task zero_thread);;
    res ← task_init task process filetype ptr;
    if negb (res =? KERNEL_ALL_OK) then
      (if IS_ERROR res then task_free task;; mret (ERROR task) else mret task)
    else task_insert task;; mret task.

(** ** Address spaces *)

(** [kernel_page] (init/kernel.c); the segment registers are not part of the model. *)
Definition kernel_page : M tasks unit :=
  modify (fun s => set_cr3 (paging_switch (t_mem s) (t_kernel_chunk s)) s).

Definition task_switch (task : Z) : M tasks Z :=
  modify (set_current task);;
  t ← the_thread task;
  modify (fun s => set_cr3 (paging_switch (t_mem s) (page_directory t)) s);;
  mret 0.

Definition task_page : M tasks Z := cur ← gets current_task; task_switch cur;; mret 0.

Definition task_page_task (task : Z) : M tasks Z := task_switch task;; mret 0.

(** What the processor is loaded with when the kernel leaves for user mode: [iretd] takes
    [ss], [esp], the flags with interrupts on, [cs] and [ip]; the routine that restores the
    general registers ends with [pop ebp], so [ebp] is its caller's. *)
Definition task_return (r : registers) (ebp : Z) : registers :=
  mk_registers (r_edi r) (r_esi r) ebp (r_ebx r) (r_edx r) (r_ecx r) (r_eax r)
    (r_ip r) (r_cs r) (Z.lor (r_flags r) 512) (r_esp r) (r_ss r).

Definition task_run_first_ever_task : M tasks unit :=
  cur ← gets current_task;
  if cur =? 0 then panic
  else head ← gets task_head; task_switch head;; iret head.

Definition task_save_state (t : thread_info) (frame : interrupt_frame) : thread_info :=
  set_regs (mk_registers (f_edi frame) (f_esi frame) (f_ebp frame) (f_ebx frame) (f_edx frame) (f_ecx frame)
    (f_eax frame) (f_ip frame) (f_cs frame) (f_flags frame) (f_esp frame) (f_ss frame)) t.

Definition task_current_save_state (frame : interrupt_frame) : M tasks unit :=
  cur ← task_current;
  if cur =? 0 then panic
  else t ← the_thread cur; modify (put_thread cur (task_save_state t frame)).

(** ** Memory through a page directory

    [dir = None]: the kernel's own directory, which maps every page to itself. *)

Definition xlate (m : mem) (dir : option Z) (a : Z) : option Z :=
  match dir with None => Some (u32 a) | Some d => translate m d (u32 a) end.

Definition vld8 (m : mem) (dir : option Z) (a : Z) : option Z :=
  match xlate m dir a with Some pa => Some (ld8 m pa) | None => None end.

Definition vst8 (m : mem) (dir : option Z) (a v : Z) : option mem :=
  match xlate m dir a with Some pa => Some (st8 m pa v) | None => None end.

(** A 4-byte load, byte by byte (it may cross a page). *)
Definition vld32 (m : mem) (dir : option Z) (a : Z) : option Z :=
  match vld8 m dir a, vld8 m dir (a + 1), vld8 m dir (a + 2), vld8 m dir (a + 3) with
  | Some b0, Some b1, Some b2, Some b3 => Some (b0 + 256 * b1 + 65536 * b2 + 16777216 * b3)
  | _, _, _, _ => None
  end.

(** [strncpy] (lib/string.c) on memory; [n] counts the rounds that are left. *)
Fixpoint mstrncpy_loop (n : nat) (dir : option Z) (m : mem) (dst str i : Z) : option (mem * Z) :=
  match n with
  | O => Some (m, i)
  | S n' =>
      match vld8 m dir (str + i) with
      | None => None
      | Some c =>
          if c =? 0 then Some (m, i)
          else match vst8 m dir (dst + i) c with
               | None => None
               | Some m' => mstrncpy_loop n' dir m' dst str (i + 1)
               end
      end
  end.

Definition mstrncpy (dir : option Z) (m : mem) (dst str n : Z) : option mem :=
  match mstrncpy_loop (Z.to_nat n) dir m dst str 0 with
  | None => None
  | Some (m', i) => if 0 <? i then vst8 m' dir (dst + i) 0 else Some m'
  end.

(** [strncpy] in the address space [dir]; a page fault stops the model. *)
Definition t_strncpy (dir : option Z) (dst str n : Z) : M tasks unit :=
  m ← gets t_mem; m' ← expect (mstrncpy dir m dst str n); modify (set_t_mem m').

Definition copy_string_from_task (task virtual phys max : Z) : M tasks Z :=
  if (task =? 0) || (virtual =? 0) || (phys =? 0) then mret (- EINVAGS)
  else if (max <? 0) || (PAGING_PAGE_SIZE <? max) then mret (- EINVAGS)
  else
    tmp ← on_machine (kzalloc max);
    if tmp =? 0 then mret (- ENOMEM)
    else
      t ← the_thread task;
      m ← gets t_mem;
      let old_entry := paging_get m (page_directory t) virtual in
      let '(res, m) := paging_map m (page_directory t) tmp tmp
        (Z.lor (Z.lor PAGING_IS_WRITEABLE PAGING_IS_PRESENT) PAGING_ACCESS_FROM_ALL) in
      modify (set_t_mem m);;
      if negb (res =? KERNEL_ALL_OK) then on_machine (kfree tmp);; mret res
      else
        modify (fun s => set_cr3 (paging_switch (t_mem s) (page_directory t)) s);;
        cr3 ← gets t_cr3;
        t_strncpy (Some cr3) tmp virtual max;;
        kernel_page;;
        m ← gets t_mem;
        let '(res, m) := paging_set m (directory_entry m (page_directory t)) tmp old_entry in
        modify (set_t_mem m);;
        if negb (res =? KERNEL_ALL_OK) then on_machine (kfree tmp);; mret res
        else
          t_strncpy None phys tmp max;;
          on_machine (kfree tmp);;
          mret res.

Definition task_get_stack_item (task index : Z) : M tasks Z :=
  t ← the_thread task;
  task_page_task task;;
  s ← get;
  result ← expect (vld32 (t_mem s) (Some (t_cr3 s)) (r_esp (regs t) + 4 * index));
  kernel_page;;
  mret result.

Definition task_virtual_addr_to_physical (task virtual_addr : Z) : M tasks Z :=
  t ← the_thread task;
  m ← gets t_mem;
  mret (paging_get_physical_address m (page_directory t) virtual_addr).

(** ** The doubly linked list *)

(** The last element of [l], or [p]. *)
Fixpoint last_or (p : Z) (l : list Z) : Z :=
  match l with [] => p | a :: l' => last_or a l' end.

(** [l] is a run of nodes whose first node points back to [p] and whose last one points on
    to [n]. *)
Fixpoint dseg (g : gmap Z thread_info) (p : Z) (l : list Z) (n : Z) : Prop :=
  match l with
  | [] => True
  | a :: l' => (exists t, g !! a = Some t /\ t_prev t = p /\ t_next t = hd n l') /\ dseg g a l' n
  end.

(** The task list holds the threads [l], in this order. *)
Record dll s (l : list Z) : Prop := {
  dl_head : task_head s = hd 0 l;
  dl_tail : task_tail s = last_or 0 l;
  dl_nodup : NoDup l;
  dl_pos : Forall (fun a => a <> 0) l;
  dl_seg : dseg (t_threads s) 0 l 0
}.

Lemma last_or_snoc p l a : last_or p (l ++ [a]) = a.
Proof. revert p. induction l as [|b l IH]; intros p; [done|]. simpl. apply IH. Qed.

Lemma last_or_app p l l' : last_or p (l ++ l') = last_or (last_or p l) l'.
Proof. revert p. induction l as [|b l IH]; intros p; [done|]. simpl. apply IH. Qed.

Lemma hd_app n (l l' : list Z) : hd n (l ++ l') = hd (hd n l') l.
Proof. by destruct l. Qed.

Lemma dseg_app g p l l' n : dseg g p (l ++ l') n <-> dseg g p l (hd n l') /\ dseg g (last_or p l) l' n.
Proof.
  revert p. induction l as [|a l IH]; intros p; simpl; [tauto|]. rewrite IH, hd_app. tauto.
Qed.

Lemma dseg_other g p l n a t : a ∉ l -> dseg g p l n -> dseg (<[a := t]> g) p l n.
Proof.
  revert p. induction l as [|b l IH]; intros p Ha; simpl; [done|]. apply not_elem_of_cons in Ha as [Hne Ha].
  intros [(t' & E & Hr) Hs]. split; [|by apply IH]. exists t'. by rewrite lookup_insert_ne.
Qed.

(** Redirecting the last node forward, the first node backward. *)
Lemma dseg_last g p l a n n' t :
  NoDup (l ++ [a]) -> g !! a = Some t -> dseg g p (l ++ [a]) n ->
  dseg (<[a := set_next n' t]> g) p (l ++ [a]) n'.
Proof.
  intros Hnd Ht Hs. apply NoDup_app in Hnd as (_ & Hna & _). rewrite dseg_app in Hs |- *. destruct Hs as [Hl Ha].
  split; [apply dseg_other; [intros Hin; apply (Hna a Hin); by left|exact Hl]|].
  destruct Ha as [(t' & E & Hp & _) _]. rewrite Ht in E. injection E as <-.
  split; [|done]. exists (set_next n' t). by rewrite lookup_insert_eq.
Qed.

Lemma dseg_first g p p' a l n t :
  NoDup (a :: l) -> g !! a = Some t -> dseg g p (a :: l) n -> dseg (<[a := set_prev p' t]> g) p' (a :: l) n.
Proof.
  intros Hnd Ht [(t' & E & _ & Hn) Hs]. apply NoDup_cons in Hnd as [Hna _]. rewrite Ht in E. injection E as <-.
  split; [exists (set_prev p' t); by rewrite lookup_insert_eq|]. by apply dseg_other.
Qed.

Lemma dseg_lookup g p l n a : dseg g p l n -> a ∈ l -> is_Some (g !! a).
Proof.
  revert p. induction l as [|b l IH]; intros p; [by intros _ ?%elem_of_nil|].
  intros [(t & E & _) Hs] [-> |Hin]%elem_of_cons; [by exists t|by eapply IH].
Qed.

Lemma list_last_split (l : list Z) : l = [] \/ exists l1 a, l = l1 ++ [a].
Proof. destruct l as [|b l] using rev_ind; [by left|right; by eauto]. Qed.

Lemma last_or_nonzero l : Forall (fun a => a <> 0) l -> l <> [] -> last_or 0 l <> 0.
Proof.
  intros HF Hne. destruct (list_last_split l) as [-> |(l1 & a & ->)]; [done|]. rewrite last_or_snoc.
  apply Forall_app in HF as [_ HF]. by apply Forall_cons in HF as [? _].
Qed.

(** Everything but the list: the machine, the loaded directory and, for every thread, all
    fields but the links. *)
Definition no_links (t : thread_info) : Z * registers * Z := (page_directory t, regs t, t_process t).

Record links_only s s' : Prop := {
  lo_machine : t_machine s' = t_machine s;
  lo_cr3 : t_cr3 s' = t_cr3 s;
  lo_chunk : t_kernel_chunk s' = t_kernel_chunk s;
  lo_threads : forall a, (no_links <$> (t_threads s' !! a)) = (no_links <$> (t_threads s !! a))
}.

Lemma put_no_links (g : gmap Z thread_info) a t t' b :
  g !! a = Some t -> no_links t' = no_links t -> (no_links <$> (<[a := t']> g !! b)) = (no_links <$> (g !! b)).
Proof.
  intros Ht E. destruct (decide (a = b)) as [<-|Hne]; [by rewrite lookup_insert_eq, Ht; simpl; rewrite E|].
  by rewrite lookup_insert_ne.
Qed.

Lemma bind_thread {A} (k : thread_info -> M tasks A) s a t :
  t_threads s !! a = Some t -> (the_thread a ≫= k) s = k t s.
Proof. intros E. unfold the_thread. by rewrite bind_assoc, bind_gets, (bind_expect _ _ _ _ E). Qed.

Lemma task_insert_spec s l task t :
  dll s l -> t_threads s !! task = Some t -> t_next t = 0 -> t_prev t = 0 -> task ∉ l -> task <> 0 ->
  exists s', task_insert task s = Done tt s' /\ dll s' (l ++ [task]) /\ links_only s s' /\
    current_task s' = match l with [] => task | _ => current_task s end.
Proof.
  intros [H1 H2 H3 H4 H5] Ht Hn Hp Hni H0. unfold task_insert. rewrite bind_gets, H1.
  assert (Hnd : NoDup (l ++ [task])).
  { apply NoDup_app. split; [done|]. split; [|apply NoDup_singleton]. intros x Hx [-> |?%elem_of_nil]%elem_of_cons; done. }
  assert (Hnz : Forall (fun a => a <> 0) (l ++ [task])) by (apply Forall_app; by split; [|constructor]).
  destruct (list_last_split l) as [-> |(l1 & z & ->)].
  - change (hd 0 [] =? 0) with true. change (0 =? 0) with true. cbv iota. rewrite !bind_modify. eexists. split; [reflexivity|].
    split; [|split; [by constructor|done]]. constructor; try done. split; [|done]. by exists t.
  - assert (Hz : z <> 0) by (apply Forall_app in H4 as [_ H4]; by apply Forall_cons in H4 as [? _]).
    destruct (dseg_lookup _ _ _ _ z H5 ltac:(apply elem_of_app; right; by left)) as [tz Htz].
    assert (Hne : z <> task) by (intros ->; apply Hni, elem_of_app; right; by left).
    assert (Hh : hd 0 (l1 ++ [z]) <> 0).
    { rewrite hd_app. destruct l1 as [|b l1]; [done|]. by apply Forall_cons in H4 as [? _]. }
    rewrite (proj2 (Z.eqb_neq _ 0) Hh). rewrite bind_gets, H2, last_or_snoc, (bind_thread _ _ _ _ Htz), bind_modify.
    rewrite (bind_thread _ _ task t) by (simpl; by rewrite lookup_insert_ne). rewrite bind_modify.
    eexists. split; [reflexivity|]. split; [|split].
    + constructor; simpl; try done.
      * rewrite H1, !hd_app. by destruct l1.
      * by rewrite last_or_app.
      * apply dseg_app. split; [|split; [|done]].
        -- apply dseg_other; [done|]. by eapply dseg_last.
        -- eexists. rewrite lookup_insert_eq. split; [done|]. by rewrite last_or_snoc.
    + constructor; try done. intros a. simpl. rewrite put_no_links with (t := t); [by apply put_no_links with (t := tz)| |done].
      by rewrite lookup_insert_ne.
    + by destruct l1.
Qed.

(** Who runs after [task] is taken out of [l1 ++ task :: l2]. *)
Definition successor (l1 l2 : list Z) : Z := hd (hd 0 l1) l2.

(** Linking the two parts around a removed node. *)
Lemma unlink_spec s l1 l2 task t :
  NoDup (l1 ++ task :: l2) -> Forall (fun a => a <> 0) (l1 ++ task :: l2) -> dseg (t_threads s) 0 (l1 ++ task :: l2) 0 ->
  t_threads s !! task = Some t ->
  exists s',
    ((if negb (t_prev t =? 0) then
        p ← the_thread (t_prev t); modify (put_thread (t_prev t) (set_next (t_next t) p))
      else mret tt);;
     t ← the_thread task;
     if negb (t_next t =? 0) then
       n ← the_thread (t_next t); modify (put_thread (t_next t) (set_prev (t_prev t) n))
     else mret tt) s = Done tt s' /\
    dseg (t_threads s') 0 (l1 ++ l2) 0 /\ links_only s s' /\
    task_head s' = task_head s /\ task_tail s' = task_tail s /\ current_task s' = current_task s /\
    (exists t', t_threads s' !! task = Some t' /\ no_links t' = no_links t).
Proof.
  intros Hnd Hnz Hs Ht. pose proof Hs as Hs'. rewrite dseg_app in Hs. destruct Hs as [Hs1 [(t' & E & Hp & Hn) Hs2]].
  rewrite Ht in E. injection E as <-.
  apply NoDup_app in Hnd as (Hnd1 & Hd12 & [Hnt Hnd2]%NoDup_cons).
  apply Forall_app in Hnz as [Hz1 [Hz0 Hz2]%Forall_cons].
  (* the node before *)
  assert (Hstep1 : exists s1,
    (if negb (t_prev t =? 0) then p ← the_thread (t_prev t); modify (put_thread (t_prev t) (set_next (t_next t) p))
     else mret tt) s = Done tt s1 /\ dseg (t_threads s1) 0 l1 (hd 0 l2) /\ dseg (t_threads s1) task l2 0 /\
    t_threads s1 !! task = Some t /\ links_only s s1 /\
    task_head s1 = task_head s /\ task_tail s1 = task_tail s /\ current_task s1 = current_task s).
  { rewrite Hp. destruct (list_last_split l1) as [-> |(l1' & z & ->)].
    - exists s. split; [done|]. by split_and!.
    - rewrite last_or_snoc. assert (Hz : z <> 0) by (apply Forall_app in Hz1 as [_ Hz1]; by apply Forall_cons in Hz1 as [? _]).
      rewrite (proj2 (Z.eqb_neq z 0) Hz). change (negb false) with true. cbv iota.
      destruct (dseg_lookup _ _ _ _ z Hs1 ltac:(apply elem_of_app; right; by left)) as [tz Htz].
      assert (Hzt : z ∉ task :: l2) by (apply Hd12, elem_of_app; right; by left).
      apply not_elem_of_cons in Hzt as [Hzt Hz2'].
      rewrite (bind_thread _ _ _ _ Htz). eexists. split; [reflexivity|]. simpl. rewrite Hn.
      split; [by eapply dseg_last|]. split; [by apply dseg_other|]. split; [by rewrite lookup_insert_ne|].
      split; [|done]. constructor; try done. intros a. by apply put_no_links with (t := tz). }
  destruct Hstep1 as (s1 & E1 & Hd1 & Hd2 & Ht1 & Hlo1 & H1 & H2 & H3).
  rewrite (bind_Done _ _ _ _ _ E1), (bind_thread _ _ _ _ Ht1), Hn. destruct l2 as [|b l2].
  - change (negb (hd 0 [] =? 0)) with false. cbv iota. exists s1. split; [done|].
    rewrite app_nil_r. split; [done|]. split; [done|]. split_and!; try done. by exists t.
  - apply Forall_cons in Hz2 as [Hb _]. change (hd 0 (b :: l2)) with b. rewrite (proj2 (Z.eqb_neq b 0) Hb). change (negb false) with true.
    cbv iota. destruct (dseg_lookup _ _ _ _ b Hd2 ltac:(by left)) as [tb Htb].
    apply not_elem_of_cons in Hnt as [Hbt _].
    assert (Hb1 : b ∉ l1) by (intros Hin; apply (Hd12 b Hin); right; by left).
    rewrite (bind_thread _ _ _ _ Htb). eexists. split; [reflexivity|]. simpl. split; [|split; [|split_and!; try done]].
    + apply dseg_app. split; [by apply dseg_other|]. rewrite Hp. by eapply dseg_first.
    + destruct Hlo1 as [L1 L2 L3 L4]. constructor; try done. intros a. simpl. rewrite <- L4. by apply put_no_links with (t := tb).
    + exists t. by rewrite lookup_insert_ne.
Qed.

Lemma task_list_remove_spec s l1 l2 task :
  dll s (l1 ++ task :: l2) ->
  exists s', task_list_remove task s = Done tt s' /\ dll s' (l1 ++ l2) /\ links_only s s' /\
    current_task s' = if current_task s =? task then successor l1 l2 else current_task s.
Proof.
  intros [H1 H2 H3 H4 H5]. unfold task_list_remove.
  destruct (dseg_lookup _ _ _ _ task H5 ltac:(apply elem_of_app; right; by left)) as [t Ht].
  pose proof H5 as H5'. rewrite dseg_app in H5'. destruct H5' as [_ [(t' & E & Hp & Hn) _]].
  rewrite Ht in E. injection E as <-.
  pose proof H3 as Hnd. apply NoDup_app in Hnd as (Hnd1 & Hd12 & [Hnt Hnd2]%NoDup_cons).
  assert (Hnz0 : task <> 0) by (apply Forall_app in H4 as [_ H4]; by apply Forall_cons in H4 as [? _]).
  assert (Hl1 : task ∉ l1) by (intros Hin; apply (Hd12 task Hin); by left).
  rewrite (bind_thread _ _ _ _ Ht), bind_gets, H1.
  set (s1 := set_tail (last_or 0 (l1 ++ l2)) (set_head (hd 0 (l1 ++ l2)) s)).
  assert (Ehead : exists h, (if hd 0 (l1 ++ task :: l2) =? task then modify (set_head (t_next t)) else mret tt) s =
    Done tt (set_head h s) /\ h = hd 0 (l1 ++ l2)).
  { rewrite !hd_app. destruct l1 as [|a l1]; simpl.
    - rewrite Z.eqb_refl. by exists (t_next t).
    - assert (a <> task) by (intros ->; apply Hl1; by left). rewrite (proj2 (Z.eqb_neq a task)) by done.
      exists (task_head s). split; [by destruct s|]. by rewrite H1. }
  destruct Ehead as (h & Eh & ->). rewrite (bind_Done _ _ _ _ _ Eh), bind_gets. cbn [task_tail set_head]. rewrite H2.
  assert (Etail : (if last_or 0 (l1 ++ task :: l2) =? task then modify (set_tail (t_prev t)) else mret tt)
    (set_head (hd 0 (l1 ++ l2)) s) = Done tt s1).
  { unfold s1. rewrite !last_or_app. simpl. destruct (list_last_split l2) as [-> |(l2' & z & ->)].
    - simpl. rewrite Z.eqb_refl. rewrite Hp. by destruct s.
    - rewrite !last_or_snoc. assert (z <> task) by (intros ->; apply Hnt, elem_of_app; right; by left).
      rewrite (proj2 (Z.eqb_neq z task)) by done. rewrite last_or_app in H2. simpl in H2. rewrite last_or_snoc in H2.
      unfold set_tail. simpl. rewrite <- H2. by destruct s. }
  rewrite (bind_Done _ _ _ _ _ Etail), bind_gets. change (current_task s1) with (current_task s).
  assert (Ecur : (if current_task s =? task then n ← task_get_next; modify (set_current n) else mret tt) s1 =
    Done tt (set_current (if current_task s =? task then successor l1 l2 else current_task s) s1)).
  { destruct (Z.eqb_spec (current_task s) task) as [Ec|Ec]; [|by destruct s].
    unfold task_get_next. rewrite bind_assoc, bind_gets. change (current_task s1) with (current_task s). rewrite Ec.
    rewrite (proj2 (Z.eqb_neq task 0)) by done. rewrite bind_assoc, (bind_thread _ _ _ t) by exact Ht. rewrite Hn.
    unfold successor. destruct l2 as [|b l2].
    - change (hd 0 [] =? 0) with true. cbv iota. rewrite bind_gets. unfold s1. simpl. by rewrite app_nil_r.
    - change (hd 0 (b :: l2)) with b.
      assert (b <> 0) by (apply Forall_app in H4 as [_ H4]; apply Forall_cons in H4 as [_ H4]; by apply Forall_cons in H4 as [? _]).
      rewrite (proj2 (Z.eqb_neq b 0)) by done. by rewrite bind_ret. }
  rewrite (bind_Done _ _ _ _ _ Ecur). set (s2 := set_current _ s1).
  destruct (unlink_spec s2 l1 l2 task t H3 H4 H5 Ht) as (s' & E' & Hs' & Hlo & Q1 & Q2 & Q3 & _).
  exists s'. split; [exact E'|]. split; [|split; [|by rewrite Q3]].
  - constructor.
    + by rewrite Q1.
    + by rewrite Q2.
    + apply NoDup_app. split; [done|]. split; [|done]. intros x Hx Hx2. apply (Hd12 x Hx). by right.
    + apply Forall_app in H4 as [? H4]. apply Forall_cons in H4 as [_ H4]. by apply Forall_app.
    + done.
  - destruct Hlo. by constructor.
Qed.

(** ** The abstract list *)

(** The threads behind [a]. *)
Fixpoint after (a : Z) (l : list Z) : list Z :=
  match l with [] => [] | b :: l' => if b =? a then l' else after a l' end.

Definition without (a : Z) (l : list Z) : list Z := filter (fun b => b <> a) l.

Inductive list_op := Insert (a : Z) | Remove (a : Z).

(** What the operations are meant to do to the list and the current thread. *)
Definition spec_op (st : list Z * Z) (op : list_op) : list Z * Z :=
  let '(l, c) := st in
  match op with
  | Insert a => (l ++ [a], match l with [] => a | _ => c end)
  | Remove a => (without a l, if c =? a then hd (hd 0 (without a l)) (after a l) else c)
  end.

Definition op_ok (st : list Z * Z) (op : list_op) : Prop :=
  match op with Insert a => a <> 0 /\ a ∉ st.1 | Remove a => a ∈ st.1 end.

Fixpoint ops_ok (st : list Z * Z) (ops : list list_op) : Prop :=
  match ops with [] => True | op :: ops' => op_ok st op /\ ops_ok (spec_op st op) ops' end.

(** Inserting a freshly zeroed thread, removing one. *)
Definition run_op (op : list_op) : M tasks unit :=
  match op with
  | Insert a => modify (put_thread a zero_thread);; task_insert a
  | Remove a => task_list_remove a
  end.

Fixpoint run_ops (ops : list list_op) : M tasks unit :=
  match ops with [] => mret tt | op :: ops' => run_op op;; run_ops ops' end.

(** The list and the current thread, which is on the list unless the list is empty. *)
Definition represents s (st : list Z * Z) : Prop :=
  dll s st.1 /\ current_task s = st.2 /\ (st.2 ∈ st.1 \/ (st.1 = [] /\ st.2 = 0)).

Lemma without_app a l1 l2 : a ∉ l1 -> a ∉ l2 -> without a (l1 ++ a :: l2) = l1 ++ l2.
Proof.
  intros H1 H2. assert (Hid : forall l, a ∉ l -> without a l = l).
  { induction l as [|b l IH]; intros Hn; [done|]. apply not_elem_of_cons in Hn as [Hb Hn].
    unfold without in *. rewrite filter_cons_True by done. by rewrite IH. }
  unfold without in *. rewrite filter_app, filter_cons_False by tauto. by rewrite !Hid.
Qed.

Lemma after_app a l1 l2 : a ∉ l1 -> after a (l1 ++ a :: l2) = l2.
Proof.
  induction l1 as [|b l1 IH]; intros H1; simpl; [by rewrite Z.eqb_refl|].
  apply not_elem_of_cons in H1 as [Hb H1]. rewrite (proj2 (Z.eqb_neq b a)) by done. by apply IH.
Qed.

Lemma successor_in l1 l2 : successor l1 l2 ∈ l1 ++ l2 \/ (l1 ++ l2 = [] /\ successor l1 l2 = 0).
Proof.
  unfold successor. destruct l2 as [|b l2]; [|left; apply elem_of_app; right; by left].
  destruct l1 as [|a l1]; [by right|left; by left].
Qed.

Lemma run_op_spec s st op :
  represents s st -> op_ok st op ->
  exists s', run_op op s = Done tt s' /\ represents s' (spec_op st op) /\
    t_machine s' = t_machine s /\ t_cr3 s' = t_cr3 s.
Proof.
  destruct st as [l c]. intros (Hd & Hc & Hin) Hok. simpl in Hc, Hin. destruct op as [a|a]; simpl in Hok.
  - destruct Hok as [H0 Hni]. unfold run_op. rewrite bind_modify.
    assert (Hd1 : dll (put_thread a zero_thread s) l).
    { destruct Hd as [H1 H2 H3 H4 H5]. constructor; try done. by apply dseg_other. }
    destruct (task_insert_spec (put_thread a zero_thread s) l a zero_thread Hd1) as (s' & E & Hd' & Hlo & Hc'); try done.
    { apply lookup_insert_eq. }
    exists s'. split; [done|]. split; [|destruct Hlo; by split].
    split; [done|]. split; [rewrite Hc'; by destruct l|]. left. simpl. apply elem_of_app.
    destruct l as [|b l]; [right; by left|]. destruct Hin as [Hin|[? _]]; [by left|done].
  - apply list_elem_of_split in Hok as (l1 & l2 & El). simpl in El. subst l.
    destruct (task_list_remove_spec s l1 l2 a Hd) as (s' & E & Hd' & Hlo & Hc').
    pose proof (dl_nodup _ _ Hd) as Hnd. apply NoDup_app in Hnd as (_ & Hd12 & [Hn2 _]%NoDup_cons).
    assert (Hn1 : a ∉ l1) by (intros Hx; apply (Hd12 a Hx); by left).
    exists s'. split; [done|]. split; [|destruct Hlo; by split]. simpl.
    rewrite without_app, after_app by done. rewrite hd_app.
    assert (Es : hd (hd (hd 0 l2) l1) l2 = successor l1 l2) by (unfold successor; destruct l2; by destruct l1).
    split; [done|]. rewrite Hc in Hc'. simpl. rewrite Es. split; [done|].
    destruct (Z.eqb_spec c a) as [->|Hne]; [apply successor_in|]. left.
    destruct Hin as [Hin|[Hnil _]]; [|by destruct l1]. apply elem_of_app in Hin as [Hin|[?|Hin]%elem_of_cons]; [|done|];
      apply elem_of_app; auto.
Qed.

(** ** Creating and destroying threads: memory *)

Definition t_heap s : heap := m_heap (t_machine s).

Lemma bind_machine {A T} (m : M machine A) (k : A -> M tasks T) s a h :
  m (t_machine s) = Done a h -> (on_machine m ≫= k) s = k a (set_t_machine h s).
Proof. intros E. apply bind_Done. by apply zoom_Done. Qed.

(** The blocks of a thread: its structure and its address space. *)
Definition thread_blocks (m : mem) (task chunk : Z) : list Z := task :: space_blocks m chunk.

Lemma dll_ext s s' l :
  dll s l -> task_head s' = task_head s -> task_tail s' = task_tail s -> dseg (t_threads s') 0 l 0 -> dll s' l.
Proof. intros [H1 H2 H3 H4 H5] E1 E2 Hs. constructor; by rewrite ?E1, ?E2. Qed.

Definition start_registers (m : mem) (filetype ptr : Z) : registers :=
  mk_registers 0 0 0 0 0 0 0
    (if negb (filetype =? PROCESS_FILETYPE_ELF) then entry_through m ptr else KERNEL_PROGRAM_VIRTUAL_ADDRESS)
    USER_CODE_SEGMENT 0 KERNEL_PROGRAM_VIRTUAL_STACK_ADDRESS_START USER_DATA_SEGMENT.

Lemma task_new_total s l process filetype ptr :
  dll s l -> kheap_ok (t_heap s) -> 1027 <= free_blocks (t_heap s) ->
  (forall a, a ∈ l -> live (t_heap s) a 1) ->
  exists task chunk t s', task_new process filetype ptr s = Done task s' /\
    0 < task /\ (task ∉ l) /\ dll s' (l ++ [task]) /\ kheap_ok (t_heap s') /\
    t_threads s' !! task = Some t /\ (no_links t) = (chunk, start_registers (t_mem s') filetype ptr, process) /\
    (forall a, a <> task -> (no_links <$> (t_threads s' !! a)) = (no_links <$> (t_threads s !! a))) /\
    current_task s' = match l with [] => task | _ => current_task s end /\
    space_ok (t_mem s') chunk /\ (task ∉ space_blocks (t_mem s') chunk) /\
    (forall va, 0 <= va < 4294967296 -> translate (t_mem s') (directory_entry (t_mem s') chunk) va = Some va) /\
    (t_cr3 s' = t_cr3 s /\ forall x, (forall b, b ∈ thread_blocks (t_mem s') task chunk -> ~ b <= x < b + 4096) -> t_mem s' x = t_mem s x) /\
    (forall b n, live (t_heap s') b n <-> (n = 1 /\ b ∈ thread_blocks (t_mem s') task chunk) \/ live (t_heap s) b n) /\
    (forall b n, b ∈ thread_blocks (t_mem s') task chunk -> live (t_heap s) b n -> False).
Proof.
  intros Hd Hok Hfree Hl. unfold task_new.
  destruct (kzalloc_page (t_machine s) sizeof_thread_info Hok ltac:(unfold t_heap in *; lia) ltac:(done) ltac:(reflexivity))
    as (task & h1 & E1 & Hok1 & Htp & Hf1 & Hown1 & Hap1 & Hso1 & _).
  rewrite (bind_machine _ _ _ _ _ E1), (proj2 (Z.eqb_neq task 0)), bind_modify by lia.
  assert (Hfr : forall n, live (t_heap s) task n -> False).
  { intros n Hn. pose proof (Hap1 _ _ Hn) as Hx. destruct (kheap_live_range _ _ _ Hok Hn) as (_ & ? & _).
    unfold apart, KERNEL_HEAP_BLOCK_SIZE in Hx. lia. }
  assert (Hni : task ∉ l) by (intros Hin; eapply Hfr, Hl, Hin).
  set (s1 := put_thread task zero_thread (set_t_machine h1 s)).
  destruct (new_chunk_spec h1 (Z.lor PAGING_IS_PRESENT PAGING_ACCESS_FROM_ALL) Hok1 ltac:(unfold t_heap in *; lia)
    ltac:(done) ltac:(reflexivity)) as (chunk & h2 & E2 & Hok2 & _ & Hsp & Htab & Hl2 & Hfr2 & Hfm & _).
  pose proof (so_chunk _ _ Hsp) as Hc.
  unfold task_init. rewrite !bind_assoc, (bind_machine _ _ s1 _ _ E2).
  rewrite bind_assoc, (bind_thread _ _ task zero_thread) by apply lookup_insert_eq.
  rewrite bind_assoc, bind_modify, (proj2 (Z.eqb_neq chunk 0)), bind_assoc, bind_gets, bind_assoc, bind_modify, bind_ret by lia.
  change (negb (0 =? KERNEL_ALL_OK)) with false. cbv iota.
  match goal with |- context [put_thread task (mk_thread_info chunk ?r process ?n ?q) ?s0] =>
    set (t := mk_thread_info chunk r process n q); set (s2 := put_thread task t s0) end.
  assert (Hd2 : dll s2 l).
  { apply (dll_ext s); try done. simpl. repeat (apply dseg_other; [done|]). apply (dl_seg _ _ Hd). }
  destruct (task_insert_spec s2 l task t Hd2) as (s3 & E3 & Hd3 & Hlo & Hcur); try done; [apply lookup_insert_eq|lia|].
  rewrite (bind_Done _ _ _ _ _ E3). destruct Hlo as [L1 L2 L3 L4].
  pose proof (L4 task) as Ht. assert (Hs2 : t_threads s2 !! task = Some t) by apply lookup_insert_eq. rewrite Hs2 in Ht.
  destruct (t_threads s3 !! task) as [t3|] eqn:Et3; [|discriminate Ht].
  change (Some (no_links t3) = Some (no_links t)) in Ht. assert (Hlk : no_links t3 = no_links t) by congruence.
  exists task, chunk, t3, s3. assert (Em : t_machine s3 = h2) by (by rewrite L1).
  assert (Hnt : task ∉ space_blocks (m_mem h2) chunk).
  { intros Hin. apply (Hfr2 task 1 Hin), Hown1. by left. }
  unfold t_heap, t_mem in *. rewrite Em. split_and!; try done.
  - intros a Hne. rewrite L4. simpl. by rewrite !lookup_insert_ne.
  - intros va Hva. by apply (identity_translate _ _ (Z.lor PAGING_IS_PRESENT PAGING_ACCESS_FROM_ALL)).
  - intros x Hx. rewrite Hfm by (intros b Hb; apply Hx; by right). apply Hso1.
    pose proof (Hx task (list_elem_of_here _ _)). lia.
  - intros b n. rewrite (Hl2 b n), (Hown1 b n). unfold thread_blocks. rewrite elem_of_cons. clear. tauto.
  - intros b n [-> |Hb]%elem_of_cons Hln; [by apply (Hfr n)|]. apply (Hfr2 b n Hb), Hown1. by right.
Qed.

Lemma task_free_total s l1 l2 task t :
  dll s (l1 ++ task :: l2) -> kheap_ok (t_heap s) -> t_threads s !! task = Some t ->
  space_ok (t_mem s) (page_directory t) -> task ∉ space_blocks (t_mem s) (page_directory t) ->
  (forall b, b ∈ thread_blocks (t_mem s) task (page_directory t) -> live (t_heap s) b 1) ->
  exists s', task_free task s = Done 0 s' /\ dll s' (l1 ++ l2) /\ kheap_ok (t_heap s') /\ t_mem s' = t_mem s /\
    current_task s' = (if current_task s =? task then successor l1 l2 else current_task s) /\
    t_threads s' !! task = None /\
    (forall a, a <> task -> (no_links <$> (t_threads s' !! a)) = (no_links <$> (t_threads s !! a))) /\
    forall b n, live (t_heap s') b n <->
      live (t_heap s) b n /\ b ∉ thread_blocks (t_mem s) task (page_directory t).
Proof.
  intros Hd Hok Ht Hsp Hnt Hl. unfold task_free.
  assert (H0 : task <> 0) by (pose proof (dl_pos _ _ Hd) as Hp; apply Forall_app in Hp as [_ Hp]; by apply Forall_cons in Hp as [? _]).
  rewrite (proj2 (Z.eqb_neq task 0)) by done. rewrite (bind_thread _ _ _ _ Ht).
  destruct (paging_free_4gb_spec (t_machine s) (page_directory t) Hok Hsp) as (h1 & E1 & Em1 & Hok1 & Hl1).
  { intros b Hb. apply Hl. by right. }
  rewrite (bind_machine _ _ _ _ _ E1).
  assert (Hd1 : dll (set_t_machine h1 s) (l1 ++ task :: l2))
    by (apply (dll_ext s); [exact Hd|reflexivity|reflexivity|exact (dl_seg _ _ Hd)]).
  destruct (task_list_remove_spec _ l1 l2 task Hd1) as (s2 & E2 & Hd2 & [L1 L2 L3 L4] & Hc2).
  rewrite (bind_Done _ _ _ _ _ E2).
  assert (Hlt : live (m_heap h1) task 1) by (apply Hl1; split; [apply Hl; by left|done]).
  destruct (@al_free_spec heap heap_allocator heap_allocator_laws _ _ 1 Hok1 Hlt) as [Hok2 Hless].
  assert (E3 : kfree task (t_machine s2) = Done tt (mk_machine (heap_free (m_heap h1) task) (m_mem h1)))
    by (rewrite L1; done).
  rewrite (bind_machine _ _ _ _ _ E3), bind_modify. eexists. split; [reflexivity|]. unfold t_heap, t_mem in *. simpl.
  pose proof (dl_nodup _ _ Hd) as Hnd. apply NoDup_app in Hnd as (_ & Hd12 & [Hn2 _]%NoDup_cons).
  assert (Hni : task ∉ l1 ++ l2).
  { intros [Hx|Hx]%elem_of_app; [apply (Hd12 task Hx); left|exact (Hn2 Hx)]. }
  split; [|split; [exact Hok2|split; [exact Em1|split; [exact Hc2|split; [apply lookup_delete_eq|split]]]]].
  - apply (dll_ext s2); [exact Hd2|reflexivity|reflexivity|]. simpl.
    assert (Hdel : forall g p l n, task ∉ l -> dseg g p l n -> dseg (delete task g) p l n).
    { clear. intros g p l n. revert p. induction l as [|b l IH]; intros p Hn; simpl; [done|].
      apply not_elem_of_cons in Hn as [Hne Hn]. intros [(t & E & Hr) Hs]. split; [|by apply IH].
      exists t. by rewrite lookup_delete_ne. }
    apply Hdel; [done|]. apply (dl_seg _ _ Hd2).
  - intros a Hne. rewrite lookup_delete_ne by done. apply (L4 a).
  - intros b n. unfold thread_blocks. rewrite not_elem_of_cons. pose proof (Hless b n) as Hx. pose proof (Hl1 b n) as Hy.
    cbn [al_live al_free heap_allocator] in Hx. clear -Hx Hy. tauto.
Qed.

(** ** Copying strings between address spaces *)

Lemma store_bytes_snoc m a l b : store_bytes m a (l ++ [b]) = st8 (store_bytes m a l) (a + zlen l) b.
Proof.
  revert m a. induction l as [|c l IH]; intros m a; simpl; [change (zlen (@nil Z)) with 0; by rewrite Z.add_0_r|].
  rewrite IH, zlen_cons. f_equal. lia.
Qed.

Definition nth_byte (l : list Z) (j : Z) : Z := default 0 (zget l j).

Section copy.
Context (m : mem) (dir : option Z) (dst str R : Z) (s : list Z) (count : Z).

(** Memory outside the destination is unchanged. *)
Definition agrees (m' : mem) : Prop := forall x, x < dst \/ dst + R <= x -> m' x = m x.

Hypothesis Hrange : 0 <= dst /\ zlen s < R /\ dst + R <= 4294967296.
Hypothesis Hcount : zlen s <= count.
Hypothesis Hchars : Forall (fun c => 0 < c < 256) s.
Hypothesis Hdst : forall m' j, agrees m' -> 0 <= j < R -> xlate m' dir (dst + j) = Some (dst + j).
(** The source holds [s]; its terminator is behind it, unless the count stops there. *)
Hypothesis Hsrc : forall m' j, agrees m' -> 0 <= j <= zlen s -> j < count -> vld8 m' dir (str + j) = Some (nth_byte s j).

Lemma agrees_store l : zlen l <= R -> agrees (store_bytes m dst l).
Proof. intros Hl x Hx. apply store_bytes_other; lia. Qed.

Lemma vst8_dst m' j v : agrees m' -> 0 <= j < R -> vst8 m' dir (dst + j) v = Some (st8 m' (dst + j) v).
Proof. intros Ha Hj. unfold vst8. by rewrite Hdst. Qed.

Lemma mstrncpy_loop_spec n p q :
  s = p ++ q -> zlen p + Z.of_nat n = count ->
  mstrncpy_loop n dir (store_bytes m dst p) dst str (zlen p) = Some (store_bytes m dst s, zlen s).
Proof.
  intros Es. revert p Es. revert q. induction n as [|n IH]; intros q p Es Hn;
    pose proof (zlen_nonneg p); pose proof (zlen_nonneg q); assert (Hz : zlen s = zlen p + zlen q) by (by rewrite Es, zlen_app).
  { assert (q = []) as -> by (apply nil_length_inv; unfold zlen in *; lia). rewrite app_nil_r in Es. by rewrite Es. }
  cbn [mstrncpy_loop]. rewrite Hsrc by (apply agrees_store || lia; lia). unfold nth_byte. rewrite Es, zget_app.
  rewrite (proj2 (Z.ltb_ge (zlen p) (zlen p))), Z.sub_diag by lia. destruct q as [|c q].
  - simpl. by rewrite app_nil_r.
  - rewrite zget_cons. simpl default. assert (Hc : 0 < c < 256) by (rewrite Es in Hchars; apply Forall_app in Hchars as [_ Hq]; by apply Forall_cons in Hq as [? _]).
    rewrite (proj2 (Z.eqb_neq c 0)) by lia. rewrite zlen_cons in Hz. pose proof (zlen_nonneg q).
    rewrite vst8_dst by (apply agrees_store || lia; lia). rewrite <- store_bytes_snoc.
    replace (zlen p + 1) with (zlen (p ++ [c])) by (rewrite zlen_app; done).
    rewrite (IH q (p ++ [c])); [by rewrite Es|by rewrite <- app_assoc|rewrite zlen_app; change (zlen [c]) with 1; lia].
Qed.

Lemma mstrncpy_spec :
  mstrncpy dir m dst str count = Some (match s with [] => m | _ => store_bytes m dst (s ++ [0]) end).
Proof.
  unfold mstrncpy. pose proof (zlen_nonneg s).
  pose proof (mstrncpy_loop_spec (Z.to_nat count) [] s eq_refl) as E. simpl store_bytes in E.
  change (zlen (@nil Z)) with 0 in E. rewrite E by (unfold zlen in *; lia). destruct (Z.eq_dec (zlen s) 0) as [H0|H0].
  - assert (Es : s = []) by (by apply nil_length_inv, Nat2Z.inj). rewrite H0. by rewrite Es.
  - rewrite (proj2 (Z.ltb_lt 0 _)), vst8_dst by (apply agrees_store || lia; lia). rewrite <- store_bytes_snoc.
    assert (Hne : s <> []) by (intros E0; by rewrite E0 in H0). by destruct s.
Qed.
End copy.

(** Addresses the kernel heap will not hand out: outside it, or in a block that is live. *)
Definition safe (h : heap) (x : Z) : Prop :=
  x < KERNEL_HEAP_ADDRESS \/ exists b n, live h b n /\ b <= x < b + n * KERNEL_HEAP_BLOCK_SIZE.

Lemma safe_apart h h' tmp x :
  kheap_ok h' -> own_more h h' tmp 1 -> (forall b n, live h b n -> apart tmp 1 b n) -> safe h x ->
  x < tmp \/ tmp + 4096 <= x.
Proof.
  intros (_ & Hs & _) Hown Hap [Hx|(b & n & Hb & Hx)].
  - assert (Hl : live h' tmp 1) by (apply Hown; by left). destruct Hl as (k & Hk & ->).
    destruct (live_range _ _ _ Hk) as [Hk0 _]. left. rewrite Hs. unfold KERNEL_HEAP_BLOCK_SIZE. lia.
  - pose proof (Hap _ _ Hb) as Ha. unfold apart, KERNEL_HEAP_BLOCK_SIZE in *. lia.
Qed.

Lemma store_blocks m chunk va val :
  space_ok m chunk -> 0 <= va < 4294967296 -> va mod 4096 = 0 -> 0 <= val < 4294967296 ->
  space_blocks (store_pte m chunk va val) chunk = space_blocks m chunk.
Proof.
  intros Hok Hva Hal Hval. unfold space_blocks. rewrite store_chunk by done. do 2 f_equal.
  apply map_ext_in. intros i Hi. apply list_elem_of_In, elem_of_seqZ in Hi.
  assert (0 <= i < 1024) by lia. by apply store_table_at.
Qed.

(** Where address [va] of the space goes when the entry of page [w] has been set to [val]. *)
Definition patched (m : mem) (dir w val va : Z) : option Z :=
  if va - va mod 4096 =? w then (if Z.testbit val 0 then Some (val / 4096 * 4096 + va mod 4096) else None)
  else translate m dir va.

(** Setting the entry of page [w], then writing anywhere outside the space's blocks. *)
Lemma window_spec m chunk w val m' :
  space_ok m chunk -> 0 < w < 4294967296 -> w mod 4096 = 0 -> 0 <= val < 4294967296 ->
  (forall b x, b ∈ space_blocks m chunk -> b <= x < b + 4096 -> m' x = store_pte m chunk w val x) ->
  space_ok m' chunk /\ directory_entry m' chunk = directory_entry m chunk /\
  space_blocks m' chunk = space_blocks m chunk /\
  forall va, 0 <= va < 4294967296 ->
    translate m' (directory_entry m chunk) va = patched m (directory_entry m chunk) w val va.
Proof.
  intros Hok Hw Hwa Hval Hag. assert (Hw' : 0 <= w < 4294967296) by lia.
  pose proof (store_ok m chunk Hok w val Hw' Hwa Hval) as Hok2.
  pose proof (store_chunk m chunk Hok w val Hw' Hwa) as Hde.
  pose proof (store_blocks m chunk w val Hok Hw' Hwa Hval) as Hbl.
  destruct (space_agree (store_pte m chunk w val) m' chunk Hok2) as (H1 & H2 & H3 & H4 & H5).
  { intros b x Hb. rewrite Hbl in Hb. by apply Hag. }
  rewrite Hde in H2, H5. rewrite Hbl in H3. split; [done|]. split; [done|]. split; [done|].
  intros va Hva. rewrite H5 by done. rewrite <- Hde, translate_pte by done. rewrite Hde.
  destruct (page_base va Hva) as [Hb Ha]. rewrite store_pte_get by done. unfold patched.
  destruct (Z.eqb_spec (va - va mod 4096) w); [done|]. by rewrite <- translate_pte.
Qed.

Lemma store_bytes_get m a bs j b :
  0 <= a -> a + zlen bs <= 4294967296 -> Forall (fun b => 0 <= b < 256) bs -> zget bs j = Some b ->
  store_bytes m a bs (a + j) = b.
Proof.
  intros Ha Hb Hbs Hj. pose proof (zget_Some_range _ _ _ Hj) as Hr.
  pose proof (load_store_bytes m a bs Ha Hb Hbs) as E. rewrite <- E in Hj at 1. unfold load_bytes in Hj.
  rewrite zget_map_seqZ in Hj by lia. injection Hj as <-. unfold ld8. rewrite u32_small by lia. f_equal.
Qed.

Lemma blocks_of_page n : 0 < n <= 4096 -> blocks_of n = 1.
Proof. intros Hn. unfold blocks_of, heap_align_value_upper, KERNEL_HEAP_BLOCK_SIZE. zcase; wrap. Qed.

(** The scratch page: a fresh zeroed block, apart from everything the caller can name. *)
Lemma scratch_page h max chunk :
  kheap_ok (m_heap h) -> 0 < free_blocks (m_heap h) -> 0 < max <= 4096 -> mem_ok (m_mem h) ->
  space_ok (m_mem h) chunk -> (forall b, b ∈ space_blocks (m_mem h) chunk -> live (m_heap h) b 1) ->
  exists tmp h', kzalloc max h = Done tmp h' /\ kheap_ok (m_heap h') /\ live (m_heap h') tmp 1 /\
    0 < tmp /\ tmp mod 4096 = 0 /\ tmp + 4096 <= 2147483648 /\ mem_ok (m_mem h') /\
    (forall n, live (m_heap h) tmp n -> False) /\ own_more (m_heap h) (m_heap h') tmp 1 /\
    (forall x, safe (m_heap h) x -> x < tmp \/ tmp + 4096 <= x) /\
    (forall b x, b ∈ space_blocks (m_mem h) chunk -> b <= x < b + 4096 -> x < tmp \/ tmp + 4096 <= x) /\
    same_outside (m_mem h) (m_mem h') tmp 4096 /\ (forall x, tmp <= x < tmp + 4096 -> m_mem h' x = 0).
Proof.
  intros Hok Hfree Hmax Hm Hsp Hl. pose proof (blocks_of_page max Hmax) as Hb1.
  destruct (kzalloc_page h max Hok Hfree ltac:(lia) Hb1) as (tmp & h' & E & Hok' & Htp & _ & Hown & Hap & Hso & Hmo).
  assert (Hlt : live (m_heap h') tmp 1) by (apply Hown; by left).
  destruct (kheap_live_range _ _ _ Hok' Hlt) as (_ & _ & Hal & Hr). unfold KERNEL_HEAP_BLOCK_SIZE in Hal, Hr.
  exists tmp, h'. split; [exact E|]. split; [exact Hok'|]. split; [exact Hlt|]. split; [exact Htp|].
  split; [exact Hal|]. split; [lia|]. split; [by apply Hmo|]. split; [|split; [exact Hown|split; [|split; [|split; [exact Hso|]]]]].
  - intros n Hn. pose proof (Hap _ _ Hn) as Hx. destruct (kheap_live_range _ _ _ Hok Hn) as (_ & ? & _).
    unfold apart, KERNEL_HEAP_BLOCK_SIZE in Hx. lia.
  - intros x Hx. by apply (safe_apart (m_heap h) (m_heap h')).
  - intros b x Hb Hx. pose proof (Hap _ _ (Hl b Hb)) as Ha. unfold apart, KERNEL_HEAP_BLOCK_SIZE in Ha. lia.
  - destruct (kzalloc_spec h max Hok ltac:(lia)) as (a & s' & E' & _ & D). rewrite E in E'. injection E' as <- <-.
    destruct D as [[-> _]|(_ & _ & _ & _ & Hz & _)]; [lia|]. intros x Hx. apply Hz.
    rewrite Hb1. unfold KERNEL_HEAP_BLOCK_SIZE. lia.
Qed.

Lemma store_pte_outside m chunk va val x :
  space_ok m chunk -> 0 <= va < 4294967296 -> va mod 4096 = 0 ->
  (forall b, b ∈ space_blocks m chunk -> ~ b <= x < b + 4096) -> store_pte m chunk va val x = m x.
Proof.
  intros Hok Hva Hal Hx. apply (store_frame m chunk va val Hok Hva Hal). intros i Hi. apply Hx, space_blocks_tables. eauto.
Qed.

(** An address that neither the heap nor the tables of a space use. *)
Definition untouched (h : heap) (m : mem) (chunk x : Z) : Prop :=
  safe h x /\ forall b, b ∈ space_blocks m chunk -> ~ b <= x < b + 4096.

(** The C string [str] at [virtual] of the address space [chunk], in frames of its own. *)
Definition user_string (h : heap) (m : mem) (chunk virtual : Z) (str : list Z) : Prop :=
  forall j, 0 <= j <= zlen str -> 0 <= virtual + j < 4294967296 /\ safe h (virtual + j) /\
    exists pa, translate m (directory_entry m chunk) (virtual + j) = Some pa /\ 0 <= pa < 4294967296 /\
      untouched h m chunk pa /\ ld8 m pa = nth_byte str j.

(** The first [max] characters of [str], or all of it. *)
Definition cut (max : Z) (str : list Z) : list Z := take (Z.to_nat max) str.

Lemma cut_len max str : 0 <= max -> zlen (cut max str) = Z.min max (zlen str).
Proof. intros H. unfold cut, zlen. rewrite length_take. lia. Qed.

Lemma cut_short max str : zlen str <= max -> cut max str = str.
Proof. intros H. apply take_ge. unfold zlen in H. lia. Qed.

Lemma cut_byte max str j : 0 <= j < max -> nth_byte (cut max str) j = nth_byte str j.
Proof.
  intros H. unfold nth_byte, cut, zget. rewrite (proj2 (Z.leb_le 0 j)) by lia. rewrite lookup_take.
  rewrite decide_True by lia. done.
Qed.

Lemma page_of x p : p mod 4096 = 0 -> (x < p \/ p + 4096 <= x) -> x - x mod 4096 <> p.
Proof. intros Hp Hx E. Z.to_euclidean_division_equations. lia. Qed.

Lemma nth_byte_end str : nth_byte str (zlen str) = 0.
Proof. unfold nth_byte. by rewrite zget_None by (right; lia). Qed.

Lemma nth_byte_snoc str j : 0 <= j <= zlen str -> zget (str ++ [0]) j = Some (nth_byte str j).
Proof.
  intros Hj. unfold nth_byte. rewrite zget_app. zcase.
  - destruct (zget_is_Some str j) as [v ->]; [lia|done].
  - assert (j = zlen str) as -> by lia. by rewrite Z.sub_diag, (zget_None str) by (right; lia).
Qed.

Lemma user_string_cut h m chunk virtual max str :
  user_string h m chunk virtual str -> 0 <= max ->
  forall j, 0 <= j <= zlen (cut max str) -> j < max -> 0 <= virtual + j < 4294967296 /\ safe h (virtual + j) /\
    exists pa, translate m (directory_entry m chunk) (virtual + j) = Some pa /\ 0 <= pa < 4294967296 /\
      untouched h m chunk pa /\ ld8 m pa = nth_byte (cut max str) j.
Proof. intros H Hm j Hj Hjm. rewrite cut_byte by lia. apply H. rewrite cut_len in Hj; lia. Qed.

(** The first copy: through the task's directory into the scratch page [tmp]. *)
Section copy_in.
Context (h : heap) (m m1 : mem) (chunk tmp virtual max : Z) (str : list Z).
Abbreviation D := (directory_entry m chunk).
Abbreviation m2 := (store_pte m1 chunk tmp (tmp + 7)).

Hypothesis Hsp : space_ok m chunk.
Hypothesis Htmp : 0 < tmp /\ tmp mod 4096 = 0 /\ tmp + 4096 <= 2147483648.
Hypothesis Hsafe : forall x, safe h x -> x < tmp \/ tmp + 4096 <= x.
Hypothesis Hblk : forall b x, b ∈ space_blocks m chunk -> b <= x < b + 4096 -> x < tmp \/ tmp + 4096 <= x.
Hypothesis Hout : same_outside m m1 tmp 4096.
Hypothesis Hzero : forall x, tmp <= x < tmp + 4096 -> m1 x = 0.
Hypothesis Hstr : forall j, 0 <= j <= zlen str -> j < max -> 0 <= virtual + j < 4294967296 /\ safe h (virtual + j) /\
  exists pa, translate m D (virtual + j) = Some pa /\ 0 <= pa < 4294967296 /\ untouched h m chunk pa /\ ld8 m pa = nth_byte str j.
Hypothesis Hchars : Forall (fun c => 0 < c < 256) str.
Hypothesis Hlen : zlen str <= max /\ zlen str < 4096.

Lemma scratch_space :
  space_ok m1 chunk /\ directory_entry m1 chunk = D /\ space_blocks m1 chunk = space_blocks m chunk /\
  (forall va, 0 <= va < 4294967296 -> pte m1 D va = pte m D va) /\
  forall va, 0 <= va < 4294967296 -> translate m1 D va = translate m D va.
Proof. apply space_agree; [done|]. intros b x Hb Hx. apply Hout. by apply (Hblk b). Qed.

Lemma window_open m' :
  (forall x, x < tmp \/ tmp + 4096 <= x -> m' x = m2 x) ->
  space_ok m' chunk /\ directory_entry m' chunk = D /\ space_blocks m' chunk = space_blocks m chunk /\
  (forall va, 0 <= va < 4294967296 ->
     translate m' D va = if va - va mod 4096 =? tmp then Some va else translate m D va) /\
  forall x, x < tmp \/ tmp + 4096 <= x -> (forall b, b ∈ space_blocks m chunk -> ~ b <= x < b + 4096) -> m' x = m x.
Proof.
  intros Ha. destruct scratch_space as (Hok1 & Hd1 & Hb1 & _ & Ht1).
  destruct (window_spec m1 chunk tmp (tmp + 7) m' Hok1) as (H1 & H2 & H3 & H4); try lia.
  { intros b x Hb Hx. apply Ha. rewrite Hb1 in Hb. by apply (Hblk b). }
  rewrite Hd1 in H2, H4. rewrite Hb1 in H3. split; [done|]. split; [done|]. split; [done|]. split.
  - intros va Hva. rewrite H4 by done. unfold patched. destruct (Z.eqb_spec (va - va mod 4096) tmp) as [E|_]; [|by apply Ht1].
    rewrite testbit_low by lia. change (Z.testbit 7 0) with true. cbv iota. f_equal.
    Z.to_euclidean_division_equations. lia.
  - intros x Hx Hnb. rewrite Ha by done. rewrite store_pte_outside; [by apply Hout|done|lia|lia|by rewrite Hb1].
Qed.

Lemma copy_in_spec :
  exists m3, mstrncpy (Some D) m2 tmp virtual max = Some m3 /\
    (forall x, x < tmp \/ tmp + 4096 <= x -> m3 x = m2 x) /\
    forall j, 0 <= j <= zlen str -> ld8 m3 (tmp + j) = nth_byte str j.
Proof.
  pose proof (zlen_nonneg str) as Hs0.
  assert (Hz : forall x, tmp <= x < tmp + 4096 -> m2 x = 0).
  { intros x Hx. destruct scratch_space as (Hok1 & _ & Hb1 & _). rewrite store_pte_outside; [by apply Hzero|done|lia|lia|].
    rewrite Hb1. intros b Hb Hbx. pose proof (Hblk b x Hb Hbx). lia. }
  assert (E : mstrncpy (Some D) m2 tmp virtual max =
              Some (match str with [] => m2 | _ => store_bytes m2 tmp (str ++ [0]) end)).
  { apply (mstrncpy_spec m2 (Some D) tmp virtual 4096 str max); [lia|lia|done| |].
    - intros m' j Ha Hj. destruct (window_open m' Ha) as (_ & _ & _ & Ht & _). unfold xlate. rewrite u32_small by lia.
      rewrite Ht by lia. replace (tmp + j - (tmp + j) mod 4096) with tmp by (Z.to_euclidean_division_equations; lia).
      by rewrite Z.eqb_refl.
    - intros m' j Ha Hj Hjm. destruct (window_open m' Ha) as (_ & _ & _ & Ht & Hm). destruct (Hstr j Hj Hjm) as (Hr & Hs & pa & Htr & Hpa & [Hp1 Hp2] & Hv).
      unfold vld8, xlate. rewrite u32_small by lia. rewrite Ht by lia.
      rewrite (proj2 (Z.eqb_neq _ tmp)) by (apply page_of; [lia|by apply Hsafe]). rewrite Htr, <- Hv. f_equal.
      unfold ld8. rewrite u32_small by lia. apply Hm; [by apply Hsafe|done]. }
  eexists. split; [exact E|]. destruct str as [|c str'] eqn:Es; rewrite <- Es in *.
  - split; [done|]. intros j Hj. rewrite Es in Hj. change (zlen (@nil Z)) with 0 in Hj. assert (j = 0) as -> by lia.
    unfold ld8. rewrite u32_small by lia. rewrite Hz by lia. rewrite Es. reflexivity.
  - assert (Hl : zlen (str ++ [0]) = zlen str + 1) by (by rewrite zlen_app).
    split; [intros x Hx; apply store_bytes_other; lia|]. intros j Hj. unfold ld8. rewrite u32_small by lia.
    apply store_bytes_get; [lia|lia| |by apply nth_byte_snoc]. apply Forall_app. split; [|by repeat constructor].
    eapply Forall_impl; [exact Hchars|]. simpl. lia.
Qed.
End copy_in.

(** The second copy: from the scratch page to [phys], in the kernel's own space. *)
Lemma copy_out_spec m4 tmp phys max str :
  Forall (fun c => 0 < c < 256) str -> zlen str <= max -> zlen str < 4096 -> 0 <= tmp -> tmp + 4096 <= 2147483648 ->
  0 <= phys -> phys + zlen str < 4294967296 ->
  (forall j, 0 <= j <= zlen str -> phys + j < tmp \/ tmp + 4096 <= phys + j) ->
  (forall j, 0 <= j <= zlen str -> ld8 m4 (tmp + j) = nth_byte str j) ->
  mstrncpy None m4 phys tmp max = Some (match str with [] => m4 | _ => store_bytes m4 phys (str ++ [0]) end).
Proof.
  intros Hc Hl Hl2 Ht0 Ht Hp Hpe Hap Hsrc. pose proof (zlen_nonneg str).
  apply (mstrncpy_spec m4 None phys tmp (zlen str + 1) str max); [lia|lia|done| |].
  - intros m' j _ Hj. unfold xlate. by rewrite u32_small by lia.
  - intros m' j Ha Hj _. unfold vld8, xlate. rewrite u32_small by lia. rewrite <- Hsrc by done. f_equal.
    unfold ld8. rewrite !u32_small by lia. apply Ha.
    destruct (Z.lt_ge_cases (tmp + j) phys); [by left|]. right.
    destruct (Z.le_gt_cases (phys + (zlen str + 1)) (tmp + j)); [done|].
    pose proof (Hap (tmp + j - phys) ltac:(lia)). lia.
Qed.

(** The entry [copy_string_from_task] saves: that of [virtual] if it starts a page, that of
    page 0 otherwise. *)
Definition saved_page (virtual : Z) : Z := if virtual mod 4096 =? 0 then virtual else 0.

Lemma saved_entry m chunk virtual :
  space_ok m chunk -> 0 <= virtual < 4294967296 ->
  paging_get m chunk virtual = pte m (directory_entry m chunk) (saved_page virtual).
Proof.
  intros Hok Hv. unfold saved_page. destruct (Z.eqb_spec (virtual mod 4096) 0) as [E|E]; [by apply paging_get_eq|].
  rewrite <- (paging_get_eq m chunk Hok 0) by done. unfold paging_get, paging_get_indexes, paging_is_aligned, PAGING_PAGE_SIZE.
  rewrite (proj2 (Z.eqb_neq _ _) E). by destruct (virtual =? 0).
Qed.

Lemma saved_page_range virtual : 0 <= virtual < 4294967296 ->
  0 <= saved_page virtual < 4294967296 /\ saved_page virtual mod 4096 = 0.
Proof. intros. unfold saved_page. by destruct (Z.eqb_spec (virtual mod 4096) 0). Qed.

(** Setting the scratch page's entry to the saved one makes the page an alias. *)
Lemma alias_translate m chunk src o :
  space_ok m chunk -> 0 <= src < 4294967296 -> src mod 4096 = 0 -> 0 <= o < 4096 ->
  (if Z.testbit (pte m (directory_entry m chunk) src) 0
   then Some (pte m (directory_entry m chunk) src / 4096 * 4096 + o) else None) =
  translate m (directory_entry m chunk) (src + o).
Proof.
  intros Hok Hs Ha Ho. assert (E : (src + o) mod 4096 = o) by (Z.to_euclidean_division_equations; lia).
  rewrite translate_pte by (done || (Z.to_euclidean_division_equations; lia)). rewrite E. by replace (src + o - o) with src by lia.
Qed.

Lemma own_less_more h h1 h2 a :
  own_more h h1 a 1 -> own_less h1 h2 a -> (forall n, live h a n -> False) -> own_same h h2.
Proof.
  intros Hm Hl Hf b n. rewrite (Hl b n), (Hm b n). split.
  - intros [[[-> _]|Hb] Hne]; [by destruct Hne|exact Hb].
  - intros Hb. split; [by right|]. intros ->. exact (Hf n Hb).
Qed.

(** The state after a copy of [str] to [phys] that used the scratch page [tmp]. *)
Record copied s s' (chunk tmp virtual phys : Z) (str : list Z) : Prop := {
  cp_heap : kheap_ok (t_heap s') /\ own_same (t_heap s) (t_heap s');
  cp_threads : t_threads s' = t_threads s;
  cp_bytes : load_bytes (t_mem s') phys (zlen str + 1) =
    match str with [] => load_bytes (t_mem s) phys 1 | _ => str ++ [0] end;
  cp_space : space_ok (t_mem s') chunk /\ directory_entry (t_mem s') chunk = directory_entry (t_mem s) chunk;
  cp_scratch : 0 < tmp /\ tmp mod 4096 = 0 /\ (forall n, live (t_heap s) tmp n -> False);
  cp_translate : forall va, 0 <= va < 4294967296 ->
    translate (t_mem s') (directory_entry (t_mem s) chunk) va =
    translate (t_mem s) (directory_entry (t_mem s) chunk)
      (if va - va mod 4096 =? tmp then saved_page virtual + va mod 4096 else va);
  cp_current : current_task s' = current_task s /\ task_head s' = task_head s /\ task_tail s' = task_tail s /\
    t_kernel_chunk s' = t_kernel_chunk s;
  cp_frame : forall x, untouched (t_heap s) (t_mem s) chunk x -> str = [] \/ x < phys \/ phys + zlen str < x ->
    t_mem s' x = t_mem s x
}.

Lemma bind_strncpy {A} (k : unit -> M tasks A) s dir dst str n m' :
  mstrncpy dir (t_mem s) dst str n = Some m' -> (t_strncpy dir dst str n ≫= k) s = k tt (set_t_mem m' s).
Proof. intros E. unfold t_strncpy. by rewrite bind_assoc, bind_gets, bind_assoc, (bind_expect _ _ _ _ E), bind_modify. Qed.

Lemma copy_total s task t virtual phys max str :
  kheap_ok (t_heap s) -> 0 < free_blocks (t_heap s) -> mem_ok (t_mem s) -> task <> 0 ->
  t_threads s !! task = Some t -> space_ok (t_mem s) (page_directory t) ->
  (forall b, b ∈ space_blocks (t_mem s) (page_directory t) -> live (t_heap s) b 1) ->
  user_string (t_heap s) (t_mem s) (page_directory t) virtual str -> 0 < virtual ->
  Forall (fun c => 0 < c < 256) str -> 0 < max <= 4096 -> zlen (cut max str) < 4096 -> 0 < phys -> phys + zlen (cut max str) < 4294967296 ->
  (forall j, 0 <= j <= zlen (cut max str) -> untouched (t_heap s) (t_mem s) (page_directory t) (phys + j)) ->
  exists tmp s', copy_string_from_task task virtual phys max s = Done 0 s' /\
    copied s s' (page_directory t) tmp virtual phys (cut max str).
Proof.
  intros Hok Hfree Hm Ht0 Ht Hsp Hl Hfull Hv Hcf Hmax Hl4 Hp Hpe Hphys. set (chunk := page_directory t) in *.
  pose proof (zlen_nonneg str) as Hs00. destruct (Hfull 0 ltac:(lia)) as ([_ Hv1] & _). rewrite Z.add_0_r in Hv1.
  pose proof (user_string_cut _ _ _ _ max str Hfull ltac:(lia)) as Hstr. assert (Hlen : zlen (cut max str) <= max) by (rewrite cut_len; lia).
  assert (Hc : Forall (fun c => 0 < c < 256) (cut max str)) by (by apply Forall_take).
  clear Hfull Hcf Hs00. revert Hl4 Hpe Hphys Hstr Hlen Hc. generalize (cut max str) as w. clear str. intros str Hl4 Hpe Hphys Hstr Hlen Hc.
  pose proof (zlen_nonneg str) as Hs0.
  unfold copy_string_from_task. rewrite (proj2 (Z.eqb_neq task 0)), (proj2 (Z.eqb_neq virtual 0)), (proj2 (Z.eqb_neq phys 0)) by lia.
  unfold PAGING_PAGE_SIZE. rewrite (proj2 (Z.ltb_ge max 0)), (proj2 (Z.ltb_ge 4096 max)) by lia. cbn [orb].
  destruct (scratch_page (t_machine s) max chunk Hok Hfree ltac:(lia) Hm Hsp Hl) as
    (tmp & h1 & E1 & Hok1 & Hlt & Htp & Hta & Htm & Hm1 & Hfr & Hown & Hsafe & Hblk & Hout & Hz).
  rewrite (bind_machine _ _ _ _ _ E1), (proj2 (Z.eqb_neq tmp 0)) by lia.
  rewrite (bind_thread _ _ task t) by exact Ht. rewrite bind_gets. fold chunk. change (t_mem (set_t_machine h1 s)) with (m_mem h1).
  destruct (scratch_space (m_mem (t_machine s)) (m_mem h1) chunk tmp Hsp Hblk Hout) as (Hsp1 & Hd1 & Hb1 & Hp1 & Ht1).
  change (Z.lor (Z.lor PAGING_IS_WRITEABLE PAGING_IS_PRESENT) PAGING_ACCESS_FROM_ALL) with 7.
  rewrite (paging_map_eq (m_mem h1) chunk tmp tmp 7 Hsp1) by lia. cbv iota beta.
  rewrite bind_modify. change (negb (KERNEL_ALL_OK =? KERNEL_ALL_OK)) with false. cbv iota.
  rewrite bind_modify, bind_gets.
  destruct (window_open (m_mem (t_machine s)) (m_mem h1) chunk tmp Hsp ltac:(lia) Hblk Hout _ (fun x _ => eq_refl)) as (_ & Hd2 & _).
  destruct (copy_in_spec (t_heap s) (m_mem (t_machine s)) (m_mem h1) chunk tmp virtual max str) as (m3 & E3 & Ho3 & Hby); try done; try lia.
  rewrite (bind_strncpy _ _ _ _ _ _ m3).
  2: { change (mstrncpy (Some (directory_entry (store_pte (m_mem h1) chunk tmp (tmp + 7)) chunk))
         (store_pte (m_mem h1) chunk tmp (tmp + 7)) tmp virtual max = Some m3). by rewrite Hd2. }
  unfold kernel_page. rewrite bind_modify, bind_gets.
  match goal with |- context [paging_set (t_mem ?s3)] => change (t_mem s3) with m3 end.
  destruct (window_open (m_mem (t_machine s)) (m_mem h1) chunk tmp Hsp ltac:(lia) Hblk Hout m3 Ho3) as (Hsp3 & Hd3 & Hb3 & Ht3 & Hm3).
  destruct (saved_page_range virtual ltac:(lia)) as [Hsr Hsa].
  rewrite saved_entry, Hd1, Hp1 by (done || lia).
  set (old := pte (m_mem (t_machine s)) (directory_entry (m_mem (t_machine s)) chunk) (saved_page virtual)).
  assert (Hold : 0 <= old < 4294967296) by (apply ld32_range, Hm).
  rewrite (paging_set_eq m3 chunk Hsp3 tmp old) by lia. cbv iota beta. rewrite bind_modify.
  change (negb (KERNEL_ALL_OK =? KERNEL_ALL_OK)) with false. cbv iota.
  set (m4 := store_pte m3 chunk tmp old).
  assert (Hm4 : forall x, (forall b, b ∈ space_blocks (t_mem s) chunk -> ~ b <= x < b + 4096) -> m4 x = m3 x).
  { intros x Hx. apply store_pte_outside; [done|lia|lia|by rewrite Hb3]. }
  assert (Hap : forall j, 0 <= j <= zlen str -> phys + j < tmp \/ tmp + 4096 <= phys + j)
    by (intros j Hj; by apply Hsafe, Hphys).
  set (m5 := match str with [] => m4 | _ => store_bytes m4 phys (str ++ [0]) end).
  assert (E5 : mstrncpy None m4 phys tmp max = Some m5).
  { apply copy_out_spec; try done; try lia. intros j Hj. rewrite <- Hby by done. unfold ld8. rewrite u32_small by lia.
    apply Hm4. intros b Hb Hx. pose proof (Hblk b _ Hb Hx). lia. }
  rewrite (bind_strncpy _ _ None phys tmp max m5) by exact E5.
  eexists tmp, _. split; [reflexivity|].
  destruct (@al_free_spec heap heap_allocator heap_allocator_laws (m_heap h1) tmp 1 Hok1 Hlt) as [Hok6 Hless].
  assert (Hl1 : zlen (str ++ [0]) = zlen str + 1) by (by rewrite zlen_app).
  assert (Hm5 : forall b x, b ∈ space_blocks m3 chunk -> b <= x < b + 4096 -> m5 x = m4 x).
  { intros b x Hb Hx. subst m5. destruct str as [|c str'] eqn:Es; [done|]. rewrite <- Es in *. apply store_bytes_other; try lia.
    destruct (Z.lt_ge_cases x phys); [by left|]. right. destruct (Z.le_gt_cases (phys + zlen (str ++ [0])) x); [done|].
    destruct (Hphys (x - phys) ltac:(lia)) as [_ Hn]. exfalso. rewrite Hb3 in Hb. apply (Hn b Hb). lia. }
  destruct (window_spec m3 chunk tmp old m5 Hsp3 ltac:(lia) ltac:(lia) Hold Hm5) as (Hs5 & Hd5 & _ & Ht5).
  rewrite Hd3 in Hd5, Ht5. constructor; unfold t_heap, t_mem, set_t_mem; cbn [t_machine set_t_machine set_cr3 set_mem m_mem m_heap t_threads].
  - split; [exact Hok6|]. by apply (own_less_more _ (m_heap h1) _ tmp).
  - done.
  - subst m5. destruct str as [|c str'] eqn:Es; rewrite <- Es in *.
    + rewrite Es. change (zlen (@nil Z) + 1) with 1. unfold load_bytes. change (seqZ 0 1) with [0]. cbn [map]. f_equal.
      unfold ld8. destruct (Hphys 0 ltac:(lia)) as [Hs1 Hs2]. rewrite u32_small by lia.
      rewrite Hm4 by exact Hs2. apply Hm3; [by apply Hap|exact Hs2].
    + rewrite <- Hl1. apply load_store_bytes; try lia. apply Forall_app. split; [|by repeat constructor].
      eapply Forall_impl; [exact Hc|]. simpl. lia.
  - by split.
  - split; [done|]. by split.
  - intros va Hva. rewrite Ht5 by done. unfold patched. pose proof (Z.mod_pos_bound va 4096 ltac:(lia)).
    destruct (Z.eqb_spec (va - va mod 4096) tmp) as [E|E]; [by apply alias_translate|].
    rewrite Ht3 by done. by rewrite (proj2 (Z.eqb_neq _ _) E).
  - done.
  - intros x [Hx1 Hx2] Hx. transitivity (m4 x); [|rewrite Hm4 by exact Hx2; apply Hm3; [by apply Hsafe|exact Hx2]].
    subst m5. destruct str as [|c str'] eqn:Es; [done|]. rewrite <- Es in *. destruct Hx as [Hx|Hx]; [by rewrite Hx in Es|].
    apply store_bytes_other; lia.
Qed.

(** ** Properties *)

Lemma run_ops_spec s st ops :
  represents s st -> ops_ok st ops ->
  exists s', run_ops ops s = Done tt s' /\ represents s' (foldl spec_op st ops) /\
    t_machine s' = t_machine s /\ t_cr3 s' = t_cr3 s.
Proof.
  revert s st. induction ops as [|op ops IH]; intros s st Hr Hok; [by exists s|]. destruct Hok as [H1 H2].
  destruct (run_op_spec s st op Hr H1) as (s1 & E1 & Hr1 & Em1 & Ec1). simpl. rewrite (bind_Done _ _ _ _ _ E1).
  destruct (IH s1 (spec_op st op) Hr1 H2) as (s2 & E2 & Hr2 & Em2 & Ec2).
  exists s2. split; [exact E2|]. split; [exact Hr2|]. by rewrite Em2, Ec2.
Qed.

(** C23: the intrusive task list refines a sequence.  Any sequence of insertions of new
    threads and removals of listed ones, started from a list that represents [(l, c)] (the
    threads in order, the current one), runs to the end — no dangling link is ever followed
    — and leaves a well-formed doubly linked list that represents what the same operations
    do to the sequence: insertion appends (the first thread becomes current), removal deletes
    and, for the current thread, hands over to the next one, or to the first at the end. *)
Theorem task_list_refines (s : tasks) (st : list Z * Z) (ops : list list_op) :
  represents s st -> ops_ok st ops ->
  exists s', run_ops ops s = Done tt s' /\ represents s' (foldl spec_op st ops) /\
    t_machine s' = t_machine s /\ t_cr3 s' = t_cr3 s.
Proof. apply run_ops_spec. Qed.

(** No threads yet. *)
Definition no_tasks (m : machine) : tasks := mk_tasks m ∅ 0 0 0 0 0.

Lemma no_tasks_represents m : represents (no_tasks m) ([], 0).
Proof.
  split; [|split; [reflexivity|by right]].
  constructor; [reflexivity|reflexivity|apply NoDup_nil; exact I|apply Forall_nil; exact I|exact I].
Qed.

Lemma task_list_refines_witness :
  exists s', run_ops [Insert 5; Insert 7; Insert 9; Remove 5; Remove 7] (no_tasks boot_machine) = Done tt s' /\
    represents s' ([9], 9).
Proof.
  destruct (task_list_refines (no_tasks boot_machine) ([], 0) [Insert 5; Insert 7; Insert 9; Remove 5; Remove 7])
    as (s' & E & Hr & _).
  - apply no_tasks_represents.
  - cbn [ops_ok op_ok]. split_and!; try exact I; try discriminate; apply (bool_decide_unpack _); vm_compute; exact I.
  - exists s'. split; [exact E|exact Hr].
Defined.

(** Creating and destroying a thread is a round trip.  With memory for it, [task_new]
    appends a thread whose address space maps every address to itself and whose registers
    start at the user segments and stack; the first thread becomes current.  [task_free]
    then gives back the structure and all 1026 blocks of the space and restores the list,
    the current thread and every other thread.  The start address is the entry point read
    through the process only when the program is {e not} an ELF file. *)
Theorem task_new_free (s : tasks) (l : list Z) (c process filetype ptr : Z) :
  represents s (l, c) -> kheap_ok (t_heap s) -> 1027 <= free_blocks (t_heap s) ->
  (forall a, a ∈ l -> live (t_heap s) a 1) ->
  exists task chunk t s1 s2,
    task_new process filetype ptr s = Done task s1 /\ represents s1 (l ++ [task], match l with [] => task | _ => c end) /\
    t_threads s1 !! task = Some t /\
    no_links t = (chunk, start_registers (t_mem s1) filetype ptr, process) /\
    (forall va, 0 <= va < 4294967296 -> translate (t_mem s1) (directory_entry (t_mem s1) chunk) va = Some va) /\
    task_free task s1 = Done 0 s2 /\ represents s2 (l, c) /\ kheap_ok (t_heap s2) /\
    own_same (t_heap s) (t_heap s2) /\
    (forall a, a <> task -> (no_links <$> (t_threads s2 !! a)) = (no_links <$> (t_threads s !! a))).
Proof.
  intros (Hd & Hc & Hin) Hok Hfree Hl. simpl in Hd, Hc, Hin.
  destruct (task_new_total s l process filetype ptr Hd Hok Hfree Hl)
    as (task & chunk & t & s1 & E1 & Ht0 & Hni & Hd1 & Hok1 & Ht & Hnl & Hoth & Hcur & Hsp & Hnt & Htr & _ & Hlive & Hfr).
  assert (Hpd : page_directory t = chunk) by (unfold no_links in Hnl; congruence).
  destruct (task_free_total s1 l [] task t Hd1 Hok1 Ht) as (s2 & E2 & Hd2 & Hok2 & _ & Hc2 & _ & Hoth2 & Hl2);
    rewrite ?Hpd; [exact Hsp|exact Hnt| |].
  { intros b Hb. apply Hlive. by left. }
  exists task, chunk, t, s1, s2. split; [exact E1|]. rewrite app_nil_r in Hd2. rewrite Hc in Hcur.
  split; [|split; [exact Ht|split; [exact Hnl|split; [exact Htr|split; [exact E2|]]]]].
  - split; [exact Hd1|]. split; [exact Hcur|]. left. simpl. apply elem_of_app.
    destruct l as [|b l]; [right; by left|]. destruct Hin as [Hin|[Hn _]]; [by left|discriminate Hn].
  - split; [split; [exact Hd2|split; [|exact Hin]]|split; [exact Hok2|split]].
    + rewrite Hc2, Hcur. destruct l as [|b l]; simpl.
      * rewrite Z.eqb_refl. destruct Hin as [Hin|[_ ->]]; [by apply elem_of_nil in Hin|reflexivity].
      * destruct Hin as [Hin|[Hn _]]; [|discriminate Hn].
        rewrite (proj2 (Z.eqb_neq c task)); [reflexivity|]. intros ->. by apply Hni.
    + intros b n. rewrite (Hl2 b n), Hpd, (Hlive b n). split.
      * intros [[[_ Hb]|Hb] Hn]; [by destruct Hn|exact Hb].
      * intros Hb. split; [by right|]. intros Hx. exact (Hfr b n Hx Hb).
    + intros a Ha. rewrite Hoth2 by done. by apply Hoth.
Qed.

Lemma task_new_free_witness :
  exists task s1 s2, task_new 20480 PROCESS_FILETYPE_ELF 0 (no_tasks boot_machine) = Done task s1 /\
    task_free task s1 = Done 0 s2 /\
    exists t, t_threads s1 !! task = Some t /\ r_ip (regs t) = KERNEL_PROGRAM_VIRTUAL_ADDRESS.
Proof.
  destruct (task_new_free (no_tasks boot_machine) [] 0 20480 PROCESS_FILETYPE_ELF 0)
    as (task & chunk & t & s1 & s2 & E1 & _ & Ht & Hnl & _ & E2 & _).
  - apply no_tasks_represents.
  - exact boot_ok.
  - pose proof boot_heap_avail as E. simpl in E. unfold t_heap, no_tasks, boot_machine. cbn [t_machine m_heap]. rewrite E. lia.
  - intros a Ha. by apply elem_of_nil in Ha.
  - exists task, s1, s2. split; [exact E1|]. split; [exact E2|]. exists t. split; [exact Ht|].
    injection Hnl as _ Hr _. by rewrite Hr.
Defined.

(** C24: [copy_string_from_task] copies a string out of a task's address space.  A C string
    that lies at [virtual] in the task's space, in frames of its own, arrives at the kernel
    address [phys] (an empty string leaves [phys] as it was: [strncpy] then writes no
    terminator) if a block of the heap is free for the scratch page; a string of [max]
    characters or more is cut to [max] of them, and its terminator is written behind the
    [max] bytes of the buffer.  The scratch page is given back and all threads and the page directory stay.
    But the entry restored for the scratch page is that of [virtual] (of page 0 when
    [virtual] is not aligned): from then on the scratch page, kernel heap memory, is mapped
    to that frame in the task's space; every other page translates as before. *)
Theorem copy_string_from_task_spec (s : tasks) (task : Z) (t : thread_info) (virtual phys max : Z) (str : list Z) :
  kheap_ok (t_heap s) -> 0 < free_blocks (t_heap s) -> mem_ok (t_mem s) -> task <> 0 ->
  t_threads s !! task = Some t -> space_ok (t_mem s) (page_directory t) ->
  (forall b, b ∈ space_blocks (t_mem s) (page_directory t) -> live (t_heap s) b 1) ->
  user_string (t_heap s) (t_mem s) (page_directory t) virtual str -> 0 < virtual ->
  Forall (fun c => 0 < c < 256) str -> 0 < max <= 4096 -> zlen (cut max str) < 4096 -> 0 < phys -> phys + zlen (cut max str) < 4294967296 ->
  (forall j, 0 <= j <= zlen (cut max str) -> untouched (t_heap s) (t_mem s) (page_directory t) (phys + j)) ->
  exists tmp s', copy_string_from_task task virtual phys max s = Done 0 s' /\
    copied s s' (page_directory t) tmp virtual phys (cut max str).
Proof. apply copy_total. Qed.

Lemma live_heap_address h b n : kheap_ok h -> live h b n -> KERNEL_HEAP_ADDRESS <= b.
Proof.
  intros (_ & Hs & _) (k & Hk & ->). destruct (live_range _ _ _ Hk) as [Hk0 _]. rewrite Hs.
  unfold KERNEL_HEAP_BLOCK_SIZE. lia.
Qed.

(** A thread with a fresh address space, and "hi" at 0x5000. *)
Definition hi_machine : machine := mk_machine boot_heap (store_bytes (fun _ => 0) 20480 [104; 105]).

Lemma hi_mem_ok : mem_ok (m_mem hi_machine).
Proof. intros x. unfold hi_machine. cbn [m_mem store_bytes]. unfold st8. repeat zcase; by vm_compute. Qed.

(** A fresh address space at boot, whatever the memory holds. *)
Lemma boot_chunk mm :
  mem_ok mm ->
  exists chunk m, paging_new_4gb_chunk 7 (mk_machine boot_heap mm) = Done chunk m /\ kheap_ok (m_heap m) /\ mem_ok (m_mem m) /\
    space_ok (m_mem m) chunk /\ free_blocks (m_heap m) = 24574 /\
    (forall va, 0 <= va < 4294967296 -> translate (m_mem m) (directory_entry (m_mem m) chunk) va = Some va) /\
    (forall b, b ∈ space_blocks (m_mem m) chunk -> live (m_heap m) b 1) /\
    forall x, 0 <= x < KERNEL_HEAP_ADDRESS -> m_mem m x = mm x.
Proof.
  intros Hmm. assert (H7 : 0 <= 7 < 256) by lia.
  assert (Hok0 : kheap_ok (m_heap (mk_machine boot_heap mm))) by exact boot_heap_ok.
  assert (Hfree : 1026 <= free_blocks (m_heap (mk_machine boot_heap mm))) by exact boot_free.
  assert (Hbit : Z.testbit 7 0 = true) by reflexivity.
  pose proof (new_chunk_spec (mk_machine boot_heap mm) 7 Hok0 Hfree H7 Hbit) as Hnew.
  destruct Hnew as (c & m & E & Hok & Hm & Hsp & Htab & Hl & Hfr & Hmem & Ef).
  assert (Hlive : forall b, b ∈ space_blocks (m_mem m) c -> live (m_heap m) b 1) by (intros b Hb; apply Hl; left; split; [reflexivity|exact Hb]).
  exists c, m. split; [exact E|]. split; [exact Hok|]. split; [exact (Hm Hmm)|]. split; [exact Hsp|].
  split; [|split; [|split; [exact Hlive|]]].
  - pose proof boot_heap_avail as Ea. rewrite Ef. cbn [m_heap]. change (free_blocks boot_heap = 25600) in Ea. rewrite Ea. reflexivity.
  - intros va Hva. exact (identity_translate _ _ 7 _ Hsp H7 Hbit Hva Htab).
  - intros x Hx. apply Hmem. intros b Hb Hbx. pose proof (live_heap_address _ _ _ Hok (Hlive b Hb)). lia.
Qed.

Lemma hi_chunk :
  exists chunk m, paging_new_4gb_chunk 7 hi_machine = Done chunk m /\ kheap_ok (m_heap m) /\ mem_ok (m_mem m) /\
    space_ok (m_mem m) chunk /\ free_blocks (m_heap m) = 24574 /\
    (forall va, 0 <= va < 4294967296 -> translate (m_mem m) (directory_entry (m_mem m) chunk) va = Some va) /\
    (forall b, b ∈ space_blocks (m_mem m) chunk -> live (m_heap m) b 1) /\
    forall x, 0 <= x < KERNEL_HEAP_ADDRESS -> m_mem m x = m_mem hi_machine x.
Proof. exact (boot_chunk (m_mem hi_machine) hi_mem_ok). Qed.

Lemma hi_byte j : 0 <= j <= 2 -> m_mem hi_machine (20480 + j) = nth_byte [104; 105] j.
Proof. intros Hj. assert (j = 0 \/ j = 1 \/ j = 2) as [-> |[-> | ->]] by lia; vm_compute; reflexivity. Qed.

Lemma hi_thread :
  exists s t, kheap_ok (t_heap s) /\ 0 < free_blocks (t_heap s) /\ mem_ok (t_mem s) /\ t_threads s !! 8192 = Some t /\
    space_ok (t_mem s) (page_directory t) /\
    (forall b, b ∈ space_blocks (t_mem s) (page_directory t) -> live (t_heap s) b 1) /\
    user_string (t_heap s) (t_mem s) (page_directory t) 20480 [104; 105] /\
    forall x, 0 <= x < KERNEL_HEAP_ADDRESS -> untouched (t_heap s) (t_mem s) (page_directory t) x.
Proof.
  destruct hi_chunk as (c & m & _ & Hok & Hm & Hsp & Hfree & Htr & Hlive & Hmem).
  exists (mk_tasks m {[8192 := mk_thread_info c zero_registers 0 0 0]} 8192 8192 8192 0 c), (mk_thread_info c zero_registers 0 0 0).
  unfold t_heap, t_mem. cbn [t_machine t_threads page_directory].
  assert (Hunt : forall x, 0 <= x < KERNEL_HEAP_ADDRESS -> untouched (m_heap m) (m_mem m) c x).
  { intros x Hx. split; [left; lia|]. intros b Hb Hbx. pose proof (live_heap_address _ _ _ Hok (Hlive b Hb)). lia. }
  split; [exact Hok|]. split; [rewrite Hfree; reflexivity|]. split; [exact Hm|]. split; [apply lookup_singleton_eq|]. split; [exact Hsp|].
  split; [exact Hlive|]. split; [|exact Hunt]. intros j Hj. change (zlen [104; 105]) with 2 in Hj.
  unfold KERNEL_HEAP_ADDRESS in *. split; [lia|]. split; [apply Hunt; lia|]. exists (20480 + j).
  split; [apply Htr; lia|]. split; [lia|]. split; [apply Hunt; lia|]. unfold ld8. rewrite u32_small, Hmem by lia.
  by apply hi_byte.
Qed.

Lemma copy_string_from_task_spec_witness :
  exists s s' t, t_threads s !! 8192 = Some t /\ copy_string_from_task 8192 20480 24576 64 s = Done 0 s' /\
    load_bytes (t_mem s') 24576 3 = [104; 105; 0].
Proof.
  destruct hi_thread as (s & t & Hok & Hfree & Hm & Ht & Hsp & Hl & Hstr & Hunt). unfold KERNEL_HEAP_ADDRESS in Hunt.
  destruct (copy_string_from_task_spec s 8192 t 20480 24576 64 [104; 105] Hok Hfree Hm) as (tmp & s' & E & Hc).
  - discriminate.
  - exact Ht.
  - exact Hsp.
  - exact Hl.
  - exact Hstr.
  - reflexivity.
  - repeat constructor.
  - split; [reflexivity|discriminate].
  - reflexivity.
  - reflexivity.
  - reflexivity.
  - intros j Hj. change (zlen (cut 64 [104; 105])) with 2 in Hj. apply Hunt. lia.
  - exists s, s', t. split; [exact Ht|]. split; [exact E|]. exact (cp_bytes _ _ _ _ _ _ _ Hc).
Defined.
