(* ===== verification/Sched.v ===== *)
(** * Processes: kernel/sched.c (and task_next of kernel/task.c)

    A process owns a program image, a stack, a thread and the memory it asked for.  The
    state joins the loader (file layer, ELF files), the threads and the process table; the
    machine is the one inside the loader's file system. *)
From S2P Require Import Prelude Heap Kheap CString Keyboard Paging Pparser Disk Fat16 File Contents Elf Task.

(** ** Data *)

(** [struct process_allocation] *)
Definition process_allocation : Type := Z * Z.

(** [ps_ptr] is the union of [ptr] and [elf_file]. *)
Record task_struct := mk_task_struct {
  ps_id : Z;
  ps_filename : list Z;
  ps_task : Z;
  ps_allocations : list process_allocation;
  ps_filetype : Z;
  ps_ptr : Z;
  ps_stack : Z;
  ps_size : Z;
  ps_keyboard : keyboard_buffer;
  ps_argc : Z;
  ps_argv : Z;
  ps_res : Z
}.

Definition sizeof_task_struct : Z := 9372.
Definition sizeof_command_argument : Z := 512.

Definition zero_process : task_struct :=
  mk_task_struct 0 (replicate (Z.to_nat KERNEL_MAX_PATH) 0) 0
    (replicate (Z.to_nat KERNEL_MAX_PROGRAM_ALLOCATIONS) (0, 0)) 0 0 0 0
    (mk_keyboard_buffer (replicate (Z.to_nat KERNEL_KEYBOARD_BUFFER_SIZE) 0) 0 0 0) 0 0 0.

Implicit Types p : task_struct.

Definition ps_set_data (filetype ptr size : Z) p : task_struct :=
  mk_task_struct (ps_id p) (ps_filename p) (ps_task p) (ps_allocations p) filetype ptr (ps_stack p) size
    (ps_keyboard p) (ps_argc p) (ps_argv p) (ps_res p).
Definition ps_set_stack (a : Z) p : task_struct :=
  mk_task_struct (ps_id p) (ps_filename p) (ps_task p) (ps_allocations p) (ps_filetype p) (ps_ptr p) a (ps_size p)
    (ps_keyboard p) (ps_argc p) (ps_argv p) (ps_res p).
Definition ps_set_task (a : Z) p : task_struct :=
  mk_task_struct (ps_id p) (ps_filename p) a (ps_allocations p) (ps_filetype p) (ps_ptr p) (ps_stack p) (ps_size p)
    (ps_keyboard p) (ps_argc p) (ps_argv p) (ps_res p).
Definition ps_set_name (id : Z) (filename : list Z) p : task_struct :=
  mk_task_struct id filename (ps_task p) (ps_allocations p) (ps_filetype p) (ps_ptr p) (ps_stack p) (ps_size p)
    (ps_keyboard p) (ps_argc p) (ps_argv p) (ps_res p).
Definition ps_set_allocations (l : list process_allocation) p : task_struct :=
  mk_task_struct (ps_id p) (ps_filename p) (ps_task p) l (ps_filetype p) (ps_ptr p) (ps_stack p) (ps_size p)
    (ps_keyboard p) (ps_argc p) (ps_argv p) (ps_res p).
Definition ps_set_keyboard (k : keyboard_buffer) p : task_struct :=
  mk_task_struct (ps_id p) (ps_filename p) (ps_task p) (ps_allocations p) (ps_filetype p) (ps_ptr p) (ps_stack p)
    (ps_size p) k (ps_argc p) (ps_argv p) (ps_res p).
Definition ps_set_argument (argc argv : Z) p : task_struct :=
  mk_task_struct (ps_id p) (ps_filename p) (ps_task p) (ps_allocations p) (ps_filetype p) (ps_ptr p) (ps_stack p)
    (ps_size p) (ps_keyboard p) argc argv (ps_res p).
Definition ps_set_res (res : Z) p : task_struct :=
  mk_task_struct (ps_id p) (ps_filename p) (ps_task p) (ps_allocations p) (ps_filetype p) (ps_ptr p) (ps_stack p)
    (ps_size p) (ps_keyboard p) (ps_argc p) (ps_argv p) res.

(** ** State *)

Record system (F : Type) := mk_system {
  sy_loader : loader F;
  sy_threads : tasks;
  sy_procs : gmap Z task_struct;
  processes : list Z;
  current_process : Z
}.
Arguments mk_system {F}.
Arguments sy_loader {F}.
Arguments sy_threads {F}.
Arguments sy_procs {F}.
Arguments processes {F}.
Arguments current_process {F}.

Section sched.
Context {F : Type} {LY : Layout} {FS : Filesystem machine F}.
Implicit Types (s : system F).

Definition set_sy_loader (l : loader F) s : system F :=
  mk_system l (sy_threads s) (sy_procs s) (processes s) (current_process s).
Definition set_procs (g : gmap Z task_struct) s : system F :=
  mk_system (sy_loader s) (sy_threads s) g (processes s) (current_process s).
Definition put_proc (a : Z) p s : system F := set_procs (<[a := p]> (sy_procs s)) s.
Definition set_processes (l : list Z) s : system F :=
  mk_system (sy_loader s) (sy_threads s) (sy_procs s) l (current_process s).
Definition set_current_process (a : Z) s : system F :=
  mk_system (sy_loader s) (sy_threads s) (sy_procs s) (processes s) a.

Definition sy_mach s : machine := v_mach (l_vfs (sy_loader s)).
Definition sy_mem s : mem := m_mem (sy_mach s).

Definition set_mach (m : machine) s : system F :=
  mk_system (set_l_vfs (upd_heap m (l_vfs (sy_loader s))) (sy_loader s)) (sy_threads s) (sy_procs s) (processes s)
    (current_process s).

(** The threads with the machine they run on, and back; [t_machine] of [sy_threads] itself
    is not used. *)
Definition sy_tasks s : tasks := set_t_machine (sy_mach s) (sy_threads s).
Definition set_threads_of (t : tasks) s : system F :=
  mk_system (sy_loader s) t (sy_procs s) (processes s) (current_process s).
Definition set_sy_tasks (t : tasks) s : system F := set_mach (t_machine t) (set_threads_of t s).

Definition on_loader {A} (m : M (loader F) A) : M (system F) A := zoom sy_loader set_sy_loader m.
Definition on_file {A} (m : M (vfs F) A) : M (system F) A := on_loader (on_vfs m).
Definition on_tasks {A} (m : M tasks A) : M (system F) A := zoom sy_tasks set_sy_tasks m.
Definition on_mach {A} (m : M machine A) : M (system F) A := zoom sy_mach set_mach m.

Definition sys_thread (a : Z) : M (system F) thread_info := t ← gets (fun s => t_threads (sy_threads s) !! a); expect t.
Definition the_process (a : Z) : M (system F) task_struct := p ← gets (fun s => sy_procs s !! a); expect p.
Definition upd_process (a : Z) (f : task_struct -> task_struct) : M (system F) unit :=
  p ← the_process a; modify (put_proc a (f p)).
Definition set_sy_mem (m : mem) s : system F := set_mach (set_mem m (sy_mach s)) s.

(** A function of the page tables of a thread. *)
Definition on_pages (task : Z) (f : mem -> Z -> Z * mem) : M (system F) Z :=
  t ← sys_thread task;
  m ← gets sy_mem;
  let '(res, m) := f m (page_directory t) in
  modify (set_sy_mem m);;
  mret res.

(** ** The process table *)

Definition process_get (process_id : Z) : M (system F) Z :=
  if (process_id <? 0) || (KERNEL_MAX_PROCESSES <=? process_id) then mret 0
  else p ← gets (fun s => zget (processes s) process_id); expect p.

Definition process_current : M (system F) Z := gets current_process.

Definition process_init (process : Z) : M (system F) unit := modify (put_proc process zero_process).

Fixpoint free_process_loop (l : list Z) (i : Z) : Z :=
  match l with
  | [] => - EISTKN
  | a :: l' => if a =? 0 then i else free_process_loop l' (i + 1)
  end.

Definition process_get_free_slot : M (system F) Z := gets (fun s => free_process_loop (processes s) 0).

Definition process_switch (process : Z) : M (system F) Z := modify (set_current_process process);; mret 0.

Fixpoint first_process (l : list Z) : Z :=
  match l with [] => 0 | a :: l' => if a =? 0 then first_process l' else a end.

Definition process_switch_to_any : M (system F) unit :=
  a ← gets (fun s => first_process (processes s));
  if a =? 0 then panic else modify (set_current_process a).

Definition process_unlink (process : Z) : M (system F) unit :=
  p ← the_process process;
  l ← gets processes;
  _ ← expect (zget l (ps_id p));
  modify (set_processes (zset l (ps_id p) 0));;
  cur ← gets current_process;
  if cur =? process then process_switch_to_any else mret tt.

(** ** Memory of a process *)

Fixpoint free_index_loop (l : list process_allocation) (i : Z) : Z :=
  match l with
  | [] => - ENOMEM
  | a :: l' => if negb (fst a =? 0) then free_index_loop l' (i + 1) else i
  end.

Definition process_find_free_allocations_index (process : Z) : M (system F) Z :=
  p ← the_process process; mret (free_index_loop (ps_allocations p) 0).

Definition user_page_flags : Z :=
  Z.lor (Z.lor PAGING_IS_PRESENT PAGING_IS_WRITEABLE) PAGING_ACCESS_FROM_ALL.

(** The part of [process_malloc] behind [out]: [ret] and [ptr] are the locals. *)
Definition malloc_out (ret ptr : Z) : M (system F) Z :=
  if ret <? 0 then on_mach (kfree ptr);; mret 0 else mret ptr.

Definition process_malloc (process size : Z) : M (system F) Z :=
  ptr ← on_mach (kzalloc size);
  if ptr =? 0 then malloc_out (- ENOMEM) ptr
  else
    index ← process_find_free_allocations_index process;
    if index <? 0 then malloc_out (- ENOMEM) ptr
    else
      p ← the_process process;
      ret ← on_pages (ps_task p) (fun m dir =>
        paging_map_to m dir ptr ptr (paging_align_address (u32 (ptr + size))) user_page_flags);
      if ret <? 0 then malloc_out ret ptr
      else
        upd_process process (fun p => ps_set_allocations (zset (ps_allocations p) index (ptr, size)) p);;
        malloc_out ret ptr.

Fixpoint allocation_loop (l : list process_allocation) (ptr i : Z) : Z :=
  match l with
  | [] => -1
  | a :: l' => if fst a =? ptr then i else allocation_loop l' ptr (i + 1)
  end.

Definition process_get_allocation_index_by_addr (process ptr : Z) : M (system F) Z :=
  p ← the_process process; mret (allocation_loop (ps_allocations p) ptr 0).

Definition process_free (process ptr : Z) : M (system F) unit :=
  if (process =? 0) || (ptr =? 0) then mret tt
  else
    index ← process_get_allocation_index_by_addr process ptr;
    if index <? 0 then mret tt
    else
      p ← the_process process;
      a ← expect (zget (ps_allocations p) index);
      let '(a_ptr, a_size) := a in
      on_pages (ps_task p) (fun m dir =>
        paging_map_to m dir ptr a_ptr (paging_align_address (u32 (a_ptr + a_size))) 0);;
      upd_process process (fun p => ps_set_allocations (zset (ps_allocations p) index (0, 0)) p);;
      on_mach (kfree ptr).

(** ** Ending a process *)

Fixpoint terminate_allocations_loop (n : nat) (process i : Z) : M (system F) unit :=
  match n with
  | O => mret tt
  | S n' =>
      if i <? KERNEL_MAX_PROGRAM_ALLOCATIONS then
        p ← the_process process;
        a ← expect (zget (ps_allocations p) i);
        process_free process (fst a);;
        terminate_allocations_loop n' process (i + 1)
      else mret tt
  end.

Definition process_terminate_allocations (process : Z) : M (system F) unit :=
  terminate_allocations_loop (Z.to_nat KERNEL_MAX_PROGRAM_ALLOCATIONS) process 0.

Definition process_terminate_elf_data (process : Z) : M (system F) unit :=
  p ← the_process process; on_loader (elf_close (ps_ptr p)).

Definition process_terminate_binary_data (process : Z) : M (system F) unit :=
  p ← the_process process; on_mach (kfree (ps_ptr p)).

Definition process_terminate_program_data (process : Z) : M (system F) Z :=
  p ← the_process process;
  if ps_filetype p =? PROCESS_FILETYPE_ELF then process_terminate_elf_data process;; mret 0
  else if ps_filetype p =? PROCESS_FILETYPE_BINARY then process_terminate_binary_data process;; mret 0
  else mret (- EINVAGS).

(** The directory the kernel runs on: the one in CR3. *)
Definition cr3_dir s : option Z := Some (t_cr3 (sy_threads s)).

(** [argv[i]], a load through the loaded directory. *)
Definition load_argv (argv i : Z) : M (system F) Z :=
  s ← get; expect (vld32 (sy_mem s) (cr3_dir s) (argv + 4 * i)).

Fixpoint terminate_argument_loop (n : nat) (process i : Z) : M (system F) unit :=
  match n with
  | O => mret tt
  | S n' =>
      p ← the_process process;
      if i <? ps_argc p then
        a ← load_argv (ps_argv p) i;
        on_mach (kfree a);;
        terminate_argument_loop n' process (i + 1)
      else mret tt
  end.

Definition process_terminate_command_argument (process : Z) : M (system F) unit :=
  p ← the_process process;
  terminate_argument_loop (S (Z.to_nat (ps_argc p))) process 0.

Definition process_terminate (process : Z) : M (system F) Z :=
  if process =? 0 then mret 0
  else
    process_terminate_allocations process;;
    ret ← process_terminate_program_data process;
    if ret <? 0 then mret ret
    else
      process_terminate_command_argument process;;
      p ← the_process process;
      on_mach (kfree (ps_stack p));;
      on_tasks (task_free (ps_task p));;
      process_unlink process;;
      mret ret.

(** ** Loading a program *)

(** The part of [process_load_bin] behind [out]. *)
Definition bin_out (res fd program_data_ptr : Z) : M (system F) Z :=
  (if res <? 0 then on_mach (kfree program_data_ptr) else mret tt);;
  on_file (fclose fd);;
  mret res.

Definition process_load_bin (filename : list Z) (process : Z) : M (system F) Z :=
  fd ← on_file (fopen filename [114; 0]);
  if fd =? 0 then bin_out (- EIO) fd 0
  else
    r ← on_file (fstat fd local_buffer);
    let '(res, stat) := r in
    if negb (res =? KERNEL_ALL_OK) then bin_out res fd 0
    else
      stat ← expect stat;
      program_data_ptr ← on_mach (kzalloc (stat_filesize stat));
      if program_data_ptr =? 0 then bin_out (- ENOMEM) fd 0
      else
        n ← on_loader (l_fread program_data_ptr (stat_filesize stat) 1 fd);
        if negb (n =? 1) then bin_out (- EIO) fd program_data_ptr
        else
          upd_process process (ps_set_data PROCESS_FILETYPE_BINARY program_data_ptr (stat_filesize stat));;
          bin_out res fd program_data_ptr.

Definition process_load_elf (filename : list Z) (process : Z) : M (system F) Z :=
  r ← on_loader (elf_load filename);
  let '(res, elf_file) := r in
  if res <? 0 then mret res
  else
    upd_process process (fun p => ps_set_data PROCESS_FILETYPE_ELF elf_file (ps_size p) p);;
    mret res.

Definition process_load_data (filename : list Z) (process : Z) : M (system F) Z :=
  res ← process_load_elf filename process;
  if res =? - EINFORMATS then process_load_bin filename process else mret res.

(** [e_phnum] is 16 bits wide. *)
Definition phnum_fuel : nat := Z.to_nat 65536.

(** [process_map_elf]: the header is read again in every round. *)
Fixpoint map_elf_loop (n : nat) (m : mem) (dir : Z) (file : elf_file) (i res : Z) : Z * mem :=
  match n with
  | O => (res, m)
  | S n' =>
      let header := elf_header file in
      if i <? e_phnum m header then
        let phdr := elf_program_header m header i in
        let phdr_phys_address := elf_phdr_phys_address m file phdr in
        let flag := Z.lor PAGING_IS_PRESENT PAGING_ACCESS_FROM_ALL in
        let flag := if negb (Z.land (p_flags m phdr) PF_W =? 0) then Z.lor flag PAGING_IS_WRITEABLE else flag in
        let '(res, m) := paging_map_to m dir (paging_align_lower_address (p_vaddr m phdr)) phdr_phys_address
          (paging_align_address (u32 (phdr_phys_address + p_memsz m phdr))) flag in
        if IS_ERROR res then (res, m) else map_elf_loop n' m dir file (i + 1) res
      else (res, m)
  end.

Definition process_map_elf (process : Z) : M (system F) Z :=
  p ← the_process process;
  file ← on_loader (the_elf (ps_ptr p));
  on_pages (ps_task p) (fun m dir => map_elf_loop phnum_fuel m dir file 0 0).

Definition process_map_binary (process : Z) : M (system F) Z :=
  p ← the_process process;
  on_pages (ps_task p) (fun m dir =>
    paging_map_to m dir KERNEL_PROGRAM_VIRTUAL_ADDRESS (ps_ptr p)
      (paging_align_address (u32 (ps_ptr p + ps_size p))) user_page_flags).

Definition process_map_memory (process : Z) : M (system F) Z :=
  p ← the_process process;
  res ← (if ps_filetype p =? PROCESS_FILETYPE_ELF then process_map_elf process
         else if ps_filetype p =? PROCESS_FILETYPE_BINARY then process_map_binary process
         else panic);
  if res <? 0 then mret res
  else
    on_pages (ps_task p) (fun m dir =>
      paging_map_to m dir KERNEL_PROGRAM_VIRTUAL_STACK_ADDRESS_END (ps_stack p)
        (paging_align_address (u32 (ps_stack p + KERNEL_USER_PROGRAM_STACK_SIZE))) user_page_flags);;
    mret res.

(** The part of [process_load_for_slot] behind [out]: the result and [*process]. *)
Definition load_out (res process : Z) : M (system F) (Z * Z) :=
  if IS_ERROR res then
    process_terminate process;; on_mach (kfree process);; mret (res, 0)
  else mret (res, process).

(** The part of [process_load_for_slot] after the file has been loaded. *)
Definition start_program (filename : list Z) (process_slot process : Z) : M (system F) (Z * Z) :=
  stack ← on_mach (kzalloc KERNEL_USER_PROGRAM_STACK_SIZE);
  upd_process process (ps_set_stack stack);;
  if stack =? 0 then load_out (- ENOMEM) process
  else
    p ← the_process process;
    task ← on_tasks (task_new process (ps_filetype p) (ps_ptr p));
    upd_process process (ps_set_task task);;
    if task =? 0 then load_out (- ENOMEM) process
    else
      res ← process_map_memory process;
      if res <? 0 then load_out res process
      else
        p ← the_process process;
        name ← expect (strncpy (ps_filename p) filename KERNEL_MAX_PATH);
        upd_process process (ps_set_name process_slot name);;
        modify (fun s => set_processes (zset (processes s) process_slot process) s);;
        load_out res process.

(** [filename] is a C array; the pointers are not NULL. *)
Definition process_load_for_slot (filename : list Z) (process_slot : Z) : M (system F) (Z * Z) :=
  taken ← process_get process_slot;
  if negb (taken =? 0) then load_out (- EINVAGS) 0
  else
    process ← on_mach (kzalloc sizeof_task_struct);
    if process =? 0 then load_out (- ENOMEM) 0
    else
      process_init process;;
      res ← process_load_data filename process;
      if negb (res =? KERNEL_ALL_OK) then load_out res process
      else start_program filename process_slot process.

(** The result and [*process]; 0 where it is not written. *)
Definition process_load (filename : list Z) : M (system F) (Z * Z) :=
  process_slot ← process_get_free_slot;
  if process_slot <? 0 then mret (- EISTKN, 0)
  else process_load_for_slot filename process_slot.

Definition process_load_switch (filename : list Z) : M (system F) (Z * Z) :=
  r ← process_load filename;
  let '(res, process) := r in
  if res <? 0 then mret (res, process)
  else res ← process_switch process; mret (res, process).

(** ** Arguments *)

Definition process_get_argument (process : Z) : M (system F) (Z * Z) :=
  p ← the_process process; mret (ps_argc p, ps_argv p).

Definition load32 (a : Z) : M (system F) Z :=
  s ← get; expect (vld32 (sy_mem s) (cr3_dir s) a).

Definition process_get_next_command_argument (command_argument : Z) : M (system F) Z :=
  cur ← process_current;
  p ← the_process cur;
  next ← load32 (command_argument + sizeof_command_argument);
  on_tasks (task_virtual_addr_to_physical (ps_task p) next).

(** The lists of arguments come from user memory; [fuel] bounds their length. *)
Fixpoint count_argument_loop (fuel : nat) (current res : Z) : M (system F) Z :=
  match fuel with
  | O => nofuel
  | S fuel' =>
      if current =? 0 then mret res
      else
        next ← process_get_next_command_argument current;
        count_argument_loop fuel' next (res + 1)
  end.

Definition process_count_command_argument (fuel : nat) (root_argument : Z) : M (system F) Z :=
  count_argument_loop fuel root_argument 0.

Fixpoint free_argv_loop (n : nat) (process argc argv i : Z) : M (system F) unit :=
  match n with
  | O => mret tt
  | S n' =>
      if i <? argc then
        a ← load_argv argv i;
        process_free process a;;
        free_argv_loop n' process argc argv (i + 1)
      else mret tt
  end.

(** The part of [process_inject_argument] behind [out]. *)
Definition inject_out (res process argc argv : Z) : M (system F) Z :=
  if res <? 0 then
    free_argv_loop (Z.to_nat argc) process argc argv 0;;
    process_free process argv;;
    mret res
  else mret res.

Definition store32 (a v : Z) : M (system F) unit :=
  s ← get;
  pa ← expect (xlate (sy_mem s) (cr3_dir s) a);
  modify (set_sy_mem (st32 (sy_mem s) pa v)).

Fixpoint inject_loop (fuel : nat) (process argc argv current i : Z) : M (system F) Z :=
  match fuel with
  | O => nofuel
  | S fuel' =>
      if current =? 0 then
        upd_process process (ps_set_argument argc argv);; inject_out 0 process argc argv
      else
        argument_str ← process_malloc process (sizeof_command_argument + 1);
        if argument_str =? 0 then inject_out (- ENOMEM) process argc argv
        else
          s ← get;
          on_tasks (t_strncpy (cr3_dir s) argument_str current sizeof_command_argument);;
          store32 (argv + 4 * i) argument_str;;
          next ← process_get_next_command_argument current;
          inject_loop fuel' process argc argv next (i + 1)
  end.

(** With no argument at all, [argv] is read before it is set. *)
Definition process_inject_argument (fuel : nat) (process root_argument : Z) : M (system F) Z :=
  argc ← process_count_command_argument fuel root_argument;
  if argc =? 0 then fault
  else
    argv ← process_malloc process (u32 (4 * argc));
    if argv =? 0 then inject_out (- ENOMEM) process argc argv
    else inject_loop fuel process argc argv root_argument 0.

(** ** The next thread *)

Definition task_next : M (system F) unit :=
  next_task ← gets (fun s => current_task (sy_threads s));
  if next_task =? 0 then panic
  else
    t ← sys_thread next_task;
    process_switch (t_process t);;
    on_tasks (task_switch next_task);;
    iret next_task.
End sched.

(** ** Steps *)

Section steps.
Context {F : Type} {LY : Layout} {FS : Filesystem machine F} {SP : FilesystemSpec machine F}
  {LF : FilesystemLaws machine F}.
Implicit Types (s : system F).

Lemma sy_mach_set h s : sy_mach (set_mach h s) = h.
Proof. apply heap_upd. Qed.

Lemma set_mach_same s : set_mach (sy_mach s) s = s.
Proof. unfold set_mach, sy_mach, v_mach. rewrite upd_same. by destruct s as [[]]. Qed.

Lemma set_mach_set h h' s : set_mach h (set_mach h' s) = set_mach h s.
Proof. unfold set_mach. cbn. unfold set_l_vfs. cbn. by rewrite upd_upd. Qed.

Lemma sy_mem_set m s : sy_mem (set_sy_mem m s) = m.
Proof. unfold sy_mem, set_sy_mem. by rewrite sy_mach_set. Qed.

Lemma bind_mach {A T} (m : M machine A) (k : A -> M (system F) T) s a h :
  m (sy_mach s) = Done a h -> (on_mach m ≫= k) s = k a (set_mach h s).
Proof. intros E. apply bind_Done. by apply zoom_Done. Qed.

Lemma bind_tasks {A T} (m : M tasks A) (k : A -> M (system F) T) s a t :
  m (sy_tasks s) = Done a t -> (on_tasks m ≫= k) s = k a (set_sy_tasks t s).
Proof. intros E. apply bind_Done. by apply zoom_Done. Qed.

Lemma bind_loader {A T} (m : M (loader F) A) (k : A -> M (system F) T) s a l :
  m (sy_loader s) = Done a l -> (on_loader m ≫= k) s = k a (set_sy_loader l s).
Proof. intros E. apply bind_Done. by apply zoom_Done. Qed.

Lemma bind_proc {T} (k : task_struct -> M (system F) T) s a p :
  sy_procs s !! a = Some p -> (the_process a ≫= k) s = k p s.
Proof. intros E. unfold the_process. by rewrite bind_assoc, bind_gets, (bind_expect _ _ _ _ E). Qed.

Lemma bind_upd {T} (f : task_struct -> task_struct) (k : unit -> M (system F) T) s a p :
  sy_procs s !! a = Some p -> (upd_process a f ≫= k) s = k tt (put_proc a (f p) s).
Proof. intros E. unfold upd_process. by rewrite bind_assoc, (bind_proc _ _ _ _ E), bind_modify. Qed.

Lemma bind_pages {T} (f : mem -> Z -> Z * mem) (k : Z -> M (system F) T) s task t res m :
  t_threads (sy_threads s) !! task = Some t -> f (sy_mem s) (page_directory t) = (res, m) ->
  (on_pages task f ≫= k) s = k res (set_sy_mem m s).
Proof.
  intros Ht E. unfold on_pages, sys_thread.
  by rewrite bind_assoc, bind_assoc, bind_gets, (bind_expect _ _ _ _ Ht), bind_assoc, bind_gets, E, bind_assoc, bind_modify.
Qed.

(** A process whose thread has a well-formed address space in blocks of the heap. *)
Record has_space s (a : Z) (p : task_struct) (t : thread_info) : Prop := {
  hs_proc : sy_procs s !! a = Some p;
  hs_thread : t_threads (sy_threads s) !! ps_task p = Some t;
  hs_heap : kheap_ok (m_heap (sy_mach s));
  hs_space : space_ok (sy_mem s) (page_directory t);
  hs_live : forall b, b ∈ space_blocks (sy_mem s) (page_directory t) -> live (m_heap (sy_mach s)) b 1
}.

(** The address the process reaches at [va]. *)
Definition user_translate s (t : thread_info) (va : Z) : option Z :=
  translate (sy_mem s) (directory_entry (sy_mem s) (page_directory t)) va.

Lemma free_index_spec l i :
  0 <= i -> let j := free_index_loop l i in
  (j < 0 /\ forall a, a ∈ l -> fst a <> 0) \/
  (i <= j < i + zlen l /\ (exists n, zget l (j - i) = Some (0, n)) /\
   forall k a, 0 <= k < j - i -> zget l k = Some a -> fst a <> 0).
Proof.
  revert i. induction l as [|[q n] l IH]; intros i Hi; simpl.
  { left. split; [done|]. intros a Ha. by apply elem_of_nil in Ha. }
  rewrite zlen_cons. pose proof (zlen_nonneg l). destruct (Z.eqb_spec q 0) as [-> |Hq]; simpl.
  - right. split; [lia|]. split; [exists n; by rewrite Z.sub_diag|]. intros k a Hk. lia.
  - destruct (IH (i + 1) ltac:(lia)) as [[Hj Hall]|(Hj & (n' & Hn) & Hall)].
    + left. split; [done|]. intros a [-> |Ha]%elem_of_cons; [done|by apply Hall].
    + right. set (j := free_index_loop l (i + 1)) in *. split; [lia|]. split.
      * exists n'. rewrite zget_cons, (proj2 (Z.eqb_neq _ 0)) by lia. by replace (j - i - 1) with (j - (i + 1)) by lia.
      * intros k a Hk. rewrite zget_cons. destruct (Z.eqb_spec k 0); [by intros [= <-]|]. apply Hall. lia.
Qed.

Lemma allocation_loop_spec l ptr i :
  (allocation_loop l ptr i = -1 /\ forall a, a ∈ l -> fst a <> ptr) \/
  (i <= allocation_loop l ptr i < i + zlen l /\ exists n, zget l (allocation_loop l ptr i - i) = Some (ptr, n)).
Proof.
  revert i. induction l as [|[q n] l IH]; intros i; simpl.
  { left. split; [done|]. intros a Ha. by apply elem_of_nil in Ha. }
  rewrite zlen_cons. pose proof (zlen_nonneg l). destruct (Z.eqb_spec q ptr) as [-> |Hq].
  - right. split; [lia|]. exists n. by rewrite Z.sub_diag.
  - destruct (IH (i + 1)) as [[Hj Hall]|(Hj & n' & Hn)].
    + left. split; [done|]. intros a [-> |Ha]%elem_of_cons; [done|by apply Hall].
    + right. split; [lia|]. exists n'. rewrite zget_cons, (proj2 (Z.eqb_neq _ 0)) by lia.
      by replace (allocation_loop l ptr (i + 1) - i - 1) with (allocation_loop l ptr (i + 1) - (i + 1)) by lia.
Qed.

(** The pages of an allocation. *)
Lemma align_blocks ptr size :
  0 < ptr -> ptr mod 4096 = 0 -> 0 <= size < 4294963200 -> ptr + blocks_of size * 4096 <= 2147483648 ->
  paging_align_address (u32 (ptr + size)) = ptr + blocks_of size * 4096.
Proof.
  intros Hp Ha Hs Hb. pose proof (blocks_of_spec size ltac:(lia)) as Hbs. unfold KERNEL_HEAP_BLOCK_SIZE in Hbs.
  rewrite u32_small by lia. unfold paging_align_address, PAGING_PAGE_SIZE. destruct (Z.eqb_spec ((ptr + size) mod 4096) 0) as [E|E]; simpl.
  - Z.to_euclidean_division_equations. lia.
  - rewrite u32_small by (Z.to_euclidean_division_equations; lia). Z.to_euclidean_division_equations. lia.
Qed.

(** ** [process_malloc] *)

Lemma malloc_out_fail s ptr ret n :
  kheap_ok (m_heap (sy_mach s)) -> ret < 0 -> (ptr = 0 \/ live (m_heap (sy_mach s)) ptr n) ->
  exists h, malloc_out ret ptr s = Done 0 (set_mach h s) /\ m_mem h = sy_mem s /\ kheap_ok (m_heap h) /\
    forall b k, live (m_heap h) b k <-> live (m_heap (sy_mach s)) b k /\ (ptr = 0 \/ b <> ptr).
Proof.
  intros Hok Hr Hl. unfold malloc_out. rewrite (proj2 (Z.ltb_lt ret 0)) by done.
  exists (mk_machine (heap_free (m_heap (sy_mach s)) ptr) (sy_mem s)). rewrite (bind_mach _ _ _ tt (mk_machine (heap_free (m_heap (sy_mach s)) ptr) (sy_mem s))) by done.
  split; [done|]. split; [done|]. cbn [m_heap]. destruct Hl as [-> |Hl].
  - rewrite (@al_free_null heap heap_allocator heap_allocator_laws). split; [done|]. intros b k. split; [auto|tauto].
  - destruct (@al_free_spec heap heap_allocator heap_allocator_laws (m_heap (sy_mach s)) ptr n Hok Hl) as [Hok' Hless].
    split; [exact Hok'|]. intros b k. pose proof (Hless b k) as H. cbn [al_live al_free heap_allocator] in H. rewrite H.
    split; [tauto|]. intros [H1 [-> |H2]]; [|done]. destruct (kheap_live_range _ _ _ Hok Hl). lia.
Qed.

(** The process table, the ELF records and the file descriptors are the same. *)
Definition same_tables s s' : Prop :=
  current_process s' = current_process s /\ processes s' = processes s /\
  l_elfs (sy_loader s') = l_elfs (sy_loader s) /\
  file_descriptors (l_vfs (sy_loader s')) = file_descriptors (l_vfs (sy_loader s)).

(** After a failed request: the heap owns what it owned, the address space is the same. *)
Definition malloc_failed s s' (a : Z) (p : task_struct) (t : thread_info) : Prop :=
  has_space s' a p t /\ own_same (m_heap (sy_mach s)) (m_heap (sy_mach s')) /\
  sy_procs s' = sy_procs s /\ sy_threads s' = sy_threads s /\
  (forall va, 0 <= va < 4294967296 -> user_translate s' t va = user_translate s t va) /\
  space_blocks (sy_mem s') (page_directory t) = space_blocks (sy_mem s) (page_directory t) /\ same_tables s s' /\
  forall b n x, live (m_heap (sy_mach s)) b n -> b <= x < b + n * KERNEL_HEAP_BLOCK_SIZE -> sy_mem s' x = sy_mem s x.

(** After a successful one: [ptr] is a new zeroed block run, recorded in slot [i] and mapped
    to itself with the user's flags. *)
Record malloc_done s s' (a : Z) (p : task_struct) (t : thread_info) (ptr size i : Z) : Prop := {
  md_space : has_space s' a (ps_set_allocations (zset (ps_allocations p) i (ptr, size)) p) t;
  md_procs : sy_procs s' = <[a := ps_set_allocations (zset (ps_allocations p) i (ptr, size)) p]> (sy_procs s);
  md_threads : sy_threads s' = sy_threads s;
  md_ptr : 0 < ptr /\ size <= blocks_of size * KERNEL_HEAP_BLOCK_SIZE;
  md_heap : own_more (m_heap (sy_mach s)) (m_heap (sy_mach s')) ptr (blocks_of size);
  md_fresh : forall n, live (m_heap (sy_mach s)) ptr n -> False;
  md_blocks : space_blocks (sy_mem s') (page_directory t) = space_blocks (sy_mem s) (page_directory t);
  md_slot : (exists n, zget (ps_allocations p) i = Some (0, n)) /\
    forall k q, 0 <= k < i -> zget (ps_allocations p) k = Some q -> fst q <> 0;
  md_zero : forall x, ptr <= x < ptr + blocks_of size * KERNEL_HEAP_BLOCK_SIZE -> sy_mem s' x = 0;
  md_translate : forall va, 0 <= va < 4294967296 ->
    user_translate s' t va =
    if (ptr <=? va) && (va <? ptr + blocks_of size * KERNEL_HEAP_BLOCK_SIZE) then Some va else user_translate s t va;
  md_frame : forall x, (forall b, b ∈ space_blocks (sy_mem s) (page_directory t) -> ~ b <= x < b + 4096) ->
    ~ ptr <= x < ptr + blocks_of size * KERNEL_HEAP_BLOCK_SIZE -> sy_mem s' x = sy_mem s x;
  md_dir : directory_entry (sy_mem s') (page_directory t) = directory_entry (sy_mem s) (page_directory t);
  md_mem : mem_ok (sy_mem s) -> mem_ok (sy_mem s');
  md_free : free_blocks (m_heap (sy_mach s')) = free_blocks (m_heap (sy_mach s)) - blocks_of size;
  md_tables : same_tables s s'
}.

(** The heap has no room: [NULL] is given back. *)
Lemma malloc_no_run s a p t :
  has_space s a p t -> exists s', malloc_out (- ENOMEM) 0 (set_mach (sy_mach s) s) = Done 0 s' /\ malloc_failed s s' a p t.
Proof.
  intros [Hp Ht Hok Hsp Hl].
  destruct (malloc_out_fail (set_mach (sy_mach s) s) 0 (- ENOMEM) 0) as (h & E1 & Em & Hokh & Hlh);
    [by rewrite sy_mach_set|done|by left|].
  eexists. split; [exact E1|]. rewrite sy_mach_set in Hlh.
  assert (Em' : m_mem h = sy_mem s) by (rewrite Em; unfold sy_mem; by rewrite sy_mach_set).
  unfold malloc_failed, user_translate, sy_mem. rewrite !sy_mach_set, Em'. split; [|split; [|done]].
  - constructor; unfold sy_mem; rewrite ?sy_mach_set, ?Em'; try done. intros b Hb. apply Hlh. split; [by apply Hl|by left].
  - intros b n. rewrite (Hlh b n). split; [tauto|auto].
Qed.

(** The table is full: the run goes back to the heap. *)
Lemma malloc_no_slot s a p t ptr size h :
  has_space s a p t -> new_run (sy_mach s) h (page_directory t) ptr size ->
  exists s', malloc_out (- ENOMEM) ptr (set_mach h s) = Done 0 s' /\ malloc_failed s s' a p t.
Proof.
  intros [Hp Ht Hok Hsp Hl] [N1 (N2 & _) _ N4 N5 _ N7 [S1 S2 S3 S4] _ _ _].
  destruct (malloc_out_fail (set_mach h s) ptr (- ENOMEM) (blocks_of size)) as (h2 & E1 & Em & Hokh & Hlh);
    [by rewrite sy_mach_set|done|rewrite sy_mach_set; right; apply N4; by left|].
  eexists. split; [exact E1|]. rewrite sy_mach_set in Hlh.
  assert (Em' : m_mem h2 = m_mem h) by (rewrite Em; unfold sy_mem; by rewrite sy_mach_set).
  unfold malloc_failed, user_translate, sy_mem. rewrite !sy_mach_set, Em'.
  split; [|split; [|split; [done|split; [done|split; [|split; [exact S3|split; [done|]]]]]]].
  - constructor; unfold sy_mem; rewrite ?sy_mach_set, ?Em'; try done. intros b Hb. rewrite S3 in Hb.
    apply Hlh. split; [apply N4; right; by apply Hl|]. right. intros ->. by eapply N5, Hl.
  - intros b k. rewrite (Hlh b k), (N4 b k). split.
    + intros [[[-> _]|Hb] [H0|H0]]; [lia|by destruct H0|done|done].
    + intros Hb. split; [by right|]. right. intros ->. by eapply N5.
  - intros va Hva. rewrite S2. by apply S4.
  - intros b n x Hb Hx. apply N7. assert (Hne : b <> ptr) by (intros ->; by eapply N5).
    assert (Hlp : live (m_heap h) ptr (blocks_of size)) by (apply N4; by left).
    assert (Hlb : live (m_heap h) b n) by (apply N4; by right).
    pose proof (live_apart _ _ _ _ _ (proj1 N1) Hlb Hlp Hne) as Ha. unfold apart, KERNEL_HEAP_BLOCK_SIZE in *. lia.
Qed.

(** The run is recorded in slot [i] and mapped. *)
Lemma malloc_recorded s a p t ptr size h i :
  has_space s a p t -> 0 <= size < 4294963200 -> new_run (sy_mach s) h (page_directory t) ptr size ->
  (exists n, zget (ps_allocations p) i = Some (0, n)) ->
  (forall k q, 0 <= k < i -> zget (ps_allocations p) k = Some q -> fst q <> 0) ->
  exists m', paging_map_to (m_mem h) (page_directory t) ptr ptr (paging_align_address (u32 (ptr + size))) user_page_flags = (0, m') /\
    malloc_done s (put_proc a (ps_set_allocations (zset (ps_allocations p) i (ptr, size)) p) (set_sy_mem m' (set_mach h s))) a p t ptr size i.
Proof.
  intros [Hp Ht Hok Hsp Hl] Hs [N1 (Hpp & Hbp & Hal & Hr) N3 N4 N5 Hz Hout [S1 S2 S3 S4] Hdis Hmem Hfree] Hn Hall.
  destruct (map_range (m_mem h) (page_directory t) ptr ptr (ptr + blocks_of size * 4096) 7 S1)
    as (m' & E2 & M1 & M2 & M3 & M4 & M5); try lia; [rewrite Z.add_mod, Hal, Z.mod_mul by lia; done|].
  exists m'. rewrite align_blocks by lia. split; [exact E2|].
  assert (Em : forall f, sy_mach (put_proc a f (set_sy_mem m' (set_mach h s))) = mk_machine (m_heap h) m').
  { intros f. change (sy_mach (set_sy_mem m' (set_mach h s)) = mk_machine (m_heap h) m').
    unfold set_sy_mem. by rewrite !sy_mach_set. }
  constructor; unfold user_translate, sy_mem; rewrite ?Em; cbn [m_heap m_mem].
  - constructor; unfold sy_mem; rewrite ?Em; cbn [m_heap m_mem]; [apply lookup_insert_eq|exact Ht|exact N1|exact M1|].
    intros b Hb. rewrite M3, S3 in Hb. apply N4. right. by apply Hl.
  - reflexivity.
  - reflexivity.
  - split; [exact Hpp|exact N3].
  - exact N4.
  - exact N5.
  - by rewrite M3, S3.
  - split; [exact Hn|exact Hall].
  - intros x Hx. rewrite M4; [by apply Hz|]. rewrite S3. intros b Hb Hbx. pose proof (Hdis b x Hb Hbx).
    unfold KERNEL_HEAP_BLOCK_SIZE in Hx. lia.
  - intros va Hva. rewrite M2, S2. rewrite S2 in M5. rewrite M5 by done. unfold KERNEL_HEAP_BLOCK_SIZE.
    replace (ptr + (ptr + blocks_of size * 4096 - ptr)) with (ptr + blocks_of size * 4096) by lia.
    change (Z.testbit 7 0) with true. cbv iota.
    destruct (_ && _); [f_equal; lia|by apply S4].
  - intros x Hx Hnx. rewrite M4 by (by rewrite S3). apply Hout. unfold KERNEL_HEAP_BLOCK_SIZE in Hnx. lia.
  - by rewrite M2, S2.
  - intros Hm. pose proof (paging_map_to_mem_ok (m_mem h) (page_directory t) ptr ptr (ptr + blocks_of size * 4096) 7) as Hm'.
    rewrite E2 in Hm'. apply Hm'. by apply Hmem.
  - exact Hfree.
  - by split.
Qed.

Lemma malloc_total s a p t size :
  has_space s a p t -> 0 <= size < 4294963200 ->
  exists ptr s', process_malloc a size s = Done ptr s' /\
    ((ptr = 0 /\ malloc_failed s s' a p t /\
      (roomy (free_blocks (m_heap (sy_mach s))) (blocks_of size) -> forall q, q ∈ ps_allocations p -> fst q <> 0)) \/
     exists i, malloc_done s s' a p t ptr size i).
Proof.
  intros Hhs Hs. pose proof Hhs as [Hp Ht Hok Hsp Hl]. unfold process_malloc.
  destruct (kzalloc_beside (sy_mach s) size (page_directory t) Hok ltac:(lia) Hsp Hl) as (ptr & h & E & D).
  rewrite (bind_mach _ _ _ _ _ E). destruct D as [(-> & -> & Hfull)|Hn].
  { destruct (malloc_no_run s a p t Hhs) as (s' & E1 & Hf). exists 0, s'. split; [exact E1|]. left.
    split; [done|]. split; [exact Hf|]. intros Hr. by destruct Hfull. }
  pose proof (nr_range _ _ _ _ _ Hn) as (Hpp & _). rewrite (proj2 (Z.eqb_neq ptr 0)) by lia.
  unfold process_find_free_allocations_index. rewrite bind_assoc, (bind_proc _ _ _ p), bind_ret by done.
  destruct (free_index_spec (ps_allocations p) 0 ltac:(done)) as [[Hj Hall]|(Hj & Hslot & Hall)].
  - rewrite (proj2 (Z.ltb_lt _ 0)) by done. destruct (malloc_no_slot s a p t ptr size h Hhs Hn) as (s' & E1 & Hf).
    exists 0, s'. split; [exact E1|]. left. split; [done|]. split; [exact Hf|by intros _].
  - set (i := free_index_loop (ps_allocations p) 0) in *. rewrite Z.sub_0_r in Hslot, Hall.
    destruct (malloc_recorded s a p t ptr size h i Hhs Hs Hn Hslot Hall) as (m' & E2 & Hd).
    rewrite (proj2 (Z.ltb_ge i 0)) by lia. rewrite (bind_proc _ _ _ p) by done.
    rewrite (bind_pages _ _ _ _ t 0 m'); [|done|by unfold sy_mem; rewrite sy_mach_set].
    change (0 <? 0) with false. cbv iota. rewrite (bind_upd _ _ _ _ p) by done.
    exists ptr. eexists. split; [reflexivity|]. right. by exists i.
Qed.

(** ** [process_free] *)

(** After the release of [ptr] in slot [i]: the pages are no longer mapped. *)
Record free_done s s' (a : Z) (p : task_struct) (t : thread_info) (ptr size i : Z) : Prop := {
  fd_space : has_space s' a (ps_set_allocations (zset (ps_allocations p) i (0, 0)) p) t;
  fd_procs : sy_procs s' = <[a := ps_set_allocations (zset (ps_allocations p) i (0, 0)) p]> (sy_procs s);
  fd_threads : sy_threads s' = sy_threads s;
  fd_heap : forall b n, live (m_heap (sy_mach s')) b n <-> live (m_heap (sy_mach s)) b n /\ b <> ptr;
  fd_translate : forall va, 0 <= va < 4294967296 ->
    user_translate s' t va =
    if (ptr <=? va) && (va <? ptr + blocks_of size * KERNEL_HEAP_BLOCK_SIZE) then None else user_translate s t va;
  fd_blocks : space_blocks (sy_mem s') (page_directory t) = space_blocks (sy_mem s) (page_directory t);
  fd_frame : forall x, (forall b, b ∈ space_blocks (sy_mem s) (page_directory t) -> ~ b <= x < b + 4096) ->
    sy_mem s' x = sy_mem s x;
  fd_tables : same_tables s s'
}.

Lemma process_free_total s a p t ptr size i :
  has_space s a p t -> a <> 0 -> 0 <= size < 4294963200 ->
  allocation_loop (ps_allocations p) ptr 0 = i -> 0 <= i -> zget (ps_allocations p) i = Some (ptr, size) ->
  live (m_heap (sy_mach s)) ptr (blocks_of size) -> ptr ∉ space_blocks (sy_mem s) (page_directory t) ->
  exists s', process_free a ptr s = Done tt s' /\ free_done s s' a p t ptr size i.
Proof.
  intros [Hp Ht Hok Hsp Hl] Ha Hs Hi Hi0 Hg Hlive Hnb.
  destruct (kheap_live_range _ _ _ Hok Hlive) as (Hp0 & Hb0 & Hal & Hr). unfold KERNEL_HEAP_BLOCK_SIZE in Hal, Hr.
  unfold process_free. rewrite (proj2 (Z.eqb_neq a 0)), (proj2 (Z.eqb_neq ptr 0)) by lia. cbn [orb].
  unfold process_get_allocation_index_by_addr. rewrite bind_assoc, (bind_proc _ _ _ p), bind_ret by done.
  rewrite Hi, (proj2 (Z.ltb_ge i 0)) by lia. rewrite (bind_proc _ _ _ p), (bind_expect _ _ _ _ Hg) by done.
  destruct (map_range (sy_mem s) (page_directory t) ptr ptr (ptr + blocks_of size * 4096) 0 Hsp)
    as (m' & E2 & M1 & M2 & M3 & M4 & M5); try lia; [rewrite Z.add_mod, Hal, Z.mod_mul by lia; done|].
  rewrite (bind_pages _ _ _ _ t 0 m'); [|done|].
  2: { by rewrite align_blocks by lia. }
  rewrite (bind_upd _ _ _ _ p) by done.
  set (s1 := put_proc a _ (set_sy_mem m' s)).
  assert (E1 : sy_mach s1 = set_mem m' (sy_mach s)).
  { change (sy_mach (set_sy_mem m' s) = set_mem m' (sy_mach s)). unfold set_sy_mem. by rewrite sy_mach_set. }
  destruct (@al_free_spec heap heap_allocator heap_allocator_laws (m_heap (sy_mach s)) ptr _ Hok Hlive) as [Hok' Hless].
  cbn [al_live al_free al_ok heap_allocator] in Hok', Hless.
  assert (Ek : on_mach (kfree ptr) s1 = Done tt (set_mach (mk_machine (heap_free (m_heap (sy_mach s)) ptr) m') s1)).
  { unfold on_mach. apply zoom_Done. by rewrite E1. }
  exists (set_mach (mk_machine (heap_free (m_heap (sy_mach s)) ptr) m') s1). split; [exact Ek|].
  constructor; unfold user_translate, sy_mem; rewrite ?sy_mach_set; cbn [m_heap m_mem].
  - constructor; unfold sy_mem; rewrite ?sy_mach_set; cbn [m_heap m_mem]; [apply lookup_insert_eq|exact Ht|exact Hok'|exact M1|].
    intros b Hb. rewrite M3 in Hb. apply Hless. split; [by apply Hl|]. intros ->. by apply Hnb.
  - reflexivity.
  - reflexivity.
  - exact Hless.
  - intros va Hva. rewrite M2, M5 by done. unfold KERNEL_HEAP_BLOCK_SIZE.
    replace (ptr + (ptr + blocks_of size * 4096 - ptr)) with (ptr + blocks_of size * 4096) by lia. reflexivity.
  - exact M3.
  - exact M4.
  - by split.
Qed.

(** A new allocation is found again at its slot. *)
Lemma allocation_found l i k ptr size :
  0 < ptr -> 0 <= i < zlen l ->
  (forall j q, 0 <= j < i -> zget l j = Some q -> fst q <> 0 /\ fst q <> ptr) ->
  allocation_loop (zset l i (ptr, size)) ptr k = k + i.
Proof.
  revert i k. induction l as [|q l IH]; intros i k Hp Hi Hall; [unfold zlen in Hi; simpl in Hi; lia|].
  rewrite zlen_cons in Hi. destruct (Z.eq_dec i 0) as [-> |Hne].
  - change (zset (q :: l) 0 (ptr, size)) with ((ptr, size) :: l). simpl. rewrite Z.eqb_refl. lia.
  - replace (zset (q :: l) i (ptr, size)) with (q :: zset l (i - 1) (ptr, size)).
    2: { unfold zset. rewrite !(proj2 (Z.leb_le 0 _)) by lia. by replace (Z.to_nat i) with (S (Z.to_nat (i - 1))) by lia. }
    destruct (Hall 0 q ltac:(lia) eq_refl) as [_ Hq]. simpl. rewrite (proj2 (Z.eqb_neq _ ptr)) by done.
    rewrite IH; [lia|done|lia|]. intros j q' Hj Hg. apply (Hall (j + 1)); [lia|].
    rewrite zget_cons, (proj2 (Z.eqb_neq _ 0)) by lia. by replace (j + 1 - 1) with j by lia.
Qed.

(** Every recorded allocation is a block run of the heap. *)
Definition allocations_live s (p : task_struct) : Prop :=
  forall q, q ∈ ps_allocations p -> fst q <> 0 -> live (m_heap (sy_mach s)) (fst q) (blocks_of (snd q)).
End steps.

(** ** Properties *)

(** A process with a thread on a fresh address space, and an empty table of allocations. *)
#[local] Existing Instance one_file_fs.
#[local] Existing Instance one_file_spec.
#[local] Existing Instance one_file_laws.
#[local] Existing Instance sample_layout.

Definition hi_proc : task_struct := ps_set_task 8192 zero_process.

Definition hi_system (chunk : Z) (m : machine) : system one_file :=
  set_mach m (mk_system (mk_loader (one_file_vfs []) ∅)
    (mk_tasks m {[8192 := mk_thread_info chunk zero_registers 0 0 0]} 8192 8192 8192 0 0) {[12288 := hi_proc]} [] 12288).

Lemma hi_space :
  exists chunk m, has_space (hi_system chunk m) 12288 hi_proc (mk_thread_info chunk zero_registers 0 0 0) /\
    0 < free_blocks (m_heap m).
Proof.
  destruct hi_chunk as (chunk & m & _ & Hok & _ & Hsp & Hfree & _ & Hl & _). exists chunk, m. split; [|rewrite Hfree; reflexivity].
  constructor; unfold sy_mem, hi_system; rewrite ?sy_mach_set; [apply lookup_singleton_eq|apply lookup_singleton_eq|exact Hok|exact Hsp|exact Hl].
Qed.

Lemma hi_allocations s : allocations_live s hi_proc.
Proof.
  intros q Hq Hne. cbn [hi_proc ps_allocations ps_set_task zero_process] in Hq.
  apply elem_of_replicate in Hq as [-> _]. by destruct Hne.
Qed.

(** C10: memory requests of a process.  [process_malloc] either fails with NULL — only when
    the heap may have no run of free blocks that long, or the process's table of 1024
    allocations is full — and then leaves the heap's owners, the process and the address space as they were; or
    it returns a fresh zeroed block run that covers the request, recorded in the first free
    slot and mapped to itself for the user, every other address translating as before. *)
Theorem process_malloc_spec {F : Type} {LY : Layout} {FS : Filesystem machine F} {SP : FilesystemSpec machine F}
    {LF : FilesystemLaws machine F} (s : system F) (a : Z) (p : task_struct) (t : thread_info) (size : Z) :
  has_space s a p t -> 0 <= size < 4294963200 ->
  exists ptr s', process_malloc a size s = Done ptr s' /\
    ((ptr = 0 /\ malloc_failed s s' a p t /\
      (roomy (free_blocks (m_heap (sy_mach s))) (blocks_of size) -> forall q, q ∈ ps_allocations p -> fst q <> 0)) \/
     exists i, malloc_done s s' a p t ptr size i).
Proof. apply malloc_total. Qed.

Lemma process_malloc_spec_witness :
  exists chunk m ptr s', process_malloc 12288 100 (hi_system chunk m) = Done ptr s' /\ ptr <> 0.
Proof.
  destruct hi_space as (chunk & m & Hhs & Hfree).
  destruct (process_malloc_spec (hi_system chunk m) 12288 hi_proc _ 100 Hhs) as (ptr & s' & E & D).
  - lia.
  - exists chunk, m, ptr, s'. split; [exact E|]. destruct D as [(_ & _ & Hfull)|(i & D)].
    + exfalso. apply Hfull with (q := (0, 0)).
      * unfold hi_system. rewrite sy_mach_set. apply roomy_page. exact Hfree.
      * left.
      * reflexivity.
    + destruct (md_ptr _ _ _ _ _ _ _ _ D) as [H _]. lia.
Defined.

(** C11: [process_free] undoes [process_malloc]: after the release the heap owns exactly
    what it owned before the request and the slot is empty again.  The address space is not
    restored: the pages, mapped to themselves in a new space, now fault. *)
Theorem process_malloc_free {F : Type} {LY : Layout} {FS : Filesystem machine F} {SP : FilesystemSpec machine F}
    {LF : FilesystemLaws machine F} (s : system F) (a : Z) (p : task_struct) (t : thread_info) (size : Z) :
  has_space s a p t -> a <> 0 -> 0 <= size < 4294963200 -> allocations_live s p ->
  exists ptr s1, process_malloc a size s = Done ptr s1 /\
    (ptr <> 0 -> exists s2 i n, process_free a ptr s1 = Done tt s2 /\
       own_same (m_heap (sy_mach s)) (m_heap (sy_mach s2)) /\ zget (ps_allocations p) i = Some (0, n) /\
       sy_procs s2 = <[a := ps_set_allocations (zset (ps_allocations p) i (0, 0)) p]> (sy_procs s) /\
       forall va, 0 <= va < 4294967296 ->
         user_translate s2 t va =
         if (ptr <=? va) && (va <? ptr + blocks_of size * KERNEL_HEAP_BLOCK_SIZE) then None else user_translate s t va).
Proof.
  intros Hhs Ha Hs Hal. destruct (malloc_total s a p t size Hhs Hs) as (ptr & s1 & E1 & D).
  exists ptr, s1. split; [exact E1|]. intros Hp. destruct D as [(-> & _)|(i & [D1 D2 D3 D4 D5 D6 Db [[n D7] D8] D9 D10])]; [done|].
  pose proof (zget_Some_range _ _ _ D7) as Hi.
  assert (Hloop : allocation_loop (zset (ps_allocations p) i (ptr, size)) ptr 0 = i).
  { rewrite allocation_found; [lia|lia|done|]. intros j q Hj Hg. pose proof (D8 j q Hj Hg) as Hq. split; [exact Hq|].
    intros Heq. apply (D6 (blocks_of (snd q))). rewrite <- Heq. apply Hal; [by eapply zget_elem|exact Hq]. }
  assert (Hlp : live (m_heap (sy_mach s1)) ptr (blocks_of size)) by (apply D5; left; split; reflexivity).
  destruct (process_free_total s1 a _ t ptr size i D1 Ha Hs Hloop ltac:(lia)) as (s2 & E2 & [F1 F2 F3 F4 F5 _ _ _]).
  - by apply zget_zset_eq.
  - exact Hlp.
  - rewrite Db. intros Hb. apply (D6 1). by apply (hs_live _ _ _ _ Hhs).
  - exists s2, i, n. split; [exact E2|]. split; [|split; [exact D7|split]].
    + intros b k. pose proof (F4 b k) as H4. pose proof (D5 b k) as H5. cbn [al_live heap_allocator] in H5 |- *. rewrite H4, H5.
      split; [tauto|]. intros Hb. split; [by right|]. intros ->. exact (D6 _ Hb).
    + rewrite F2, D2. cbn [ps_allocations ps_set_allocations]. rewrite insert_insert_eq. by rewrite zset_zset.
    + intros va Hva. rewrite F5, D10 by done. by destruct (_ && _).
Qed.


Lemma process_malloc_free_witness :
  exists chunk m ptr s1, process_malloc 12288 100 (hi_system chunk m) = Done ptr s1 /\
    (ptr <> 0 -> exists s2, process_free 12288 ptr s1 = Done tt s2 /\
       own_same (m_heap m) (m_heap (sy_mach s2))).
Proof.
  destruct hi_space as (chunk & m & Hhs & _).
  destruct (process_malloc_free (hi_system chunk m) 12288 hi_proc _ 100 Hhs) as (ptr & s1 & E & D).
  - discriminate.
  - lia.
  - apply hi_allocations.
  - exists chunk, m, ptr, s1. split; [exact E|]. intros Hp. destruct (D Hp) as (s2 & i & n & E2 & Hown & _).
    exists s2. split; [exact E2|]. unfold hi_system in Hown. rewrite sy_mach_set in Hown. exact Hown.
Defined.
