(* ===== verification/Exec.v ===== *)
(** * Running a program: what process_load of kernel/sched.c achieves

    The layout of an ELF file is read off its bytes; [process_load] of Sched.v is shown to
    build the process whose address space holds these bytes where the file wants them. *)
From S2P Require Import Prelude Heap Kheap CString Keyboard Paging Pparser Disk Fat16 File Contents Elf Task Sched.

(** The size of the pages that hold [n] bytes. *)
Definition page_up (n : Z) : Z := (n + 4095) / 4096 * 4096.

Lemma page_up_le n : 0 <= n -> n <= page_up n < n + 4096 /\ page_up n mod 4096 = 0.
Proof. intros. unfold page_up. Z.to_euclidean_division_equations. lia. Qed.

Lemma align_page_up p n :
  0 <= p -> p mod 4096 = 0 -> 0 <= n -> p + n + 4096 <= 4294967296 ->
  paging_align_address (u32 (p + n)) = p + page_up n.
Proof.
  intros Hp Hpa Hn Hb. rewrite u32_small by lia. unfold paging_align_address, page_up, PAGING_PAGE_SIZE.
  destruct (Z.eqb_spec ((p + n) mod 4096) 0); simpl.
  - Z.to_euclidean_division_equations. lia.
  - rewrite u32_small by (Z.to_euclidean_division_equations; lia). Z.to_euclidean_division_equations. lia.
Qed.

(** ** The layout of a file *)

Section image.
Context (c : list Z).

Definition byte_at (i : Z) : Z := default 0 (zget c i).
Definition half_at (i : Z) : Z := byte_at i + 256 * byte_at (i + 1).
Definition word_at (i : Z) : Z := byte_at i + 256 * byte_at (i + 1) + 65536 * byte_at (i + 2) + 16777216 * byte_at (i + 3).

Definition c_phnum : Z := half_at 44.
Definition c_header (j : Z) : Z := word_at 28 + sizeof_phdr * j.
Definition c_type (j : Z) : Z := word_at (c_header j).
Definition c_offset (j : Z) : Z := word_at (c_header j + 4).
Definition c_vaddr (j : Z) : Z := word_at (c_header j + 8).
Definition c_filesz (j : Z) : Z := word_at (c_header j + 16).
Definition c_memsz (j : Z) : Z := word_at (c_header j + 20).

(** Address [va] is on the pages of segment [j]. *)
Definition in_segment (j va : Z) : Prop := c_vaddr j <= va < c_vaddr j + page_up (c_memsz j).

(** A segment the loader can map: page aligned in the file and in memory, above the
    stack, inside the file and the address space. *)
Record segment_fits (j : Z) : Prop := {
  sf_type : c_type j = PT_LOAD;
  sf_offset : c_offset j mod 4096 = 0;
  sf_vaddr : c_vaddr j mod 4096 = 0;
  sf_low : KERNEL_PROGRAM_VIRTUAL_STACK_ADDRESS_START <= c_vaddr j;
  sf_file : c_offset j + c_filesz j <= zlen c;
  sf_size : c_filesz j <= c_memsz j;
  sf_high : c_vaddr j + page_up (c_memsz j) < 4294967296;
  sf_memory : c_offset j + c_memsz j <= 2147479552
}.

Record program_ok : Prop := {
  po_bytes : Forall (fun b => 0 <= b < 256) c;
  po_magic : take 4 c = elf_signature;
  po_class : byte_at EI_CLASS = 0 \/ byte_at EI_CLASS = 1;
  po_data : byte_at EI_DATA = 0 \/ byte_at EI_DATA = 1;
  po_phoff : word_at 28 <> 0;
  po_type : half_at 16 = ET_EXEC;
  po_entry : KERNEL_PROGRAM_VIRTUAL_ADDRESS <= word_at 24;
  po_phnum : 0 < c_phnum;
  po_headers : 52 <= zlen c /\ word_at 28 + sizeof_phdr * c_phnum <= zlen c;
  po_segments : forall j, 0 <= j < c_phnum -> segment_fits j;
  po_apart : forall i j va, 0 <= i < c_phnum -> 0 <= j < c_phnum -> in_segment i va -> in_segment j va -> i = j
}.

Lemma byte_range i : Forall (fun b => 0 <= b < 256) c -> 0 <= byte_at i < 256.
Proof.
  intros H. unfold byte_at. destruct (zget c i) as [b|] eqn:E; simpl; [|lia].
  apply zget_elem in E. by rewrite Forall_forall in H; apply H.
Qed.

Lemma word_range i : Forall (fun b => 0 <= b < 256) c -> 0 <= word_at i < 4294967296.
Proof.
  intros H. unfold word_at. pose proof (byte_range i H). pose proof (byte_range (i + 1) H).
  pose proof (byte_range (i + 2) H). pose proof (byte_range (i + 3) H). lia.
Qed.

(** ** The file in memory *)

Section loaded.
Context (m : mem) (a : Z).
Hypothesis Hload : load_bytes m a (zlen c) = c.
Hypothesis Ha : 0 <= a /\ a + zlen c < 4294967296.

Lemma ld8_at i : 0 <= i < zlen c -> ld8 m (a + i) = byte_at i.
Proof. intros Hi. unfold byte_at. rewrite <- Hload at 1. unfold load_bytes. by rewrite zget_map_seqZ. Qed.

Lemma ld16_at i : 0 <= i -> i + 2 <= zlen c -> ld16 m (a + i) = half_at i.
Proof. intros Hi Hb. unfold ld16, half_at. rewrite <- (Z.add_assoc a i 1). by rewrite !ld8_at by lia. Qed.

Lemma ld32_at i : 0 <= i -> i + 4 <= zlen c -> ld32 m (a + i) = word_at i.
Proof. intros Hi Hb. unfold ld32, word_at. rewrite <- !(Z.add_assoc a i). by rewrite !ld8_at by lia. Qed.

Hypothesis Hok : program_ok.

Lemma header_at j :
  0 <= j < c_phnum -> elf_program_header m a j = a + c_header j /\ 0 <= c_header j /\ c_header j + 32 <= zlen c.
Proof.
  intros Hj. destruct (po_headers Hok) as [H52 Hph]. pose proof (word_range 28 (po_bytes Hok)) as Hw.
  unfold sizeof_phdr in Hph. assert (Hc : 0 <= c_header j /\ c_header j + 32 <= zlen c) by (unfold c_header, sizeof_phdr; nia).
  split; [|exact Hc]. unfold elf_program_header, elf_pheader, e_phoff. rewrite !ld32_at by lia.
  rewrite (proj2 (Z.eqb_neq _ 0) (po_phoff Hok)), (u32_small (a + word_at 28)) by (unfold sizeof_phdr in *; nia).
  unfold c_header, sizeof_phdr in *. rewrite u32_small by lia. lia.
Qed.

Lemma phnum_at : e_phnum m a = c_phnum.
Proof. destruct (po_headers Hok). unfold e_phnum. by rewrite ld16_at by lia. Qed.

Lemma fields_at j :
  0 <= j < c_phnum -> let h := elf_program_header m a j in
  p_type m h = c_type j /\ p_offset m h = c_offset j /\ p_vaddr m h = c_vaddr j /\
  p_filesz m h = c_filesz j /\ p_memsz m h = c_memsz j.
Proof.
  intros Hj h. destruct (header_at j Hj) as (Eh & Hc & Hb). unfold h. rewrite Eh.
  unfold p_type, p_offset, p_vaddr, p_filesz, p_memsz, c_type, c_offset, c_vaddr, c_filesz, c_memsz.
  rewrite <- !(Z.add_assoc a (c_header j)). by rewrite !ld32_at by lia.
Qed.

Lemma valid_at : valid_header m a.
Proof.
  pose proof Hok as [H0 H1 H2 H3 H4 H5 H6 H7 [H8 _] _ _]. constructor.
  - rewrite <- H1, <- Hload. unfold load_bytes. replace (zlen c) with (4 + (zlen c - 4)) by lia.
    rewrite seqZ_app, map_app by lia. reflexivity.
  - unfold e_ident. by rewrite ld8_at by (unfold EI_CLASS; lia).
  - unfold e_ident. by rewrite ld8_at by (unfold EI_DATA; lia).
  - unfold e_phoff. by rewrite ld32_at by lia.
  - unfold e_type. by rewrite ld16_at by lia.
  - unfold e_entry. by rewrite ld32_at by lia.
Qed.

Lemma segments_at j : 0 <= j < c_phnum -> segment_ok m a j.
Proof.
  intros Hj. destruct (fields_at j Hj) as (E1 & E2 & E3 & E4 & E5). destruct (po_segments Hok j Hj) as [S1 S2 S3 S4 S5 S6 S7 S8].
  unfold segment_ok, ph. rewrite E1, E3, E4. pose proof (word_range (c_header j + 16) (po_bytes Hok)) as Hf.
  fold (c_filesz j) in Hf. unfold KERNEL_PROGRAM_VIRTUAL_STACK_ADDRESS_START in S4. split; [exact S1|]. split; [lia|]. split; [lia|].
  pose proof (word_range (c_header j + 20) (po_bytes Hok)) as Hm. fold (c_memsz j) in Hm.
  assert (c_memsz j <= page_up (c_memsz j)) by (unfold page_up; Z.to_euclidean_division_equations; lia). lia.
Qed.

(** The loader accepts the file. *)
Lemma process_load_at :
  exists e, elf_process_load m (fresh_elf (zlen c) a) = (0, e) /\ same_elf (fresh_elf (zlen c) a) e.
Proof.
  pose proof (po_phnum Hok) as Hn. pose proof phnum_at as En.
  destruct (pheaders_loop_spec m a (Z.to_nat c_phnum) 0 (fresh_elf (zlen c) a)) as (e & E & Hs & _); try done; try lia.
  { intros j Hj. apply segments_at. lia. }
  exists e. split; [|exact Hs]. unfold elf_process_load. change (elf_header (fresh_elf (zlen c) a)) with a.
  rewrite (validate_valid _ _ valid_at). change (KERNEL_ALL_OK <? 0) with false. cbv iota.
  unfold elf_process_pheaders. change (elf_header (fresh_elf (zlen c) a)) with a. by rewrite En.
Qed.
End loaded.

(** ** Mapping the segments *)

Section mapping.
Context (m0 : mem) (chunk a : Z) (file : elf_file).
Abbreviation D := (directory_entry m0 chunk).
Hypothesis Hok : program_ok.
Hypothesis Hspace : space_ok m0 chunk.
Hypothesis Hload : load_bytes m0 a (zlen c) = c.
Hypothesis Ha : 0 < a /\ a mod 4096 = 0 /\ a + zlen c <= 2147483648.
Hypothesis Hfile : elf_memory file = a.
Hypothesis Hapart : forall b x, b ∈ space_blocks m0 chunk -> b <= x < b + 4096 -> x < a \/ a + zlen c <= x.

(** The first [k] segments are mapped; everything else is as in [m0]. *)
Record segments_mapped (k : Z) (m : mem) : Prop := {
  sm_ok : space_ok m chunk;
  sm_dir : directory_entry m chunk = D;
  sm_blocks : space_blocks m chunk = space_blocks m0 chunk;
  sm_frame : forall x, (forall b, b ∈ space_blocks m0 chunk -> ~ b <= x < b + 4096) -> m x = m0 x;
  sm_in : forall j va, 0 <= j < k -> in_segment j va ->
    translate m D va = Some (a + c_offset j + (va - c_vaddr j));
  sm_out : forall va, 0 <= va < 4294967296 -> (forall j, 0 <= j < k -> ~ in_segment j va) ->
    translate m D va = translate m0 D va
}.

Lemma mapped_contents k m : segments_mapped k m -> load_bytes m a (zlen c) = c.
Proof.
  intros Hm. rewrite <- Hload at 2. unfold load_bytes. apply map_ext_in. intros i Hi%list_elem_of_In%elem_of_seqZ.
  unfold ld8. rewrite u32_small by lia. apply (sm_frame _ _ Hm). intros b Hb Hx. pose proof (Hapart b _ Hb Hx). lia.
Qed.

Lemma segment_mapped k m flag :
  0 <= k < c_phnum -> segments_mapped k m -> 0 <= flag < 4096 -> Z.testbit flag 0 = true ->
  exists m', paging_map_to m chunk (c_vaddr k) (a + c_offset k) (a + c_offset k + page_up (c_memsz k)) flag = (0, m') /\
    segments_mapped (k + 1) m'.
Proof.
  intros Hk Hm Hf Hbit. pose proof (zlen_nonneg c) as Hz. destruct (po_segments Hok k Hk) as [S1 S2 S3 S4 S5 S6 S7 S8].
  unfold KERNEL_PROGRAM_VIRTUAL_STACK_ADDRESS_START in S4.
  pose proof (word_range (c_header k + 4) (po_bytes Hok)) as Hor. fold (c_offset k) in Hor.
  pose proof (word_range (c_header k + 20) (po_bytes Hok)) as Hmr. fold (c_memsz k) in Hmr.
  pose proof (page_up_le (c_memsz k) ltac:(lia)) as [Hpu Hpa].
  assert (Hpa2 : (a + c_offset k) mod 4096 = 0) by (Z.to_euclidean_division_equations; lia).
  assert (Hpa3 : (a + c_offset k + page_up (c_memsz k)) mod 4096 = 0) by (Z.to_euclidean_division_equations; lia).
  destruct Hm as [M1 M2 M3 M4 M5 M6].
  destruct (map_range m chunk (c_vaddr k) (a + c_offset k) (a + c_offset k + page_up (c_memsz k)) flag M1 Hf)
    as (m' & E & N1 & N2 & N3 & N4 & N5); try lia.
  exists m'. split; [exact E|]. rewrite M2 in N2, N5. rewrite M3 in N3, N4. rewrite Hbit in N5.
  replace (c_vaddr k + (a + c_offset k + page_up (c_memsz k) - (a + c_offset k))) with (c_vaddr k + page_up (c_memsz k)) in N5 by lia.
  constructor; [exact N1|exact N2|exact N3| | |].
  - intros x Hx. rewrite N4 by exact Hx. by apply M4.
  - intros j va Hj Hva. unfold in_segment in Hva.
    destruct (po_segments Hok j ltac:(lia)) as [_ _ _ T4 _ _ T7 _]. unfold KERNEL_PROGRAM_VIRTUAL_STACK_ADDRESS_START in T4.
    rewrite N5 by lia. destruct (Z.eq_dec j k) as [-> |Hne].
    + rewrite (proj2 (Z.leb_le _ _)), (proj2 (Z.ltb_lt _ _)) by lia. reflexivity.
    + destruct ((c_vaddr k <=? va) && (va <? c_vaddr k + page_up (c_memsz k))) eqn:Eb; [|apply M5; [lia|exact Hva]].
      destruct Hne. apply (po_apart Hok j k va); [lia|lia|exact Hva|]. unfold in_segment. lia.
  - intros va Hva Hn. rewrite N5 by exact Hva.
    destruct ((c_vaddr k <=? va) && (va <? c_vaddr k + page_up (c_memsz k))) eqn:Eb.
    + exfalso. apply (Hn k ltac:(lia)). unfold in_segment. lia.
    + apply M6; [exact Hva|]. intros j Hj. apply Hn. lia.
Qed.

Lemma map_elf_loop_spec n k m :
  0 <= k <= c_phnum -> c_phnum - k < Z.of_nat n -> segments_mapped k m ->
  exists m', map_elf_loop n m chunk file k 0 = (0, m') /\ segments_mapped c_phnum m'.
Proof.
  revert k m. induction n as [|n IH]; intros k m Hk Hn Hm; [lia|]. cbn [map_elf_loop].
  unfold elf_header. rewrite Hfile.
  pose proof (zlen_nonneg c) as Hz. assert (Ha' : 0 <= a /\ a + zlen c < 4294967296) by lia. pose proof (mapped_contents _ _ Hm) as Hl.
  rewrite (phnum_at m a Hl Hok). destruct (Z.ltb_spec k c_phnum) as [Hlt|Hge].
  2: { exists m. split; [done|]. by replace c_phnum with k by lia. }
  destruct (fields_at m a Hl Ha' Hok k ltac:(lia)) as (E1 & E2 & E3 & E4 & E5).
  unfold elf_phdr_phys_address. rewrite Hfile, E2, E3, E5.
  destruct (po_segments Hok k ltac:(lia)) as [S1 S2 S3 S4 S5 S6 S7 S8].
  pose proof (word_range (c_header k + 4) (po_bytes Hok)) as Hor. fold (c_offset k) in Hor.
  pose proof (word_range (c_header k + 20) (po_bytes Hok)) as Hmr. fold (c_memsz k) in Hmr.
  rewrite (u32_small (a + c_offset k)) by lia.
  rewrite (align_page_up (a + c_offset k) (c_memsz k)) by (lia || (Z.to_euclidean_division_equations; lia)).
  unfold paging_align_lower_address, PAGING_PAGE_SIZE. rewrite S3, Z.sub_0_r.
  match goal with |- context [paging_map_to m chunk _ _ _ ?f] => set (flag := f) end.
  assert (Hf : 0 <= flag < 4096 /\ Z.testbit flag 0 = true).
  { unfold flag. destruct (negb _); vm_compute; by split_and!. }
  destruct (segment_mapped k m flag ltac:(lia) Hm (proj1 Hf) (proj2 Hf)) as (m' & E & Hm'). rewrite E.
  change (IS_ERROR 0) with false. cbv iota. apply IH; [lia|lia|exact Hm'].
Qed.

Lemma segments_mapped_0 : segments_mapped 0 m0.
Proof. constructor; try done. intros. lia. Qed.

Lemma map_elf_spec :
  exists m', map_elf_loop phnum_fuel m0 chunk file 0 0 = (0, m') /\ segments_mapped c_phnum m'.
Proof.
  apply map_elf_loop_spec; [|unfold phnum_fuel|exact segments_mapped_0].
  - pose proof (po_phnum Hok). lia.
  - unfold c_phnum, half_at. pose proof (byte_range 44 (po_bytes Hok)). pose proof (byte_range (44 + 1) (po_bytes Hok)). lia.
Qed.
End mapping.
End image.

(** ** Giving up on a process *)

Section load.
Context {F : Type} {LY : Layout} {FS : Filesystem machine F} {SP : FilesystemSpec machine F}
  {LF : FilesystemLaws machine F} {FF : FilesystemFiles machine F} {FR : FilesystemReads machine F}.
Implicit Types (s : system F) (p : task_struct).

(** No allocations, arguments, stack or thread yet. *)
Record bare p : Prop := {
  ba_allocations : forall i q, zget (ps_allocations p) i = Some q -> fst q = 0;
  ba_length : zlen (ps_allocations p) = KERNEL_MAX_PROGRAM_ALLOCATIONS;
  ba_filetype : ps_filetype p = PROCESS_FILETYPE_ELF;
  ba_argc : ps_argc p = 0;
  ba_stack : ps_stack p = 0;
  ba_task : ps_task p = 0;
  ba_id : ps_id p = 0
}.

Lemma zero_process_bare : bare zero_process.
Proof.
  constructor; try reflexivity. intros i q Hq. unfold zero_process in Hq. cbn [ps_allocations] in Hq.
  rewrite zget_replicate in Hq. destruct (_ && _); [by injection Hq as <-|done].
Qed.

Lemma terminate_allocations_bare n a p i s :
  sy_procs s !! a = Some p -> bare p -> 0 <= i -> i + Z.of_nat n = KERNEL_MAX_PROGRAM_ALLOCATIONS ->
  terminate_allocations_loop n a i s = Done tt s.
Proof.
  intros Hp Hb. revert i. induction n as [|n IH]; intros i Hi Hn; [done|]. cbn [terminate_allocations_loop].
  rewrite (proj2 (Z.ltb_lt i _)) by lia. rewrite (bind_proc _ _ _ _ Hp).
  destruct (zget_is_Some (ps_allocations p) i) as [q Hq]; [rewrite (ba_length _ Hb); lia|].
  rewrite (bind_expect _ _ _ _ Hq), (ba_allocations _ Hb _ _ Hq). unfold process_free. rewrite orb_true_r, bind_ret.
  apply IH; lia.
Qed.

(** The blocks of the ELF file a process holds, if any. *)
Definition elf_blocks s p (L : list (Z * Z)) : Prop :=
  (ps_ptr p = 0 /\ L = []) \/
  exists e n, 0 < ps_ptr p /\ l_elfs (sy_loader s) !! ps_ptr p = Some e /\ L = [(elf_memory e, n); (ps_ptr p, 1)].

Lemma elf_close_spec h0 s p Le L :
  elf_blocks s p Le -> owned h0 (sy_mach s) (Le ++ L) ->
  exists h, on_loader (elf_close (ps_ptr p)) s = Done tt (set_mach h s) /\ owned h0 h L.
Proof.
  intros [[-> ->]|(e & n & Hp & He & ->)] Ho.
  - exists (sy_mach s). split; [|exact Ho]. rewrite set_mach_same. by destruct s.
  - unfold on_loader, zoom, elf_close. rewrite (proj2 (Z.eqb_neq _ 0)) by lia.
    unfold the_elf. rewrite bind_assoc, bind_gets, (bind_expect _ _ _ _ He).
    destruct (l_free_spec h0 ((ps_ptr p, 1) :: L) (sy_loader s) (elf_memory e) n Ho) as (h1 & E1 & Ho1 & _).
    rewrite (bind_Done _ _ _ _ _ E1).
    destruct (l_free_spec h0 L (set_l_vfs (upd_heap h1 (l_vfs (sy_loader s))) (sy_loader s)) (ps_ptr p) 1) as (h2 & E2 & Ho2 & _).
    { unfold v_mach. cbn [l_vfs set_l_vfs]. by rewrite heap_upd. }
    rewrite E2. exists h2. split; [|exact Ho2]. cbn [l_vfs set_l_vfs]. by rewrite upd_upd.
Qed.

(** The threads are as before (the machine they carry is not used). *)
Definition same_threads s s' : Prop := forall h, set_t_machine h (sy_threads s') = set_t_machine h (sy_threads s).

Lemma terminate_bare h0 s a p Le L :
  sy_procs s !! a = Some p -> bare p -> a <> 0 -> elf_blocks s p Le ->
  zlen (processes s) = KERNEL_MAX_PROCESSES -> current_process s <> a ->
  owned h0 (sy_mach s) (Le ++ L) ->
  exists s', process_terminate a s = Done 0 s' /\ owned h0 (sy_mach s') L /\
    processes s' = zset (processes s) 0 0 /\ current_process s' = current_process s /\ sy_procs s' = sy_procs s /\
    file_descriptors (l_vfs (sy_loader s')) = file_descriptors (l_vfs (sy_loader s)) /\ same_threads s s'.
Proof.
  intros Hp Hb Ha He Hlen Hcur Ho. unfold process_terminate. rewrite (proj2 (Z.eqb_neq a 0)) by done.
  assert (E1 : process_terminate_allocations a s = Done tt s).
  { unfold process_terminate_allocations. apply (terminate_allocations_bare _ a p); done. }
  rewrite (bind_Done _ _ _ _ _ E1). unfold process_terminate_program_data.
  rewrite bind_assoc, (bind_proc _ _ _ _ Hp), (ba_filetype _ Hb).
  change (PROCESS_FILETYPE_ELF =? PROCESS_FILETYPE_ELF) with true. cbv iota.
  destruct (elf_close_spec h0 s p Le L He Ho) as (h1 & E2 & Ho1).
  unfold process_terminate_elf_data. rewrite bind_assoc, bind_assoc, (bind_proc _ _ _ _ Hp), (bind_Done _ _ _ _ _ E2), bind_ret.
  change (0 <? 0) with false. cbv iota. unfold process_terminate_command_argument.
  rewrite bind_assoc, (bind_proc _ _ _ p) by exact Hp. rewrite (ba_argc _ Hb). change (S (Z.to_nat 0)) with 1%nat.
  cbn [terminate_argument_loop]. rewrite bind_assoc, (bind_proc _ _ _ p) by exact Hp. rewrite (ba_argc _ Hb).
  change (0 <? 0) with false. cbv iota. rewrite bind_ret, (bind_proc _ _ _ p) by exact Hp. rewrite (ba_stack _ Hb), (ba_task _ Hb).
  rewrite (bind_mach _ _ _ tt h1).
  2: { rewrite sy_mach_set. unfold kfree. rewrite (@al_free_null heap heap_allocator heap_allocator_laws). by destruct h1. }
  rewrite set_mach_set. rewrite (bind_tasks (task_free 0) _ _ 0 (sy_tasks (set_mach h1 s))) by reflexivity.
  unfold process_unlink. rewrite bind_assoc, (bind_proc _ _ _ p) by exact Hp. rewrite bind_assoc, bind_gets, (ba_id _ Hb).
  destruct (zget_is_Some (processes s) 0) as [q Hq]; [rewrite Hlen; done|].
  rewrite bind_assoc, (bind_expect _ _ _ q) by exact Hq. rewrite bind_assoc, bind_modify, bind_assoc, bind_gets.
  match goal with |- context [current_process ?x =? a] => change (current_process x) with (current_process s) end.
  rewrite (proj2 (Z.eqb_neq _ a)) by done. rewrite !bind_ret. eexists. split; [reflexivity|].
  unfold set_sy_tasks. cbn [t_machine sy_tasks set_t_machine]. split; [|split; [reflexivity|split; [reflexivity|split; [reflexivity|split; [reflexivity|]]]]].
  - unfold set_processes, sy_mach, v_mach. cbn [sy_loader l_vfs set_mach set_l_vfs]. rewrite heap_upd.
    change (owned h0 (sy_mach (set_mach h1 s)) L). by rewrite sy_mach_set.
  - intros h. reflexivity.
Qed.

(** The error exit of [process_load_for_slot]. *)
Lemma load_out_bare h0 s a p Le n L res :
  res < 0 -> - 2147483648 <= res -> sy_procs s !! a = Some p -> bare p -> a <> 0 -> elf_blocks s p Le ->
  zlen (processes s) = KERNEL_MAX_PROCESSES -> current_process s <> a ->
  owned h0 (sy_mach s) (Le ++ (a, n) :: L) ->
  exists s', load_out res a s = Done (res, 0) s' /\ owned h0 (sy_mach s') L /\
    processes s' = zset (processes s) 0 0 /\ current_process s' = current_process s /\ sy_procs s' = sy_procs s /\
    file_descriptors (l_vfs (sy_loader s')) = file_descriptors (l_vfs (sy_loader s)) /\ same_threads s s'.
Proof.
  intros Hr Hr2 Hp Hb Ha He Hlen Hcur Ho. unfold load_out. replace (IS_ERROR res) with true.
  2: { unfold IS_ERROR, ERROR_I. rewrite i32_small by lia. lia. }
  destruct (terminate_bare h0 s a p Le ((a, n) :: L) Hp Hb Ha He Hlen Hcur Ho) as (s1 & E1 & Ho1 & Hpr & Hc & Hps & Hfd & Hth).
  rewrite (bind_Done _ _ _ _ _ E1).
  rewrite (bind_mach (kfree a) _ s1 tt (al_free (sy_mach s1) a)) by reflexivity.
  eexists. split; [reflexivity|]. rewrite sy_mach_set. split; [by eapply owned_free|]. by split_and!.
Qed.

(** ** Up to the loaded file *)

Lemma free_process_spec l i :
  0 <= i -> let j := free_process_loop l i in j < 0 \/ (i <= j < i + zlen l /\ zget l (j - i) = Some 0).
Proof.
  revert i. induction l as [|q l IH]; intros i Hi; simpl; [by left|]. rewrite zlen_cons. pose proof (zlen_nonneg l).
  destruct (Z.eqb_spec q 0) as [-> |Hq].
  - right. split; [lia|]. by rewrite Z.sub_diag.
  - destruct (IH (i + 1) ltac:(lia)) as [|[Hj Hg]]; [by left|]. right. split; [lia|].
    rewrite zget_cons, (proj2 (Z.eqb_neq _ 0)) by lia.
    by replace (free_process_loop l (i + 1) - i - 1) with (free_process_loop l (i + 1) - (i + 1)) by lia.
Qed.

(** What [process_load] needs of the system: a free slot, a sound file layer. *)
Record can_load s (slot : Z) : Prop := {
  cl_vfs : vfs_ok (l_vfs (sy_loader s));
  cl_length : zlen (processes s) = KERNEL_MAX_PROCESSES;
  cl_slot : free_process_loop (processes s) 0 = slot /\ 0 <= slot;
  cl_current : current_process s = 0 \/ exists n, live (m_heap (sy_mach s)) (current_process s) n
}.

Lemma sys_kzalloc h0 s L size :
  owned h0 (sy_mach s) L -> 0 <= size < 4294967296 ->
  exists a h, kzalloc size (sy_mach s) = Done a h /\
    ((a = 0 /\ h = sy_mach s /\ fst (heap_malloc (m_heap (sy_mach s)) size) = 0) \/
     (0 < a /\ owned h0 h ((a, blocks_of size) :: L) /\ (forall n, live (m_heap (sy_mach s)) a n -> False))).
Proof.
  intros Ho Hs. destruct (al_malloc (sy_mach s) size) as [a h] eqn:E. exists a, h. split.
  - simpl in E. unfold kzalloc. destruct (heap_zalloc _ _ _) as [[a' h'] m']. by injection E as -> ->.
  - destruct (owned_alloc _ _ _ _ _ _ Ho Hs E) as [[-> ->]|(Ha & Ho' & Hfr)]; [left|right; by split_and!].
    apply machine_malloc in E as [E _]. split; [done|]. split; [done|]. by rewrite E.
Qed.

(** A failed request means that there may be no run of free blocks for it. *)
Lemma full_not_roomy h size :
  kheap_ok h -> 0 <= size < 4294967296 -> fst (heap_malloc h size) = 0 -> ~ roomy (free_blocks h) (blocks_of size).
Proof.
  intros Hok Hs E Hr. destruct (heap_malloc h size) as [a h'] eqn:Em.
  pose proof (@al_malloc_roomy heap heap_allocator heap_allocator_laws _ _ _ _ Hok Hs Hr Em). simpl in E. lia.
Qed.

(** Room for the four blocks of a stack and the [n] blocks of a file. *)
Definition ample (avail n : Z) : Prop := roomy avail 4 /\ roomy avail n.

(** The heap has no room for a process. *)
Definition no_room s : Prop := fst (heap_malloc (m_heap (sy_mach s)) sizeof_task_struct) = 0.

Lemma load_start s slot filename :
  can_load s slot ->
  (process_load filename s = Done (- ENOMEM, 0) s /\ no_room s) \/
  exists a h1, 0 < a /\ current_process s <> a /\ owned (sy_mach s) h1 [(a, 3)] /\
    (forall n, live (m_heap (sy_mach s)) a n -> False) /\
    process_load filename s =
      (res ← process_load_data filename a;
       if negb (res =? KERNEL_ALL_OK) then load_out res a else start_program filename slot a)
        (put_proc a zero_process (set_mach h1 s)).
Proof.
  intros [Hv Hlen [Hs Hs0] Hcur]. unfold process_load, process_get_free_slot. rewrite bind_gets, Hs.
  rewrite (proj2 (Z.ltb_ge slot 0)) by lia. unfold process_load_for_slot, process_get.
  destruct (free_process_spec (processes s) 0 ltac:(lia)) as [|[Hr Hg]]; [lia|]. rewrite Hs, Hlen in *. rewrite Z.sub_0_r in Hg.
  rewrite (proj2 (Z.ltb_ge slot 0)), (proj2 (Z.leb_gt KERNEL_MAX_PROCESSES slot)) by lia. cbn [orb].
  rewrite bind_assoc, bind_gets, (bind_expect _ _ _ _ Hg). change (negb (0 =? 0)) with false. cbv iota.
  pose proof (owned_refl _ (fs_ok_heap _ (vo_fs _ Hv))) as Ho0.
  destruct (sys_kzalloc (sy_mach s) s [] sizeof_task_struct Ho0 ltac:(done)) as (a & h & E & D).
  rewrite (bind_mach _ _ _ _ _ E). destruct D as [(-> & -> & Hno)|(Ha & Ho & Hfr)].
  - left. split; [|exact Hno]. change (0 =? 0) with true. cbv iota. rewrite set_mach_same. unfold load_out.
    change (IS_ERROR (- ENOMEM)) with true. cbv iota. unfold process_terminate. change (0 =? 0) with true. cbv iota.
    rewrite bind_ret, (bind_mach (kfree 0) _ s tt (sy_mach s)); [by rewrite set_mach_same|].
    unfold kfree. rewrite (@al_free_null heap heap_allocator heap_allocator_laws). by destruct (sy_mach s).
  - right. exists a, h. split; [done|]. split; [|split; [exact Ho|split; [exact Hfr|]]].
    + intros Hc. destruct Hcur as [Hc0|[n Hn]]; [lia|]. rewrite Hc in Hn. by apply (Hfr n).
    + rewrite (proj2 (Z.eqb_neq a 0)) by lia. unfold process_init. by rewrite bind_modify.
Qed.

(** The file layer after the allocation of the process. *)
Lemma load_start_vfs s slot a h1 L :
  can_load s slot -> owned (sy_mach s) h1 L -> vfs_ok (l_vfs (sy_loader (put_proc a zero_process (set_mach h1 s)))).
Proof.
  intros Hcl Ho. cbn [sy_loader put_proc set_procs set_mach l_vfs set_l_vfs]. apply vfs_ok_heap; [apply (cl_vfs _ _ Hcl)|apply (ow_ok _ _ _ Ho)|].
  intros b n Hb. apply (ow_live _ _ _ Ho). by right.
Qed.

(** ** A program that is not there *)

(** [o = None]: no such file; or all descriptors are in use. *)
Definition cannot_open s (o : option fs_id) : Prop :=
  o = None \/ first_free (l_vfs (sy_loader s)) = KERNEL_MAX_FILE_DESCRIPTORS.

Lemma load_missing s slot filename str ps o :
  can_load s slot -> holds filename str -> KERNEL_MAX_PATH <= zlen filename -> spec_parse str = Some (0, ps) ->
  (forall bufs, Forall2 holds bufs ps -> fs_can_open (v_fs (l_vfs (sy_loader s))) bufs FILE_MODE_READ o) ->
  (forall x, o = Some x -> fs_loadable x) -> cannot_open s o ->
  2 * zlen ps + 9 + fs_need + match o with Some x => blocks_of (fs_size x) | None => 0 end <= free_blocks (m_heap (sy_mach s)) ->
  exists res s', process_load filename s = Done (res, 0) s' /\
    own_same (m_heap (sy_mach s)) (m_heap (sy_mach s')) /\
    ((res = - ENOMEM /\ s' = s /\ no_room s) \/
     (res = - EIO /\ processes s' = zset (processes s) 0 0 /\ current_process s' = current_process s /\ same_threads s s' /\
      file_descriptors (l_vfs (sy_loader s')) = file_descriptors (l_vfs (sy_loader s)))).
Proof.
  intros Hcl Hfn Hlen Hsp Hcan Hld Hno Hav. destruct (load_start s slot filename Hcl) as [[E Hno0]|(a & h1 & Ha & Hcur & Ho1 & Hfr & E)].
  { exists (- ENOMEM), s. split; [exact E|]. split; [by intros b n|]. left. split; [reflexivity|]. by split. }
  set (s1 := put_proc a zero_process (set_mach h1 s)) in *.
  assert (Hm1 : v_mach (l_vfs (sy_loader s1)) = h1) by (apply heap_upd).
  assert (Hff : first_free (l_vfs (sy_loader s1)) = first_free (l_vfs (sy_loader s))) by reflexivity.
  destruct (elf_load_total (sy_loader s1) filename str ps o) as (res & f & l' & E1 & Hv1 & D); try done.
  { by apply (load_start_vfs s slot a h1 [(a, 3)]). }
  { intros bufs Hb. cbn. apply fs_can_set; [by apply Hcan|]. intros b n Hl. apply (ow_live _ _ _ Ho1). by right. }
  { rewrite Hm1, (ow_avail _ _ _ Ho1). cbn [total_blocks_of]. change (al_avail (sy_mach s)) with (free_blocks (m_heap (sy_mach s))). lia. }
  assert (D' : res = - EIO /\ f = 0 /\ file_descriptors (l_vfs l') = file_descriptors (l_vfs (sy_loader s)) /\
    owned h1 (v_mach (l_vfs l')) []).
  { rewrite Hff, Hm1 in D. destruct o as [x|]; [|exact D]. destruct Hno as [Hno|Hno]; [discriminate Hno|].
    rewrite Hno, Z.ltb_irrefl in D. exact D. }
  destruct D' as (-> & -> & Hfd & Hsame). rewrite E.
  assert (E2 : process_load_data filename a s1 = Done (- EIO) (set_sy_loader l' s1)).
  { unfold process_load_data, process_load_elf. rewrite bind_assoc, (bind_loader _ _ _ _ _ E1). reflexivity. }
  rewrite (bind_Done _ _ _ _ _ E2). change (negb (- EIO =? KERNEL_ALL_OK)) with true. cbv iota.
  pose proof (owned_trans _ _ _ _ _ Ho1 Hsame) as Ho2.
  destruct (load_out_bare (sy_mach s) (set_sy_loader l' s1) a zero_process [] 3 [] (- EIO)) as
    (s' & E3 & Ho3 & Hpr & Hc & _ & Hfd3 & Hth); try done; try lia.
  { apply lookup_insert_eq. }
  { apply zero_process_bare. }
  { by left. }
  { apply (cl_length _ _ Hcl). }
  exists (- EIO), s'. split; [exact E3|]. split; [exact (proj1 (owned_nil _ _ Ho3))|]. right.
  split; [reflexivity|]. split; [exact Hpr|]. split; [exact Hc|]. split; [exact Hth|]. rewrite Hfd3. exact Hfd.
Qed.

(** ** A program that is there *)

(** The program image, its ELF record, the stack and the thread of a process. *)
Definition single_blocks p (e : elf_file) : list Z := [elf_memory e; ps_ptr p; ps_stack p; ps_task p].

(** They are block runs of the heap of their own, apart from the tables of the thread. *)
Record resources s p (t : thread_info) (e : elf_file) : Prop := {
  rs_type : ps_filetype p = PROCESS_FILETYPE_ELF;
  rs_elf : l_elfs (sy_loader s) !! ps_ptr p = Some e;
  rs_live : forall b, b ∈ single_blocks p e -> exists n, live (m_heap (sy_mach s)) b n;
  rs_thread : live (m_heap (sy_mach s)) (ps_task p) 1;
  rs_distinct : NoDup (single_blocks p e);
  rs_apart : forall b, b ∈ single_blocks p e -> b ∉ space_blocks (sy_mem s) (page_directory t)
}.

(** The process at [a], started in slot [slot] from a file with contents [c]. *)
Record started s s' (slot a : Z) (str c : list Z) (l : list Z) p (t : thread_info) : Prop := {
  sd_table : processes s' = zset (processes s) slot a;
  sd_space : has_space s' a p t;
  sd_process : ps_id p = slot /\ holds (ps_filename p) str /\ ps_filetype p = PROCESS_FILETYPE_ELF /\ ps_argc p = 0 /\
    zlen (ps_allocations p) = KERNEL_MAX_PROGRAM_ALLOCATIONS /\ forall i q, zget (ps_allocations p) i = Some q -> fst q = 0;
  sd_resources : exists e, resources s' p t e;
  sd_thread : t_process t = a /\ r_ip (regs t) = KERNEL_PROGRAM_VIRTUAL_ADDRESS /\
    r_esp (regs t) = KERNEL_PROGRAM_VIRTUAL_STACK_ADDRESS_START /\ r_cs (regs t) = USER_CODE_SEGMENT /\
    r_ss (regs t) = USER_DATA_SEGMENT;
  sd_list : dll (sy_tasks s') (l ++ [ps_task p]);
  sd_current : current_task (sy_threads s') = match l with [] => ps_task p | _ => current_task (sy_threads s) end;
  sd_vfs : vfs_ok (l_vfs (sy_loader s'));
  sd_code : forall j i, 0 <= j < c_phnum c -> 0 <= i < c_filesz c j ->
    exists pa, user_translate s' t (c_vaddr c j + i) = Some pa /\ ld8 (sy_mem s') pa = byte_at c (c_offset c j + i);
  sd_stack : forall i, 0 <= i < KERNEL_USER_PROGRAM_STACK_SIZE ->
    user_translate s' t (KERNEL_PROGRAM_VIRTUAL_STACK_ADDRESS_END + i) = Some (ps_stack p + i) /\
    ld8 (sy_mem s') (ps_stack p + i) = 0;
  sd_other : forall va, 0 <= va < 4294967296 -> (forall j, 0 <= j < c_phnum c -> ~ in_segment c j va) ->
    ~ (KERNEL_PROGRAM_VIRTUAL_STACK_ADDRESS_END <= va < KERNEL_PROGRAM_VIRTUAL_STACK_ADDRESS_START) ->
    user_translate s' t va = Some va
}.

(** The block runs of [s] have stayed, and none of them is a part of the new process at [a]. *)
Record others_kept s s' (a : Z) p (t : thread_info) : Prop := {
  ot_live : forall b n, live (m_heap (sy_mach s)) b n -> live (m_heap (sy_mach s')) b n;
  ot_apart : forall b n e, live (m_heap (sy_mach s)) b n -> resources s' p t e ->
    b ∉ a :: single_blocks p e ++ space_blocks (sy_mem s') (page_directory t)
}.

(** [process_load_data] on a loadable program. *)
Lemma load_data s a p filename str ps x c :
  sy_procs s !! a = Some p -> vfs_ok (l_vfs (sy_loader s)) ->
  holds filename str -> KERNEL_MAX_PATH <= zlen filename -> spec_parse str = Some (0, ps) ->
  (forall bufs, Forall2 holds bufs ps -> fs_can_open (v_fs (l_vfs (sy_loader s))) bufs FILE_MODE_READ (Some x)) ->
  fs_loadable x -> fs_contents x = Some c -> program_ok c ->
  first_free (l_vfs (sy_loader s)) < KERNEL_MAX_FILE_DESCRIPTORS ->
  2 * zlen ps + 6 + fs_need + blocks_of (fs_size x) <= al_avail (sy_mach s) ->
  exists l', vfs_ok (l_vfs l') /\
    ((process_load_data filename a s = Done (- ENOMEM) (set_sy_loader l' s) /\
      ~ roomy (al_avail (sy_mach s) - (2 * zlen ps + 6 + fs_need)) (blocks_of (fs_size x)) /\
      exists L, owned (sy_mach s) (v_mach (l_vfs l')) L) \/
     exists f memory e L,
       process_load_data filename a s = Done 0 (put_proc a (ps_set_data PROCESS_FILETYPE_ELF f (ps_size p) p) (set_sy_loader l' s)) /\
       l_elfs l' !! f = Some e /\ elf_memory e = memory /\ 0 < memory /\ load_bytes (l_mem l') memory (zlen c) = c /\
       owned (sy_mach s) (v_mach (l_vfs l')) ((memory, blocks_of (zlen c)) :: (f, 1) :: L) /\
       total_blocks_of L <= 2 * zlen ps + 2 + fs_need).
Proof.
  intros Hp Hv Hfn Hlen Hsp Hcan Hld Hc Hok Hff Hav.
  destruct (elf_load_total (sy_loader s) filename str ps (Some x)) as (res & f & l' & E & Hv' & D); try done.
  { by intros y [= <-]. }
  exists l'. split; [exact Hv'|]. rewrite (proj2 (Z.ltb_lt _ _) Hff) in D. unfold process_load_data, process_load_elf.
  rewrite bind_assoc, (bind_loader _ _ _ _ _ E). cbv beta iota.
  destruct D as [(-> & Hno & -> & _ & L & HoL & _)|(f' & D)]; [left; split; [reflexivity|split; [exact Hno|by exists L]]|].
  unfold load_result in D. rewrite Hc in D. destruct D as (m & memory & e & [Hmp Hmb] & Hload & Epl & D).
  destruct (fs_contents_len x c Hld Hc) as [Hlc Hbc]. pose proof (fs_size_range x Hld) as Hsz.
  destruct (process_load_at c m memory Hload ltac:(lia) Hok) as (e' & Epl' & _ & _ & Em).
  rewrite Epl in Epl'. injection Epl' as -> <-. change (0 <? 0) with false in D. cbv iota in D. cbn in Em.
  right. destruct D as (-> & -> & [Hfd (L & HoL & HtL)] & He).
  exists f', memory. eexists. exists L. change (0 <? 0) with false. cbv iota.
  rewrite bind_assoc, (bind_upd _ _ _ _ p) by exact Hp. rewrite bind_ret.
  split; [reflexivity|]. split; [exact He|]. split; [exact Em|]. split; [exact Hmp|]. split; [exact Hload|].
  split; [by rewrite Hlc|exact HtL].
Qed.

Lemma set_sy_mem_set m m' s : set_sy_mem m (set_sy_mem m' s) = set_sy_mem m s.
Proof. unfold set_sy_mem. by rewrite sy_mach_set, set_mach_set. Qed.

(** The program and the stack are mapped. *)
Record image_mapped (c : list Z) (m m' : mem) (chunk memory stack : Z) : Prop := {
  im_ok : space_ok m' chunk;
  im_dir : directory_entry m' chunk = directory_entry m chunk;
  im_blocks : space_blocks m' chunk = space_blocks m chunk;
  im_frame : forall x, (forall b, b ∈ space_blocks m chunk -> ~ b <= x < b + 4096) -> m' x = m x;
  im_code : forall j va, 0 <= j < c_phnum c -> in_segment c j va ->
    translate m' (directory_entry m chunk) va = Some (memory + c_offset c j + (va - c_vaddr c j));
  im_stack : forall i, 0 <= i < KERNEL_USER_PROGRAM_STACK_SIZE ->
    translate m' (directory_entry m chunk) (KERNEL_PROGRAM_VIRTUAL_STACK_ADDRESS_END + i) = Some (stack + i);
  im_other : forall va, 0 <= va < 4294967296 -> (forall j, 0 <= j < c_phnum c -> ~ in_segment c j va) ->
    ~ (KERNEL_PROGRAM_VIRTUAL_STACK_ADDRESS_END <= va < KERNEL_PROGRAM_VIRTUAL_STACK_ADDRESS_START) ->
    translate m' (directory_entry m chunk) va = translate m (directory_entry m chunk) va
}.

Lemma stack_mapped c m m1 chunk memory stack :
  program_ok c -> segments_mapped c m chunk memory (c_phnum c) m1 ->
  0 < stack -> stack mod 4096 = 0 -> stack + 16384 <= 2147483648 ->
  exists m', paging_map_to m1 chunk KERNEL_PROGRAM_VIRTUAL_STACK_ADDRESS_END stack
      (paging_align_address (u32 (stack + KERNEL_USER_PROGRAM_STACK_SIZE))) user_page_flags = (0, m') /\
    image_mapped c m m' chunk memory stack.
Proof.
  intros Hok [M1 M2 M3 M4 M5 M6] Hs0 Hsa Hsm.
  change KERNEL_USER_PROGRAM_STACK_SIZE with 16384. change KERNEL_PROGRAM_VIRTUAL_STACK_ADDRESS_END with 4173824.
  rewrite (align_page_up stack 16384) by lia. change (page_up 16384) with 16384. change user_page_flags with 7.
  assert (Hse : (stack + 16384) mod 4096 = 0) by (Z.to_euclidean_division_equations; lia).
  destruct (map_range m1 chunk 4173824 stack (stack + 16384) 7 M1) as (m' & E & N1 & N2 & N3 & N4 & N5); try lia; try reflexivity.
  exists m'. split; [exact E|]. rewrite M2 in N2, N5. rewrite M3 in N3, N4. change (Z.testbit 7 0) with true in N5. cbv iota in N5.
  replace (4173824 + (stack + 16384 - stack)) with 4190208 in N5 by lia.
  constructor; [exact N1|exact N2|exact N3| | | |].
  - intros x Hx. rewrite N4 by exact Hx. by apply M4.
  - intros j va Hj Hva. destruct (po_segments _ Hok j Hj) as [_ _ _ S4 _ _ S7 _]. pose proof Hva as Hva'. unfold in_segment in Hva'.
    unfold KERNEL_PROGRAM_VIRTUAL_STACK_ADDRESS_START in S4. rewrite N5 by lia.
    rewrite (proj2 (Z.ltb_ge va 4190208)), andb_false_r by lia. by apply M5.
  - intros i Hi. change KERNEL_USER_PROGRAM_STACK_SIZE with 16384 in Hi. change KERNEL_PROGRAM_VIRTUAL_STACK_ADDRESS_END with 4173824.
    rewrite N5 by lia. rewrite (proj2 (Z.leb_le _ _)), (proj2 (Z.ltb_lt _ _)) by lia. cbn [andb]. f_equal. lia.
  - intros va Hva Hn Hns. change KERNEL_PROGRAM_VIRTUAL_STACK_ADDRESS_END with 4173824 in Hns.
    change KERNEL_PROGRAM_VIRTUAL_STACK_ADDRESS_START with 4190208 in Hns. rewrite N5 by exact Hva.
    destruct ((4173824 <=? va) && (va <? 4190208)) eqn:Eb; [exfalso; lia|]. by apply M6.
Qed.

Lemma map_memory_spec s a p t e c :
  sy_procs s !! a = Some p -> ps_filetype p = PROCESS_FILETYPE_ELF ->
  t_threads (sy_threads s) !! ps_task p = Some t -> l_elfs (sy_loader s) !! ps_ptr p = Some e ->
  program_ok c -> space_ok (sy_mem s) (page_directory t) -> load_bytes (sy_mem s) (elf_memory e) (zlen c) = c ->
  0 < elf_memory e /\ elf_memory e mod 4096 = 0 /\ elf_memory e + zlen c <= 2147483648 ->
  (forall b x, b ∈ space_blocks (sy_mem s) (page_directory t) -> b <= x < b + 4096 ->
     x < elf_memory e \/ elf_memory e + zlen c <= x) ->
  0 < ps_stack p -> ps_stack p mod 4096 = 0 -> ps_stack p + 16384 <= 2147483648 ->
  exists m', process_map_memory a s = Done 0 (set_sy_mem m' s) /\
    image_mapped c (sy_mem s) m' (page_directory t) (elf_memory e) (ps_stack p).
Proof.
  intros Hp Hft Ht He Hok Hsp Hload Ha Hap Hs0 Hsa Hsm.
  destruct (map_elf_spec c (sy_mem s) (page_directory t) (elf_memory e) e Hok Hsp Hload Ha eq_refl Hap) as (m1 & E1 & Hm1).
  destruct (stack_mapped c (sy_mem s) m1 (page_directory t) (elf_memory e) (ps_stack p) Hok Hm1 Hs0 Hsa Hsm) as (m2 & E2 & Hm2).
  exists m2. split; [|exact Hm2]. unfold process_map_memory. rewrite (bind_proc _ _ _ _ Hp), Hft.
  change (PROCESS_FILETYPE_ELF =? PROCESS_FILETYPE_ELF) with true. cbv iota.
  assert (Eelf : process_map_elf a s = Done 0 (set_sy_mem m1 s)).
  { unfold process_map_elf. rewrite (bind_proc _ _ _ _ Hp).
    rewrite (bind_loader (the_elf (ps_ptr p)) _ s e (sy_loader s)).
    2: { unfold the_elf. by rewrite bind_gets, He. }
    replace (set_sy_loader (sy_loader s) s) with s by (by destruct s).
    unfold on_pages, sys_thread. rewrite bind_assoc, bind_gets, (bind_expect _ _ _ _ Ht), bind_gets, E1. reflexivity. }
  rewrite (bind_Done _ _ _ _ _ Eelf). change (0 <? 0) with false. cbv iota.
  rewrite (bind_pages _ _ _ _ t 0 m2); [by rewrite set_sy_mem_set|exact Ht|by rewrite sy_mem_set].
Qed.

(** The file name is copied. *)
Lemma copy_name filename str :
  holds filename str -> zlen str < KERNEL_MAX_PATH ->
  exists name, strncpy (ps_filename zero_process) filename KERNEL_MAX_PATH = Some name /\ holds name str.
Proof.
  intros Hfn Hl. pose proof (zlen_nonneg str). rewrite (strncpy_cases _ _ str) by done.
  change (zlen (ps_filename zero_process)) with KERNEL_MAX_PATH. rewrite Z.min_l by lia. cbv zeta.
  destruct (Z.eqb_spec (zlen str) 0) as [E|E].
  - eexists. split; [reflexivity|]. destruct str as [|b str]; [|rewrite zlen_cons in E; pose proof (zlen_nonneg str); lia].
    split; [done|]. by exists (replicate 107 0).
  - rewrite (proj2 (Z.ltb_lt _ _)) by lia. eexists. split; [reflexivity|]. destruct Hfn as [Hc _]. split; [exact Hc|].
    eexists. f_equal. unfold zlen. rewrite Nat2Z.id. by apply firstn_all.
Qed.

(** Two block runs, one of them of a single block. *)
Lemma block_apart h a n b x :
  kheap_ok h -> live h a n -> live h b 1 -> a <> b -> b <= x < b + 4096 -> x < a \/ a + n * 4096 <= x.
Proof.
  intros Hok Ha Hb Hne Hx. pose proof (live_apart h a n b 1 (proj1 Hok) Ha Hb Hne) as H.
  unfold apart, KERNEL_HEAP_BLOCK_SIZE in H. lia.
Qed.

(** The system with a program image in memory, before the stack is allocated. *)
Record image_loaded s (a f : Z) (e : elf_file) (c : list Z) (l : list Z) p : Prop := {
  il_proc : sy_procs s !! a = Some p;
  il_process : p = ps_set_data PROCESS_FILETYPE_ELF f 0 zero_process;
  il_elf : l_elfs (sy_loader s) !! f = Some e;
  il_contents : load_bytes (sy_mem s) (elf_memory e) (zlen c) = c;
  il_program : program_ok c;
  il_size : zlen c < 2147483648;
  il_vfs : vfs_ok (l_vfs (sy_loader s));
  il_live : live (m_heap (sy_mach s)) (elf_memory e) (blocks_of (zlen c)) /\ live (m_heap (sy_mach s)) a 3;
  il_record : live (m_heap (sy_mach s)) f 1 /\ elf_memory e <> f;
  il_list : dll (sy_threads s) l;
  il_threads : forall b, b ∈ l -> live (m_heap (sy_mach s)) b 1
}.

Lemma image_size s a f e c l p :
  image_loaded s a f e c l p ->
  0 < elf_memory e /\ elf_memory e mod 4096 = 0 /\ elf_memory e + blocks_of (zlen c) * 4096 <= 2147483648 /\
  zlen c <= blocks_of (zlen c) * 4096.
Proof.
  intros [_ _ _ _ Hok Hs Hv [Hl _] _ _ _]. pose proof (fs_ok_heap _ (vo_fs _ Hv)) as Hh.
  destruct (kheap_live_range _ _ _ Hh Hl) as (H0 & _ & Ha & Hr). unfold KERNEL_HEAP_BLOCK_SIZE in *.
  split; [exact H0|]. split; [exact Ha|]. split; [exact Hr|].
  pose proof (zlen_nonneg c). pose proof (blocks_of_spec (zlen c) ltac:(lia)) as Hb. unfold KERNEL_HEAP_BLOCK_SIZE in Hb. lia.
Qed.

(** The process with its stack and its thread, before the mappings. *)
Record thread_ready s s' (a f : Z) (e : elf_file) (c : list Z) (l : list Z) p (t : thread_info) : Prop := {
  tr_space : has_space s' a p t;
  tr_process : exists stack task, p = ps_set_task task (ps_set_stack stack (ps_set_data PROCESS_FILETYPE_ELF f 0 zero_process));
  tr_thread : t_process t = a /\ r_ip (regs t) = KERNEL_PROGRAM_VIRTUAL_ADDRESS /\
    r_esp (regs t) = KERNEL_PROGRAM_VIRTUAL_STACK_ADDRESS_START /\ r_cs (regs t) = USER_CODE_SEGMENT /\
    r_ss (regs t) = USER_DATA_SEGMENT;
  tr_list : dll (sy_threads s') (l ++ [ps_task p]);
  tr_current : current_task (sy_threads s') = match l with [] => ps_task p | _ => current_task (sy_threads s) end;
  tr_elf : l_elfs (sy_loader s') !! f = Some e;
  tr_vfs : vfs_ok (l_vfs (sy_loader s'));
  tr_contents : load_bytes (sy_mem s') (elf_memory e) (zlen c) = c;
  tr_identity : forall va, 0 <= va < 4294967296 -> user_translate s' t va = Some va;
  tr_apart : forall b x, b ∈ space_blocks (sy_mem s') (page_directory t) -> b <= x < b + 4096 ->
    (x < elf_memory e \/ elf_memory e + zlen c <= x) /\ (x < ps_stack p \/ ps_stack p + 16384 <= x);
  tr_stack : 0 < ps_stack p /\ ps_stack p mod 4096 = 0 /\ ps_stack p + 16384 <= 2147483648 /\
    forall x, ps_stack p <= x < ps_stack p + 16384 -> sy_mem s' x = 0;
  tr_table : processes s' = processes s;
  tr_resources : resources s' p t e;
  tr_kept : forall b n, live (m_heap (sy_mach s)) b n ->
    live (m_heap (sy_mach s')) b n /\ b ∉ ps_stack p :: ps_task p :: space_blocks (sy_mem s') (page_directory t)
}.

Lemma thread_step s a f e c l p stack h :
  image_loaded s a f e c l p -> kzalloc KERNEL_USER_PROGRAM_STACK_SIZE (sy_mach s) = Done stack h -> stack <> 0 ->
  1027 <= free_blocks (m_heap h) ->
  let p1 := ps_set_stack stack p in
  let s1 := put_proc a p1 (set_mach h s) in
  exists task t tk, task_new a (ps_filetype p1) (ps_ptr p1) (sy_tasks s1) = Done task tk /\ 0 < task /\
    thread_ready s (put_proc a (ps_set_task task p1) (set_sy_tasks tk s1)) a f e c l (ps_set_task task p1) t.
Proof.
  intros Hil Ek Hst Hfree p1 s1. pose proof Hil as [I1 I2 I3 I4 I5 I5' I6 [I7 I8] [Il Ine] I9 I10].
  destruct (image_size _ _ _ _ _ _ _ Hil) as (Hm0 & Hma & Hmr & Hmc). pose proof (fs_ok_heap _ (vo_fs _ I6)) as Hh.
  destruct (kzalloc_spec (sy_mach s) KERNEL_USER_PROGRAM_STACK_SIZE Hh ltac:(done)) as (stack' & h' & Ek' & Hh1 & D).
  rewrite Ek in Ek'. injection Ek' as <- <-. destruct D as [[-> _]|(Hs0 & _ & Hown & Hap & Hz & Hout)]; [done|].
  change (blocks_of KERNEL_USER_PROGRAM_STACK_SIZE) with 4 in *. unfold KERNEL_HEAP_BLOCK_SIZE in Hz, Hout.
  assert (Hls : live (m_heap h) stack 4) by (apply Hown; left; split; reflexivity).
  destruct (kheap_live_range _ _ _ Hh1 Hls) as (_ & _ & Hsa & Hsr). unfold KERNEL_HEAP_BLOCK_SIZE in Hsa, Hsr.
  assert (Hlm : live (m_heap h) (elf_memory e) (blocks_of (zlen c))) by (apply Hown; right; exact I7).
  assert (Em1 : sy_mach s1 = h) by apply sy_mach_set.
  assert (Hd1 : dll (sy_tasks s1) l) by (apply (dll_ext (sy_threads s)); [exact I9|reflexivity|reflexivity|exact (dl_seg _ _ I9)]).
  destruct (task_new_total (sy_tasks s1) l a (ps_filetype p1) (ps_ptr p1) Hd1) as
    (task & chunk & t & tk & Et & Ht0 & Hni & Hd2 & Hh2 & Ht & Hnl & _ & Hcr & Hsp & Hnt & Htr & [_ Hfrm] & Hlive & Hfr).
  { unfold t_heap, sy_tasks. cbn [t_machine set_t_machine]. rewrite Em1. exact Hh1. }
  { unfold t_heap, sy_tasks. cbn [t_machine set_t_machine]. rewrite Em1. exact Hfree. }
  { unfold t_heap, sy_tasks. cbn [t_machine set_t_machine]. rewrite Em1. intros b Hb. apply Hown. right. by apply I10. }
  unfold t_heap, t_mem, sy_tasks in Hfrm, Hlive, Hfr. cbn [t_machine set_t_machine] in Hfrm, Hlive, Hfr. rewrite Em1 in Hfrm, Hlive, Hfr.
  exists task, t, tk. split; [exact Et|]. split; [exact Ht0|]. set (s2 := put_proc a _ _).
  assert (Em2 : sy_mach s2 = t_machine tk) by (apply (sy_mach_set (t_machine tk) (set_threads_of tk s1))).
  unfold no_links in Hnl. assert (Hpd : page_directory t = chunk) by congruence.
  assert (Hrg : regs t = start_registers (t_mem tk) PROCESS_FILETYPE_ELF f) by (unfold p1 in Hnl; rewrite I2 in Hnl; cbn in Hnl; congruence).
  assert (Hpr : t_process t = a) by congruence.
  assert (Hdis : forall r n b x, live (m_heap h) r n -> b ∈ thread_blocks (m_mem (t_machine tk)) task chunk -> b <= x < b + 4096 ->
            x < r \/ r + n * 4096 <= x).
  { intros r n b x Hr Hb Hx. apply (block_apart (m_heap (t_machine tk)) r n b x Hh2); [apply Hlive; right; exact Hr|apply Hlive; left; split; [reflexivity|exact Hb]| |exact Hx].
    intros ->. exact (Hfr b n Hb Hr). }
  constructor; unfold user_translate, sy_mem; rewrite ?Em2, ?Hpd.
  - constructor; unfold sy_mem; rewrite ?Em2, ?Hpd; [apply lookup_insert_eq|exact Ht|exact Hh2|exact Hsp|].
    intros b Hb. apply Hlive. left. split; [reflexivity|]. by right.
  - exists stack, task. unfold p1. by rewrite I2.
  - rewrite Hpr, Hrg. repeat split; reflexivity.
  - apply (dll_ext tk); [exact Hd2|reflexivity|reflexivity|exact (dl_seg _ _ Hd2)].
  - exact Hcr.
  - exact I3.
  - unfold s2. cbn [sy_loader put_proc set_procs set_sy_tasks set_mach set_threads_of l_vfs set_l_vfs s1]. rewrite upd_upd.
    apply vfs_ok_heap; [exact I6|exact Hh2|]. intros b n Hb. apply Hlive. right. apply Hown. right. exact Hb.
  - rewrite <- I4 at 2. unfold load_bytes. apply map_ext_in. intros i Hi%list_elem_of_In%elem_of_seqZ.
    unfold ld8. rewrite u32_small by lia. rewrite Hfrm.
    + apply Hout. pose proof (Hap _ _ I7) as Hx. unfold apart, KERNEL_HEAP_BLOCK_SIZE in Hx. lia.
    + intros b Hb Hx. pose proof (Hdis _ _ b _ Hlm Hb Hx). lia.
  - exact Htr.
  - intros b x Hb Hx. assert (Hb' : b ∈ thread_blocks (m_mem (t_machine tk)) task chunk) by (by right).
    cbn [ps_stack ps_set_task ps_set_stack p1]. split; [pose proof (Hdis _ _ b x Hlm Hb' Hx); lia|pose proof (Hdis _ _ b x Hls Hb' Hx); lia].
  - cbn [ps_stack ps_set_task ps_set_stack p1]. split; [exact Hs0|]. split; [exact Hsa|]. split; [lia|]. intros x Hx.
    rewrite Hfrm; [apply Hz; lia|]. intros b Hb Hbx. pose proof (Hdis _ _ b x Hls Hb Hbx). lia.
  - reflexivity.
  - assert (Hfs : f <> stack) by (intros ->; pose proof (Hap _ _ Il) as Hx; unfold apart, KERNEL_HEAP_BLOCK_SIZE in Hx; lia).
    assert (Hms : elf_memory e <> stack) by (intros Heq; pose proof (Hap _ _ I7) as Hx; destruct (kheap_live_range _ _ _ Hh I7) as (_ & ? & _); unfold apart, KERNEL_HEAP_BLOCK_SIZE in Hx; lia).
    assert (Hold : forall b, b ∈ [elf_memory e; f; stack] -> exists n, live (m_heap h) b n).
    { intros b [-> |[-> |[-> |Hb]%elem_of_cons]%elem_of_cons]%elem_of_cons; [by eexists|exists 1; apply Hown; by right|by eexists|by apply elem_of_nil in Hb]. }
    assert (Hnew : forall b, b ∈ [elf_memory e; f; stack] -> b ∉ thread_blocks (m_mem (t_machine tk)) task chunk)
      by (intros b Hb Hx; destruct (Hold b Hb) as [n Hn]; exact (Hfr b n Hx Hn)).
    assert (Eb : single_blocks (ps_set_task task p1) e = [elf_memory e; f; stack] ++ [task]) by (unfold p1; by rewrite I2).
    constructor; rewrite ?Eb; unfold sy_mem; rewrite ?Em2, ?Hpd; [by unfold p1; rewrite I2|by unfold p1; rewrite I2| | | |].
    + intros b [Hb|Hb]%elem_of_app; [destruct (Hold b Hb) as [n Hn]; exists n; apply Hlive; by right|].
      exists 1. apply Hlive. left. apply list_elem_of_singleton in Hb as ->. split; [reflexivity|by left].
    + apply Hlive. left. split; [reflexivity|by left].
    + apply NoDup_app. split; [|split; [intros b Hb Hx; apply (Hnew b Hb); apply list_elem_of_singleton in Hx as ->; by left|apply NoDup_singleton]].
      apply NoDup_cons. split; [rewrite !elem_of_cons, elem_of_nil; tauto|]. apply NoDup_cons. split; [rewrite elem_of_cons, elem_of_nil; tauto|apply NoDup_singleton].
    + intros b [Hb|Hb]%elem_of_app; [intros Hx; apply (Hnew b Hb); by right|]. apply list_elem_of_singleton in Hb as ->. exact Hnt.
  - intros b n Hb. assert (Hbh : live (m_heap h) b n) by (apply Hown; right; exact Hb). split; [apply Hlive; right; exact Hbh|].
    change (ps_stack (ps_set_task task p1) :: ps_task (ps_set_task task p1) :: space_blocks (m_mem (t_machine tk)) chunk)
      with (stack :: thread_blocks (m_mem (t_machine tk)) task chunk). intros [-> |Hx]%elem_of_cons; [|exact (Hfr b n Hx Hbh)].
    pose proof (Hap _ _ Hb) as Hx. destruct (kheap_live_range _ _ _ Hh Hb) as (_ & ? & _). unfold apart, KERNEL_HEAP_BLOCK_SIZE in Hx. lia.
Qed.

(** The end of a successful load. *)
Lemma finish_spec s s0 slot a f e c filename str l p t m' :
  thread_ready s0 s a f e c l p t -> program_ok c -> 0 < elf_memory e -> elf_memory e + zlen c <= 2147483648 ->
  image_mapped c (sy_mem s) m' (page_directory t) (elf_memory e) (ps_stack p) ->
  holds filename str -> zlen str < KERNEL_MAX_PATH ->
  exists p' s', (p ← the_process a;
     name ← expect (strncpy (ps_filename p) filename KERNEL_MAX_PATH);
     upd_process a (ps_set_name slot name);;
     modify (fun s => set_processes (zset (processes s) slot a) s);;
     load_out 0 a) (set_sy_mem m' s) = Done (0, a) s' /\ started s0 s' slot a str c l p' t /\
    (ps_ptr p' = f /\ l_elfs (sy_loader s') !! f = Some e) /\
    forall b n, live (m_heap (sy_mach s0)) b n -> live (m_heap (sy_mach s')) b n /\
      b ∉ ps_stack p' :: ps_task p' :: space_blocks (sy_mem s') (page_directory t).
Proof.
  intros [T1 (stack & task & Ep) T3 T4 Tcur T5 T6 T7 T8 T9 T10 T11 [V1 V2 V3 V4 V5 V6] T13] Hok Hm0 Hmc [M1 M2 M3 M4 M5 M6 M7] Hfn Hl.
  rewrite (bind_proc _ _ _ p) by exact (hs_proc _ _ _ _ T1).
  destruct (copy_name filename str Hfn Hl) as (name & En & Hname).
  replace (ps_filename p) with (ps_filename zero_process) by (by rewrite Ep).
  rewrite (bind_expect _ _ _ _ En), (bind_upd _ _ _ _ p), bind_modify by exact (hs_proc _ _ _ _ T1).
  set (s' := set_processes _ _). exists (ps_set_name slot name p), s'. split; [reflexivity|].
  assert (Em : sy_mach s' = mk_machine (m_heap (sy_mach s)) m').
  { change (sy_mach (set_sy_mem m' s) = mk_machine (m_heap (sy_mach s)) m'). unfold set_sy_mem. by rewrite sy_mach_set. }
  split; [|split; [split; [by rewrite Ep|exact T5]|]].
  2: { intros b n Hb. unfold sy_mem. rewrite Em. cbn [m_mem m_heap ps_task ps_stack ps_set_name]. rewrite M3. by apply T13. }
  constructor; unfold user_translate, sy_mem; rewrite ?Em; cbn [m_mem m_heap ps_task ps_stack ps_set_name ps_id ps_filename ps_filetype ps_argc ps_allocations].
  - unfold s'. cbn [processes set_processes put_proc set_procs set_sy_mem set_mach]. by rewrite T11.
  - destruct T1 as [U1 U2 U3 U4 U5]. constructor; unfold sy_mem; rewrite ?Em; cbn [m_mem m_heap];
      [apply lookup_insert_eq|exact U2|exact U3|exact M1|]. intros b Hb. apply U5. by rewrite <- M3.
  - split; [reflexivity|]. split; [exact Hname|]. rewrite Ep. split; [reflexivity|]. split; [reflexivity|].
    split; [reflexivity|]. apply (ba_allocations _ zero_process_bare).
  - exists e. constructor; unfold sy_mem; rewrite ?Em; cbn [m_mem m_heap]; [exact V1|exact V2|exact V3|exact V4|exact V5|].
    intros b Hb. rewrite M3. by apply V6.
  - exact T3.
  - apply (dll_ext (sy_threads s)); [exact T4|reflexivity|reflexivity|exact (dl_seg _ _ T4)].
  - exact Tcur.
  - unfold s'. cbn [sy_loader set_processes put_proc set_procs set_sy_mem set_mach l_vfs set_l_vfs].
    apply vfs_ok_heap; [exact T6|exact (hs_heap _ _ _ _ T1)|]. intros b n Hb. exact Hb.
  - intros j i Hj Hi. destruct (po_segments _ Hok j Hj) as [S1 S2 S3 S4 S5 S6 S7 S8].
    pose proof (word_range c (c_header c j + 4) (po_bytes _ Hok)) as Hor. fold (c_offset c j) in Hor.
    pose proof (word_range c (c_header c j + 20) (po_bytes _ Hok)) as Hmr. fold (c_memsz c j) in Hmr.
    pose proof (page_up_le (c_memsz c j) ltac:(lia)) as [Hpu _].
    exists (elf_memory e + (c_offset c j + i)). split.
    + rewrite M2, (M5 j) by (exact Hj || (unfold in_segment; lia)). f_equal. lia.
    + rewrite <- (ld8_at c (sy_mem s) (elf_memory e) T7) by lia. unfold ld8. rewrite !u32_small by lia. apply M4.
      intros b Hb Hx. destruct (T9 b _ Hb Hx) as [Hx1 _]. lia.
  - intros i Hi. destruct T10 as (K1 & K2 & K3 & K4). change KERNEL_USER_PROGRAM_STACK_SIZE with 16384 in Hi. split; [by rewrite M2, M6|].
    unfold ld8. rewrite u32_small by lia. rewrite M4; [apply K4; lia|].
    intros b Hb Hx. destruct (T9 b _ Hb Hx) as [_ Hx2]. lia.
  - intros va Hva Hn Hns. rewrite M2, M7 by assumption. by apply T8.
Qed.

Lemma start_spec M0 s slot a f e c filename str l p L :
  image_loaded s a f e c l p -> a <> 0 -> 0 < f ->
  owned M0 (sy_mach s) ((elf_memory e, blocks_of (zlen c)) :: (f, 1) :: (a, 3) :: L) ->
  zlen (processes s) = KERNEL_MAX_PROCESSES -> current_process s <> a ->
  holds filename str -> zlen str < KERNEL_MAX_PATH -> 1031 <= free_blocks (m_heap (sy_mach s)) ->
  exists res a' s', start_program filename slot a s = Done (res, a') s' /\
    ((res = - ENOMEM /\ a' = 0 /\ ~ roomy (free_blocks (m_heap (sy_mach s))) 4 /\ processes s' = zset (processes s) 0 0) \/
     (res = 0 /\ a' = a /\ exists p' t, started s s' slot a str c l p' t /\
        (ps_ptr p' = f /\ l_elfs (sy_loader s') !! f = Some e) /\
        forall b n, live (m_heap (sy_mach s)) b n -> live (m_heap (sy_mach s')) b n /\
          b ∉ ps_stack p' :: ps_task p' :: space_blocks (sy_mem s') (page_directory t))).
Proof.
  intros Hil Ha Hf Ho Hlen Hcur Hfn Hl Hfree. pose proof Hil as [I1 I2 I3 I4 I5 I5' I6 I7 _ I9 I10]. unfold start_program.
  destruct (sys_kzalloc M0 s _ KERNEL_USER_PROGRAM_STACK_SIZE Ho ltac:(done)) as (stack & h & Ek & D).
  rewrite (bind_mach _ _ _ _ _ Ek), (bind_upd _ _ _ _ p) by exact I1. destruct D as [(-> & -> & Hno)|(Hs0 & Ho1 & _)].
  - change (0 =? 0) with true. cbv iota.
    destruct (load_out_bare M0 (put_proc a (ps_set_stack 0 p) (set_mach (sy_mach s) s)) a (ps_set_stack 0 p)
      [(elf_memory e, blocks_of (zlen c)); (f, 1)] 3 L (- ENOMEM)) as (s' & E & _ & Hpr & _); try done.
    + apply lookup_insert_eq.
    + rewrite I2. destruct zero_process_bare. by constructor.
    + right. exists e, (blocks_of (zlen c)). rewrite I2. split; [exact Hf|]. split; [exact I3|reflexivity].
    + change (owned M0 (sy_mach (set_mach (sy_mach s) s)) ([(elf_memory e, blocks_of (zlen c)); (f, 1)] ++ (a, 3) :: L)).
      rewrite sy_mach_set. exact Ho.
    + exists (- ENOMEM), 0, s'. split; [exact E|]. left. split; [reflexivity|]. split; [reflexivity|]. split; [|exact Hpr].
      apply (full_not_roomy _ KERNEL_USER_PROGRAM_STACK_SIZE); [exact (ow_ok _ _ _ Ho)|done|exact Hno].
  - rewrite (proj2 (Z.eqb_neq stack 0)) by lia.
    change (blocks_of KERNEL_USER_PROGRAM_STACK_SIZE) with 4 in Ho1.
    assert (Hfree1 : 1027 <= free_blocks (m_heap h)).
    { pose proof (ow_avail _ _ _ Ho1) as E1. pose proof (ow_avail _ _ _ Ho) as E2. cbn [total_blocks_of] in E1, E2.
      change (al_avail h) with (free_blocks (m_heap h)) in E1. change (al_avail (sy_mach s)) with (free_blocks (m_heap (sy_mach s))) in E2. lia. }
    destruct (thread_step s a f e c l p stack h Hil Ek ltac:(lia) Hfree1) as (task & t & tk & Et & Ht0 & Htr).
    set (p1 := ps_set_stack stack p) in *. set (s1 := put_proc a p1 (set_mach h s)) in *.
    rewrite (bind_proc _ _ _ p1) by apply lookup_insert_eq. rewrite (bind_tasks _ _ _ _ _ Et).
    rewrite (bind_upd _ _ _ _ p1) by apply lookup_insert_eq. rewrite (proj2 (Z.eqb_neq task 0)) by lia.
    destruct (image_size _ _ _ _ _ _ _ Hil) as (Hm0 & Hma & Hmr & Hmc).
    pose proof Htr as [T1 _ _ _ _ T5 _ T7 _ T9 (K1 & K2 & K3 & _) _ _ _].
    set (s2 := put_proc a (ps_set_task task p1) (set_sy_tasks tk s1)) in *.
    destruct (map_memory_spec s2 a (ps_set_task task p1) t e c) as (m' & Em & Him); try done.
    + apply (hs_proc _ _ _ _ T1).
    + unfold p1. by rewrite I2.
    + apply (hs_thread _ _ _ _ T1).
    + unfold p1. by rewrite I2.
    + apply (hs_space _ _ _ _ T1).
    + split; [exact Hm0|]. split; [exact Hma|lia].
    + intros b x Hb Hx. by apply (T9 b x).
    + rewrite (bind_Done _ _ _ _ _ Em). change (0 <? 0) with false. cbv iota.
      destruct (finish_spec s2 s slot a f e c filename str l _ t m' Htr I5 Hm0 ltac:(lia) Him Hfn Hl) as (p' & s' & E & Hst).
      exists 0, a, s'. split; [exact E|]. right. split; [reflexivity|]. split; [reflexivity|]. exists p', t. exact Hst.
Qed.

Lemma load_total s slot filename str ps x c l :
  can_load s slot -> holds filename str -> KERNEL_MAX_PATH <= zlen filename -> zlen str < KERNEL_MAX_PATH ->
  spec_parse str = Some (0, ps) ->
  (forall bufs, Forall2 holds bufs ps -> fs_can_open (v_fs (l_vfs (sy_loader s))) bufs FILE_MODE_READ (Some x)) ->
  fs_loadable x -> fs_contents x = Some c -> program_ok c ->
  first_free (l_vfs (sy_loader s)) < KERNEL_MAX_FILE_DESCRIPTORS ->
  dll (sy_threads s) l -> (forall b, b ∈ l -> live (m_heap (sy_mach s)) b 1) ->
  2 * zlen ps + fs_need + blocks_of (zlen c) + 1037 <= free_blocks (m_heap (sy_mach s)) ->
  exists res a s', process_load filename s = Done (res, a) s' /\
    ((res = - ENOMEM /\ a = 0 /\ (s' = s \/ processes s' = zset (processes s) 0 0) /\
      ~ ample (free_blocks (m_heap (sy_mach s)) - (2 * zlen ps + fs_need + blocks_of (zlen c) + 10)) (blocks_of (zlen c))) \/
     (res = 0 /\ 0 < a /\ exists p t, started s s' slot a str c l p t /\ others_kept s s' a p t)).
Proof.
  intros Hcl Hfn Hlen Hstr Hsp Hcan Hld Hc Hok Hff Hd Hlive Hav. pose proof fs_need_nonneg. pose proof (zlen_nonneg ps).
  destruct (fs_contents_len x c Hld Hc) as [Hlc _]. pose proof (fs_size_range x Hld) as Hsz.
  pose proof (blocks_of_nonneg (zlen c) ltac:(lia)) as Hbn.
  destruct (load_start s slot filename Hcl) as [[E Hno0]|(a & h1 & Ha & Hcur & Ho1 & Hfr & E)].
  { exists (- ENOMEM), 0, s. split; [exact E|]. left. split; [reflexivity|]. split; [reflexivity|]. split; [by left|].
    intros [H4 _]. apply (full_not_roomy (m_heap (sy_mach s)) sizeof_task_struct); [exact (fs_ok_heap _ (vo_fs _ (cl_vfs _ _ Hcl)))|done|exact Hno0|].
    apply (roomy_mono _ _ _ _ H4); [lia|by vm_compute]. }
  rewrite E. set (s1 := put_proc a zero_process (set_mach h1 s)) in *.
  assert (Hm1 : sy_mach s1 = h1) by apply sy_mach_set.
  assert (Hav1 : 2 * zlen ps + fs_need + blocks_of (zlen c) + 1034 <= al_avail h1).
  { rewrite (ow_avail _ _ _ Ho1). cbn [total_blocks_of]. change (al_avail (sy_mach s)) with (free_blocks (m_heap (sy_mach s))). lia. }
  destruct (load_data s1 a zero_process filename str ps x c) as (l' & Hv' & D); try done.
  { apply lookup_insert_eq. }
  { by apply (load_start_vfs s slot a h1 [(a, 3)]). }
  { intros bufs Hb. cbn. apply fs_can_set; [by apply Hcan|]. intros b n Hl. apply (ow_live _ _ _ Ho1). by right. }
  { rewrite Hm1, <- Hlc. lia. }
  rewrite Hm1 in D. destruct D as [(E2 & Hno & L & HoL)|(f & memory & e & L & E2 & He & Hem & Hmp & Hload & HoL & HtL)];
    rewrite (bind_Done _ _ _ _ _ E2); pose proof (owned_trans _ _ _ _ _ Ho1 HoL) as Ho2.
  - change (negb (- ENOMEM =? KERNEL_ALL_OK)) with true. cbv iota.
    destruct (load_out_bare (sy_mach s) (set_sy_loader l' s1) a zero_process [] 3 L (- ENOMEM)) as (s' & E3 & _ & Hpr & _); try done; try lia.
    { apply lookup_insert_eq. }
    { apply zero_process_bare. }
    { by left. }
    { apply (cl_length _ _ Hcl). }
    { refine (proj2 (owned_proper _ _ _ _ _) Ho2). apply Permutation_cons_append. }
    exists (- ENOMEM), 0, s'. split; [exact E3|]. left. split; [reflexivity|]. split; [reflexivity|]. split; [right; exact Hpr|].
    intros [_ Hn]. apply Hno. rewrite <- Hlc. apply (roomy_mono _ _ _ _ Hn); [|split; [apply Hn|lia]].
    change (al_avail h1) with (free_blocks (m_heap h1)) in *. pose proof (ow_avail _ _ _ Ho1) as Ea1. cbn [total_blocks_of] in Ea1.
    change (al_avail h1) with (free_blocks (m_heap h1)) in Ea1. change (al_avail (sy_mach s)) with (free_blocks (m_heap (sy_mach s))) in Ea1. lia.
  - change (negb (0 =? KERNEL_ALL_OK)) with false. cbv iota. change (ps_size zero_process) with 0 in *.
    set (p := ps_set_data PROCESS_FILETYPE_ELF f 0 zero_process) in *. set (s2 := put_proc a p (set_sy_loader l' s1)) in *.
    subst memory. assert (Hf : 0 < f).
    { apply (owned_range (sy_mach s) (v_mach (l_vfs l')) _ f Ho2). cbn. right. by left. }
    destruct (start_spec (sy_mach s) s2 slot a f e c filename str l p L) as (res & a' & s' & E3 & D); try done; try lia.
    { constructor; try done; try lia.
      - apply lookup_insert_eq.
      - split; apply (ow_live _ _ _ Ho2); left; [by left|]. do 2 (apply elem_of_list_further || right). apply elem_of_app. right. by left.
      - split; [apply (ow_live _ _ _ Ho2); left; right; by left|]. intros Heq. pose proof (ow_nodup _ _ _ Ho2) as Hnd. cbn in Hnd.
        apply NoDup_cons in Hnd as [Hnd _]. apply Hnd. rewrite Heq. by left.
      - intros b Hb. apply (ow_live _ _ _ Ho2). right. by apply Hlive. }
    { refine (proj2 (owned_proper _ _ _ _ _) Ho2). cbn [app]. do 2 apply perm_skip. apply Permutation_cons_append. }
    { apply (cl_length _ _ Hcl). }
    { pose proof (ow_avail _ _ _ HoL) as Ea. cbn [total_blocks_of] in Ea. change (al_avail (v_mach (l_vfs l'))) with (free_blocks (m_heap (sy_mach s2))) in Ea. lia. }
    exists res, a', s'. split; [exact E3|]. destruct D as [(-> & -> & Hno & Hpr)|(-> & -> & p' & t & Hst & [Hpp Hpe] & Hkept)].
    + left. split; [reflexivity|]. split; [reflexivity|]. split; [right; exact Hpr|]. intros [H4 _]. apply Hno.
      apply (roomy_mono _ _ _ _ H4); [|lia]. pose proof (ow_avail _ _ _ HoL) as Ea. cbn [total_blocks_of] in Ea.
      pose proof (ow_avail _ _ _ Ho1) as Ea1. cbn [total_blocks_of] in Ea1.
      change (al_avail (v_mach (l_vfs l'))) with (free_blocks (m_heap (sy_mach s2))) in Ea.
      change (al_avail (sy_mach s)) with (free_blocks (m_heap (sy_mach s))) in Ea1. lia.
    + right. split; [reflexivity|]. split; [exact Ha|]. exists p', t.
      split; [destruct Hst; by constructor|]. assert (Hls : forall b n, live (m_heap (sy_mach s)) b n -> live (m_heap (sy_mach s2)) b n).
      { intros b n Hb. apply (ow_live _ _ _ Ho2). right. exact Hb. }
      constructor; [intros b n Hb; by apply Hkept, Hls|]. intros b n e' Hb [_ Hre _ _ _ _].
      rewrite Hpp, Hpe in Hre. injection Hre as <-. destruct (Hkept b n (Hls b n Hb)) as [_ Hx]. rewrite !elem_of_cons in Hx.
      assert (Hy : b ∉ [elf_memory e; f; a]).
      { intros Hin. apply (ow_fresh _ _ _ Ho2 b n); [|exact Hb]. rewrite fmap_app. cbn. clear -Hin.
        rewrite !elem_of_cons in Hin |- *. rewrite elem_of_app, elem_of_cons, elem_of_nil in *. tauto. }
      unfold single_blocks. rewrite Hpp. rewrite !elem_of_cons, elem_of_nil in Hy. rewrite !elem_of_cons, elem_of_app. cbn [app].
      rewrite !elem_of_cons, elem_of_nil. clear -Hx Hy. tauto.
Qed.
End load.

(** ** Properties *)

(** C4: running a program, end to end.  The system has a free process slot, a sound file layer
    with a free descriptor, and at least 1037 free blocks besides those of the path, of the
    open and of the file; the path names a file whose contents [c] can be read and are an ELF
    program of page aligned segments ([program_ok]); every listed thread is in a live block.
    Then [process_load] either fails with [-ENOMEM], which it cannot while enough blocks are
    free for a run of the stack's and of the file's length to exist ([ample]), or returns a
    process in that slot: a new thread at the end of the list whose address space shows, for
    every segment, the bytes of the file at the addresses the file asks for, a zeroed 16 KiB
    stack below 0x3FF000, and every other address as itself.  The thread starts at 0x400000
    whatever entry point the file names.  All other block runs of the heap stay, and none of
    them is a part of the new process.  (Without a free descriptor the load fails with
    [-EIO], see [process_load_missing_unlinks]; with fewer free blocks the thread may not be
    created, which task.c goes on with, and nothing is claimed.) *)
Theorem process_load_spec {F : Type} {LY : Layout} {FS : Filesystem machine F} {SP : FilesystemSpec machine F}
    {LF : FilesystemLaws machine F} {FF : FilesystemFiles machine F} {FR : FilesystemReads machine F}
    (s : system F) (slot : Z) (filename str : list Z) (ps : list (list Z)) (x : fs_id) (c l : list Z) :
  can_load s slot -> holds filename str -> KERNEL_MAX_PATH <= zlen filename -> zlen str < KERNEL_MAX_PATH ->
  spec_parse str = Some (0, ps) ->
  (forall bufs, Forall2 holds bufs ps -> fs_can_open (v_fs (l_vfs (sy_loader s))) bufs FILE_MODE_READ (Some x)) ->
  fs_loadable x -> fs_contents x = Some c -> program_ok c ->
  first_free (l_vfs (sy_loader s)) < KERNEL_MAX_FILE_DESCRIPTORS ->
  dll (sy_threads s) l -> (forall b, b ∈ l -> live (m_heap (sy_mach s)) b 1) ->
  2 * zlen ps + fs_need + blocks_of (zlen c) + 1037 <= free_blocks (m_heap (sy_mach s)) ->
  exists res a s', process_load filename s = Done (res, a) s' /\
    ((res = - ENOMEM /\ a = 0 /\ (s' = s \/ processes s' = zset (processes s) 0 0) /\
      ~ ample (free_blocks (m_heap (sy_mach s)) - (2 * zlen ps + fs_need + blocks_of (zlen c) + 10)) (blocks_of (zlen c))) \/
     (res = 0 /\ 0 < a /\ exists p t, started s s' slot a str c l p t /\ others_kept s s' a p t)).
Proof. apply load_total. Qed.

(** C12: a program that cannot be opened.  [process_load] then fails with [-EIO] (or
    [-ENOMEM] at once), gives back all memory and descriptors and leaves the threads and the
    current process alone; but the clean-up runs on a process whose [id] is still 0, so
    process 0 — the shell — is dropped from the process table. *)
Theorem process_load_missing_unlinks {F : Type} {LY : Layout} {FS : Filesystem machine F} {SP : FilesystemSpec machine F}
    {LF : FilesystemLaws machine F} {FF : FilesystemFiles machine F} {FR : FilesystemReads machine F}
    (s : system F) (slot : Z) (filename str : list Z) (ps : list (list Z)) (o : option fs_id) :
  can_load s slot -> holds filename str -> KERNEL_MAX_PATH <= zlen filename -> spec_parse str = Some (0, ps) ->
  (forall bufs, Forall2 holds bufs ps -> fs_can_open (v_fs (l_vfs (sy_loader s))) bufs FILE_MODE_READ o) ->
  (forall x, o = Some x -> fs_loadable x) -> cannot_open s o ->
  2 * zlen ps + 9 + fs_need + match o with Some x => blocks_of (fs_size x) | None => 0 end <= free_blocks (m_heap (sy_mach s)) ->
  exists res s', process_load filename s = Done (res, 0) s' /\
    own_same (m_heap (sy_mach s)) (m_heap (sy_mach s')) /\
    ((res = - ENOMEM /\ s' = s /\ no_room s) \/
     (res = - EIO /\ processes s' = zset (processes s) 0 0 /\ current_process s' = current_process s /\ same_threads s s' /\
      file_descriptors (l_vfs (sy_loader s')) = file_descriptors (l_vfs (sy_loader s)))).
Proof. apply load_missing. Qed.

(** ** A concrete system, for the witnesses *)

#[local] Existing Instance one_file_fs.
#[local] Existing Instance one_file_spec.
#[local] Existing Instance one_file_laws.
#[local] Existing Instance one_file_files.
#[local] Existing Instance one_file_reads.
#[local] Existing Instance sample_layout.

(** A disk with the file [c] (none if it is empty); the shell, process 0, is at 0x3000. *)
Definition sample_system (c : list Z) : system one_file :=
  mk_system (mk_loader (one_file_vfs c) ∅) (no_tasks (mk_machine boot_heap (fun _ => 0))) ∅ (12288 :: replicate 11 0) 0.

Lemma sample_can_load c : can_load (sample_system c) 1.
Proof. constructor; [apply one_file_vfs_ok|reflexivity|split; [reflexivity|discriminate]|by left]. Qed.

Lemma sample_room c : ~ no_room (sample_system c).
Proof.
  unfold no_room, sample_system, sy_mach, v_mach. cbn [sy_loader l_vfs one_file_vfs v_fs fs_heap one_file_fs of_machine m_heap].
  intros H. vm_compute in H. discriminate H.
Qed.

Lemma process_load_missing_unlinks_witness :
  exists s', process_load (one_file_name ++ replicate 104 0) (sample_system []) = Done (- EIO, 0) s' /\
    processes s' = replicate 12 0.
Proof.
  destruct (process_load_missing_unlinks (SP := one_file_spec) (sample_system []) 1 (one_file_name ++ replicate 104 0) one_file_name [[97]] None)
    as (res & s' & E & _ & D).
  - apply sample_can_load.
  - apply one_file_name_holds.
  - vm_compute. discriminate.
  - vm_compute. reflexivity.
  - intros bufs _. reflexivity.
  - intros x Hx. discriminate Hx.
  - left. reflexivity.
  - vm_compute. discriminate.
  - destruct D as [(_ & _ & Hno)|(-> & Hp & _)]; [destruct (sample_room [] Hno)|].
    exists s'. split; [exact E|exact Hp].
Defined.

(** A program of one segment, the whole file, mapped at 0x400000; its entry point is 0x400054. *)
Definition run_elf : list Z :=
  [127; 69; 76; 70; 1; 1] ++ replicate 10 0 ++ [2; 0; 3; 0; 1; 0; 0; 0; 84; 0; 64; 0; 52; 0; 0; 0] ++ replicate 12 0 ++
  [1; 0] ++ replicate 6 0 ++
  [1; 0; 0; 0; 0; 0; 0; 0; 0; 0; 64; 0; 0; 0; 64; 0; 84; 0; 0; 0; 200; 0; 0; 0; 5; 0; 0; 0; 0; 16; 0; 0].

Lemma run_elf_ok : program_ok run_elf.
Proof.
  assert (En : c_phnum run_elf = 1) by (vm_compute; reflexivity). constructor; rewrite ?En.
  - apply bytes_range. vm_compute. reflexivity.
  - vm_compute. reflexivity.
  - right. vm_compute. reflexivity.
  - right. vm_compute. reflexivity.
  - vm_compute. discriminate.
  - vm_compute. reflexivity.
  - vm_compute. discriminate.
  - lia.
  - split; vm_compute; discriminate.
  - intros j Hj. assert (j = 0) as -> by lia. constructor;
      [vm_compute; reflexivity|vm_compute; reflexivity|vm_compute; reflexivity|vm_compute; discriminate|vm_compute; discriminate
      |vm_compute; discriminate|vm_compute; reflexivity|vm_compute; discriminate].
  - intros i j va Hi Hj _ _. lia.
Qed.

Lemma process_load_spec_witness :
  exists a s', process_load (one_file_name ++ replicate 104 0) (sample_system run_elf) = Done (0, a) s' /\
    processes s' = 12288 :: a :: replicate 10 0 /\ exists t p, has_space s' a p t /\
      r_ip (regs t) = 4194304 /\
      exists pa, user_translate s' t 4194305 = Some pa /\ ld8 (sy_mem s') pa = 69.
Proof.
  destruct (process_load_spec (SP := one_file_spec) (sample_system run_elf) 1 (one_file_name ++ replicate 104 0) one_file_name
    [[97]] run_elf run_elf []) as (res & a & s' & E & D).
  - apply sample_can_load.
  - apply one_file_name_holds.
  - vm_compute. discriminate.
  - vm_compute. reflexivity.
  - vm_compute. reflexivity.
  - intros bufs _. reflexivity.
  - split; [split; reflexivity|]. apply bytes_range. vm_compute. reflexivity.
  - reflexivity.
  - exact run_elf_ok.
  - vm_compute. reflexivity.
  - apply no_tasks_represents.
  - intros b Hb. by apply elem_of_nil in Hb.
  - vm_compute. discriminate.
  - destruct D as [(-> & _ & _ & Hno)|(-> & Ha & p & t & Hst & _)].
    { destruct Hno. split; [split; [lia|vm_compute; reflexivity]|split; vm_compute; reflexivity]. }
    exists a, s'. split; [exact E|]. split; [exact (sd_table _ _ _ _ _ _ _ _ _ Hst)|]. exists t, p.
    split; [exact (sd_space _ _ _ _ _ _ _ _ _ Hst)|]. split; [exact (proj1 (proj2 (sd_thread _ _ _ _ _ _ _ _ _ Hst)))|].
    assert (En : c_phnum run_elf = 1) by (vm_compute; reflexivity).
    assert (Ef : c_filesz run_elf 0 = 84) by (vm_compute; reflexivity).
    destruct (sd_code _ _ _ _ _ _ _ _ _ Hst 0 1) as (pa & Et & Eb); [rewrite En; lia|rewrite Ef; lia|].
    exists pa. split; [exact Et|]. rewrite Eb. vm_compute. reflexivity.
Defined.
