(* ===== verification/Process.v ===== *)
(** * What a running process owns: the invariant of kernel/sched.c

    [process_ok] says that a process has a well-formed address space, that its allocations,
    program image, ELF record, stack and thread are block runs of the heap of their own, and
    that the thread list and the process table know it.  [process_load] establishes it and
    the memory requests of the process keep it. *)
From S2P Require Import Prelude Heap Kheap CString Paging Pparser Disk Fat16 File Contents Elf Task Sched Exec.

Section process.
Context {F : Type} {LY : Layout} {FS : Filesystem machine F} {SP : FilesystemSpec machine F}
  {LF : FilesystemLaws machine F}.
Implicit Types (s : system F) (p : task_struct) (t : thread_info).

(** The allocations of a process are block runs of the heap, each recorded once, none of
    them a table of its address space. *)
Record allocations_ok s p t : Prop := {
  ac_length : zlen (ps_allocations p) = KERNEL_MAX_PROGRAM_ALLOCATIONS;
  ac_live : forall j q, zget (ps_allocations p) j = Some q -> fst q <> 0 ->
    live (m_heap (sy_mach s)) (fst q) (blocks_of (snd q)) /\ 0 <= snd q < 4294963200 /\
    fst q ∉ space_blocks (sy_mem s) (page_directory t);
  ac_distinct : forall j k q r, zget (ps_allocations p) j = Some q -> zget (ps_allocations p) k = Some r ->
    fst q <> 0 -> fst q = fst r -> j = k
}.

(** [b] is one of the first [i] allocations. *)
Definition allocated p (i b : Z) : Prop := exists j q, 0 <= j < i /\ zget (ps_allocations p) j = Some q /\ fst q = b /\ b <> 0.

(** What a process owns. *)
Definition owns s p t (e : elf_file) (b : Z) : Prop :=
  allocated p KERNEL_MAX_PROGRAM_ALLOCATIONS b \/ b ∈ single_blocks p e \/ b ∈ space_blocks (sy_mem s) (page_directory t).

(** A process with everything in place, its thread behind [l1] and before [l2] in the list. *)
Record process_ok s (a : Z) p t (e : elf_file) (l1 l2 : list Z) : Prop := {
  pk_address : a <> 0;
  pk_space : has_space s a p t;
  pk_allocations : allocations_ok s p t;
  pk_resources : resources s p t e;
  pk_apart : forall b, b ∈ single_blocks p e -> ~ allocated p KERNEL_MAX_PROGRAM_ALLOCATIONS b;
  pk_list : dll (sy_threads s) (l1 ++ ps_task p :: l2);
  pk_slot : zget (processes s) (ps_id p) = Some a
}.

Lemma allocated_intro p i b j q :
  0 <= j < i -> zget (ps_allocations p) j = Some q -> fst q = b -> b <> 0 -> allocated p i b.
Proof. intros Hj Hq Hb Hb0. exact (ex_intro _ j (ex_intro _ q (conj Hj (conj Hq (conj Hb Hb0))))). Qed.

Lemma single_live s a p t e l1 l2 b :
  process_ok s a p t e l1 l2 -> b ∈ single_blocks p e -> b <> 0 /\ exists n, live (m_heap (sy_mach s)) b n.
Proof.
  intros Hok Hb. destruct (rs_live _ _ _ _ (pk_resources _ _ _ _ _ _ _ Hok) b Hb) as [n Hn].
  destruct (kheap_live_range _ _ _ (hs_heap _ _ _ _ (pk_space _ _ _ _ _ _ _ Hok)) Hn). split; [lia|by exists n].
Qed.

(** The table finds an allocation at its own index. *)
Lemma allocation_index l ptr size i :
  ptr <> 0 -> zget l i = Some (ptr, size) -> (forall j q, zget l j = Some q -> fst q = ptr -> j = i) -> allocation_loop l ptr 0 = i.
Proof.
  intros Hp Hi Hd. destruct (allocation_loop_spec l ptr 0) as [[_ Hn]|(Hr & n & Hn)].
  - exfalso. apply (Hn (ptr, size)); [by eapply zget_elem|done].
  - rewrite Z.sub_0_r in Hn. by eapply Hd.
Qed.


(** A program that has just been loaded. *)
Lemma started_ok s s' slot a str c l p t :
  started s s' slot a str c l p t -> a <> 0 -> 0 <= slot < zlen (processes s) -> exists e, process_ok s' a p t e l [].
Proof.
  intros [S1 S2 (S3 & _ & _ & _ & S4 & S5) [e S6] _ S7 _ _ _ _ _] Ha Hs. exists e.
  assert (Hno : forall i b, ~ allocated p i b) by (intros i b (j & q & _ & Hq & <- & Hb); apply Hb; by apply (S5 j)).
  constructor; [exact Ha|exact S2| |exact S6|by intros b _|apply (dll_ext (sy_tasks s')); [exact S7|done|done|exact (dl_seg _ _ S7)]|].
  - constructor; [exact S4|intros j q Hq Hq0; by destruct Hq0; apply (S5 j)|intros j k q r Hq _ Hq0; by destruct Hq0; apply (S5 j)].
  - rewrite S1, S3. by apply zget_zset_eq.
Qed.

(** Changes that are none of the process's. *)
Lemma process_ok_same s s' a p t e l1 l2 :
  process_ok s a p t e l1 l2 -> has_space s' a p t -> dll (sy_threads s') (l1 ++ ps_task p :: l2) -> same_tables s s' ->
  space_blocks (sy_mem s') (page_directory t) = space_blocks (sy_mem s) (page_directory t) ->
  (forall b n, live (m_heap (sy_mach s)) b n -> live (m_heap (sy_mach s')) b n) -> process_ok s' a p t e l1 l2.
Proof.
  intros [P1 P2 [A1 A2 A3] [R1 R2 R3 R4 R5 R6] P5 P6 P7] Hs Hd (_ & Hp & He & _) Hb Hl.
  constructor; [exact P1|exact Hs| | |exact P5|exact Hd|by rewrite Hp].
  - constructor; [exact A1| |exact A3]. intros j q Hq Hq0. destruct (A2 j q Hq Hq0) as (Hlq & Hrest). rewrite Hb.
    split; [by apply Hl|exact Hrest].
  - constructor; [exact R1|by rewrite He| |by apply Hl|exact R5|by rewrite Hb].
    intros b Hb'. destruct (R3 b Hb') as [n Hn]. exists n. by apply Hl.
Qed.

(** ** Memory requests *)

(** What the memory of the process does not touch. *)
Lemma process_ok_step s s' a p t e l1 l2 l :
  process_ok s a p t e l1 l2 -> has_space s' a (ps_set_allocations l p) t -> sy_threads s' = sy_threads s -> same_tables s s' ->
  space_blocks (sy_mem s') (page_directory t) = space_blocks (sy_mem s) (page_directory t) ->
  (forall b n, b ∈ single_blocks p e -> live (m_heap (sy_mach s)) b n -> live (m_heap (sy_mach s')) b n) ->
  allocations_ok s' (ps_set_allocations l p) t ->
  (forall b, b ∈ single_blocks p e -> ~ allocated (ps_set_allocations l p) KERNEL_MAX_PROGRAM_ALLOCATIONS b) ->
  process_ok s' a (ps_set_allocations l p) t e l1 l2.
Proof.
  intros [P1 P2 P3 [R1 R2 R3 R4 R5 R6] P5 P6 P7] Hs Ht (_ & Hp & He & _) Hb Hl Hac Hap.
  constructor; [exact P1|exact Hs|exact Hac| |exact Hap|by rewrite Ht|by rewrite Hp].
  constructor; [exact R1|by rewrite He| | |exact R5|intros b Hb'; rewrite Hb; by apply R6].
  - intros b Hb'. destruct (R3 b Hb') as [n Hn]. exists n. by apply Hl.
  - apply (Hl (ps_task p)); [do 3 right; by left|exact R4].
Qed.

Lemma malloc_ok s s' a p t e l1 l2 ptr size i :
  process_ok s a p t e l1 l2 -> 0 <= size < 4294963200 -> malloc_done s s' a p t ptr size i ->
  process_ok s' a (ps_set_allocations (zset (ps_allocations p) i (ptr, size)) p) t e l1 l2.
Proof.
  intros Hok Hz [D1 D2 D3 [D4 _] D5 D6 Db [[n D8] _] _ _ _ _ _ _ D15]. pose proof Hok as [P1 P2 [A1 A2 A3] [R1 R2 R3 R4 R5 R6] P5 P6 P7].
  pose proof (zget_Some_range _ _ _ D8) as Hi.
  assert (Hold : forall j q, zget (ps_allocations p) j = Some q -> fst q <> 0 -> fst q <> ptr).
  { intros j q Hq Hq0 Heq. destruct (A2 j q Hq Hq0) as (Hl & _). rewrite Heq in Hl. by eapply D6. }
  eapply process_ok_step; [exact Hok|exact D1|exact D3|exact D15|exact Db|intros b k _ Hb; apply D5; by right| |].
  - constructor; cbn [ps_allocations ps_set_allocations]; [by rewrite zlen_zset| |].
    + intros j q Hq Hq0. rewrite Db. rewrite zget_zset in Hq. destruct (_ && _); [injection Hq as <-; cbn [fst snd]|].
      * split; [apply D5; left; split; reflexivity|]. split; [exact Hz|]. intros Hb. by eapply D6, (hs_live _ _ _ _ P2).
      * destruct (A2 j q Hq Hq0) as (Hl & Hrest). split; [apply D5; by right|exact Hrest].
    + intros j k q r Hq Hr Hq0 Heq. rewrite zget_zset in Hq, Hr.
      destruct (Z.eqb_spec i j) as [Hij|Hij], (Z.eqb_spec i k) as [Hik|Hik]; [congruence| | |by apply (A3 j k q r)].
      * cbn [andb] in Hr. destruct (_ && _) eqn:Ec; [injection Hq as <-|lia]. exfalso. apply (Hold k r); [exact Hr|by rewrite <- Heq|done].
      * cbn [andb] in Hq. destruct (_ && _) eqn:Ec; [injection Hr as <-|lia]. exfalso. by apply (Hold j q).
  - intros b Hb (j & q & Hj & Hq & <- & Hq0). cbn [ps_allocations ps_set_allocations] in Hq. rewrite zget_zset in Hq.
    destruct (_ && _); [injection Hq as <-|].
    + destruct (R3 _ Hb) as [k Hk]. by eapply D6.
    + exact (P5 _ Hb (allocated_intro p _ _ j q Hj Hq eq_refl Hq0)).
Qed.

Lemma malloc_failed_ok s s' a p t e l1 l2 : process_ok s a p t e l1 l2 -> malloc_failed s s' a p t -> process_ok s' a p t e l1 l2.
Proof.
  intros Hok (Hs & Hown & Hp & Ht & _ & Hb & Htb & _). pose proof Hok as [P1 P2 [A1 A2 A3] [R1 R2 R3 R4 R5 R6] P5 P6 P7].
  replace p with (ps_set_allocations (ps_allocations p) p) by (by destruct p).
  eapply process_ok_step; [exact Hok|by destruct p|exact Ht|exact Htb|exact Hb|intros b n _ Hl; by apply Hown| |by destruct p].
  replace (ps_set_allocations (ps_allocations p) p) with p by (by destruct p).
  constructor; [exact A1| |exact A3]. intros j q Hq Hq0. destruct (A2 j q Hq Hq0) as (Hl & Hrest). rewrite Hb.
  split; [by apply Hown|exact Hrest].
Qed.

(** ** Requests leave the rest of the system alone *)

(** The heap outside the allocations of the process has the same owners, and the same bytes
    outside the tables of its address space. *)
Record isolated s s' p p' t : Prop := {
  is_live : forall b n, live (m_heap (sy_mach s')) b n /\ ~ allocated p' KERNEL_MAX_PROGRAM_ALLOCATIONS b <->
    live (m_heap (sy_mach s)) b n /\ ~ allocated p KERNEL_MAX_PROGRAM_ALLOCATIONS b;
  is_mem : forall b n x, live (m_heap (sy_mach s)) b n -> ~ allocated p KERNEL_MAX_PROGRAM_ALLOCATIONS b ->
    b ∉ space_blocks (sy_mem s) (page_directory t) -> b <= x < b + n * KERNEL_HEAP_BLOCK_SIZE -> sy_mem s' x = sy_mem s x;
  is_blocks : space_blocks (sy_mem s') (page_directory t) = space_blocks (sy_mem s) (page_directory t)
}.

Lemma isolated_refl s p t : isolated s s p p t.
Proof. by constructor. Qed.

Lemma isolated_trans s1 s2 s3 p1 p2 p3 t : isolated s1 s2 p1 p2 t -> isolated s2 s3 p2 p3 t -> isolated s1 s3 p1 p3 t.
Proof.
  intros [A1 A2 A3] [B1 B2 B3]. constructor; [intros b n; by rewrite (B1 b n)| |by rewrite B3].
  intros b n x Hl Hn Hb Hx. destruct (proj2 (A1 b n) (conj Hl Hn)) as [Hl2 Hn2].
  rewrite (B2 b n x Hl2 Hn2); [by apply (A2 b n)|by rewrite A3|done].
Qed.

(** The bytes of a run that is not a table. *)
Lemma run_not_table s a p t b n x c :
  has_space s a p t -> live (m_heap (sy_mach s)) b n -> b ∉ space_blocks (sy_mem s) (page_directory t) ->
  b <= x < b + n * KERNEL_HEAP_BLOCK_SIZE -> c ∈ space_blocks (sy_mem s) (page_directory t) -> ~ c <= x < c + 4096.
Proof.
  intros Hs Hl Hb Hx Hc Hcx. unfold KERNEL_HEAP_BLOCK_SIZE in Hx.
  pose proof (block_apart _ _ _ _ _ (hs_heap _ _ _ _ Hs) Hl (hs_live _ _ _ _ Hs _ Hc) ltac:(intros ->; by apply Hb) Hcx). lia.
Qed.

Lemma malloc_isolated s s' a p t e l1 l2 ptr size i :
  process_ok s a p t e l1 l2 -> malloc_done s s' a p t ptr size i ->
  isolated s s' p (ps_set_allocations (zset (ps_allocations p) i (ptr, size)) p) t.
Proof.
  intros Hok [D1 _ _ [D4 _] D5 D6 Db [[n D8] _] _ _ D11 _ _ _ _]. pose proof (zget_Some_range _ _ _ D8) as Hi.
  pose proof (pk_allocations _ _ _ _ _ _ _ Hok) as [A1 A2 A3]. pose proof (pk_space _ _ _ _ _ _ _ Hok) as Hs.
  assert (Hal : forall b, allocated (ps_set_allocations (zset (ps_allocations p) i (ptr, size)) p) KERNEL_MAX_PROGRAM_ALLOCATIONS b <->
    b = ptr \/ allocated p KERNEL_MAX_PROGRAM_ALLOCATIONS b).
  { intros b. split.
    - intros (j & q & Hj & Hq & <- & Hq0). cbn [ps_allocations ps_set_allocations] in Hq. rewrite zget_zset in Hq. destruct (_ && _); [injection Hq as <-; left; reflexivity|]. right.
      exact (allocated_intro p _ _ j q Hj Hq eq_refl Hq0).
    - intros [-> |(j & q & Hj & Hq & <- & Hq0)].
      + eapply (allocated_intro _ _ _ i (ptr, size)); cbn [ps_allocations ps_set_allocations]; [lia|exact (zget_zset_eq _ _ _ Hi)|reflexivity|lia].
      + assert (Hij : i <> j) by (intros ->; rewrite D8 in Hq; injection Hq as <-; exact (Hq0 eq_refl)).
        eapply (allocated_intro _ _ _ j q); cbn [ps_allocations ps_set_allocations]; [exact Hj| |reflexivity|exact Hq0].
        etransitivity; [exact (zget_zset_ne _ _ _ _ Hij)|exact Hq]. }
  constructor; [| |exact Db].
  - intros b k. rewrite (Hal b), (D5 b k). split; [tauto|]. intros [Hl Hn]. split; [by right|]. intros [-> |Ha]; [eapply D6; exact Hl|exact (Hn Ha)].
  - intros b k x Hl Hn Hb Hx. apply D11; [intros c; by eapply run_not_table|].
    assert (Hlp : live (m_heap (sy_mach s')) ptr (blocks_of size)) by (apply D5; left; split; reflexivity).
    assert (Hlb : live (m_heap (sy_mach s')) b k) by (apply D5; by right).
    pose proof (live_apart _ _ _ _ _ (proj1 (hs_heap _ _ _ _ D1)) Hlb Hlp ltac:(intros ->; by eapply D6)) as Ha. unfold apart in Ha. lia.
Qed.

Lemma malloc_failed_isolated s s' a p t : malloc_failed s s' a p t -> isolated s s' p p t.
Proof.
  intros (_ & Hown & _ & _ & _ & Hb & _ & Hm). constructor; [intros b n; by rewrite (Hown b n)| |exact Hb].
  intros b n x Hl _ _ Hx. by apply (Hm b n).
Qed.
(** A release of any address: of an allocation, or of anything else, which is ignored. *)
Lemma free_ok s a p t e l1 l2 ptr :
  process_ok s a p t e l1 l2 ->
  exists s' l, process_free a ptr s = Done tt s' /\ process_ok s' a (ps_set_allocations l p) t e l1 l2 /\
    isolated s s' p (ps_set_allocations l p) t.
Proof.
  intros Hok. pose proof Hok as [P1 P2 [A1 A2 A3] [R1 R2 R3 R4 R5 R6] P5 P6 P7].
  assert (Hsame : process_free a ptr s = Done tt s -> exists s' l, process_free a ptr s = Done tt s' /\
    process_ok s' a (ps_set_allocations l p) t e l1 l2 /\ isolated s s' p (ps_set_allocations l p) t).
  { intros E. exists s, (ps_allocations p). split; [exact E|].
    replace (ps_set_allocations (ps_allocations p) p) with p by (by destruct p). split; [exact Hok|apply isolated_refl]. }
  destruct (Z.eq_dec ptr 0) as [-> |Hp0]; [apply Hsame; unfold process_free; by rewrite orb_true_r|].
  destruct (allocation_loop_spec (ps_allocations p) ptr 0) as [[Ei _]|(Hr & n & Hn)].
  { apply Hsame. unfold process_free. rewrite (proj2 (Z.eqb_neq a 0)), (proj2 (Z.eqb_neq ptr 0)) by done. cbn [orb].
    unfold process_get_allocation_index_by_addr. rewrite bind_assoc, (bind_proc _ _ _ p), bind_ret, Ei by exact (hs_proc _ _ _ _ P2). done. }
  set (i := allocation_loop (ps_allocations p) ptr 0) in *. rewrite Z.sub_0_r in Hn.
  destruct (A2 i _ Hn Hp0) as (Hl & Hz & Hb).
  destruct (process_free_total s a p t ptr n i P2 P1 Hz eq_refl ltac:(lia) Hn Hl Hb) as (s' & E & [F1 F2 F3 F4 _ F6 F7 F8]).
  exists s', (zset (ps_allocations p) i (0, 0)). split; [exact E|].
  assert (Hii : forall j q, zget (ps_allocations p) j = Some q -> fst q = ptr -> j = i).
  { intros j q Hq Heq. apply (A3 j i q (ptr, n)); [exact Hq|exact Hn|rewrite Heq; exact Hp0|exact Heq]. }
  assert (Hall : forall b, allocated (ps_set_allocations (zset (ps_allocations p) i (0, 0)) p) KERNEL_MAX_PROGRAM_ALLOCATIONS b <->
    allocated p KERNEL_MAX_PROGRAM_ALLOCATIONS b /\ b <> ptr).
  { intros b. split.
    - intros (j & q & Hj & Hq & Hqb & Hb0). cbn [ps_allocations ps_set_allocations] in Hq. rewrite zget_zset in Hq. destruct (_ && _) eqn:Ec; [injection Hq as <-; by destruct Hb0|].
      split; [exact (allocated_intro p _ _ j q Hj Hq Hqb Hb0)|]. intros ->.
      rewrite (Hii j q Hq Hqb), Z.eqb_refl in Ec. pose proof (zget_Some_range _ _ _ Hn). lia.
    - intros [(j & q & Hj & Hq & Hqb & Hb0) Hne]. assert (Hij : i <> j).
      { intros <-. apply Hne. rewrite Hn in Hq. injection Hq as <-. symmetry. exact Hqb. }
      eapply (allocated_intro _ _ _ j q); cbn [ps_allocations ps_set_allocations]; [exact Hj| |exact Hqb|exact Hb0].
      etransitivity; [exact (zget_zset_ne _ _ _ _ Hij)|exact Hq]. }
  assert (Hown : allocated p KERNEL_MAX_PROGRAM_ALLOCATIONS ptr).
  { eapply (allocated_intro _ _ _ i (ptr, n)); [unfold zlen in *; lia|exact Hn|reflexivity|exact Hp0]. }
  split.
  2: { constructor; [| |exact F6].
    - intros b k. rewrite (Hall b), (F4 b k). split; [intros [[Hlb Hne] Hnb]; split; [done|]; tauto|].
      intros [Hlb Hnb]. assert (b <> ptr) by (intros ->; exact (Hnb Hown)). tauto.
    - intros b k x Hlb _ Hb' Hx. apply F7. intros c. exact (run_not_table s a p t b k x c P2 Hlb Hb' Hx). }
  eapply process_ok_step; [exact Hok|exact F1|exact F3|exact F8|exact F6| | |].
  - intros b k Hb' Hl'. apply F4. split; [exact Hl'|]. intros ->. exact (P5 _ Hb' Hown).
  - constructor; cbn [ps_allocations ps_set_allocations]; [by rewrite zlen_zset| |].
    + intros j q Hq Hq0. rewrite zget_zset in Hq. destruct (_ && _) eqn:Ec; [injection Hq as <-; by destruct Hq0|].
      destruct (A2 j q Hq Hq0) as (Hlq & Hzq & Hbq). rewrite F6. split; [|split; [exact Hzq|exact Hbq]].
      apply F4. split; [exact Hlq|]. intros Heq. assert (j = i) as -> by exact (A3 j i q (ptr, n) Hq Hn Hq0 Heq).
      rewrite Z.eqb_refl, (proj2 (Z.leb_le 0 i)), (proj2 (Z.ltb_lt i _)) in Ec by lia. done.
    + intros j k q r Hq Hr' Hq0 Heq. rewrite zget_zset in Hq, Hr'.
      destruct (_ && _); [injection Hq as <-; by destruct Hq0|]. destruct (_ && _); [injection Hr' as <-; rewrite Heq in Hq0; by destruct Hq0|].
      exact (A3 j k q r Hq Hr' Hq0 Heq).
  - intros b Hb' H. exact (P5 _ Hb' (proj1 (proj1 (Hall b) H))).
Qed.


(** What a program asks of its memory. *)
Inductive request := Malloc (size : Z) | Free (ptr : Z).

Definition run_request (a : Z) (r : request) : M (system F) Z :=
  match r with Malloc size => process_malloc a size | Free ptr => process_free a ptr;; mret 0 end.

(** All requests, with the results. *)
Fixpoint run_requests (a : Z) (l : list request) : M (system F) (list Z) :=
  match l with
  | [] => mret []
  | r :: l' => v ← run_request a r; vs ← run_requests a l'; mret (v :: vs)
  end.

Definition request_ok (r : request) : Prop := match r with Malloc size => 0 <= size < 4294963200 | Free _ => True end.

Lemma ps_allocations_same p : ps_set_allocations (ps_allocations p) p = p.
Proof. by destruct p. Qed.

Lemma request_total s a p t e l1 l2 r :
  process_ok s a p t e l1 l2 -> request_ok r ->
  exists v s' l, run_request a r s = Done v s' /\ process_ok s' a (ps_set_allocations l p) t e l1 l2 /\
    isolated s s' p (ps_set_allocations l p) t.
Proof.
  intros Hok Hr. destruct r as [size|ptr]; cbn [run_request request_ok] in *.
  - destruct (malloc_total s a p t size (pk_space _ _ _ _ _ _ _ Hok) Hr) as (ptr & s' & E & [(-> & Hf & _)|(i & Hd)]).
    + exists 0, s', (ps_allocations p). rewrite ps_allocations_same. split; [exact E|].
      split; [by eapply malloc_failed_ok|by eapply malloc_failed_isolated].
    + exists ptr, s', (zset (ps_allocations p) i (ptr, size)). split; [exact E|].
      split; [by apply (malloc_ok s)|by eapply malloc_isolated].
  - destruct (free_ok s a p t e l1 l2 ptr Hok) as (s' & l & E & Hok' & Hi). exists 0, s', l.
    rewrite (bind_Done _ _ _ _ _ E). split; [done|]. by split.
Qed.

Lemma requests_total a t e l1 l2 rs : forall s p,
  process_ok s a p t e l1 l2 -> Forall request_ok rs ->
  exists vs s' l, run_requests a rs s = Done vs s' /\ process_ok s' a (ps_set_allocations l p) t e l1 l2 /\
    isolated s s' p (ps_set_allocations l p) t.
Proof.
  induction rs as [|r rs IH]; intros s p Hok Hrs.
  - exists [], s, (ps_allocations p). rewrite ps_allocations_same. split; [done|]. split; [exact Hok|apply isolated_refl].
  - apply Forall_cons in Hrs as [Hr Hrs].
    destruct (request_total s a p t e l1 l2 r Hok Hr) as (v & s1 & l & E & Hok1 & Hi1).
    destruct (IH s1 (ps_set_allocations l p) Hok1 Hrs) as (vs & s2 & l' & E2 & Hok2 & Hi2).
    exists (v :: vs), s2, l'. cbn [run_requests]. rewrite (bind_Done _ _ _ _ _ E), (bind_Done _ _ _ _ _ E2). split; [done|].
    split; [exact Hok2|]. by eapply isolated_trans.
Qed.
End process.

(** ** Properties *)

(** C8: no request for memory breaks a process or its neighbours.  After any sequence of
    [process_malloc] with sizes up to 4 GiB less a page and [process_free] with any
    addresses, which never fault, the process is still in order ([process_ok]); outside its
    allocations the heap has the same owners, and the bytes of all other block runs are the
    same, the page tables of the process apart. *)
Theorem process_requests_isolated {F : Type} {LY : Layout} {FS : Filesystem machine F} {SP : FilesystemSpec machine F}
    {LF : FilesystemLaws machine F} (s : system F) (a : Z) (p : task_struct) (t : thread_info) (e : elf_file)
    (l1 l2 : list Z) (rs : list request) :
  process_ok s a p t e l1 l2 -> Forall request_ok rs ->
  exists vs s' l, run_requests a rs s = Done vs s' /\ process_ok s' a (ps_set_allocations l p) t e l1 l2 /\
    isolated s s' p (ps_set_allocations l p) t.
Proof. apply requests_total. Qed.

(** The program of Exec.v, loaded into slot 1 of the sample system. *)
#[local] Existing Instance one_file_fs.
#[local] Existing Instance one_file_spec.
#[local] Existing Instance one_file_laws.
#[local] Existing Instance one_file_files.
#[local] Existing Instance one_file_reads.
#[local] Existing Instance sample_layout.

Lemma sample_process :
  exists a s p t, process_load (one_file_name ++ replicate 104 0) (sample_system run_elf) = Done (0, a) s /\
    started (sample_system run_elf) s 1 a one_file_name run_elf [] p t /\ a <> 0.
Proof.
  destruct (load_total (SP := one_file_spec) (sample_system run_elf) 1 (one_file_name ++ replicate 104 0) one_file_name
    [[97]] run_elf run_elf []) as (res & a & s' & E & D).
  - apply sample_can_load.
  - apply one_file_name_holds.
  - vm_compute. discriminate.
  - vm_compute. reflexivity.
  - vm_compute. reflexivity.
  - intros bufs _. reflexivity.
  - split; [split; reflexivity|]. apply bytes_range. vm_compute. reflexivity.
  - reflexivity.
  - exact run_elf_ok.
  - vm_compute. reflexivity.
  - apply no_tasks_represents.
  - intros b Hb. by apply elem_of_nil in Hb.
  - vm_compute. discriminate.
  - destruct D as [(-> & _ & _ & Hno)|(-> & Ha & p & t & Hst & _)].
    { destruct Hno. split; [split; [lia|vm_compute; reflexivity]|split; vm_compute; reflexivity]. }
    exists a, s', p, t. split; [exact E|]. split; [exact Hst|lia].
Qed.

Lemma sample_process_ok :
  exists a s p t e, process_load (one_file_name ++ replicate 104 0) (sample_system run_elf) = Done (0, a) s /\
    process_ok s a p t e [] [] /\ ps_argc p = 0 /\ ps_id p = 1 /\ processes s = 12288 :: a :: replicate 10 0.
Proof.
  destruct sample_process as (a & s & p & t & E & Hst & Ha).
  destruct (started_ok _ _ _ _ _ _ _ _ _ Hst Ha) as [e He]; [split; [discriminate|reflexivity]|].
  exists a, s, p, t, e. split; [exact E|]. split; [exact He|]. destruct Hst as [S1 _ (S3 & _ & _ & S2 & _) _ _ _ _ _ _ _ _].
  split; [exact S2|]. split; [exact S3|exact S1].
Qed.

Lemma process_requests_isolated_witness :
  exists a s p t e v vs s' l, process_ok s a p t e [] [] /\
    run_requests a [Malloc 100; Free 5; Malloc 5000] s = Done (v :: vs) s' /\ process_ok s' a (ps_set_allocations l p) t e [] [].
Proof.
  destruct sample_process_ok as (a & s & p & t & e & _ & Hok & _).
  destruct (process_requests_isolated s a p t e [] [] [Malloc 100; Free 5; Malloc 5000] Hok) as (vs & s' & l & E & Hok' & _).
  - apply Forall_cons. split; [split; [discriminate|reflexivity]|]. apply Forall_cons. split; [exact I|].
    apply Forall_cons. split; [split; [discriminate|reflexivity]|]. apply Forall_nil. exact I.
  - destruct vs as [|v vs].
    + exfalso. cbn [run_requests] in E. apply bind_inv in E as (v1 & s1 & _ & E). apply bind_inv in E as (v2 & s2 & _ & E). discriminate E.
    + exists a, s, p, t, e, v, vs, s', l. split; [exact Hok|]. split; [exact E|exact Hok'].
Defined.
