(* ===== verification/Inject.v ===== *)
(** * Arguments of a program: process_inject_argument of kernel/sched.c

    The shell hands over a linked list of [struct command_argument]; the kernel copies every
    word into memory of the new process and records the vector of pointers.  The definitions
    are those of Sched.v; this file follows the list through the heap.  It runs on behalf of
    the new process, on its page directory, where the blocks of the heap are mapped to
    themselves. *)
From S2P Require Import Prelude Heap Kheap CString Paging Pparser Disk Fat16 File Contents Elf Task Sched Exec Process.

Section inject.
Context {F : Type} {LY : Layout} {FS : Filesystem machine F} {SP : FilesystemSpec machine F}
  {LF : FilesystemLaws machine F}.
Implicit Types (s : system F) (p : task_struct) (t : thread_info) (w : list Z).

(** ** Memory of the heap that the user reaches at its own address *)

(** [n] bytes at [x], in the block run [b], which holds no table of the address space. *)
Record held t s (b x n : Z) : Prop := {
  hd_live : exists k, live (m_heap (sy_mach s)) b k /\ b <= x /\ x + n <= b + k * KERNEL_HEAP_BLOCK_SIZE;
  hd_apart : b ∉ space_blocks (sy_mem s) (page_directory t);
  hd_seen : forall y, x <= y < x + n -> user_translate s t y = Some y
}.

(** The bytes [l] stand at [x]. *)
Definition shows t s (b x : Z) (l : list Z) : Prop :=
  held t s b x (zlen l) /\ forall j, 0 <= j < zlen l -> zget l j = Some (sy_mem s (x + j)).

(** The word [v] stands at [x]. *)
Definition shows_word t s (b x v : Z) : Prop := held t s b x 4 /\ ld32 (sy_mem s) x = v.

(** The list of [struct command_argument] at [cur] holds the words [ws], away from the
    block [c].  The links are pointers of the user, 0 at the end. *)
Fixpoint argument_list t s (c cur : Z) (ws : list (list Z)) : Prop :=
  match ws with
  | [] => cur = 0
  | w :: ws' =>
      cur <> 0 /\ Forall (fun ch => 0 < ch < 256) w /\ zlen w < sizeof_command_argument /\
      (exists b, b <> c /\ shows t s b cur (w ++ [0])) /\
      exists b next, b <> c /\ shows_word t s b (cur + sizeof_command_argument) next /\
        user_translate s t next = Some next /\ argument_list t s c next ws'
  end.

(** [b] is an allocation of the process. *)
Definition recorded p (b : Z) : Prop := exists j q, zget (ps_allocations p) j = Some q /\ fst q = b /\ b <> 0.

(** [argv] points to the words [ws], each in an allocation of its own. *)
Definition argument_vector t s p (argv : Z) (ws : list (list Z)) : Prop :=
  forall i w, zget ws i = Some w ->
    exists a, a <> argv /\ recorded p a /\ shows_word t s argv (argv + 4 * i) a /\ shows t s a a (w ++ [0]).

(** The kernel works for process [a], whose thread is [t], on its page directory. *)
Record on_behalf s (a : Z) p t : Prop := {
  ob_space : has_space s a p t;
  ob_current : current_process s = a;
  ob_cr3 : t_cr3 (sy_threads s) = directory_entry (sy_mem s) (page_directory t);
  ob_mem : mem_ok (sy_mem s);
  ob_null : user_translate s t 0 = Some 0
}.

Lemma held_range s a p t b x n : has_space s a p t -> held t s b x n -> 0 < b /\ b <= x /\ x + n <= 2147483648.
Proof.
  intros Hs [(k & Hl & Hb & Hx) _ _]. destruct (kheap_live_range _ _ _ (hs_heap _ _ _ _ Hs) Hl) as (? & ? & _ & ?). lia.
Qed.

(** Blocks of the space and other block runs keep off the run that is held. *)
Lemma held_apart_space s a p t b x n c y :
  has_space s a p t -> held t s b x n -> c ∈ space_blocks (sy_mem s) (page_directory t) -> c <= y < c + 4096 ->
  y < x \/ x + n <= y.
Proof.
  intros Hs [(k & Hl & Hb & Hx) Ha _] Hc Hy. unfold KERNEL_HEAP_BLOCK_SIZE in Hx.
  pose proof (block_apart _ _ _ _ _ (hs_heap _ _ _ _ Hs) Hl (hs_live _ _ _ _ Hs _ Hc) ltac:(intros ->; by apply Ha) Hy). lia.
Qed.

Lemma held_apart s a p t b x n b' x' n' :
  has_space s a p t -> held t s b x n -> held t s b' x' n' -> b <> b' -> x + n <= x' \/ x' + n' <= x.
Proof.
  intros Hs [(k & Hl & Hb & Hx) _ _] [(k' & Hl' & Hb' & Hx') _ _] Hne.
  pose proof (live_apart _ _ _ _ _ (proj1 (hs_heap _ _ _ _ Hs)) Hl Hl' Hne) as H. unfold apart in H. lia.
Qed.

Lemma held_part t s b x n y k : held t s b x n -> x <= y -> y + k <= x + n -> held t s b y k.
Proof. intros [(j & Hl & Hb & Hx) Ha Hse] H1 H2. constructor; [exists j; split; [done|lia]|done|]. intros z Hz. apply Hse. lia. Qed.

(** ** What a step keeps *)

(** From [s] to [s'] all that is held stays held, and keeps its bytes if it is outside the
    block run [c] or ends before [hi]. *)
Definition keeps t (c hi : Z) s s' : Prop :=
  forall b x n, held t s b x n ->
    held t s' b x n /\ (b <> c \/ x + n <= hi -> forall y, x <= y < x + n -> sy_mem s' y = sy_mem s y).

#[local] Instance keeps_preorder t c hi : PreOrder (keeps t c hi).
Proof.
  split; [by intros s b x n H|]. intros s1 s2 s3 H1 H2 b x n H. destruct (H1 b x n H) as [Ha Ma].
  destruct (H2 b x n Ha) as [Hb Mb]. split; [done|]. intros Hc y Hy. by rewrite Mb, Ma.
Qed.

Lemma keeps_less t c hi hi' s s' : keeps t c hi' s s' -> hi <= hi' -> keeps t c hi s s'.
Proof. intros H Hle b x n Hh. destruct (H b x n Hh) as [Ha M]. split; [done|]. intros [Hb|Hb]; apply M; [by left|right; lia]. Qed.

Lemma keeps_shows t c hi s s' b x l :
  keeps t c hi s s' -> shows t s b x l -> b <> c \/ x + zlen l <= hi -> shows t s' b x l.
Proof.
  intros H [Hh Hl] Hc. destruct (H _ _ _ Hh) as [Ha M]. split; [done|]. intros j Hj. rewrite M by (done || lia). by apply Hl.
Qed.

Lemma keeps_word t c hi s s' a p b x v :
  has_space s a p t -> keeps t c hi s s' -> shows_word t s b x v -> b <> c \/ x + 4 <= hi -> shows_word t s' b x v.
Proof.
  intros Hs H [Hh <-] Hc. destruct (H _ _ _ Hh) as [Ha M]. destruct (held_range _ _ _ _ _ _ _ Hs Hh) as (? & ? & ?).
  split; [done|]. apply ld32_ext. intros i Hi. unfold ld8. rewrite u32_small by lia. apply M; [done|lia].
Qed.

(** The pages that translated to themselves still do: a new block run is mapped that way. *)
Definition keeps_identity t s s' : Prop :=
  forall va, 0 <= va < 4294967296 -> user_translate s t va = Some va -> user_translate s' t va = Some va.

Lemma keeps_list t c hi s s' a p cur ws :
  has_space s a p t -> mem_ok (sy_mem s) -> keeps t c hi s s' -> keeps_identity t s s' ->
  argument_list t s c cur ws -> argument_list t s' c cur ws.
Proof.
  intros Hs Hm H Hi. revert cur. induction ws as [|w ws IH]; intros cur; [done|].
  intros (H1 & H2 & H3 & (b & Hb & Hw) & b' & next & Hb' & Hn & Ht & Hr). split; [done|]. split; [done|]. split; [done|]. split.
  - exists b. split; [done|]. eapply keeps_shows; [exact H|exact Hw|by left].
  - exists b', next. split; [done|]. split; [eapply keeps_word; [exact Hs|exact H|exact Hn|by left]|]. split; [|by apply IH].
    apply Hi; [|done]. destruct Hn as [_ <-]. by apply ld32_range.
Qed.

Lemma keeps_vector t s s' a p p' argv ws :
  has_space s a p t -> keeps t argv (argv + 4 * zlen ws) s s' -> (forall b, recorded p b -> recorded p' b) ->
  argument_vector t s p argv ws -> argument_vector t s' p' argv ws.
Proof.
  intros Hs H Hrec Hv i w Hi. destruct (Hv i w Hi) as (c & Hc & Hr & Hw & Hsh). pose proof (zget_Some_range _ _ _ Hi).
  exists c. split; [done|]. split; [by apply Hrec|]. split.
  - eapply keeps_word; [exact Hs|exact H|exact Hw|right; lia].
  - eapply keeps_shows; [exact H|exact Hsh|by left].
Qed.

(** The process stays in order and keeps its allocations. *)
Record evolves s s' (a : Z) p p' t : Prop := {
  ev_ok : forall e l1 l2, process_ok s a p t e l1 l2 -> process_ok s' a p' t e l1 l2;
  ev_recorded : forall b, recorded p b -> recorded p' b
}.

Lemma evolves_trans s1 s2 s3 a p1 p2 p3 t : evolves s1 s2 a p1 p2 t -> evolves s2 s3 a p2 p3 t -> evolves s1 s3 a p1 p3 t.
Proof. intros [A1 A2] [B1 B2]. constructor; auto. Qed.

(** ** Access through the directory of the process *)

Lemma xlate_held s a p t b x n y :
  on_behalf s a p t -> held t s b x n -> x <= y < x + n -> xlate (sy_mem s) (cr3_dir s) y = Some y.
Proof.
  intros Ho Hh Hy. destruct (held_range _ _ _ _ _ _ _ (ob_space _ _ _ _ Ho) Hh) as (? & ? & ?).
  unfold xlate, cr3_dir. rewrite u32_small, (ob_cr3 _ _ _ _ Ho) by lia. by apply (hd_seen _ _ _ _ _ Hh).
Qed.

Lemma vld32_held s a p t b x v :
  on_behalf s a p t -> shows_word t s b x v -> vld32 (sy_mem s) (cr3_dir s) x = Some v.
Proof.
  intros Ho [Hh <-]. unfold vld32, vld8. pose proof (fun y => xlate_held _ _ _ _ _ _ _ y Ho Hh) as Hx.
  by rewrite !Hx by lia.
Qed.

(** Running a function of the threads leaves their copy of the machine behind. *)
Definition settled s : system F := set_sy_tasks (sy_tasks s) s.

Lemma settled_mach s : sy_mach (settled s) = sy_mach s.
Proof. unfold settled, set_sy_tasks. by rewrite sy_mach_set. Qed.

Lemma settled_set_mem (m : mem) s : set_sy_tasks (set_t_mem m (sy_tasks s)) s = settled (set_sy_mem m s).
Proof.
  unfold settled, set_sy_tasks, sy_tasks, set_sy_mem. cbn [t_machine set_t_mem set_t_machine]. unfold set_t_mem.
  cbn [t_machine set_t_machine]. rewrite sy_mach_set. unfold set_threads_of, set_mach. cbn. unfold set_l_vfs. cbn. by rewrite upd_upd.
Qed.

Lemma settled_held t s b x n : held t (settled s) b x n <-> held t s b x n.
Proof. split; intros [H1 H2 H3]; constructor; unfold user_translate, sy_mem in *; by rewrite ?settled_mach in *. Qed.

Lemma settled_keeps t c hi s : keeps t c hi s (settled s).
Proof. intros b x n H. split; [by apply settled_held|]. intros _ y _. unfold sy_mem. by rewrite settled_mach. Qed.

Lemma settled_translate t s va : user_translate (settled s) t va = user_translate s t va.
Proof. unfold user_translate, sy_mem. by rewrite settled_mach. Qed.

Lemma settled_behalf s a p t : on_behalf s a p t -> on_behalf (settled s) a p t.
Proof.
  intros [[H1 H2 H3 H4 H5] C1 C2 C3 C4]. constructor; [constructor|done| | |]; unfold user_translate, sy_mem in *;
    rewrite ?settled_mach; try exact H1; try exact H2; try exact H3; try exact H4; try exact H5; done.
Qed.

Lemma settled_evolves s a p t : on_behalf s a p t -> evolves s (settled s) a p p t.
Proof.
  intros Ho. constructor; [|done]. intros e l1 l2 Hok.
  apply (process_ok_same s); [exact Hok|exact (ob_space _ _ _ _ (settled_behalf _ _ _ _ Ho))| |done| |by rewrite settled_mach].
  - pose proof (pk_list _ _ _ _ _ _ _ Hok) as Hd. apply (dll_ext (sy_threads s)); [exact Hd|done|done|exact (dl_seg _ _ Hd)].
  - unfold sy_mem. by rewrite settled_mach.
Qed.

Lemma next_argument s a p t b cur next :
  on_behalf s a p t -> shows_word t s b (cur + sizeof_command_argument) next -> user_translate s t next = Some next ->
  process_get_next_command_argument cur s = Done next (settled s).
Proof.
  intros Ho Hw Ht. pose proof Ho as [[H1 H2 H3 H4 H5] C1 C2 C3 C4].
  unfold process_get_next_command_argument, process_current. rewrite bind_gets, C1, (bind_proc _ _ _ p) by exact H1.
  unfold load32. rewrite bind_assoc. rewrite (bind_Done _ _ s s s) by done.
  rewrite (bind_expect _ _ _ next) by (by eapply vld32_held).
  assert (Hn : 0 <= next < 4294967296) by (destruct Hw as [_ <-]; by apply ld32_range).
  unfold on_tasks, settled. apply zoom_Done. unfold task_virtual_addr_to_physical.
  rewrite (bind_thread _ _ _ t) by exact H2. rewrite bind_gets.
  change (t_mem (sy_tasks s)) with (sy_mem s). by rewrite (physical_address_eq _ _ next next).
Qed.

Lemma settled_list t s c cur ws : argument_list t s c cur ws -> argument_list t (settled s) c cur ws.
Proof.
  revert cur. induction ws as [|w ws IH]; intros cur; [done|].
  intros (H1 & H2 & H3 & (b & Hb & Hw) & b' & next & Hb' & Hn & Ht & Hr). split; [done|]. split; [done|]. split; [done|].
  assert (E : sy_mem (settled s) = sy_mem s) by (unfold sy_mem; by rewrite settled_mach). split.
  - exists b. split; [done|]. destruct Hw as [Hh Hl]. split; [by apply settled_held|]. by rewrite E.
  - exists b', next. split; [done|]. destruct Hn as [Hh Hv]. split; [split; [by apply settled_held|by rewrite E]|].
    rewrite settled_translate. split; [done|by apply IH].
Qed.

(** The list is counted to its end. *)
Lemma count_loop_spec fuel ws s a p t c cur res :
  on_behalf s a p t -> argument_list t s c cur ws -> (length ws < fuel)%nat ->
  exists s', count_argument_loop fuel cur res s = Done (res + zlen ws) s' /\ (s' = s \/ s' = settled s).
Proof.
  revert fuel s cur res. induction ws as [|w ws IH]; intros fuel s cur res Ho Hl Hf; (destruct fuel as [|fuel]; [simpl in Hf; lia|]).
  - simpl in Hl. subst cur. exists s. change (zlen (@nil (list Z))) with 0. rewrite Z.add_0_r. split; [done|by left].
  - destruct Hl as (Hc & _ & _ & _ & b & next & _ & Hn & Ht & Hr). cbn [count_argument_loop].
    rewrite (proj2 (Z.eqb_neq cur 0)) by done. rewrite (bind_Done _ _ s next (settled s)) by (by eapply next_argument).
    destruct (IH fuel (settled s) next (res + 1) (settled_behalf _ _ _ _ Ho) (settled_list _ _ _ _ _ Hr)) as (s' & E & D); [simpl in Hf; lia|].
    exists s'. rewrite E, zlen_cons. split; [f_equal; lia|]. right. destruct D as [-> | ->]; [done|].
    unfold settled, set_sy_tasks, sy_tasks. cbn [t_machine set_t_machine]. rewrite sy_mach_set.
    unfold set_threads_of, set_mach. cbn. unfold set_l_vfs. cbn. by rewrite upd_upd.
Qed.

(** ** Writing and allocating *)

(** A write inside a run that is held. *)
Lemma write_keeps s a p t b q k (m : mem) :
  on_behalf s a p t -> held t s b q k -> (forall x, x < q \/ q + k <= x -> m x = sy_mem s x) -> mem_ok m ->
  on_behalf (set_sy_mem m s) a p t /\ keeps t b q s (set_sy_mem m s) /\ keeps_identity t s (set_sy_mem m s) /\
  evolves s (set_sy_mem m s) a p p t.
Proof.
  intros [Hs C1 C2 C3 C4] Hh Hm Hok. pose proof Hs as [H1 H2 H3 H4 H5].
  assert (Em : sy_mach (set_sy_mem m s) = set_mem m (sy_mach s)) by (unfold set_sy_mem; by rewrite sy_mach_set).
  destruct (space_agree (sy_mem s) m (page_directory t) H4) as (S1 & S2 & S3 & _ & S5).
  { intros c x Hc Hx. apply Hm. exact (held_apart_space _ _ _ _ _ _ _ _ _ Hs Hh Hc Hx). }
  assert (Htr : forall va, 0 <= va < 4294967296 -> user_translate (set_sy_mem m s) t va = user_translate s t va).
  { intros va Hva. unfold user_translate. rewrite sy_mem_set, S2. by apply S5. }
  assert (Hs' : has_space (set_sy_mem m s) a p t).
  { constructor; rewrite ?Em, ?sy_mem_set; try done. intros c. rewrite S3. apply H5. }
  split; [|split; [|split]].
  - constructor; rewrite ?Htr by lia; try done; [by rewrite sy_mem_set, S2|by rewrite sy_mem_set].
  - intros b' x n Hh'. destruct (held_range _ _ _ _ _ _ _ Hs Hh') as (? & ? & ?). split.
    + destruct Hh' as [L1 L2 L3]. constructor; rewrite ?Em, ?sy_mem_set, ?S3; [done|done|]. intros y Hy. rewrite Htr by lia. by apply L3.
    + intros Hc y Hy. rewrite sy_mem_set. apply Hm. destruct Hc as [Hb|Hc]; [|lia].
      destruct (held_apart _ _ _ _ _ _ _ _ _ _ Hs Hh' Hh Hb); lia.
  - intros va Hva. by rewrite Htr.
  - constructor; [|done]. intros e l1 l2 Hk. apply (process_ok_same s); [exact Hk|exact Hs'|exact (pk_list _ _ _ _ _ _ _ Hk)|done| |by rewrite Em].
    by rewrite sy_mem_set.
Qed.

(** A new allocation of the process. *)
Lemma malloc_keeps s s' a p t ptr size i :
  on_behalf s a p t -> 0 <= size < 4294963200 -> malloc_done s s' a p t ptr size i ->
  on_behalf s' a (ps_set_allocations (zset (ps_allocations p) i (ptr, size)) p) t /\
  held t s' ptr ptr (blocks_of size * KERNEL_HEAP_BLOCK_SIZE) /\
  (forall b x n, held t s b x n -> b <> ptr) /\ (forall c hi, keeps t c hi s s') /\ keeps_identity t s s'.
Proof.
  intros [Hs C1 C2 C3 C4] Hz [D1 D2 D3 [D4 D4'] D5 D6 Db D8 D9 D10 D11 D12 D13 D14 [D15 _]].
  assert (Hid : keeps_identity t s s') by (intros va Hva E; rewrite D10 by done; by destruct (_ && _)).
  assert (Hnew : forall b x n, held t s b x n -> b <> ptr) by (intros b x n [(k & Hk & _) _ _] ->; by eapply D6).
  assert (Hlp : live (m_heap (sy_mach s')) ptr (blocks_of size)) by (apply D5; left; split; reflexivity).
  destruct (kheap_live_range _ _ _ (hs_heap _ _ _ _ D1) Hlp) as (_ & _ & _ & Htop).
  assert (Hh : held t s' ptr ptr (blocks_of size * KERNEL_HEAP_BLOCK_SIZE)).
  { constructor; [exact (ex_intro _ (blocks_of size) (conj Hlp (conj (Z.le_refl _) (Z.le_refl _))))|rewrite Db; intros Hb; exact (D6 _ (hs_live _ _ _ _ Hs _ Hb))|].
    intros y Hy. rewrite D10 by lia. rewrite (proj2 (Z.leb_le ptr y)), (proj2 (Z.ltb_lt y _)) by lia. done. }
  split; [|split; [exact Hh|split; [exact Hnew|split; [|exact Hid]]]].
  - constructor; [exact D1|by rewrite D15|by rewrite D3, D12|by apply D13|by apply Hid].
  - intros c hi b x n Hb. destruct (held_range _ _ _ _ _ _ _ Hs Hb) as (? & ? & ?).
    assert (Hb' : held t s' b x n).
    { destruct Hb as [(k & L0 & L1) L2 L3]. constructor; [exists k; split; [apply D5; by right|done]|by rewrite Db|].
      intros y Hy. apply Hid; [lia|by apply L3]. }
    split; [done|]. intros _ y Hy. apply D11.
    + intros d Hd Hyd. destruct (held_apart_space _ _ _ _ _ _ _ _ _ Hs Hb Hd Hyd); lia.
    + destruct (held_apart _ _ _ _ _ _ _ _ _ _ D1 Hb' Hh (Hnew _ _ _ Hb)); lia.
Qed.

(** Empty slots of the table of allocations. *)
Definition free_slots p : Z := zlen (filter (fun q : process_allocation => fst q = 0) (ps_allocations p)).

Lemma free_slots_set p i n ptr size :
  zget (ps_allocations p) i = Some (0, n) -> ptr <> 0 ->
  free_slots (ps_set_allocations (zset (ps_allocations p) i (ptr, size)) p) = free_slots p - 1.
Proof.
  unfold free_slots. cbn [ps_allocations ps_set_allocations]. generalize (ps_allocations p) as l. unfold zget, zset.
  destruct (0 <=? i); [|done]. intros l Hl Hp. rewrite (insert_take_drop l) by (by eapply lookup_lt_Some).
  rewrite <- (take_drop_middle l _ _ Hl) at 3. rewrite !filter_app, !filter_cons. cbn [fst].
  rewrite decide_False, decide_True by done. rewrite !zlen_app, zlen_cons. lia.
Qed.

Lemma free_slots_some p : 0 < free_slots p -> exists q, q ∈ ps_allocations p /\ fst q = 0.
Proof.
  unfold free_slots. intros H. destruct (filter (fun q : process_allocation => fst q = 0) (ps_allocations p)) as [|q l] eqn:E.
  - change (0 < 0) in H. lia.
  - assert (Hq : q ∈ filter (fun q : process_allocation => fst q = 0) (ps_allocations p)) by (rewrite E; by left).
    apply list_elem_of_filter in Hq as [H1 H2]. by exists q.
Qed.

(** A page for the process, when there is one and a slot for it. *)
Lemma malloc_page s a p t size :
  on_behalf s a p t -> 0 < size <= 4096 -> 0 < free_blocks (m_heap (sy_mach s)) -> 0 < free_slots p ->
  exists ptr s' l, process_malloc a size s = Done ptr s' /\ ptr <> 0 /\ on_behalf s' a (ps_set_allocations l p) t /\
    free_slots (ps_set_allocations l p) = free_slots p - 1 /\
    free_blocks (m_heap (sy_mach s')) = free_blocks (m_heap (sy_mach s)) - 1 /\
    held t s' ptr ptr 4096 /\ (forall x, ptr <= x < ptr + 4096 -> sy_mem s' x = 0) /\
    (forall b x n, held t s b x n -> b <> ptr) /\ (forall c hi, keeps t c hi s s') /\ keeps_identity t s s' /\
    evolves s s' a p (ps_set_allocations l p) t /\ recorded (ps_set_allocations l p) ptr.
Proof.
  intros Ho Hz Hf Hsl. pose proof (blocks_of_page size Hz) as Hb. assert (Hz' : 0 <= size < 4294963200) by lia.
  destruct (malloc_total s a p t size (ob_space _ _ _ _ Ho) Hz') as (ptr & s' & E & [(_ & _ & Hfull)|(i & D)]).
  - exfalso. destruct (free_slots_some p Hsl) as (q & Hq & Hq0). rewrite Hb in Hfull. by apply (Hfull (proj2 (roomy_page _) Hf) q).
  - destruct (malloc_keeps _ _ _ _ _ _ _ _ Ho Hz' D) as (H1 & H2 & H3 & H4 & H5).
    pose proof (md_zero _ _ _ _ _ _ _ _ D) as H6. pose proof (md_free _ _ _ _ _ _ _ _ D) as H7.
    destruct (md_slot _ _ _ _ _ _ _ _ D) as [[n Hn] _]. destruct (md_ptr _ _ _ _ _ _ _ _ D) as [Hp _].
    rewrite Hb in H2, H6, H7. exists ptr, s', (zset (ps_allocations p) i (ptr, size)).
    split; [exact E|]. split; [lia|]. split; [exact H1|]. split; [apply (free_slots_set _ _ n); [exact Hn|lia]|].
    split; [exact H7|]. split; [exact H2|]. split; [exact H6|]. split; [exact H3|]. split; [exact H4|]. split; [exact H5|].
    pose proof (zget_Some_range _ _ _ Hn) as Hi. split; [constructor; [intros e l1 l2 Hk; by apply (malloc_ok s)|]|].
    + intros b (j & q & Hj & Hq & Hb0). exists j, q. cbn [ps_allocations ps_set_allocations]. rewrite zget_zset_ne; [done|].
      intros <-. rewrite Hn in Hj. injection Hj as <-. by apply Hb0.
    + exists i, (ptr, size). cbn [ps_allocations ps_set_allocations]. rewrite zget_zset_eq by done. split; [done|]. split; [done|]. lia.
Qed.

(** ** One argument *)

(** The directory still leads to what is held while a run is being written. *)
Lemma write_xlate s a p t b q k b' x n y (m : mem) :
  on_behalf s a p t -> held t s b q k -> (forall z, z < q \/ q + k <= z -> m z = sy_mem s z) ->
  held t s b' x n -> x <= y < x + n -> xlate m (cr3_dir s) y = Some y.
Proof.
  intros Ho Hh Hm Hh' Hy. pose proof (xlate_held _ _ _ _ _ _ _ _ Ho Hh' Hy) as E. destruct Ho as [Hs C1 C2 C3 C4].
  destruct (space_agree (sy_mem s) m (page_directory t) (hs_space _ _ _ _ Hs)) as (_ & _ & _ & _ & S5).
  { intros c z Hc Hz. apply Hm. exact (held_apart_space _ _ _ _ _ _ _ _ _ Hs Hh Hc Hz). }
  unfold xlate, cr3_dir in *. rewrite C2 in *. by rewrite S5 by apply u32_range.
Qed.

Lemma copy_argument s a p t b cur w q :
  on_behalf s a p t -> shows t s b cur (w ++ [0]) -> b <> q -> held t s q q 4096 ->
  (forall x, q <= x < q + 4096 -> sy_mem s x = 0) -> Forall (fun ch => 0 < ch < 256) w -> zlen w < sizeof_command_argument ->
  exists m, mstrncpy (cr3_dir s) (sy_mem s) q cur sizeof_command_argument = Some m /\ mem_ok m /\
    (forall x, x < q \/ q + 4096 <= x -> m x = sy_mem s x) /\
    forall j, 0 <= j < zlen (w ++ [0]) -> zget (w ++ [0]) j = Some (m (q + j)).
Proof.
  intros Ho [Hh Hl] Hb Hq Hz Hw Hlen. pose proof (ob_space _ _ _ _ Ho) as Hs. pose proof (zlen_nonneg w) as Hw0.
  destruct (held_range _ _ _ _ _ _ _ Hs Hq) as (Hq0 & _ & Hqe). destruct (held_range _ _ _ _ _ _ _ Hs Hh) as (Hb0 & Hc0 & Hce).
  pose proof (held_apart _ _ _ _ _ _ _ _ _ _ Hs Hh Hq Hb) as Hap. unfold sizeof_command_argument in *.
  assert (Hz1 : zlen (w ++ [0]) = zlen w + 1) by (rewrite zlen_app; done). rewrite Hz1 in *.
  assert (Hdst : forall m' j, agrees (sy_mem s) q 4096 m' -> 0 <= j < 4096 -> xlate m' (cr3_dir s) (q + j) = Some (q + j)).
  { intros m' j Ha Hj. exact (write_xlate _ _ _ _ _ _ _ _ _ _ (q + j) m' Ho Hq Ha Hq ltac:(lia)). }
  assert (Hsrc : forall m' j, agrees (sy_mem s) q 4096 m' -> 0 <= j <= zlen w -> vld8 m' (cr3_dir s) (cur + j) = Some (nth_byte w j)).
  { intros m' j Ha Hj. unfold vld8. rewrite (write_xlate _ _ _ _ _ _ _ _ _ _ (cur + j) m' Ho Hq Ha Hh) by lia.
    unfold ld8. rewrite u32_small, (Ha (cur + j)) by lia. specialize (Hl j ltac:(lia)).
    rewrite nth_byte_snoc in Hl by lia. by injection Hl as ->. }
  pose proof (mstrncpy_spec (sy_mem s) (cr3_dir s) q cur 4096 w 512 ltac:(lia) ltac:(lia) Hw Hdst (fun m' j Ha Hj _ => Hsrc m' j Ha Hj)) as E.
  eexists. split; [exact E|]. destruct (decide (w = [])) as [-> |Hne].
  - split; [apply (ob_mem _ _ _ _ Ho)|]. split; [done|]. intros j Hj. change (zlen (@nil Z)) with 0 in Hj.
    assert (j = 0) as -> by lia. rewrite Hz by lia. done.
  - replace (match w with [] => sy_mem s | _ => store_bytes (sy_mem s) q (w ++ [0]) end)
      with (store_bytes (sy_mem s) q (w ++ [0])) by (by destruct w).
    split; [by apply store_bytes_mem_ok, (ob_mem _ _ _ _ Ho)|]. split; [intros x Hx; apply store_bytes_other; lia|].
    intros j Hj. destruct (zget_is_Some (w ++ [0]) j) as [v Hv]; [lia|]. rewrite Hv. f_equal. symmetry.
    apply store_bytes_get; [lia|lia| |done]. apply Forall_app. split; [|repeat constructor; lia].
    eapply Forall_impl; [exact Hw|]. simpl. lia.
Qed.

(** A word stored in a run that is held. *)
Lemma store32_held s a p t b q v :
  on_behalf s a p t -> held t s b q 4 -> 0 <= v < 4294967296 ->
  exists m, store32 q v s = Done tt (set_sy_mem m s) /\ ld32 m q = v /\ mem_ok m /\
    forall x, x < q \/ q + 4 <= x -> m x = sy_mem s x.
Proof.
  intros Ho Hh Hv. destruct (held_range _ _ _ _ _ _ _ (ob_space _ _ _ _ Ho) Hh) as (? & ? & ?).
  exists (st32 (sy_mem s) q v). split; [|split; [|split]].
  - unfold store32. rewrite (bind_Done _ _ s s s) by done.
    rewrite (bind_expect _ _ _ q) by (eapply xlate_held; [exact Ho|exact Hh|lia]). done.
  - apply ld32_st32_same; lia.
  - apply st32_mem_ok, (ob_mem _ _ _ _ Ho).
  - intros x Hx. apply st32_outside; lia.
Qed.

Lemma set_sy_mem_heap (m : mem) s : m_heap (sy_mach (set_sy_mem m s)) = m_heap (sy_mach s).
Proof. unfold set_sy_mem. by rewrite sy_mach_set. Qed.

(** A write to a run that did not exist before is no change of what did. *)
Lemma keeps_fresh t q c hi s s1 s2 :
  (forall b x n, held t s b x n -> b <> q) -> keeps t c hi s s1 -> keeps t q q s1 s2 -> keeps t c hi s s2.
Proof.
  intros Hn H1 H2 b x n H. destruct (H1 _ _ _ H) as [Ha Ma]. destruct (H2 _ _ _ Ha) as [Hb Mb]. split; [done|].
  intros Hc y Hy. rewrite Mb; [by apply Ma|left; by eapply Hn|done].
Qed.

Lemma keeps_identity_trans t s1 s2 s3 : keeps_identity t s1 s2 -> keeps_identity t s2 s3 -> keeps_identity t s1 s3.
Proof. intros H1 H2 va Hva E. by apply H2, H1. Qed.

(** A page of the process with the word [w] in it. *)
Lemma copied_argument s a p t b cur w :
  on_behalf s a p t -> shows t s b cur (w ++ [0]) -> Forall (fun ch => 0 < ch < 256) w -> zlen w < sizeof_command_argument ->
  0 < free_blocks (m_heap (sy_mach s)) -> 0 < free_slots p ->
  exists q s1 m l, process_malloc a (sizeof_command_argument + 1) s = Done q s1 /\ q <> 0 /\
    t_strncpy (cr3_dir s1) q cur sizeof_command_argument (sy_tasks s1) = Done tt (set_t_mem m (sy_tasks s1)) /\
    let s2 := settled (set_sy_mem m s1) in
    on_behalf s2 a (ps_set_allocations l p) t /\ free_slots (ps_set_allocations l p) = free_slots p - 1 /\
    free_blocks (m_heap (sy_mach s2)) = free_blocks (m_heap (sy_mach s)) - 1 /\
    shows t s2 q q (w ++ [0]) /\ (forall b x n, held t s b x n -> b <> q) /\
    (forall c hi, keeps t c hi s s2) /\ keeps_identity t s s2 /\
    evolves s s2 a p (ps_set_allocations l p) t /\ recorded (ps_set_allocations l p) q.
Proof.
  intros Ho Hc Hw Hlen Hf Hsl. assert (Hsz : 0 < sizeof_command_argument + 1 <= 4096) by (unfold sizeof_command_argument; lia).
  destruct (malloc_page s a p t _ Ho Hsz Hf Hsl) as (q & s1 & l & E & Hq0 & Ho1 & Hsl1 & Hf1 & Hq & Hz & Hnew & K1 & I1 & V1 & Hrec).
  pose proof (Hnew _ _ _ (proj1 Hc)) as Hbq.
  assert (Hc1 : shows t s1 b cur (w ++ [0])) by (eapply (keeps_shows t 0 0); [apply K1|exact Hc|]; left;
    destruct (held_range _ _ _ _ _ _ _ (ob_space _ _ _ _ Ho) (proj1 Hc)); lia).
  destruct (copy_argument s1 a _ t b cur w q Ho1 Hc1 Hbq Hq Hz Hw Hlen) as (m & E2 & Hm & Hout & Hby).
  destruct (write_keeps s1 a _ t q q 4096 m Ho1 Hq Hout Hm) as (Ho2 & K2 & I2 & V2).
  exists q, s1, m, l. split; [exact E|]. split; [exact Hq0|]. split.
  { unfold t_strncpy. rewrite bind_gets. change (t_mem (sy_tasks s1)) with (sy_mem s1).
    by rewrite (bind_expect _ _ _ _ E2). }
  intros s2. assert (Em : sy_mem s2 = m) by (unfold s2, sy_mem; rewrite settled_mach; apply sy_mem_set).
  split; [by apply settled_behalf|]. split; [exact Hsl1|]. split; [unfold s2; by rewrite settled_mach, set_sy_mem_heap|].
  split; [|split; [exact Hnew|split; [|split; [|split; [|exact Hrec]]]]].
  - split; [|intros j Hj; rewrite Em; by apply Hby]. unfold s2. apply settled_held. apply K2. eapply held_part; [exact Hq|lia|].
    rewrite zlen_app. change (zlen [0]) with 1. unfold sizeof_command_argument in Hlen. lia.
  - intros c hi. etransitivity; [|apply settled_keeps]. by eapply keeps_fresh; [exact Hnew|apply K1|].
  - eapply keeps_identity_trans; [exact I1|]. intros va Hva Ev. unfold s2. rewrite settled_translate. by apply I2.
  - eapply evolves_trans; [exact V1|]. eapply evolves_trans; [exact V2|by apply settled_evolves].
Qed.

(** One round of the loop. *)
Lemma inject_round fuel argc argv s a p t w cur next b b' i n :
  on_behalf s a p t -> held t s argv argv (4 * n) -> 0 <= i < n ->
  0 < free_blocks (m_heap (sy_mach s)) -> 0 < free_slots p ->
  cur <> 0 -> Forall (fun ch => 0 < ch < 256) w -> zlen w < sizeof_command_argument ->
  shows t s b cur (w ++ [0]) -> b' <> argv -> shows_word t s b' (cur + sizeof_command_argument) next ->
  user_translate s t next = Some next ->
  exists q s' l, inject_loop (S fuel) a argc argv cur i s = inject_loop fuel a argc argv next (i + 1) s' /\
    on_behalf s' a (ps_set_allocations l p) t /\ free_slots (ps_set_allocations l p) = free_slots p - 1 /\
    free_blocks (m_heap (sy_mach s')) = free_blocks (m_heap (sy_mach s)) - 1 /\
    q <> argv /\ shows_word t s' argv (argv + 4 * i) q /\ shows t s' q q (w ++ [0]) /\
    keeps t argv (argv + 4 * i) s s' /\ keeps_identity t s s' /\
    evolves s s' a p (ps_set_allocations l p) t /\ recorded (ps_set_allocations l p) q.
Proof.
  intros Ho Hv Hi Hf Hsl Hcur Hw Hlen Hsh Hb' Hn Ht. pose proof (ob_space _ _ _ _ Ho) as Hs.
  destruct (copied_argument s a p t b cur w Ho Hsh Hw Hlen Hf Hsl) as
    (q & s1 & m & l & E1 & Hq0 & E2 & Ho2 & Hsl2 & Hf2 & Hq & Hnew & K2 & I2 & V2 & Hrec).
  set (s2 := settled (set_sy_mem m s1)) in *.
  assert (Hslot : held t s2 argv (argv + 4 * i) 4) by (eapply held_part; [exact (proj1 (K2 0 0 _ _ _ Hv))|lia|lia]).
  destruct (held_range _ _ _ _ _ _ _ (ob_space _ _ _ _ Ho2) (proj1 Hq)) as (Hqp & _ & Hqe).
  pose proof (zlen_nonneg (w ++ [0])) as Hwl.
  destruct (store32_held s2 a _ t argv (argv + 4 * i) q Ho2 Hslot ltac:(lia)) as (m3 & E3 & Ev & Hm3 & Hout).
  destruct (write_keeps s2 a _ t argv (argv + 4 * i) 4 m3 Ho2 Hslot Hout Hm3) as (Ho3 & K3 & I3 & V3).
  set (s3 := set_sy_mem m3 s2) in *.
  assert (K : keeps t argv (argv + 4 * i) s s3) by (etransitivity; [apply K2|exact K3]).
  assert (I : keeps_identity t s s3) by (by eapply keeps_identity_trans).
  assert (Hnr : 0 <= next < 4294967296) by (destruct Hn as [_ <-]; by apply ld32_range, (ob_mem _ _ _ _ Ho)).
  exists q, (settled s3), l. assert (Hqa : argv <> q) by exact (Hnew _ _ _ Hv).
  split; [|split; [by apply settled_behalf|split; [done|split; [by unfold s3; rewrite settled_mach, set_sy_mem_heap|split; [done|]]]]].
  - cbn [inject_loop]. rewrite (proj2 (Z.eqb_neq cur 0)) by done. rewrite (bind_Done _ _ _ _ _ E1), (proj2 (Z.eqb_neq q 0)) by done.
    rewrite (bind_Done _ _ s1 s1 s1) by done. rewrite (bind_tasks _ _ _ _ _ E2), settled_set_mem. fold s2.
    rewrite (bind_Done _ _ _ _ _ E3). fold s3. rewrite (bind_Done _ _ s3 next (settled s3)); [done|].
    eapply next_argument; [exact Ho3| |by apply I]. eapply keeps_word; [exact Hs|exact K|exact Hn|by left].
  - split; [|split; [|split; [|split; [|split; [|exact Hrec]]]]].
    + split; [apply settled_held, (K3 _ _ _ Hslot)|]. unfold sy_mem. rewrite settled_mach. fold (sy_mem s3). unfold s3. by rewrite sy_mem_set.
    + eapply (keeps_shows t argv (argv + 4 * i)); [apply settled_keeps| |by left]. eapply keeps_shows; [exact K3|exact Hq|by left].
    + etransitivity; [exact K|apply settled_keeps].
    + intros va Hva Et. rewrite settled_translate. by apply I.
    + eapply evolves_trans; [exact V2|]. eapply evolves_trans; [exact V3|by apply settled_evolves].
Qed.

Lemma argument_vector_snoc t s p argv ws w q :
  argument_vector t s p argv ws -> q <> argv -> recorded p q -> shows_word t s argv (argv + 4 * zlen ws) q -> shows t s q q (w ++ [0]) ->
  argument_vector t s p argv (ws ++ [w]).
Proof.
  intros Hv Hq Hr Hw Hs i v Hi. apply zget_snoc in Hi as [Hi|[-> ->]]; [by apply Hv|]. by exists q.
Qed.

(** The loop copies the rest of the list behind the words already copied. *)
Lemma inject_loop_spec fuel argc argv a t ws : forall s p past cur,
  on_behalf s a p t -> held t s argv argv (4 * (zlen past + zlen ws)) ->
  argument_vector t s p argv past -> argument_list t s argv cur ws ->
  zlen ws <= free_blocks (m_heap (sy_mach s)) -> zlen ws <= free_slots p -> (length ws < fuel)%nat ->
  exists s' l, inject_loop fuel a argc argv cur (zlen past) s = Done 0 s' /\
    on_behalf s' a (ps_set_argument argc argv (ps_set_allocations l p)) t /\
    argument_vector t s' (ps_set_allocations l p) argv (past ++ ws) /\ keeps t argv (argv + 4 * zlen past) s s' /\
    evolves s s' a p (ps_set_argument argc argv (ps_set_allocations l p)) t /\
    free_blocks (m_heap (sy_mach s')) = free_blocks (m_heap (sy_mach s)) - zlen ws.
Proof.
  revert fuel. induction ws as [|w ws IH]; intros fuel s p past cur Ho Hv Hp Hl Hf Hsl Hfu;
    (destruct fuel as [|fuel]; [simpl in Hfu; lia|]).
  - simpl in Hl. subst cur. pose proof Ho as [[H1 H2 H3 H4 H5] C1 C2 C3 C4]. exists (put_proc a (ps_set_argument argc argv p) s), (ps_allocations p).
    cbn [inject_loop]. change (0 =? 0) with true. cbv iota. rewrite (bind_upd _ _ _ _ p) by exact H1. split; [done|].
    rewrite app_nil_r. change (zlen (@nil (list Z))) with 0. rewrite Z.sub_0_r.
    assert (K : forall c hi, keeps t c hi s (put_proc a (ps_set_argument argc argv p) s)).
    { intros c hi b x n Hh. split; [|done]. by destruct Hh; constructor. }
    rewrite ps_allocations_same.
    assert (Hs' : has_space (put_proc a (ps_set_argument argc argv p) s) a (ps_set_argument argc argv p) t).
    { constructor; [apply lookup_insert_eq|exact H2|exact H3|exact H4|exact H5]. }
    split; [|split; [eapply keeps_vector; [exact (ob_space _ _ _ _ Ho)|apply K|done|exact Hp]|split; [apply K|split; [|done]]]].
    + constructor; [exact Hs'|done|exact C2|exact C3|exact C4].
    + constructor; [|done]. intros e l1 l2 [P1 P2 [A1 A2 A3] [R1 R2 R3 R4 R5 R6] P5 P6 P7].
      constructor; [exact P1|exact Hs'|by constructor|by constructor|exact P5|exact P6|exact P7].
  - destruct Hl as (Hcur & Hw & Hlen & (b & Hb & Hsh) & b' & next & Hb' & Hn & Ht & Hr).
    rewrite zlen_cons in Hv, Hf, Hsl |- *. pose proof (zlen_nonneg ws). pose proof (zlen_nonneg past).
    destruct (inject_round fuel argc argv s a p t w cur next b b' (zlen past) _ Ho Hv ltac:(lia) ltac:(lia) ltac:(lia)
      Hcur Hw Hlen Hsh Hb' Hn Ht) as (q & s1 & l & E & Ho1 & Hsl1 & Hf1 & Hq & Hqw & Hqs & K & I & V & Hrec).
    assert (Hz : zlen (past ++ [w]) = zlen past + 1) by (by rewrite zlen_app).
    destruct (IH fuel s1 (ps_set_allocations l p) (past ++ [w]) next Ho1) as (s' & l' & E' & Ho' & Hv' & K' & V' & Hf'); try lia.
    + rewrite Hz. replace (zlen past + 1 + zlen ws) with (zlen past + (1 + zlen ws)) by lia. apply (K _ _ _ Hv).
    + eapply argument_vector_snoc; [|exact Hq|exact Hrec|exact Hqw|exact Hqs].
      eapply keeps_vector; [exact (ob_space _ _ _ _ Ho)|exact K|exact (ev_recorded _ _ _ _ _ _ V)|exact Hp].
    + eapply keeps_list; [exact (ob_space _ _ _ _ Ho)|exact (ob_mem _ _ _ _ Ho)|exact K|exact I|exact Hr].
    + simpl in Hfu. lia.
    + exists s', l'. rewrite E. rewrite Hz in E'. split; [exact E'|]. split; [exact Ho'|].
      split; [by rewrite <- app_assoc in Hv'|]. split; [|split; [exact (evolves_trans _ _ _ _ _ _ _ _ V V')|lia]].
      etransitivity; [exact K|]. eapply keeps_less; [exact K'|lia].
Qed.

(** The whole call. *)
Lemma inject_total s a p t root ws fuel :
  on_behalf s a p t -> argument_list t s 0 root ws -> 0 < zlen ws <= 1024 ->
  zlen ws < free_blocks (m_heap (sy_mach s)) -> zlen ws < free_slots p -> (length ws < fuel)%nat ->
  exists argv s' l, process_inject_argument fuel a root s = Done 0 s' /\
    on_behalf s' a (ps_set_argument (zlen ws) argv (ps_set_allocations l p)) t /\
    argument_vector t s' (ps_set_allocations l p) argv ws /\ (forall b x l', shows t s b x l' -> shows t s' b x l') /\
    evolves s s' a p (ps_set_argument (zlen ws) argv (ps_set_allocations l p)) t /\
    free_blocks (m_heap (sy_mach s')) = free_blocks (m_heap (sy_mach s)) - (1 + zlen ws).
Proof.
  intros Ho Hl Hn Hf Hsl Hfu. destruct (count_loop_spec fuel ws s a p t 0 root 0 Ho Hl Hfu) as (s0 & E0 & D).
  assert (H0 : on_behalf s0 a p t /\ argument_list t s0 0 root ws /\ m_heap (sy_mach s0) = m_heap (sy_mach s) /\
    (forall c hi, keeps t c hi s s0) /\ evolves s s0 a p p t).
  { destruct D as [-> | ->]; [by split; [|split; [|split; [|split; [intros c hi; reflexivity|by constructor]]]]|].
    split; [by apply settled_behalf|]. split; [by apply settled_list|]. split; [by rewrite settled_mach|].
    split; [intros; apply settled_keeps|by apply settled_evolves]. }
  destruct H0 as (Ho0 & Hl0 & Hh0 & K0 & V0). assert (Hsz : 0 < u32 (4 * zlen ws) <= 4096) by (rewrite u32_small; lia).
  destruct (malloc_page s0 a p t _ Ho0 Hsz) as (argv & s1 & l & E1 & Hv0 & Ho1 & Hsl1 & Hf1 & Hv & _ & Hnew & K1 & I1 & V1 & _);
    [rewrite Hh0; lia|lia|]. rewrite Hh0 in Hf1.
  destruct (inject_loop_spec fuel (zlen ws) argv a t ws s1 (ps_set_allocations l p) [] root Ho1)
    as (s' & l' & E & Ho' & Hv' & K & V & Hf'); [|intros i w Hi; by apply zget_Some_range in Hi as [? ?%Z.le_ngt]| |lia|lia|done|].
  - change (zlen (@nil (list Z))) with 0. eapply held_part; [exact Hv|lia|lia].
  - eapply (keeps_list t argv 0); [exact (ob_space _ _ _ _ Ho0)|exact (ob_mem _ _ _ _ Ho0)|apply K1|exact I1|].
    clear -Hl0 Hnew. revert root Hl0. induction ws as [|w ws IH]; intros root; [done|].
    intros (H1 & H2 & H3 & (b & _ & Hw) & b' & next & _ & Hnx & Ht & Hr). split; [done|]. split; [done|]. split; [done|].
    split; [exists b; split; [by eapply Hnew, (proj1 Hw)|done]|]. exists b', next. split; [by eapply Hnew, (proj1 Hnx)|].
    split; [done|]. split; [done|by apply IH].
  - exists argv, s', l'. split; [|split; [exact Ho'|split; [exact Hv'|split; [|split; [|lia]]]]].
    + unfold process_inject_argument, process_count_command_argument. rewrite (bind_Done _ _ _ _ _ E0), Z.add_0_l.
      rewrite (proj2 (Z.eqb_neq (zlen ws) 0)), (bind_Done _ _ _ _ _ E1), (proj2 (Z.eqb_neq argv 0)) by (done || lia). exact E.
    + intros b x l2 Hs2. assert (Hs0 : shows t s0 b x l2).
      { eapply (keeps_shows t (b + 1) 0); [apply K0|exact Hs2|left; lia]. }
      assert (Hb : b <> argv) by exact (Hnew _ _ _ (proj1 Hs0)).
      eapply keeps_shows; [exact K| |by left]. eapply (keeps_shows t (b + 1) 0); [apply K1|exact Hs0|left; lia].
    + eapply evolves_trans; [exact V0|]. exact (evolves_trans _ _ _ _ _ _ _ _ V1 V).
Qed.
End inject.

(** ** Properties *)

#[local] Existing Instance one_file_fs.
#[local] Existing Instance one_file_spec.
#[local] Existing Instance one_file_laws.
#[local] Existing Instance sample_layout.

(** C6: the arguments of a program arrive.  The kernel works for the new process on its page
    directory and is given a linked list of one to 1024 words; with a free block of the heap
    and a free slot of the process for each word and one more, [process_inject_argument]
    returns 0, the process has as many arguments as the list has words, its argument vector
    points to those words, zero-terminated and in order, at addresses the program itself can
    use; nothing that the program could see in its blocks of the heap has changed, and a
    process that was in order ([process_ok]) still is. *)
Theorem process_inject_argument_spec {F : Type} {LY : Layout} {FS : Filesystem machine F} {SP : FilesystemSpec machine F}
    {LF : FilesystemLaws machine F} (s : system F) (a : Z) (p : task_struct) (t : thread_info) (root : Z)
    (ws : list (list Z)) (fuel : nat) :
  on_behalf s a p t -> argument_list t s 0 root ws -> 0 < zlen ws <= 1024 ->
  zlen ws < free_blocks (m_heap (sy_mach s)) -> zlen ws < free_slots p -> (length ws < fuel)%nat ->
  exists argv s' p', process_inject_argument fuel a root s = Done 0 s' /\
    process_get_argument a s' = Done (zlen ws, argv) s' /\ argument_vector t s' p' argv ws /\
    (forall b x l, shows t s b x l -> shows t s' b x l) /\
    forall e l1 l2, process_ok s a p t e l1 l2 -> process_ok s' a p' t e l1 l2.
Proof.
  intros Ho Hl Hn Hf Hsl Hfu. destruct (inject_total s a p t root ws fuel Ho Hl Hn Hf Hsl Hfu) as (argv & s' & l & E & Ho' & Hv & K & V & _).
  exists argv, s', (ps_set_argument (zlen ws) argv (ps_set_allocations l p)).
  split; [exact E|]. split; [|split; [exact Hv|split; [exact K|exact (ev_ok _ _ _ _ _ _ V)]]].
  unfold process_get_argument. by rewrite (bind_proc _ _ _ _ (hs_proc _ _ _ _ (ob_space _ _ _ _ Ho'))).
Qed.

(** A process on a fresh address space, on whose behalf the kernel works. *)
Definition argument_system (chunk : Z) (m : machine) : system one_file :=
  set_threads_of (set_cr3 (directory_entry (m_mem m) chunk) (sy_threads (hi_system chunk m))) (hi_system chunk m).

Lemma argument_setup :
  exists chunk m, on_behalf (argument_system chunk m) 12288 hi_proc (mk_thread_info chunk zero_registers 0 0 0) /\
    free_blocks (m_heap (sy_mach (argument_system chunk m))) = 24574.
Proof.
  destruct hi_chunk as (chunk & m & _ & Hok & Hm & Hsp & Hfree & Htr & Hl & _). exists chunk, m.
  assert (Em : sy_mach (argument_system chunk m) = m).
  { change (sy_mach (hi_system chunk m) = m). unfold hi_system. apply sy_mach_set. }
  rewrite Em. split; [|exact Hfree]. constructor; unfold user_translate, sy_mem; rewrite ?Em.
  - constructor; unfold sy_mem; rewrite ?Em; [apply lookup_singleton_eq|apply lookup_singleton_eq|exact Hok|exact Hsp|exact Hl].
  - reflexivity.
  - reflexivity.
  - exact Hm.
  - apply Htr. lia.
Qed.

(** The list with the one word "hi", in a page the process has asked for. *)
Lemma hi_list :
  exists s l t root, on_behalf s 12288 (ps_set_allocations l hi_proc) t /\ argument_list t s 0 root [[104; 105]] /\
    1 < free_blocks (m_heap (sy_mach s)) /\ 1 < free_slots (ps_set_allocations l hi_proc).
Proof.
  destruct argument_setup as (chunk & m & Ho & Hf). set (t := mk_thread_info chunk zero_registers 0 0 0) in *.
  assert (Hsl : free_slots hi_proc = 1024) by (vm_compute; reflexivity).
  assert (Hf0 : 0 < free_blocks (m_heap (sy_mach (argument_system chunk m)))) by (rewrite Hf; reflexivity).
  assert (Hsl0 : 0 < free_slots hi_proc) by (rewrite Hsl; reflexivity).
  assert (Hsz : 0 < 516 <= 4096) by lia.
  destruct (malloc_page _ _ _ _ 516 Ho Hsz Hf0 Hsl0) as (q & s1 & l & _ & Hq0 & Ho1 & Hsl1 & Hf1 & Hq & Hz & _).
  rewrite Hsl in Hsl1. rewrite Hf in Hf1.
  destruct (held_range _ _ _ _ _ _ _ (ob_space _ _ _ _ Ho1) Hq) as (Hqp & _ & Hqe).
  pose proof (held_part t s1 q q 4096 q 2 Hq ltac:(lia) ltac:(lia)) as Hq2.
  assert (Hout : forall x, x < q \/ q + 2 <= x -> store_bytes (sy_mem s1) q [104; 105] x = sy_mem s1 x).
  { intros x Hx. apply store_bytes_other; change (zlen [104; 105]) with 2; lia. }
  destruct (write_keeps s1 12288 _ t q q 2 _ Ho1 Hq2 Hout (store_bytes_mem_ok _ _ _ (ob_mem _ _ _ _ Ho1))) as (Ho2 & K & _).
  set (s2 := set_sy_mem (store_bytes (sy_mem s1) q [104; 105]) s1) in *.
  pose proof (proj1 (K q q 4096 Hq)) as Hq'.
  assert (E2 : sy_mem s2 = store_bytes (sy_mem s1) q [104; 105]) by apply sy_mem_set.
  exists s2, l, t, q. split; [exact Ho2|]. split; [|split; [|rewrite Hsl1; reflexivity]].
  2: { unfold s2. rewrite set_sy_mem_heap, Hf1. reflexivity. }
  split; [lia|]. split; [repeat constructor|]. split; [reflexivity|]. split.
  - exists q. split; [lia|]. split; [apply (held_part t s2 q q 4096 q 3 Hq'); lia|].
    intros j Hj. change (zlen ([104; 105] ++ [0])) with 3 in Hj. rewrite E2.
    assert (j = 0 \/ j = 1 \/ j = 2) as [-> |[-> | ->]] by lia.
    + rewrite (store_bytes_get _ _ _ 0 104); [reflexivity|lia|change (zlen [104; 105]) with 2; lia|repeat constructor; lia|reflexivity].
    + rewrite (store_bytes_get _ _ _ 1 105); [reflexivity|lia|change (zlen [104; 105]) with 2; lia|repeat constructor; lia|reflexivity].
    + rewrite Hout, Hz by lia. reflexivity.
  - exists q, 0. split; [lia|]. split; [split|split; [apply (ob_null _ _ _ _ Ho2)|reflexivity]].
    + apply (held_part t s2 q q 4096 _ 4 Hq'); unfold sizeof_command_argument; lia.
    + rewrite E2. unfold ld32, ld8, sizeof_command_argument. rewrite !u32_small, !Hout, !Hz by lia. reflexivity.
Qed.

Lemma process_inject_argument_spec_witness :
  exists (s : system one_file) root argv s' p' t, process_inject_argument 2 12288 root s = Done 0 s' /\
    process_get_argument 12288 s' = Done (1, argv) s' /\ argument_vector t s' p' argv [[104; 105]].
Proof.
  destruct hi_list as (s & l & t & root & Ho & Hl & Hf & Hsl).
  destruct (process_inject_argument_spec s 12288 _ t root [[104; 105]] 2 Ho Hl) as (argv & s' & p' & E & Eg & Hv & _).
  - split; [reflexivity|discriminate].
  - exact Hf.
  - exact Hsl.
  - simpl. lia.
  - exists s, root, argv, s', p', t. split; [exact E|]. split; [exact Eg|exact Hv].
Defined.
