(* ===== verification/Terminate.v ===== *)
(** * The end of a process: process_terminate of kernel/sched.c

    The definitions are those of Sched.v.  A running process owns its allocations, the
    program image with its ELF record, its stack, its thread and the page tables of the
    thread; [process_terminate] gives back all of them, takes the thread out of the list and
    clears the process's slot.  It also releases whatever the argument vector names, which is
    in memory that the program can write ([argument], [releasable]). *)
From S2P Require Import Prelude Heap Kheap CString Paging Pparser Disk Fat16 File Contents Elf Task Sched Exec Process Inject.

Section terminate.
Context {F : Type} {LY : Layout} {FS : Filesystem machine F} {SP : FilesystemSpec machine F}
  {LF : FilesystemLaws machine F}.
Implicit Types (s : system F) (p : task_struct) (t : thread_info).

(** ** The allocations *)

(** Since [s] the first [i] allocations of [p] have been given back; the process at [a] is
    now [p']. *)
Record given_back s s' (a : Z) p p' t (i : Z) : Prop := {
  gb_space : has_space s' a p' t;
  gb_process : exists l, p' = ps_set_allocations l p /\ zlen l = zlen (ps_allocations p) /\
    (forall j q, 0 <= j < i -> zget l j = Some q -> fst q = 0) /\
    forall j, i <= j -> zget l j = zget (ps_allocations p) j;
  gb_procs : sy_procs s' = <[a := p']> (sy_procs s);
  gb_threads : sy_threads s' = sy_threads s;
  gb_live : forall b n, live (m_heap (sy_mach s')) b n <-> live (m_heap (sy_mach s)) b n /\ ~ allocated p i b;
  gb_blocks : space_blocks (sy_mem s') (page_directory t) = space_blocks (sy_mem s) (page_directory t);
  gb_frame : forall x, (forall b, b ∈ space_blocks (sy_mem s) (page_directory t) -> ~ b <= x < b + 4096) -> sy_mem s' x = sy_mem s x;
  gb_tables : same_tables s s'
}.

Lemma given_back_0 s a p t : has_space s a p t -> given_back s s a p p t 0.
Proof.
  intros Hs. constructor; [exact Hs| |symmetry; exact (insert_id _ _ _ (hs_proc _ _ _ _ Hs))|reflexivity| |reflexivity|reflexivity|repeat split].
  - exists (ps_allocations p). split; [by destruct p|]. split; [reflexivity|]. split; [intros; lia|reflexivity].
  - intros b n. split; [|tauto]. intros H. split; [exact H|]. intros (j & q & Hj & _). lia.
Qed.

(** One entry of the table. *)
Lemma give_back_step s s1 a p p1 t i q :
  a <> 0 -> allocations_ok s p t -> given_back s s1 a p p1 t i -> 0 <= i -> zget (ps_allocations p) i = Some q ->
  exists s2 p2, process_free a (fst q) s1 = Done tt s2 /\ given_back s s2 a p p2 t (i + 1).
Proof.
  intros Ha Hac [G1 (l & -> & Hlen & Hlo & Hhi) G3 G4 G5 G6 G7 (R1 & R2 & R3 & R4)] Hi Hq. unfold process_free.
  destruct (Z.eq_dec (fst q) 0) as [Hq0|Hq0].
  - rewrite Hq0. change (0 =? 0) with true. rewrite orb_true_r. exists s1, (ps_set_allocations l p). split; [reflexivity|].
    constructor; [exact G1| |exact G3|exact G4| |exact G6|exact G7|exact (conj R1 (conj R2 (conj R3 R4)))].
    + exists l. split; [reflexivity|]. split; [exact Hlen|]. split; [|intros j Hj; apply Hhi; lia].
      intros j r Hj Hr. destruct (Z.eq_dec j i) as [-> |Hne]; [|apply (Hlo j); [lia|exact Hr]].
      rewrite Hhi in Hr by lia. congruence.
    + intros b n. rewrite (G5 b n). apply and_iff_compat_l. split; intros H (j & r & Hj & Hr & Hb & Hb0); apply H.
      * eapply (allocated_intro _ _ _ j r); [|exact Hr|exact Hb|exact Hb0]. destruct (Z.eq_dec j i) as [-> |]; [congruence|lia].
      * eapply (allocated_intro _ _ _ j r); [lia|exact Hr|exact Hb|exact Hb0].
  - fold (process_free (F := F) (FS := FS) a (fst q)). destruct (ac_live _ _ _ Hac i q Hq Hq0) as (Hlq & Hsz & Hnb).
    destruct (process_free_total s1 a _ t (fst q) (snd q) i G1 Ha Hsz) as (s2 & E & [F1 F2 F3 F4 F5 F6 F7 (F8 & F9 & F10 & F11)]);
      cbn [ps_allocations ps_set_allocations].
    + apply (allocation_index _ _ (snd q)); [done|rewrite Hhi, Hq by lia; by destruct q|]. intros j r Hr Hrq.
      destruct (Z.lt_ge_cases j i) as [Hj|Hj].
      * pose proof (zget_Some_range _ _ _ Hr). assert (fst r = 0) by (apply (Hlo j r); [lia|done]). congruence.
      * rewrite Hhi in Hr by done. apply (ac_distinct _ _ _ Hac j i r q); [done|done|by rewrite Hrq|done].
    + lia.
    + rewrite Hhi, Hq by lia. by destruct q.
    + apply G5. split; [done|]. intros (j & r & Hj & Hr & Hrq & _). assert (j = i); [|lia]. apply (ac_distinct _ _ _ Hac j i r q); [done|done|by rewrite Hrq|done].
    + by rewrite G6.
    + exists s2. eexists. split; [exact E|]. constructor; [exact F1| |by rewrite F2, G3, insert_insert_eq|by rewrite F3| |by rewrite F6| |].
      * cbn [ps_allocations ps_set_allocations]. exists (zset l i (0, 0)). split; [done|]. split; [by rewrite zlen_zset|]. split.
        -- intros j r Hj Hr. rewrite zget_zset in Hr. destruct (_ && _) eqn:Ec; [by injection Hr as <-|].
           apply (Hlo j); [|done]. destruct (Z.eq_dec j i) as [-> |]; [|lia].
           rewrite Z.eqb_refl, (proj2 (Z.leb_le 0 i)) in Ec by lia. pose proof (zget_Some_range _ _ _ Hr). lia.
        -- intros j Hj. rewrite zget_zset_ne by lia. apply Hhi. lia.
      * intros b n. rewrite (F4 b n), (G5 b n). split.
        -- intros [[H1 H2] H3]. split; [exact H1|]. intros (j & r & Hj & Hr & Hb & Hb0). destruct (Z.eq_dec j i) as [-> |]; [congruence|].
           apply H2. eapply (allocated_intro _ _ _ j r); [lia|exact Hr|exact Hb|exact Hb0].
        -- intros [H1 H2]. split; [split; [exact H1|]|].
           ++ intros (j & r & Hj & Hr & Hb & Hb0). apply H2. eapply (allocated_intro _ _ _ j r); [lia|exact Hr|exact Hb|exact Hb0].
           ++ intros ->. apply H2. eapply (allocated_intro _ _ _ i q); [lia|exact Hq|reflexivity|exact Hq0].
      * intros x Hx. rewrite F7; [by apply G7|]. by rewrite G6.
      * repeat split; [rewrite F8; exact R1|rewrite F9; exact R2|rewrite F10; exact R3|rewrite F11; exact R4].
Qed.

Lemma give_back_loop n s a p t : forall s1 p1 i,
  a <> 0 -> allocations_ok s p t -> given_back s s1 a p p1 t i -> 0 <= i -> i + Z.of_nat n = KERNEL_MAX_PROGRAM_ALLOCATIONS ->
  exists s2 p2, terminate_allocations_loop n a i s1 = Done tt s2 /\ given_back s s2 a p p2 t KERNEL_MAX_PROGRAM_ALLOCATIONS.
Proof.
  induction n as [|n IH]; intros s1 p1 i Ha Hac Hg Hi Hn.
  - exists s1, p1. split; [done|]. by replace KERNEL_MAX_PROGRAM_ALLOCATIONS with i by lia.
  - cbn [terminate_allocations_loop]. rewrite (proj2 (Z.ltb_lt i _)) by lia.
    rewrite (bind_proc _ _ _ _ (hs_proc _ _ _ _ (gb_space _ _ _ _ _ _ _ Hg))).
    destruct (zget_is_Some (ps_allocations p) i) as [q Hq]; [rewrite (ac_length _ _ _ Hac); lia|].
    destruct (gb_process _ _ _ _ _ _ _ Hg) as (l & Ep & _ & _ & Hhi).
    rewrite (bind_expect _ _ _ q) by (rewrite Ep; cbn [ps_allocations ps_set_allocations]; by rewrite Hhi by lia).
    destruct (give_back_step s s1 a p p1 t i q Ha Hac Hg Hi Hq) as (s2 & p2 & E & Hg2). rewrite (bind_Done _ _ _ _ _ E).
    apply (IH s2 p2); [done|done|done|lia|lia].
Qed.

(** ** The other resources *)

(** [m] is the memory of [s] outside the page tables of the thread. *)
Definition outside_tables s t (m : mem) : Prop :=
  forall x, (forall b, b ∈ space_blocks (sy_mem s) (page_directory t) -> ~ b <= x < b + 4096) -> m x = sy_mem s x.

(** [b] is an argument of the process, as the kernel reads the vector through [dir]. *)
Definition argument s (dir : option Z) p (b : Z) : Prop :=
  exists i, 0 <= i < ps_argc p /\ vld32 (sy_mem s) dir (ps_argv p + 4 * i) = Some b.

(** The end of the process may release [c]: an allocation of the process, the block run of
    somebody else, or an address in no run at all.  (Not the middle of a run, nor the image,
    the stack, the thread or the page tables of the process.) *)
Definition releasable s p t (e : elf_file) (c : Z) : Prop :=
  allocated p KERNEL_MAX_PROGRAM_ALLOCATIONS c \/
  ((exists n, live (m_heap (sy_mach s)) c n) /\ ~ owns s p t e c) \/ vacant (m_heap (sy_mach s)) c.

(** The argument vector can be read through the directory [dir], which stays in order while
    the tables of the process change. *)
Definition arguments_seen s (dir : option Z) p t (e : elf_file) : Prop :=
  forall i, 0 <= i < ps_argc p -> exists c, releasable s p t e c /\
    forall m, outside_tables s t m -> vld32 m dir (ps_argv p + 4 * i) = Some c.

(** The heap [h] has lost the runs in [P] since [s]. *)
Definition lost s (h : heap) (P : Z -> Prop) : Prop :=
  kheap_ok h /\ forall b n, live h b n <-> live (m_heap (sy_mach s)) b n /\ ~ P b.

Lemma lost_free s h P a n :
  lost s h P -> live (m_heap (sy_mach s)) a n -> ~ P a -> lost s (heap_free h a) (fun b => P b \/ b = a).
Proof.
  intros [Hok Hl] Ha Hp. assert (Hla : live h a n) by (by apply Hl).
  destruct (@al_free_spec heap heap_allocator heap_allocator_laws h a n Hok Hla) as [Hok' Hless].
  cbn [al_live al_free al_ok heap_allocator] in Hok', Hless. split; [done|]. intros b k. rewrite (Hless b k), (Hl b k). tauto.
Qed.

Lemma lost_ext s h P Q : lost s h P -> (forall b, P b <-> Q b) -> lost s h Q.
Proof. intros [Hok Hl] He. split; [done|]. intros b n. by rewrite (Hl b n), (He b). Qed.

(** Any release of the start of a run, or of an address in no run: a run that is already
    lost is free, and nothing happens. *)
Lemma lost_release s h P c :
  kheap_ok (m_heap (sy_mach s)) -> lost s h P ->
  ((exists n, live (m_heap (sy_mach s)) c n) /\ (P c \/ ~ P c)) \/ vacant (m_heap (sy_mach s)) c ->
  lost s (heap_free h c) (fun b => P b \/ b = c).
Proof.
  intros Hok0 Hlost [[[n Hc] [Hp|Hp]]|[Hr Hv]]; [|by eapply lost_free|]; pose proof Hlost as [Hok Hl].
  - rewrite (kheap_free_vacant h c Hok).
    + apply (lost_ext s h P); [done|]. intros b. split; [by left|]. by intros [Hb| ->].
    + apply (released_vacant (m_heap (sy_mach s)) h c n Hok0 Hc). intros b k [H1 H2]%Hl. split; [done|]. by intros ->.
  - rewrite (kheap_free_vacant h c Hok) by (split; [done|]; intros b k [Hb _]%Hl; by apply Hv).
    split; [done|]. intros b k. rewrite (Hl b k). split; [intros [H1 H2]|tauto]. split; [done|]. intros [H| ->]; [done|].
    destruct (kheap_live_range _ _ _ Hok0 H1) as (_ & Hk & _). apply (Hv c k H1). unfold KERNEL_HEAP_BLOCK_SIZE. lia.
Qed.

Lemma elf_close_run s f e :
  f <> 0 -> l_elfs (sy_loader s) !! f = Some e ->
  on_loader (elf_close f) s =
  Done tt (set_mach (mk_machine (heap_free (heap_free (m_heap (sy_mach s)) (elf_memory e)) f) (sy_mem s)) s).
Proof.
  intros Hf He. unfold on_loader, zoom, elf_close. rewrite (proj2 (Z.eqb_neq f 0)) by done.
  unfold the_elf. rewrite bind_assoc, bind_gets, (bind_expect _ _ _ _ He).
  set (h1 := mk_machine (heap_free (m_heap (sy_mach s)) (elf_memory e)) (sy_mem s)).
  rewrite (bind_Done _ _ _ tt (set_l_vfs (upd_heap h1 (l_vfs (sy_loader s))) (sy_loader s))) by done.
  unfold l_free, on_vfs, v_free, zoom, al_release, sel_heap. cbn [l_vfs set_l_vfs]. rewrite heap_upd, upd_upd. done.
Qed.

Lemma set_mach_eta s : set_mach (mk_machine (m_heap (sy_mach s)) (sy_mem s)) s = s.
Proof. unfold sy_mem. destruct (sy_mach s) as [h m] eqn:E. cbn [m_heap m_mem]. rewrite <- E. apply set_mach_same. Qed.

(** What is released without a look: the arguments from the [i]-th on. *)
Definition named s (dir : option Z) p (i b : Z) : Prop :=
  exists j, i <= j < ps_argc p /\ vld32 (sy_mem s) dir (ps_argv p + 4 * j) = Some b.

Lemma argument_loop n s a p t e l1 l2 P0 : forall i (L : list Z) s1 p1,
  process_ok s a p t e l1 l2 -> arguments_seen s (cr3_dir s) p t e ->
  (forall b, allocated p KERNEL_MAX_PROGRAM_ALLOCATIONS b -> P0 b) -> (forall b, P0 b -> owns s p t e b) ->
  sy_procs s1 !! a = Some p1 -> ps_argc p1 = ps_argc p -> ps_argv p1 = ps_argv p -> cr3_dir s1 = cr3_dir s ->
  outside_tables s t (sy_mem s1) -> lost s (m_heap (sy_mach s1)) (fun b => P0 b \/ b ∈ L) ->
  0 <= i -> ps_argc p - i < Z.of_nat n ->
  exists h (L' : list Z), terminate_argument_loop n a i s1 = Done tt (set_mach (mk_machine h (sy_mem s1)) s1) /\
    lost s h (fun b => P0 b \/ b ∈ L') /\ forall b, b ∈ L' <-> b ∈ L \/ named s (cr3_dir s) p i b.
Proof.
  induction n as [|n IH]; intros i L s1 p1 Hok Har Hal Hown Hp Hc Hv Hcr Hm Hl Hi Hn.
  - exists (m_heap (sy_mach s1)), L. split; [|split; [exact Hl|]].
    + cbn [terminate_argument_loop]. rewrite set_mach_eta. reflexivity.
    + intros b. split; [by left|]. intros [H|(j & Hj & _)]; [done|lia].
  - cbn [terminate_argument_loop]. rewrite (bind_proc _ _ _ p1), Hc by exact Hp.
    destruct (Z.ltb_spec i (ps_argc p)) as [Hlt|Hge].
    2: { exists (m_heap (sy_mach s1)), L. split; [by rewrite set_mach_eta|]. split; [exact Hl|].
         intros b. split; [by left|]. intros [H|(j & Hj & _)]; [done|lia]. }
    destruct (Har i) as (c & Hrel & Hw); [lia|]. pose proof (hs_heap _ _ _ _ (pk_space _ _ _ _ _ _ _ Hok)) as Hh0.
    rewrite (bind_Done _ _ s1 c s1).
    2: { unfold load_argv. rewrite (bind_Done _ _ s1 s1 s1), Hcr, Hv by done. by rewrite (Hw _ Hm). }
    set (h1 := heap_free (m_heap (sy_mach s1)) c).
    rewrite (bind_mach _ _ _ tt (mk_machine h1 (sy_mem s1))) by done.
    assert (Hl1 : lost s h1 (fun b => P0 b \/ b ∈ c :: L)).
    { eapply lost_ext; [apply (lost_release s _ _ c Hh0 Hl)|intros b; cbv beta; rewrite elem_of_cons; clear; tauto].
      destruct Hrel as [Hac|[[Hlc Hno]|Hva]]; [|left; split; [exact Hlc|]|by right].
      - left. split; [|left; left; by apply Hal]. destruct Hac as (j & q & _ & Hq & <- & Hq0).
        destruct (ac_live _ _ _ (pk_allocations _ _ _ _ _ _ _ Hok) j q Hq Hq0) as (H & _). by eexists.
      - destruct (decide (c ∈ L)) as [Hin|Hnin]; [by left; right|]. right. intros [H|H]; [by apply Hno, Hown|done]. }
    set (s2 := set_mach (mk_machine h1 (sy_mem s1)) s1).
    assert (Em : sy_mach s2 = mk_machine h1 (sy_mem s1)) by apply sy_mach_set.
    destruct (IH (i + 1) (c :: L) s2 p1 Hok Har Hal Hown Hp Hc Hv Hcr) as (h & L' & E & Hlost & Hiff);
      [unfold sy_mem; by rewrite Em|by rewrite Em|lia|lia|].
    exists h, L'. split; [|split; [exact Hlost|]].
    + rewrite E. unfold sy_mem at 1. rewrite Em. unfold s2. by rewrite set_mach_set.
    + assert (Hci : vld32 (sy_mem s) (cr3_dir s) (ps_argv p + 4 * i) = Some c) by (by apply Hw).
      intros b. rewrite (Hiff b), elem_of_cons. split.
      * intros [[-> |H]|(j & Hj & Hjb)]; [right; exists i; split; [lia|done]|by left|right; exists j; split; [lia|done]].
      * intros [H|(j & Hj & Hjb)]; [left; by right|]. destruct (Z.eq_dec j i) as [-> |Hji]; [left; left; congruence|].
        right. exists j. split; [lia|done].
Qed.

(** None of the arguments is a part of the process that has still to go. *)
Lemma argument_foreign s a p t e l1 l2 dir b :
  process_ok s a p t e l1 l2 -> arguments_seen s dir p t e -> argument s dir p b ->
  (b ∉ single_blocks p e) /\ (b ∉ space_blocks (sy_mem s) (page_directory t)).
Proof.
  intros Hok Har (i & Hi & Hb). destruct (Har i Hi) as (c & Hrel & Hw). rewrite Hw in Hb by done. injection Hb as ->.
  destruct Hrel as [Hac|[[_ Hno]|[_ Hva]]].
  - split; [intros Hb; by apply (pk_apart _ _ _ _ _ _ _ Hok b Hb)|]. destruct Hac as (j & q & _ & Hq & <- & Hq0).
    apply (ac_live _ _ _ (pk_allocations _ _ _ _ _ _ _ Hok) j q Hq Hq0).
  - split; intros Hb; apply Hno; [right; by left|right; by right].
  - assert (Hlive : forall n, ~ live (m_heap (sy_mach s)) b n).
    { intros n Hn. destruct (kheap_live_range _ _ _ (hs_heap _ _ _ _ (pk_space _ _ _ _ _ _ _ Hok)) Hn) as (_ & Hk & _).
      apply (Hva b n Hn). unfold KERNEL_HEAP_BLOCK_SIZE. lia. }
    split; intros Hb.
    + destruct (single_live _ _ _ _ _ _ _ _ Hok Hb) as (_ & n & Hn). by apply (Hlive n).
    + apply (Hlive 1), (hs_live _ _ _ _ (pk_space _ _ _ _ _ _ _ Hok) _ Hb).
Qed.

(** ** The whole *)

Definition unlinked s p : system F := set_processes (zset (processes s) (ps_id p) 0) s.

Lemma unlink_run s a p q :
  sy_procs s !! a = Some p -> zget (processes s) (ps_id p) = Some q ->
  process_unlink a s =
  if current_process s =? a
  then if first_process (processes (unlinked s p)) =? 0 then Panic (unlinked s p)
       else Done tt (set_current_process (first_process (processes (unlinked s p))) (unlinked s p))
  else Done tt (unlinked s p).
Proof.
  intros Hp Hq. unfold process_unlink. rewrite (bind_proc _ _ _ _ Hp), bind_gets, (bind_expect _ _ _ _ Hq), bind_modify, bind_gets.
  change (current_process (set_processes _ s)) with (current_process s). destruct (current_process s =? a); [|done].
  unfold process_switch_to_any. rewrite bind_gets. fold (unlinked s p). by destruct (_ =? 0).
Qed.

(** What goes back to the heap: all that the process owns, and whatever its arguments name. *)
Definition released s (dir : option Z) p t (e : elf_file) (b : Z) : Prop := owns s p t e b \/ argument s dir p b.

(** The system after the process has ended. *)
Record ended s s' (a : Z) p t (e : elf_file) (l1 l2 : list Z) : Prop := {
  ed_heap : lost s (m_heap (sy_mach s')) (released s (cr3_dir s) p t e);
  ed_mem : outside_tables s t (sy_mem s');
  ed_table : processes s' = zset (processes s) (ps_id p) 0;
  ed_process : current_process s' = if current_process s =? a then first_process (processes s') else current_process s;
  ed_procs : is_Some (sy_procs s' !! a) /\ forall b, b <> a -> sy_procs s' !! b = sy_procs s !! b;
  ed_list : dll (sy_threads s') (l1 ++ l2);
  ed_current : current_task (sy_threads s') =
    if current_task (sy_threads s) =? ps_task p then successor l1 l2 else current_task (sy_threads s);
  ed_threads : forall b, b <> ps_task p -> (no_links <$> (t_threads (sy_threads s') !! b)) = (no_links <$> (t_threads (sy_threads s) !! b));
  ed_files : file_descriptors (l_vfs (sy_loader s')) = file_descriptors (l_vfs (sy_loader s))
}.

(** When only the thread is left. *)
Record thread_left s s' (a : Z) p t (e : elf_file) : Prop := {
  tl_procs : exists l, sy_procs s' = <[a := ps_set_allocations l p]> (sy_procs s);
  tl_heap : lost s (m_heap (sy_mach s')) (fun b =>
    (((allocated p KERNEL_MAX_PROGRAM_ALLOCATIONS b \/ b = elf_memory e) \/ b = ps_ptr p) \/ argument s (cr3_dir s) p b) \/ b = ps_stack p);
  tl_space : space_ok (sy_mem s') (page_directory t);
  tl_blocks : space_blocks (sy_mem s') (page_directory t) = space_blocks (sy_mem s) (page_directory t);
  tl_mem : outside_tables s t (sy_mem s');
  tl_threads : sy_threads s' = sy_threads s;
  tl_rest : current_process s' = current_process s /\ processes s' = processes s /\
    file_descriptors (l_vfs (sy_loader s')) = file_descriptors (l_vfs (sy_loader s))
}.

Lemma terminate_memory s a p t e l1 l2 :
  process_ok s a p t e l1 l2 -> arguments_seen s (cr3_dir s) p t e ->
  exists s', process_terminate a s = (on_tasks (task_free (ps_task p));; process_unlink a;; mret 0) s' /\ thread_left s s' a p t e.
Proof.
  intros Hok Har. pose proof Hok as [Ha Hs Hac [Hty He Hlv _ Hnd _] Hna _ _]. set (K := KERNEL_MAX_PROGRAM_ALLOCATIONS) in *.
  destruct (give_back_loop (Z.to_nat K) s a p t s p 0 Ha Hac (given_back_0 s a p t Hs)) as (s1 & p1 & E1 & G);
    [done|done|]. fold K in G. destruct G as [G1 (l & -> & _) G3 G4 G5 G6 G7 (R1 & R2 & R3 & R4)]. set (p1 := ps_set_allocations l p) in *.
  assert (Hp1 : sy_procs s1 !! a = Some p1) by exact (hs_proc _ _ _ _ G1).
  assert (Hsg : forall b, b ∈ single_blocks p e -> b <> 0 /\ exists n, live (m_heap (sy_mach s)) b n) by (intros b; by eapply single_live).
  destruct (Hsg (elf_memory e)) as (_ & nm & Hlm); [by left|].
  destruct (Hsg (ps_ptr p)) as (Hf0 & nf & Hlf); [right; by left|].
  destruct (Hsg (ps_stack p)) as (_ & ns & Hls); [do 2 right; by left|].
  apply NoDup_cons in Hnd as [Hm1 [Hf1 [Hs1 _]%NoDup_cons]%NoDup_cons]. rewrite !elem_of_cons in Hm1, Hf1, Hs1.
  assert (L0 : lost s (m_heap (sy_mach s1)) (allocated p K)) by (split; [exact (hs_heap _ _ _ _ G1)|exact G5]).
  pose proof (lost_free s _ _ (elf_memory e) nm L0 Hlm (Hna _ ltac:(by left))) as L1.
  assert (Hnf : ~ (allocated p K (ps_ptr p) \/ ps_ptr p = elf_memory e)).
  { intros [H|H]; [by apply (Hna (ps_ptr p)); [right; left|]|]. apply Hm1. by left. }
  pose proof (lost_free s _ _ (ps_ptr p) nf L1 Hlf Hnf) as L2.
  set (h2 := mk_machine (heap_free (heap_free (m_heap (sy_mach s1)) (elf_memory e)) (ps_ptr p)) (sy_mem s1)) in *.
  set (s2 := set_mach h2 s1). assert (Em2 : sy_mach s2 = h2) by apply sy_mach_set.
  set (P0 := fun b => (allocated p K b \/ b = elf_memory e) \/ b = ps_ptr p) in *.
  destruct (argument_loop (S (Z.to_nat (ps_argc p))) s a p t e l1 l2 P0 0 [] s2 p1 Hok Har) as (hA & LA & EA & LA1 & LA2).
  { intros b Hb. left. by left. }
  { intros b [[Hb| ->]| ->]; [by left|right; left; left|right; left; right; left]. }
  { exact Hp1. }
  { done. }
  { done. }
  { unfold cr3_dir. change (sy_threads s2) with (sy_threads s1). by rewrite G4. }
  { unfold sy_mem. rewrite Em2. exact G7. }
  { rewrite Em2. eapply lost_ext; [exact L2|]. intros b. cbv beta. rewrite elem_of_nil. unfold P0. clear. tauto. }
  { lia. }
  { lia. }
  assert (Es2 : sy_mem s2 = sy_mem s1) by (unfold sy_mem; by rewrite Em2). rewrite Es2 in EA.
  set (sA := set_mach (mk_machine hA (sy_mem s1)) s2) in *.
  assert (EmA : sy_mach sA = mk_machine hA (sy_mem s1)) by apply sy_mach_set.
  assert (LA3 : lost s hA (fun b => P0 b \/ argument s (cr3_dir s) p b)).
  { eapply lost_ext; [exact LA1|]. intros b. cbv beta. rewrite (LA2 b), elem_of_nil. unfold named, argument. clear. tauto. }
  assert (Hns : ~ (P0 (ps_stack p) \/ argument s (cr3_dir s) p (ps_stack p))).
  { intros [[[H|H]|H]|H]; [by apply (Hna (ps_stack p)); [do 2 right; left|]|apply Hm1; right; rewrite H; left|apply Hf1; by left|].
    destruct (argument_foreign _ _ _ _ _ _ _ _ _ Hok Har H) as [Hx _]. apply Hx. do 2 right. left. }
  pose proof (lost_free s _ _ (ps_stack p) ns LA3 Hls Hns) as L3.
  set (h3 := mk_machine (heap_free hA (ps_stack p)) (sy_mem s1)). exists (set_mach h3 sA).
  assert (Em3 : sy_mach (set_mach h3 sA) = h3) by apply sy_mach_set. split.
  - unfold process_terminate. rewrite (proj2 (Z.eqb_neq a 0)) by done. unfold process_terminate_allocations.
    rewrite (bind_Done _ _ _ _ _ E1). unfold process_terminate_program_data. rewrite bind_assoc, (bind_proc _ _ _ _ Hp1).
    change (ps_filetype p1) with (ps_filetype p). rewrite Hty. change (PROCESS_FILETYPE_ELF =? PROCESS_FILETYPE_ELF) with true. cbv iota.
    unfold process_terminate_elf_data. rewrite bind_assoc, bind_assoc, (bind_proc _ _ _ _ Hp1). change (ps_ptr p1) with (ps_ptr p).
    rewrite (bind_Done _ _ _ tt s2) by (apply elf_close_run; [done|by rewrite R3]). rewrite bind_ret. change (0 <? 0) with false. cbv iota.
    unfold process_terminate_command_argument. rewrite bind_assoc, (bind_proc _ _ _ p1) by exact Hp1.
    change (ps_argc p1) with (ps_argc p). rewrite (bind_Done _ _ _ _ _ EA).
    rewrite (bind_proc _ _ _ p1) by exact Hp1. change (ps_stack p1) with (ps_stack p). rewrite (bind_mach _ _ _ tt h3); [done|].
    unfold kfree. by rewrite EmA.
  - constructor; unfold sy_mem; rewrite ?Em3; [by exists l|exact L3|exact (hs_space _ _ _ _ G1)|exact G6|exact G7|exact G4|].
    split; [exact R1|]. split; [exact R2|exact R4].
Qed.

(** The thread goes, and the slot of the process. *)
Lemma terminate_thread s s3 a p t e l1 l2 :
  process_ok s a p t e l1 l2 -> arguments_seen s (cr3_dir s) p t e -> thread_left s s3 a p t e ->
  exists s4 l, on_tasks (task_free (ps_task p)) s3 = Done 0 s4 /\
    sy_procs s4 = <[a := ps_set_allocations l p]> (sy_procs s) /\
    lost s (m_heap (sy_mach s4)) (released s (cr3_dir s) p t e) /\ outside_tables s t (sy_mem s4) /\
    processes s4 = processes s /\ current_process s4 = current_process s /\
    dll (sy_threads s4) (l1 ++ l2) /\
    current_task (sy_threads s4) = (if current_task (sy_threads s) =? ps_task p then successor l1 l2 else current_task (sy_threads s)) /\
    (forall b, b <> ps_task p -> (no_links <$> (t_threads (sy_threads s4) !! b)) = (no_links <$> (t_threads (sy_threads s) !! b))) /\
    file_descriptors (l_vfs (sy_loader s4)) = file_descriptors (l_vfs (sy_loader s)).
Proof.
  intros Hok Har [[l T1] T2 T3 T4 T5 T6 (R2 & R1 & R3)]. pose proof Hok as [Ha Hs Hac [_ _ _ Hlt Hnd Hap] Hnal Hd _].
  assert (Et : t_heap (sy_tasks s3) = m_heap (sy_mach s3)) by reflexivity.
  assert (Hin : ps_task p ∈ single_blocks p e) by (do 3 right; by left).
  pose proof (Hap _ Hin) as Hsp. pose proof (Hnal _ Hin) as Hna.
  assert (Hne : forall b, b ∈ [elf_memory e; ps_ptr p; ps_stack p] -> b <> ps_task p).
  { intros b Hb ->. change (single_blocks p e) with ([elf_memory e; ps_ptr p; ps_stack p] ++ [ps_task p]) in Hnd.
    apply NoDup_app in Hnd as (_ & Hx & _). apply (Hx _ Hb). by left. }
  destruct (task_free_total (sy_tasks s3) l1 l2 (ps_task p) t) as (tk & E & Hd' & Hok' & Em & Ec & _ & Hth & Hlv).
  - apply (dll_ext (sy_threads s)); [exact Hd|by unfold sy_tasks; rewrite T6|by unfold sy_tasks; rewrite T6|].
    unfold sy_tasks. rewrite T6. exact (dl_seg _ _ Hd).
  - rewrite Et. apply T2.
  - change (t_threads (sy_tasks s3)) with (t_threads (sy_threads s3)). rewrite T6. exact (hs_thread _ _ _ _ Hs).
  - exact T3.
  - change (t_mem (sy_tasks s3)) with (sy_mem s3). by rewrite T4.
  - change (t_mem (sy_tasks s3)) with (sy_mem s3). rewrite Et. unfold thread_blocks. rewrite T4. intros b [-> |Hb]%elem_of_cons; apply T2.
    + split; [exact Hlt|]. intros [[[[H|H]|H]|H]|H]; [by apply Hna| | | |]; [| |by apply (argument_foreign _ _ _ _ _ _ _ _ _ Hok Har) in H as [Hx _]; apply Hx|];
        symmetry in H; revert H; apply Hne; [by left|right; by left|do 2 right; by left].
    + split; [by apply (hs_live _ _ _ _ Hs)|]. intros [[[[H|H]|H]|H]|H].
      * destruct H as (j & q & _ & Hq & <- & Hq0). by apply (ac_live _ _ _ Hac j q Hq Hq0).
      * subst b. apply (Hap (elf_memory e) ltac:(by left)), Hb.
      * subst b. apply (Hap (ps_ptr p) ltac:(right; by left)), Hb.
      * by apply (argument_foreign _ _ _ _ _ _ _ _ _ Hok Har) in H as [_ Hx].
      * subst b. apply (Hap (ps_stack p) ltac:(do 2 right; by left)), Hb.
  - exists (set_sy_tasks tk s3), l. split; [by apply zoom_Done|].
    assert (Em4 : sy_mach (set_sy_tasks tk s3) = t_machine tk) by apply (sy_mach_set (t_machine tk) (set_threads_of tk s3)).
    unfold sy_mem. rewrite Em4. fold (t_heap tk) (t_mem tk). split; [exact T1|]. split; [|split; [by rewrite Em|]].
    + split; [exact Hok'|]. intros b n. rewrite (Hlv b n), Et, (proj2 T2 b n). unfold thread_blocks, released, owns, single_blocks.
      change (t_mem (sy_tasks s3)) with (sy_mem s3). rewrite T4, !elem_of_cons, elem_of_nil. clear. tauto.
    + split; [exact R1|]. split; [exact R2|]. split; [apply (dll_ext tk); [exact Hd'|reflexivity|reflexivity|exact (dl_seg _ _ Hd')]|].
      split; [|split; [|exact R3]].
      * change (current_task (sy_threads (set_sy_tasks tk s3))) with (current_task tk). rewrite Ec.
        change (current_task (sy_tasks s3)) with (current_task (sy_threads s3)). by rewrite T6.
      * intros b Hb. change (t_threads (sy_threads (set_sy_tasks tk s3))) with (t_threads tk). rewrite (Hth b Hb).
        change (t_threads (sy_tasks s3)) with (t_threads (sy_threads s3)). by rewrite T6.
Qed.

Lemma terminate_total s a p t e l1 l2 :
  process_ok s a p t e l1 l2 -> arguments_seen s (cr3_dir s) p t e ->
  if (current_process s =? a) && (first_process (zset (processes s) (ps_id p) 0) =? 0)
  then exists s', process_terminate a s = Panic s'
  else exists s', process_terminate a s = Done 0 s' /\ ended s s' a p t e l1 l2.
Proof.
  intros Hok Har. destruct (terminate_memory s a p t e l1 l2 Hok Har) as (s3 & E & Htl).
  destruct (terminate_thread s s3 a p t e l1 l2 Hok Har Htl) as (s4 & l & E4 & P1 & P2 & P3 & P4 & P5 & P6 & P7 & P8 & P9).
  rewrite E, (bind_Done _ _ _ _ _ E4).
  assert (Hp : sy_procs s4 !! a = Some (ps_set_allocations l p)) by (rewrite P1; apply lookup_insert_eq).
  assert (Hq : zget (processes s4) (ps_id (ps_set_allocations l p)) = Some a) by (rewrite P4; exact (pk_slot _ _ _ _ _ _ _ Hok)).
  pose proof (unlink_run s4 a _ a Hp Hq) as U. set (s5 := unlinked s4 (ps_set_allocations l p)) in *. rewrite P5 in U.
  assert (E5 : processes s5 = zset (processes s) (ps_id p) 0) by (unfold s5, unlinked; cbn; by rewrite P4). rewrite E5 in U.
  assert (Hend : forall c, c = (if current_process s =? a then first_process (zset (processes s) (ps_id p) 0) else current_process s) ->
    ended s (set_current_process c s5) a p t e l1 l2).
  { intros c Hc. constructor; [exact P2|exact P3|exact E5| | |exact P6|exact P7|exact P8|exact P9].
    - change (processes (set_current_process c s5)) with (processes s5). rewrite E5. exact Hc.
    - change (sy_procs (set_current_process c s5)) with (sy_procs s4). rewrite P1. split; [by rewrite lookup_insert_eq|].
      intros b Hb. by rewrite lookup_insert_ne. }
  destruct (current_process s =? a) eqn:Ec; cbn [andb]; [destruct (_ =? 0) eqn:E0|].
  - exists s5. unfold mbind at 1, M_bind at 1. by rewrite U.
  - exists (set_current_process (first_process (zset (processes s) (ps_id p) 0)) s5).
    rewrite (bind_Done _ _ _ _ _ U). split; [done|by apply Hend].
  - exists (set_current_process (current_process s) s5). replace (set_current_process (current_process s) s5) with s5.
    2: { unfold s5. rewrite <- P5. by destruct s4. }
    rewrite (bind_Done _ _ _ _ _ U). split; [done|]. replace s5 with (set_current_process (current_process s) s5); [by apply Hend|].
    unfold s5. rewrite <- P5. by destruct s4.
Qed.

(** The argument vector that [process_inject_argument] has built, seen through the kernel's
    directory, which maps every address to itself. *)
Lemma arguments_kernel s k a p t e ws :
  has_space s a p t -> zlen (ps_allocations p) = KERNEL_MAX_PROGRAM_ALLOCATIONS ->
  space_ok (sy_mem s) k ->
  (forall b, b ∈ space_blocks (sy_mem s) k -> live (m_heap (sy_mach s)) b 1 /\ b ∉ space_blocks (sy_mem s) (page_directory t)) ->
  (forall y, 0 <= y < 4294967296 -> translate (sy_mem s) (directory_entry (sy_mem s) k) y = Some y) ->
  argument_vector t s p (ps_argv p) ws -> ps_argc p = zlen ws ->
  arguments_seen s (Some (directory_entry (sy_mem s) k)) p t e.
Proof.
  intros Hs Hlen Hk Hkb Hid Hv Hc i Hi. destruct (zget_is_Some ws i) as [w Hw]; [lia|].
  destruct (Hv i w Hw) as (c & _ & (j & q & Hq & Hqc & Hc0) & [Hh Hx] & _). pose proof (zget_Some_range _ _ _ Hq).
  exists c. split; [left; exists j, q; split; [lia|done]|]. intros m Hm. destruct (held_range _ _ _ _ _ _ _ Hs Hh) as (? & ? & ?).
  destruct (space_agree (sy_mem s) m k Hk) as (_ & _ & _ & _ & Htr).
  { intros b x Hb Hbx. apply Hm. intros d Hd Hdx. destruct (Hkb b Hb) as [Hl Hn].
    pose proof (block_apart _ _ _ _ _ (hs_heap _ _ _ _ Hs) Hl (hs_live _ _ _ _ Hs _ Hd) ltac:(intros ->; by apply Hn) Hdx). lia. }
  assert (E : forall y, ps_argv p + 4 * i <= y < ps_argv p + 4 * i + 4 ->
    vld8 m (Some (directory_entry (sy_mem s) k)) y = Some (ld8 (sy_mem s) y)).
  { intros y Hy. unfold vld8, xlate. rewrite u32_small, Htr, Hid by lia. unfold ld8. rewrite u32_small by lia. f_equal.
    apply Hm. intros d Hd Hdy. destruct (held_apart_space _ _ _ _ _ _ _ _ _ Hs Hh Hd Hdy); lia. }
  unfold vld32. rewrite !E by lia. by rewrite <- Hx.
Qed.

(** ** A process with one argument, for the witnesses *)

(** The word [c] at 0x3000, and page tables in low memory that lead there: the directory at
    0x1000, named by the word at 0, and its first table at 0x2000. *)
Definition argument_page (m : mem) (c : Z) : mem := st32 (st32 (st32 (st32 m 0 4096) 4096 8193) 8204 12289) 12288 c.

Definition argued s (a : Z) p (c : Z) : system F := put_proc a (ps_set_argument 1 12288 p) (set_sy_mem (argument_page (sy_mem s) c) s).

Lemma argued_mach s a p c : sy_mach (argued s a p c) = mk_machine (m_heap (sy_mach s)) (argument_page (sy_mem s) c).
Proof. exact (sy_mach_set (mk_machine (m_heap (sy_mach s)) (argument_page (sy_mem s) c)) s). Qed.

Lemma argument_page_above (m : mem) c x : 16384 <= x -> argument_page m c x = m x.
Proof. intros Hx. unfold argument_page. by rewrite !st32_outside by lia. Qed.

Lemma argument_page_words (m : mem) c :
  0 <= c < 4294967296 ->
  ld32 (argument_page m c) 0 = 4096 /\ ld32 (argument_page m c) 4096 = 8193 /\
  ld32 (argument_page m c) 8204 = 12289 /\ ld32 (argument_page m c) 12288 = c.
Proof.
  intros Hc. unfold argument_page. repeat split; repeat rewrite ld32_st32_other by lia; by rewrite ld32_st32_same by lia.
Qed.

Lemma argument_word (m m' : mem) c :
  0 <= c < 4294967296 -> (forall x, 0 <= x < 16384 -> m' x = argument_page m c x) -> vld32 m' (Some 4096) 12288 = Some c.
Proof.
  intros Hc Hm. destruct (argument_page_words m c Hc) as (_ & W1 & W2 & W3).
  assert (Hld : forall y, 0 <= y <= 16380 -> ld32 m' y = ld32 (argument_page m c) y).
  { intros y Hy. apply ld32_ext. intros i Hi. unfold ld8. rewrite u32_small by lia. apply Hm. lia. }
  assert (Htr : forall i, 0 <= i < 4 -> vld8 m' (Some 4096) (12288 + i) = Some (ld8 m' (12288 + i))).
  { intros i Hi. unfold vld8, xlate. rewrite u32_small by lia.
    assert (E1 : dir_index (12288 + i) = 0) by (unfold dir_index; Z.to_euclidean_division_equations; lia).
    assert (E2 : tab_index (12288 + i) = 3) by (unfold tab_index; Z.to_euclidean_division_equations; lia).
    unfold translate, pte, table_at. rewrite E1, E2. change (4096 + 4 * 0) with 4096. rewrite (Hld 4096), W1 by lia.
    change (8193 / 4096 * 4096 + 4 * 3) with 8204. rewrite (Hld 8204), W2 by lia. change (Z.testbit 8193 0 && Z.testbit 12289 0) with true.
    cbv iota. change (12289 / 4096 * 4096) with 12288.
    replace ((12288 + i) mod 4096) with i by (Z.to_euclidean_division_equations; lia). done. }
  unfold vld32. rewrite <- (Z.add_0_r 12288) at 1. rewrite !Htr by lia. rewrite <- W3, <- Hld by lia. reflexivity.
Qed.

(** The tables and the runs of a process are not in low memory. *)
Lemma argued_above s a p t e l1 l2 b x :
  process_ok s a p t e l1 l2 -> b ∈ space_blocks (sy_mem s) (page_directory t) -> b <= x -> 16384 <= x.
Proof.
  intros Hok Hb Hx. pose proof (live_heap_address _ _ _ (hs_heap _ _ _ _ (pk_space _ _ _ _ _ _ _ Hok))
    (hs_live _ _ _ _ (pk_space _ _ _ _ _ _ _ Hok) _ Hb)) as H. unfold KERNEL_HEAP_ADDRESS in H. lia.
Qed.

Lemma argued_ok s a p t e l1 l2 c :
  process_ok s a p t e l1 l2 ->
  process_ok (argued s a p c) a (ps_set_argument 1 12288 p) t e l1 l2 /\
  space_blocks (sy_mem (argued s a p c)) (page_directory t) = space_blocks (sy_mem s) (page_directory t) /\
  forall va, 0 <= va < 4294967296 -> user_translate (argued s a p c) t va = user_translate s t va.
Proof.
  intros Hok. pose proof Hok as [P1 [Q1 Q2 Q3 Q4 Q5] [A1 A2 A3] [R1 R2 R3 R4 R5 R6] P5 P6 P7].
  pose proof (argued_mach s a p c) as Em.
  destruct (space_agree (sy_mem s) (argument_page (sy_mem s) c) (page_directory t) Q4) as (S1 & S2 & S3 & _ & S5).
  { intros b x Hb Hx. apply argument_page_above. eapply argued_above; [exact Hok|exact Hb|lia]. }
  assert (Es : sy_mem (argued s a p c) = argument_page (sy_mem s) c) by (unfold sy_mem; by rewrite Em).
  split; [|split; [by rewrite Es|intros va Hva; unfold user_translate; rewrite Es, S2; by apply S5]].
  constructor; [exact P1| | | |exact P5|exact P6|exact P7].
  - constructor; rewrite ?Em, ?Es; [apply lookup_insert_eq|exact Q2|exact Q3|exact S1|]. intros b Hb. apply Q5. by rewrite <- S3.
  - constructor; rewrite ?Em, ?Es, ?S3; [exact A1|exact A2|exact A3].
  - constructor; rewrite ?Em, ?Es, ?S3; [exact R1|exact R2|exact R3|exact R4|exact R5|exact R6].
Qed.

Lemma argued_seen s a p t e l1 l2 c :
  process_ok s a p t e l1 l2 -> 0 <= c < 4294967296 -> releasable s p t e c ->
  arguments_seen (argued s a p c) (Some 4096) (ps_set_argument 1 12288 p) t e.
Proof.
  intros Hok Hc Hrel i Hi. change (ps_argc (ps_set_argument 1 12288 p)) with 1 in Hi. assert (i = 0) as -> by lia.
  destruct (argued_ok s a p t e l1 l2 c Hok) as (_ & Eb & _).
  pose proof (argued_mach s a p c) as Em.
  exists c. split.
  - unfold releasable, owns in *. rewrite Eb, Em. exact Hrel.
  - intros m Hm. change (ps_argv (ps_set_argument 1 12288 p) + 4 * 0) with 12288. apply (argument_word (sy_mem s)); [exact Hc|].
    intros x Hx. rewrite Hm; [unfold sy_mem; by rewrite Em|]. intros b Hb Hbx. rewrite Eb in Hb.
    pose proof (argued_above _ _ _ _ _ _ _ _ x Hok Hb (proj1 Hbx)). lia.
Qed.
End terminate.

(** ** Properties *)

(** C7: the end of a process.  [process_terminate] gives back exactly the block runs the
    process owns - its allocations, the program image and its ELF record, the stack, the
    thread and the page tables - and those its arguments name, and no other; it takes the
    thread out of the list, clears the process's slot and leaves the other processes, threads
    and file descriptors alone.  If the process was the current one, the first of the table
    becomes current; if there is none, the kernel panics.  The argument vector lies in memory
    that the program can write and is not checked: an argument that is still an allocation of
    the process is released twice, which changes nothing, as is one in no allocated run, NULL
    or an allocation that the program has released; one that names the run of another owner
    takes that run away.  (The vector is readable through the loaded directory; an argument
    in the middle of a run, or one that names the image, the stack, the thread or the page
    tables of the process itself, is excluded by [arguments_seen].) *)
Theorem process_terminate_spec {F : Type} {LY : Layout} {FS : Filesystem machine F} {SP : FilesystemSpec machine F}
    {LF : FilesystemLaws machine F} (s : system F) (a : Z) (p : task_struct) (t : thread_info) (e : elf_file) (l1 l2 : list Z) :
  process_ok s a p t e l1 l2 -> arguments_seen s (cr3_dir s) p t e ->
  if (current_process s =? a) && (first_process (zset (processes s) (ps_id p) 0) =? 0)
  then exists s', process_terminate a s = Panic s'
  else exists s', process_terminate a s = Done 0 s' /\ ended s s' a p t e l1 l2.
Proof. apply terminate_total. Qed.

(** ** A shell and a program, for the witnesses *)

#[local] Existing Instance one_file_fs.
#[local] Existing Instance one_file_spec.
#[local] Existing Instance one_file_laws.
#[local] Existing Instance one_file_files.
#[local] Existing Instance one_file_reads.
#[local] Existing Instance sample_layout.

Definition shell_system (b : Z) (m : machine) : system one_file :=
  set_mach m (mk_system (mk_loader (one_file_vfs run_elf) ∅) (mk_tasks m {[b := zero_thread]} b b b 0 0) ∅ (12288 :: replicate 11 0) 0).

Lemma shell_setup :
  exists b m, 0 < b /\ kheap_ok (m_heap m) /\ free_blocks (m_heap m) = 25599 /\ live (m_heap m) b 1 /\
    can_load (shell_system b m) 1 /\ dll (sy_threads (shell_system b m)) [b].
Proof.
  assert (Hfree : free_blocks (m_heap boot_machine) = 25600).
  { pose proof boot_heap_avail as E. exact E. }
  destruct (kzalloc_page boot_machine 64) as (b & m & _ & Hok & Hb & Hf & Hown & _).
  - exact boot_ok.
  - rewrite Hfree. reflexivity.
  - lia.
  - reflexivity.
  - assert (Hl : live (m_heap m) b 1) by (apply Hown; left; split; reflexivity).
    exists b, m. split; [exact Hb|]. split; [exact Hok|]. split; [rewrite Hf, Hfree; reflexivity|]. split; [exact Hl|]. split.
    + constructor; [|reflexivity|split; [reflexivity|discriminate]|left; reflexivity].
      unfold shell_system, set_mach. cbn [sy_loader l_vfs set_l_vfs].
      apply vfs_ok_heap; [apply one_file_vfs_ok|exact Hok|]. intros c n Hc. apply Hown. right. exact Hc.
    + constructor.
      * reflexivity.
      * reflexivity.
      * apply NoDup_singleton.
      * apply Forall_singleton. lia.
      * split; [|exact I]. exists zero_thread. split; [apply lookup_singleton_eq|]. split; reflexivity.
Qed.

(** The shell's thread is in the block [b]; the program, in slot 1, does not own it. *)
Lemma shell_program :
  exists b m a s p t e, 0 < b < 4294967296 /\ started (shell_system b m) s 1 a one_file_name run_elf [b] p t /\
    process_ok s a p t e [b] [] /\ live (m_heap (sy_mach s)) b 1 /\ ~ owns s p t e b.
Proof.
  destruct shell_setup as (b & m & Hb & Hok & Hf & Hl & Hcl & Hd).
  assert (Em : sy_mach (shell_system b m) = m) by (unfold shell_system; apply sy_mach_set).
  destruct (load_total (SP := one_file_spec) (shell_system b m) 1 (one_file_name ++ replicate 104 0) one_file_name
    [[97]] run_elf run_elf [b]) as (res & a & s & E & D).
  - exact Hcl.
  - apply one_file_name_holds.
  - vm_compute. discriminate.
  - vm_compute. reflexivity.
  - vm_compute. reflexivity.
  - intros bufs _. reflexivity.
  - split; [split; reflexivity|]. apply bytes_range. vm_compute. reflexivity.
  - reflexivity.
  - exact run_elf_ok.
  - vm_compute. reflexivity.
  - exact Hd.
  - intros c Hc. apply list_elem_of_singleton in Hc as ->. rewrite Em. exact Hl.
  - rewrite Em, Hf. vm_compute. discriminate.
  - destruct D as [(-> & _ & _ & Hno)|(-> & Ha & p & t & Hst & [K1 K2])].
    { destruct Hno. rewrite Em, Hf. split; [split; [lia|vm_compute; reflexivity]|split; vm_compute; reflexivity]. }
    rewrite Em in K1, K2. assert (Ha0 : a <> 0) by lia.
    destruct (started_ok _ _ _ _ _ _ _ _ _ Hst Ha0) as [e Hpk]; [split; [discriminate|reflexivity]|].
    destruct (kheap_live_range _ _ _ Hok Hl) as (_ & _ & _ & Hr). unfold KERNEL_HEAP_BLOCK_SIZE in Hr.
    exists b, m, a, s, p, t, e. split; [lia|]. split; [exact Hst|]. split; [exact Hpk|]. split; [by apply K1|].
    pose proof (K2 b 1 e Hl (pk_resources _ _ _ _ _ _ _ Hpk)) as Hx. rewrite elem_of_cons, elem_of_app in Hx.
    destruct (sd_process _ _ _ _ _ _ _ _ _ Hst) as (_ & _ & _ & _ & _ & Hz). intros [(j & q & _ & Hq & <- & Hq0)|[H|H]].
    + by apply Hq0, (Hz j).
    + apply Hx. right. by left.
    + apply Hx. right. by right.
Qed.

(** The program runs, with page tables in low memory loaded; process [cur] is the current one. *)
Definition running_system (p : task_struct) (cur : Z) (s : system one_file) : system one_file :=
  let th := sy_threads s in
  set_current_process cur (set_threads_of (mk_tasks (t_machine th) (t_threads th) (ps_task p) (task_head th) (task_tail th) 4096 0) s).

Lemma running_system_ok s cur a p t e l1 l2 : process_ok s a p t e l1 l2 -> process_ok (running_system p cur s) a p t e l1 l2.
Proof.
  intros Hok. pose proof Hok as [P1 [Q1 Q2 Q3 Q4 Q5] [A1 A2 A3] [R1 R2 R3 R4 R5 R6] P5 P6 P7].
  constructor; [exact P1|constructor; [exact Q1|exact Q2|exact Q3|exact Q4|exact Q5]|constructor; [exact A1|exact A2|exact A3]
    |constructor; [exact R1|exact R2|exact R3|exact R4|exact R5|exact R6]|exact P5| |exact P7].
  apply (dll_ext (sy_threads s)); [exact P6|reflexivity|reflexivity|exact (dl_seg _ _ P6)].
Qed.

(** Its argument vector names the block of the shell's thread, which goes with the program. *)
Lemma process_terminate_spec_witness :
  exists b a s s', process_terminate a s = Done 0 s' /\ processes s' = 12288 :: replicate 11 0 /\
    dll (sy_threads s') [b] /\ live (m_heap (sy_mach s)) b 1 /\ ~ live (m_heap (sy_mach s')) b 1.
Proof.
  destruct shell_program as (b & m & a & s & p & t & e & Hb & Hst & Hok & Hl & Hno).
  destruct (sd_process _ _ _ _ _ _ _ _ _ Hst) as (Hid & _). pose proof (sd_table _ _ _ _ _ _ _ _ _ Hst) as Hps.
  set (s1 := running_system p a s). pose proof (running_system_ok s a a p t e [b] [] Hok) as Hok1. fold s1 in Hok1.
  destruct (argued_ok s1 a p t e [b] [] b Hok1) as [Hok2 _].
  assert (Hrel : releasable s1 p t e b) by (right; left; split; [exists 1; exact Hl|exact Hno]).
  assert (Hb' : 0 <= b < 4294967296) by lia.
  pose proof (process_terminate_spec _ a _ t e [b] [] Hok2 (argued_seen s1 a p t e [b] [] b Hok1 Hb' Hrel)) as H.
  change (ps_id (ps_set_argument 1 12288 p)) with (ps_id p) in H. change (processes (argued s1 a p b)) with (processes s) in H.
  rewrite Hid, Hps in H. replace (first_process _ =? 0) with false in H by reflexivity. rewrite andb_false_r in H.
  destruct H as (s' & E & [[_ H1] _ H3 _ _ H6 _ _ _]). exists b, a, (argued s1 a p b), s'. split; [exact E|]. split; [|split; [exact H6|]].
  - rewrite H3. change (processes (argued s1 a p b)) with (processes s). change (ps_id (ps_set_argument 1 12288 p)) with (ps_id p).
    rewrite Hid, Hps. reflexivity.
  - assert (Em : m_heap (sy_mach (argued s1 a p b)) = m_heap (sy_mach s)) by (by rewrite argued_mach).
    rewrite Em. split; [exact Hl|]. intros [_ Hx]%H1. apply Hx. right. exists 0. split; [split; reflexivity || done|].
    change (ps_argv (ps_set_argument 1 12288 p) + 4 * 0) with 12288. apply (argument_word (sy_mem s1)); [exact Hb'|].
    intros x _. unfold sy_mem at 1. by rewrite argued_mach.
Defined.
