(* ===== verification/Isr.v ===== *)
(** * Interrupts and system calls: arch/x86/kernel/idt.c and kernel/isr80h.c

    The kernel state joins the processes with the console, the keyboard driver and the
    interrupt tables.  A function pointer is the name of the function; the interrupt stubs
    of idt.asm and the kernel's stack frames are known by their addresses only. *)
From S2P Require Import Prelude Heap Kheap CString Print Keyboard Paging Disk File Contents Elf Task Sched.

(** ** Data *)

Record idt_desc := mk_idt_desc {
  offset_1 : Z; selector : Z; zero : Z; type_attributes : Z; offset_2 : Z
}.
Record idtr_desc := mk_idtr_desc { idtr_limit : Z; idtr_base : Z }.

Definition zero_desc : idt_desc := mk_idt_desc 0 0 0 0 0.
Definition sizeof_idt_desc : Z := 8.

(** The values of [ISR80H_COMMAND] and [INTERRUPT_CALLBACK_FUNCTION] the program uses. *)
Inductive isr80h_command :=
| Command0_sum | Command1_print | Command2_getkey | Command3_putchar | Command4_malloc | Command5_free
| Command6_process_load_start | Command7_invake_system_command | Command8_get_program_argument | Command9_exit.
Inductive interrupt_callback := Idt_handle_exception | Classic_keyboard_handle_interrupt.

#[export] Instance isr80h_command_eq : EqDecision isr80h_command.
Proof. solve_decision. Defined.

(** [k_idtr]: the processor's register; [k_reads]: bytes read from the input ports so far;
    [k_writes]: the writes to ports, latest first. *)
Record kernel (F : Type) := mk_kernel {
  k_system : system F;
  k_terminal : terminal;
  classic_keyboard : keyboard;
  idt_descriptors : list idt_desc;
  idtr_descriptor : idtr_desc;
  k_idtr : idtr_desc;
  interrupt_callbacks : list (option interrupt_callback);
  isr80h_commands : list (option isr80h_command);
  k_reads : nat;
  k_writes : list (Z * Z)
}.
Arguments mk_kernel {F}.
Arguments k_system {F}.
Arguments k_terminal {F}.
Arguments classic_keyboard {F}.
Arguments idt_descriptors {F}.
Arguments idtr_descriptor {F}.
Arguments k_idtr {F}.
Arguments interrupt_callbacks {F}.
Arguments isr80h_commands {F}.
Arguments k_reads {F}.
Arguments k_writes {F}.

(** What the code does not determine: the addresses of [idt_descriptors], of the interrupt
    stubs and of the buffers of the system calls on the kernel's stack, and the bytes the
    input ports deliver. *)
Class Platform := {
  idt_address : Z;
  interrupt_pointer_table : list Z;
  isr80h_wrapper : Z;
  isr_buf : Z;
  isr_filepath : Z;
  port_byte : nat -> Z
}.

Section isr.
Context {F : Type} {LY : Layout} {FS : Filesystem machine F} {PL : Platform}.
Implicit Types (k : kernel F).

Definition set_k_system (s : system F) k : kernel F :=
  mk_kernel s (k_terminal k) (classic_keyboard k) (idt_descriptors k) (idtr_descriptor k) (k_idtr k)
    (interrupt_callbacks k) (isr80h_commands k) (k_reads k) (k_writes k).
Definition set_k_terminal (t : terminal) k : kernel F :=
  mk_kernel (k_system k) t (classic_keyboard k) (idt_descriptors k) (idtr_descriptor k) (k_idtr k)
    (interrupt_callbacks k) (isr80h_commands k) (k_reads k) (k_writes k).
Definition set_classic (b : keyboard) k : kernel F :=
  mk_kernel (k_system k) (k_terminal k) b (idt_descriptors k) (idtr_descriptor k) (k_idtr k)
    (interrupt_callbacks k) (isr80h_commands k) (k_reads k) (k_writes k).
Definition set_idt (d : list idt_desc) k : kernel F :=
  mk_kernel (k_system k) (k_terminal k) (classic_keyboard k) d (idtr_descriptor k) (k_idtr k)
    (interrupt_callbacks k) (isr80h_commands k) (k_reads k) (k_writes k).
Definition set_idtr_descriptor (r : idtr_desc) k : kernel F :=
  mk_kernel (k_system k) (k_terminal k) (classic_keyboard k) (idt_descriptors k) r (k_idtr k)
    (interrupt_callbacks k) (isr80h_commands k) (k_reads k) (k_writes k).
Definition set_idtr (r : idtr_desc) k : kernel F :=
  mk_kernel (k_system k) (k_terminal k) (classic_keyboard k) (idt_descriptors k) (idtr_descriptor k) r
    (interrupt_callbacks k) (isr80h_commands k) (k_reads k) (k_writes k).
Definition set_callbacks (c : list (option interrupt_callback)) k : kernel F :=
  mk_kernel (k_system k) (k_terminal k) (classic_keyboard k) (idt_descriptors k) (idtr_descriptor k) (k_idtr k)
    c (isr80h_commands k) (k_reads k) (k_writes k).
Definition set_commands (c : list (option isr80h_command)) k : kernel F :=
  mk_kernel (k_system k) (k_terminal k) (classic_keyboard k) (idt_descriptors k) (idtr_descriptor k) (k_idtr k)
    (interrupt_callbacks k) c (k_reads k) (k_writes k).
Definition set_ports (n : nat) (w : list (Z * Z)) k : kernel F :=
  mk_kernel (k_system k) (k_terminal k) (classic_keyboard k) (idt_descriptors k) (idtr_descriptor k) (k_idtr k)
    (interrupt_callbacks k) (isr80h_commands k) n w.

Definition on_sys {A} (m : M (system F) A) : M (kernel F) A := zoom k_system set_k_system m.
Definition on_thr {A} (m : M tasks A) : M (kernel F) A := on_sys (on_tasks m).

(** The input ports and the output ports. *)
Definition insb : M (kernel F) Z :=
  k ← get; modify (set_ports (S (k_reads k)) (k_writes k));; mret (u8 (port_byte (k_reads k))).
Definition outb (port val : Z) : M (kernel F) unit :=
  modify (fun k => set_ports (k_reads k) ((port, u8 val) :: k_writes k) k).

(** ** The interrupt descriptor table *)

Definition idt_set (interrupt_no address : Z) : M (kernel F) unit :=
  d ← gets idt_descriptors;
  _ ← expect (zget d interrupt_no);
  modify (set_idt (zset d interrupt_no
    (mk_idt_desc (Z.land (u32 address) 65535) KERNEL_CODE_SELECTOR 0 238 (u16 (Z.shiftr (u32 address) 16))))).

Definition idt_register_interrupt_callback (interrupt : Z) (callback : option interrupt_callback) : M (kernel F) Z :=
  if (interrupt <? 0) || (KERNEL_TOTAL_INTERRUPTS <=? interrupt) then mret (- EINVAGS)
  else modify (fun k => set_callbacks (zset (interrupt_callbacks k) interrupt callback) k);; mret 0.

Fixpoint idt_set_loop (n : nat) (i : Z) : M (kernel F) unit :=
  match n with
  | O => mret tt
  | S n' =>
      if i <? KERNEL_TOTAL_INTERRUPTS then
        a ← expect (zget interrupt_pointer_table i);
        idt_set i a;;
        idt_set_loop n' (i + 1)
      else mret tt
  end.

Fixpoint register_exceptions_loop (n : nat) (i : Z) : M (kernel F) unit :=
  match n with
  | O => mret tt
  | S n' =>
      if i <? 32 then
        idt_register_interrupt_callback i (Some Idt_handle_exception);;
        register_exceptions_loop n' (i + 1)
      else mret tt
  end.

Definition idt_init : M (kernel F) unit :=
  modify (set_idt (replicate (Z.to_nat KERNEL_TOTAL_INTERRUPTS) zero_desc));;
  modify (set_idtr_descriptor (mk_idtr_desc (u16 (KERNEL_TOTAL_INTERRUPTS * sizeof_idt_desc - 1)) (u32 idt_address)));;
  idt_set_loop (Z.to_nat KERNEL_TOTAL_INTERRUPTS) 0;;
  idt_set 128 isr80h_wrapper;;
  modify (fun k => set_idtr (idtr_descriptor k) k);;
  register_exceptions_loop 32 0.

(** ** The keyboard of the current process *)

Definition current_keyboard : M (system F) (option keyboard_buffer) :=
  process ← process_current;
  if process =? 0 then mret None else p ← the_process process; mret (Some (ps_keyboard p)).

Definition put_keyboard (b : option keyboard_buffer) : M (system F) unit :=
  match b with
  | None => mret tt
  | Some b => process ← process_current; upd_process process (ps_set_keyboard b)
  end.

Definition keyboard_interrupt : M (kernel F) unit :=
  scancode ← insb;
  insb;;
  kb ← gets classic_keyboard;
  b ← on_sys current_keyboard;
  r ← expect (classic_keyboard_handle_interrupt kb b scancode);
  modify (set_classic (fst r));;
  on_sys (put_keyboard (snd r)).

(** ** The handlers *)

Definition idt_handle_exception : M (kernel F) unit :=
  process ← on_sys process_current;
  on_sys (process_terminate process);;
  on_sys task_next.

Definition run_callback (c : interrupt_callback) (frame : interrupt_frame) : M (kernel F) unit :=
  match c with
  | Idt_handle_exception => idt_handle_exception
  | Classic_keyboard_handle_interrupt => keyboard_interrupt
  end.

Definition interrupt_handler (interrupt : Z) (frame : interrupt_frame) : M (kernel F) unit :=
  l ← gets interrupt_callbacks;
  c ← expect (zget l interrupt);
  match c with
  | Some c =>
      on_thr kernel_page;;
      on_thr (task_current_save_state frame);;
      run_callback c frame;;
      on_thr task_page;;
      outb 32 32
  | None => outb 32 32
  end.

(** ** The system calls *)

Definition isr80h_register_command (command : Z) (command_func : isr80h_command) : M (kernel F) unit :=
  if (command <? 0) || (KERNEL_MAX_ISR80H_COMMANDS <=? command) then panic
  else
    l ← gets isr80h_commands;
    c ← expect (zget l command);
    match c with
    | Some _ => panic
    | None => modify (set_commands (zset l command (Some command_func)))
    end.

(** [task_get_stack_item(task_current(), index)] *)
Definition stack_item (index : Z) : M (kernel F) Z :=
  on_thr (cur ← task_current; task_get_stack_item cur index).

(** [task_current()->process] *)
Definition task_process : M (kernel F) Z :=
  on_thr (cur ← task_current; t ← the_thread cur; mret (t_process t)).

Definition isr80h_command0_sum (frame : interrupt_frame) : M (kernel F) Z :=
  item_1 ← stack_item 0;
  item_2 ← stack_item 1;
  mret (u32 (item_1 + item_2)).

(** [buf] is 1024 bytes of the kernel's stack, with what the memory holds there. *)
Definition isr80h_command1_print (frame : interrupt_frame) : M (kernel F) Z :=
  user_string_virt_ptr ← stack_item 0;
  on_thr (cur ← task_current; copy_string_from_task cur user_string_virt_ptr isr_buf 1024);;
  m ← gets (fun k => sy_mem (k_system k));
  t ← gets k_terminal;
  t ← expect (terminal_print t (load_bytes m isr_buf 1024));
  modify (set_k_terminal t);;
  mret 0.

Definition isr80h_command2_getkey (frame : interrupt_frame) : M (kernel F) Z :=
  b ← on_sys current_keyboard;
  let '(c, b) := keyboard_pop b in
  on_sys (put_keyboard b);;
  mret (u32 (i8 c)).

Definition isr80h_command3_putchar (frame : interrupt_frame) : M (kernel F) Z :=
  item ← stack_item 0;
  modify (fun k => set_k_terminal (terminal_print_char (k_terminal k) (u8 item)) k);;
  mret 0.

Definition isr80h_command4_malloc (frame : interrupt_frame) : M (kernel F) Z :=
  item ← stack_item 0;
  process ← task_process;
  on_sys (process_malloc process item).

Definition isr80h_command5_free (frame : interrupt_frame) : M (kernel F) Z :=
  item ← stack_item 0;
  process ← task_process;
  on_sys (process_free process item);;
  mret 0.

(** [char filepath[KERNEL_MAX_PATH] = "0:/"] on the kernel's stack. *)
Definition init_filepath : M (kernel F) unit :=
  on_sys (modify (fun s => set_sy_mem (store_bytes (sy_mem s) isr_filepath
    (48 :: 58 :: 47 :: replicate (Z.to_nat (KERNEL_MAX_PATH - 3)) 0)) s)).
Definition get_filepath : M (kernel F) (list Z) :=
  gets (fun k => load_bytes (sy_mem (k_system k)) isr_filepath KERNEL_MAX_PATH).

(** [task_switch(process->task)] and [task_return(&process->task->registers)] *)
Definition switch_to (process : Z) : M (kernel F) unit :=
  p ← on_sys (the_process process); on_thr (task_switch (ps_task p));; mret tt.
Definition return_to (process : Z) : M (kernel F) Z :=
  p ← on_sys (the_process process); iret (ps_task p).

Definition isr80h_command6_process_load_start (frame : interrupt_frame) : M (kernel F) Z :=
  init_filepath;;
  user_data_ptr ← stack_item 0;
  ret ← on_thr (cur ← task_current; copy_string_from_task cur user_data_ptr (isr_filepath + 3) (KERNEL_MAX_PATH - 3));
  if ret <? 0 then mret (u32 ret)
  else
    filepath ← get_filepath;
    r ← on_sys (process_load_switch filepath);
    let '(ret, process) := r in
    if ret <? 0 then mret (u32 ret)
    else switch_to process;; return_to process.

(** [strlen] of a string in memory; [fuel] bounds its length. *)
Fixpoint mstrlen_loop (fuel : nat) (m : mem) (dir : option Z) (str len : Z) : M (kernel F) Z :=
  match fuel with
  | O => nofuel
  | S fuel' =>
      c ← expect (vld8 m dir (str + len));
      if c =? 0 then mret len else mstrlen_loop fuel' m dir str (len + 1)
  end.

Definition isr80h_command7_invake_system_command (fuel : nat) (frame : interrupt_frame) : M (kernel F) Z :=
  init_filepath;;
  item ← stack_item 0;
  root_command_argument ← on_thr (cur ← task_current; task_virtual_addr_to_physical cur item);
  s ← gets k_system;
  len ← (if root_command_argument =? 0 then mret 0
         else mstrlen_loop fuel (sy_mem s) (cr3_dir s) root_command_argument 0);
  if (root_command_argument =? 0) || (len =? 0) then mret (u32 (- EINVAGS))
  else
    on_thr (t_strncpy (cr3_dir s) (isr_filepath + 3) root_command_argument (KERNEL_MAX_PATH - 3));;
    filepath ← get_filepath;
    r ← on_sys (process_load_switch filepath);
    let '(ret, process) := r in
    if ret <? 0 then mret (u32 ret)
    else
      switch_to process;;
      ret ← on_sys (process_inject_argument fuel process root_command_argument);
      if ret <? 0 then mret (u32 ret) else return_to process.

Definition isr80h_command8_get_program_argument (frame : interrupt_frame) : M (kernel F) Z :=
  item ← stack_item 0;
  argument ← on_thr (cur ← task_current; task_virtual_addr_to_physical cur item);
  process ← task_process;
  r ← on_sys (process_get_argument process);
  on_sys (store32 argument (u32 (fst r)));;
  on_sys (store32 (argument + 4) (snd r));;
  mret 0.

Definition isr80h_command9_exit (frame : interrupt_frame) : M (kernel F) Z :=
  item ← stack_item 0;
  process ← task_process;
  on_sys (process_terminate process);;
  on_sys (upd_process process (ps_set_res (i32 item)));;
  on_sys task_next;;
  mret 0.

Definition run_command (fuel : nat) (c : isr80h_command) (frame : interrupt_frame) : M (kernel F) Z :=
  match c with
  | Command0_sum => isr80h_command0_sum frame
  | Command1_print => isr80h_command1_print frame
  | Command2_getkey => isr80h_command2_getkey frame
  | Command3_putchar => isr80h_command3_putchar frame
  | Command4_malloc => isr80h_command4_malloc frame
  | Command5_free => isr80h_command5_free frame
  | Command6_process_load_start => isr80h_command6_process_load_start frame
  | Command7_invake_system_command => isr80h_command7_invake_system_command fuel frame
  | Command8_get_program_argument => isr80h_command8_get_program_argument frame
  | Command9_exit => isr80h_command9_exit frame
  end.

Definition isr80h_handle_command (fuel : nat) (command : Z) (frame : interrupt_frame) : M (kernel F) Z :=
  if (command <? 0) || (KERNEL_MAX_ISR80H_COMMANDS <=? command) then mret 0
  else
    l ← gets isr80h_commands;
    c ← expect (zget l command);
    match c with
    | None => mret 0
    | Some command_func => run_command fuel command_func frame
    end.

Definition isr80h_handler (fuel : nat) (command : Z) (frame : interrupt_frame) : M (kernel F) Z :=
  on_thr kernel_page;;
  on_thr (task_current_save_state frame);;
  res ← isr80h_handle_command fuel command frame;
  on_thr task_page;;
  mret res.

(** [enum SystemCommands] numbers the commands from 0. *)
Definition isr80h_register_commands : M (kernel F) unit :=
  isr80h_register_command 0 Command0_sum;;
  isr80h_register_command 1 Command1_print;;
  isr80h_register_command 2 Command2_getkey;;
  isr80h_register_command 3 Command3_putchar;;
  isr80h_register_command 4 Command4_malloc;;
  isr80h_register_command 5 Command5_free;;
  isr80h_register_command 6 Command6_process_load_start;;
  isr80h_register_command 7 Command7_invake_system_command;;
  isr80h_register_command 8 Command8_get_program_argument;;
  isr80h_register_command 9 Command9_exit.
End isr.

(** ** Steps *)

Section steps.
Context {F : Type} {LY : Layout} {FS : Filesystem machine F} {SP : FilesystemSpec machine F}
  {LF : FilesystemLaws machine F} {PL : Platform}.
Implicit Types (k : kernel F).

Definition k_tasks k : tasks := sy_tasks (k_system k).
Definition k_mem k : mem := sy_mem (k_system k).
Definition set_k_tasks (t : tasks) k : kernel F := set_k_system (set_sy_tasks t (k_system k)) k.

Lemma sy_tasks_set t (s : system F) : sy_tasks (set_sy_tasks t s) = t.
Proof. unfold sy_tasks, set_sy_tasks. rewrite sy_mach_set. by destruct t. Qed.

Lemma k_tasks_set t k : k_tasks (set_k_tasks t k) = t.
Proof. apply sy_tasks_set. Qed.

Lemma set_k_tasks_set t t' k : set_k_tasks t (set_k_tasks t' k) = set_k_tasks t k.
Proof.
  unfold set_k_tasks, set_k_system. simpl. f_equal. unfold set_sy_tasks, set_threads_of. simpl.
  unfold set_mach. simpl. unfold set_l_vfs. simpl. by rewrite upd_upd.
Qed.

Lemma k_mem_set t k : k_mem (set_k_tasks t k) = t_mem t.
Proof. unfold k_mem, sy_mem, t_mem. f_equal. apply sy_mach_set. Qed.

(** The threads carry the machine of the file system. *)
Definition synced k : Prop := t_machine (sy_threads (k_system k)) = sy_mach (k_system k).

Lemma synced_set t k : synced (set_k_tasks t k).
Proof. unfold synced, set_k_tasks, set_sy_tasks. simpl. by rewrite sy_mach_set. Qed.

Lemma set_k_tasks_same k : synced k -> set_k_tasks (k_tasks k) k = k.
Proof.
  intros Hs. assert (E : k_tasks k = sy_threads (k_system k)).
  { unfold k_tasks, sy_tasks. rewrite <- Hs. by destruct (sy_threads (k_system k)). }
  unfold set_k_tasks. rewrite E. unfold set_sy_tasks. rewrite Hs.
  replace (set_threads_of (sy_threads (k_system k)) (k_system k)) with (k_system k) by (by destruct (k_system k)).
  rewrite set_mach_same. by destruct k.
Qed.

Lemma bind_sys {A T} (m : M (system F) A) (f : A -> M (kernel F) T) k a s :
  m (k_system k) = Done a s -> (on_sys m ≫= f) k = f a (set_k_system s k).
Proof. intros E. apply bind_Done. by apply zoom_Done. Qed.

Lemma bind_thr {A T} (m : M tasks A) (f : A -> M (kernel F) T) k a t :
  m (k_tasks k) = Done a t -> (on_thr m ≫= f) k = f a (set_k_tasks t k).
Proof. intros E. apply bind_sys. by apply zoom_Done. Qed.

(** ** Entering and leaving the kernel *)

(** The running thread is [c], with fields [t]. *)
Record running k (c : Z) (t : thread_info) : Prop := {
  rn_current : current_task (sy_threads (k_system k)) = c;
  rn_nonzero : c <> 0;
  rn_thread : t_threads (sy_threads (k_system k)) !! c = Some t
}.

(** The threads once the kernel has been entered from [c] with the registers of [frame]. *)
Definition entered_tasks (frame : interrupt_frame) (c : Z) (t : thread_info) (ts : tasks) : tasks :=
  put_thread c (task_save_state t frame) (set_cr3 (paging_switch (t_mem ts) (t_kernel_chunk ts)) ts).
Definition entered (frame : interrupt_frame) (c : Z) (t : thread_info) k : kernel F :=
  set_k_tasks (entered_tasks frame c t (k_tasks k)) k.

(** In the kernel on behalf of thread [c]. *)
Record in_kernel k (c : Z) (t : thread_info) : Prop := {
  ik_running : running k c t;
  ik_synced : synced k;
  ik_cr3 : t_cr3 (sy_threads (k_system k)) = paging_switch (k_mem k) (t_kernel_chunk (sy_threads (k_system k)))
}.

(** Back in the address space of [c]. *)
Definition left_kernel (c : Z) (t : thread_info) k : kernel F :=
  set_k_tasks (set_cr3 (paging_switch (k_mem k) (page_directory t)) (set_current c (k_tasks k))) k.

Lemma entered_in_kernel frame c t k :
  running k c t -> in_kernel (entered frame c t k) c (task_save_state t frame).
Proof.
  intros [Hc H0 Ht]. constructor; [|apply synced_set|].
  - constructor; [exact Hc|exact H0|apply lookup_insert_eq].
  - unfold entered. rewrite k_mem_set. reflexivity.
Qed.

Lemma bind_enter {T} frame c t k (f : unit -> M (kernel F) T) :
  running k c t ->
  (on_thr kernel_page ≫= (fun _ => on_thr (task_current_save_state frame) ≫= f)) k = f tt (entered frame c t k).
Proof.
  intros [Hc H0 Ht]. rewrite (bind_thr _ _ _ tt (set_cr3 (paging_switch (t_mem (k_tasks k)) (t_kernel_chunk (k_tasks k))) (k_tasks k)) eq_refl).
  assert (E : task_current_save_state frame (k_tasks (set_k_tasks (set_cr3 (paging_switch (t_mem (k_tasks k)) (t_kernel_chunk (k_tasks k))) (k_tasks k)) k)) =
    Done tt (entered_tasks frame c t (k_tasks k))).
  { rewrite k_tasks_set. unfold task_current_save_state, task_current. rewrite bind_gets.
    change (current_task (set_cr3 _ (k_tasks k))) with (current_task (sy_threads (k_system k))). rewrite Hc.
    rewrite (proj2 (Z.eqb_neq c 0) H0). by rewrite (bind_thread _ _ _ t) by exact Ht. }
  rewrite (bind_thr _ _ _ _ _ E). unfold entered. by rewrite set_k_tasks_set.
Qed.

Lemma bind_task_page {T} c t k (f : Z -> M (kernel F) T) :
  running k c t -> (on_thr task_page ≫= f) k = f 0 (left_kernel c t k).
Proof.
  intros [Hc H0 Ht]. apply bind_thr. unfold task_page, task_switch. rewrite bind_gets.
  change (current_task (k_tasks k)) with (current_task (sy_threads (k_system k))). rewrite Hc.
  rewrite bind_assoc, bind_modify, bind_assoc, (bind_thread _ _ _ t) by exact Ht. rewrite bind_assoc, bind_modify. done.
Qed.

(** The words of the running thread's stack. *)
Definition stack_word k (t : thread_info) (index v : Z) : Prop :=
  vld32 (k_mem k) (Some (paging_switch (k_mem k) (page_directory t))) (r_esp (regs t) + 4 * index) = Some v.

Lemma bind_stack_item {T} c t k index v (f : Z -> M (kernel F) T) :
  in_kernel k c t -> stack_word k t index v -> (stack_item index ≫= f) k = f v k.
Proof.
  intros [[Hc H0 Ht] Hs Hcr] Hw. unfold stack_item.
  rewrite (bind_thr _ _ _ v (k_tasks k)); [by rewrite set_k_tasks_same|].
  unfold task_current. rewrite bind_gets. change (current_task (k_tasks k)) with (current_task (sy_threads (k_system k))). rewrite Hc.
  unfold task_get_stack_item, task_page_task, task_switch. rewrite (bind_thread _ _ _ t) by exact Ht.
  rewrite bind_assoc, bind_assoc, bind_modify, bind_assoc, (bind_thread _ _ _ t) by exact Ht.
  rewrite bind_assoc, bind_modify, bind_ret, bind_ret. unfold get. unfold mbind at 1, M_bind at 1.
  rewrite (bind_expect _ _ _ v) by exact Hw. unfold kernel_page. rewrite bind_modify.
  unfold k_tasks, sy_tasks. unfold mret, M_ret. f_equal. destruct (sy_threads (k_system k)) as [m th cu he ta cr kc]. simpl in *.
  subst c. unfold set_cr3, set_current, set_t_machine, t_mem. simpl. f_equal. symmetry. exact Hcr.
Qed.

Lemma bind_task_process {T} c t k (f : Z -> M (kernel F) T) :
  in_kernel k c t -> (task_process ≫= f) k = f (t_process t) k.
Proof.
  intros [[Hc H0 Ht] Hs Hcr]. unfold task_process. rewrite (bind_thr _ _ _ (t_process t) (k_tasks k)); [by rewrite set_k_tasks_same|].
  unfold task_current. rewrite bind_gets. change (current_task (k_tasks k)) with (current_task (sy_threads (k_system k))). rewrite Hc.
  by rewrite (bind_thread _ _ _ t) by exact Ht.
Qed.

(** What a system call does whose work [m] is done on the entered state. *)
Lemma handler_run fuel command frame c t t' k res k1 :
  running k c t -> isr80h_handle_command fuel command frame (entered frame c t k) = Done res k1 ->
  running k1 c t' -> isr80h_handler fuel command frame k = Done res (left_kernel c t' k1).
Proof.
  intros Hr E Hr1. unfold isr80h_handler. rewrite (bind_enter frame c t) by done.
  rewrite (bind_Done _ _ _ _ _ E). by rewrite (bind_task_page c t').
Qed.

(** The commands the kernel registers. *)
Definition command_table : list isr80h_command :=
  [Command0_sum; Command1_print; Command2_getkey; Command3_putchar; Command4_malloc; Command5_free;
   Command6_process_load_start; Command7_invake_system_command; Command8_get_program_argument; Command9_exit].
Definition registered_table : list (option isr80h_command) :=
  map Some command_table ++ replicate (Z.to_nat (KERNEL_MAX_ISR80H_COMMANDS - 10)) None.

Lemma handle_command_run fuel command cmd frame k :
  isr80h_commands k = registered_table -> zget command_table command = Some cmd ->
  isr80h_handle_command fuel command frame k = run_command fuel cmd frame k.
Proof.
  intros Ht Hc. pose proof (zget_Some_range _ _ _ Hc) as Hr. change (zlen command_table) with 10 in Hr.
  unfold isr80h_handle_command. rewrite (proj2 (Z.ltb_ge command 0)) by lia.
  rewrite (proj2 (Z.leb_gt KERNEL_MAX_ISR80H_COMMANDS command)) by (unfold KERNEL_MAX_ISR80H_COMMANDS; lia). cbn [orb].
  rewrite bind_gets, Ht. rewrite (bind_expect _ _ _ (Some cmd)); [done|].
  unfold registered_table. rewrite zget_app. change (zlen (map Some command_table)) with 10.
  rewrite (proj2 (Z.ltb_lt command 10)) by lia. unfold zget in *. rewrite (proj2 (Z.leb_le 0 command)) in * by lia.
  rewrite list_lookup_fmap. by rewrite Hc.
Qed.

Lemma handle_command_none fuel command frame k :
  isr80h_commands k = registered_table -> command < 0 \/ 10 <= command ->
  isr80h_handle_command fuel command frame k = Done 0 k.
Proof.
  intros Ht Hc. unfold isr80h_handle_command. destruct (Z.ltb_spec command 0); [done|]. cbn [orb].
  destruct (Z.leb_spec KERNEL_MAX_ISR80H_COMMANDS command) as [?|Hm]; [done|]. unfold KERNEL_MAX_ISR80H_COMMANDS in Hm.
  rewrite bind_gets, Ht. rewrite (bind_expect _ _ _ None); [done|]. unfold registered_table. rewrite zget_app.
  change (zlen (map Some command_table)) with 10. rewrite (proj2 (Z.ltb_ge command 10)) by lia.
  rewrite zget_replicate. unfold KERNEL_MAX_ISR80H_COMMANDS.
  rewrite (proj2 (Z.leb_le 0 _)), (proj2 (Z.ltb_lt _ _)) by lia. done.
Qed.

Lemma register_commands_run k :
  isr80h_commands k = replicate (Z.to_nat KERNEL_MAX_ISR80H_COMMANDS) None ->
  isr80h_register_commands k = Done tt (set_commands registered_table k).
Proof. destruct k as [a b c d e f g h i j]. cbn [isr80h_commands]. intros ->. vm_compute. reflexivity. Qed.

Lemma register_again k : isr80h_commands k = registered_table -> isr80h_register_commands k = Panic k.
Proof. destruct k as [a b c d e f g h i j]. cbn [isr80h_commands]. intros ->. vm_compute. reflexivity. Qed.

(** ** Printing *)

Lemma terminal_print_holds t buf str :
  holds buf str -> terminal_print t buf = Some (fold_left (fun t c => terminal_write_char t c 15) str t).
Proof.
  intros H. unfold terminal_print. rewrite (strlen_spec _ _ H). destruct H as [_ [rest ->]].
  unfold zlen. rewrite Nat2Z.id. by rewrite take_app_length.
Qed.

Lemma load_bytes_split m a n p : 0 <= p <= n -> load_bytes m a n = load_bytes m a p ++ load_bytes m (a + p) (n - p).
Proof.
  intros Hp. unfold load_bytes. apply zlist_eq.
  - rewrite zlen_app. unfold zlen. rewrite !length_map, !length_seqZ. lia.
  - intros i Hi. unfold zlen in Hi. rewrite length_map, length_seqZ in Hi. rewrite zget_app. unfold zlen at 1 2.
    rewrite length_map, length_seqZ, zget_map_seqZ by lia. destruct (Z.ltb_spec i (Z.of_nat (Z.to_nat p))).
    + by rewrite zget_map_seqZ by lia.
    + rewrite zget_map_seqZ by lia. do 2 f_equal. lia.
Qed.

(** The string [isr80h_command1_print] shows for the user's string [str]: for the empty one
    the kernel's [strncpy] writes nothing, so what was in the buffer before is shown. *)
Definition shown (str old : list Z) : list Z := match str with [] => old | _ => str end.

Lemma copied_shown s s' chunk tmp virtual phys str old n :
  copied s s' chunk tmp virtual phys str -> zlen str < n -> 0 <= phys -> phys + n < 4294967296 ->
  Forall (fun c => 0 < c < 256) str -> (str = [] -> holds (load_bytes (t_mem s) phys n) old) ->
  (forall j, 0 <= j < n -> untouched (t_heap s) (t_mem s) chunk (phys + j)) ->
  holds (load_bytes (t_mem s') phys n) (shown str old).
Proof.
  intros Hc Hn Hp Hpn Hch Hold Hun. pose proof (cp_bytes _ _ _ _ _ _ _ Hc) as Hb. pose proof (cp_frame _ _ _ _ _ _ _ Hc) as Hf.
  destruct str as [|c str'] eqn:Es; cbn [shown].
  - replace (load_bytes (t_mem s') phys n) with (load_bytes (t_mem s) phys n) by
      (apply map_ext_in; intros j Hj; apply list_elem_of_In, elem_of_seqZ in Hj; unfold ld8; rewrite u32_small by lia;
       symmetry; apply Hf; [apply Hun; lia|by left]).
    by apply Hold.
  - rewrite <- Es in *. rewrite (load_bytes_split _ _ _ (zlen str + 1)) by (pose proof (zlen_nonneg str); lia). rewrite Hb.
    rewrite <- app_assoc. by apply holds_intro.
Qed.

(** An address space in order. *)
Record user_space k (t : thread_info) : Prop := {
  us_heap : kheap_ok (m_heap (sy_mach (k_system k)));
  us_mem : mem_ok (k_mem k);
  us_space : space_ok (k_mem k) (page_directory t);
  us_live : forall b, b ∈ space_blocks (k_mem k) (page_directory t) -> live (m_heap (sy_mach (k_system k))) b 1
}.

(** An address in the first 16 MB is in no block of the heap. *)
Lemma low_untouched k t x :
  user_space k t -> x < KERNEL_HEAP_ADDRESS -> untouched (m_heap (sy_mach (k_system k))) (k_mem k) (page_directory t) x.
Proof.
  intros Hu Hx. split; [by left|]. intros b Hb Hbx.
  pose proof (live_heap_address _ _ _ (us_heap _ _ Hu) (us_live _ _ Hu b Hb)). lia.
Qed.

(** The copy of the user's string fails: no string, or no scratch page. *)
Definition copy_fails k (virtual : Z) : bool := (virtual =? 0) || (free_blocks (m_heap (sy_mach (k_system k))) =? 0).

Lemma command_print_run frame c t k virtual str :
  in_kernel k c t -> user_space k t -> stack_word k t 0 virtual -> 0 < virtual ->
  0 < free_blocks (m_heap (sy_mach (k_system k))) ->
  user_string (m_heap (sy_mach (k_system k))) (k_mem k) (page_directory t) virtual str ->
  Forall (fun c => 0 < c < 256) str ->
  0 < isr_buf -> isr_buf + 1025 <= KERNEL_HEAP_ADDRESS ->
  exists tmp s',
    copied (k_tasks k) s' (page_directory t) tmp virtual isr_buf (cut 1024 str) /\
    isr80h_command1_print frame k =
      (t ← gets k_terminal;
       t ← expect (terminal_print t (load_bytes (t_mem s') isr_buf 1024));
       modify (set_k_terminal t);; mret 0) (set_k_tasks s' k).
Proof.
  intros Hk Hu Hw Hv Hf Hs Hc Hb1 Hb2. pose proof (fun x => low_untouched k t x Hu) as Hlow. unfold KERNEL_HEAP_ADDRESS in *.
  pose proof (zlen_nonneg str). assert (Hcl : 0 <= zlen (cut 1024 str) <= 1024) by (rewrite cut_len; lia).
  destruct (copy_total (k_tasks k) c t virtual isr_buf 1024 str) as (tmp & s' & E & Hcp); try (apply Hu); try done; try lia.
  { apply (rn_nonzero _ _ _ (ik_running _ _ _ Hk)). }
  { apply (rn_thread _ _ _ (ik_running _ _ _ Hk)). }
  { intros j Hj. apply Hlow. lia. }
  exists tmp, s'. split; [exact Hcp|]. unfold isr80h_command1_print. rewrite (bind_stack_item c t _ _ virtual) by done.
  assert (E' : (cur ← task_current; copy_string_from_task cur virtual isr_buf 1024) (k_tasks k) = Done 0 s').
  { unfold task_current. rewrite bind_gets. change (current_task (k_tasks k)) with (current_task (sy_threads (k_system k))).
    by rewrite (rn_current _ _ _ (ik_running _ _ _ Hk)). }
  rewrite (bind_thr _ _ _ _ _ E'), bind_gets. fold (k_mem (set_k_tasks s' k)). by rewrite k_mem_set.
Qed.

(** The state after the print of [text] for the thread [t]. *)
Record printed k k' (c : Z) (t : thread_info) (text : list Z) : Prop := {
  pr_running : running k' c t;
  pr_terminal : k_terminal k' = fold_left (fun tm ch => terminal_write_char tm ch 15) text (k_terminal k);
  pr_directory : directory_entry (k_mem k') (page_directory t) = directory_entry (k_mem k) (page_directory t);
  pr_own : own_same (m_heap (sy_mach (k_system k))) (m_heap (sy_mach (k_system k')));
  pr_procs : sy_procs (k_system k') = sy_procs (k_system k)
}.

Lemma print_failed frame k c t virtual old :
  in_kernel k c t -> user_space k t -> stack_word k t 0 virtual -> copy_fails k virtual = true ->
  holds (load_bytes (k_mem k) isr_buf 1024) old ->
  exists k', isr80h_command1_print frame k = Done 0 k' /\ printed k k' c t old.
Proof.
  intros Hk Hu Hw Hcf Hold. pose proof Hk as [Hr Hsy _]. exists (set_k_terminal (fold_left (fun tm ch => terminal_write_char tm ch 15) old (k_terminal k)) k).
  assert (E : exists res, (cur ← task_current; copy_string_from_task cur virtual isr_buf 1024) (k_tasks k) = Done res (k_tasks k)).
  { unfold task_current. rewrite bind_gets. unfold copy_string_from_task. destruct (_ || _) eqn:E0; [by eexists|].
    change ((1024 <? 0) || (PAGING_PAGE_SIZE <? 1024)) with false. cbv iota. unfold copy_fails in Hcf.
    destruct (virtual =? 0) eqn:Hv; [rewrite orb_true_r in E0; discriminate E0|]. cbn [orb] in Hcf. apply Z.eqb_eq in Hcf.
    destruct (kzalloc_spec (t_machine (k_tasks k)) 1024 (us_heap _ _ Hu) ltac:(done)) as (a & h & Ea & Hok & D).
    destruct D as [[-> ->]|(Ha & _)].
    - rewrite (bind_machine _ _ _ _ _ Ea). change (0 =? 0) with true. cbv iota. unfold set_t_machine. exists (- ENOMEM). by destruct (k_tasks k).
    - exfalso. pose proof (kzalloc_count (t_machine (k_tasks k)) 1024 a h (us_heap _ _ Hu) ltac:(done) Ea ltac:(lia)) as Hc.
      change (blocks_of 1024) with 1 in Hc. pose proof (zlen_nonneg (filter is_free (enteies (table (m_heap h))))). unfold free_blocks in *.
      change (m_heap (t_machine (k_tasks k))) with (m_heap (sy_mach (k_system k))) in Hc. lia. }
  destruct E as [res E]. split.
  - unfold isr80h_command1_print. rewrite (bind_stack_item c t _ _ virtual) by done. rewrite (bind_thr _ _ _ _ _ E), set_k_tasks_same by done.
    rewrite !bind_gets. rewrite (bind_expect _ _ _ _ (terminal_print_holds _ _ _ Hold)). done.
  - constructor; [by destruct Hr; constructor|done|done|done|done].
Qed.

Lemma printed_copied k s' c t tmp virtual str text :
  in_kernel k c t -> copied (k_tasks k) s' (page_directory t) tmp virtual isr_buf str ->
  printed k (set_k_terminal (fold_left (fun tm ch => terminal_write_char tm ch 15) text (k_terminal k)) (set_k_tasks s' k)) c t text.
Proof.
  intros Hk Hcp. destruct (cp_current _ _ _ _ _ _ _ Hcp) as (Ec & _). destruct (ik_running _ _ _ Hk) as [H1 H2 H3].
  set (k1 := set_k_terminal _ _). assert (Em : k_mem k1 = t_mem s') by apply k_mem_set.
  assert (Eh : sy_mach (k_system k1) = t_machine s') by apply sy_mach_set. constructor.
  - constructor; [exact (eq_trans Ec H1)|exact H2|]. rewrite <- H3. change (t_threads s' !! c = t_threads (k_tasks k) !! c).
    by rewrite (cp_threads _ _ _ _ _ _ _ Hcp).
  - done.
  - rewrite Em. exact (proj2 (cp_space _ _ _ _ _ _ _ Hcp)).
  - rewrite Eh. exact (proj2 (cp_heap _ _ _ _ _ _ _ Hcp)).
  - done.
Qed.

(** A string of 1024 characters or more leaves no terminator in the 1024 bytes. *)
Lemma copied_full s s' chunk tmp virtual phys str :
  copied s s' chunk tmp virtual phys (cut 1024 str) -> Forall (fun c => 0 < c < 256) str -> 1024 <= zlen str ->
  strlen (load_bytes (t_mem s') phys 1024) = None.
Proof.
  intros Hc Hch Hl. pose proof (cp_bytes _ _ _ _ _ _ _ Hc) as Hb. rewrite cut_len in Hb by lia.
  rewrite Z.min_l in Hb by lia. change (1024 + 1) with 1025 in Hb. rewrite (load_bytes_split _ _ 1025 1024) in Hb by lia.
  assert (Hz : zlen (cut 1024 str) = 1024) by (rewrite cut_len; lia).
  destruct (cut 1024 str) as [|ch w] eqn:Ew; [discriminate Hz|]. rewrite <- Ew in *. apply app_inj_1 in Hb as [-> _].
  - apply strlen_none. unfold cut. apply Forall_take. eapply Forall_impl; [exact Hch|]. simpl. lia.
  - unfold zlen in Hz. apply Nat2Z.inj. rewrite Hz. unfold load_bytes. by rewrite length_map, length_seqZ.
Qed.

Lemma print_total frame k c t virtual str old :
  in_kernel k c t -> user_space k t -> stack_word k t 0 virtual -> 0 <= virtual ->
  user_string (m_heap (sy_mach (k_system k))) (k_mem k) (page_directory t) virtual str ->
  Forall (fun c => 0 < c < 256) str -> 0 < isr_buf -> isr_buf + 1025 <= KERNEL_HEAP_ADDRESS ->
  (str = [] \/ copy_fails k virtual = true -> holds (load_bytes (k_mem k) isr_buf 1024) old) ->
  if negb (copy_fails k virtual) && (1024 <=? zlen str) then isr80h_command1_print frame k = Fault
  else exists k', isr80h_command1_print frame k = Done 0 k' /\ printed k k' c t (if copy_fails k virtual then old else shown str old).
Proof.
  intros Hk Hu Hw Hv Hs Hc Hb1 Hb2 Hold. destruct (copy_fails k virtual) eqn:Ef; cbn [negb andb].
  { apply (print_failed frame k c t virtual); [exact Hk|exact Hu|exact Hw|exact Ef|]. apply Hold. by right. }
  unfold copy_fails in Ef. apply orb_false_iff in Ef as [Ev%Z.eqb_neq Efr%Z.eqb_neq].
  pose proof (zlen_nonneg (filter is_free (enteies (table (m_heap (sy_mach (k_system k))))))) as Hf0. fold (free_blocks (m_heap (sy_mach (k_system k)))) in Hf0.
  destruct (command_print_run frame c t k virtual str Hk Hu Hw ltac:(lia) ltac:(lia) Hs Hc Hb1 Hb2) as (tmp & s' & Hcp & E).
  rewrite E, bind_gets. destruct (Z.leb_spec 1024 (zlen str)) as [Hl|Hl].
  - unfold terminal_print. by rewrite (copied_full _ _ _ _ _ _ _ Hcp Hc Hl).
  - rewrite cut_short in Hcp by lia. eexists. split; [|by eapply printed_copied].
    rewrite (bind_expect _ _ _ (fold_left (fun t c => terminal_write_char t c 15) (shown str old) (k_terminal k))); [done|].
    apply terminal_print_holds. unfold KERNEL_HEAP_ADDRESS in Hb2.
    apply (copied_shown _ _ _ _ _ _ _ _ _ Hcp); try done; try lia; [intros H; apply Hold; by left|].
    intros j Hj. apply (low_untouched k t _ Hu). unfold KERNEL_HEAP_ADDRESS. lia.
Qed.

(** ** Keys *)

Lemma current_keyboard_run k a p :
  current_process (k_system k) = a -> a <> 0 -> sy_procs (k_system k) !! a = Some p ->
  current_keyboard (k_system k) = Done (Some (ps_keyboard p)) (k_system k).
Proof.
  intros Hc H0 Hp. unfold current_keyboard, process_current. rewrite bind_gets, Hc, (proj2 (Z.eqb_neq a 0) H0).
  by rewrite (bind_proc _ _ _ _ Hp).
Qed.

Lemma put_keyboard_run k a p b :
  current_process (k_system k) = a -> sy_procs (k_system k) !! a = Some p ->
  put_keyboard (Some b) (k_system k) = Done tt (put_proc a (ps_set_keyboard b p) (k_system k)).
Proof.
  intros Hc Hp. unfold put_keyboard, process_current. rewrite bind_gets, Hc. unfold upd_process.
  by rewrite (bind_proc _ _ _ _ Hp).
Qed.

(** The queue of the current process. *)
Record typing k (a : Z) (p : task_struct) (q : list Z) : Prop := {
  ty_current : current_process (k_system k) = a;
  ty_nonzero : a <> 0;
  ty_proc : sy_procs (k_system k) !! a = Some p;
  ty_ok : buffer_ok (ps_keyboard p);
  ty_queue : contents (ps_keyboard p) = q
}.

Lemma classic_press kb b scancode ch :
  0 <= scancode < 128 -> scancode <> CLASSIC_KEYBOARD_CAPSLOCK ->
  classic_keyboard_scancode_to_char kb scancode = Some ch -> buffer_ok b ->
  exists b', classic_keyboard_handle_interrupt kb (Some b) scancode = Some (kb, Some b') /\ buffer_ok b' /\
    contents b' = spec_push (contents b) ch.
Proof.
  intros Hs Hn Hc Hb. unfold classic_keyboard_handle_interrupt. rewrite land_released by lia.
  rewrite (proj2 (Z.ltb_lt scancode 128)) by lia. cbn [negb]. rewrite (proj2 (Z.eqb_neq _ _) Hn), Hc.
  destruct (keyboard_push_refines b ch Hb) as (b' & E & Hb' & Hq). destruct (Z.eqb_spec ch 0) as [-> |H0]; cbn [negb].
  - exists b. split; [done|]. split; [done|]. reflexivity.
  - exists b'. by rewrite E.
Qed.

Lemma keyboard_interrupt_run k a p q scancode ch :
  typing k a p q -> u8 (port_byte (k_reads k)) = scancode -> scancode < 128 -> scancode <> CLASSIC_KEYBOARD_CAPSLOCK ->
  classic_keyboard_scancode_to_char (classic_keyboard k) scancode = Some ch ->
  exists b, buffer_ok b /\ contents b = spec_push q ch /\
    keyboard_interrupt k =
      Done tt (set_k_system (put_proc a (ps_set_keyboard b p) (k_system k)) (set_ports (S (S (k_reads k))) (k_writes k) k)).
Proof.
  intros [Hc H0 Hp Hok Hq] Hsc Hlt Hcaps Hch. pose proof (u8_range (port_byte (k_reads k))) as Hr. rewrite Hsc in Hr.
  destruct (classic_press (classic_keyboard k) (ps_keyboard p) scancode ch ltac:(lia) Hcaps Hch Hok) as (b & E & Hb & Hbq).
  exists b. split; [exact Hb|]. split; [by rewrite Hbq, Hq|]. unfold keyboard_interrupt.
  change (insb k) with (@Done (kernel F) Z (u8 (port_byte (k_reads k))) (set_ports (S (k_reads k)) (k_writes k) k)).
  rewrite (bind_Done insb _ k (u8 (port_byte (k_reads k))) (set_ports (S (k_reads k)) (k_writes k) k)) by done.
  rewrite (bind_Done insb _ _ (u8 (port_byte (S (k_reads k)))) (set_ports (S (S (k_reads k))) (k_writes k) k)) by done.
  rewrite bind_gets. rewrite (bind_sys _ _ _ _ _ (current_keyboard_run (set_ports (S (S (k_reads k))) (k_writes k) k) a p Hc H0 Hp)).
  change (classic_keyboard (set_ports (S (S (k_reads k))) (k_writes k) k)) with (classic_keyboard k).
  rewrite Hsc, (bind_expect _ _ _ _ E), bind_modify. cbn [fst snd]. unfold on_sys. apply zoom_Done.
  exact (put_keyboard_run k a p b Hc Hp).
Qed.

Lemma entered_mach frame c t k : sy_mach (k_system (entered frame c t k)) = sy_mach (k_system k).
Proof. unfold entered. transitivity (t_machine (entered_tasks frame c t (k_tasks k))); [apply sy_mach_set|done]. Qed.

Lemma entered_mem frame c t k : k_mem (entered frame c t k) = k_mem k.
Proof. unfold entered. by rewrite k_mem_set. Qed.

Lemma left_mach c t k : sy_mach (k_system (left_kernel c t k)) = sy_mach (k_system k).
Proof. unfold left_kernel. apply sy_mach_set. Qed.

Lemma left_running c t k : running k c t -> running (left_kernel c t k) c t.
Proof. intros [H1 H2 H3]. constructor; [done|exact H2|exact H3]. Qed.

Lemma left_cr3 c t k : t_cr3 (k_tasks (left_kernel c t k)) = directory_entry (k_mem k) (page_directory t).
Proof. unfold left_kernel. by rewrite k_tasks_set. Qed.

Lemma user_space_entered frame c t k :
  user_space k t -> user_space (entered frame c t k) (task_save_state t frame).
Proof.
  intros [H1 H2 H3 H4]. pose proof (entered_mem frame c t k) as Em. pose proof (entered_mach frame c t k) as Eh.
  constructor; rewrite ?Eh, ?Em; assumption.
Qed.

Lemma stack_word_entered frame c t t' k i v : stack_word k t' i v -> stack_word (entered frame c t k) t' i v.
Proof. unfold stack_word. by rewrite entered_mem. Qed.

(** The keyboard interrupt, and the call that reads a key. *)
Lemma key_press_run frame c t k a p q ch :
  zget (interrupt_callbacks k) ISR_KEYBOARD_INTERRUPT = Some (Some Classic_keyboard_handle_interrupt) ->
  running k c t -> typing k a p q ->
  u8 (port_byte (k_reads k)) < 128 -> u8 (port_byte (k_reads k)) <> CLASSIC_KEYBOARD_CAPSLOCK ->
  classic_keyboard_scancode_to_char (classic_keyboard k) (u8 (port_byte (k_reads k))) = Some ch ->
  exists p' k', interrupt_handler ISR_KEYBOARD_INTERRUPT frame k = Done tt k' /\
    running k' c (task_save_state t frame) /\ typing k' a p' (spec_push q ch) /\
    t_cr3 (k_tasks k') = directory_entry (k_mem k) (page_directory t) /\
    isr80h_commands k' = isr80h_commands k /\ k_writes k' = (32, 32) :: k_writes k.
Proof.
  intros Hcb Hr Hty Hlt Hcaps Hch. unfold interrupt_handler. rewrite bind_gets, (bind_expect _ _ _ _ Hcb).
  rewrite (bind_enter frame c t) by done. cbn [run_callback].
  assert (Hty1 : typing (entered frame c t k) a p q) by (destruct Hty; by constructor).
  destruct (keyboard_interrupt_run (entered frame c t k) a p q _ ch Hty1 eq_refl Hlt Hcaps Hch) as (b & Hb & Hq & E).
  rewrite (bind_Done _ _ _ _ _ E). set (k1 := set_k_system _ _).
  assert (Hr1 : running k1 c (task_save_state t frame)).
  { destruct (ik_running _ _ _ (entered_in_kernel frame c t k Hr)) as [H1 H2 H3]. by constructor. }
  rewrite (bind_task_page c (task_save_state t frame)) by done.
  exists (ps_set_keyboard b p). eexists. split; [reflexivity|]. split; [|split; [|split; [|by split]]].
  - destruct (left_running _ _ _ Hr1) as [H1 H2 H3]. by constructor.
  - destruct Hty as [H1 H2 H3 H4 H5]. constructor; [exact H1|exact H2|apply lookup_insert_eq|exact Hb|exact Hq].
  - transitivity (t_cr3 (k_tasks (left_kernel c (task_save_state t frame) k1))); [done|]. rewrite left_cr3.
    change (k_mem k1) with (k_mem (entered frame c t k)). by rewrite entered_mem.
Qed.

Lemma getkey_run fuel frame c t k a p q :
  isr80h_commands k = registered_table -> running k c t -> typing k a p q ->
  exists p' k', isr80h_handler fuel 2 frame k = Done (u32 (i8 (fst (spec_pop q)))) k' /\
    running k' c (task_save_state t frame) /\ typing k' a p' (snd (spec_pop q)) /\
    t_cr3 (k_tasks k') = directory_entry (k_mem k) (page_directory t).
Proof.
  intros Hcmd Hr Hty. pose proof (entered_in_kernel frame c t k Hr) as Hin.
  destruct Hty as [H1 H2 H3 H4 H5]. destruct (keyboard_pop_refines (ps_keyboard p) H4) as (b & E & Hb & Hq). rewrite H5 in E, Hq.
  set (k1 := set_k_system (put_proc a (ps_set_keyboard b p) (k_system (entered frame c t k))) (entered frame c t k)).
  assert (Hr1 : running k1 c (task_save_state t frame)) by (destruct (ik_running _ _ _ Hin) as [R1 R2 R3]; by constructor).
  exists (ps_set_keyboard b p), (left_kernel c (task_save_state t frame) k1). split; [|split; [by apply left_running|split]].
  - apply (handler_run _ _ _ _ t); [exact Hr| |exact Hr1]. rewrite (handle_command_run _ 2 Command2_getkey) by done.
    cbn [run_command]. unfold isr80h_command2_getkey.
    rewrite (bind_sys _ _ _ _ _ (current_keyboard_run (entered frame c t k) a p H1 H2 H3)), E. cbv beta iota.
    rewrite (bind_sys _ _ _ _ _ (put_keyboard_run (entered frame c t k) a p b H1 H3)). done.
  - constructor; [exact H1|exact H2|apply lookup_insert_eq|exact Hb|exact Hq].
  - rewrite left_cr3. change (k_mem k1) with (k_mem (entered frame c t k)). by rewrite entered_mem.
Qed.
End steps.

(** ** The descriptor table *)

Section idt.
Context {F : Type} {LY : Layout} {FS : Filesystem machine F} {PL : Platform}.
Implicit Types (k : kernel F).

(** The descriptor of a handler, and the handler of a descriptor. *)
Definition gate (address : Z) : idt_desc :=
  mk_idt_desc (Z.land (u32 address) 65535) KERNEL_CODE_SELECTOR 0 238 (u16 (Z.shiftr (u32 address) 16)).
Definition gate_address (d : idt_desc) : Z := offset_1 d + 65536 * offset_2 d.

Lemma gate_roundtrip a : gate_address (gate a) = u32 a.
Proof.
  unfold gate_address, gate. cbn [offset_1 offset_2]. change 65535 with (Z.ones 16).
  rewrite Z.land_ones, Z.shiftr_div_pow2 by lia. change (2 ^ 16) with 65536. wrap.
Qed.

Lemma bind_idt_set {T} i a k (f : unit -> M (kernel F) T) :
  0 <= i < zlen (idt_descriptors k) ->
  (idt_set i a ≫= f) k = f tt (set_idt (zset (idt_descriptors k) i (gate a)) k).
Proof.
  intros Hi. destruct (zget_is_Some _ _ Hi) as [d Hd]. unfold idt_set.
  by rewrite bind_assoc, bind_gets, bind_assoc, (bind_expect _ _ _ _ Hd), bind_modify.
Qed.

(** The table after the descriptors from [i] on have been set. *)
Definition gates_from (i : Z) (d d' : list idt_desc) : Prop :=
  zlen d' = zlen d /\
  forall j, 0 <= j < zlen d -> exists a, zget interrupt_pointer_table j = Some a /\
    zget d' j = if i <=? j then Some (gate a) else zget d j.

Lemma idt_set_loop_run n i k :
  Z.of_nat n = KERNEL_TOTAL_INTERRUPTS - i -> 0 <= i -> zlen (idt_descriptors k) = KERNEL_TOTAL_INTERRUPTS ->
  KERNEL_TOTAL_INTERRUPTS <= zlen interrupt_pointer_table ->
  exists d', idt_set_loop n i k = Done tt (set_idt d' k) /\ gates_from i (idt_descriptors k) d'.
Proof.
  revert i k. induction n as [|n IH]; intros i k Hn Hi Hd Ht; cbn [idt_set_loop].
  - exists (idt_descriptors k). split; [by destruct k|]. split; [done|]. intros j Hj.
    destruct (zget_is_Some interrupt_pointer_table j) as [a Ha]; [lia|]. exists a. split; [done|].
    by rewrite (proj2 (Z.leb_gt i j)) by lia.
  - rewrite (proj2 (Z.ltb_lt i _)) by lia. destruct (zget_is_Some interrupt_pointer_table i) as [a Ha]; [lia|].
    rewrite (bind_expect _ _ _ _ Ha), bind_idt_set by lia.
    destruct (IH (i + 1) (set_idt (zset (idt_descriptors k) i (gate a)) k)) as (d' & E & Hl & Hg);
      [lia|lia|cbn [idt_descriptors set_idt]; by rewrite zlen_zset|done|].
    exists d'. split; [exact E|]. cbn [idt_descriptors set_idt] in Hl, Hg. rewrite zlen_zset in Hl, Hg. split; [done|].
    intros j Hj. destruct (Hg j Hj) as (b & Hb & E2). exists b. split; [done|]. rewrite E2, zget_zset.
    destruct (Z.eqb_spec i j) as [-> |Hne].
    + rewrite Ha in Hb. injection Hb as <-. zsolve.
    + cbn [andb]. zsolve.
Qed.

Lemma register_exceptions_run n i k :
  Z.of_nat n = 32 - i -> 0 <= i -> zlen (interrupt_callbacks k) = KERNEL_TOTAL_INTERRUPTS ->
  exists l, register_exceptions_loop n i k = Done tt (set_callbacks l k) /\
    zlen l = KERNEL_TOTAL_INTERRUPTS /\
    forall j, zget l j = if (i <=? j) && (j <? 32) then Some (Some Idt_handle_exception) else zget (interrupt_callbacks k) j.
Proof.
  unfold KERNEL_TOTAL_INTERRUPTS. revert i k. induction n as [|n IH]; intros i k Hn Hi Hl; cbn [register_exceptions_loop].
  - exists (interrupt_callbacks k). split; [by destruct k|]. split; [done|]. intros j. zsolve.
  - rewrite (proj2 (Z.ltb_lt i 32)) by lia. unfold idt_register_interrupt_callback, KERNEL_TOTAL_INTERRUPTS.
    rewrite (proj2 (Z.ltb_ge i 0)), (proj2 (Z.leb_gt 256 i)) by lia. cbn [orb]. rewrite bind_assoc, bind_modify, bind_ret.
    destruct (IH (i + 1) (set_callbacks (zset (interrupt_callbacks k) i (Some Idt_handle_exception)) k)) as (l & E & Hl' & Hg);
      [lia|lia|cbn [interrupt_callbacks set_callbacks]; by rewrite zlen_zset|].
    exists l. split; [exact E|]. split; [exact Hl'|]. intros j. rewrite Hg. cbn [interrupt_callbacks set_callbacks].
    rewrite zget_zset, Hl. zsolve.
Qed.

Lemma idt_init_run k :
  KERNEL_TOTAL_INTERRUPTS <= zlen interrupt_pointer_table ->
  zlen (interrupt_callbacks k) = KERNEL_TOTAL_INTERRUPTS ->
  exists k', idt_init k = Done tt k' /\
    (forall i, 0 <= i < KERNEL_TOTAL_INTERRUPTS ->
       exists d a, zget (idt_descriptors k') i = Some d /\ zget interrupt_pointer_table i = Some a /\
         gate_address d = u32 (if i =? 128 then isr80h_wrapper else a) /\
         selector d = KERNEL_CODE_SELECTOR /\ zero d = 0 /\ type_attributes d = 238) /\
    k_idtr k' = mk_idtr_desc 2047 (u32 idt_address) /\
    (forall i, zget (interrupt_callbacks k') i =
       if (0 <=? i) && (i <? 32) then Some (Some Idt_handle_exception) else zget (interrupt_callbacks k) i) /\
    k_system k' = k_system k /\ isr80h_commands k' = isr80h_commands k /\ classic_keyboard k' = classic_keyboard k /\
    zlen (interrupt_callbacks k') = KERNEL_TOTAL_INTERRUPTS.
Proof.
  intros Ht Hc. unfold idt_init. rewrite !bind_modify.
  set (k1 := set_idtr_descriptor _ _).
  assert (Hd1 : zlen (idt_descriptors k1) = KERNEL_TOTAL_INTERRUPTS) by (cbn; by rewrite zlen_replicate).
  destruct (idt_set_loop_run (Z.to_nat KERNEL_TOTAL_INTERRUPTS) 0 k1) as (d & E & Hl & Hg); [done|done|exact Hd1|exact Ht|].
  rewrite (bind_Done _ _ _ _ _ E). rewrite Hd1 in Hl, Hg.
  rewrite bind_idt_set by (cbn [idt_descriptors set_idt]; rewrite Hl; done). rewrite bind_modify.
  set (k2 := set_idtr _ _).
  destruct (register_exceptions_run 32 0 k2) as (l & E2 & Hl2 & Hg2); [done|done|exact Hc|].
  exists (set_callbacks l k2). split; [exact E2|]. split; [|split; [reflexivity|split; [exact Hg2|split; [reflexivity|split; [reflexivity|split; [reflexivity|exact Hl2]]]]]].
  intros i Hi. destruct (Hg i Hi) as (a & Ha & Hd). rewrite (proj2 (Z.leb_le 0 i)) in Hd by lia.
  exists (if i =? 128 then gate isr80h_wrapper else gate a), a. split; [|split; [exact Ha|]].
  - change (zget (zset d 128 (gate isr80h_wrapper)) i = Some (if i =? 128 then gate isr80h_wrapper else gate a)).
    rewrite zget_zset, Hl, (Z.eqb_sym 128 i). by destruct (i =? 128).
  - destruct (i =? 128); (split; [apply gate_roundtrip|done]).
Qed.
End idt.

(** ** Properties *)

(** C20: [idt_init] fills the descriptor table.  Whatever was in memory, the processor is
    given a table of 256 descriptors of which entry [i] is a present 32-bit interrupt gate
    for user mode (0xEE), in the kernel's code segment, whose two offset halves join to the
    address of stub [i] — of the system call entry for vector 0x80; the callbacks of the 32
    exceptions end the process and all others are kept. *)
Theorem idt_init_spec {F : Type} {LY : Layout} {FS : Filesystem machine F} {PL : Platform} (k : kernel F) :
  KERNEL_TOTAL_INTERRUPTS <= zlen interrupt_pointer_table ->
  zlen (interrupt_callbacks k) = KERNEL_TOTAL_INTERRUPTS ->
  exists k', idt_init k = Done tt k' /\
    (forall i, 0 <= i < KERNEL_TOTAL_INTERRUPTS ->
       exists d a, zget (idt_descriptors k') i = Some d /\ zget interrupt_pointer_table i = Some a /\
         gate_address d = u32 (if i =? 128 then isr80h_wrapper else a) /\
         selector d = KERNEL_CODE_SELECTOR /\ zero d = 0 /\ type_attributes d = 238) /\
    k_idtr k' = mk_idtr_desc 2047 (u32 idt_address) /\
    (forall i, zget (interrupt_callbacks k') i =
       if (0 <=? i) && (i <? 32) then Some (Some Idt_handle_exception) else zget (interrupt_callbacks k) i) /\
    k_system k' = k_system k /\ isr80h_commands k' = isr80h_commands k.
Proof.
  intros Ht Hc. destruct (idt_init_run k Ht Hc) as (k' & E & H1 & H2 & H3 & H4 & H5 & _). by exists k'.
Qed.

#[local] Existing Instance one_file_fs.
#[local] Existing Instance one_file_spec.
#[local] Existing Instance one_file_laws.
#[local] Existing Instance sample_layout.

(** Stubs 16 bytes apart; the console and the tables as the kernel finds them at boot. *)
Definition sample_platform : Platform :=
  Build_Platform 69632 (map (fun i => 1048576 + 16 * i) (seqZ 0 512)) 1114112 6287360 6288384 (fun n => nth n [30; 30] 158).
#[local] Existing Instance sample_platform.

Definition boot_kernel (s : system one_file) : kernel one_file :=
  mk_kernel s (mk_terminal (fun _ => 0) 0 0) (mk_keyboard true 0 KEYBOARD_CAPS_LOCK_OFF) [] (mk_idtr_desc 0 0) (mk_idtr_desc 0 0)
    (replicate (Z.to_nat KERNEL_TOTAL_INTERRUPTS) None) (replicate (Z.to_nat KERNEL_MAX_ISR80H_COMMANDS) None) 0 [].

Lemma idt_init_spec_witness :
  exists k' d, idt_init (boot_kernel (hi_system 0 hi_machine)) = Done tt k' /\ zget (idt_descriptors k') 128 = Some d /\
    gate_address d = 1114112.
Proof.
  destruct (idt_init_spec (boot_kernel (hi_system 0 hi_machine))) as (k' & E & Hg & _).
  - vm_compute. discriminate.
  - reflexivity.
  - destruct (Hg 128) as (d & a & Hd & _ & Ha & _).
    + split; [discriminate|reflexivity].
    + exists k', d. split; [exact E|]. split; [exact Hd|exact Ha].
Defined.

(** C19: the table of system calls.  Registering the kernel's ten commands in an empty table
    succeeds and registering them again panics; from then on a system call whose number is
    not among the ten returns 0 and has done nothing but save the caller's registers:
    the caller's address space is loaded again. *)
Theorem isr80h_commands_registered {F : Type} {LY : Layout} {FS : Filesystem machine F} {SP : FilesystemSpec machine F}
    {LF : FilesystemLaws machine F} {PL : Platform} (k : kernel F) :
  isr80h_commands k = replicate (Z.to_nat KERNEL_MAX_ISR80H_COMMANDS) None ->
  exists k', isr80h_register_commands k = Done tt k' /\ isr80h_commands k' = registered_table /\
    isr80h_register_commands k' = Panic k' /\
    forall fuel command frame c t, running k' c t -> command < 0 \/ 10 <= command ->
      isr80h_handler fuel command frame k' =
      Done 0 (left_kernel c (task_save_state t frame) (entered frame c t k')).
Proof.
  intros Hk. exists (set_commands registered_table k). split; [by apply register_commands_run|].
  split; [done|]. split; [by apply register_again|]. intros fuel command frame c t Hr Hc.
  apply (handler_run _ _ _ _ t); [exact Hr| |apply entered_in_kernel, Hr]. by apply handle_command_none.
Qed.

Lemma hi_running chunk m :
  running (boot_kernel (hi_system chunk m)) 8192 (mk_thread_info chunk zero_registers 0 0 0).
Proof. constructor; [reflexivity|discriminate|apply lookup_singleton_eq]. Qed.

(** The registers of a caller whose stack pointer is [esp]. *)
Definition frame_at (esp : Z) : interrupt_frame := mk_frame 0 0 0 0 0 0 0 0 4194304 USER_CODE_SEGMENT 512 esp USER_DATA_SEGMENT.

Lemma isr80h_commands_registered_witness :
  exists k1 k2, isr80h_register_commands (boot_kernel (hi_system 0 hi_machine)) = Done tt k1 /\
    isr80h_handler 1 11 (frame_at 20480) k1 = Done 0 k2.
Proof.
  destruct (isr80h_commands_registered (boot_kernel (hi_system 0 hi_machine)) eq_refl) as (k1 & E & _ & _ & H).
  rewrite register_commands_run in E by reflexivity. injection E as <-.
  exists (set_commands registered_table (boot_kernel (hi_system 0 hi_machine))). eexists. split.
  - by apply register_commands_run.
  - apply (H 1%nat 11 (frame_at 20480) 8192 (mk_thread_info 0 zero_registers 0 0 0)).
    + destruct (hi_running 0 hi_machine) as [H1 H2 H3]. constructor; [exact H1|exact H2|exact H3].
    + right. discriminate.
Defined.

(** the sum system call, from the [int 0x80] of a user thread to its return.  The two
    words on top of the caller's stack are added modulo 2^32; the kernel has entered with
    the caller's registers saved and leaves with the caller's page directory loaded, and
    memory, processes and console are as before. *)
Theorem isr80h_sum_spec {F : Type} {LY : Layout} {FS : Filesystem machine F} {SP : FilesystemSpec machine F}
    {LF : FilesystemLaws machine F} {PL : Platform} (k : kernel F) (fuel : nat) (frame : interrupt_frame) (c : Z)
    (t : thread_info) (item_1 item_2 : Z) :
  isr80h_commands k = registered_table -> running k c t ->
  stack_word k (task_save_state t frame) 0 item_1 -> stack_word k (task_save_state t frame) 1 item_2 ->
  exists k', isr80h_handler fuel 0 frame k = Done (u32 (item_1 + item_2)) k' /\
    running k' c (task_save_state t frame) /\
    t_cr3 (k_tasks k') = directory_entry (k_mem k) (page_directory t) /\ sy_mach (k_system k') = sy_mach (k_system k) /\
    sy_procs (k_system k') = sy_procs (k_system k) /\ k_terminal k' = k_terminal k.
Proof.
  intros Hcmd Hr Hw1 Hw2. pose proof (entered_in_kernel frame c t k Hr) as Hin.
  assert (Em : k_mem (entered frame c t k) = k_mem k) by (unfold entered; by rewrite k_mem_set).
  exists (left_kernel c (task_save_state t frame) (entered frame c t k)). split.
  - apply (handler_run _ _ _ _ t); [exact Hr| |apply (ik_running _ _ _ Hin)].
    rewrite (handle_command_run _ 0 Command0_sum) by done. cbn [run_command]. unfold isr80h_command0_sum.
    rewrite (bind_stack_item c (task_save_state t frame) _ 0 item_1) by (done || (unfold stack_word; by rewrite Em)).
    by rewrite (bind_stack_item c (task_save_state t frame) _ 1 item_2) by (done || (unfold stack_word; by rewrite Em)).
  - apply ik_running in Hin as [H1 H2 H3]. split; [constructor; [done|exact H2|exact H3]|].
    unfold left_kernel. rewrite k_tasks_set. rewrite Em. split; [done|].
    split; [|done]. transitivity (t_machine (k_tasks (entered frame c t k))); [apply sy_mach_set|].
    unfold entered. rewrite k_tasks_set. done.
Qed.

(** "hi" at 0x5000, and a stack at 0x6000 that starts with that address and 7. *)
Definition call_mem : mem := store_bytes (store_bytes (fun _ => 0) 20480 [104; 105]) 24576 [0; 80; 0; 0; 7; 0; 0; 0].

Lemma call_mem_ok : mem_ok call_mem.
Proof. unfold call_mem. apply store_bytes_mem_ok, store_bytes_mem_ok. intros x. lia. Qed.

Definition call_kernel (chunk : Z) (m : machine) : kernel one_file :=
  set_commands registered_table (boot_kernel (hi_system chunk m)).
Definition call_thread (chunk : Z) : thread_info := mk_thread_info chunk zero_registers 0 0 0.

Lemma call_running chunk m : running (call_kernel chunk m) 8192 (call_thread chunk).
Proof. constructor; [reflexivity|discriminate|apply lookup_singleton_eq]. Qed.

Lemma call_setup :
  exists chunk m, (user_space (call_kernel chunk m) (call_thread chunk) /\
      forall virtual, 0 < virtual -> copy_fails (call_kernel chunk m) virtual = false) /\ k_mem (call_kernel chunk m) = m_mem m /\
    (forall va, 0 <= va < 4294967296 -> translate (m_mem m) (directory_entry (m_mem m) chunk) va = Some va) /\
    forall x, 0 <= x < KERNEL_HEAP_ADDRESS -> m_mem m x = call_mem x.
Proof.
  destruct (boot_chunk call_mem call_mem_ok) as (chunk & m & _ & Hok & Hm & Hsp & Hfree & Htr & Hl & Hmem).
  assert (Em : sy_mach (k_system (call_kernel chunk m)) = m) by (unfold call_kernel, boot_kernel, hi_system; apply sy_mach_set).
  exists chunk, m. split; [|split; [unfold k_mem, sy_mem; by rewrite Em|split; [exact Htr|exact Hmem]]].
  split; [constructor; unfold k_mem, sy_mem; rewrite Em; [exact Hok|exact Hm|exact Hsp|exact Hl]|].
  intros virtual Hv. unfold copy_fails. rewrite Em, Hfree, (proj2 (Z.eqb_neq virtual 0)) by lia. reflexivity.
Qed.

Lemma call_word chunk m index v :
  k_mem (call_kernel chunk m) = m_mem m ->
  (forall va, 0 <= va < 4294967296 -> translate (m_mem m) (directory_entry (m_mem m) chunk) va = Some va) ->
  (forall x, 0 <= x < KERNEL_HEAP_ADDRESS -> m_mem m x = call_mem x) ->
  0 <= index < 2 -> ld32 call_mem (24576 + 4 * index) = v ->
  stack_word (call_kernel chunk m) (task_save_state (call_thread chunk) (frame_at 24576)) index v.
Proof.
  intros Em Htr Hmem Hi Hv. unfold stack_word, vld32, vld8, xlate, KERNEL_HEAP_ADDRESS in *. rewrite Em.
  change (page_directory (task_save_state (call_thread chunk) (frame_at 24576))) with chunk.
  change (r_esp (regs (task_save_state (call_thread chunk) (frame_at 24576)))) with 24576.
  unfold paging_switch. rewrite !u32_small by lia. rewrite !Htr by lia. rewrite <- Hv. unfold ld32, ld8.
  rewrite !u32_small by lia. rewrite !Hmem by lia. done.
Qed.

Lemma isr80h_sum_spec_witness :
  exists chunk m k', isr80h_handler 1 0 (frame_at 24576) (call_kernel chunk m) = Done 20487 k'.
Proof.
  destruct call_setup as (chunk & m & [Hu _] & Em & Htr & Hmem).
  destruct (isr80h_sum_spec (call_kernel chunk m) 1 (frame_at 24576) 8192 (call_thread chunk) 20480 7) as (k' & E & _).
  - reflexivity.
  - apply call_running.
  - apply (call_word _ _ _ _ Em Htr Hmem); [lia|vm_compute; reflexivity].
  - apply (call_word _ _ _ _ Em Htr Hmem); [lia|vm_compute; reflexivity].
  - exists chunk, m, k'. exact E.
Defined.

(** C13: the print system call.  A C string of up to 1023 characters of the caller's address
    space appears on the console, character by character from the cursor; the heap owns what
    it owned and the caller's directory is loaded again.  Three cases differ.  An empty string
    leaves the 1024-byte stack buffer as it is, and the string that happens to be in it is
    printed instead; so does a copy that fails, for a null pointer or without a free block,
    because its result is not looked at.  A longer string is cut to 1024 characters and its
    terminator goes behind the buffer, which is then read beyond its end ([Fault]). *)
Theorem isr80h_print_spec {F : Type} {LY : Layout} {FS : Filesystem machine F} {SP : FilesystemSpec machine F}
    {LF : FilesystemLaws machine F} {PL : Platform} (k : kernel F) (fuel : nat) (frame : interrupt_frame) (c : Z)
    (t : thread_info) (virtual : Z) (str old : list Z) :
  isr80h_commands k = registered_table -> running k c t -> user_space k t ->
  stack_word k (task_save_state t frame) 0 virtual -> 0 <= virtual ->
  user_string (m_heap (sy_mach (k_system k))) (k_mem k) (page_directory t) virtual str ->
  Forall (fun ch => 0 < ch < 256) str ->
  0 < isr_buf -> isr_buf + 1025 <= KERNEL_HEAP_ADDRESS ->
  (str = [] \/ copy_fails k virtual = true -> holds (load_bytes (k_mem k) isr_buf 1024) old) ->
  if negb (copy_fails k virtual) && (1024 <=? zlen str) then isr80h_handler fuel 1 frame k = Fault
  else exists k', isr80h_handler fuel 1 frame k = Done 0 k' /\
    k_terminal k' = fold_left (fun tm ch => terminal_write_char tm ch 15)
      (if copy_fails k virtual then old else shown str old) (k_terminal k) /\
    running k' c (task_save_state t frame) /\
    t_cr3 (k_tasks k') = directory_entry (k_mem k) (page_directory t) /\
    own_same (m_heap (sy_mach (k_system k))) (m_heap (sy_mach (k_system k'))) /\
    sy_procs (k_system k') = sy_procs (k_system k).
Proof.
  intros Hcmd Hr Hu Hw Hv Hs Hc Hb1 Hb2 Hold. pose proof (entered_in_kernel frame c t k Hr) as Hin. set (k0 := entered frame c t k) in *.
  pose proof (entered_mem frame c t k) as Em. pose proof (entered_mach frame c t k) as Eh. fold k0 in Em, Eh.
  assert (Ef : copy_fails k0 virtual = copy_fails k virtual) by (unfold copy_fails; by rewrite Eh).
  assert (Hcase : if negb (copy_fails k0 virtual) && (1024 <=? zlen str) then isr80h_command1_print frame k0 = Fault
    else exists k', isr80h_command1_print frame k0 = Done 0 k' /\
      printed k0 k' c (task_save_state t frame) (if copy_fails k0 virtual then old else shown str old)).
  { apply print_total; rewrite ?Em, ?Eh, ?Ef; try done; [by apply user_space_entered|by apply stack_word_entered]. }
  rewrite Ef in Hcase. destruct (negb _ && _).
  - unfold isr80h_handler. rewrite (bind_enter frame c t) by done. fold k0. unfold mbind at 1, M_bind at 1.
    rewrite (handle_command_run _ 1 Command1_print) by done. cbn [run_command]. by rewrite Hcase.
  - destruct Hcase as (k1 & E & [P1 P2 P3 P4 P5]). exists (left_kernel c (task_save_state t frame) k1).
    split; [|split; [exact P2|split; [by apply left_running|split; [|split]]]].
    + apply (handler_run _ _ _ _ t); [exact Hr| |exact P1]. fold k0. by rewrite (handle_command_run _ 1 Command1_print).
    + rewrite left_cr3. rewrite Em in P3. exact P3.
    + rewrite left_mach, <- Eh. exact P4.
    + exact P5.
Qed.

Lemma isr80h_print_spec_witness :
  exists chunk m k', isr80h_handler 1 1 (frame_at 24576) (call_kernel chunk m) = Done 0 k' /\
    map (vedio_mem (k_terminal k')) [0; 1; 2] = [3944; 3945; 0].
Proof.
  destruct call_setup as (chunk & m & [Hu Hcf] & Em & Htr & Hmem).
  assert (Eh : sy_mach (k_system (call_kernel chunk m)) = m) by (unfold call_kernel, boot_kernel, hi_system; apply sy_mach_set).
  specialize (Hcf 20480 eq_refl).
  pose proof (isr80h_print_spec (call_kernel chunk m) 1 (frame_at 24576) 8192 (call_thread chunk) 20480 [104; 105] []) as H.
  rewrite Hcf in H. change (negb false && (1024 <=? zlen [104; 105])) with false in H. cbv iota in H.
  destruct H as (k' & E & Hterm & _).
  - reflexivity.
  - apply call_running.
  - exact Hu.
  - apply (call_word _ _ _ _ Em Htr Hmem); [lia|vm_compute; reflexivity].
  - discriminate.
  - intros j Hj. change (zlen [104; 105]) with 2 in Hj.
    pose proof (fun x => low_untouched _ _ x Hu) as Hlow. unfold KERNEL_HEAP_ADDRESS in *. split; [lia|]. split; [left; unfold KERNEL_HEAP_ADDRESS; lia|].
    exists (20480 + j). rewrite Em. split; [apply Htr; lia|]. split; [lia|]. split; [rewrite <- Em; apply Hlow; lia|].
    unfold ld8. rewrite u32_small, Hmem by lia. assert (j = 0 \/ j = 1 \/ j = 2) as [-> |[-> | ->]] by lia; vm_compute; reflexivity.
  - repeat constructor.
  - reflexivity.
  - vm_compute. discriminate.
  - intros [H|H]; discriminate H.
  - exists chunk, m, k'. split; [exact E|]. rewrite Hterm. vm_compute. reflexivity.
Defined.

(** C14: from the key to the program.  A key press interrupts whatever thread runs: its
    registers are saved, the character of the scan code joins the keyboard queue of the
    current process (unless the queue is full), the interrupt controller is acknowledged and
    the thread continues.  The next getkey system call of that process returns the oldest
    key of the queue, as a sign-extended [char], and takes it out. *)
Theorem key_press_getkey {F : Type} {LY : Layout} {FS : Filesystem machine F} {SP : FilesystemSpec machine F}
    {LF : FilesystemLaws machine F} {PL : Platform} (k : kernel F) (fuel : nat) (frame frame' : interrupt_frame) (c : Z)
    (t : thread_info) (a : Z) (p : task_struct) (q : list Z) (ch : Z) :
  isr80h_commands k = registered_table ->
  zget (interrupt_callbacks k) ISR_KEYBOARD_INTERRUPT = Some (Some Classic_keyboard_handle_interrupt) ->
  running k c t -> typing k a p q ->
  u8 (port_byte (k_reads k)) < 128 -> u8 (port_byte (k_reads k)) <> CLASSIC_KEYBOARD_CAPSLOCK ->
  classic_keyboard_scancode_to_char (classic_keyboard k) (u8 (port_byte (k_reads k))) = Some ch ->
  exists p1 k1 p2 k2, interrupt_handler ISR_KEYBOARD_INTERRUPT frame k = Done tt k1 /\
    typing k1 a p1 (spec_push q ch) /\ k_writes k1 = (32, 32) :: k_writes k /\
    t_cr3 (k_tasks k1) = directory_entry (k_mem k) (page_directory t) /\
    isr80h_handler fuel 2 frame' k1 = Done (u32 (i8 (fst (spec_pop (spec_push q ch))))) k2 /\
    typing k2 a p2 (snd (spec_pop (spec_push q ch))) /\ running k2 c (task_save_state (task_save_state t frame) frame').
Proof.
  intros Hcmd Hcb Hr Hty Hlt Hcaps Hch.
  destruct (key_press_run frame c t k a p q ch Hcb Hr Hty Hlt Hcaps Hch) as (p1 & k1 & E1 & Hr1 & Hty1 & Hc1 & Hcmd1 & Hw).
  rewrite Hcmd in Hcmd1. destruct (getkey_run fuel frame' c (task_save_state t frame) k1 a p1 _ Hcmd1 Hr1 Hty1) as (p2 & k2 & E2 & Hr2 & Hty2 & _).
  exists p1, k1, p2, k2. by split_and!.
Qed.

Lemma key_press_getkey_witness :
  exists k1 k2, interrupt_handler ISR_KEYBOARD_INTERRUPT (frame_at 0)
      (set_callbacks (replicate 34 (Some Classic_keyboard_handle_interrupt)) (call_kernel 0 hi_machine)) = Done tt k1 /\
    isr80h_handler 1 2 (frame_at 0) k1 = Done 97 k2.
Proof.
  destruct (key_press_getkey (set_callbacks (replicate 34 (Some Classic_keyboard_handle_interrupt)) (call_kernel 0 hi_machine)) 1
    (frame_at 0) (frame_at 0) 8192 (call_thread 0) 12288 hi_proc [] 97) as (p1 & k1 & p2 & k2 & E1 & _ & _ & _ & E2 & _).
  - reflexivity.
  - reflexivity.
  - destruct (call_running 0 hi_machine) as [H1 H2 H3]. constructor; [exact H1|exact H2|exact H3].
  - constructor; [reflexivity|discriminate|apply lookup_singleton_eq|apply empty_buffer_ok|apply empty_buffer_ok].
  - reflexivity.
  - discriminate.
  - reflexivity.
  - exists k1, k2. split; [exact E1|exact E2].
Defined.
