(* ===== verification/Exit.v ===== *)
(** * The end of a thread: the exit system call and the exceptions

    Command 9 of kernel/isr80h.c and [idt_handle_exception] of arch/x86/kernel/idt.c end the
    running process and go on with the next thread of the list.  The definitions are those
    of Isr.v and Sched.v; Terminate.v says what becomes of the process. *)
From S2P Require Import Prelude Heap Kheap CString Print Keyboard Paging Pparser Disk Fat16 File Contents Elf Task Sched Exec Process Inject Terminate Isr.

Section exit.
Context {F : Type} {LY : Layout} {FS : Filesystem machine F} {SP : FilesystemSpec machine F}
  {LF : FilesystemLaws machine F} {PL : Platform}.
Implicit Types (k : kernel F) (s : system F) (p : task_struct) (t : thread_info).

(** The kernel's own page directory. *)
Definition kernel_dir k : Z := paging_switch (k_mem k) (t_kernel_chunk (sy_threads (k_system k))).

(** The running thread [ps_task p] belongs to the process [a], which is in order; the
    kernel sees its arguments. *)
Record dying k (a : Z) p t (e : elf_file) (l1 l2 : list Z) : Prop := {
  dy_running : running k (ps_task p) t;
  dy_process : process_ok (k_system k) a p t e l1 l2;
  dy_arguments : arguments_seen (k_system k) (Some (kernel_dir k)) p t e
}.

(** ** Entering the kernel *)

(** New registers for a thread do not change the list. *)
Lemma dseg_registers g q l n c t r :
  g !! c = Some t -> dseg g q l n -> dseg (<[c := set_regs r t]> g) q l n.
Proof.
  intros Hc. revert q. induction l as [|b l IH]; intros q; [done|]. cbn [dseg]. intros [(tb & Hb & Hr) Hs]. split; [|by apply IH].
  destruct (decide (b = c)) as [-> |Hne]; [|exists tb; by rewrite lookup_insert_ne].
  rewrite Hc in Hb. injection Hb as <-. exists (set_regs r t). by rewrite lookup_insert_eq.
Qed.

Lemma dying_entered frame k a p t e l1 l2 :
  dying k a p t e l1 l2 ->
  let s := k_system (entered frame (ps_task p) t k) in
  process_ok s a p (task_save_state t frame) e l1 l2 /\ arguments_seen s (cr3_dir s) p (task_save_state t frame) e /\
  current_task (sy_threads s) = ps_task p.
Proof.
  intros [[Hc H0 Ht] [P1 [Q1 Q2 Q3 Q4 Q5] [A1 A2 A3] [R1 R2 R3 R4 R5 R6] P5 P6 P7] Har] s.
  assert (Em : sy_mach s = sy_mach (k_system k)) by apply (sy_mach_set (sy_mach (k_system k)) _).
  assert (Es : sy_mem s = sy_mem (k_system k)) by (unfold sy_mem; by rewrite Em).
  split; [|split; [|exact Hc]].
  - constructor; [exact P1| | | |exact P5| |exact P7].
    + constructor; rewrite ?Em, ?Es; [exact Q1|apply lookup_insert_eq|exact Q3|exact Q4|exact Q5].
    + constructor; rewrite ?Em, ?Es; [exact A1|exact A2|exact A3].
    + constructor; rewrite ?Em, ?Es; [exact R1|exact R2|exact R3|exact R4|exact R5|exact R6].
    + apply (dll_ext (sy_threads (k_system k))); [exact P6|done|done|]. by apply dseg_registers, (dl_seg _ _ P6).
  - intros i Hi. destruct (Har i Hi) as (c & Hrel & Hw). exists c.
    split; [unfold releasable, owns in *; rewrite Em, Es; exact Hrel|]. intros m Hm.
    assert (Hcr : cr3_dir s = Some (kernel_dir k)) by done. rewrite Hcr. apply Hw. intros x Hx. rewrite Hm, Es; [done|]. by rewrite Es.
Qed.

(** ** The next thread *)

(** [next], with fields [tn], runs. *)
Definition resumed (next : Z) (tn : thread_info) s : system F :=
  let s := set_current_process (t_process tn) s in
  set_sy_tasks (set_cr3 (paging_switch (sy_mem s) (page_directory tn)) (set_current next (sy_tasks s))) s.

Lemma task_next_run s next tn :
  current_task (sy_threads s) = next -> next <> 0 -> t_threads (sy_threads s) !! next = Some tn ->
  task_next s = Iret next (resumed next tn s).
Proof.
  intros Hc H0 Ht. unfold task_next. rewrite bind_gets, Hc, (proj2 (Z.eqb_neq next 0)) by done.
  unfold sys_thread. rewrite bind_assoc, bind_gets, (bind_expect _ _ _ _ Ht). unfold process_switch. rewrite bind_assoc, bind_modify, bind_ret.
  set (s1 := set_current_process (t_process tn) s).
  rewrite (bind_tasks _ _ _ 0 (set_cr3 (paging_switch (sy_mem s1) (page_directory tn)) (set_current next (sy_tasks s1)))); [done|].
  unfold task_switch. rewrite bind_modify, (bind_thread _ _ _ tn) by exact Ht. by rewrite bind_modify.
Qed.

(** The process ends and there is another thread. *)
Lemma end_process s a p t e l1 l2 :
  process_ok s a p t e l1 l2 -> arguments_seen s (cr3_dir s) p t e -> current_task (sy_threads s) = ps_task p ->
  current_process s <> a \/ first_process (zset (processes s) (ps_id p) 0) <> 0 -> l1 ++ l2 <> [] ->
  exists s' tn, process_terminate a s = Done 0 s' /\ ended s s' a p t e l1 l2 /\
    current_task (sy_threads s') = successor l1 l2 /\ successor l1 l2 <> 0 /\ successor l1 l2 <> ps_task p /\
    t_threads (sy_threads s') !! successor l1 l2 = Some tn /\
    (no_links <$> (t_threads (sy_threads s) !! successor l1 l2)) = Some (no_links tn).
Proof.
  intros Hok Har Hc Hcp Hne. pose proof (terminate_total s a p t e l1 l2 Hok Har) as H.
  replace ((current_process s =? a) && (first_process (zset (processes s) (ps_id p) 0) =? 0)) with false in H.
  2: { symmetry. destruct Hcp as [Hx|Hx]; apply Z.eqb_neq in Hx; rewrite Hx; [done|apply andb_false_r]. }
  destruct H as (s' & E & He). pose proof He as [_ _ _ _ _ Hd Hcu Hth _]. rewrite Hc, Z.eqb_refl in Hcu.
  destruct (successor_in l1 l2) as [Hin|[Hx _]]; [|by destruct Hne].
  destruct (dseg_lookup _ _ _ _ _ (dl_seg _ _ Hd) Hin) as [tn Htn]. exists s', tn. split; [exact E|]. split; [exact He|].
  assert (Hnp : successor l1 l2 <> ps_task p).
  { intros Heq. rewrite Heq in Hin.
    pose proof (dl_nodup _ _ (pk_list _ _ _ _ _ _ _ Hok)) as Hnd. apply NoDup_app in Hnd as (_ & Hx & [Hy _]%NoDup_cons).
    apply elem_of_app in Hin as [Hin|Hin]; [apply (Hx _ Hin); by left|by apply Hy]. }
  split; [exact Hcu|]. split; [|split; [exact Hnp|split; [exact Htn|]]].
  - pose proof (dl_pos _ _ Hd) as Hp. rewrite Forall_forall in Hp. by apply Hp.
  - rewrite <- Hth by done. by rewrite Htn.
Qed.

(** The system once the process [a] of [s] has ended and [next] has taken over: the heap has
    lost what the process owned and what its arguments named, seen through [dir], and nothing
    else; its slot is empty, its thread has left the list, and the next thread is on its own page directory with the registers it was
    stopped with. *)
Record taken_over (dir : option Z) s s' (a : Z) p t (e : elf_file) (l1 l2 : list Z) (next : Z) (tn : thread_info) : Prop := {
  to_heap : lost s (m_heap (sy_mach s')) (released s dir p t e);
  to_mem : outside_tables s t (sy_mem s');
  to_table : processes s' = zset (processes s) (ps_id p) 0;
  to_procs : forall b, b <> a -> sy_procs s' !! b = sy_procs s !! b;
  to_list : dll (sy_threads s') (l1 ++ l2);
  to_next : next = successor l1 l2 /\ current_task (sy_threads s') = next /\ t_threads (sy_threads s') !! next = Some tn;
  to_threads : forall b, b <> ps_task p -> (no_links <$> (t_threads (sy_threads s') !! b)) = (no_links <$> (t_threads (sy_threads s) !! b));
  to_registers : (no_links <$> (t_threads (sy_threads s) !! next)) = Some (no_links tn);
  to_process : current_process s' = t_process tn;
  to_cr3 : t_cr3 (sy_threads s') = directory_entry (sy_mem s') (page_directory tn);
  to_files : file_descriptors (l_vfs (sy_loader s')) = file_descriptors (l_vfs (sy_loader s))
}.

Lemma resumed_taken_over s s1 s2 a p t e l1 l2 tn :
  ended s s1 a p t e l1 l2 -> current_task (sy_threads s1) = successor l1 l2 ->
  t_threads (sy_threads s1) !! successor l1 l2 = Some tn ->
  (no_links <$> (t_threads (sy_threads s) !! successor l1 l2)) = Some (no_links tn) ->
  sy_loader s2 = sy_loader s1 -> sy_threads s2 = sy_threads s1 -> processes s2 = processes s1 ->
  (forall b, b <> a -> sy_procs s2 !! b = sy_procs s1 !! b) ->
  taken_over (cr3_dir s) s (resumed (successor l1 l2) tn s2) a p t e l1 l2 (successor l1 l2) tn.
Proof.
  intros [H1 H2 H3 H4 [_ H5] H6 H7 H8 H9] Hc Htn Hreg El Eth Ep Epr. set (s3 := resumed _ _ _).
  assert (Em : sy_mach s3 = sy_mach s1).
  { unfold s3, resumed, set_sy_tasks. rewrite sy_mach_set. cbn [t_machine set_cr3 set_current sy_tasks set_t_machine].
    unfold sy_mach, set_current_process. cbn [sy_loader]. by rewrite El. }
  assert (Es : sy_mem s3 = sy_mem s1) by (unfold sy_mem; by rewrite Em). constructor; rewrite ?Em, ?Es.
  - exact H1.
  - exact H2.
  - change (processes s3) with (processes s2). by rewrite Ep.
  - intros b Hb. change (sy_procs s3) with (sy_procs s2). by rewrite Epr, H5.
  - apply (dll_ext (sy_threads s1)); [exact H6| | |]; cbn [s3 resumed set_sy_tasks set_mach set_threads_of sy_threads];
      cbn [task_head task_tail t_threads set_cr3 set_current sy_tasks set_t_machine set_current_process sy_threads]; rewrite Eth;
      [done|done|exact (dl_seg _ _ H6)].
  - split; [done|]. split; [done|]. unfold s3, resumed. cbn. by rewrite Eth.
  - intros b Hb. unfold s3, resumed. cbn. rewrite Eth. by apply H8.
  - exact Hreg.
  - done.
  - cbn. unfold paging_switch, sy_mem, sy_mach. cbn. by rewrite El.
  - cbn. by rewrite El.
Qed.

(** Nothing outside the system changes. *)
Definition same_devices k k' : Prop :=
  k_terminal k' = k_terminal k /\ classic_keyboard k' = classic_keyboard k /\ k_idtr k' = k_idtr k /\
  interrupt_callbacks k' = interrupt_callbacks k /\ isr80h_commands k' = isr80h_commands k /\ k_writes k' = k_writes k.

(** What the process loses when it is entered is what it had. *)
Lemma entered_taken_over frame k s' a p t e l1 l2 next tn :
  next <> ps_task p -> taken_over (Some (kernel_dir k)) (k_system (entered frame (ps_task p) t k)) s' a p (task_save_state t frame) e l1 l2 next tn ->
  taken_over (Some (kernel_dir k)) (k_system k) s' a p t e l1 l2 next tn.
Proof.
  assert (Em : sy_mach (k_system (entered frame (ps_task p) t k)) = sy_mach (k_system k)) by apply (sy_mach_set (sy_mach (k_system k)) _).
  intros Hne [[H1 H1'] H2 H3 H4 H5 H6 H7b H7 H8 H9 H10].
  assert (Es : sy_mem (k_system (entered frame (ps_task p) t k)) = sy_mem (k_system k)) by (unfold sy_mem; by rewrite Em).
  constructor; [split; [exact H1|]| |exact H3|exact H4|exact H5|exact H6| | |exact H8|exact H9|exact H10].
  - intros b n. unfold released, owns, argument in *. cbn [page_directory task_save_state] in H1'. rewrite Em, Es in H1'. exact (H1' b n).
  - intros x Hx. unfold outside_tables in H2. rewrite Es in H2. by apply H2.
  - intros b Hb. rewrite (H7b b Hb). change (t_threads (sy_threads (k_system (entered frame (ps_task p) t k))))
      with (<[ps_task p := task_save_state t frame]> (t_threads (sy_threads (k_system k)))). by rewrite lookup_insert_ne.
  - rewrite <- H7. change (t_threads (sy_threads (k_system (entered frame (ps_task p) t k))))
      with (<[ps_task p := task_save_state t frame]> (t_threads (sy_threads (k_system k)))). by rewrite lookup_insert_ne.
Qed.


(** The handler of the exceptions, up to the end of the process. *)
Lemma exception_run n frame k a p t e l1 l2 r :
  zget (interrupt_callbacks k) n = Some (Some Idt_handle_exception) -> dying k a p t e l1 l2 ->
  current_process (k_system k) = a ->
  let k0 := entered frame (ps_task p) t k in
  (process_terminate a;; task_next) (k_system k0) = r ->
  match r with
  | Panic s => interrupt_handler n frame k = Panic (set_k_system s k0)
  | Iret x s => interrupt_handler n frame k = Iret x (set_k_system s k0)
  | _ => True
  end.
Proof.
  intros Hcb Hdy Hcu k0 E. pose proof (dy_running _ _ _ _ _ _ _ Hdy) as Hr.
  assert (Eh : interrupt_handler n frame k = (idt_handle_exception;; on_thr task_page;; outb 32 32) k0).
  { unfold interrupt_handler. rewrite bind_gets, (bind_expect _ _ _ _ Hcb). rewrite (bind_enter frame _ t k) by exact Hr. reflexivity. }
  assert (Ee : idt_handle_exception k0 = on_sys (process_terminate a;; task_next) k0).
  { unfold idt_handle_exception. rewrite (bind_sys _ _ k0 a (k_system k0)).
    2: { unfold process_current, gets. f_equal. exact Hcu. }
    replace (set_k_system (k_system k0) k0) with k0 by (by destruct k0). unfold on_sys, zoom, mbind, M_bind.
    destruct (process_terminate a (k_system k0)); reflexivity. }
  destruct r as [| x s| s| |]; try exact I; rewrite Eh.
  - apply bind_Iret. rewrite Ee. by apply (zoom_Iret k_system set_k_system).
  - apply bind_Panic. rewrite Ee. by apply (zoom_Panic k_system set_k_system).
Qed.

Lemma exception_total n frame k a p t e l1 l2 :
  zget (interrupt_callbacks k) n = Some (Some Idt_handle_exception) -> dying k a p t e l1 l2 ->
  current_process (k_system k) = a ->
  if (first_process (zset (processes (k_system k)) (ps_id p) 0) =? 0) || bool_decide (l1 ++ l2 = [])
  then exists k', interrupt_handler n frame k = Panic k'
  else exists k' tn, interrupt_handler n frame k = Iret (successor l1 l2) k' /\
    taken_over (Some (kernel_dir k)) (k_system k) (k_system k') a p t e l1 l2 (successor l1 l2) tn /\ same_devices k k'.
Proof.
  intros Hcb Hdy Hcu. set (k0 := entered frame (ps_task p) t k).
  destruct (dying_entered frame k a p t e l1 l2 Hdy) as (Hok & Har & Hcur). fold k0 in Hok, Har, Hcur.
  pose proof (fun r => exception_run n frame k a p t e l1 l2 r Hcb Hdy Hcu) as Hrun. cbv zeta in Hrun. fold k0 in Hrun.
  change (processes (k_system k)) with (processes (k_system k0)).
  destruct (Z.eqb_spec (first_process (zset (processes (k_system k0)) (ps_id p) 0)) 0) as [H0|H0]; cbn [orb].
  { pose proof (terminate_total _ _ _ _ _ _ _ Hok Har) as H.
    replace (current_process (k_system k0) =? a) with true in H by (symmetry; apply Z.eqb_eq; exact Hcu).
    rewrite H0 in H. destruct H as [s1 E]. eexists. exact (Hrun (Panic s1) (bind_Panic _ _ _ _ E)). }
  case_bool_decide as Hne.
  { pose proof (terminate_total _ _ _ _ _ _ _ Hok Har) as H.
    rewrite (proj2 (Z.eqb_neq _ _) H0), andb_false_r in H. destruct H as (s1 & E & He).
    pose proof (ed_current _ _ _ _ _ _ _ _ He) as Hc1. rewrite Hcur, Z.eqb_refl in Hc1.
    apply app_nil in Hne as [-> ->]. exists (set_k_system s1 k0). apply (Hrun (Panic s1)). rewrite (bind_Done _ _ _ _ _ E).
    unfold task_next. rewrite bind_gets, Hc1. reflexivity. }
  destruct (end_process (k_system k0) a p _ e l1 l2 Hok Har Hcur (or_intror H0) Hne) as (s1 & tn & E & He & Hc1 & Hn0 & Hnp & Htn & Hreg).
  set (s3 := resumed (successor l1 l2) tn s1). exists (set_k_system s3 k0), tn. split; [|split; [|done]].
  - apply (Hrun (Iret (successor l1 l2) s3)). rewrite (bind_Done _ _ _ _ _ E). by apply task_next_run.
  - apply (entered_taken_over frame); [exact Hnp|]. change (Some (kernel_dir k)) with (cr3_dir (k_system k0)).
    by apply (resumed_taken_over _ s1); [exact He|exact Hc1|exact Htn|exact Hreg|done|done|done|].
Qed.
End exit.

(** ** Properties *)


(** C9: an exception of a program ends the program.  With the handler that [idt_init]
    registers for the exceptions, the current process, whose thread runs, ends as if it had
    called exit and the next thread runs; no other slot of the process table, no other
    process or thread, no file descriptor and no device changes.  It costs other owners of
    the heap nothing except the block runs that the program's argument vector names, in
    memory the program can write: these are released with the program ([released]).  If no
    other process is in the table, or no other thread in the list, the kernel panics.  (The
    arguments are as in [process_terminate_spec].) *)
Theorem exception_ends_process {F : Type} {LY : Layout} {FS : Filesystem machine F} {SP : FilesystemSpec machine F}
    {LF : FilesystemLaws machine F} {PL : Platform} (n : Z) (frame : interrupt_frame) (k : kernel F) (a : Z)
    (p : task_struct) (t : thread_info) (e : elf_file) (l1 l2 : list Z) :
  zget (interrupt_callbacks k) n = Some (Some Idt_handle_exception) -> dying k a p t e l1 l2 ->
  current_process (k_system k) = a ->
  if (first_process (zset (processes (k_system k)) (ps_id p) 0) =? 0) || bool_decide (l1 ++ l2 = [])
  then exists k', interrupt_handler n frame k = Panic k'
  else exists k' tn, interrupt_handler n frame k = Iret (successor l1 l2) k' /\
    taken_over (Some (kernel_dir k)) (k_system k) (k_system k') a p t e l1 l2 (successor l1 l2) tn /\ same_devices k k'.
Proof. apply exception_total. Qed.

(** Two threads: one in the block [b], and the one of a program loaded into slot 1. *)
#[local] Existing Instance one_file_fs.
#[local] Existing Instance one_file_spec.
#[local] Existing Instance one_file_laws.
#[local] Existing Instance one_file_files.
#[local] Existing Instance one_file_reads.
#[local] Existing Instance sample_layout.
#[local] Existing Instance sample_platform.

(** The program runs with one argument, [c], process [cur] being the current one. *)
Definition running_program (a c : Z) (p : task_struct) (cur : Z) (s : system one_file) : kernel one_file :=
  set_callbacks (replicate 32 (Some Idt_handle_exception)) (set_commands registered_table
    (boot_kernel (argued (running_system p cur s) a p c))).

(** A shell, in the block [b], and a program whose argument vector names that block. *)
Lemma program_setup :
  exists b a s p t e, let p' := ps_set_argument 1 12288 p in
    dll (sy_threads s) [b; ps_task p] /\ t_process t = a /\ ps_id p = 1 /\
    processes s = 12288 :: a :: replicate 10 0 /\ live (m_heap (sy_mach s)) b 1 /\
    (forall cur, dying (running_program a b p cur s) a p' t e [b] []) /\
    (forall cur, argument (k_system (running_program a b p cur s)) (Some (kernel_dir (running_program a b p cur s))) p' b) /\
    forall cur, stack_word (running_program a b p cur s) (task_save_state t (frame_at 4186112)) 0 0.
Proof.
  destruct shell_program as (b & m & a & s & p & t & e & Hb & Hst & Hok & Hl & Hno). exists b, a, s, p, t, e. intros p'.
  pose proof Hst as [S1 S2 (S3 & _ & _ & S4 & _) _ (S5 & _) _ _ _ _ S6 _].
  assert (Hb' : 0 <= b < 4294967296) by lia.
  assert (Hrel : forall cur, releasable (running_system p cur s) p t e b) by (intros cur; right; left; split; [exists 1; exact Hl|exact Hno]).
  assert (Hdir : forall cur, kernel_dir (running_program a b p cur s) = 4096).
  { intros cur. unfold kernel_dir, paging_switch, directory_entry.
    change (k_mem (running_program a b p cur s)) with (sy_mem (argued (running_system p cur s) a p b)).
    change (t_kernel_chunk (sy_threads (k_system (running_program a b p cur s)))) with 0.
    unfold sy_mem at 1. rewrite argued_mach. cbn [m_mem].
    exact (proj1 (argument_page_words (sy_mem (running_system p cur s)) b Hb')). }
  split; [exact (pk_list _ _ _ _ _ _ _ Hok)|]. split; [exact S5|]. split; [exact S3|]. split; [exact S1|]. split; [exact Hl|].
  split; [|split].
  - intros cur. pose proof (running_system_ok s cur a p t e [b] [] Hok) as Hok1.
    destruct (argued_ok _ a p t e [b] [] b Hok1) as [Hok2 _]. constructor.
    + constructor; [reflexivity| |exact (hs_thread _ _ _ _ (pk_space _ _ _ _ _ _ _ Hok))].
      pose proof (dl_pos _ _ (pk_list _ _ _ _ _ _ _ Hok)) as Hp. apply Forall_app in Hp as [_ Hp]. by apply Forall_cons in Hp as [? _].
    + exact Hok2.
    + rewrite Hdir. exact (argued_seen _ a p t e [b] [] b Hok1 Hb' (Hrel cur)).
  - intros cur. rewrite Hdir. exists 0. split; [split; [done|reflexivity]|].
    change (ps_argv p' + 4 * 0) with 12288. apply (argument_word (sy_mem (running_system p cur s))); [exact Hb'|].
    intros x _. change (k_system (running_program a b p cur s)) with (argued (running_system p cur s) a p b).
    unfold sy_mem at 1. by rewrite argued_mach.
  - intros cur. pose proof (running_system_ok s cur a p t e [b] [] Hok) as Hok1.
    destruct (argued_ok _ a p t e [b] [] b Hok1) as (_ & _ & Htr). set (k := running_program a b p cur s) in *.
    assert (Hstack : KERNEL_HEAP_ADDRESS <= ps_stack p).
    { destruct (single_live _ _ _ _ _ _ _ (ps_stack p) Hok) as (_ & n & Hn); [do 2 right; left|].
      exact (live_heap_address _ _ _ (hs_heap _ _ _ _ (pk_space _ _ _ _ _ _ _ Hok)) Hn). }
    unfold KERNEL_HEAP_ADDRESS in Hstack.
    assert (Hsr : ps_stack p + 16384 <= 4294967296).
    { destruct (S6 0) as [_ _]; [split; [done|reflexivity]|]. destruct (single_live _ _ _ _ _ _ _ (ps_stack p) Hok) as (_ & n & Hn); [do 2 right; left|].
      destruct (kheap_live_range _ _ _ (hs_heap _ _ _ _ (pk_space _ _ _ _ _ _ _ Hok)) Hn) as (_ & Hn1 & _ & Hn2). unfold KERNEL_HEAP_BLOCK_SIZE in Hn2. lia. }
    assert (Hw : forall i, 0 <= i < 4 -> vld8 (k_mem k) (Some (paging_switch (k_mem k) (page_directory t))) (4186112 + i) = Some 0).
    { intros i Hi. unfold vld8, xlate. rewrite u32_small by lia.
      change (k_mem k) with (sy_mem (argued (running_system p cur s) a p b)).
      pose proof (Htr (4186112 + i) ltac:(lia)) as E. unfold user_translate in E. unfold paging_switch. rewrite E.
      destruct (S6 (12288 + i)) as [E1 E2]; [change KERNEL_USER_PROGRAM_STACK_SIZE with 16384; lia|].
      change (KERNEL_PROGRAM_VIRTUAL_STACK_ADDRESS_END + (12288 + i)) with (4173824 + (12288 + i)) in E1.
      replace (4173824 + (12288 + i)) with (4186112 + i) in E1 by lia. unfold user_translate in E1.
      change (sy_mem (running_system p cur s)) with (sy_mem s). rewrite E1. f_equal. rewrite <- E2. unfold ld8.
      rewrite u32_small by lia. unfold sy_mem at 1. rewrite argued_mach. apply argument_page_above. lia. }
    unfold stack_word. change (r_esp (regs (task_save_state t (frame_at 4186112))) + 4 * 0) with 4186112.
    change (page_directory (task_save_state t (frame_at 4186112))) with (page_directory t).
    unfold vld32. rewrite <- (Z.add_0_r 4186112) at 1. rewrite !Hw by lia. reflexivity.
Qed.


(** The program's argument vector names the block of the shell's thread: the thread that
    runs next, [b], has lost its block. *)
Lemma exception_ends_process_witness :
  exists k b k', interrupt_handler 14 (frame_at 4186112) k = Iret b k' /\ processes (k_system k') = 12288 :: replicate 11 0 /\
    live (m_heap (sy_mach (k_system k))) b 1 /\ ~ live (m_heap (sy_mach (k_system k'))) b 1.
Proof.
  destruct program_setup as (b & a & s & p & t & e & Hd & Hpr & Hid & Hps & Hl & Hdy & Hna & Hw).
  pose proof (exception_ends_process 14 (frame_at 4186112) (running_program a b p a s) a (ps_set_argument 1 12288 p) t e [b] []) as H.
  change (processes (k_system (running_program a b p a s))) with (processes s) in H.
  change (ps_id (ps_set_argument 1 12288 p)) with (ps_id p) in H. rewrite Hid, Hps in H.
  destruct (H eq_refl (Hdy a) eq_refl) as (k' & tn & E & [[_ H1] _ H3 _ _ _ _ _ _ _ _] & _).
  exists (running_program a b p a s), b, k'. split; [exact E|]. split; [|split].
  - rewrite H3. change (processes (k_system (running_program a b p a s))) with (processes s).
    change (ps_id (ps_set_argument 1 12288 p)) with (ps_id p). rewrite Hid, Hps. reflexivity.
  - change (live (m_heap (sy_mach (argued (running_system p a s) a p b))) b 1). rewrite argued_mach. exact Hl.
  - intros [_ Hx]%H1. apply Hx. right. exact (Hna a).
Defined.
