(* ===== verification/Boot.v ===== *)
(** * Start-up: [kernel_main] of init/kernel.c

    The last layer of state joins the kernel with the descriptor tables, the task state
    segment and the registers that start-up loads.  [kernel_main] calls the other parts in
    the order of the C code; on a FAT16 disk with a SHELL.ELF it ends in the shell. *)
From S2P Require Import Prelude Heap Kheap CString Print Keyboard Gdt Paging Pparser Disk Fat16 File Contents Elf Task Sched Exec Isr.

(** ** State *)

(** [tss]: the 27 words of [struct tss], in order; [keyboard_list]: head and tail of the
    list of keyboards, whose only member is [classic_keyboard]; [c_gdtr]: limit and address
    last given to [lgdt]; [c_tr]: the task register; [c_paging]: bit 31 of cr0. *)
Record computer (F : Type) := mk_computer {
  c_kernel : kernel F;
  gdt_real : list (list Z);
  tss : list Z;
  keyboard_list : Z * Z;
  c_gdtr : Z * Z;
  c_tr : Z;
  c_paging : bool
}.
Arguments mk_computer {F}.
Arguments c_kernel {F}.
Arguments gdt_real {F}.
Arguments tss {F}.
Arguments keyboard_list {F}.
Arguments c_gdtr {F}.
Arguments c_tr {F}.
Arguments c_paging {F}.

(** Where the linker puts the kernel's objects, and the bytes it puts after the string
    "0:/shell.elf" ([process_load] copies [KERNEL_MAX_PATH] bytes from there). *)
Class BootImage := {
  gdt_address : Z;
  tss_address : Z;
  classic_address : Z;
  after_shell_path : list Z;
  classic_address_pos : 0 < classic_address
}.

Definition KERNEL_DATA_SELECTOR : Z := 16.
Definition tss_words : Z := 27.
Definition sizeof_gdt : Z := 8.

Definition shell_path : list Z := [48; 58; 47; 115; 104; 101; 108; 108; 46; 101; 108; 102].

Section boot.
Context {F : Type} {LY : Layout} {FS : Filesystem machine F} {PL : Platform} {BI : BootImage}.
Implicit Types (s : computer F).

Definition set_c_kernel (k : kernel F) s : computer F :=
  mk_computer k (gdt_real s) (tss s) (keyboard_list s) (c_gdtr s) (c_tr s) (c_paging s).
Definition set_gdt_real (g : list (list Z)) s : computer F :=
  mk_computer (c_kernel s) g (tss s) (keyboard_list s) (c_gdtr s) (c_tr s) (c_paging s).
Definition set_tss (t : list Z) s : computer F :=
  mk_computer (c_kernel s) (gdt_real s) t (keyboard_list s) (c_gdtr s) (c_tr s) (c_paging s).
Definition set_keyboard_list (l : Z * Z) s : computer F :=
  mk_computer (c_kernel s) (gdt_real s) (tss s) l (c_gdtr s) (c_tr s) (c_paging s).
Definition set_gdtr (r : Z * Z) s : computer F :=
  mk_computer (c_kernel s) (gdt_real s) (tss s) (keyboard_list s) r (c_tr s) (c_paging s).
Definition set_tr (r : Z) s : computer F :=
  mk_computer (c_kernel s) (gdt_real s) (tss s) (keyboard_list s) (c_gdtr s) r (c_paging s).
Definition set_paging (b : bool) s : computer F :=
  mk_computer (c_kernel s) (gdt_real s) (tss s) (keyboard_list s) (c_gdtr s) (c_tr s) b.

Definition c_system s : system F := k_system (c_kernel s).

Definition on_kernel {A} (m : M (kernel F) A) : M (computer F) A := zoom c_kernel set_c_kernel m.
Definition on_system {A} (m : M (system F) A) : M (computer F) A := on_kernel (on_sys m).

(** ** The keyboard driver's initialisation: driver/keyboard/classic.c *)

Definition c_keyboards s : keyboards :=
  mk_keyboards {[ classic_address := classic_keyboard (c_kernel s) ]} (fst (keyboard_list s)) (snd (keyboard_list s)).
Definition set_c_keyboards (ks : keyboards) s : computer F :=
  set_keyboard_list (keyboard_list_head ks, keyboard_list_tail ks)
    (set_c_kernel (set_classic (default (classic_keyboard (c_kernel s)) (kbds ks !! classic_address)) (c_kernel s)) s).

Definition classic_keyboard_init : M (computer F) Z :=
  on_kernel (idt_register_interrupt_callback ISR_KEYBOARD_INTERRUPT (Some Classic_keyboard_handle_interrupt));;
  on_kernel (modify (fun k => set_classic (keyboard_set_capslock (classic_keyboard k) KEYBOARD_CAPS_LOCK_OFF) k));;
  on_kernel (outb PS2_PORT PS2_COMMAND_ENABLE_FIRST_PORT);;
  mret 0.

Definition classic_init : Z := classic_address.

Definition keyboard_init : M (computer F) unit :=
  keyboard_insert c_keyboards set_c_keyboards classic_keyboard_init classic_init;; mret tt.

(** ** [kernel_main] *)

(** [gdt_structured_to_gdt] on the kernel's tables, and [gdt_load]. *)
Definition load_gdt : M (computer F) unit :=
  modify (set_gdt_real (replicate (Z.to_nat KERNEL_TOTAL_GDT_SEGMENTS) (replicate (Z.to_nat sizeof_gdt) 0)));;
  g ← gets gdt_real;
  match gdt_structured_to_gdt g (kernel_gdt_structured tss_address) KERNEL_TOTAL_GDT_SEGMENTS with
  | None => panic
  | Some g => modify (set_gdt_real g)
  end;;
  modify (set_gdtr (u16 (KERNEL_TOTAL_GDT_SEGMENTS * sizeof_gdt - 1), gdt_address)).

(** [kheap_init] on the memory's bytes at the address of the heap's table. *)
Definition start_heap : M machine unit :=
  modify (fun m => mk_machine
    (kheap_init (m_heap m) (load_bytes (m_mem m) KERNEL_HEAP_TABLE_ADDRESS (KERNEL_HEAP_SIZE_BYTES / KERNEL_HEAP_BLOCK_SIZE)))
    (m_mem m)).

Definition load_tss : M (computer F) unit :=
  modify (set_tss (replicate (Z.to_nat tss_words) 0));;
  modify (fun s => set_tss (zset (tss s) 1 6291456) s);;
  modify (fun s => set_tss (zset (tss s) 2 KERNEL_DATA_SELECTOR) s);;
  modify (set_tr 40).

Definition set_kernel_chunk (chunk : Z) (t : tasks) : tasks :=
  mk_tasks (t_machine t) (t_threads t) (current_task t) (task_head t) (task_tail t) (t_cr3 t) chunk.

Definition start_paging : M (computer F) unit :=
  on_system (
    chunk ← on_mach (paging_new_4gb_chunk (Z.lor (Z.lor PAGING_IS_WRITEABLE PAGING_IS_PRESENT) PAGING_ACCESS_FROM_ALL));
    on_tasks (modify (set_kernel_chunk chunk);;
              modify (fun t => set_cr3 (paging_switch (t_mem t) (t_kernel_chunk t)) t)));;
  modify (set_paging true).

Definition start_shell : M (computer F) unit :=
  r ← on_system (process_load_switch (shell_path ++ 0 :: after_shell_path));
  if fst r <? 0 then panic
  else
    on_system (on_tasks task_run_first_ever_task);;
    t ← gets (fun s => k_terminal (c_kernel s));
    t ← expect (terminal_print_endl t [101; 110; 100; 0]);
    on_kernel (modify (set_k_terminal t)).

Definition kernel_main : M (computer F) unit :=
  on_kernel (modify (fun k => set_k_terminal (terminal_initialize (k_terminal k)) k));;
  load_gdt;;
  on_system (on_mach start_heap);;
  on_system (on_file fs_init);;
  on_system (on_file disk_search_and_init);;
  on_kernel idt_init;;
  load_tss;;
  start_paging;;
  keyboard_init;;
  on_kernel isr80h_register_commands;;
  start_shell.

End boot.

(** ** Steps *)

Section steps.
Context {F : Type} {LY : Layout} {FS : Filesystem machine F} {SP : FilesystemSpec machine F}
  {LF : FilesystemLaws machine F} {PL : Platform} {BI : BootImage}.
Implicit Types (s : computer F) (y : system F).

Definition set_c_system y s : computer F := set_c_kernel (set_k_system y (c_kernel s)) s.

Lemma bind_kernel {A T} (m : M (kernel F) A) (f : A -> M (computer F) T) s a k :
  m (c_kernel s) = Done a k -> (on_kernel m ≫= f) s = f a (set_c_kernel k s).
Proof. intros E. apply bind_Done. by apply zoom_Done. Qed.

Lemma bind_system {A T} (m : M (system F) A) (f : A -> M (computer F) T) s a y :
  m (c_system s) = Done a y -> (on_system m ≫= f) s = f a (set_c_system y s).
Proof. intros E. apply bind_kernel. by apply zoom_Done. Qed.

Definition set_vfs (v : vfs F) y : system F := set_sy_loader (set_l_vfs v (sy_loader y)) y.

Lemma file_Done {A} (m : M (vfs F) A) y a v :
  m (l_vfs (sy_loader y)) = Done a v -> on_file m y = Done a (set_vfs v y).
Proof. intros E. unfold set_vfs. apply zoom_Done. by apply zoom_Done. Qed.

Lemma load_gdt_run {T} (f : unit -> M (computer F) T) s :
  exists g, gdt_structured_to_gdt (replicate 6 (replicate 8 0)) (kernel_gdt_structured tss_address) 6 = Some g /\
    (load_gdt ≫= f) s = f tt (set_gdtr (47, gdt_address) (set_gdt_real g s)).
Proof.
  destruct (gdt_structured_to_gdt (replicate 6 (replicate 8 0)) (kernel_gdt_structured tss_address) 6) as [g|] eqn:E;
    [|vm_compute in E; discriminate E].
  exists g. split; [reflexivity|]. unfold load_gdt. rewrite bind_assoc, bind_modify, bind_assoc, bind_gets.
  change (gdt_structured_to_gdt (gdt_real _) _ _) with
    (gdt_structured_to_gdt (replicate 6 (replicate 8 0)) (kernel_gdt_structured tss_address) 6).
  rewrite E, bind_assoc, !bind_modify. reflexivity.
Qed.

(** The state of the kernel's own address space, after [start_paging]. *)
Record paging_on y y' (chunk : Z) (m : machine) : Prop := {
  po_vfs : l_vfs (sy_loader y') = upd_heap m (l_vfs (sy_loader y));
  po_processes : processes y' = processes y /\ current_process y' = current_process y;
  po_threads : sy_threads y' = set_cr3 (paging_switch (m_mem m) chunk) (set_kernel_chunk chunk (set_t_machine m (sy_threads y)));
  po_heap : kheap_ok (m_heap m);
  po_free : free_blocks (m_heap m) = free_blocks (m_heap (sy_mach y)) - 1026;
  po_live : forall b n, live (m_heap (sy_mach y)) b n -> live (m_heap m) b n;
  po_space : space_ok (m_mem m) chunk
}.

Lemma start_paging_run {T} (f : unit -> M (computer F) T) s :
  kheap_ok (m_heap (sy_mach (c_system s))) -> 1026 <= free_blocks (m_heap (sy_mach (c_system s))) ->
  exists y chunk m, (start_paging ≫= f) s = f tt (set_paging true (set_c_system y s)) /\ paging_on (c_system s) y chunk m.
Proof.
  intros Hok Hfree. set (y := c_system s) in *.
  destruct (new_chunk_spec (sy_mach y) 7 Hok Hfree ltac:(lia) eq_refl)
    as (chunk & m & E & Hok' & _ & Hsp & _ & Hlive & _ & _ & Hf).
  set (y1 := set_mach m y).
  set (y' := set_sy_tasks (set_cr3 (paging_switch (t_mem (sy_tasks y1)) chunk) (set_kernel_chunk chunk (sy_tasks y1))) y1).
  assert (Em : sy_mach y1 = m) by apply sy_mach_set.
  exists y', chunk, m. split.
  { unfold start_paging. rewrite bind_assoc, (bind_system _ _ s tt y'); [by rewrite bind_modify|]. fold y.
    change (Z.lor (Z.lor PAGING_IS_WRITEABLE PAGING_IS_PRESENT) PAGING_ACCESS_FROM_ALL) with 7.
    rewrite (bind_mach _ _ _ _ _ E). exact (zoom_Done sy_tasks set_sy_tasks _ y1 tt _ eq_refl). }
  constructor.
  - unfold y', y1. cbn [sy_loader set_sy_tasks set_mach set_threads_of l_vfs set_l_vfs]. rewrite upd_upd.
    unfold sy_tasks. cbn [t_machine set_cr3 set_kernel_chunk set_t_machine]. fold y1. by rewrite Em.
  - split; reflexivity.
  - unfold y'. cbn [sy_threads set_sy_tasks set_mach set_threads_of]. unfold sy_tasks, t_mem.
    cbn [t_machine set_t_machine]. by rewrite Em.
  - exact Hok'.
  - exact Hf.
  - intros b n Hb. apply Hlive. by right.
  - exact Hsp.
Qed.

(** The keyboard driver is the only one and goes to the head of the list. *)
Lemma keyboard_init_run {T} (f : unit -> M (computer F) T) s :
  fst (keyboard_list s) = 0 -> has_init (classic_keyboard (c_kernel s)) = true ->
  zlen (interrupt_callbacks (c_kernel s)) = KERNEL_TOTAL_INTERRUPTS ->
  exists k, (keyboard_init ≫= f) s = f tt (set_c_kernel k (set_keyboard_list (classic_address, classic_address) s)) /\
    k_system k = k_system (c_kernel s) /\ k_terminal k = k_terminal (c_kernel s) /\
    interrupt_callbacks k = zset (interrupt_callbacks (c_kernel s)) ISR_KEYBOARD_INTERRUPT (Some Classic_keyboard_handle_interrupt) /\
    state (classic_keyboard k) = KEYBOARD_CAPS_LOCK_OFF /\ isr80h_commands k = isr80h_commands (c_kernel s) /\
    idt_descriptors k = idt_descriptors (c_kernel s) /\ k_idtr k = k_idtr (c_kernel s).
Proof.
  intros Hl Hi Hz. unfold keyboard_init, keyboard_insert, classic_init. pose proof classic_address_pos.
  rewrite !bind_assoc, bind_gets, (proj2 (Z.eqb_neq classic_address 0)) by lia.
  unfold c_keyboards at 1. cbn [kbds]. rewrite lookup_singleton_eq, Hi. cbn [negb].
  unfold c_keyboards at 1. cbn [keyboard_list_head]. rewrite Hl. change (0 =? 0) with true. cbv iota.
  rewrite bind_assoc, bind_modify.
  assert (Es : set_c_keyboards (mk_keyboards (kbds (c_keyboards s)) classic_address classic_address) s =
    set_keyboard_list (classic_address, classic_address) s).
  { unfold set_c_keyboards, c_keyboards. cbn [kbds keyboard_list_head keyboard_list_tail]. rewrite lookup_singleton_eq.
    cbn [default]. by destruct s as [[]]. }
  rewrite Es. unfold classic_keyboard_init, idt_register_interrupt_callback, ISR_KEYBOARD_INTERRUPT, KERNEL_TOTAL_INTERRUPTS.
  change ((33 <? 0) || (256 <=? 33)) with false. cbv iota.
  set (k1 := set_callbacks (zset (interrupt_callbacks (c_kernel s)) 33 (Some Classic_keyboard_handle_interrupt)) (c_kernel s)).
  rewrite bind_assoc, (bind_kernel _ _ _ 0 k1) by reflexivity.
  set (k2 := set_classic (keyboard_set_capslock (classic_keyboard k1) KEYBOARD_CAPS_LOCK_OFF) k1).
  rewrite bind_assoc, (bind_kernel _ _ _ tt k2) by reflexivity.
  set (k3 := set_ports (k_reads k2) ((PS2_PORT, PS2_COMMAND_ENABLE_FIRST_PORT) :: k_writes k2) k2).
  rewrite bind_assoc, (bind_kernel _ _ _ tt k3), !bind_ret by reflexivity. exists k3. split; [reflexivity|]. by repeat split.
Qed.
End steps.

(** ** The shell running *)

(** The tables through which the processor enters the kernel. *)
Record tables_set {F} {PL : Platform} {BI : BootImage} (s : computer F) : Prop := {
  ts_gdt : c_gdtr s = (47, gdt_address) /\
    gdt_structured_to_gdt (replicate 6 (replicate 8 0)) (kernel_gdt_structured tss_address) 6 = Some (gdt_real s);
  ts_tss : c_tr s = 40 /\ zget (tss s) 1 = Some 6291456 /\ zget (tss s) 2 = Some KERNEL_DATA_SELECTOR;
  ts_gates : forall i, 0 <= i < KERNEL_TOTAL_INTERRUPTS ->
    exists d e, zget (idt_descriptors (c_kernel s)) i = Some d /\ zget interrupt_pointer_table i = Some e /\
      gate_address d = u32 (if i =? 128 then isr80h_wrapper else e);
  ts_callbacks : forall i, 0 <= i < KERNEL_TOTAL_INTERRUPTS -> zget (interrupt_callbacks (c_kernel s)) i =
    Some (if i <? 32 then Some Idt_handle_exception
          else if i =? ISR_KEYBOARD_INTERRUPT then Some Classic_keyboard_handle_interrupt else None);
  ts_commands : isr80h_commands (c_kernel s) = registered_table;
  ts_paging : c_paging s = true
}.

(** What the processor sees at the first instruction of the program [c], run by process
    [a] in thread [task]: its registers, and its address space through the page tables that
    CR3 names. *)
Record shell_runs {F} {LY : Layout} {FS : Filesystem machine F}
    (s : computer F) (c : list Z) (a task : Z) (p : task_struct) (t : thread_info) : Prop := {
  sr_process : 0 < a /\ processes (c_system s) = a :: replicate 11 0 /\ current_process (c_system s) = a;
  sr_space : has_space (c_system s) a p t;
  sr_running : ps_task p = task /\ t_process t = a /\ running (c_kernel s) task t;
  sr_registers : r_ip (regs t) = KERNEL_PROGRAM_VIRTUAL_ADDRESS /\
    r_esp (regs t) = KERNEL_PROGRAM_VIRTUAL_STACK_ADDRESS_START /\
    r_cs (regs t) = USER_CODE_SEGMENT /\ r_ss (regs t) = USER_DATA_SEGMENT;
  sr_cr3 : t_cr3 (sy_threads (c_system s)) = directory_entry (sy_mem (c_system s)) (page_directory t);
  sr_code : forall j i, 0 <= j < c_phnum c -> 0 <= i < c_filesz c j ->
    exists pa, translate (sy_mem (c_system s)) (t_cr3 (sy_threads (c_system s))) (c_vaddr c j + i) = Some pa /\
      ld8 (sy_mem (c_system s)) pa = byte_at c (c_offset c j + i);
  sr_stack : forall i, 0 <= i < KERNEL_USER_PROGRAM_STACK_SIZE ->
    exists pa, translate (sy_mem (c_system s)) (t_cr3 (sy_threads (c_system s)))
      (KERNEL_PROGRAM_VIRTUAL_STACK_ADDRESS_END + i) = Some pa /\ ld8 (sy_mem (c_system s)) pa = 0
}.

Lemma tables_set_system {F} {PL : Platform} {BI : BootImage} (s : computer F) y :
  tables_set s -> tables_set (set_c_system y s).
Proof. intros [T1 T2 T3 T4 T5 T6]. by constructor. Qed.

(** ** A disk with a shell *)

Definition shell_name : list Z := [115; 104; 101; 108; 108; 46; 101; 108; 102].

Section disk.
Context {B : Type} {LY : Layout} {BD : BlockDevice B} {LB : BlockDeviceLaws B} {PL : Platform} {BI : BootImage}.
Context (fuel : nat).

#[local] Instance boot_fs : Filesystem machine (fat machine B) := fat16_filesystem fuel.
#[local] Instance boot_spec_inst : FilesystemSpec machine (fat machine B) := fat16_spec.
#[local] Instance boot_laws : FilesystemLaws machine (fat machine B) := fat16_filesystem_laws fuel.
#[local] Instance boot_files : FilesystemFiles machine (fat machine B) := fat16_files fuel.
#[local] Instance boot_reads : FilesystemReads machine (fat machine B) := fat16_filesystem_reads fuel.
Implicit Types (s : computer (fat machine B)) (y : system (fat machine B)) (b : B).

(** The root directory of the volume, and what the driver computes from the boot sector;
    the addresses of the driver's own objects do not matter. *)
Definition volume_entries b : list fat_directory_item :=
  raw_entries b (root_sector (the_header b) * KERNEL_SECTOR_SIZE) (root_dir_entries (primary_header (the_header b))).
Definition volume b (k : Z) : fat_private :=
  mk_fat_private (the_header b)
    (mk_fat_directory 0 (zlen (filter in_use (raw_entries b (root_sector (the_header b) * KERNEL_SECTOR_SIZE) k))) 0
       (root_sector (the_header b) + (root_size (the_header b) + 511) / 512)) 0 0 0.

(** A FAT16 volume whose root directory, of at most 128 entries with [k] in front of the
    first empty one, has exactly one entry named SHELL.ELF: a program [c] of at most one
    cluster and of at most 23 blocks of the heap. *)
Record bootable b (k : Z) (it : fat_directory_item) (c : list Z) : Prop := {
  bt_volume : volume_ok fuel b k;
  bt_signature : signature (extended_header (the_header b)) = KERNEL_FAT16_SIGNATURE;
  bt_entries : 0 <= k <= root_dir_entries (primary_header (the_header b));
  bt_root : 0 < root_dir_entries (primary_header (the_header b)) <= 128;
  bt_geometry : geometry_ok (volume b k);
  bt_name : names_file (root_directory (volume b k)) (volume_entries b) shell_name it;
  bt_cluster : 2 <= fat16_get_first_cluster it < 65536;
  bt_size : 0 < filesize it <= cluster_size (volume b k) /\ filesize it <= 94208;
  bt_contents : c = disk_slice b (cluster_pos (volume b k) (fat16_get_first_cluster it)) (filesize it);
  bt_program : program_ok c;
  bt_fuel : (2 <= fuel)%nat
}.

(** The file the driver opens for the shell. *)
Lemma shell_file f0 (f : fat machine B) b k it c priv :
  bootable b k it c -> st_dev (f_st f0) = b -> root_loaded f0 f priv k ->
  let x := mk_fat_open it 0 priv (bd_image (st_dev (f_st f))) in
  (forall bufs, Forall2 holds bufs [shell_name] -> fs_can_open f bufs FILE_MODE_READ (Some x)) /\
  fs_loadable x /\ fs_contents x = Some c.
Proof.
  intros [V1 V2 V3 V4 V5 V6 V7 V8 V9 V10 V11] Hb Hrl x. pose proof (root_loaded_table _ _ _ _ Hrl) as Ht.
  destruct Hrl as [R1 R2 R3 R4 R5 R6 R7]. rewrite Hb in R2, R3, R4, R5, R6, R7, Ht. specialize (Ht V3).
  assert (Ecs : cluster_size priv = cluster_size (volume b k)) by (unfold cluster_size; by rewrite R2).
  assert (Ecp : forall n, cluster_pos priv n = cluster_pos (volume b k) n) by (intros n; unfold cluster_pos; by rewrite R2, R5).
  assert (Hg : geometry_ok priv).
  { destruct V5 as [G1 G2 G3 G4]. constructor; [by rewrite R2|by rewrite R2|by rewrite R5|by rewrite Ecp]. }
  split; [|split].
  - intros bufs Hbufs. apply Forall2_cons_inv_r in Hbufs as (nbuf & [|? ?] & Hn & Hnil & ->); [|by inversion Hnil].
    split; [reflexivity|]. exists priv, (volume_entries b), nbuf, shell_name.
    split; [exact (mt_priv _ _ R1)|]. split; [exact Ht|]. split; [reflexivity|]. split; [exact Hn|]. split; [done|].
    destruct V6 as (j & Hj & Hrest). split; [|split; [reflexivity|split; reflexivity]].
    exists j. rewrite R4. split; [exact Hj|exact Hrest].
  - split; [reflexivity|]. split; [exact Hg|]. split; [exact V7|]. split; [cbn [fo_item x]; lia|].
    split; [by exists (st_dev (f_st f))|]. split; [|exact V11]. intros b' _ Hgt. cbn [fo_item fo_private x] in Hgt. rewrite Ecs in Hgt. lia.
  - cbn [fs_contents boot_files fat16_files]. unfold fat16_contents. cbn [fo_item fo_private fo_image x].
    rewrite Ecs, (proj2 (Z.leb_le _ _)) by lia. rewrite Ecp, V9, image_slice_disk, R7. reflexivity.
Qed.
(** The machine after [start_heap]. *)
Definition heap_started (m : machine) : machine :=
  mk_machine (kheap_init (m_heap m)
    (load_bytes (m_mem m) KERNEL_HEAP_TABLE_ADDRESS (KERNEL_HEAP_SIZE_BYTES / KERNEL_HEAP_BLOCK_SIZE))) (m_mem m).

Lemma heap_started_ok m : kheap_ok (m_heap (heap_started m)) /\ free_blocks (m_heap (heap_started m)) = 25600.
Proof.
  set (es := load_bytes (m_mem m) KERNEL_HEAP_TABLE_ADDRESS (KERNEL_HEAP_SIZE_BYTES / KERNEL_HEAP_BLOCK_SIZE)).
  assert (Hl : zlen es = KERNEL_HEAP_SIZE_BYTES / KERNEL_HEAP_BLOCK_SIZE).
  { unfold es, load_bytes, zlen. rewrite length_map, length_seqZ. by apply Z2Nat.id. }
  split; [by apply kheap_init_ok|by apply kheap_init_free].
Qed.

Lemma files_run {T} (g : M (computer (fat machine B)) T) s b k it c :
  let v := l_vfs (sy_loader (c_system s)) in
  bootable b k it c -> st_dev (f_st (v_fs v)) = b -> file_descriptors v = replicate 512 0 ->
  kheap_ok (m_heap (sy_mach (c_system s))) -> free_blocks (m_heap (sy_mach (c_system s))) = 25600 ->
  exists f' priv,
    (on_system (on_file fs_init);; on_system (on_file disk_search_and_init);; g) s =
      g (set_c_system (set_vfs (booted 0 f' v) (c_system s)) s) /\
    vfs_ok (booted 0 f' v) /\ root_loaded (set_f_disk fresh_disk (v_fs v)) f' priv k /\
    free_blocks (m_heap (st_heap (f_st f'))) = 25595.
Proof.
  intros v Hbt Hdev Hfds Hok Hfree. pose proof Hbt as [V1 V2 V3 V4 _ _ _ _ _ _ _].
  assert (Eb : blocks_of (root_size (the_header b)) = 1) by (apply blocks_of_page; unfold root_size; lia).
  assert (Ed : st_dev (f_st (set_f_disk fresh_disk (v_fs v))) = b) by exact Hdev.
  assert (Hal : al_ok (st_heap (f_st (set_f_disk fresh_disk (v_fs v))))) by (unfold al_ok, machine_allocator; exact Hok).
  destruct (resolve_spec fuel (set_f_disk fresh_disk (v_fs v)) k Hal eq_refl eq_refl) as (res & f' & E & D).
  { by rewrite Ed. }
  { rewrite Ed, Eb. change (6 + 1 <= free_blocks (m_heap (sy_mach (c_system s)))). lia. }
  rewrite Ed, V2, Eb in D. change (negb (KERNEL_FAT16_SIGNATURE =? 41)) with false in D. cbv iota in D.
  destruct D as [(_ & Hno & _)|(-> & priv & Hrl)].
  { exfalso. apply Hno, roomy_page. change (0 < free_blocks (m_heap (sy_mach (c_system s))) - 6). lia. }
  exists f', priv. pose proof (boot_run fuel v 0 f' E) as Er. apply bind_inv in Er as ([] & v1 & E1 & E2).
  split; [|split; [exact (booted_ok fuel f' priv v (rl_mounted _ _ _ _ Hrl) Hfds)|split; [exact Hrl|]]].
  - rewrite (bind_system _ _ s tt (set_vfs v1 (c_system s))) by (by apply file_Done).
    rewrite (bind_system _ _ _ tt (set_vfs (booted 0 f' v) (set_vfs v1 (c_system s)))) by (by apply file_Done).
    reflexivity.
  - pose proof (ow_avail _ _ _ (rl_own _ _ _ _ Hrl)) as Ea. cbn [total_blocks_of] in Ea. rewrite Ed, Eb in Ea.
    change (free_blocks (m_heap (st_heap (f_st f'))) = free_blocks (m_heap (sy_mach (c_system s))) - (1 + (1 + (1 + (1 + (1 + 0)))))) in Ea. lia.
Qed.
(** [process_switch], then [task_run_first_ever_task] on a list of one thread. *)
Lemma first_task_run y a p t :
  has_space y a p t -> current_task (sy_threads y) = ps_task p -> dll (sy_tasks y) [ps_task p] ->
  let y1 := set_current_process a y in
  let y2 := set_sy_tasks (set_cr3 (directory_entry (sy_mem y) (page_directory t)) (set_current (ps_task p) (sy_tasks y1))) y1 in
  on_tasks task_run_first_ever_task y1 = Iret (ps_task p) y2 /\ sy_mach y2 = sy_mach y /\ ps_task p <> 0.
Proof.
  intros [U1 U2 U3 U4 U5] Hcur Hd y1 y2.
  assert (H0 : ps_task p <> 0) by (pose proof (dl_pos _ _ Hd) as Hp; by apply Forall_cons in Hp as [? _]).
  split; [|split; [exact (sy_mach_set _ _)|exact H0]]. apply zoom_Iret. unfold task_run_first_ever_task. rewrite bind_gets.
  change (current_task (sy_tasks y1)) with (current_task (sy_threads y)). rewrite Hcur, (proj2 (Z.eqb_neq _ _) H0), bind_gets.
  pose proof (dl_head _ _ Hd) as Hh. change (task_head (sy_tasks y1)) with (task_head (sy_tasks y)). rewrite Hh. cbn [hd].
  unfold task_switch. rewrite bind_assoc, bind_modify, bind_assoc, (bind_thread _ _ _ t) by exact U2.
  rewrite bind_assoc, bind_modify, bind_ret. reflexivity.
Qed.

(** What the loader of the kernel leaves: the variables of the C code at their static
    initial values, the disk [b]; anything in memory. *)
Record power_on s b : Prop := {
  pw_disk : st_dev (f_st (v_fs (l_vfs (sy_loader (c_system s))))) = b;
  pw_files : file_descriptors (l_vfs (sy_loader (c_system s))) = replicate 512 0;
  pw_processes : processes (c_system s) = replicate 12 0 /\ current_process (c_system s) = 0;
  pw_threads : task_head (sy_threads (c_system s)) = 0 /\ task_tail (sy_threads (c_system s)) = 0;
  pw_callbacks : interrupt_callbacks (c_kernel s) = replicate (Z.to_nat KERNEL_TOTAL_INTERRUPTS) None;
  pw_commands : isr80h_commands (c_kernel s) = replicate (Z.to_nat KERNEL_MAX_ISR80H_COMMANDS) None;
  pw_keyboards : fst (keyboard_list s) = 0 /\ has_init (classic_keyboard (c_kernel s)) = true
}.

(** Ready for the shell to be loaded. *)
Record set_up y c : Prop := {
  su_load : can_load y 0;
  su_processes : processes y = replicate 12 0;
  su_file : exists x, (forall bufs, Forall2 holds bufs [shell_name] ->
      fs_can_open (v_fs (l_vfs (sy_loader y))) bufs FILE_MODE_READ (Some x)) /\
    fs_loadable x /\ fs_contents x = Some c;
  su_free_fd : first_free (l_vfs (sy_loader y)) = 0;
  su_threads : dll (sy_threads y) [];
  su_room : free_blocks (m_heap (sy_mach y)) = 24569
}.

Lemma start_shell_run s c :
  set_up (c_system s) c -> program_ok c -> zlen c <= 94208 -> 95 <= zlen after_shell_path ->
  exists task y a p t, start_shell s = Iret task (set_c_system y s) /\ shell_runs (set_c_system y s) c a task p t.
Proof.
  intros [U1 U2 (x & X1 & X2 & X3) U4 U5 U6] Hok Hc Hpath. set (y := c_system s) in *.
  assert (Hb : 0 < blocks_of (zlen c) <= 23).
  { destruct (fs_contents_len x c X2 X3) as [Hl _]. pose proof (fs_size_range x X2).
    pose proof (blocks_of_spec (zlen c) ltac:(lia)) as Hs. unfold KERNEL_HEAP_BLOCK_SIZE in Hs. lia. }
  assert (Hholds : holds (shell_path ++ 0 :: after_shell_path) shell_path).
  { apply holds_intro. unfold is_char, shell_path. repeat constructor; lia. }
  destruct (load_total y 0 (shell_path ++ 0 :: after_shell_path) shell_path [shell_name] x c []) as (res & a & y1 & E & D); try done.
  { rewrite zlen_app, zlen_cons. change (zlen shell_path) with 12. unfold KERNEL_MAX_PATH. lia. }
  { by rewrite U4. }
  { intros b Hb'. by apply elem_of_nil in Hb'. }
  { change (zlen [shell_name]) with 1. change fs_need with 3. lia. }
  change (zlen [shell_name]) with 1 in D. change fs_need with 3 in D. rewrite U6 in D.
  destruct D as [(_ & _ & _ & Hno)|(-> & Ha & p & t & Hst & _)].
  { destruct Hno. split; (apply (roomy_mono (24569 - 38) _ 23); [|lia|lia]); unfold roomy, fits; vm_compute; by split. }
  pose proof Hst as [T1 T2 T3 _ (T4 & T4b & T4c & T4d & T4e) T5 T6 T7 T8 T9 T10].
  destruct (first_task_run y1 a p t T2 T6 T5) as (E2 & Em & H0).
  match type of E2 with _ = Iret _ ?q => set (y2 := q) in * end. exists (ps_task p), y2, a, p, t. split.
  - unfold start_shell. rewrite (bind_system _ _ s (0, a) (set_current_process a y1)).
    2: { unfold process_load_switch. fold y. by rewrite (bind_Done _ _ _ _ _ E). }
    change (fst (0, a) <? 0) with false. cbv iota. apply bind_Iret. unfold on_system, on_kernel.
    set (sA := set_c_system _ s). rewrite (zoom_Iret c_kernel set_c_kernel _ sA (ps_task p) (set_k_system y2 (c_kernel sA))); [reflexivity|].
    exact (zoom_Iret k_system set_k_system _ (c_kernel sA) _ _ E2).
  - change (c_system (set_c_system y2 s)) with y2.
    assert (Emm : sy_mem y2 = sy_mem y1) by (unfold sy_mem; by rewrite Em).
    assert (Ecr : t_cr3 (sy_threads y2) = directory_entry (sy_mem y1) (page_directory t)) by reflexivity.
    constructor; change (c_system (set_c_system y2 s)) with y2; rewrite ?Ecr, ?Emm.
    + split; [exact Ha|]. split; [|reflexivity]. change (processes y2) with (processes y1). by rewrite T1, U2.
    + destruct T2 as [W1 W2 W3 W4 W5]. constructor; rewrite ?Emm, ?Em; assumption.
    + split; [reflexivity|]. split; [exact T4|]. constructor; [reflexivity|exact H0|exact (hs_thread _ _ _ _ T2)].
    + by repeat split.
    + reflexivity.
    + exact T8.
    + intros i Hi. destruct (T9 i Hi) as [T9a T9b]. by exists (ps_stack p + i).
Qed.
Lemma set_up_after_paging y y' b k it c chunk m f' priv :
  let v := l_vfs (sy_loader y) in
  bootable b k it c -> st_dev (f_st (v_fs v)) = b -> file_descriptors v = replicate 512 0 ->
  processes y = replicate 12 0 -> current_process y = 0 -> task_head (sy_threads y) = 0 -> task_tail (sy_threads y) = 0 ->
  vfs_ok (booted 0 f' v) -> root_loaded (set_f_disk fresh_disk (v_fs v)) f' priv k ->
  free_blocks (m_heap (st_heap (f_st f'))) = 25595 ->
  paging_on (set_vfs (booted 0 f' v) y) y' chunk m -> set_up y' c.
Proof.
  intros v Hbt Hdev Hfds Hpr Hcur Hh Ht Hvok Hrl Hfree [P1 [P2 P3] P4 P5 P6 P7 P8].
  change (l_vfs (sy_loader (set_vfs (booted 0 f' v) y))) with (booted 0 f' v) in P1.
  assert (Em : sy_mach y' = m) by (unfold sy_mach, v_mach; rewrite P1; reflexivity).
  destruct (shell_file (set_f_disk fresh_disk (v_fs v)) f' b k it c priv Hbt Hdev Hrl) as (X1 & X2 & X3).
  assert (Hv' : vfs_ok (l_vfs (sy_loader y'))) by (rewrite P1; apply vfs_ok_heap; [exact Hvok|exact P5|exact P7]).
  assert (Hff : first_free (l_vfs (sy_loader y')) = 0).
  { unfold first_free. rewrite P1. change (free_slot_loop (file_descriptors v) 0 = 0). by rewrite Hfds. }
  constructor.
  - change (processes (set_vfs (booted 0 f' v) y)) with (processes y) in P2.
    change (current_process (set_vfs (booted 0 f' v) y)) with (current_process y) in P3.
    constructor; [exact Hv'|by rewrite P2, Hpr|rewrite P2, Hpr; split; [reflexivity|lia]|left; by rewrite P3].
  - rewrite P2. exact Hpr.
  - eexists. split; [|split; [exact X2|exact X3]]. intros bufs Hb. rewrite P1.
    apply (fs_can_set (v_fs (booted 0 f' v)) m bufs FILE_MODE_READ _); [|exact P7].
    destruct (X1 bufs Hb) as (Hmode & Hrest). split; [exact Hmode|exact Hrest].
  - exact Hff.
  - rewrite P4. constructor; cbn [task_head task_tail set_cr3 set_kernel_chunk set_t_machine sy_threads set_vfs set_sy_loader];
      [exact Hh|exact Ht|constructor|constructor|constructor].
  - rewrite Em, P6. change (free_blocks (m_heap (st_heap (f_st f'))) - 1026 = 24569). lia.
Qed.
(** The tables, once the driver of the keyboard and the system calls are registered. *)
Lemma tables_run s0 {T} (f : unit -> M (computer (fat machine B)) T) g :
  KERNEL_TOTAL_INTERRUPTS <= zlen interrupt_pointer_table ->
  interrupt_callbacks (c_kernel s0) = replicate (Z.to_nat KERNEL_TOTAL_INTERRUPTS) None ->
  isr80h_commands (c_kernel s0) = replicate (Z.to_nat KERNEL_MAX_ISR80H_COMMANDS) None ->
  fst (keyboard_list s0) = 0 -> has_init (classic_keyboard (c_kernel s0)) = true ->
  gdt_structured_to_gdt (replicate 6 (replicate 8 0)) (kernel_gdt_structured tss_address) 6 = Some g ->
  gdt_real s0 = g -> c_gdtr s0 = (47, gdt_address) ->
  kheap_ok (m_heap (sy_mach (c_system s0))) -> 1026 <= free_blocks (m_heap (sy_mach (c_system s0))) ->
  exists s1 chunk m,
    (on_kernel idt_init;; load_tss;; start_paging;; keyboard_init;; on_kernel isr80h_register_commands;; f tt) s0 = f tt s1 /\
    tables_set s1 /\ paging_on (c_system s0) (c_system s1) chunk m.
Proof.
  intros Ht Hcb Hcm Hkl Hki Hg Eg Er Hok Hfree.
  destruct (idt_init_run (c_kernel s0) Ht) as (k1 & E1 & I1 & I2 & I3 & I4 & I5 & I6 & I7); [by rewrite Hcb|].
  rewrite (bind_kernel _ _ s0 tt k1 E1). unfold load_tss. rewrite bind_assoc, bind_modify, bind_assoc, bind_modify, bind_assoc, !bind_modify.
  match goal with |- context [(start_paging ≫= _) ?q] => set (s2 := q) end.
  assert (Ey : c_system s2 = c_system s0) by exact I4.
  destruct (start_paging_run (fun _ => keyboard_init;; on_kernel isr80h_register_commands;; f tt) s2) as (y2 & chunk & m & E2 & Hp);
    [by rewrite Ey|by rewrite Ey|]. rewrite E2.
  match goal with |- context [(keyboard_init ≫= _) ?q] => set (s3 := q) end.
  destruct (keyboard_init_run (fun _ => on_kernel isr80h_register_commands;; f tt) s3) as (k4 & E4 & K1 & K2 & K3 & K4 & K5 & K6 & K7).
  { exact Hkl. }
  { change (has_init (classic_keyboard k1) = true). by rewrite I6. }
  { exact I7. }
  rewrite E4. match goal with |- context [(on_kernel _ ≫= _) ?q] => set (s4 := q) end.
  rewrite (bind_kernel _ _ s4 tt (set_commands registered_table k4)).
  2: { apply register_commands_run. change (c_kernel s4) with k4. rewrite K5. change (isr80h_commands k1 = replicate (Z.to_nat KERNEL_MAX_ISR80H_COMMANDS) None). by rewrite I5. }
  eexists. exists chunk, m. split; [reflexivity|]. rewrite Ey in Hp. split.
  - constructor.
    + split; [exact Er|by rewrite Hg, <- Eg].
    + split; [reflexivity|]. split; vm_compute; reflexivity.
    + intros i Hi. destruct (I1 i Hi) as (d & e & D1 & D2 & D3 & _). exists d, e.
      change (idt_descriptors (c_kernel _)) with (idt_descriptors k4). rewrite K6. by split.
    + intros i Hi. change (interrupt_callbacks (c_kernel _)) with (interrupt_callbacks k4). rewrite K3, zget_zset.
      change (interrupt_callbacks (c_kernel s3)) with (interrupt_callbacks k1). rewrite I7, I3, Hcb, zget_replicate.
      unfold ISR_KEYBOARD_INTERRUPT, KERNEL_TOTAL_INTERRUPTS in *. zsolve.
    + reflexivity.
    + reflexivity.
  - change (paging_on (c_system s0) (k_system k4) chunk m). rewrite K1. exact Hp.
Qed.
Lemma kernel_main_total s b k it c :
  power_on s b -> bootable b k it c -> KERNEL_TOTAL_INTERRUPTS <= zlen interrupt_pointer_table ->
  95 <= zlen after_shell_path ->
  exists task s' a p t, kernel_main s = Iret task s' /\ tables_set s' /\ shell_runs s' c a task p t.
Proof.
  intros [W1 W2 [W3 W3'] [W4 W4'] W5 W6 [W7 W7']] Hbt Htab Hpath. unfold kernel_main.
  rewrite (bind_kernel (modify _) _ s tt _ eq_refl). match goal with |- context [(load_gdt ≫= _) ?q] => set (s1 := q) end.
  match goal with |- context [(load_gdt ≫= ?q) s1] => destruct (load_gdt_run q s1) as (g & Eg & E1); rewrite E1; clear E1 end.
  match goal with |- context [(on_system (on_mach start_heap) ≫= _) ?q] => set (s2 := q) end.
  destruct (heap_started_ok (sy_mach (c_system s2))) as [Hok Hfree].
  rewrite (bind_system _ _ s2 tt (set_mach (heap_started (sy_mach (c_system s2))) (c_system s2))).
  2: { exact (zoom_Done sy_mach set_mach start_heap (c_system s2) tt _ eq_refl). }
  set (y3 := set_mach _ _). set (s3 := set_c_system y3 s2).
  assert (Em : sy_mach y3 = heap_started (sy_mach (c_system s2))) by apply sy_mach_set.
  match goal with |- context [(on_system (on_file fs_init) ≫= (fun _ => on_system (on_file disk_search_and_init) ≫= (fun _ => ?q))) s3] =>
    destruct (files_run q s3 b k it c Hbt) as (f' & priv & E4 & Hvok & Hrl & Hf4) end;
    [exact W1|exact W2|change (c_system s3) with y3; by rewrite Em|change (c_system s3) with y3; by rewrite Em|].
  rewrite E4. clear E4. match goal with |- context [(on_kernel idt_init ≫= _) ?q] => set (s5 := q) end.
  assert (Hheap : sy_mach (c_system s5) = st_heap (f_st f')) by reflexivity.
  destruct (tables_run s5 (fun _ => start_shell) g Htab W5 W6 W7 W7' Eg eq_refl eq_refl) as (s6 & chunk & m & E6 & Hts & Hp).
  { rewrite Hheap. exact (mt_ok _ _ (rl_mounted _ _ _ _ Hrl)). }
  { rewrite Hheap, Hf4. lia. }
  rewrite E6.
  assert (Hsu : set_up (c_system s6) c).
  { exact (set_up_after_paging y3 (c_system s6) b k it c chunk m f' priv Hbt W1 W2 W3 W3' W4 W4' Hvok Hrl Hf4 Hp). }
  destruct (start_shell_run s6 c Hsu (bt_program _ _ _ _ Hbt)) as (task & y & a & p & t & E7 & Hsr); [|exact Hpath|].
  { pose proof (bt_size _ _ _ _ Hbt). rewrite (bt_contents _ _ _ _ Hbt), disk_slice_len; lia. }
  exists task, (set_c_system y s6), a, p, t. split; [exact E7|]. split; [by apply tables_set_system|exact Hsr].
Qed.
End disk.

(** ** Properties *)

(** C1: from power on to the shell.  On a disk that is [bootable], [kernel_main] neither
    panics nor returns: it leaves for user mode in a new thread, with all interrupt,
    exception and system call entries in place, paging on, and the page tables of process
    0, which show the segments of SHELL.ELF at the addresses the file asks for and a zeroed
    stack below 0x3FF000; execution starts at 0x400000. *)
Theorem kernel_main_starts_shell {B : Type} {LY : Layout} {BD : BlockDevice B} {LB : BlockDeviceLaws B}
    {PL : Platform} {BI : BootImage} (fuel : nat) (s : computer (fat machine B)) (b : B) (k : Z)
    (it : fat_directory_item) (c : list Z) :
  power_on s b -> bootable fuel b k it c -> KERNEL_TOTAL_INTERRUPTS <= zlen interrupt_pointer_table ->
  95 <= zlen after_shell_path ->
  exists task s' a p t, kernel_main (FS := fat16_filesystem fuel) s = Iret task s' /\ tables_set s' /\
    shell_runs (FS := fat16_filesystem fuel) s' c a task p t.
Proof. apply kernel_main_total. Qed.

(** The sample volume with the program [run_elf] as SHELL.ELF. *)
#[local] Existing Instances sample_layout ram_block_device.
#[local] Instance boot_disk_laws : BlockDeviceLaws ram_disk := ram_block_device_laws.
#[local] Existing Instance sample_platform.
#[local] Instance sample_image : BootImage :=
  {| gdt_address := 4096; tss_address := 8192; classic_address := 12288; after_shell_path := replicate 95 0;
     classic_address_pos := eq_refl |}.

Definition shell_elf : list Z := [83; 72; 69; 76; 76; 32; 32; 32; 69; 76; 70].
Definition shell_disk : ram_disk := mk_ram_disk (fun i =>
  if i <? 1536 then ram_byte (sample_volume (sample_entry shell_elf 2 84)) i else nth (Z.to_nat (i - 1536)) run_elf 0).

Lemma shell_disk_bootable : bootable 16 shell_disk 1 (dir_entry shell_disk 1024 0) run_elf.
Proof.
  assert (Er : root_sector (the_header shell_disk) = 2) by (vm_compute; reflexivity).
  assert (En : root_dir_entries (primary_header (the_header shell_disk)) = 16) by (vm_compute; reflexivity).
  assert (Es : root_size (the_header shell_disk) = 512) by (vm_compute; reflexivity).
  assert (Esp : sectors_per_cluster (primary_header (the_header shell_disk)) = 1) by (vm_compute; reflexivity).
  assert (Ers : reserved_sectors (primary_header (the_header shell_disk)) = 1) by (vm_compute; reflexivity).
  assert (Et : dir_total (root_directory (volume shell_disk 1)) = 1) by (vm_compute; reflexivity).
  constructor.
  - constructor; rewrite ?Er, ?Es; try (unfold KERNEL_SECTOR_SIZE; lia); [].
    split; [lia|]. split; [vm_compute; reflexivity|]. intros i Hi. assert (i = 0) as -> by lia. vm_compute. discriminate.
  - vm_compute. reflexivity.
  - rewrite En. lia.
  - rewrite En. lia.
  - constructor; unfold cluster_pos, KERNEL_SECTOR_SIZE; cbn [volume header root_directory ending_sector_pos]; rewrite ?Er, ?Es, ?Esp, ?Ers;
      change ((512 + 511) / 512) with 1; lia.
  - exists 0. rewrite Et. split; [lia|]. split; [vm_compute; reflexivity|]. split; [vm_compute; reflexivity|].
    split; [vm_compute; reflexivity|]. intros j' it' Hj' Hne. lia.
  - assert (Ec : fat16_get_first_cluster (dir_entry shell_disk 1024 0) = 2) by (vm_compute; reflexivity). rewrite Ec. lia.
  - assert (Ef : filesize (dir_entry shell_disk 1024 0) = 84) by (vm_compute; reflexivity). rewrite Ef.
    unfold cluster_size, KERNEL_SECTOR_SIZE. cbn [volume header]. rewrite Esp. lia.
  - vm_compute. reflexivity.
  - exact run_elf_ok.
  - lia.
Qed.

(** The variables at their initial values, in a memory of zeros. *)
Definition powered (m : machine) : computer (fat machine ram_disk) :=
  mk_computer
    (mk_kernel
      (mk_system (mk_loader (mk_vfs (mk_fat (mk_streams m shell_disk ∅) (mk_disk 0 0 0 0 0) ∅ ∅ ∅ ∅ ∅) ∅ ∅ ∅ [] (replicate 512 0) ∅) ∅)
        (no_tasks m) ∅ (replicate 12 0) 0)
      (mk_terminal (fun _ => 0) 0 0) (mk_keyboard true 0 0) [] (mk_idtr_desc 0 0) (mk_idtr_desc 0 0)
      (replicate (Z.to_nat KERNEL_TOTAL_INTERRUPTS) None) (replicate (Z.to_nat KERNEL_MAX_ISR80H_COMMANDS) None) 0 [])
    [] [] (0, 0) (0, 0) 0 false.

Lemma kernel_main_starts_shell_witness :
  exists task s' a p t, let FS := fat16_filesystem 16 in
    kernel_main (powered (mk_machine (mk_heap (mk_heap_table [] 0) 0) (fun _ => 0))) = Iret task s' /\
    r_ip (regs t) = 4194304 /\ shell_runs s' run_elf a task p t /\
    exists pa, translate (sy_mem (c_system s')) (t_cr3 (sy_threads (c_system s'))) 4194305 = Some pa /\
      ld8 (sy_mem (c_system s')) pa = 69.
Proof.
  destruct (kernel_main_starts_shell 16 (powered (mk_machine (mk_heap (mk_heap_table [] 0) 0) (fun _ => 0))) shell_disk 1 (dir_entry shell_disk 1024 0) run_elf)
    as (task & s' & a & p & t & E & _ & Hsr).
  - constructor; [reflexivity|reflexivity|split; reflexivity|split; reflexivity|reflexivity|reflexivity|split; reflexivity].
  - exact shell_disk_bootable.
  - vm_compute. discriminate.
  - vm_compute. discriminate.
  - exists task, s', a, p, t. split; [exact E|]. split; [exact (proj1 (sr_registers _ _ _ _ _ _ Hsr))|]. split; [exact Hsr|].
    assert (En : c_phnum run_elf = 1) by (vm_compute; reflexivity).
    assert (Ef : c_filesz run_elf 0 = 84) by (vm_compute; reflexivity).
    destruct (sr_code _ _ _ _ _ _ Hsr 0 1) as (pa & Et & Eb); [rewrite En; lia|rewrite Ef; lia|].
    exists pa. split; [exact Et|]. rewrite Eb. vm_compute. reflexivity.
Defined.
