(* ===== verification/UString.v ===== *)
(** * The user library, strings and numbers: programs/stdlib/src/{string,memory,stdlib}.c

    The library the programs are linked with has its own string functions.  They differ from
    the kernel's of CString.v: [strncpy] stays within [count] and always terminates, the
    comparisons work on unsigned characters.  Buffers are as in CString.v. *)
From S2P Require Import Prelude CString Print.

Module User.

(** ** string.c *)

Definition tolower (s1 : Z) : Z := if (65 <=? i8 s1) && (i8 s1 <=? 90) then u8 (s1 + 32) else s1.

Fixpoint strlen_loop (ptr : list Z) (i : Z) : option Z :=
  match ptr with
  | [] => None
  | c :: ptr' => if negb (c =? 0) then strlen_loop ptr' (i + 1) else Some i
  end.
Definition strlen (ptr : list Z) : option Z := strlen_loop ptr 0.

Fixpoint strnlen_loop (ptr : list Z) (i max : Z) : option Z :=
  if i <? max then
    match ptr with
    | [] => None
    | c :: ptr' => if c =? 0 then Some i else strnlen_loop ptr' (i + 1) max
    end
  else Some i.
Definition strnlen (ptr : list Z) (max : Z) : option Z := strnlen_loop ptr 0 max.

Fixpoint strnlen_terminator_loop (str : list Z) (i max terminator : Z) : option Z :=
  if i <? max then
    match str with
    | [] => None
    | c :: str' =>
        if (c =? 0) || (c =? terminator) then Some i else strnlen_terminator_loop str' (i + 1) max terminator
    end
  else Some i.
Definition strnlen_terminator (str : list Z) (max terminator : Z) : option Z :=
  strnlen_terminator_loop str 0 max terminator.

Fixpoint istrncmp_loop (n : nat) (s1 s2 : list Z) : option Z :=
  match n with
  | O => Some 0
  | S n' =>
      match s1, s2 with
      | u1 :: s1', u2 :: s2' =>
          if negb (u1 =? u2) && negb (tolower u1 =? tolower u2) then Some (u1 - u2)
          else if u1 =? 0 then Some 0
          else istrncmp_loop n' s1' s2'
      | _, _ => None
      end
  end.
Definition istrncmp (s1 s2 : list Z) (n : Z) : option Z := istrncmp_loop (Z.to_nat n) s1 s2.

Fixpoint strncmp_loop (n : nat) (str1 str2 : list Z) : option Z :=
  match n with
  | O => Some 0
  | S n' =>
      match str1, str2 with
      | u1 :: s1', u2 :: s2' =>
          if negb (u1 =? u2) then Some (u1 - u2)
          else if u1 =? 0 then Some 0
          else strncmp_loop n' s1' s2'
      | _, _ => None
      end
  end.
Definition strncmp (str1 str2 : list Z) (n : Z) : option Z := strncmp_loop (Z.to_nat n) str1 str2.

Fixpoint strcpy_loop (dest src : list Z) (i : Z) : option (list Z) :=
  match src with
  | [] => None
  | c :: src' =>
      if negb (c =? 0) then
        match put dest i c with Some dest' => strcpy_loop dest' src' (i + 1) | None => None end
      else put dest i 0
  end.
Definition strcpy (dest src : list Z) : option (list Z) := strcpy_loop dest src 0.

Fixpoint strncpy_loop (dest src : list Z) (i count : Z) : option (list Z * Z) :=
  if i <? count - 1 then
    match src with
    | [] => None
    | c :: src' =>
        if c =? 0 then Some (dest, i)
        else match put dest i c with
             | Some dest' => strncpy_loop dest' src' (i + 1) count
             | None => None
             end
    end
  else Some (dest, i).
Definition strncpy (dest src : list Z) (count : Z) : option (list Z) :=
  match strncpy_loop dest src 0 count with
  | Some (dest', i) => put dest' i 0
  | None => None
  end.

Definition isdigit (c : Z) : bool := (48 <=? i8 c) && (i8 c <=? 57).
Definition tonumericdigit (c : Z) : Z := i8 c - 48.

(** *** [strtok]: the buffer the static pointer [sp] points into, and its index there *)

Record tokens := mk_tokens { tok_buf : list Z; sp : option Z }.

(** The inner loops: does [c] equal one of the [del_len] delimiters? *)
Fixpoint is_delim_loop (n : nat) (delimiters : list Z) (c : Z) : bool :=
  match n, delimiters with
  | S n', d :: delimiters' => if c =? d then true else is_delim_loop n' delimiters' c
  | _, _ => false
  end.

(** [p_start] moves over delimiters; the list is the buffer from [p_start] on. *)
Fixpoint skip_loop (del_len : Z) (delimiters l : list Z) (p_start : Z) : option Z :=
  match l with
  | [] => None
  | c :: l' =>
      if negb (c =? 0) then
        if is_delim_loop (Z.to_nat del_len) delimiters c then skip_loop del_len delimiters l' (p_start + 1)
        else Some p_start
      else Some p_start
  end.

(** [sp] moves over the token: where it ends, and whether at a delimiter. *)
Fixpoint scan_loop (del_len : Z) (delimiters l : list Z) (p : Z) : option (Z * bool) :=
  match l with
  | [] => None
  | c :: l' =>
      if negb (c =? 0) then
        if is_delim_loop (Z.to_nat del_len) delimiters c then Some (p, true)
        else scan_loop del_len delimiters l' (p + 1)
      else Some (p, false)
  end.

(** The pointer returned is an index into [tok_buf]; [None] inside is NULL. *)
Definition strtok (str : option (list Z)) (delimiters : option (list Z)) (t : tokens) : option (option Z * tokens) :=
  match delimiters with
  | None => Some (None, t)
  | Some delimiters =>
      match strlen delimiters with
      | None => None
      | Some del_len =>
          if del_len =? 0 then Some (None, t)
          else
            let t := match str with Some str => mk_tokens str (Some 0) | None => t end in
            match sp t with
            | None => Some (None, t)
            | Some p =>
                match skip_loop del_len delimiters (drop (Z.to_nat p) (tok_buf t)) p with
                | None => None
                | Some p_start =>
                    match zget (tok_buf t) p_start with
                    | None => None
                    | Some c =>
                        if c =? 0 then Some (None, mk_tokens (tok_buf t) None)
                        else
                          match scan_loop del_len delimiters (drop (Z.to_nat p_start) (tok_buf t)) p_start with
                          | None => None
                          | Some (e, true) => Some (Some p_start, mk_tokens (zset (tok_buf t) e 0) (Some (e + 1)))
                          | Some (e, false) => Some (Some p_start, mk_tokens (tok_buf t) (Some e))
                          end
                    end
                end
            end
      end
  end.

(** ** memory.c *)

(** [i] is compared as an unsigned number. *)
Fixpoint memset_loop (n : nat) (c_ptr : list Z) (i c : Z) : option (list Z) :=
  match n with
  | O => Some c_ptr
  | S n' => match put c_ptr i (u8 c) with Some c_ptr' => memset_loop n' c_ptr' (i + 1) c | None => None end
  end.
Definition memset (ptr : list Z) (c size : Z) : option (list Z) := memset_loop (Z.to_nat size) ptr 0 c.

Fixpoint memcmp_loop (n : nat) (c1 c2 : list Z) : option Z :=
  match n with
  | O => Some 0
  | S n' =>
      match c1, c2 with
      | a :: c1', b :: c2' =>
          if negb (a =? b) then Some (if i8 a <? i8 b then -1 else 1) else memcmp_loop n' c1' c2'
      | _, _ => None
      end
  end.
Definition memcmp (s1 s2 : list Z) (count : Z) : option Z := memcmp_loop (Z.to_nat count) s1 s2.

(** [while (len--)]: a negative [len] counts down through the whole range of [int]. *)
Fixpoint memcpy_loop (n : nat) (d s : list Z) (i : Z) : option (list Z) :=
  match n with
  | O => Some d
  | S n' =>
      match s with
      | [] => None
      | c :: s' => match put d i c with Some d' => memcpy_loop n' d' s' (i + 1) | None => None end
      end
  end.
Definition memcpy (dest src : list Z) (len : Z) : option (list Z) := memcpy_loop (Z.to_nat (u32 len)) dest src 0.

(** ** stdlib.c *)

(** The digits: an [int] has at most ten. *)
Fixpoint itoa_loop (n : nat) (text : list Z) (loc val : Z) : option (list Z * Z) :=
  match n with
  | O => None
  | S n' =>
      if negb (val =? 0) then
        match put text (loc - 1) (u8 (48 + crem val 10)) with
        | Some text' => itoa_loop n' text' (loc - 1) (cdiv val 10)
        | None => None
        end
      else Some (text, loc)
  end.

(** [text] is the static array of 12 bytes; the result is that array and the index of the
    string in it.  [-val] of the least [int] wraps around. *)
Definition itoa (text : list Z) (val : Z) : option (list Z * Z) :=
  match put text 11 0 with
  | None => None
  | Some text =>
      let neg := val <? 0 in
      let val := if neg then i32 (- val) else val in
      match itoa_loop 12 text 11 val with
      | None => None
      | Some (text, loc) =>
          match (if loc =? 11 then option_map (fun text => (text, loc - 1)) (put text (loc - 1) 48) else Some (text, loc)) with
          | None => None
          | Some (text, loc) =>
              if neg then option_map (fun text => (text, loc - 1)) (put text (loc - 1) 45) else Some (text, loc)
          end
      end
  end.

End User.

(** ** [strncpy] *)

Lemma user_strncpy_loop dest src i count :
  User.strncpy_loop dest src i count = CString.strncpy_loop dest src i (count - 1).
Proof.
  revert dest i. induction src as [|c src IH]; intros dest i; simpl; [done|].
  destruct (i <? count - 1); [|done]. destruct (c =? 0); [done|]. by destruct (put dest i c).
Qed.

Lemma user_strncpy_run dest buf s count :
  holds buf s -> 1 <= count -> count <= zlen dest ->
  let k := Z.min (zlen s) (count - 1) in
  User.strncpy dest buf count = Some (take (Z.to_nat k) s ++ 0 :: drop (Z.to_nat (k + 1)) dest).
Proof.
  intros Hs Hc Hd k. pose proof (zlen_nonneg s). unfold User.strncpy. rewrite user_strncpy_loop.
  change dest with ([] ++ dest) at 1. rewrite (strncpy_loop_spec [] dest buf s 0 (count - 1)) by (done || lia).
  rewrite Z.sub_0_r. fold k. cbv zeta. rewrite (proj2 (Z.leb_le k _)) by lia. cbn [app].
  destruct (drop (Z.to_nat k) dest) as [|x rest] eqn:Ed.
  { apply (f_equal length) in Ed. rewrite length_drop in Ed. unfold zlen in *. simpl in Ed. lia. }
  rewrite put_app'; [|unfold zlen in *; rewrite length_take; lia]. do 3 f_equal.
  replace (Z.to_nat (k + 1)) with (Z.to_nat k + 1)%nat by lia. by rewrite <- drop_drop, Ed.
Qed.

(** ** Numbers *)

Definition is_digit (c : Z) : Prop := 48 <= c <= 57.

(** The decimal numeral [ds] of [n], without leading zeros ("" for 0). *)
Record numeral (n : Z) (ds : list Z) : Prop := {
  nu_digits : Forall is_digit ds;
  nu_value : numeral_value 10 ds = n;
  nu_lead : forall c l, ds = c :: l -> c <> 48
}.

Lemma numeral_zero : numeral 0 [].
Proof. constructor; [constructor|done|done]. Qed.

Lemma numeral_snoc q d ds :
  numeral q ds -> 0 <= q -> 0 <= d < 10 -> 0 < q * 10 + d -> numeral (q * 10 + d) (ds ++ [48 + d]).
Proof.
  intros [H1 H2 H3] Hq Hd Hpos. constructor.
  - apply Forall_app. split; [done|]. constructor; [unfold is_digit; lia|constructor].
  - rewrite numeral_value_snoc, H2. unfold digit_value. rewrite (proj2 (Z.ltb_lt (48 + d) 65)) by lia. lia.
  - intros c l E. destruct ds as [|c' ds]; simpl in E; injection E as <- _; [|by eapply H3].
    unfold numeral_value in H2. simpl in H2. lia.
Qed.

(** [p] is the part of the text that is still free. *)
Lemma itoa_loop_run n p suf val :
  0 <= val < 10 ^ Z.of_nat (length p) -> (length p < n)%nat ->
  exists p' ds, User.itoa_loop n (p ++ suf) (zlen p) val = Some (p' ++ ds ++ suf, zlen p') /\
    numeral val ds /\ length p = (length p' + length ds)%nat.
Proof.
  revert p suf val. induction n as [|n IH]; intros p suf val Hv Hn; [lia|]. cbn [User.itoa_loop].
  destruct (Z.eqb_spec val 0) as [-> |H0]; cbn [negb].
  - exists p, []. split; [done|]. split; [apply numeral_zero|simpl; lia].
  - destruct p as [|x p _] using rev_ind; [simpl in Hv; lia|]. rewrite length_app in Hv, Hn. simpl in Hv, Hn.
    rewrite Nat2Z.inj_add, Z.pow_add_r in Hv by lia. change (10 ^ Z.of_nat 1) with 10 in Hv.
    rewrite <- app_assoc. cbn [app]. rewrite zlen_app. change (zlen [x]) with 1. rewrite Z.add_simpl_r, put_app.
    unfold crem, cdiv. rewrite Z.rem_mod_nonneg, Z.quot_div_nonneg by lia.
    pose proof (Z.mod_pos_bound val 10 ltac:(lia)) as Hm. rewrite u8_small by lia.
    destruct (IH p (48 + val mod 10 :: suf) (val / 10)) as (p' & ds & E & Hnum & Hlen).
    { Z.to_euclidean_division_equations. lia. }
    { lia. }
    exists p', (ds ++ [48 + val mod 10]). rewrite <- app_assoc. split; [exact E|]. split; [|rewrite !length_app; simpl; lia].
    replace val with (val / 10 * 10 + val mod 10) at 1 by (Z.to_euclidean_division_equations; lia).
    apply numeral_snoc; [done| |done|]; Z.to_euclidean_division_equations; lia.
Qed.

(** The digits of [itoa]: "0" for zero. *)
Definition decimal (n : Z) (ds : list Z) : Prop := if n =? 0 then ds = [48] else numeral n ds.

Lemma numeral_nonempty n ds : numeral n ds -> n <> 0 -> ds <> [].
Proof. intros [_ H _] Hn ->. by apply Hn. Qed.

Lemma digit_value_digit c : is_digit c -> digit_value c = c - 48.
Proof. unfold is_digit, digit_value. intros. by rewrite (proj2 (Z.ltb_lt c 65)) by lia. Qed.

(** A numeral of [n] digits is at least [10^(n-1)]. *)
Lemma numeral_lower n c ds : numeral n (c :: ds) -> 10 ^ zlen ds <= n.
Proof.
  intros [H1 H2 H3]. specialize (H3 c ds eq_refl). apply Forall_cons in H1 as [Hc Hds]. unfold is_digit in Hc.
  assert (Hgen : forall l v, Forall is_digit l -> 0 < v -> v * 10 ^ zlen l <= fold_left (fun v c => v * 10 + digit_value c) l v).
  { intros l. induction l as [|a l IH]; intros v Hl Hv; [simpl; change (zlen (@nil Z)) with 0; lia|]. simpl.
    apply Forall_cons in Hl as [Ha Hl]. rewrite digit_value_digit by done. unfold is_digit in Ha.
    rewrite zlen_cons, Z.pow_add_r by (pose proof (zlen_nonneg l); lia). change (10 ^ 1) with 10.
    pose proof (IH (v * 10 + (a - 48)) Hl ltac:(lia)). pose proof (Z.pow_pos_nonneg 10 (zlen l) ltac:(lia) (zlen_nonneg l)). nia. }
  unfold numeral_value in H2. simpl in H2. rewrite digit_value_digit in H2 by (unfold is_digit; lia). change (0 * 10) with 0 in H2. rewrite Z.add_0_l in H2.
  pose proof (Hgen ds (c - 48) Hds ltac:(lia)). pose proof (Z.pow_pos_nonneg 10 (zlen ds) ltac:(lia) (zlen_nonneg ds)). nia.
Qed.

Lemma numeral_length n ds : numeral n ds -> n = 0 -> ds = [].
Proof.
  intros H ->. destruct ds as [|c ds]; [done|]. apply numeral_lower in H.
  pose proof (Z.pow_pos_nonneg 10 (zlen ds) ltac:(lia) (zlen_nonneg ds)). lia.
Qed.

Lemma numeral_short n ds : numeral n ds -> n < 10 ^ 10 -> zlen ds <= 10.
Proof.
  intros H Hn. destruct ds as [|c ds]; [by vm_compute|]. apply numeral_lower in H. rewrite zlen_cons.
  destruct (Z.le_gt_cases (1 + zlen ds) 10) as [?|Hgt]; [done|exfalso].
  pose proof (Z.pow_le_mono_r 10 10 (zlen ds) ltac:(lia) ltac:(lia)). lia.
Qed.

Lemma itoa_run text val :
  zlen text = 12 -> -2147483648 < val < 2147483648 ->
  exists text' loc ds, User.itoa text val = Some (text', loc) /\ zlen text' = 12 /\ 0 <= loc /\
    drop (Z.to_nat loc) text' = (if val <? 0 then [45] else []) ++ ds ++ [0] /\ decimal (Z.abs val) ds.
Proof.
  intros Ht Hv. unfold User.itoa. destruct (exists_last (l := text)) as (p & x & ->); [by intros ->|].
  assert (Hp : zlen p = 11) by (rewrite zlen_app in Ht; change (zlen [x]) with 1 in Ht; lia).
  rewrite put_app' by done.
  assert (Ev : (if val <? 0 then i32 (- val) else val) = Z.abs val) by (zcase; [rewrite i32_small; lia|lia]). rewrite Ev.
  destruct (itoa_loop_run 12 p [0] (Z.abs val)) as (p' & ds & E & Hnum & Hlen).
  { replace (length p) with 11%nat by (unfold zlen in Hp; lia). change (10 ^ Z.of_nat 11) with 100000000000. lia. }
  { unfold zlen in Hp. lia. }
  rewrite Hp in E. rewrite E.
  assert (Hl' : zlen p' + zlen ds = 11) by (unfold zlen in *; lia).
  pose proof (numeral_short _ _ Hnum ltac:(change (10 ^ 10) with 10000000000; lia)) as Hds.
  unfold decimal. destruct (Z.eqb_spec (Z.abs val) 0) as [E0|E0].
  - assert (ds = []) as -> by (by eapply numeral_length). change (zlen (@nil Z)) with 0 in Hl'.
    rewrite (proj2 (Z.eqb_eq (zlen p') 11)) by lia. destruct (exists_last (l := p')) as (p2 & y & ->); [intros ->; done|].
    rewrite zlen_app in *. change (zlen [y]) with 1 in *. rewrite <- app_assoc. cbn [app].
    rewrite put_app' by lia. rewrite (proj2 (Z.ltb_ge val 0)) by lia. cbn [option_map].
    exists (p2 ++ 48 :: [0]), (zlen p2 + 1 - 1), [48]. split; [done|]. split; [rewrite zlen_app; change (zlen [48; 0]) with 2; lia|].
    pose proof (zlen_nonneg p2). split; [lia|]. split; [|done]. unfold zlen. replace (Z.to_nat (Z.of_nat (length p2) + 1 - 1)) with (length p2) by lia.
    by rewrite drop_app_length.
  - assert (Hne : ds <> []) by (by eapply numeral_nonempty). assert (1 <= zlen ds) by (destruct ds; [done|rewrite zlen_cons; pose proof (zlen_nonneg ds); lia]).
    rewrite (proj2 (Z.eqb_neq (zlen p') 11)) by lia. destruct (Z.ltb_spec val 0).
    + destruct (exists_last (l := p')) as (p2 & y & ->); [intros ->; change (zlen (@nil Z)) with 0 in Hl'; lia|].
      rewrite zlen_app in *. change (zlen [y]) with 1 in *. rewrite <- app_assoc. cbn [app]. rewrite put_app' by lia. cbn [option_map].
      exists (p2 ++ 45 :: ds ++ [0]), (zlen p2 + 1 - 1), ds. split; [done|]. pose proof (zlen_nonneg p2).
      split; [rewrite zlen_app, zlen_cons, zlen_app; change (zlen [0]) with 1; lia|]. split; [lia|]. split; [|done].
      unfold zlen. replace (Z.to_nat (Z.of_nat (length p2) + 1 - 1)) with (length p2) by lia. by rewrite drop_app_length.
    + exists (p' ++ ds ++ [0]), (zlen p'), ds. split; [done|]. split; [rewrite !zlen_app; change (zlen [0]) with 1; lia|].
      split; [apply zlen_nonneg|]. split; [|done]. unfold zlen. rewrite Nat2Z.id. by rewrite drop_app_length.
Qed.

(** ** Tokens *)

Definition delim (delimiters : list Z) (c : Z) : bool := existsb (Z.eqb c) delimiters.

(** The fields between delimiters, empty ones included, and the words: the others. *)
Fixpoint split (d : Z -> bool) (s : list Z) : list (list Z) :=
  match s with
  | [] => [[]]
  | c :: s' =>
      if d c then [] :: split d s'
      else match split d s' with w :: ws => (c :: w) :: ws | [] => [[c]] end
  end.
Definition words (d : Z -> bool) (s : list Z) : list (list Z) := filter (fun w => w <> []) (split d s).

Section words.
Context (d : Z -> bool).

Lemma split_nonempty s : exists w ws, split d s = w :: ws.
Proof. destruct s as [|c s]; simpl; [eauto|]. destruct (d c); [eauto|]. destruct (split d s); eauto. Qed.

Lemma split_token w s :
  Forall (fun c => d c = false) w ->
  exists x xs, split d s = x :: xs /\ split d (w ++ s) = (w ++ x) :: xs.
Proof.
  intros Hw. destruct (split_nonempty s) as (x & xs & E). exists x, xs. split; [done|].
  induction Hw as [|c w Hc Hw IH]; [done|]. simpl. by rewrite Hc, IH.
Qed.

Lemma words_delim c s : d c = true -> words d (c :: s) = words d s.
Proof. intros Hc. unfold words. simpl. by rewrite Hc. Qed.

Lemma words_delims s1 s2 : Forall (fun c => d c = true) s1 -> words d (s1 ++ s2) = words d s2.
Proof. induction 1 as [|c s1 Hc _ IH]; [done|]. simpl. by rewrite words_delim. Qed.

Lemma words_last w : Forall (fun c => d c = false) w -> w <> [] -> words d w = [w].
Proof.
  intros Hw Hne. destruct (split_token w [] Hw) as (x & xs & [= <- <-] & E2). rewrite app_nil_r in E2.
  unfold words. rewrite E2. by rewrite filter_cons_True.
Qed.

Lemma words_token w c s :
  Forall (fun c => d c = false) w -> w <> [] -> d c = true -> words d (w ++ c :: s) = w :: words d s.
Proof.
  intros Hw Hne Hc. destruct (split_token w (c :: s) Hw) as (x & xs & E1 & E2). simpl in E1. rewrite Hc in E1.
  injection E1 as <- <-. unfold words. rewrite E2, app_nil_r. by rewrite filter_cons_True.
Qed.
End words.

Lemma is_delim_spec D ds c : holds D ds -> User.is_delim_loop (Z.to_nat (zlen ds)) D c = delim ds c.
Proof.
  unfold zlen. rewrite Nat2Z.id. intros [_ [rest ->]]. induction ds as [|x ds IH]; [done|]. simpl.
  destruct (c =? x); [done|exact IH].
Qed.

Section strtok.
Context (D ds : list Z).
Hypothesis HD : holds D ds.
Hypothesis Hds : ds <> [].
Abbreviation d := (delim ds).

Lemma user_strlen_spec buf s : holds buf s -> User.strlen buf = Some (zlen s).
Proof.
  intros H. unfold User.strlen. enough (G : forall i, User.strlen_loop buf i = Some (i + zlen s)) by apply G.
  clear HD Hds. revert buf H. induction s as [|c s IH]; intros buf H i.
  - apply holds_nil in H as [rest ->]. simpl. change (zlen (@nil Z)) with 0. by rewrite Z.add_0_r.
  - apply holds_cons in H as (buf' & -> & Hc & H). simpl. rewrite char_nonzero by done. cbn [negb].
    rewrite IH by done. rewrite zlen_cons. f_equal. lia.
Qed.

Lemma skip_loop_spec r s p :
  holds r s -> exists s1 s2, s = s1 ++ s2 /\ Forall (fun c => d c = true) s1 /\
    User.skip_loop (zlen ds) D r p = Some (p + zlen s1) /\ (s2 = [] \/ exists c s', s2 = c :: s' /\ d c = false).
Proof.
  revert r p. induction s as [|c s IH]; intros r p H.
  - apply holds_nil in H as [rest ->]. exists [], []. simpl. change (zlen (@nil Z)) with 0. rewrite Z.add_0_r. auto.
  - apply holds_cons in H as (r' & -> & Hc & H). simpl. rewrite char_nonzero by done. cbn [negb]. rewrite (is_delim_spec D ds) by done.
    destruct (d c) eqn:E.
    + destruct (IH r' (p + 1) H) as (s1 & s2 & -> & H1 & H2 & H3). exists (c :: s1), s2. split; [done|]. split; [by constructor|].
      split; [|done]. rewrite H2, zlen_cons. f_equal. lia.
    + exists [], (c :: s). change (zlen (@nil Z)) with 0. rewrite Z.add_0_r. eauto 10.
Qed.

Lemma scan_loop_spec r s p :
  holds r s -> exists w s2, s = w ++ s2 /\ Forall (fun c => d c = false) w /\
    ((s2 = [] /\ User.scan_loop (zlen ds) D r p = Some (p + zlen w, false)) \/
     exists c s', s2 = c :: s' /\ d c = true /\ User.scan_loop (zlen ds) D r p = Some (p + zlen w, true)).
Proof.
  revert r p. induction s as [|c s IH]; intros r p H.
  - apply holds_nil in H as [rest ->]. exists [], []. simpl. change (zlen (@nil Z)) with 0. rewrite Z.add_0_r. auto.
  - apply holds_cons in H as (r' & -> & Hc & H). simpl. rewrite char_nonzero by done. cbn [negb]. rewrite (is_delim_spec D ds) by done.
    destruct (d c) eqn:E.
    + exists [], (c :: s). change (zlen (@nil Z)) with 0. rewrite Z.add_0_r. split; [done|]. split; [done|]. right. eauto.
    + destruct (IH r' (p + 1) H) as (w & s2 & -> & H1 & H2). exists (c :: w), s2. split; [done|]. split; [by constructor|].
      replace (p + zlen (c :: w)) with (p + 1 + zlen w) by (rewrite zlen_cons; lia). exact H2.
Qed.

(** The buffer is [pre ++ r] and [strtok] will go on at [r]. *)
Definition cursor (str : option (list Z)) (t : User.tokens) (pre r : list Z) : Prop :=
  match str with
  | Some buf => pre = [] /\ buf = r
  | None => User.tok_buf t = pre ++ r /\ User.sp t = Some (zlen pre)
  end.

Lemma strtok_enter str t pre r :
  cursor str t pre r -> (match str with Some str => User.mk_tokens str (Some 0) | None => t end) = User.mk_tokens (pre ++ r) (Some (zlen pre)).
Proof. destruct str as [buf|]; [intros [-> ->]; done|]. destruct t. simpl. by intros [-> ->]. Qed.

Lemma drop_zlen {A} (l1 l2 : list A) : drop (Z.to_nat (zlen l1)) (l1 ++ l2) = l2.
Proof. unfold zlen. rewrite Nat2Z.id. apply drop_app_length. Qed.

Lemma zget_zlen {A} (l1 l2 : list A) : zget (l1 ++ l2) (zlen l1) = zget l2 0.
Proof. rewrite zget_app, Z.ltb_irrefl. by rewrite Z.sub_diag. Qed.

(** What one call does, by the words that are left. *)
Lemma strtok_step str t pre r s :
  cursor str t pre r -> holds r s ->
  match words d s with
  | [] => User.strtok str (Some D) t = Some (None, User.mk_tokens (pre ++ r) None)
  | w :: ws => exists i pre' r' s',
      User.strtok str (Some D) t = Some (Some i, User.mk_tokens (pre' ++ r') (Some (zlen pre'))) /\
      0 <= i /\ holds (drop (Z.to_nat i) (pre' ++ r')) w /\ zlen (pre' ++ r') = zlen (pre ++ r) /\
      holds r' s' /\ words d s' = ws
  end.
Proof.
  intros Hcur Hs. unfold User.strtok. rewrite (user_strlen_spec D ds HD).
  rewrite (proj2 (Z.eqb_neq (zlen ds) 0)) by (destruct ds; [done|rewrite zlen_cons; pose proof (zlen_nonneg l); lia]).
  rewrite (strtok_enter _ _ _ _ Hcur). cbn [User.sp User.tok_buf]. clear Hcur. rewrite drop_zlen.
  destruct (skip_loop_spec r s (zlen pre) Hs) as (s1 & s2 & -> & H1 & H2 & H3). rewrite H2, words_delims by done.
  destruct Hs as [Hch [rest ->]]. apply Forall_app in Hch as [_ Hch]. rewrite <- !app_assoc, <- zlen_app, (app_assoc pre s1).
  rewrite zget_zlen. destruct H3 as [-> |(c & s' & -> & Hc)]; [done|].
  cbn [app]. change (zget (c :: s' ++ 0 :: rest) 0) with (Some c). cbv iota beta. rewrite char_nonzero by (by apply Forall_cons in Hch as [? _]).
  rewrite drop_zlen. set (r2 := c :: s' ++ 0 :: rest).
  destruct (scan_loop_spec r2 (c :: s') (zlen (pre ++ s1)) (holds_intro _ _ Hch)) as (w & s3 & Es & Hw & Hscan).
  assert (Hne : w <> []).
  { intros ->. simpl in Es. destruct Hscan as [[-> _]|(x & s4 & -> & Hx & _)]; [done|]. injection Es as -> ->. by rewrite Hc in Hx. }
  assert (Er : r2 = w ++ s3 ++ 0 :: rest) by (subst r2; rewrite app_assoc, <- Es; done).
  assert (Hw' : Forall is_char w /\ Forall is_char s3) by (rewrite Es in Hch; by apply Forall_app in Hch).
  destruct Hw' as [Hcw Hc3]. rewrite Es.
  destruct Hscan as [[-> ->]|(x & s4 & -> & Hx & ->)].
  - rewrite Er. rewrite app_nil_r, words_last by done. exists (zlen (pre ++ s1)), ((pre ++ s1) ++ w), (0 :: rest), [].
    cbn [app]. rewrite <- zlen_app. rewrite <- !(app_assoc (pre ++ s1)).
    split; [done|]. split; [apply zlen_nonneg|]. split; [rewrite drop_zlen; by apply holds_intro|].
    split; [done|]. split; [by apply (holds_intro [])|done].
  - rewrite Er. rewrite words_token by done. exists (zlen (pre ++ s1)), (((pre ++ s1) ++ w) ++ [0]), (s4 ++ 0 :: rest), s4.
    rewrite <- zlen_app, (zlen_app _ [0]). change (zlen [0]) with 1. cbn [app].
    assert (Ez : zset ((pre ++ s1) ++ w ++ x :: s4 ++ 0 :: rest) (zlen ((pre ++ s1) ++ w)) 0 =
      (((pre ++ s1) ++ w) ++ [0]) ++ s4 ++ 0 :: rest).
    { rewrite app_assoc, zset_at by done. by rewrite <- !app_assoc. }
    rewrite Ez. split; [done|]. split; [apply zlen_nonneg|]. split.
    { rewrite <- !(app_assoc (pre ++ s1)), drop_zlen, <- app_assoc. cbn [app]. by apply holds_intro. }
    split; [|split; [|done]].
    + rewrite !zlen_app, !zlen_cons, !zlen_app, !zlen_cons. change (zlen (@nil Z)) with 0. lia.
    + apply holds_intro. by apply Forall_cons in Hc3 as [_ ?].
Qed.
End strtok.

(** The tokens a loop of calls reads, [n] calls at most: the first on [str], the others on
    NULL, up to the first NULL result. *)
Definition c_string (buf : list Z) : list Z :=
  match CString.strlen buf with Some n => take (Z.to_nat n) buf | None => [] end.

Lemma c_string_holds buf s : holds buf s -> c_string buf = s.
Proof.
  intros H. unfold c_string. rewrite (strlen_spec _ _ H). destruct H as [_ [rest ->]].
  unfold zlen. rewrite Nat2Z.id. apply take_app_length.
Qed.

Fixpoint strtok_all (n : nat) (str : option (list Z)) (D : list Z) (t : User.tokens) : option (list (list Z)) :=
  match n with
  | O => None
  | S n' =>
      match User.strtok str (Some D) t with
      | None => None
      | Some (None, _) => Some []
      | Some (Some i, t') =>
          option_map (cons (c_string (drop (Z.to_nat i) (User.tok_buf t')))) (strtok_all n' None D t')
      end
  end.

Lemma strtok_all_run n str D ds t pre r s :
  holds D ds -> ds <> [] -> cursor str t pre r -> holds r s -> (length (words (delim ds) s) < n)%nat ->
  strtok_all n str D t = Some (words (delim ds) s).
Proof.
  intros HD Hds. revert str t pre r s. induction n as [|n IH]; intros str t pre r s Hc Hs Hn; [lia|]. cbn [strtok_all].
  pose proof (strtok_step D ds HD Hds str t pre r s Hc Hs) as Hstep. destruct (words (delim ds) s) as [|w ws] eqn:Ew.
  - by rewrite Hstep.
  - destruct Hstep as (i & pre' & r' & s' & E & Hi & Hw & _ & Hs' & Ews). rewrite E. cbn [User.tok_buf].
    rewrite (c_string_holds _ _ Hw). rewrite (IH None _ pre' r' s'); [by rewrite Ews|by split|done|rewrite Ews; simpl in Hn; lia].
Qed.

Lemma filter_words_cons (x : list Z) xs :
  filter (fun w => w <> []) (x :: xs) = match x with [] => filter (fun w => w <> []) xs | _ => x :: filter (fun w => w <> []) xs end.
Proof. destruct x; [by rewrite filter_cons_False by (intros H; by apply H)|by rewrite filter_cons_True]. Qed.

Lemma words_length_split d s x xs :
  split d s = x :: xs -> (length (filter (fun w => w <> []) xs) + match x with [] => 0 | _ => 1 end <= length s)%nat.
Proof.
  revert x xs. induction s as [|c s IH]; intros x xs; simpl; [intros [= <- <-]; simpl; lia|].
  destruct (split_nonempty d s) as (y & ys & E). specialize (IH y ys E). rewrite E.
  destruct (d c); intros [= <- <-]; [rewrite filter_words_cons; destruct y; simpl; lia|lia].
Qed.

Lemma words_length d s : (length (words d s) <= length s)%nat.
Proof.
  destruct (split_nonempty d s) as (x & xs & E). pose proof (words_length_split d s x xs E) as H.
  unfold words. rewrite E, filter_words_cons. destruct x; simpl; lia.
Qed.

(** ** Properties *)

(** the user library's [strncpy] stays in bounds.  Into a buffer of at least [count]
    bytes it copies the first [count - 1] characters of the source at most and always
    stores the terminator behind them, for the empty source too — where the kernel's
    function of the same name writes nothing or one byte too many. *)
Theorem user_strncpy_spec (dest buf s : list Z) (count : Z) :
  holds buf s -> 1 <= count -> count <= zlen dest ->
  let k := Z.min (zlen s) (count - 1) in
  User.strncpy dest buf count = Some (take (Z.to_nat k) s ++ 0 :: drop (Z.to_nat (k + 1)) dest).
Proof. apply user_strncpy_run. Qed.

Lemma user_strncpy_spec_witness :
  User.strncpy [9; 9; 9] [97; 98; 99; 100; 0] 3 = Some [97; 98; 0] /\ User.strncpy [9; 9; 9] [0] 3 = Some [0; 9; 9].
Proof.
  split.
  - apply (user_strncpy_spec [9; 9; 9] [97; 98; 99; 100; 0] [97; 98; 99; 100] 3); [|lia|by vm_compute].
    apply (holds_nul [97; 98; 99; 100]). by repeat constructor.
  - apply (user_strncpy_spec [9; 9; 9] [0] [] 3); [|lia|by vm_compute]. apply (holds_nul []). constructor.
Defined.

(** C22: [itoa] writes decimal numerals.  Whatever the static buffer holds, for every [int]
    but the least the string it points to is the sign followed by the digits of the
    absolute value, without leading zeros, and all stores stay in the 12 bytes.  For the
    least one [-val] is negative again and the digits come out as the characters before '0'. *)
Theorem itoa_spec (text : list Z) (val : Z) :
  zlen text = 12 ->
  (-2147483648 < val < 2147483648 ->
   exists text' loc ds, User.itoa text val = Some (text', loc) /\ zlen text' = 12 /\ 0 <= loc /\
     drop (Z.to_nat loc) text' = (if val <? 0 then [45] else []) ++ ds ++ [0] /\ decimal (Z.abs val) ds) /\
  (val = -2147483648 -> User.itoa text val = Some ([45; 46; 47; 44; 41; 44; 40; 45; 42; 44; 40; 0], 0)).
Proof.
  intros Ht. split; [by apply itoa_run|]. intros ->.
  do 12 (destruct text as [|? text]; [done|]). destruct text as [|? text]; [|exfalso; unfold zlen in Ht; simpl in Ht; lia].
  vm_compute. reflexivity.
Qed.

Lemma itoa_spec_witness :
  (exists text' loc ds, User.itoa (replicate 12 9) (-305) = Some (text', loc) /\ drop (Z.to_nat loc) text' = 45 :: ds ++ [0] /\
     numeral_value 10 ds = 305) /\
  User.itoa (replicate 12 9) (-2147483648) = Some ([45; 46; 47; 44; 41; 44; 40; 45; 42; 44; 40; 0], 0).
Proof.
  destruct (itoa_spec (replicate 12 9) (-305) eq_refl) as [H _]. split.
  - destruct H as (text' & loc & ds & E & _ & _ & Ed & Hd); [lia|]. exists text', loc, ds. split; [exact E|]. split; [exact Ed|].
    apply Hd.
  - by apply (itoa_spec (replicate 12 9) (-2147483648) eq_refl).
Defined.

(** C16: [strtok] terminates and splits.  Calling it on a C string and then on NULL reads the
    words of the string — the maximal runs of characters that are no delimiters — in order
    and then NULL, whatever the static pointer was before: after at most one call per word
    and one more, so after at most [strlen + 1] calls, the loop ends. *)
Theorem strtok_words (n : nat) (buf D s ds : list Z) (t : User.tokens) :
  holds buf s -> holds D ds -> ds <> [] ->
  (length (words (delim ds) s) < n)%nat \/ (length s < n)%nat ->
  strtok_all n (Some buf) D t = Some (words (delim ds) s).
Proof.
  intros Hs HD Hds Hn. apply (strtok_all_run n (Some buf) D ds t [] buf s); try done.
  pose proof (words_length (delim ds) s). lia.
Qed.

Lemma strtok_words_witness :
  strtok_all 3 (Some [32; 97; 98; 32; 32; 99; 0]) [32; 0] (User.mk_tokens [] None) = Some [[97; 98]; [99]].
Proof.
  apply (strtok_words 3 [32; 97; 98; 32; 32; 99; 0] [32; 0] [32; 97; 98; 32; 32; 99] [32]).
  - apply (holds_nul [32; 97; 98; 32; 32; 99]). by repeat constructor.
  - apply (holds_nul [32]). by repeat constructor.
  - discriminate.
  - left. vm_compute. lia.
Defined.
