(* ===== verification/Ulib.v ===== *)
(** * User programs: programs/stdlib/src/{stdio,kernel,start}.c, programs/shell, programs/blank

    A program sees the kernel through its system calls (Isr.v models the kernel's side): the
    keys it is given, the blocks it is handed out and the calls it makes, recorded in order.
    Uninitialised local arrays are arguments, with whatever they hold. *)
From S2P Require Import Prelude CString Print UString.

(** ** State *)

(** [struct command_argument] of stdlib/src/kernel.h *)
Record command_argument := mk_argument { argument : list Z; next : Z }.
Definition sizeof_argument : Z := 512.

Inductive ucall :=
| Uprint (s : list Z)
| Uputchar (c : Z)
| Usystem (arguments : Z)
| Ufree (ptr : Z)
| Uexit (res : Z).

(** [u_args]: the arguments allocated; [u_tokens]: [sp] and the buffer it points into;
    [u_text]: the static buffer of [itoa]; [u_calls]: the calls made, latest first;
    [u_keys], [u_mallocs]: how often [kernel_getkey] and [kernel_malloc] were called. *)
Record user := mk_user {
  u_args : gmap Z command_argument;
  u_tokens : User.tokens;
  u_text : list Z;
  u_calls : list ucall;
  u_keys : nat;
  u_mallocs : nat
}.
Implicit Types u : user.

(** The kernel's answers: to the n-th [kernel_getkey] and [kernel_malloc], to
    [kernel_system], and [argc] and [argv]. *)
Class UserKernel := {
  key_at : nat -> Z;
  malloc_at : nat -> Z;
  system_result : Z -> Z;
  program_arguments : list (list Z)
}.

Definition put_argument (a : Z) (o : command_argument) u : user :=
  mk_user (<[a := o]> (u_args u)) (u_tokens u) (u_text u) (u_calls u) (u_keys u) (u_mallocs u).
Definition set_tokens (t : User.tokens) u : user :=
  mk_user (u_args u) t (u_text u) (u_calls u) (u_keys u) (u_mallocs u).
Definition set_text (t : list Z) u : user :=
  mk_user (u_args u) (u_tokens u) t (u_calls u) (u_keys u) (u_mallocs u).
Definition called (c : ucall) u : user :=
  mk_user (u_args u) (u_tokens u) (u_text u) (c :: u_calls u) (u_keys u) (u_mallocs u).
Definition set_keys (n : nat) u : user :=
  mk_user (u_args u) (u_tokens u) (u_text u) (u_calls u) n (u_mallocs u).
Definition set_mallocs (n : nat) u : user :=
  mk_user (u_args u) (u_tokens u) (u_text u) (u_calls u) (u_keys u) n.

Section ulib.
Context {UK : UserKernel}.

(** ** System calls *)

Definition kernel_getkey : M user Z :=
  n ← gets u_keys; modify (set_keys (S n));; mret (key_at n).
Definition kernel_putchar (c : Z) : M user unit := modify (called (Uputchar (u8 c))).
Definition print (msg : list Z) : M user unit :=
  _ ← expect (strlen msg); modify (called (Uprint (c_string msg))).
Definition kernel_malloc (size : Z) : M user Z :=
  n ← gets u_mallocs; modify (set_mallocs (S n));; mret (malloc_at n).
Definition kernel_system (arguments : Z) : M user Z :=
  modify (called (Usystem arguments));; mret (system_result arguments).
Definition kernel_free (ptr : Z) : M user unit := modify (called (Ufree ptr)).
Definition kernel_exit (res : Z) : M user unit := modify (called (Uexit res)).

(** [kernel_malloc(sizeof(struct command_argument))]: the kernel hands out zeroed memory. *)
Definition malloc_argument : M user Z :=
  a ← kernel_malloc (sizeof_argument + 4);
  (if a =? 0 then mret tt else modify (put_argument a (mk_argument (replicate (Z.to_nat sizeof_argument) 0) 0)));;
  mret a.

Definition the_argument (a : Z) : M user command_argument := o ← gets (fun u => u_args u !! a); expect o.

(** ** stdlib.c, stdio.c *)

Definition malloc (size : Z) : M user Z := kernel_malloc size.
Definition free (ptr : Z) : M user unit := kernel_free ptr.

Definition putchar (c : Z) : M user unit := kernel_putchar c.

(** The variable arguments. *)
Inductive va_arg := Vint (i : Z) | Vstr (s : list Z).

Definition print_itoa (ival : Z) : M user unit :=
  text ← gets u_text;
  r ← expect (User.itoa text ival);
  modify (set_text (fst r));;
  print (drop (Z.to_nat (snd r)) (fst r)).

(** [p] is the format from the current character on. *)
Fixpoint printf_loop (p : list Z) (ap : list va_arg) : M user unit :=
  match p with
  | [] => fault
  | c :: p' =>
      if c =? 0 then mret tt
      else if negb (c =? 37) then putchar c;; printf_loop p' ap
      else
        match p' with
        | [] => fault
        | c :: p'' =>
            if c =? 105 then
              match ap with Vint ival :: ap' => print_itoa ival;; printf_loop p'' ap' | _ => fault end
            else if c =? 115 then
              match ap with Vstr sval :: ap' => print sval;; printf_loop p'' ap' | _ => fault end
            else putchar 37;; putchar c;; printf_loop p'' ap
        end
  end.

Definition printf (fmt : list Z) (ap : list va_arg) : M user Z := printf_loop fmt ap;; mret 0.

(** ** kernel.c *)

Definition u_strtok (str : option (list Z)) (delimiters : list Z) : M user (option Z) :=
  t ← gets u_tokens;
  r ← expect (User.strtok str (Some delimiters) t);
  modify (set_tokens (snd r));;
  mret (fst r).

(** [strncpy(command->argument, token, sizeof(command->argument)); command->next = 0] *)
Definition copy_argument (command token : Z) : M user unit :=
  t ← gets u_tokens;
  o ← the_argument command;
  text ← expect (User.strncpy (argument o) (drop (Z.to_nat token) (User.tok_buf t)) sizeof_argument);
  modify (put_argument command (mk_argument text 0)).

(** " " *)
Definition space : list Z := [32; 0].

Fixpoint parse_loop (n : nat) (current : Z) (token : option Z) : M user unit :=
  match n with
  | O => nofuel
  | S n' =>
      match token with
      | None => mret tt
      | Some token =>
          new_command ← malloc_argument;
          if new_command =? 0 then mret tt
          else
            copy_argument new_command token;;
            o ← the_argument current;
            modify (put_argument current (mk_argument (argument o) new_command));;
            token ← u_strtok None space;
            parse_loop n' new_command token
      end
  end.

Definition sizeof_scommand : Z := 1025.

(** A string of 1024 characters has fewer than 1025 words. *)
Definition kernel_parse_command (scommand : list Z) (command : list Z) (max : Z) : M user Z :=
  if sizeof_scommand <=? max then mret 0
  else
    scommand ← expect (User.strncpy scommand command sizeof_scommand);
    token ← u_strtok (Some scommand) space;
    match token with
    | None => mret 0
    | Some token =>
        root_command ← malloc_argument;
        if root_command =? 0 then mret root_command
        else
          copy_argument root_command token;;
          token ← u_strtok None space;
          parse_loop (Z.to_nat sizeof_scommand) root_command token;;
          mret root_command
    end.

Fixpoint kernel_getkeyblock (fuel : nat) : M user Z :=
  match fuel with
  | O => nofuel
  | S fuel' => val ← kernel_getkey; if val =? 0 then kernel_getkeyblock fuel' else mret val
  end.

(** The loop of [kernel_terminal_readline]; [polls] bounds the wait for each key. *)
Fixpoint readline_loop (fuel polls : nat) (out : list Z) (max i : Z) (output_while_typing : bool) : M user (list Z * Z) :=
  match fuel with
  | O => nofuel
  | S fuel' =>
      if i <? max then
        key ← kernel_getkeyblock polls;
        if key =? 13 then mret (out, i)
        else if key =? 8 then
          when ((1 <=? i) && output_while_typing) (kernel_putchar key);;
          let j := if i =? 0 then 0 else i - 1 in
          out ← expect (put out j 0);
          readline_loop fuel' polls out max j output_while_typing
        else
          when output_while_typing (kernel_putchar key);;
          out ← expect (put out i (u8 key));
          readline_loop fuel' polls out max (i + 1) output_while_typing
      else mret (out, i)
  end.

Definition kernel_terminal_readline (fuel polls : nat) (out : list Z) (max : Z) (output_while_typing : bool) : M user (list Z) :=
  r ← readline_loop fuel polls out max 0 output_while_typing;
  expect (put (fst r) (snd r) 0).

(** [buf] and [scommand] are the local arrays of the two functions. *)
Definition kernel_system_run (buf scommand : list Z) (command : list Z) : M user Z :=
  buf ← expect (User.strncpy buf command 1024);
  root_command_argument ← kernel_parse_command scommand buf 1024;
  if root_command_argument =? 0 then mret (-1) else kernel_system root_command_argument.

(** ** start.c *)

Definition c_start (main : Z -> list (list Z) -> M user Z) : M user unit :=
  res ← main (zlen program_arguments) program_arguments; kernel_exit res.

(** ** shell/shell.c: one round of the loop, and [n] rounds of it *)

Definition shell_round (fuel polls : nat) (buf run_buf scommand : list Z) : M user unit :=
  print [62; 0];;
  buf ← kernel_terminal_readline fuel polls buf 1024 true;
  print [10; 0];;
  len ← expect (User.strlen buf);
  if len =? 0 then mret tt else kernel_system_run run_buf scommand buf;; mret tt.

Fixpoint shell_main (rounds fuel polls : nat) (buf run_buf scommand : list Z) : M user Z :=
  match rounds with
  | O => nofuel
  | S rounds' => shell_round fuel polls buf run_buf scommand;; shell_main rounds' fuel polls buf run_buf scommand
  end.

(** ** blank/blank.c *)

Fixpoint blank_loop (n : nat) (argc i : Z) (argv : list (list Z)) : M user unit :=
  match n with
  | O => mret tt
  | S n' =>
      if i <? argc then
        a ← expect (zget argv i);
        printf [37; 115; 10; 0] [Vstr a];;
        blank_loop n' argc (i + 1) argv
      else mret tt
  end.

Definition blank_main (argc : Z) (argv : list (list Z)) : M user Z :=
  print [72; 101; 108; 108; 111; 32; 87; 111; 114; 108; 100; 33; 10; 0];;
  blank_loop (S (Z.to_nat argc)) argc 0 argv;;
  mret 0.
End ulib.

(** ** Waiting for keys *)

Section keys.
Context {UK : UserKernel}.

(** The first poll from the [n]-th on that delivers a key is the [m]-th. *)
Definition next_key (n m : nat) : Prop := (n <= m)%nat /\ (forall i, (n <= i < m)%nat -> key_at i = 0) /\ key_at m <> 0.

Lemma getkeyblock_step fuel u :
  kernel_getkeyblock (S fuel) u =
  if key_at (u_keys u) =? 0 then kernel_getkeyblock fuel (set_keys (S (u_keys u)) u)
  else Done (key_at (u_keys u)) (set_keys (S (u_keys u)) u).
Proof. cbn [kernel_getkeyblock]. unfold kernel_getkey. run. by destruct (key_at (u_keys u) =? 0). Qed.

Lemma getkeyblock_run fuel m u :
  next_key (u_keys u) m -> (m - u_keys u < fuel)%nat ->
  kernel_getkeyblock fuel u = Done (key_at m) (set_keys (S m) u).
Proof.
  revert u. induction fuel as [|fuel IH]; intros u (Hle & Hz & Hk) Hf; [lia|]. rewrite getkeyblock_step.
  destruct (Nat.eq_dec (u_keys u) m) as [E|Hne].
  - rewrite E. by rewrite (proj2 (Z.eqb_neq _ _) Hk).
  - rewrite (Hz (u_keys u)) by lia. change (0 =? 0) with true. cbv iota.
    rewrite IH; [done| |simpl; lia]. split; [simpl; lia|]. split; [|done]. intros i Hi. apply Hz. simpl in Hi. lia.
Qed.

Lemma getkeyblock_done fuel u v u' :
  kernel_getkeyblock fuel u = Done v u' -> exists m, next_key (u_keys u) m /\ v = key_at m /\ u' = set_keys (S m) u.
Proof.
  revert u. induction fuel as [|fuel IH]; intros u; [done|]. rewrite getkeyblock_step. destruct (Z.eqb_spec (key_at (u_keys u)) 0) as [E|E].
  - intros H. destruct (IH _ H) as (m & (Hle & Hz & Hk) & -> & ->). simpl in Hle, Hz. exists m. split; [|done].
    split; [lia|]. split; [|done]. intros i Hi. destruct (Nat.eq_dec i (u_keys u)) as [-> |]; [done|]. apply Hz. lia.
  - intros [= <- <-]. exists (u_keys u). split; [|done]. split; [lia|]. split; [intros i Hi; lia|done].
Qed.

(** Fewer than [polls] polls each deliver the keys [ks], up to the [n']-th poll. *)
Inductive delivers (polls : nat) : nat -> list Z -> nat -> Prop :=
| delivers_nil n : delivers polls n [] n
| delivers_cons n m ks n' :
    next_key n m -> (m - n < polls)%nat -> delivers polls (S m) ks n' -> delivers polls n (key_at m :: ks) n'.

(** ** The line editor *)

(** The line typed with the keys [ks] after [line]: backspace takes the last character
    back, return or the [max]-th character ends it.  Also the keys echoed and those left. *)
Fixpoint edit (max : Z) (line ks : list Z) : option (list Z * list Z * list Z) :=
  if zlen line <? max then
    match ks with
    | [] => None
    | k :: ks' =>
        if k =? 13 then Some (line, [], ks')
        else if k =? 8 then
          match edit max (removelast line) ks' with
          | Some (l, e, r) => Some (l, match line with [] => e | _ => 8 :: e end, r)
          | None => None
          end
        else
          match edit max (line ++ [u8 k]) ks' with
          | Some (l, e, r) => Some (l, k :: e, r)
          | None => None
          end
    end
  else Some (line, [], ks).

Definition echo (e : list Z) : list ucall := map (fun k => Uputchar (u8 k)) e.

(** [u] after [kernel_getkey] went up to poll [n] and the calls [cs] were made. *)
Definition after (n : nat) (cs : list ucall) u : user :=
  mk_user (u_args u) (u_tokens u) (u_text u) (reverse cs ++ u_calls u) n (u_mallocs u).

Lemma after_after n cs n' cs' u : after n' cs' (after n cs u) = after n' (cs ++ cs') u.
Proof. unfold after. simpl. by rewrite reverse_app, <- app_assoc. Qed.

Lemma set_keys_after n u : set_keys n u = after n [] u.
Proof. done. Qed.

Lemma when_putchar {T} b c u (k : unit -> M user T) :
  (when b (kernel_putchar c) ≫= k) u = k tt (after (u_keys u) (if b then [Uputchar (u8 c)] else []) u).
Proof. destruct b; [done|]. destruct u; done. Qed.

(** The written part of the buffer. *)
Lemma put_take (out line : list Z) c :
  take (length line) out = line -> zlen line < zlen out ->
  exists out', put out (zlen line) c = Some out' /\ zlen out' = zlen out /\ take (length line) out' = line /\
    take (length (line ++ [c])) out' = line ++ [c].
Proof.
  intros Ht Hl. rewrite <- (take_drop (length line) out), Ht. destruct (drop (length line) out) as [|x rest] eqn:Ed.
  { apply (f_equal length) in Ed. rewrite length_drop in Ed. unfold zlen in Hl. simpl in Ed. lia. }
  exists (line ++ c :: rest). rewrite put_app. split; [done|]. split; [by rewrite !zlen_app, !zlen_cons|].
  split; [apply take_app_length|]. replace (line ++ c :: rest) with ((line ++ [c]) ++ rest) by (by rewrite <- app_assoc).
  apply take_app_length.
Qed.

Lemma put_back (out line : list Z) :
  take (length line) out = line -> 0 < zlen out -> zlen line <= zlen out ->
  exists out', put out (if zlen line =? 0 then 0 else zlen line - 1) 0 = Some out' /\ zlen out' = zlen out /\
    take (length (removelast line)) out' = removelast line.
Proof.
  intros Ht H0 Hl. destruct line as [|x l _] using rev_ind.
  - destruct (put_take out [] 0) as (out' & E & Hz & H1 & _); [done|exact H0|]. by exists out'.
  - rewrite removelast_last. rewrite zlen_app in *. change (zlen [x]) with 1 in *. pose proof (zlen_nonneg l).
    rewrite (proj2 (Z.eqb_neq _ 0)), Z.add_simpl_r by lia. rewrite length_app in Ht. simpl in Ht.
    assert (Ht' : take (length l) out = l).
    { apply (f_equal (take (length l))) in Ht. rewrite take_take, take_app_length in Ht.
      by replace (length l `min` (length l + 1))%nat with (length l) in Ht by lia. }
    destruct (put_take out l 0 Ht') as (out' & E & Hz & H1 & _); [lia|]. by exists out'.
Qed.

Lemma edit_len max line ks l e r : edit max line ks = Some (l, e, r) -> zlen line <= max -> zlen l <= max.
Proof.
  revert line l e. induction ks as [|k ks IH]; intros line l e; simpl; destruct (Z.ltb_spec (zlen line) max); try done.
  - intros [= <- _ _]. done.
  - destruct (k =? 13); [intros [= <- _ _]; done|]. destruct (k =? 8).
    + destruct (edit max (removelast line) ks) as [[[l1 e1] r1]|] eqn:E; [|done]. intros [= <- _ ->] _. apply (IH _ _ _ E).
      destruct line as [|x l0 _] using rev_ind; [cbn [removelast]; lia|]. rewrite removelast_last, zlen_app in *. change (zlen [x]) with 1 in *. lia.
    + destruct (edit max (line ++ [u8 k]) ks) as [[[l1 e1] r1]|] eqn:E; [|done]. intros [= <- _ ->] _. apply (IH _ _ _ E).
      rewrite zlen_app. change (zlen [u8 k]) with 1. lia.
  - intros [= <- _ _]. done.
Qed.

Lemma readline_loop_run fuel polls out max line ks l e n' u echoing :
  delivers polls (u_keys u) ks n' -> edit max line ks = Some (l, e, []) -> (length ks < fuel)%nat ->
  0 < max -> max <= zlen out -> take (length line) out = line -> zlen line <= max ->
  exists out', readline_loop fuel polls out max (zlen line) echoing u =
      Done (out', zlen l) (after n' (if echoing then echo e else []) u) /\
    zlen out' = zlen out /\ take (length l) out' = l.
Proof.
  revert out line ks l e u. induction fuel as [|fuel IH]; intros out line ks l e u Hd He Hf H0 Hm Ht Hl; [lia|].
  cbn [readline_loop]. destruct (Z.ltb_spec (zlen line) max) as [Hlt|Hge].
  2: { assert (ks = [] /\ l = line /\ e = []) as (-> & -> & ->).
       { destruct ks; simpl in He; rewrite (proj2 (Z.ltb_ge _ _)) in He by lia; injection He as <- <-; done. }
       inversion Hd; subst. exists out. destruct echoing, u; done. }
  inversion Hd as [n0 En|n0 m ks0 n1 Hk Hp Hd0 En E0]; subst ks; simpl in He; rewrite (proj2 (Z.ltb_lt _ _) Hlt) in He; [done|].
  subst n1 n0. clear Hd. rename ks0 into ks, Hd0 into Hd.
  rewrite (bind_Done _ _ _ _ _ (getkeyblock_run polls m u Hk Hp)).
  destruct (Z.eqb_spec (key_at m) 13) as [E13|E13].
  { injection He as <- <- ->. inversion Hd; subst. exists out. split; [by destruct echoing|done]. }
  simpl in Hf. rewrite set_keys_after. destruct (Z.eqb_spec (key_at m) 8) as [E8|E8].
  - destruct (edit max (removelast line) ks) as [[[l1 e1] r1]|] eqn:E1; [|done]. injection He as <- <- ->.
    rewrite when_putchar, after_after. cbn [u_keys after app].
    destruct (put_back out line Ht ltac:(lia) ltac:(lia)) as (out1 & Ep & Hz & Ht1). rewrite (bind_expect _ _ _ _ Ep).
    assert (Ei : (if zlen line =? 0 then 0 else zlen line - 1) = zlen (removelast line)).
    { destruct line as [|x l0 _] using rev_ind; [done|]. rewrite removelast_last, zlen_app. change (zlen [x]) with 1.
      pose proof (zlen_nonneg l0). zsolve. }
    rewrite Ei.
    destruct (IH out1 (removelast line) ks l1 e1 (after (S m) (if (1 <=? zlen line) && echoing then [Uputchar (u8 (key_at m))] else []) u) Hd E1)
      as (out' & E & Hz' & Ht'); [lia|lia|lia|done|rewrite <- Ei; pose proof (zlen_nonneg line); zsolve|].
    exists out'. split; [|split; [congruence|done]]. rewrite E, after_after, E8. do 2 f_equal.
    destruct line as [|x line]; [by destruct echoing|]. rewrite zlen_cons. pose proof (zlen_nonneg line).
    rewrite (proj2 (Z.leb_le 1 _)) by lia. by destruct echoing.
  - destruct (edit max (line ++ [u8 (key_at m)]) ks) as [[[l1 e1] r1]|] eqn:E1; [|done]. injection He as <- <- ->.
    rewrite when_putchar, after_after. cbn [u_keys after app].
    destruct (put_take out line (u8 (key_at m)) Ht ltac:(lia)) as (out1 & Ep & Hz & _ & Ht1). rewrite (bind_expect _ _ _ _ Ep).
    replace (zlen line + 1) with (zlen (line ++ [u8 (key_at m)])) by (by rewrite zlen_app).
    destruct (IH out1 (line ++ [u8 (key_at m)]) ks l1 e1 (after (S m) (if echoing then [Uputchar (u8 (key_at m))] else []) u) Hd E1)
      as (out' & E & Hz' & Ht'); [lia|lia|lia|done|rewrite zlen_app; change (zlen [u8 (key_at m)]) with 1; lia|].
    exists out'. split; [|split; [congruence|done]]. rewrite E, after_after. do 2 f_equal. by destruct echoing.
Qed.

(** The keys of the keyboard are nonzero [char]s, so the line is a C string. *)
Lemma edit_chars max line ks l e r :
  Forall (fun k => -128 <= k < 128 /\ k <> 0) ks -> edit max line ks = Some (l, e, r) -> Forall is_char line -> Forall is_char l.
Proof.
  intros Hk. revert line l e. induction Hk as [|k ks Hk _ IH]; intros line l e; simpl; destruct (zlen line <? max); try done.
  - by intros [= <- _ _].
  - destruct (k =? 13); [by intros [= <- _ _]|]. destruct (k =? 8).
    + destruct (edit max (removelast line) ks) as [[[l1 e1] r1]|] eqn:E; [|done]. intros [= <- _ ->] Hl. apply (IH _ _ _ E).
      destruct line as [|x l0 _] using rev_ind; [constructor|]. rewrite removelast_last. by apply Forall_app in Hl as [? _].
    + destruct (edit max (line ++ [u8 k]) ks) as [[[l1 e1] r1]|] eqn:E; [|done]. intros [= <- _ ->] Hl. apply (IH _ _ _ E).
      apply Forall_app. split; [done|]. constructor; [|done]. unfold is_char. wrap.
  - by intros [= <- _ _].
Qed.

Lemma readline_run fuel polls out max ks l e n' u echoing :
  delivers polls (u_keys u) ks n' -> edit max [] ks = Some (l, e, []) -> (length ks < fuel)%nat ->
  Forall (fun k => -128 <= k < 128) ks -> 0 < max -> max <= zlen out ->
  (zlen l < zlen out -> exists out', kernel_terminal_readline fuel polls out max echoing u =
       Done out' (after n' (if echoing then echo e else []) u) /\ zlen out' = zlen out /\ holds out' l) /\
  (zlen l = zlen out -> kernel_terminal_readline fuel polls out max echoing u = Fault).
Proof.
  intros Hd He Hf Hk H0 Hm.
  destruct (readline_loop_run fuel polls out max [] ks l e n' u echoing Hd He Hf H0 Hm eq_refl ltac:(change (zlen (@nil Z)) with 0; lia)) as (out1 & E & Hz & Ht).
  unfold kernel_terminal_readline. rewrite (bind_Done _ _ _ _ _ E). cbn [fst snd]. split; intros Hl.
  - destruct (put_take out1 l 0 Ht ltac:(lia)) as (out' & -> & Hz' & Ht' & Ht2). exists out'. split; [done|]. split; [congruence|].
    split.
    + apply (edit_chars max [] ks l e []); [|done|done]. clear - Hd Hk. induction Hd as [|n m ks n' (_ & _ & Hnz) _ _ IH]; [done|].
      apply Forall_cons in Hk as [Hk1 Hk]. constructor; [done|by apply IH].
    + exists (drop (length (l ++ [0])) out'). rewrite <- (take_drop (length (l ++ [0])) out') at 1. rewrite Ht2, <- app_assoc. done.
  - rewrite <- Hl in Hz. by rewrite <- Hz, put_end.
Qed.
End keys.

(** ** Command lines *)

Section commands.
Context {UK : UserKernel}.

(** The kernel hands out every block once. *)
Hypothesis malloc_distinct : forall i j, (i < j)%nat -> malloc_at i <> 0 -> malloc_at j <> malloc_at i.

(** How many of the next [k] requests succeed before one fails. *)
Fixpoint granted (n k : nat) : nat :=
  match k with
  | O => O
  | S k' => if malloc_at n =? 0 then O else S (granted (S n) k')
  end.

(** The linked list of arguments at [a]. *)
Fixpoint arg_list (g : gmap Z command_argument) (a : Z) (l : list (list Z)) : Prop :=
  match l with
  | [] => a = 0
  | w :: l' => a <> 0 /\ exists o, g !! a = Some o /\ holds (argument o) w /\ arg_list g (next o) l'
  end.

Abbreviation d := (delim [32]).

(** [token] is the first of the words [ws]; [strtok] has the others before it. *)
Definition pending u (token : option Z) (ws : list (list Z)) : Prop :=
  match ws with
  | [] => token = None
  | w :: ws' => exists i pre r s, token = Some i /\ 0 <= i /\ u_tokens u = User.mk_tokens (pre ++ r) (Some (zlen pre)) /\
      holds (drop (Z.to_nat i) (pre ++ r)) w /\ holds r s /\ words d s = ws'
  end.

Lemma space_holds : holds space [32].
Proof. apply (holds_nul [32]). by repeat constructor. Qed.

Lemma bind_strtok {T} str u pre r s (k : option Z -> M user T) :
  cursor str (u_tokens u) pre r -> holds r s ->
  exists token t, (u_strtok str space ≫= k) u = k token (set_tokens t u) /\ pending (set_tokens t u) token (words d s).
Proof.
  intros Hc Hs. pose proof (strtok_step space [32] space_holds ltac:(done) str (u_tokens u) pre r s Hc Hs) as Hstep.
  unfold u_strtok. destruct (words d s) as [|w ws] eqn:Ew.
  - exists None. eexists. rewrite bind_assoc, bind_gets, bind_assoc, (bind_expect _ _ _ _ Hstep), bind_assoc, bind_modify. done.
  - destruct Hstep as (i & pre' & r' & s' & E & Hi & Hw & _ & Hs' & Ews). exists (Some i). eexists.
    rewrite bind_assoc, bind_gets, bind_assoc, (bind_expect _ _ _ _ E), bind_assoc, bind_modify. split; [done|].
    exists i, pre', r', s'. done.
Qed.

Lemma bind_copy_argument {T} command i u buf q w x (k : unit -> M user T) :
  u_args u !! command = Some (mk_argument (replicate (Z.to_nat sizeof_argument) 0) x) ->
  u_tokens u = User.mk_tokens buf q -> holds (drop (Z.to_nat i) buf) w ->
  exists text, (copy_argument command i ≫= k) u = k tt (put_argument command (mk_argument text 0) u) /\
    holds text (take 511 w).
Proof.
  intros Ho Ht Hw. pose proof (user_strncpy_run (replicate (Z.to_nat sizeof_argument) 0) _ w sizeof_argument Hw ltac:(done) ltac:(by vm_compute)) as E.
  cbv zeta in E. eexists. unfold copy_argument, the_argument.
  rewrite bind_assoc, bind_gets, bind_assoc, bind_assoc, bind_gets, (bind_expect _ _ _ _ Ho), bind_assoc, Ht. cbn [User.tok_buf argument].
  rewrite (bind_expect _ _ _ _ E), bind_modify. split; [done|].
  replace (take (Z.to_nat (Z.min (zlen w) (sizeof_argument - 1))) w) with (take 511 w).
  - apply holds_intro. destruct Hw as [Hc _]. by apply Forall_take.
  - unfold sizeof_argument, zlen. destruct (Z.le_gt_cases (Z.of_nat (length w)) 511).
    + rewrite Z.min_l by lia. by rewrite !take_ge by lia.
    + by rewrite Z.min_r by lia.
Qed.

Lemma bind_malloc_argument {T} u (k : Z -> M user T) :
  (malloc_argument ≫= k) u =
  k (malloc_at (u_mallocs u))
    (if malloc_at (u_mallocs u) =? 0 then set_mallocs (S (u_mallocs u)) u
     else put_argument (malloc_at (u_mallocs u)) (mk_argument (replicate (Z.to_nat sizeof_argument) 0) 0)
            (set_mallocs (S (u_mallocs u)) u)).
Proof.
  unfold malloc_argument, kernel_malloc. rewrite bind_assoc, bind_assoc, bind_gets, bind_assoc, bind_modify, bind_ret, bind_assoc.
  by destruct (malloc_at (u_mallocs u) =? 0).
Qed.

(** No later block is [a]. *)
Definition settled u (a : Z) : Prop := forall j, (u_mallocs u <= j)%nat -> malloc_at j <> 0 -> malloc_at j <> a.

Lemma parse_loop_run n current token u ws o :
  pending u token ws -> (length ws < n)%nat -> u_args u !! current = Some o -> next o = 0 -> settled u current ->
  exists x u', parse_loop n current token u = Done tt u' /\
    u_args u' !! current = Some (mk_argument (argument o) x) /\
    arg_list (u_args u') x (map (take 511) (take (granted (u_mallocs u) (length ws)) ws)) /\
    (forall b, b <> current -> settled u b -> u_args u' !! b = u_args u !! b) /\
    u_calls u' = u_calls u /\ u_keys u' = u_keys u.
Proof.
  revert current token u ws o. induction n as [|n IH]; intros current token u ws o Hp Hn Ho Hnx Hset; [lia|]. cbn [parse_loop].
  destruct ws as [|w ws].
  { rewrite Hp. exists 0, u. split; [done|]. split; [rewrite Ho; destruct o; simpl in Hnx; by subst|done]. }
  destruct Hp as (i & pre & r & s & -> & Hi & Ht & Hw & Hs & Ews). rewrite bind_malloc_argument.
  set (new := malloc_at (u_mallocs u)). cbn [length granted]. fold new. destruct (Z.eqb_spec new 0) as [E0|E0].
  { exists 0. eexists. split; [reflexivity|]. cbn [u_args set_mallocs]. split; [rewrite Ho; destruct o; simpl in Hnx; by subst|done]. }
  assert (Hne : new <> current) by (apply Hset; [lia|done]).
  destruct (bind_copy_argument new i (put_argument new (mk_argument (replicate (Z.to_nat sizeof_argument) 0) 0) (set_mallocs (S (u_mallocs u)) u))
    (pre ++ r) (Some (zlen pre)) w 0 (fun _ => o0 ← the_argument current;
       modify (put_argument current (mk_argument (argument o0) new));; token ← u_strtok None space; parse_loop n new token))
    as (text & E & Htext); [apply lookup_insert_eq|exact Ht|exact Hw|].
  rewrite E. clear E. unfold the_argument. rewrite bind_assoc, bind_gets.
  rewrite (bind_expect _ _ _ o) by (cbn [u_args put_argument]; by rewrite !lookup_insert_ne). rewrite bind_modify.
  set (u1 := put_argument current _ _).
  destruct (bind_strtok None u1 pre r s (fun token => parse_loop n new token)) as (token & t & E & Hp'); [subst u1; cbn; by rewrite Ht|done|].
  rewrite E. clear E. rewrite Ews in Hp'. set (u2 := set_tokens t u1) in *.
  assert (Hnew : u_args u2 !! new = Some (mk_argument text 0)).
  { subst u2 u1. cbn [u_args set_tokens put_argument]. rewrite lookup_insert_ne by done. by rewrite lookup_insert_eq. }
  destruct (IH new token u2 ws _ Hp' ltac:(simpl in Hn; lia) Hnew eq_refl) as (x & u' & E & H1 & H2 & H3 & H4 & H5).
  { intros j Hj Hj0. subst new. apply malloc_distinct; [cbn in Hj; lia|done]. }
  assert (Hsub : forall b, settled u b -> settled u2 b) by (intros b Hb j Hj; apply Hb; cbn in Hj; lia).
  exists new, u'. split; [exact E|]. split; [|split; [|split; [|by rewrite H4, H5]]].
  - rewrite H3 by (auto using not_eq_sym). subst u2 u1. cbn [u_args set_tokens put_argument]. by rewrite lookup_insert_eq.
  - cbn [take map arg_list]. split; [done|]. exists (mk_argument text x). split; [exact H1|]. split; [exact Htext|exact H2].
  - intros b Hb Hsb. rewrite H3; [|intros ->; by apply (Hsb (u_mallocs u))|by apply Hsub].
    subst u2 u1. cbn [u_args set_tokens put_argument set_mallocs].
    rewrite lookup_insert_ne by done. rewrite !lookup_insert_ne; [done| |]; intros E1; by apply (Hsb (u_mallocs u)).
Qed.

Lemma parse_command_run scommand command s max u :
  holds command s -> zlen s < sizeof_scommand -> zlen scommand = sizeof_scommand -> max < sizeof_scommand ->
  exists root u', kernel_parse_command scommand command max u = Done root u' /\
    arg_list (u_args u') root (map (take 511) (take (granted (u_mallocs u) (length (words d s))) (words d s))) /\
    u_calls u' = u_calls u /\ u_keys u' = u_keys u.
Proof.
  intros Hs Hl Hsc Hm. unfold kernel_parse_command. rewrite (proj2 (Z.leb_gt sizeof_scommand max)) by lia.
  pose proof (user_strncpy_run scommand command s sizeof_scommand Hs ltac:(done) ltac:(lia)) as E. cbv zeta in E.
  rewrite Z.min_l in E by lia. unfold zlen at 1 in E. rewrite Nat2Z.id, firstn_all in E.
  rewrite (bind_expect _ _ _ _ E). clear E. set (sc := s ++ 0 :: _).
  assert (Hsc' : holds sc s) by (apply holds_intro; apply Hs).
  match goal with |- context [(u_strtok (Some sc) space ≫= ?k) u] => destruct (bind_strtok (Some sc) u [] sc s k) as (token & t & E & Hp) end;
    [done|exact Hsc'|]. rewrite E. clear E. set (u0 := set_tokens t u) in *.
  assert (Hlen : (length (words d s) < Z.to_nat sizeof_scommand)%nat) by (pose proof (words_length d s); unfold zlen in Hl; lia).
  destruct (words d s) as [|w ws] eqn:Ew; [rewrite Hp; exists 0, u0; done|].
  destruct Hp as (i & pre & r & s' & -> & Hi & Ht & Hw & Hs' & Ews). rewrite bind_malloc_argument.
  change (u_mallocs u0) with (u_mallocs u). set (new := malloc_at (u_mallocs u)). cbn [length granted]. fold new.
  destruct (Z.eqb_spec new 0) as [E0|E0]; [exists new; eexists; split; [reflexivity|]; by cbn|].
  match goal with |- context [(copy_argument new i ≫= ?k) ?v] =>
    destruct (bind_copy_argument new i v (pre ++ r) (Some (zlen pre)) w 0 k) as (text & E & Htext) end;
    [apply lookup_insert_eq|exact Ht|exact Hw|]. rewrite E. clear E.
  match goal with |- context [(u_strtok None space ≫= ?k) ?v] => destruct (bind_strtok None v pre r s' k) as (token & t2 & E & Hp') end;
    [split; [exact (f_equal User.tok_buf Ht)|exact (f_equal User.sp Ht)]|done|]. rewrite E. clear E. rewrite Ews in Hp'. set (u2 := set_tokens t2 _) in *.
  destruct (parse_loop_run (Z.to_nat sizeof_scommand) new token u2 ws (mk_argument text 0) Hp') as (x & u' & E & H1 & H2 & H3 & H4 & H5).
  - simpl in Hlen. lia.
  - apply lookup_insert_eq.
  - done.
  - intros j Hj Hj0. subst new. apply malloc_distinct; [cbn in Hj; lia|done].
  - rewrite (bind_Done _ _ _ _ _ E). exists new, u'. split; [done|]. split; [|by rewrite H4, H5].
    cbn [take map arg_list]. split; [done|]. exists (mk_argument text x). split; [exact H1|]. split; [exact Htext|exact H2].
Qed.

Lemma system_run_spec buf scommand command s u :
  holds command s -> zlen s < 1024 -> zlen buf = 1024 -> zlen scommand = sizeof_scommand ->
  exists root res u', kernel_system_run buf scommand command u = Done res u' /\
    arg_list (u_args u') root (map (take 511) (take (granted (u_mallocs u) (length (words d s))) (words d s))) /\
    u_calls u' = (if root =? 0 then [] else [Usystem root]) ++ u_calls u /\ u_keys u' = u_keys u.
Proof.
  intros Hs Hl Hb Hsc. unfold kernel_system_run.
  pose proof (user_strncpy_run buf command s 1024 Hs ltac:(done) ltac:(lia)) as E. cbv zeta in E.
  rewrite Z.min_l in E by lia. unfold zlen at 1 in E. rewrite Nat2Z.id, firstn_all in E.
  rewrite (bind_expect _ _ _ _ E). clear E.
  destruct (parse_command_run scommand (s ++ 0 :: drop (Z.to_nat (zlen s + 1)) buf) s 1024 u) as (root & u' & E & H1 & H2 & H3);
    [apply holds_intro, Hs|unfold sizeof_scommand; lia|done|done|].
  rewrite (bind_Done _ _ _ _ _ E). destruct (Z.eqb_spec root 0) as [E0|E0].
  - exists root, (-1), u'. split; [done|]. split; [done|]. rewrite (proj2 (Z.eqb_eq root 0) E0). by rewrite H2, H3.
  - exists root. do 2 eexists. split; [reflexivity|]. split; [done|]. rewrite (proj2 (Z.eqb_neq root 0) E0). cbn. by rewrite H2, H3.
Qed.
End commands.

(** ** A round of the shell *)

Section shell.
Context {UK : UserKernel}.
Hypothesis malloc_distinct : forall i j, (i < j)%nat -> malloc_at i <> 0 -> malloc_at j <> malloc_at i.

Lemma bind_print {T} msg s u (k : unit -> M user T) :
  holds msg s -> (print msg ≫= k) u = k tt (called (Uprint s) u).
Proof.
  intros H. unfold print. rewrite bind_assoc, (bind_expect _ _ _ _ (strlen_spec _ _ H)), bind_modify. by rewrite (c_string_holds _ _ H).
Qed.

Lemma shell_round_run fuel polls buf run_buf scommand ks l e n' u :
  delivers polls (u_keys u) ks n' -> edit 1024 [] ks = Some (l, e, []) -> (length ks < fuel)%nat ->
  Forall (fun k => -128 <= k < 128) ks ->
  zlen buf = 1024 -> zlen run_buf = 1024 -> zlen scommand = sizeof_scommand ->
  (zlen l < 1024 -> exists root u', shell_round fuel polls buf run_buf scommand u = Done tt u' /\
     arg_list (u_args u') root (map (take 511) (take (granted (u_mallocs u) (length (words (delim [32]) l))) (words (delim [32]) l))) /\
     u_calls u' = reverse (Uprint [62] :: echo e ++ Uprint [10] :: (if root =? 0 then [] else [Usystem root])) ++ u_calls u) /\
  (zlen l = 1024 -> shell_round fuel polls buf run_buf scommand u = Fault).
Proof.
  intros Hd He Hf Hk Hb Hrb Hsc. unfold shell_round.
  rewrite (bind_print [62; 0] [62]) by (apply (holds_nul [62]); by repeat constructor).
  destruct (readline_run fuel polls buf 1024 ks l e n' (called (Uprint [62]) u) true Hd He Hf Hk ltac:(lia) ltac:(lia)) as [Hok Hbad].
  rewrite Hb in Hok, Hbad. split; intros Hl.
  - destruct (Hok Hl) as (out & E & Hz & Hh). rewrite (bind_Done _ _ _ _ _ E).
    rewrite (bind_print [10; 0] [10]) by (apply (holds_nul [10]); by repeat constructor).
    rewrite (bind_expect _ _ _ _ (user_strlen_spec _ _ Hh)). set (u1 := called (Uprint [10]) _).
    assert (Ec : u_calls u1 = reverse (Uprint [62] :: echo e ++ [Uprint [10]]) ++ u_calls u).
    { subst u1. cbn [called u_calls after]. rewrite reverse_cons, reverse_app. cbn. by rewrite <- !app_assoc. }
    destruct (Z.eqb_spec (zlen l) 0) as [E0|E0].
    + assert (l = []) as -> by (destruct l; [done|rewrite zlen_cons in E0; pose proof (zlen_nonneg l); lia]).
      exists 0, u1. split; [done|]. split; [done|exact Ec].
    + destruct (system_run_spec malloc_distinct run_buf scommand out l u1 Hh ltac:(lia) ltac:(done) ltac:(done)) as (root & res & u' & E' & H1 & H2 & H3).
      exists root, u'. rewrite (bind_Done _ _ _ _ _ E'). split; [done|]. split; [exact H1|]. rewrite H2, Ec.
      destruct (root =? 0); cbn [app]; [done|]. rewrite !reverse_cons, !reverse_app, !reverse_cons. cbn. by rewrite <- !app_assoc.
  - pose proof (Hbad Hl) as E. unfold mbind, M_bind. unfold mbind, M_bind in E. by rewrite E.
Qed.
End shell.

(** ** Formats *)

Section format.
Context {UK : UserKernel}.

(** The pieces of a format with their arguments. *)
Inductive piece := Plain (c : Z) | Int (i : Z) | Str (buf s : list Z) | Other (c : Z).

Definition piece_ok (p : piece) : Prop :=
  match p with
  | Plain c => is_char c /\ c <> 37
  | Int i => -2147483648 < i < 2147483648
  | Str buf s => holds buf s
  | Other c => is_char c /\ c <> 105 /\ c <> 115
  end.

Definition piece_format (p : piece) : list Z :=
  match p with Plain c => [c] | Int _ => [37; 105] | Str _ _ => [37; 115] | Other c => [37; c] end.
Definition piece_args (p : piece) : list va_arg :=
  match p with Int i => [Vint i] | Str buf _ => [Vstr buf] | _ => [] end.

(** The calls a piece makes. *)
Definition piece_calls (p : piece) (cs : list ucall) : Prop :=
  match p with
  | Plain c => cs = [Uputchar c]
  | Int i => exists ds, cs = [Uprint ((if i <? 0 then [45] else []) ++ ds)] /\ decimal (Z.abs i) ds
  | Str _ s => cs = [Uprint s]
  | Other c => cs = [Uputchar 37; Uputchar c]
  end.

Fixpoint pieces_calls (ps : list piece) (cs : list ucall) : Prop :=
  match ps with
  | [] => cs = []
  | p :: ps' => exists c1 c2, cs = c1 ++ c2 /\ piece_calls p c1 /\ pieces_calls ps' c2
  end.

(** Only the calls and the static buffer of [itoa] change. *)
Definition printed u u' (cs : list ucall) : Prop :=
  u_calls u' = reverse cs ++ u_calls u /\ zlen (u_text u') = zlen (u_text u) /\ u_args u' = u_args u /\ u_keys u' = u_keys u.

Lemma printed_trans u1 u2 u3 cs1 cs2 : printed u1 u2 cs1 -> printed u2 u3 cs2 -> printed u1 u3 (cs1 ++ cs2).
Proof.
  intros (A1 & A2 & A3 & A4) (B1 & B2 & B3 & B4). unfold printed. rewrite B1, A1, reverse_app, <- app_assoc.
  split; [done|]. split; [congruence|]. split; congruence.
Qed.

Lemma decimal_chars n ds : decimal n ds -> Forall is_char ds.
Proof.
  unfold decimal. destruct (n =? 0); [intros ->; by repeat constructor|]. intros [H _ _].
  eapply Forall_impl; [exact H|]. unfold is_digit, is_char. lia.
Qed.

Lemma bind_print_itoa {T} i u (k : unit -> M user T) :
  zlen (u_text u) = 12 -> -2147483648 < i < 2147483648 ->
  exists u' cs, (print_itoa i ≫= k) u = k tt u' /\ printed u u' cs /\ piece_calls (Int i) cs.
Proof.
  intros Ht Hi. destruct (itoa_run (u_text u) i Ht Hi) as (text & loc & ds & E & Hz & Hl & Hd & Hdec).
  unfold print_itoa. rewrite bind_assoc, bind_gets, bind_assoc, (bind_expect _ _ _ _ E), bind_assoc, bind_modify. cbn [fst snd].
  rewrite (bind_print _ ((if i <? 0 then [45] else []) ++ ds)).
  - do 2 eexists. split; [reflexivity|]. split; [|exists ds; by split]. unfold printed. cbn. by rewrite Hz, Ht.
  - rewrite Hd, app_assoc. apply holds_nul. apply Forall_app. split; [|by eapply decimal_chars]. destruct (i <? 0); by repeat constructor.
Qed.

Lemma piece_run p rest ap u :
  piece_ok p -> zlen (u_text u) = 12 ->
  exists u' cs, printf_loop (piece_format p ++ rest) (piece_args p ++ ap) u = printf_loop rest ap u' /\
    printed u u' cs /\ piece_calls p cs.
Proof.
  intros Hp Ht. destruct p as [c|i|buf s|c]; cbn [piece_format piece_args app printf_loop].
  - destruct Hp as [Hc Hn]. rewrite char_nonzero by done. rewrite (proj2 (Z.eqb_neq c 37) Hn). cbn [negb].
    unfold putchar, kernel_putchar. rewrite bind_modify. do 2 eexists. split; [reflexivity|].
    split; [|reflexivity]. unfold printed. cbn. unfold is_char in Hc. by rewrite u8_small by lia.
  - change (37 =? 0) with false. change (negb (37 =? 37)) with false. change (105 =? 0) with false. change (105 =? 105) with true. cbv iota.
    by apply bind_print_itoa.
  - change (37 =? 0) with false. change (negb (37 =? 37)) with false. change (115 =? 105) with false. change (115 =? 115) with true. cbv iota.
    rewrite (bind_print _ _ _ _ Hp). do 2 eexists. split; [reflexivity|]. split; [|reflexivity]. done.
  - destruct Hp as (Hc & H1 & H2). change (37 =? 0) with false. change (negb (37 =? 37)) with false. cbv iota.
    rewrite (proj2 (Z.eqb_neq c 105) H1), (proj2 (Z.eqb_neq c 115) H2). unfold putchar, kernel_putchar. rewrite !bind_modify.
    do 2 eexists. split; [reflexivity|]. split; [|reflexivity]. unfold printed. cbn. unfold is_char in Hc. by rewrite (u8_small c) by lia.
Qed.

Lemma pieces_run ps rest u :
  Forall piece_ok ps -> zlen (u_text u) = 12 ->
  exists u' cs, printf_loop (concat (map piece_format ps) ++ rest) (concat (map piece_args ps)) u = printf_loop rest [] u' /\
    printed u u' cs /\ pieces_calls ps cs.
Proof.
  intros Hps. revert u. induction Hps as [|p ps Hp Hps IH]; intros u Ht.
  - exists u, []. done.
  - cbn [map concat]. rewrite <- app_assoc.
    destruct (piece_run p (concat (map piece_format ps) ++ rest) (concat (map piece_args ps)) u Hp Ht) as (u1 & c1 & E1 & P1 & C1).
    destruct (IH u1) as (u2 & c2 & E2 & P2 & C2); [destruct P1 as (_ & -> & _); exact Ht|].
    exists u2, (c1 ++ c2). rewrite E1, E2. split; [done|]. split; [by eapply printed_trans|]. exists c1, c2. done.
Qed.
End format.

(** ** Properties *)

(** The user types "a", space, "b" and return, slowly; every request for memory succeeds. *)
Definition sample_keys : list Z := [0; 97; 0; 32; 98; 0; 13].
Definition sample_user : UserKernel :=
  Build_UserKernel (fun n => nth n sample_keys 0) (fun n => 4096 * (Z.of_nat n + 1)) (fun _ => 0) [].
Definition fresh_user : user := mk_user ∅ (User.mk_tokens [] None) (replicate 12 0) [] 0 0.

Ltac deliver m :=
  eapply (@delivers_cons sample_user _ _ m);
  [split; [simpl; lia|split; [intros i Hi; simpl in Hi; do 8 (destruct i as [|i]; [first [lia|reflexivity]|]); lia|discriminate]]|simpl; lia|].

Lemma sample_delivers : @delivers sample_user 3 0 [97; 32; 98; 13] 7.
Proof. deliver 1%nat. deliver 3%nat. deliver 4%nat. deliver 6%nat. constructor. Qed.

Lemma sample_distinct i j : (i < j)%nat -> @malloc_at sample_user i <> 0 -> @malloc_at sample_user j <> @malloc_at sample_user i.
Proof. simpl. lia. Qed.

(** C18: the wait for a key ends exactly when a key comes.  [kernel_getkeyblock] returns iff
    some later [kernel_getkey] delivers a key, and returns the first one, having asked no
    further; while none comes it keeps asking, however long. *)
Theorem kernel_getkeyblock_live {UK : UserKernel} (u : user) :
  (forall m, next_key (u_keys u) m -> forall fuel, (m - u_keys u < fuel)%nat ->
     kernel_getkeyblock fuel u = Done (key_at m) (set_keys (S m) u)) /\
  ((exists fuel v u', kernel_getkeyblock fuel u = Done v u') <-> exists m, (u_keys u <= m)%nat /\ key_at m <> 0) /\
  ((forall m, (u_keys u <= m)%nat -> key_at m = 0) -> forall fuel, kernel_getkeyblock fuel u = NoFuel).
Proof.
  split; [|split].
  - intros m Hm fuel Hf. by apply getkeyblock_run.
  - split.
    + intros (fuel & v & u' & E). apply getkeyblock_done in E as (m & (Hle & _ & Hk) & _). by exists m.
    + intros (m & Hle & Hk).
      assert (Hfirst : exists m', next_key (u_keys u) m').
      { assert (G : forall k n, (n + k = m)%nat -> exists m', next_key n m').
        { induction k as [|k IH]; intros n Hn.
          - exists n. split; [lia|]. split; [intros i Hi; lia|]. replace n with m by lia. exact Hk.
          - destruct (Z.eq_dec (key_at n) 0) as [E|E]; [|exists n; split; [lia|]; split; [intros i Hi; lia|done]].
            destruct (IH (S n) ltac:(lia)) as (m' & H1 & H2 & H3). exists m'. split; [lia|]. split; [|done].
            intros i Hi. destruct (Nat.eq_dec i n) as [-> |]; [done|apply H2; lia]. }
        apply (G (m - u_keys u)%nat). lia. }
      destruct Hfirst as [m' Hm']. exists (S (m' - u_keys u)). do 2 eexists. apply (getkeyblock_run _ m'); [done|lia].
  - intros Hz fuel. revert u Hz. induction fuel as [|fuel IH]; intros u Hz; [done|]. rewrite getkeyblock_step, Hz by done.
    change (0 =? 0) with true. cbv iota. apply IH. intros m Hm. apply Hz. simpl in Hm. lia.
Qed.

Lemma kernel_getkeyblock_live_witness :
  exists u', @kernel_getkeyblock sample_user 2 fresh_user = Done 97 u'.
Proof.
  destruct (@kernel_getkeyblock_live sample_user fresh_user) as [H _].
  assert (Hk : @next_key sample_user (u_keys fresh_user) 1).
  { split; [simpl; lia|]. split; [intros i Hi; simpl in Hi; assert (i = 0%nat) as -> by lia; reflexivity|discriminate]. }
  eexists. apply (H 1%nat Hk 2%nat). simpl. lia.
Defined.

(** C17: [kernel_terminal_readline] refines a line editor.  When the keys typed make up a
    line — backspace takes back a character, return or the [max]-th character ends the line
    — the call returns with that line, terminated, in a larger buffer, whatever it held and
    however long the pauses, and has echoed the keys if asked to.  A buffer of exactly
    [max] bytes is overrun by the terminator as soon as [max] characters are typed. *)
Theorem kernel_terminal_readline_spec {UK : UserKernel} (fuel polls : nat) (out : list Z) (max : Z) (ks l e : list Z)
    (n' : nat) (u : user) (echoing : bool) :
  delivers polls (u_keys u) ks n' -> edit max [] ks = Some (l, e, []) -> (length ks < fuel)%nat ->
  Forall (fun k => -128 <= k < 128) ks -> 0 < max -> max <= zlen out ->
  (zlen l < zlen out -> exists out', kernel_terminal_readline fuel polls out max echoing u =
       Done out' (after n' (if echoing then echo e else []) u) /\ zlen out' = zlen out /\ holds out' l) /\
  (zlen l = zlen out -> kernel_terminal_readline fuel polls out max echoing u = Fault).
Proof. apply readline_run. Qed.

Lemma kernel_terminal_readline_spec_witness :
  @kernel_terminal_readline sample_user 5 3 [7; 7; 7] 3 true fresh_user = Fault /\
  exists out u', @kernel_terminal_readline sample_user 5 3 [7; 7; 7; 7] 4 true fresh_user = Done out u' /\ holds out [97; 32; 98].
Proof.
  assert (Hk : Forall (fun k => -128 <= k < 128) [97; 32; 98; 13]) by (repeat constructor; lia).
  assert (Hk3 : Forall (fun k => -128 <= k < 128) [97; 32; 98]) by (repeat constructor; lia).
  assert (Hd3 : @delivers sample_user 3 0 [97; 32; 98] 5) by (deliver 1%nat; deliver 3%nat; deliver 4%nat; constructor).
  split.
  - apply (kernel_terminal_readline_spec (UK := sample_user) 5 3 [7; 7; 7] 3 [97; 32; 98] [97; 32; 98] [97; 32; 98] 5 fresh_user true Hd3);
      [reflexivity|simpl; lia|exact Hk3|lia|by vm_compute|reflexivity].
  - destruct (kernel_terminal_readline_spec (UK := sample_user) 5 3 [7; 7; 7; 7] 4 [97; 32; 98; 13] [97; 32; 98] [97; 32; 98] 7 fresh_user true sample_delivers)
      as [H _]; [reflexivity|simpl; lia|exact Hk|lia|by vm_compute|].
    destruct H as (out' & E & _ & Hh); [reflexivity|]. eexists out', _. split; [exact E|exact Hh].
Defined.

(** [kernel_parse_command] makes the list of words.  From a command line it builds a
    linked list of arguments, one per word in order, each cut to 511 characters; when the
    kernel refuses memory the list ends there and the rest of the line is dropped, and
    without any word or any memory the result is NULL. *)
Theorem kernel_parse_command_spec {UK : UserKernel} (scommand command s : list Z) (max : Z) (u : user) :
  (forall i j, (i < j)%nat -> malloc_at i <> 0 -> malloc_at j <> malloc_at i) ->
  holds command s -> zlen s < sizeof_scommand -> zlen scommand = sizeof_scommand ->
  (sizeof_scommand <= max -> kernel_parse_command scommand command max u = Done 0 u) /\
  (max < sizeof_scommand -> exists root u', kernel_parse_command scommand command max u = Done root u' /\
     let ws := words (delim [32]) s in
     arg_list (u_args u') root (map (take 511) (take (granted (u_mallocs u) (length ws)) ws)) /\
     u_calls u' = u_calls u).
Proof.
  intros Hm Hs Hl Hsc. split; intros Hx.
  - unfold kernel_parse_command. by rewrite (proj2 (Z.leb_le _ _) Hx).
  - destruct (parse_command_run Hm scommand command s max u Hs Hl Hsc Hx) as (root & u' & E & H1 & H2 & _). by exists root, u'.
Qed.

Lemma kernel_parse_command_spec_witness :
  exists root u', @kernel_parse_command sample_user (replicate 1025 9) [97; 32; 98; 0] 1024 fresh_user = Done root u' /\
    arg_list (u_args u') root [[97]; [98]].
Proof.
  destruct (kernel_parse_command_spec (UK := sample_user) (replicate 1025 9) [97; 32; 98; 0] [97; 32; 98] 1024 fresh_user sample_distinct) as [_ H].
  - apply (holds_nul [97; 32; 98]). by repeat constructor.
  - reflexivity.
  - reflexivity.
  - destruct H as (root & u' & E & H1 & _); [reflexivity|]. exists root, u'. split; [exact E|exact H1].
Defined.

(** C15: one round of the shell.  It prints the prompt, reads and echoes the line typed,
    starts a new line and passes the list of the line's words to the kernel's system call
    (nothing for an empty line), each word cut to 511 characters and the list cut where the
    kernel refuses memory.  A line of 1024 characters overruns the shell's buffer. *)
Theorem shell_round_spec {UK : UserKernel} (fuel polls : nat) (buf run_buf scommand ks l e : list Z) (n' : nat) (u : user) :
  (forall i j, (i < j)%nat -> malloc_at i <> 0 -> malloc_at j <> malloc_at i) ->
  delivers polls (u_keys u) ks n' -> edit 1024 [] ks = Some (l, e, []) -> (length ks < fuel)%nat ->
  Forall (fun k => -128 <= k < 128) ks ->
  zlen buf = 1024 -> zlen run_buf = 1024 -> zlen scommand = sizeof_scommand ->
  (zlen l < 1024 -> exists root u', shell_round fuel polls buf run_buf scommand u = Done tt u' /\
     arg_list (u_args u') root (map (take 511) (take (granted (u_mallocs u) (length (words (delim [32]) l))) (words (delim [32]) l))) /\
     u_calls u' = reverse (Uprint [62] :: echo e ++ Uprint [10] :: (if root =? 0 then [] else [Usystem root])) ++ u_calls u) /\
  (zlen l = 1024 -> shell_round fuel polls buf run_buf scommand u = Fault).
Proof. intros Hm. by apply shell_round_run. Qed.

Lemma shell_round_spec_witness :
  exists root u', @shell_round sample_user 5 3 (replicate 1024 7) (replicate 1024 8) (replicate 1025 9) fresh_user = Done tt u' /\
    arg_list (u_args u') root [[97]; [98]].
Proof.
  destruct (shell_round_spec (UK := sample_user) 5 3 (replicate 1024 7) (replicate 1024 8) (replicate 1025 9)
    [97; 32; 98; 13] [97; 32; 98] [97; 32; 98] 7 fresh_user sample_distinct sample_delivers) as [H _];
    [reflexivity|simpl; lia|repeat constructor; lia|reflexivity|reflexivity|reflexivity|].
  destruct H as (root & u' & E & H1 & _); [reflexivity|]. exists root, u'. split; [exact E|exact H1].
Defined.

(** C21: [printf] prints its format piece by piece.  Ordinary characters are copied, [%i]
    and [%s] are replaced by the decimal numeral of an [int] and by the string of the next
    argument, any other character after [%] is printed with the percent sign, and 0 is
    returned at the terminator.  A percent sign just before the terminator is not the end:
    the scan goes on behind it, out of the format. *)
Theorem printf_spec (ps : list piece) (rest : list Z) (u : user) :
  Forall piece_ok ps -> zlen (u_text u) = 12 ->
  (exists u' cs, printf (concat (map piece_format ps) ++ 0 :: rest) (concat (map piece_args ps)) u = Done 0 u' /\
     printed u u' cs /\ pieces_calls ps cs) /\
  printf (concat (map piece_format ps) ++ [37; 0]) (concat (map piece_args ps)) u = Fault.
Proof.
  intros Hps Ht. unfold printf. split.
  - destruct (pieces_run ps (0 :: rest) u Hps Ht) as (u' & cs & E & P & C). exists u', cs.
    split; [|by split]. unfold mbind, M_bind. by rewrite E.
  - destruct (pieces_run ps [37; 0] u Hps Ht) as (u' & cs & E & _). unfold mbind, M_bind. by rewrite E.
Qed.

Lemma printf_spec_witness :
  exists u', printf [97; 37; 105; 10; 0] [Vint (-5)] fresh_user = Done 0 u' /\ zlen (u_text u') = 12 /\
    printf [97; 37; 105; 10; 37; 0] [Vint (-5)] fresh_user = Fault.
Proof.
  destruct (printf_spec [Plain 97; Int (-5); Plain 10] [] fresh_user) as [(u' & cs & E & P & _) H].
  - constructor; [split; [by vm_compute|lia]|]. constructor; [simpl; lia|]. constructor; [split; [by vm_compute|lia]|constructor].
  - reflexivity.
  - exists u'. split; [exact E|]. split; [apply P|exact H].
Defined.
